(* ===== verification/_CoqProject ===== *)
-Q . S2P
Prelude.v
CTime.v
WcEvent.v
WcHeap.v
WcQueue.v
WcRefine.v
TimerEvent.v
CBytes.v
MsgBuf.v
MsgBufSpec.v
OpenFlow.v
OfFrame.v
PcapTrack.v
FakeSwitch.v
FakeSwitchSpec.v
FakeSwitchLife.v
Msg.v
MsgSpec.v
CStr.v
MyArgs.v
Cbench.v
CbenchSpec.v
Context.v
ContextSpec.v
Harness.v
ModuleDefault.v
ModuleRun.v
ModuleRunSpec.v
TrafficGen.v
TrafficKernel.v
TrafficSpec.v
Usage.v
UsageSpec.v
Oflops.v
OflopsSpec.v
Utils.v
TestModule.v
EchoModule.v
EchoSpec.v
DebugModule.v
CFloat.v
Nf2Util.v
Nf2Spec.v
PktGen.v
PktGenSpec.v
PktLayout.v
PktRate.v
PktSend.v
Control.v
PktGenOne.v
MeasureModule.v
ActionModule.v
ModFlowModule.v
TimerModule.v
ReactiveModule.v
ProbeSpec.v
TimerSpec.v
ReactiveSpec.v
MeasureSpec.v
ConfigSpec.v
ActionSpec.v
ActionReport.v
ModFlowSpec.v
StatsModule.v
StatsSpec.v
InteractModule.v
InteractSpec.v
