(* ===== verification/Prelude.v ===== *)
(** * Verification of oflops-turbo

    oflops measures OpenFlow switches: it plays the controller of a switch,
    sends traffic through it, captures what comes out and hands everything to a
    test module loaded at run time.  Its companion cbench measures controllers:
    it plays many switches at once.  This library models both programs as
    executable definitions and proves what they do.

    ** How the code is modelled

    A C function is a Gallina function of the same name that returns a [res]:
    its value, or the [fault] that stopped it - a failed assertion, an access out
    of bounds, the use of an indeterminate or freed object, signed overflow,
    exit.  Integers are [Z] with the conversions of C written out ([u8] ... [i64],
    [chk_int]).  Objects that are accessed as bytes are lists of cells, each a
    byte or still indeterminate ([mem], CBytes).  Structures are records; [r <| f
    := v |>] is the assignment of a field.  What the program takes from outside -
    the clock, sockets, libpcap, the NetFPGA driver, the SNMP and configuration
    libraries, libfluid, getopt, dlopen, the code of test modules, the OpenFlow header file - is a
    parameter, a record of answers or a class.  Loops that end with the data are
    structural; loops that wait for the outside take the list of its answers, and
    the remaining ones take fuel, where theorems say how much is enough (a heap
    is never deeper than the number of its elements; a buffer of n bytes holds
    fewer than n+1 messages) or that no amount is.  Running out of fuel is the
    fault [FFuel], different from every other result.

    ** Files

    - Prelude (this file): faults, the monad, field assignment, machine integers,
      arrays with int indices, hints and tactics.
    - CTime, CBytes, CStr: struct timeval and the time functions of utils.c;
      memory; strings, strtol, printf.
    - WcEvent (wc_event.c), WcHeap, WcQueue, WcRefine: the timer queue, a binary
      heap in an array; the heap order; each operation against a sorted multiset;
      runs against an abstract priority queue (C1-C5).
    - TimerEvent (timer_event.c, event_loop): timers of a test, proved against an
      interface that WcQueue discharges; the timer thread as a step relation,
      for events at most 35 minutes ahead and a clock that does not go back (C6, C7).
    - MsgBuf (msgbuf.c), MsgBufSpec: the buffer is a byte queue (C11, C12).
    - OpenFlow, OfFrame: the layout of OpenFlow structures as a class with its
      instance for version 1.0; framing of messages.
    - PcapTrack (pcap_track.c): the ring of tracked messages (C14).
    - FakeSwitch (cbench/fakeswitch.c), FakeSwitchSpec, FakeSwitchLife: a fake switch
      reacts to the controller's messages one by one, whatever the chunks they arrive
      in (C18); its messages and probes (C19, C21); traces of its whole life, which
      its counters and the bytes it sends account for (C22).
    - Msg (msg.c), MsgSpec: message construction (C23), generated packets, the
      checksum against that of RFC 1071 (C29).
    - MyArgs, Cbench, CbenchSpec (cbench/myargs.c, cbench/cbench.c): option tables;
      connecting, the timed tests and the result lines (C40).
    - Context (context.c, channel_info.c), ContextSpec: struct oflops_context and its
      channels, object identifiers (C30).
    - Harness (log.c, oflops_snmp.c, test_module.c, the sending part of
      control.cpp), ModuleDefault (module_default.c): the shared state of a running
      test, the functions modules call and the callbacks they provide.
    - ModuleRun (module_run.c), ModuleRunSpec: loading, setting up and polling for a
      module; dispatch of packets and messages (C38).
    - TrafficGen, TrafficKernel (traffic_generator.c), TrafficSpec: the user-space
      generator, the kernel's and the NetFPGA's, and the extraction of measurement
      headers (C34, C35).
    - Usage (usage.c), UsageSpec: command line and configuration file (C31).
    - Oflops (oflops.c), OflopsSpec: main and its threads as a step relation; the
      life of a test in every interleaving (C37).
    - TestModule, ProbeSpec, ConfigSpec: what the modules under example_modules
      share, how the flow of a captured packet is found, and the parsing of the
      configuration string (C39).
    - MeasureModule, MeasureSpec: the probes that two modules keep in a queue, and the
      statistics they make of them.
    - EchoModule (example_modules/openflow_echo_delay/echo_test.c), EchoSpec: a test
      module on top of the harness, from captured packets to the log (C28).
    - DebugModule (example_modules/oflops_debug/debug.c): a module as an instance of
      the code the harness calls; it meets the hypotheses of C37 and C38.
    - TimerModule (example_modules/openflow_timer/timer.c), TimerSpec: the life of flows,
      from the start of the module to its log (C9).
    - ReactiveModule (example_modules/openflow_reactive/reactive.c), ReactiveSpec: a
      controller that answers packets with flows (C16).
    - ActionModule (example_modules/openflow_action_delay/action_delay.c), ActionSpec,
      ActionReport: building a list of OpenFlow actions from text (C32), the message
      that carries it (C15), the report (C33).
    - ModFlowModule (example_modules/openflow_mod_flow/mod_flow.c), ModFlowSpec:
      installing and redirecting a range of flows (C36), the end of the test (C27).
    - StatsModule (example_modules/openflow_flow_stats/flow_stats.c and
      openflow_aggr_flow_stats/aggr_flow_stats.c, which differ in few places, the
      parameter [variant]), StatsSpec: the flows that are queried (C25), the report
      (C8).
    - InteractModule (example_modules/openflow_interaction_test/interaction_test.c),
      InteractSpec: what becomes of its queries (C13).
    - CFloat: float and double of C as IEEE binary32 and binary64, and their
      conversions; a conversion to unsigned of a number that does not fit is
      undefined, its result a parameter of the theorems.
    - Nf2Util (pkt_gen/common/nf2util.c and util.c), Nf2Spec: access to the registers
      of the NetFPGA through a driver that is a class; the identification of the
      card and the check of its design (C24).
    - PktGen (pkt_gen/pkt_gen_2.c), PktGenSpec, PktLayout, PktRate, PktSend: the packet
      generator of the NetFPGA; loading packets and the invariant of the queues; the
      division of the card's memory (C17); the rate limiter in floats (C20); what
      arrives in the memory (C26); main, statement by statement (C10).
    - PktGenOne (pkt_gen/pkt_gen.c): the older program, for one packet.
    - Utils (the rest of utils.c), Control (control.cpp): interface addresses and
      dumps; the control connection over libfluid.

    ** What the theorems show

    Refinement of an abstract specification: the timer queue (C1), the message
    buffer (C11), the fake switch's reader (C18).  Equivalence with a reference
    definition: the polling loop (C38), the check of a design
    (C24), the Internet checksum (C29).  Types: the actions built from text are well formed (C32).  Invariants and safety over all interleavings: timers (C3, C4, C6),
    probes and responses (C22), the life of tests (C37), the memory of the card
    (C17).  Termination and progress: C7, C12, and exactly when the rate limiter
    returns (C20).  Round trips: flows (C23), packets on the card (C26), object
    identifiers (C30), measurement headers (C35), configuration strings (C39), actions (C15).  Functional behaviour: C2, C9, C13,
    C14, C16, C19, C21, C25, C27, C28, C31, C33, C34, C36, C40.  Bounds, error paths and
    loops that do not end: C5, C8, C10.  Among the theorems that carry no number are
    loops that do not end in the packet tracker and the fake switch, a lookup that
    never finds a tracked message (PcapTrack), packets written past their end
    (TrafficSpec), and messages that are not what their function's name says (MsgSpec).

    ** Not modelled

    - Other modules under example_modules; the harness is proved for any module, the
      parameter [module_code], under hypotheses on what its callbacks leave alone.
      The C++ modules (openflow_add_flow, openflow_packet_in, openflow_packet_out,
      openflow_packet_in_out) build every message with the rofl library, which is
      not part of the repository.  openflow_dummy, snmp_tuple_test and
      snmp_queue_delay use variables that are declared nowhere, so that they have
      no meaning as C.  The modules under old are not built.
    - The generated tables of register addresses in pkt_gen, of which only the
      constants that are used appear here.
    - Progress and debugging output, the allocation wrappers (an allocation that
      fails ends the program), the unit test in wc_event.c.
    - pthread_cancel at a particular instruction, and memory effects weaker than
      interleaving. *)

From stdpp Require Export prelude gmap.
Open Scope Z_scope.

(** ** Faults: how a run of the C code can go wrong *)

Inductive fault :=
| FAssert            (* a failed [assert] *)
| FBounds            (* access outside an object *)
| FUninit            (* use of an indeterminate value *)
| FNull              (* dereference of NULL *)
| FDangling          (* use of a freed object *)
| FOverflow          (* signed overflow *)
| FDivZero           (* division by zero *)
| FAbort             (* [abort()] *)
| FExit (code : Z)   (* [exit(code)] *)
| FFuel.             (* the bound on loop iterations was reached *)

#[export] Instance fault_eq_dec : EqDecision fault.
Proof. solve_decision. Defined.

(** The result of a piece of C code: a value, or the fault that ended it. *)
Inductive res (A : Type) :=
| Ok (a : A)
| Fault (f : fault).
Arguments Ok {_} _.
Arguments Fault {_} _.

#[export] Instance res_ret : MRet res := λ A a, Ok a.
#[export] Instance res_bind : MBind res := λ A B k m,
  match m with Ok a => k a | Fault f => Fault f end.

Definition c_assert (b : bool) : res unit := if b then Ok tt else Fault FAssert.

Lemma bind_Ok {A B} (m : res A) (k : A → res B) b :
  (m ≫= k) = Ok b ↔ ∃ a, m = Ok a ∧ k a = Ok b.
Proof. destruct m; naive_solver. Qed.

Lemma bind_Fault {A B} (m : res A) (k : A → res B) f :
  (m ≫= k) = Fault f ↔ m = Fault f ∨ ∃ a, m = Ok a ∧ k a = Fault f.
Proof. destruct m; naive_solver. Qed.

Lemma res_bind_assoc {A B D} (m : res A) (k : A → res B) (h : B → res D) :
  ((m ≫= k) ≫= h) = (m ≫= λ a, k a ≫= h).
Proof. by destruct m. Qed.

Lemma bind_val {A B} (m : res A) (k : A → res B) a : m = Ok a → (m ≫= k) = k a.
Proof. by intros ->. Qed.

(** Invert a successful run of a sequence of statements. *)
Ltac res_inv :=
  repeat match goal with
  | H : mbind _ _ = Ok _ |- _ => apply bind_Ok in H as (?&?&?)
  | H : (if ?b then _ else _) = Ok _ |- _ => destruct b eqn:?
  | H : Ok _ = Ok _ |- _ => injection H; clear H; intros; subst
  | H : Fault _ = Ok _ |- _ => discriminate H
  | H : mret _ = Ok _ |- _ => unfold mret, res_ret in H
  | H : c_assert ?b = Ok _ |- _ => unfold c_assert in H
  end.

(** Reduce a run whose next statement is known to return. *)
Ltac res_step H := rewrite H; cbn [mbind res_bind].

(** ** Updating a field of a structure *)

(** [r <| f := v |>] is the assignment [r.f = v].  A structure declares how it
    is rebuilt from its fields; the setter of a field abstracts that field. *)
Class Rebuild (R : Type) := rebuild : R → R.
Class Setter {R T : Type} (f : R → T) := assign : T → R → R.

Ltac derive_setter :=
  lazymatch goal with
  | |- @Setter ?R ?T ?f =>
    let inst := constr:(_ : Rebuild R) in
    let body := eval hnf in inst in
    let set := constr:(fun (v : T) (r : R) =>
      ltac:(let e := eval cbv beta in (body r) in
            lazymatch eval pattern (f r) in e with ?g _ => let t := eval cbv beta in (g v) in exact t end)) in
    exact set
  end.
#[export] Hint Extern 1 (Setter _) => derive_setter : typeclass_instances.
#[global] Arguments assign {R T} f {_} _ _ /.

Declare Scope record_scope.
Delimit Scope record_scope with record.
Notation "r <| f := v |>" := (assign f v r) (at level 12, left associativity, f at next level) : record_scope.
Open Scope record_scope.

(** ** Machine integers *)

Definition INT_MAX : Z := 2147483647.
Definition INT_MIN : Z := -2147483648.

Definition u8 (z : Z) : Z := z `mod` 2^8.
Definition u16 (z : Z) : Z := z `mod` 2^16.
Definition u32 (z : Z) : Z := z `mod` 2^32.
Definition u64 (z : Z) : Z := z `mod` 2^64.

(** Two's complement reduction of an integer to a signed [int] / [int64_t]. *)
Definition i32 (z : Z) : Z := (z + 2^31) `mod` 2^32 - 2^31.
Definition i64 (z : Z) : Z := (z + 2^63) `mod` 2^64 - 2^63.

Definition is_int (z : Z) : Prop := INT_MIN ≤ z ≤ INT_MAX.
#[export] Instance is_int_dec z : Decision (is_int z).
Proof. unfold is_int. apply _. Defined.

(** Signed [int] arithmetic: a result outside the range is undefined. *)
Definition chk_int (z : Z) : res Z :=
  if decide (is_int z) then Ok z else Fault FOverflow.

Lemma chk_int_ok z : is_int z → chk_int z = Ok z.
Proof. intros. unfold chk_int. by rewrite decide_True. Qed.

Lemma i32_id z : is_int z → i32 z = z.
Proof. unfold i32, is_int, INT_MIN, INT_MAX. intros. rewrite Z.mod_small; lia. Qed.

Lemma i32_range z : is_int (i32 z).
Proof.
  unfold i32, is_int, INT_MIN, INT_MAX.
  pose proof (Z.mod_pos_bound (z + 2^31) (2^32)). lia.
Qed.

Lemma u32_id z : 0 ≤ z < 2^32 → u32 z = z.
Proof. intros. by apply Z.mod_small. Qed.

Lemma u32_range z : 0 ≤ u32 z < 2^32.
Proof. apply Z.mod_pos_bound. lia. Qed.

Lemma u16_id z : 0 ≤ z < 2^16 → u16 z = z.
Proof. intros. by apply Z.mod_small. Qed.

(** Combining a high and a low part with [|]. *)
Lemma lor_high_low x y k : 0 ≤ k → 0 ≤ y < 2^k → Z.lor (x * 2^k) y = x * 2^k + y.
Proof.
  intros Hk Hy. assert (Z.land (x * 2^k) y = 0) as H0.
  { apply Z.bits_inj'. intros n Hn. rewrite Z.land_spec, Z.bits_0.
    destruct (Z.lt_ge_cases n k); [by rewrite Z.mul_pow2_bits_low by lia|].
    assert (Z.testbit y n = false) as ->; [|by rewrite andb_false_r].
    apply Z.testbit_false; [done|]. rewrite Z.div_small; [done|]. split; [lia|]. eapply Z.lt_le_trans; [apply Hy|]. by apply Z.pow_le_mono_r. }
  by rewrite Z.add_nocarry_lxor, Z.lxor_lor.
Qed.

(** ** Arrays indexed by a C [int] *)

Section zarray.
Context {A : Type}.
Implicit Types l : list A.

(** [zget l i]: the element at index [i], if it is inside the array. *)
Definition zget l (i : Z) : option A :=
  if decide (0 ≤ i) then l !! Z.to_nat i else None.

Definition zset l (i : Z) (x : A) : list A :=
  if decide (0 ≤ i) then <[Z.to_nat i := x]> l else l.

Definition zlen l : Z := Z.of_nat (length l).

Lemma zget_Some_bounds l i x : zget l i = Some x → 0 ≤ i < zlen l.
Proof.
  unfold zget, zlen. case_decide; [|done].
  intros ?%lookup_lt_Some. lia.
Qed.

Lemma zget_in_bounds l i : 0 ≤ i < zlen l → ∃ x, zget l i = Some x.
Proof.
  unfold zget, zlen. intros. rewrite decide_True by lia.
  apply lookup_lt_is_Some_2. lia.
Qed.

Lemma zget_out l i : ¬ (0 ≤ i < zlen l) → zget l i = None.
Proof.
  unfold zget, zlen. intros. case_decide; [|done].
  apply lookup_ge_None_2. lia.
Qed.

Lemma zlen_zset l i x : zlen (zset l i x) = zlen l.
Proof. unfold zset, zlen. case_decide; [|done]. by rewrite length_insert. Qed.

Lemma zget_zset_eq l i x : 0 ≤ i < zlen l → zget (zset l i x) i = Some x.
Proof.
  unfold zget, zset, zlen. intros. rewrite !decide_True by lia.
  apply list_lookup_insert_eq. lia.
Qed.

Lemma zget_zset_ne l i j x : i ≠ j → zget (zset l i x) j = zget l j.
Proof.
  unfold zget, zset. intros. repeat case_decide; try done.
  apply list_lookup_insert_ne. lia.
Qed.

Lemma zset_zset l i x y : zset (zset l i x) i y = zset l i y.
Proof. unfold zset. case_decide; [|done]. apply list_insert_insert_eq. Qed.

Lemma zset_comm l i j x y :
  i ≠ j → zset (zset l i x) j y = zset (zset l j y) i x.
Proof.
  unfold zset. intros. repeat case_decide; try done.
  apply list_insert_insert_ne. lia.
Qed.

Lemma zset_id l i x : zget l i = Some x → zset l i x = l.
Proof. unfold zget, zset. case_decide; [|done]. apply list_insert_id. Qed.

Lemma zget_nonneg l i : 0 ≤ i → zget l i = l !! Z.to_nat i.
Proof. intros. unfold zget. by rewrite decide_True. Qed.

Lemma zset_nonneg l i x : 0 ≤ i → zset l i x = <[Z.to_nat i := x]> l.
Proof. intros. unfold zset. by rewrite decide_True. Qed.
End zarray.

(** Arrays whose cells may still be indeterminate. *)
Definition arr_read {A} (l : list (option A)) (i : Z) : res A :=
  match zget l i with
  | Some (Some x) => Ok x
  | Some None => Fault FUninit
  | None => Fault FBounds
  end.

Definition arr_write {A} (l : list (option A)) (i : Z) (x : A) :
    res (list (option A)) :=
  match zget l i with
  | Some _ => Ok (zset l i (Some x))
  | None => Fault FBounds
  end.

(** [malloc] of [n] cells: contents indeterminate. *)
Definition arr_new {A} (n : Z) : list (option A) := replicate (Z.to_nat n) None.

Lemma arr_read_Ok {A} (l : list (option A)) i x :
  arr_read l i = Ok x ↔ zget l i = Some (Some x).
Proof. unfold arr_read. destruct (zget l i) as [[]|]; naive_solver. Qed.

Lemma arr_write_ok {A} (l : list (option A)) i x :
  0 ≤ i < zlen l → arr_write l i x = Ok (zset l i (Some x)).
Proof. intros [y Hy]%zget_in_bounds. unfold arr_write. by rewrite Hy. Qed.

Lemma zlen_arr_new {A} n : 0 ≤ n → zlen (@arr_new A n) = n.
Proof. intros. unfold zlen, arr_new. rewrite length_replicate. lia. Qed.

(** ** Automation *)

Create HintDb oflops.
Create Rewrite HintDb oflops.
#[export] Hint Resolve zget_zset_eq i32_range : oflops.
#[export] Hint Rewrite @zlen_zset @zset_zset @zlen_arr_new : oflops.

(** Decide an array lookup after an update. *)
Ltac zarr :=
  repeat match goal with
  | |- context [zget (zset _ ?i _) ?i] => rewrite zget_zset_eq by (rewrite ?zlen_zset; lia)
  | |- context [zget (zset _ ?i _) ?j] => rewrite (zget_zset_ne _ i j) by lia
  | H : context [zget (zset _ ?i _) ?i] |- _ => rewrite zget_zset_eq in H by (rewrite ?zlen_zset; lia)
  | H : context [zget (zset _ ?i _) ?j] |- _ => rewrite (zget_zset_ne _ i j) in H by lia
  | |- context [zlen (zset _ _ _)] => rewrite zlen_zset
  | H : context [zlen (zset _ _ _)] |- _ => rewrite zlen_zset in H
  end.

(** ** List lemmas *)

(** Replacing an element is, up to order, exchanging it for another one. *)
Lemma Permutation_insert_cons {A} (l : list A) i x y :
  l !! i = Some x → x :: <[i := y]> l ≡ₚ y :: l.
Proof.
  revert i. induction l as [|z l IH]; intros [|i] Hi; simplify_eq/=.
  - apply Permutation_swap.
  - rewrite Permutation_swap, IH by done. apply Permutation_swap.
Qed.
