(* ===== verification/CTime.v ===== *)
(** * Time values

    [struct timeval] and [struct timespec] with the [timercmp] and [timersub]
    macros of <sys/time.h> the sources use, the time helpers of utils.c
    ([set_timeval], [add_time], [add_timespec], [time_diff], [timespec_diff],
    [time_cmp]) and the two conversions of traffic_generator.c.

    [time_t], [suseconds_t] and [long] are 64 bits wide; 64-bit additions are
    reduced to the width ([i64]), as the code generated for the platform does. *)

From S2P Require Import Prelude.
Open Scope Z_scope.

Record timeval := { tv_sec : Z; tv_usec : Z }.
Record timespec := { ts_sec : Z; ts_nsec : Z }.

#[export] Instance timeval_eq_dec : EqDecision timeval.
Proof. solve_decision. Defined.
#[export] Instance timespec_eq_dec : EqDecision timespec.
Proof. solve_decision. Defined.

(** ** The macros of <sys/time.h> *)

(** [timercmp(a, b, <)] *)
Definition timercmp_lt (a b : timeval) : bool :=
  if tv_sec a =? tv_sec b then tv_usec a <? tv_usec b else tv_sec a <? tv_sec b.

(** [timercmp(a, b, >)] *)
Definition timercmp_gt (a b : timeval) : bool :=
  if tv_sec a =? tv_sec b then tv_usec a >? tv_usec b else tv_sec a >? tv_sec b.

(** [timercmp(a, b, >=)] *)
Definition timercmp_ge (a b : timeval) : bool :=
  if tv_sec a =? tv_sec b then tv_usec a >=? tv_usec b else tv_sec a >=? tv_sec b.

(** [timersub(a, b, result)] *)
Definition timersub (a b : timeval) : timeval :=
  let sec := i64 (tv_sec a - tv_sec b) in
  let usec := i64 (tv_usec a - tv_usec b) in
  if usec <? 0
  then {| tv_sec := i64 (sec - 1); tv_usec := i64 (usec + 1000000) |}
  else {| tv_sec := sec; tv_usec := usec |}.

(** ** utils.c *)

Definition set_timeval (target val : timeval) : timeval :=
  {| tv_sec := tv_sec val; tv_usec := tv_usec val |}.

(** The comparison with the [uint64_t] constant is an unsigned one. *)
Definition add_time (now : timeval) (secs usecs : Z) : timeval :=
  let sec_to_usec := 1000000 in
  let sec := i64 (tv_sec now + secs) in
  let usec := i64 (tv_usec now + usecs) in
  if u64 usec >=? sec_to_usec
  then {| tv_sec := i64 (sec + 1); tv_usec := i64 (u64 (u64 usec - sec_to_usec)) |}
  else {| tv_sec := sec; tv_usec := usec |}.

Definition add_timespec (now : timespec) (secs nsecs : Z) : timespec :=
  let sec_to_nsec := 1000000000 in
  let sec := i64 (ts_sec now + secs) in
  let nsec := i64 (ts_nsec now + nsecs) in
  if u64 nsec >=? sec_to_nsec
  then {| ts_sec := i64 (sec + 1); ts_nsec := i64 (u64 (u64 nsec - sec_to_nsec)) |}
  else {| ts_sec := sec; ts_nsec := nsec |}.

Definition time_diff (now then_ : timeval) : Z :=
  u32 (i64 (i64 ((tv_sec then_ - tv_sec now) * 1000000)
            + (tv_usec then_ - tv_usec now))).

Definition timespec_diff (now then_ : timespec) : Z :=
  i64 (i64 ((ts_sec then_ - ts_sec now) * 1000000000)
       + (ts_nsec then_ - ts_nsec now)).

Definition time_cmp (now then_ : timeval) : Z :=
  if negb (tv_sec then_ =? tv_sec now)
  then if tv_sec then_ <? tv_sec now then -1 else 1
  else if negb (tv_usec then_ =? tv_usec now)
  then if tv_usec then_ <? tv_usec now then -1 else 1
  else 0.

(** ** traffic_generator.c *)

Definition ts_to_tv (ts : timespec) : timeval :=
  {| tv_sec := ts_sec ts; tv_usec := ts_nsec ts `quot` 1000 |}.

Definition tv_to_ts (tv : timeval) : timespec :=
  {| ts_sec := tv_sec tv; ts_nsec := i64 (tv_usec tv * 1000) |}.

(** ** The order on [struct timeval] *)

(** [tle a b]: [a] is not after [b]. *)
Definition tle (a b : timeval) : Prop := timercmp_lt b a = false.
#[export] Instance tle_dec a b : Decision (tle a b).
Proof. unfold tle. apply _. Defined.

Ltac tcmp :=
  unfold tle, timercmp_lt, timercmp_gt, timercmp_ge in *;
  repeat match goal with
  | H : context [if ?b then _ else _] |- _ => destruct b eqn:?
  | |- context [if ?b then _ else _] => destruct b eqn:?
  end; lia.

Lemma tle_refl a : tle a a.
Proof. tcmp. Qed.
Lemma tle_trans a b c : tle a b → tle b c → tle a c.
Proof. tcmp. Qed.
Lemma tle_antisym a b : tle a b → tle b a → a = b.
Proof. destruct a, b. unfold tle, timercmp_lt. cbn. intros. f_equal; tcmp. Qed.
Lemma tle_total a b : tle a b ∨ tle b a.
Proof. unfold tle. destruct (timercmp_lt b a) eqn:?; [right|by left]. tcmp. Qed.
Lemma timercmp_lt_tle a b : timercmp_lt a b = true → tle a b.
Proof. tcmp. Qed.
Lemma timercmp_gt_lt a b : timercmp_gt a b = timercmp_lt b a.
Proof.
  unfold timercmp_gt, timercmp_lt. rewrite (Z.eqb_sym (tv_sec b)).
  rewrite !Z.gtb_ltb. done.
Qed.
Lemma timercmp_ge_tle a b : timercmp_ge a b = true ↔ tle b a.
Proof. unfold tle. split; intros; destruct (timercmp_lt a b) eqn:?, (timercmp_ge a b) eqn:?; try done; tcmp. Qed.

#[export] Instance tle_preorder : PreOrder tle.
Proof. split; [exact tle_refl | exact tle_trans]. Qed.
#[export] Instance tle_Total : Total tle := tle_total.

#[export] Hint Resolve tle_refl timercmp_lt_tle : oflops.

(** ** The time a value denotes *)

Definition tv_us (t : timeval) : Z := tv_sec t * 1000000 + tv_usec t.
Definition ts_ns (t : timespec) : Z := ts_sec t * 1000000000 + ts_nsec t.

(** A normalised time value in the range of real clocks (year 292277 limit of
    a 64-bit microsecond count divided by a safe margin). *)
Definition tv_ok (t : timeval) : Prop :=
  0 ≤ tv_sec t < 2^40 ∧ 0 ≤ tv_usec t < 1000000.
Definition ts_ok (t : timespec) : Prop :=
  0 ≤ ts_sec t < 2^32 ∧ 0 ≤ ts_nsec t < 2^62.
#[export] Instance tv_ok_dec t : Decision (tv_ok t).
Proof. unfold tv_ok. apply _. Defined.

Lemma i64_id z : -2^63 ≤ z < 2^63 → i64 z = z.
Proof. unfold i64. intros. rewrite Z.mod_small; lia. Qed.
Lemma u64_id z : 0 ≤ z < 2^64 → u64 z = z.
Proof. intros. by apply Z.mod_small. Qed.

(** Remove the 64-bit reductions of in-range values. *)
Ltac wrap64 :=
  repeat match goal with
  | |- context [i64 ?z] => rewrite (i64_id z) by lia
  | |- context [u64 ?z] => rewrite (u64_id z) by lia
  end.

Lemma timercmp_us a b :
  tv_ok a → tv_ok b → timercmp_lt a b = true ↔ tv_us a < tv_us b.
Proof. unfold tv_ok, tv_us. intros. split; intros; tcmp. Qed.

Lemma tle_us a b : tv_ok a → tv_ok b → tle a b ↔ tv_us a ≤ tv_us b.
Proof.
  intros Ha Hb. pose proof (timercmp_us b a Hb Ha). unfold tle.
  destruct (timercmp_lt b a); intuition (try lia; try done).
Qed.

Lemma timersub_us a b :
  tv_ok a → tv_ok b →
  tv_us (timersub a b) = tv_us a - tv_us b ∧
  0 ≤ tv_usec (timersub a b) < 1000000.
Proof.
  unfold tv_ok, tv_us, timersub. intros Ha Hb.
  wrap64. case_match; cbn; wrap64; lia.
Qed.

(** The sum of a time and a non-negative offset denotes the sum, carried or
    not, as long as the fields stay in range. *)
Lemma add_time_us t secs usecs :
  tv_ok t → 0 ≤ secs < 2^40 → 0 ≤ usecs < 2^40 →
  tv_us (add_time t secs usecs) = tv_us t + secs * 1000000 + usecs.
Proof.
  unfold tv_ok, tv_us, add_time. intros.
  wrap64. case_match; cbn; wrap64; lia.
Qed.

Lemma add_timespec_ns t secs nsecs :
  ts_ok t → 0 ≤ secs < 2^32 → 0 ≤ nsecs < 2^32 →
  ts_ns (add_timespec t secs nsecs) = ts_ns t + secs * 1000000000 + nsecs.
Proof.
  unfold ts_ok, ts_ns, add_timespec. intros.
  wrap64. case_match; cbn; wrap64; lia.
Qed.

Lemma timespec_diff_ns a b :
  ts_ok a → ts_ok b → timespec_diff a b = ts_ns b - ts_ns a.
Proof. unfold ts_ok, timespec_diff, ts_ns. intros. wrap64. lia. Qed.

Lemma ts_to_tv_us t :
  0 ≤ ts_nsec t → tv_us (ts_to_tv t) = ts_sec t * 1000000 + ts_nsec t `div` 1000.
Proof. intros. unfold tv_us, ts_to_tv. cbn. rewrite Z.quot_div_nonneg; lia. Qed.

Lemma ts_to_tv_to_ts t : tv_ok t → ts_to_tv (tv_to_ts t) = t.
Proof.
  unfold tv_ok, ts_to_tv, tv_to_ts. intros. destruct t as [s u]; cbn in *.
  wrap64. f_equal. by rewrite Z.quot_mul.
Qed.

Lemma time_diff_u32 a b :
  tv_ok a → tv_ok b → time_diff a b = u32 (tv_us b - tv_us a).
Proof. unfold tv_ok, time_diff, tv_us. intros. wrap64. f_equal. lia. Qed.

(** Read back as an [int32_t] (start_user_traffic_generator), the difference is
    exact up to 2^31 microseconds either way. *)
Lemma time_diff_i32 a b :
  tv_ok a → tv_ok b → -2^31 ≤ tv_us b - tv_us a < 2^31 →
  i32 (time_diff a b) = tv_us b - tv_us a.
Proof.
  intros Ha Hb H. rewrite time_diff_u32 by done. unfold i32, u32.
  rewrite Zplus_mod_idemp_l, Z.mod_small; lia.
Qed.

Lemma time_cmp_spec a b :
  (time_cmp a b = -1 ↔ timercmp_lt b a = true) ∧
  (time_cmp a b = 1 ↔ timercmp_lt a b = true) ∧
  (time_cmp a b = 0 ↔ a = b).
Proof.
  destruct a as [s u], b as [s' u']. unfold time_cmp, timercmp_lt. cbn.
  destruct (Z.eqb_spec s' s), (Z.eqb_spec s s'), (Z.eqb_spec u' u); cbn;
    repeat case_match; repeat split; intros; simplify_eq; try lia; try congruence.
Qed.
