(* ===== verification/WcEvent.v ===== *)
(** * The timer queue (wc_event.c)

    The queue of pending timer events is a binary heap in a growable C array
    whose slot 0 is unused; each slot points to a heap-allocated [wc_event].
    This file models the data structure and every operation of wc_event.c on
    it; [WcHeap] develops the theory of the array and [WcQueue] the
    specifications of the operations.

    - An array slot that was never written is indeterminate ([None]); reading
      it, or an index outside the allocation, is a fault.
    - [wc_event] objects live in a store indexed by address, so that a use of
      a freed object, a double free and a leak are visible.
    - The callback stored with an event is code of the caller: the operations
      that run it take it as the parameter [call].
    - The diagnostics written to stderr are not modelled; the readings of
      gettimeofday are arguments. *)

From S2P Require Import Prelude CTime.
Open Scope Z_scope.

(** ** Data *)

Record wc_event := {
  eventtime : timeval;
  ev_fun : Z;    (* address of the callback *)
  ev_arg : Z;    (* its argument *)
}.

Record qelm := { id : Z; key : timeval; data : Z }.

Record wc_queue := {
  array : list (option qelm);
  qlength : Z;         (* the field [length] *)
  size : Z;
  timersEnabled : Z;
}.

(** The static counter of the file and the heap of [wc_event] objects. *)
Record wc_globals := {
  WC_EVENT_ID : Z;
  objs : gmap Z wc_event;
  brk : Z;             (* every address handed out so far is at most [brk] *)
}.

#[export] Instance qelm_eq_dec : EqDecision qelm.
Proof. solve_decision. Defined.
#[export] Instance wc_event_eq_dec : EqDecision wc_event.
Proof. solve_decision. Defined.

Definition set_array (pq : wc_queue) (a : list (option qelm)) : wc_queue :=
  {| array := a; qlength := qlength pq; size := size pq;
     timersEnabled := timersEnabled pq |}.
Definition set_size (pq : wc_queue) (n : Z) : wc_queue :=
  {| array := array pq; qlength := qlength pq; size := n;
     timersEnabled := timersEnabled pq |}.
Definition set_timersEnabled (pq : wc_queue) (b : Z) : wc_queue :=
  {| array := array pq; qlength := qlength pq; size := size pq;
     timersEnabled := b |}.

(** [PARENT], [LEFT] and [RIGHT] *)
Definition PARENT (x : Z) : Z := x `quot` 2.
Definition LEFT (x : Z) : Z := Z.shiftl x 1.
Definition RIGHT (x : Z) : Z := Z.shiftl x 1 + 1.

(** [malloc_and_check(sizeof(wc_event))] and [free] *)
Definition malloc_event (g : wc_globals) (e : wc_event) : Z * wc_globals :=
  let p := brk g + 1 in
  (p, {| WC_EVENT_ID := WC_EVENT_ID g; objs := <[p := e]> (objs g); brk := p |}).

Definition load_event (g : wc_globals) (p : Z) : res wc_event :=
  match objs g !! p with Some e => Ok e | None => Fault FDangling end.

Definition free_event (g : wc_globals) (p : Z) : res wc_globals :=
  match objs g !! p with
  | Some _ => Ok {| WC_EVENT_ID := WC_EVENT_ID g; objs := delete p (objs g); brk := brk g |}
  | None => Fault FDangling
  end.

(** ** Creation and destruction *)

(** A negative size becomes a huge [size_t], which the allocator refuses. *)
Definition wc_queue_init (initSize : Z) : res wc_queue :=
  if initSize <? 0 then Fault FAbort
  else Ok {| array := arr_new initSize; qlength := initSize; size := 0;
             timersEnabled := 0 |}.

(** The array is released; the events still queued are not. *)
Definition wc_queue_free (pq : wc_queue) (g : wc_globals) : wc_globals := g.

Definition wc_queue_isempty (pq : wc_queue) : bool := size pq <? 1.

(** ** Heap maintenance *)

(** The first half of heapify: the index, among [i] and its children, of the
    smallest key (the variable keeps the name of the textbook's max-heap). *)
Definition heapify_largest (pq : wc_queue) (i : Z) : res Z :=
  l ← chk_int (LEFT i);
  r ← chk_int (RIGHT i);
  largest ← (if l <=? size pq then
               ql ← arr_read (array pq) l;
               qi ← arr_read (array pq) i;
               mret (if timercmp_lt (key ql) (key qi) then l else i)
             else mret i);
  if r <=? size pq then
    qr ← arr_read (array pq) r;
    qg ← arr_read (array pq) largest;
    mret (if timercmp_lt (key qr) (key qg) then r else largest)
  else mret largest.

(** heapify: swap with the smallest child and continue there. *)
Fixpoint heapify_loop (fuel : nat) (pq : wc_queue) (i : Z) : res wc_queue :=
  match fuel with
  | O => Fault FFuel
  | S fuel =>
    largest ← heapify_largest pq i;
    if negb (largest =? i) then
      tmp ← arr_read (array pq) i;
      qg ← arr_read (array pq) largest;
      a1 ← arr_write (array pq) i qg;
      a2 ← arr_write a1 largest tmp;
      heapify_loop fuel (set_array pq a2) largest
    else mret pq
  end.

(** The index at least doubles at each call, so [size] calls are enough. *)
Definition heapify (pq : wc_queue) (i : Z) : res wc_queue :=
  heapify_loop (S (Z.to_nat (size pq))) pq i.
#[global] Arguments heapify : simpl never.

Definition wc_queue_double (pq : wc_queue) : res wc_queue :=
  if qlength pq <=? zlen (array pq) then
    len2 ← chk_int (qlength pq * 2);
    mret {| array := take (Z.to_nat (qlength pq)) (array pq) ++ arr_new (qlength pq);
            qlength := len2; size := size pq;
            timersEnabled := timersEnabled pq |}
  else Fault FBounds.

(** ** Insertion *)

(** The loop of wc_event_add: copy parents down until the place of [k] is
    found; returns the array and that place. *)
Fixpoint sift_up (fuel : nat) (a : list (option qelm)) (i : Z) (k : timeval) :
    res (list (option qelm) * Z) :=
  match fuel with
  | O => Fault FFuel
  | S fuel =>
    if i >? 1 then
      qp ← arr_read a (PARENT i);
      if timercmp_gt (key qp) k then
        a' ← arr_write a i qp;
        sift_up fuel a' (PARENT i) k
      else mret (a, i)
    else mret (a, i)
  end.

Definition wc_event_add (g : wc_globals) (pq : wc_queue) (f arg : Z) (k : timeval) :
    res (Z * wc_globals * wc_queue) :=
  _ ← c_assert (timersEnabled pq =? 0);
  size1 ← chk_int (size pq + 1);
  pq ← (if size1 >=? qlength pq then wc_queue_double pq else mret pq);
  let pq := set_size pq size1 in
  let i := size pq in
  let '(d, g) := malloc_event g {| eventtime := k; ev_fun := f; ev_arg := arg |} in
  '(a, i) ← sift_up (S (Z.to_nat i)) (array pq) i k;
  let the_id := WC_EVENT_ID g in
  id1 ← chk_int (WC_EVENT_ID g + 1);
  a ← arr_write a i {| id := the_id; key := k; data := d |};
  mret (the_id,
        {| WC_EVENT_ID := id1; objs := objs g; brk := brk g |},
        set_array pq a).

(** ** Extraction of the earliest event *)

(** The values written through the out-parameters. *)
Record extracted := { x_id : Z; x_key : timeval; x_fun : Z; x_arg : Z }.

(** [None] is the return value -1 (empty queue), [Some] the return value 0. *)
Definition wc_queue_extract (g : wc_globals) (pq : wc_queue) :
    res (option extracted * wc_globals * wc_queue) :=
  _ ← c_assert (timersEnabled pq =? 0);
  if size pq <? 1 then mret (None, g, pq)
  else
    q1 ← arr_read (array pq) 1;
    qn ← arr_read (array pq) (size pq);
    a ← arr_write (array pq) 1 qn;
    pq ← heapify (set_size (set_array pq a) (size pq - 1)) 1;
    e ← load_event g (data q1);
    g ← free_event g (data q1);
    mret (Some {| x_id := id q1; x_key := key q1;
                  x_fun := ev_fun e; x_arg := ev_arg e |}, g, pq).

(** ** Removal by identifier *)

(** The linear search; [fuel] bounds the remaining indices. *)
Fixpoint find_id (fuel : nat) (pq : wc_queue) (i : Z) (the_id : Z) : res Z :=
  match fuel with
  | O => mret i
  | S fuel =>
    if i <=? size pq then
      q ← arr_read (array pq) i;
      if id q =? the_id then mret i else find_id fuel pq (i + 1) the_id
    else mret i
  end.

(** The do/while loop of wc_event_remove: heapify the slot and all its
    ancestors. *)
Fixpoint fixup_loop (fuel : nat) (pq : wc_queue) (i : Z) : res wc_queue :=
  match fuel with
  | O => Fault FFuel
  | S fuel =>
    pq ← heapify pq i;
    let i := PARENT i in
    if i >? 0 then fixup_loop fuel pq i else mret pq
  end.

(** [None] is the return value -1, [Some (fun, arg)] the return value 0. *)
Definition wc_event_remove (g : wc_globals) (pq : wc_queue) (the_id : Z) :
    res (option (Z * Z) * wc_globals * wc_queue) :=
  _ ← c_assert (timersEnabled pq =? 0);
  i ← find_id (Z.to_nat (size pq)) pq 1 the_id;
  if i >? size pq then mret (None, g, pq)
  else
    qi ← arr_read (array pq) i;
    e ← load_event g (data qi);
    g ← free_event g (data qi);
    qn ← arr_read (array pq) (size pq);
    a ← arr_write (array pq) i qn;
    pq ← fixup_loop (S (Z.to_nat i)) (set_size (set_array pq a) (size pq - 1)) i;
    mret (Some (ev_fun e, ev_arg e), g, pq).

(** The sanity check compiled in with HEAP_DEBUG. *)
Fixpoint verify_heap_loop (fuel : nat) (pq : wc_queue) (i : Z) : res unit :=
  match fuel with
  | O => mret tt
  | S fuel =>
    _ ← (if LEFT i <=? size pq then
           ql ← arr_read (array pq) (LEFT i);
           qi ← arr_read (array pq) i;
           c_assert (timercmp_ge (key ql) (key qi))
         else mret tt);
    _ ← (if RIGHT i <=? size pq then
           qr ← arr_read (array pq) (RIGHT i);
           qi ← arr_read (array pq) i;
           c_assert (timercmp_ge (key qr) (key qi))
         else mret tt);
    verify_heap_loop fuel pq (i + 1)
  end.

Definition verify_heap (pq : wc_queue) : res unit :=
  verify_heap_loop (Z.to_nat (size pq)) pq 1.

(** ** Time to the next event *)

(** The return value, and [*delta] when it is written. *)
Definition wc_get_next_event_delta (pq : wc_queue) (now : timeval) :
    res (Z * option timeval) :=
  _ ← c_assert (timersEnabled pq =? 0);
  if wc_queue_isempty pq then mret (-1, None)
  else
    q1 ← arr_read (array pq) 1;
    if timercmp_gt now (key q1) then mret (1, None)
    else mret (0, Some (timersub (key q1) now)).

(** ** Running events; the SIGALRM interface *)

Inductive handler := SIG_DFL | SIG_IGN | WC_EVENT_HANDLER.

(** The process's SIGALRM disposition and interval timer. *)
Record alarm := { disposition : handler; it_value : timeval }.

Section callbacks.
(** The callback: what [fun(arg)] does to the counter, the objects and the
    queue it may itself use. *)
Variable call : Z → Z → wc_globals * wc_queue → res (wc_globals * wc_queue).
(** The return value of setitimer for a given value. *)
Variable setitimer : timeval → Z.

(** The lateness computed from gettimeofday only feeds a diagnostic. *)
Definition wc_run_next_event (g : wc_globals) (pq : wc_queue) :
    res (Z * wc_globals * wc_queue) :=
  if wc_queue_isempty pq then mret (-1, g, pq)
  else
    '(x, g, pq) ← wc_queue_extract g pq;
    match x with
    | None => Fault FUninit     (* the outputs of the failed call are used *)
    | Some x =>
      '(g, pq) ← call (x_fun x) (x_arg x) (g, pq);
      mret (x_id x, g, pq)
    end.

(** The loop of wc_schedule_next_event; [nows] are the readings of
    gettimeofday, one per iteration.  Returns the delay until the first
    event, or [None] when the queue became empty. *)
Fixpoint schedule_loop (nows : list timeval) (g : wc_globals) (pq : wc_queue) :
    res (option timeval * wc_globals * wc_queue) :=
  if wc_queue_isempty pq then mret (None, g, pq)
  else
    match nows with
    | [] => Fault FFuel
    | now :: nows =>
      q1 ← arr_read (array pq) 1;
      if timercmp_gt now (key q1) then
        '(_, g, pq) ← wc_run_next_event g pq;
        schedule_loop nows g pq
      else mret (Some (timersub (key q1) now), g, pq)
    end.

Definition wc_schedule_next_event (nows : list timeval) (al : alarm)
    (g : wc_globals) (pq : wc_queue) : res (alarm * wc_globals * wc_queue) :=
  _ ← c_assert (negb (timersEnabled pq =? 0));
  _ ← c_assert (0 <? size pq);
  '(diff, g, pq) ← schedule_loop nows g pq;
  match diff with
  | None => mret (al, g, pq)
  | Some diff =>
    _ ← c_assert (setitimer diff =? 0);
    mret ({| disposition := WC_EVENT_HANDLER; it_value := diff |}, g, pq)
  end.

(** The SIGALRM handler. *)
Definition wc_event_handler (nows : list timeval) (al : alarm)
    (g : wc_globals) (pq : wc_queue) : res (alarm * wc_globals * wc_queue) :=
  _ ← c_assert (negb (timersEnabled pq =? 0));
  '(_, g, pq) ← wc_run_next_event g (set_timersEnabled pq 0);
  let pq := set_timersEnabled pq 1 in
  if negb (wc_queue_isempty pq) then wc_schedule_next_event nows al g pq
  else mret (al, g, pq).

Definition wc_enable_timers (nows : list timeval) (al : alarm)
    (g : wc_globals) (pq : wc_queue) : res (alarm * wc_globals * wc_queue) :=
  let pq := set_timersEnabled pq 1 in
  if negb (wc_queue_isempty pq) then wc_schedule_next_event nows al g pq
  else mret (al, g, pq).

Definition wc_disable_timers (pq : wc_queue) : res (alarm * wc_queue) :=
  let stop := {| tv_sec := 0; tv_usec := 0 |} in
  _ ← c_assert (setitimer stop =? 0);
  mret ({| disposition := SIG_IGN; it_value := stop |}, set_timersEnabled pq 0).
End callbacks.
