(* ===== verification/WcHeap.v ===== *)
(** * Theory of the heap array

    The order and permutation arguments behind wc_event.c: an array with slots
    1..n in heap order, the same with a violation below one slot
    ([heap_down], the situation heapify repairs) and above one slot
    ([heap_up], the situation of an insertion and of a removal). *)

From S2P Require Import Prelude CTime WcEvent.
Open Scope Z_scope.

(** Let [lia] reason about halving an index. *)
Ltac Zify.zify_post_hook ::= Z.to_euclidean_division_equations.

Implicit Types a : list (option qelm).
Implicit Types q : qelm.

(** ** Index arithmetic *)

Lemma PARENT_div i : 0 ≤ i → PARENT i = i `div` 2.
Proof. intros. unfold PARENT. apply Z.quot_div_nonneg; lia. Qed.
Lemma LEFT_mul i : LEFT i = 2 * i.
Proof. unfold LEFT. rewrite Z.shiftl_mul_pow2; lia. Qed.
Lemma RIGHT_mul i : RIGHT i = 2 * i + 1.
Proof. unfold RIGHT. rewrite Z.shiftl_mul_pow2; lia. Qed.

(** [c] is a child of [i]. *)
Lemma child_cases c i : 1 ≤ i → c `div` 2 = i ↔ c = 2 * i ∨ c = 2 * i + 1.
Proof. intros. lia. Qed.

(** ** Slots *)

Definition inited a (n : Z) : Prop := ∀ i, 1 ≤ i ≤ n → ∃ q, zget a i = Some (Some q).

(** The contents of slots 1..n. *)
Definition slots a (n : Z) : list (option qelm) := take (Z.to_nat n) (tail a).

(** The elements in them. *)
Definition elems a (n : Z) : list qelm := omap (λ o, o) (slots a n).

(** The key in slot [i] is not after the key in slot [j]. *)
Definition kle a (i j : Z) : Prop :=
  ∀ qi qj, zget a i = Some (Some qi) → zget a j = Some (Some qj) → tle (key qi) (key qj).

(** Heap order of slots 1..n. *)
Definition heap a (n : Z) : Prop := ∀ j, 2 ≤ j ≤ n → kle a (j `div` 2) j.

(** Heap order around slot [i]: its parent precedes its children. *)
Definition bridged a (n i : Z) : Prop :=
  ∀ c, 2 ≤ i → c `div` 2 = i → c ≤ n → kle a (i `div` 2) c.

(** Heap order except that slot [i] may follow its children. *)
Definition heap_down a (n i : Z) : Prop :=
  (∀ j, 2 ≤ j ≤ n → j `div` 2 ≠ i → kle a (j `div` 2) j) ∧ bridged a n i.

(** Heap order except that slot [i] may precede its parent. *)
Definition heap_up a (n i : Z) : Prop :=
  (∀ j, 2 ≤ j ≤ n → j ≠ i → kle a (j `div` 2) j) ∧ bridged a n i.

Definition swap a (i j : Z) (qi qj : qelm) : list (option qelm) :=
  zset (zset a i (Some qj)) j (Some qi).

Lemma kle_trans a i j k q :
  zget a j = Some (Some q) → kle a i j → kle a j k → kle a i k.
Proof. intros Hq H1 H2 qi qk Hi Hk. etrans; [by apply H1|by apply H2]. Qed.

(** A slot that precedes another slot's predecessor precedes it too. *)
Lemma kle_trans' a i j k qi qj :
  zget a i = Some (Some qi) → zget a j = Some (Some qj) →
  tle (key qi) (key qj) → kle a j k → kle a i k.
Proof. intros Hi Hj H1 H2 q1 q2 ? ?. simplify_eq. etrans; [done|by apply H2]. Qed.

Lemma kle_at a i j qi qj :
  zget a i = Some (Some qi) → zget a j = Some (Some qj) →
  kle a i j ↔ tle (key qi) (key qj).
Proof. intros Hi Hj. split; [by intros ?; apply H|]. intros ? ?? ??. by simplify_eq. Qed.

Lemma kle_ext a a' i j :
  zget a i = zget a' i → zget a j = zget a' j → kle a i j → kle a' i j.
Proof. unfold kle. intros -> -> ?. done. Qed.

Lemma inited_zset a n i q : inited a n → inited (zset a i (Some q)) n.
Proof.
  intros H j Hj. destruct (H j Hj) as [qj Hqj].
  pose proof (zget_Some_bounds _ _ _ Hqj).
  destruct (decide (i = j)) as [->|]; zarr; eauto.
Qed.

Lemma inited_swap a n i j qi qj : inited a n → inited (swap a i j qi qj) n.
Proof. intros. by do 2 apply inited_zset. Qed.

Lemma inited_mono a m n : m ≤ n → inited a n → inited a m.
Proof. intros ? H i ?. apply H. lia. Qed.

Lemma inited_zlen a n : 1 ≤ n → inited a n → n < zlen a.
Proof. intros ? H. destruct (H n) as [q Hq]; [lia|]. apply zget_Some_bounds in Hq. lia. Qed.

Lemma slots_lookup a n i : 1 ≤ i ≤ n → slots a n !! Z.to_nat (i - 1) = zget a i.
Proof.
  intros. unfold slots. rewrite lookup_take_lt by lia.
  rewrite lookup_tail, zget_nonneg by lia. f_equal. lia.
Qed.

Lemma tail_insert (y : option qelm) a k x :
  tail (<[S k := x]> (y :: a)) = <[k := x]> a.
Proof. done. Qed.

Lemma slots_zset a n i x :
  1 ≤ i ≤ n → slots (zset a i x) n = <[Z.to_nat (i - 1) := x]> (slots a n).
Proof.
  intros. unfold slots. rewrite zset_nonneg by lia.
  destruct a as [|y a]; [by destruct (Z.to_nat i); cbn; rewrite take_nil|].
  replace (Z.to_nat i) with (S (Z.to_nat (i - 1))) by lia.
  rewrite tail_insert. by apply take_insert_lt; lia.
Qed.

Lemma slots_zset_out a n i x : n < i → slots (zset a i x) n = slots a n.
Proof.
  intros. unfold slots. destruct (decide (0 < n)).
  - rewrite zset_nonneg by lia. destruct a as [|y a]; [done|].
    replace (Z.to_nat i) with (S (Z.to_nat (i - 1))) by lia.
    rewrite tail_insert. by apply take_insert_ge; lia.
  - by replace (Z.to_nat n) with 0%nat by lia.
Qed.

Lemma slots_swap a n i j qi qj :
  1 ≤ i ≤ n → 1 ≤ j ≤ n →
  zget a i = Some (Some qi) → zget a j = Some (Some qj) →
  slots (swap a i j qi qj) n ≡ₚ slots a n.
Proof.
  intros. unfold swap. rewrite !slots_zset by lia.
  by apply Permutation_insert_swap; rewrite slots_lookup by lia.
Qed.

Lemma slots_snoc a n q :
  0 ≤ n → zget a (n + 1) = Some (Some q) → slots a (n + 1) = slots a n ++ [Some q].
Proof.
  intros Hn Hq. unfold slots. replace (Z.to_nat (n + 1)) with (S (Z.to_nat n)) by lia.
  rewrite (take_S_r _ _ (Some q)); [done|].
  rewrite lookup_tail. rewrite zget_nonneg in Hq by lia. rewrite <-Hq. f_equal. lia.
Qed.

(** Overwriting slot [i] by the last slot and dropping the latter removes the
    element of slot [i]. *)
Lemma elems_delete a n i qi qn :
  1 ≤ i ≤ n → zget a i = Some (Some qi) → zget a n = Some (Some qn) →
  elems a n ≡ₚ qi :: elems (zset a i (Some qn)) (n - 1).
Proof.
  intros Hi Hqi Hqn. unfold elems.
  assert (slots a n ≡ₚ Some qi :: slots (zset a i (Some qn)) (n - 1)) as ->; [|done].
  pose proof (slots_snoc a (n - 1) qn) as Hs.
  replace (n - 1 + 1) with n in Hs by lia. rewrite Hs by (done || lia).
  destruct (decide (i = n)) as [->|].
  - rewrite slots_zset_out by lia. simplify_eq.
    by rewrite Permutation_app_comm.
  - rewrite slots_zset by lia.
    assert (slots a (n - 1) !! Z.to_nat (i - 1) = Some (Some qi)) as Hl
      by (rewrite slots_lookup; [done|lia]).
    rewrite Permutation_app_comm. cbn. symmetry.
    apply Permutation_insert_cons. done.
Qed.

Lemma elem_of_elems a n q :
  q ∈ elems a n ↔ ∃ i, 1 ≤ i ≤ n ∧ zget a i = Some (Some q).
Proof.
  unfold elems. rewrite list_elem_of_omap. split.
  - intros (o & Ho & ->). apply list_elem_of_lookup in Ho as [k Hk].
    assert (k < Z.to_nat n)%nat.
    { apply lookup_take_Some in Hk. lia. }
    exists (Z.of_nat k + 1). split; [lia|]. rewrite <-(slots_lookup a n) by lia.
    rewrite <-Hk. f_equal. lia.
  - intros (i & ? & Hi). exists (Some q). split; [|done].
    apply list_elem_of_lookup. exists (Z.to_nat (i - 1)). by rewrite slots_lookup.
Qed.

(** ** The root of a heap is a minimum *)

Lemma heap_root a n : inited a n → heap a n → ∀ i, 1 ≤ i ≤ n → kle a 1 i.
Proof.
  intros Hin Hh i. induction (Z.lt_wf 0 i) as [i _ IH]. intros Hi.
  destruct (decide (i = 1)) as [->|].
  { intros ????. by simplify_eq. }
  destruct (Hin (i `div` 2)) as [q Hq]; [lia|].
  apply (kle_trans a 1 (i `div` 2) i q Hq).
  - apply IH; lia.
  - apply Hh; lia.
Qed.

(** ** Exchanging a slot with a child or with its parent *)

Section exchange.
Context (a : list (option qelm)) (n : Z) (Hin : inited a n).

Lemma zget_swap i j qi qj k :
  zget a i = Some (Some qi) → zget a j = Some (Some qj) → i ≠ j →
  zget (swap a i j qi qj) k =
    if decide (k = j) then Some (Some qi)
    else if decide (k = i) then Some (Some qj) else zget a k.
Proof.
  intros Hi%zget_Some_bounds Hj%zget_Some_bounds Hij. unfold swap.
  repeat case_decide; subst; zarr; done.
Qed.

Lemma heap_up_of_heap i : 1 ≤ i ≤ n → heap a n → heap_up a n i.
Proof.
  intros Hi Hh. split; [by intros; apply Hh|].
  intros c ? <- ?. destruct (Hin (c `div` 2)) as [q Hq]; [lia|].
  apply (kle_trans a _ (c `div` 2) c q Hq); apply Hh; lia.
Qed.

Lemma heap_of_heap_up i :
  heap_up a n i → (i ≤ 1 ∨ kle a (i `div` 2) i) → heap a n.
Proof.
  intros [Hu _] Hi j Hj. destruct (decide (j = i)) as [->|]; [|by apply Hu].
  destruct Hi; [lia|done].
Qed.

Lemma heap_of_heap_down i :
  heap_down a n i → (∀ c, c `div` 2 = i → 2 ≤ c ≤ n → kle a i c) → heap a n.
Proof.
  intros [Hd _] Hi j Hj. destruct (decide (j `div` 2 = i)) as [<-|];
    [by apply Hi|by apply Hd].
Qed.

Lemma heap_down_swap i g qi qg :
  1 ≤ i → g `div` 2 = i → g ≤ n →
  zget a i = Some (Some qi) → zget a g = Some (Some qg) →
  tle (key qg) (key qi) →
  (∀ c, c `div` 2 = i → c ≤ n → kle a g c) →
  heap_down a n i → heap_down (swap a i g qi qg) n g.
Proof.
  intros ? Hgi ? Hqi Hqg Hle Hmin [Hd Hb]. split.
  - intros j Hj Hjg qp qj. rewrite !zget_swap by (done || lia).
    repeat case_decide; intros ??; simplify_eq; try lia; try done.
    all: first [apply (Hmin j); by (done || lia) | apply (Hd j); by (done || lia)
               | apply (Hb g); by (done || lia)].
  - intros c ? Hc ? qp qc. rewrite !zget_swap by (done || lia).
    repeat case_decide; intros ??; simplify_eq; try lia.
    apply (Hd c); done || lia.
Qed.

Lemma heap_up_swap i qi qp :
  2 ≤ i ≤ n →
  zget a i = Some (Some qi) → zget a (i `div` 2) = Some (Some qp) →
  tle (key qi) (key qp) →
  heap_up a n i → heap_up (swap a i (i `div` 2) qi qp) n (i `div` 2).
Proof.
  intros ? Hqi Hqp Hle [Hu Hb]. split.
  - intros j Hj Hjp q1 q2. rewrite !zget_swap by (done || lia).
    repeat case_decide; intros ??; simplify_eq; try lia; try done.
    all: first [apply (Hb j); by (done || lia) | apply (Hu j); by (done || lia)
               | etrans; [done|]; apply (Hu j); by (congruence || lia)].
  - intros c ? Hc ? q1 q2. rewrite !zget_swap by (done || lia).
    repeat case_decide; intros ??; simplify_eq; try lia.
    + apply (Hu (i `div` 2)); done || lia.
    + etrans; [apply (Hu (i `div` 2)); [lia|lia|done|done]|].
      apply (Hu c); congruence || lia.
Qed.
End exchange.

(** ** heapify *)

Section heapify.
Implicit Types pq : wc_queue.

Lemma heapify_largest_spec pq i :
  inited (array pq) (size pq) → 1 ≤ i < 2^30 →
  ∃ g, heapify_largest pq i = Ok g ∧
    ((g = i ∧ ∀ c, c `div` 2 = i → c ≤ size pq → kle (array pq) i c) ∨
     (g `div` 2 = i ∧ g ≤ size pq ∧
      (∀ c, c `div` 2 = i → c ≤ size pq → kle (array pq) g c) ∧
      ∃ qi qg, zget (array pq) i = Some (Some qi) ∧
               zget (array pq) g = Some (Some qg) ∧
               timercmp_lt (key qg) (key qi) = true)).
Proof.
  intros Hin Hi. unfold heapify_largest.
  rewrite LEFT_mul, RIGHT_mul.
  rewrite !chk_int_ok by (unfold is_int, INT_MIN, INT_MAX; lia). cbn [mbind res_bind].
  destruct (2 * i <=? size pq) eqn:Hl; cbn [mbind res_bind mret res_ret].
  2: { assert ((2 * i + 1 <=? size pq) = false) as -> by lia.
       eexists; split; [done|]. left. split; [done|]. intros; lia. }
  destruct (Hin (2 * i)) as [ql Hql]; [lia|].
  destruct (Hin i) as [qi Hqi]; [lia|].
  rewrite (proj2 (arr_read_Ok _ _ _) Hql), (proj2 (arr_read_Ok _ _ _) Hqi).
  cbn [mbind res_bind mret res_ret].
  set (g := if timercmp_lt (key ql) (key qi) then 2 * i else i).
  assert (∃ qg, zget (array pq) g = Some (Some qg) ∧ tle (key qg) (key ql) ∧
            tle (key qg) (key qi) ∧
            (g = i ∨ g = 2 * i ∧ timercmp_lt (key qg) (key qi) = true))
    as (qg & Hqg & Hgl & Hgi & Hg).
  { unfold g. destruct (timercmp_lt (key ql) (key qi)) eqn:E.
    - exists ql. split_and!; eauto with oflops.
    - exists qi. split_and!; eauto with oflops. }
  clearbody g. destruct (2 * i + 1 <=? size pq) eqn:Hr; cbn [mbind res_bind mret res_ret].
  2: { exists g. split; [done|]. destruct Hg as [->|[-> Hlt]].
       - left. split; [done|]. intros c Hc ? q1 q2 ??.
         assert (c = 2 * i) as -> by lia. by simplify_eq.
       - right. split_and!; [lia|lia| |eauto].
         intros c Hc ? q1 q2 ??. assert (c = 2 * i) as -> by lia. by simplify_eq. }
  destruct (Hin (2 * i + 1)) as [qr Hqr]; [lia|].
  rewrite (proj2 (arr_read_Ok _ _ _) Hqr), (proj2 (arr_read_Ok _ _ _) Hqg).
  cbn [mbind res_bind mret res_ret].
  destruct (timercmp_lt (key qr) (key qg)) eqn:Hrg.
  - exists (2 * i + 1). split; [done|]. right. split_and!; [lia|lia| |].
    + intros c Hc ? q1 q2 ??. destruct (proj1 (child_cases c i ltac:(lia)) Hc); subst c;
        simplify_eq; [|done]. etrans; [by apply timercmp_lt_tle|done].
    + exists qi, qr. split_and!; [done|done|]. tcmp.
  - exists g. split; [done|].
    assert (∀ c, c `div` 2 = i → c ≤ size pq → kle (array pq) g c) as Hall.
    { intros c Hc ? q1 q2 ??.
      destruct (proj1 (child_cases c i ltac:(lia)) Hc); subst c; by simplify_eq. }
    destruct Hg as [->|[-> Hlt]]; [by left|]. right. split_and!; [lia|lia|done|eauto].
Qed.

(** On a slot that precedes its children heapify changes nothing. *)
Lemma heapify_loop_id fuel pq i :
  inited (array pq) (size pq) → 1 ≤ i < 2^30 →
  (∀ c, c `div` 2 = i → c ≤ size pq → kle (array pq) i c) →
  heapify_loop (S fuel) pq i = Ok pq.
Proof.
  intros Hin Hi Hk. destruct (heapify_largest_spec pq i Hin Hi) as (g & Hg & H).
  cbn. res_step Hg. destruct H as [[-> _]|(Hgi & ? & _ & qi & qg & Hqi & Hqg & Hlt)].
  - by rewrite Z.eqb_refl.
  - pose proof (Hk g Hgi ltac:(done) _ _ Hqi Hqg). tcmp.
Qed.

(** What heapify keeps: everything but the order of the elements. *)
Definition reordered pq pq' : Prop :=
  inited (array pq') (size pq) ∧ zlen (array pq') = zlen (array pq) ∧
  elems (array pq') (size pq) ≡ₚ elems (array pq) (size pq) ∧
  size pq' = size pq ∧ qlength pq' = qlength pq ∧
  timersEnabled pq' = timersEnabled pq.

#[export] Instance reordered_trans : Transitive reordered.
Proof.
  intros pq1 pq2 pq3 (?&?&?&Hs&?&?) (?&?&?&?&?&?). unfold reordered.
  rewrite Hs in *. split_and!; first [done | congruence | by etrans].
Qed.

Lemma reordered_refl pq : inited (array pq) (size pq) → reordered pq pq.
Proof. done. Qed.

Lemma reordered_swap pq i j qi qj :
  inited (array pq) (size pq) → 1 ≤ i ≤ size pq → 1 ≤ j ≤ size pq →
  zget (array pq) i = Some (Some qi) → zget (array pq) j = Some (Some qj) →
  reordered pq (set_array pq (swap (array pq) i j qi qj)).
Proof.
  intros. split_and!; try done; cbn.
  - by apply inited_swap.
  - unfold swap. by rewrite !zlen_zset.
  - unfold elems. by rewrite slots_swap.
Qed.

(** heapify repairs a violation below slot [i]. *)
Lemma heapify_loop_spec fuel pq i :
  inited (array pq) (size pq) → size pq < 2^30 → 1 ≤ i < 2^30 →
  (Z.to_nat (size pq - i) < fuel)%nat →
  heap_down (array pq) (size pq) i →
  ∃ pq', heapify_loop fuel pq i = Ok pq' ∧
    heap (array pq') (size pq) ∧ reordered pq pq'.
Proof.
  revert pq i. induction fuel as [|fuel IH]; intros pq i Hin Hn Hi Hf Hd; [lia|].
  destruct (heapify_largest_spec pq i Hin Hi) as (g & Hg & H).
  cbn. res_step Hg. destruct H as [[-> Hk]|(Hgi & Hgn & Hk & qi & qg & Hqi & Hqg & Hlt)].
  { rewrite Z.eqb_refl. cbn. exists pq. split; [done|]. split; [|done].
    apply (heap_of_heap_down _ _ i Hd). intros. apply Hk; [done|lia]. }
  assert ((g =? i) = false) as -> by lia. cbn [negb].
  res_step (proj2 (arr_read_Ok _ _ _) Hqi). res_step (proj2 (arr_read_Ok _ _ _) Hqg).
  pose proof (zget_Some_bounds _ _ _ Hqi). pose proof (zget_Some_bounds _ _ _ Hqg).
  rewrite arr_write_ok by done. cbn [mbind res_bind].
  rewrite arr_write_ok by (by rewrite zlen_zset). cbn [mbind res_bind].
  fold (swap (array pq) i g qi qg).
  destruct (IH (set_array pq (swap (array pq) i g qi qg)) g) as (pq' & -> & Hh & Hr).
  - by apply inited_swap.
  - done.
  - lia.
  - cbn. lia.
  - cbn. apply heap_down_swap; eauto with oflops; lia.
  - exists pq'. split; [done|]. split; [done|].
    etrans; [apply (reordered_swap pq i g qi qg)|]; done || lia.
Qed.

Lemma heapify_spec pq i :
  inited (array pq) (size pq) → size pq < 2^30 → 1 ≤ i < 2^30 →
  heap_down (array pq) (size pq) i →
  ∃ pq', heapify pq i = Ok pq' ∧
    heap (array pq') (size pq) ∧ reordered pq pq'.
Proof. intros. apply heapify_loop_spec; try done. lia. Qed.

Lemma heapify_id pq i :
  inited (array pq) (size pq) → 1 ≤ i < 2^30 →
  (∀ c, c `div` 2 = i → c ≤ size pq → kle (array pq) i c) →
  heapify pq i = Ok pq.
Proof. apply heapify_loop_id. Qed.
End heapify.
