(* ===== verification/WcQueue.v ===== *)
(** * Specifications of the timer queue operations

    The invariant [wf] of a queue, its abstraction to the collection of pending
    events, and the behaviour of wc_event_add, wc_queue_extract,
    wc_event_remove, wc_get_next_event_delta and verify_heap on every
    well-formed queue.  The interface [TimerQueue] states what the timer layer
    may rely on; the binary heap implements it. *)

From S2P Require Import Prelude CTime WcEvent WcHeap.
Open Scope Z_scope.
Ltac Zify.zify_post_hook ::= Z.to_euclidean_division_equations.

Implicit Types pq : wc_queue.
Implicit Types g : wc_globals.
Implicit Types q : qelm.

(** ** The elements of a queue and the events they stand for *)

Definition qelems pq : list qelm := elems (array pq) (size pq).

Definition evt g q : option extracted :=
  e ← objs g !! data q;
  Some {| x_id := id q; x_key := key q; x_fun := ev_fun e; x_arg := ev_arg e |}.

Definition events g pq : list extracted := omap (evt g) (qelems pq).

(** ** The invariant *)

(** The array: allocated to its length, slots 1..size written, in heap order. *)
Record wf_array pq : Prop := {
  wf_len : zlen (array pq) = qlength pq;
  wf_cap : 1 ≤ qlength pq ≤ 2^30;
  wf_size : 0 ≤ size pq < qlength pq;
  wf_init : inited (array pq) (size pq);
  wf_heap : heap (array pq) (size pq);
}.

(** Every queued element owns a live event object and a fresh identifier. *)
Record wf_objects g pq : Prop := {
  wf_ids : NoDup (id <$> qelems pq);
  wf_ids_lt : ∀ q, q ∈ qelems pq → id q < WC_EVENT_ID g;
  wf_data : NoDup (data <$> qelems pq);
  wf_live : ∀ q, q ∈ qelems pq →
    ∃ e, objs g !! data q = Some e ∧ eventtime e = key q;
  wf_brk : ∀ p e, objs g !! p = Some e → p ≤ brk g;
}.

Record wf g pq : Prop := {
  wf_arr :> wf_array pq;
  wf_obj :> wf_objects g pq;
  wf_off : timersEnabled pq = 0;
}.

(** An insertion neither exhausts the identifiers nor the index range. *)
Definition has_room g pq : Prop :=
  0 ≤ WC_EVENT_ID g < INT_MAX ∧ (size pq + 1 < qlength pq ∨ 2 * qlength pq ≤ 2^30).

Lemma omap_evt_ext g g' (l : list qelm) :
  (∀ q, q ∈ l → objs g !! data q = objs g' !! data q) → omap (evt g) l = omap (evt g') l.
Proof.
  intros H. apply list_omap_ext, Forall_Forall2_diag, Forall_forall.
  intros q Hq. unfold evt. by rewrite (H q Hq).
Qed.

Lemma omap_evt_length g (l : list qelm) :
  (∀ q, q ∈ l → is_Some (objs g !! data q)) → length (omap (evt g) l) = length l.
Proof.
  induction l as [|q l IH]; intros H; [done|]. cbn. unfold evt at 1.
  destruct (H q) as [e ->]; [set_solver|]. cbn. f_equal. apply IH. set_solver.
Qed.

Lemma elem_of_events g pq x :
  x ∈ events g pq ↔ ∃ q e, q ∈ qelems pq ∧ objs g !! data q = Some e ∧
    x = {| x_id := id q; x_key := key q; x_fun := ev_fun e; x_arg := ev_arg e |}.
Proof.
  unfold events. rewrite list_elem_of_omap. unfold evt. split.
  - intros (q & Hq & H). destruct (objs g !! data q) eqn:?; naive_solver.
  - intros (q & e & Hq & He & ->). exists q. by rewrite He.
Qed.

Lemma slots_length (a : list (option qelm)) n : inited a n → 0 ≤ n → zlen (slots a n) = n.
Proof.
  intros Hin Hn. destruct (decide (n = 0)) as [->|]; [done|].
  pose proof (inited_zlen a n ltac:(lia) Hin). unfold zlen, slots in *.
  rewrite length_take. destruct a; cbn in *; lia.
Qed.

Lemma omap_all_some {A} (l : list (option A)) :
  (∀ o, o ∈ l → is_Some o) → length (omap (λ o, o) l) = length l.
Proof.
  induction l as [|o l IH]; intros H; [done|]. cbn.
  destruct (H o) as [x ->]; [set_solver|]. cbn. f_equal. apply IH. set_solver.
Qed.

Lemma elems_length (a : list (option qelm)) n : inited a n → 0 ≤ n → zlen (elems a n) = n.
Proof.
  intros Hin Hn. unfold elems, zlen. rewrite omap_all_some; [by apply slots_length|].
  intros o [k Hk]%list_elem_of_lookup.
  assert (k < Z.to_nat n)%nat by (apply lookup_take_Some in Hk; lia).
  destruct (Hin (Z.of_nat k + 1)) as [q Hq]; [lia|].
  rewrite <-(slots_lookup a n) in Hq by lia.
  replace (Z.to_nat (Z.of_nat k + 1 - 1)) with k in Hq by lia. rewrite Hk in Hq.
  naive_solver.
Qed.

(** ** Growing the array *)

Lemma slots_app (a b : list (option qelm)) n : n < zlen a → slots (a ++ b) n = slots a n.
Proof.
  intros H. unfold slots, zlen in *. destruct a as [|x a]; cbn in *.
  - by replace (Z.to_nat n) with 0%nat by lia.
  - apply take_app_le. lia.
Qed.

Lemma zget_app_l (a b : list (option qelm)) i : i < zlen a → zget (a ++ b) i = zget a i.
Proof.
  intros H. unfold zget. case_decide; [|done]. apply lookup_app_l. unfold zlen in H. lia.
Qed.

Lemma wc_queue_double_spec pq :
  wf_array pq → 2 * qlength pq ≤ 2^30 →
  ∃ pq', wc_queue_double pq = Ok pq' ∧ wf_array pq' ∧
    qlength pq' = 2 * qlength pq ∧ size pq' = size pq ∧
    qelems pq' = qelems pq ∧ timersEnabled pq' = timersEnabled pq.
Proof.
  intros [Hlen Hcap Hsz Hin Hh] H2. unfold wc_queue_double.
  rewrite Hlen, Z.leb_refl.
  rewrite chk_int_ok by (unfold is_int, INT_MIN, INT_MAX; lia). cbn.
  rewrite take_ge by (unfold zlen in *; lia).
  eexists; split; [done|]. split_and!; cbn; try done; try lia.
  - split; cbn; try lia.
    + unfold zlen in *. rewrite length_app. unfold arr_new. rewrite length_replicate. lia.
    + intros i Hi. rewrite zget_app_l by lia. by apply Hin.
    + intros j Hj. unfold kle. rewrite !zget_app_l by lia. by apply Hh.
  - unfold qelems, elems. cbn. by rewrite slots_app by lia.
Qed.

(** ** Insertion *)

Lemma sift_up_spec fuel (a : list (option qelm)) n i q :
  1 ≤ i ≤ n → n < zlen a → (Z.to_nat i < fuel)%nat →
  inited (zset a i (Some q)) n → heap_up (zset a i (Some q)) n i →
  ∃ a' i', sift_up fuel a i (key q) = Ok (a', i') ∧ 1 ≤ i' ≤ n ∧
    zlen a' = zlen a ∧ inited (zset a' i' (Some q)) n ∧
    heap (zset a' i' (Some q)) n ∧
    elems (zset a' i' (Some q)) n ≡ₚ elems (zset a i (Some q)) n.
Proof.
  revert a i. induction fuel as [|fuel IH]; intros a i Hi Hn Hf Hin Hu; [lia|]. cbn.
  destruct (i >? 1) eqn:Hi1; cbn.
  2: { exists a, i. split_and!; try done; try lia.
       apply (heap_of_heap_up _ _ i Hu). lia. }
  rewrite PARENT_div by lia.
  destruct (Hin (i `div` 2)) as [qp Hqp]; [lia|].
  assert (zget a (i `div` 2) = Some (Some qp)) as Hqp' by (by zarr).
  res_step (proj2 (arr_read_Ok _ _ _) Hqp'). rewrite timercmp_gt_lt.
  destruct (timercmp_lt (key q) (key qp)) eqn:Hlt.
  2: { exists a, i. split_and!; try done; try lia.
       apply (heap_of_heap_up _ _ i Hu). right.
       rewrite kle_at; [exact Hlt|done|by zarr]. }
  rewrite arr_write_ok by lia. cbn [mbind res_bind].
  assert (zset (zset a i (Some qp)) (i `div` 2) (Some q) =
          swap (zset a i (Some q)) i (i `div` 2) q qp) as Hsw
    by (unfold swap; by rewrite zset_zset).
  destruct (IH (zset a i (Some qp)) (i `div` 2)) as (a' & i' & -> & ? & ? & ? & ? & Hp).
  - lia.
  - by zarr.
  - lia.
  - rewrite Hsw. by apply inited_swap.
  - rewrite Hsw. apply heap_up_swap; auto with oflops; try lia. by zarr.
  - exists a', i'. rewrite zlen_zset in *. split_and!; try done; try lia.
    rewrite Hp, Hsw. unfold elems. rewrite slots_swap; first [done | lia | by zarr].
Qed.

(** Writing slot n+1 behind a heap of n slots leaves a violation at most
    between it and its parent. *)
Lemma heap_up_snoc (a : list (option qelm)) n q :
  0 ≤ n → heap a n → heap_up (zset a (n + 1) (Some q)) (n + 1) (n + 1).
Proof.
  intros ? Hh. split; [|intros c ???; lia].
  intros j Hj ?. unfold kle. zarr. apply Hh. lia.
Qed.

Lemma inited_snoc (a : list (option qelm)) n q :
  0 ≤ n → n + 1 < zlen a → inited a n → inited (zset a (n + 1) (Some q)) (n + 1).
Proof.
  intros ?? Hin i Hi. destruct (decide (i = n + 1)) as [->|]; zarr; [eauto|].
  apply Hin. lia.
Qed.

Lemma elems_snoc (a : list (option qelm)) n q :
  0 ≤ n → n + 1 < zlen a →
  elems (zset a (n + 1) (Some q)) (n + 1) ≡ₚ q :: elems a n.
Proof.
  intros. unfold elems. rewrite (slots_snoc _ n q) by (lia || by zarr).
  rewrite slots_zset_out, omap_app by lia. cbn. by rewrite Permutation_app_comm.
Qed.

(** How the objects evolve with the elements. *)

Lemma wf_objects_add g pq pq' q e :
  wf_objects g pq → qelems pq' ≡ₚ q :: qelems pq →
  id q = WC_EVENT_ID g → data q = brk g + 1 → eventtime e = key q →
  let g' := {| WC_EVENT_ID := WC_EVENT_ID g + 1;
               objs := <[brk g + 1 := e]> (objs g); brk := brk g + 1 |} in
  wf_objects g' pq' ∧
  events g' pq' ≡ₚ {| x_id := id q; x_key := key q; x_fun := ev_fun e; x_arg := ev_arg e |}
                   :: events g pq.
Proof.
  intros [Hids Hlt Hdata Hlive Hbrk] Hp Hid Hd He g'.
  assert (∀ q', q' ∈ qelems pq → data q' ≠ brk g + 1) as Hfresh.
  { intros q' Hq' Heq. destruct (Hlive q' Hq') as (e' & He' & _).
    apply Hbrk in He'. lia. }
  assert (∀ q', q' ∈ qelems pq → objs g' !! data q' = objs g !! data q') as Hold.
  { intros q' Hq'. cbn. apply lookup_insert_ne. intros H. by apply (Hfresh q'). }
  split.
  - split.
    + rewrite Hp. cbn. apply NoDup_cons. split; [|done].
      intros (q' & Heq & Hq')%list_elem_of_fmap. specialize (Hlt q' Hq'). lia.
    + intros q'. rewrite Hp, elem_of_cons. cbn. intros [->|Hq']; [lia|].
      specialize (Hlt q' Hq'). lia.
    + rewrite Hp. cbn. apply NoDup_cons. split; [|done].
      intros (q' & Heq & Hq')%list_elem_of_fmap. apply (Hfresh q'); congruence.
    + intros q'. rewrite Hp, elem_of_cons. intros [->|Hq'].
      * exists e. split; [|done]. cbn. rewrite Hd. apply lookup_insert_eq.
      * rewrite Hold by done. by apply Hlive.
    + intros p e'. cbn. rewrite lookup_insert. case_decide; [lia|].
      intros ?%Hbrk. lia.
  - unfold events. rewrite Hp. cbn. unfold evt at 1. cbn.
    rewrite Hd, lookup_insert_eq. cbn. by rewrite (omap_evt_ext g' g).
Qed.

Definition drop_object g (p : Z) : wc_globals :=
  {| WC_EVENT_ID := WC_EVENT_ID g; objs := delete p (objs g); brk := brk g |}.

Lemma wf_objects_del g pq pq' q e :
  wf_objects g pq → qelems pq ≡ₚ q :: qelems pq' → objs g !! data q = Some e →
  let g' := drop_object g (data q) in
  wf_objects g' pq' ∧
  events g pq ≡ₚ {| x_id := id q; x_key := key q; x_fun := ev_fun e; x_arg := ev_arg e |}
                 :: events g' pq'.
Proof.
  intros [Hids Hlt Hdata Hlive Hbrk] Hp He g'.
  assert (∀ q', q' ∈ qelems pq' → q' ∈ qelems pq) as Hsub
    by (intros q' ?; rewrite Hp; by right).
  rewrite Hp in Hids, Hdata. cbn in Hids, Hdata.
  apply NoDup_cons in Hids as [Hid Hids]. apply NoDup_cons in Hdata as [Hd Hdata].
  assert (∀ q', q' ∈ qelems pq' → objs g' !! data q' = objs g !! data q') as Hold.
  { intros q' Hq'. apply lookup_delete_ne. intros Heq. apply Hd. rewrite Heq.
    by apply list_elem_of_fmap_2. }
  split.
  - split; try done.
    + intros q' Hq'. by apply Hlt, Hsub.
    + intros q' Hq'. rewrite Hold by done. by apply Hlive, Hsub.
    + intros p e'. cbn. rewrite lookup_delete. case_decide; [done|]. by apply Hbrk.
  - unfold events. rewrite Hp. cbn. unfold evt at 1. rewrite He. cbn.
    by rewrite (omap_evt_ext g' g).
Qed.

(** wc_event_add: the event joins the queue under the next identifier. *)
Lemma wc_event_add_spec g pq f arg k :
  wf g pq → has_room g pq →
  ∃ g' pq', wc_event_add g pq f arg k = Ok (WC_EVENT_ID g, g', pq') ∧ wf g' pq' ∧
    WC_EVENT_ID g' = WC_EVENT_ID g + 1 ∧ size pq' = size pq + 1 ∧
    qlength pq' = (if size pq + 1 >=? qlength pq then 2 * qlength pq else qlength pq) ∧
    (data <$> qelems pq') ≡ₚ brk g + 1 :: (data <$> qelems pq) ∧
    objs g' = <[brk g + 1 := {| eventtime := k; ev_fun := f; ev_arg := arg |}]> (objs g) ∧
    events g' pq' ≡ₚ {| x_id := WC_EVENT_ID g; x_key := k; x_fun := f; x_arg := arg |}
                     :: events g pq.
Proof.
  intros [Ha Ho Hoff] [Hid Hroom]. unfold wc_event_add. rewrite Hoff. cbn [c_assert Z.eqb].
  pose proof (wf_cap _ Ha). pose proof (wf_size _ Ha).
  cbn [mbind res_bind].
  rewrite chk_int_ok by (unfold is_int, INT_MIN, INT_MAX in *; lia). cbn [mbind res_bind].
  assert (∃ pq1, (if size pq + 1 >=? qlength pq then wc_queue_double pq else mret pq) = Ok pq1
            ∧ wf_array pq1 ∧ size pq1 = size pq ∧ size pq + 1 < qlength pq1 ∧
            qelems pq1 = qelems pq ∧ timersEnabled pq1 = 0 ∧
            qlength pq1 = (if size pq + 1 >=? qlength pq then 2 * qlength pq else qlength pq))
    as (pq1 & -> & Ha1 & Hs1 & Hl1 & He1 & Ht1 & Hql1).
  { destruct (size pq + 1 >=? qlength pq) eqn:E.
    - destruct (wc_queue_double_spec pq Ha) as (pq1 & ? & ? & ? & ? & ? & ?); [lia|].
      exists pq1. split_and!; try done; try lia.
    - exists pq. split_and!; done || lia. }
  cbn -[sift_up]. destruct Ha1 as [Hlen1 Hcap1 Hsz1 Hin1 Hh1]. rewrite Hs1 in *.
  set (q := {| id := WC_EVENT_ID g; key := k; data := brk g + 1 |}).
  destruct (sift_up_spec (S (Z.to_nat (size pq + 1))) (array pq1) (size pq + 1) (size pq + 1) q)
    as (a' & i' & Hsu & Hi' & Hlen' & Hin' & Hh' & Hp').
  { lia. } { lia. } { lia. } { apply inited_snoc; done || lia. }
  { apply heap_up_snoc; done || lia. }
  change (key q) with k in Hsu. res_step Hsu.
  rewrite chk_int_ok by (unfold is_int, INT_MIN, INT_MAX in *; lia). cbn [mbind res_bind].
  rewrite arr_write_ok by lia. cbn [mbind res_bind mret res_ret].
  set (pq2 := set_array _ _). fold q in pq2.
  assert (qelems pq2 ≡ₚ q :: qelems pq) as Hq2.
  { unfold qelems at 1, pq2. cbn. rewrite Hp', elems_snoc by lia.
    rewrite <-He1. unfold qelems. by rewrite Hs1. }
  destruct (wf_objects_add g pq pq2 q {| eventtime := k; ev_fun := f; ev_arg := arg |})
    as [Ho2 Hev]; try done.
  eexists _, pq2. split; [done|]. split_and!; try done.
  - split; [|done|done]. split; unfold pq2; cbn; rewrite ?zlen_zset; done || lia.
  - by rewrite Hq2.
Qed.

(** ** Extraction *)

Lemma heap_down_root (a : list (option qelm)) n q :
  heap a n → heap_down (zset a 1 (Some q)) (n - 1) 1.
Proof.
  intros Hh. split; [|intros c ???; lia].
  intros j Hj ?. unfold kle. zarr. apply Hh. lia.
Qed.

Lemma min_of_root pq q :
  wf_array pq → zget (array pq) 1 = Some (Some q) →
  ∀ q', q' ∈ qelems pq → tle (key q) (key q').
Proof.
  intros [_ _ _ Hin Hh] H1 q' (i & Hi & Hq')%elem_of_elems.
  by apply (heap_root _ _ Hin Hh i Hi).
Qed.

Lemma qelems_empty pq : wf_array pq → size pq < 1 → qelems pq = [].
Proof.
  intros [_ _ ? Hin _] Hs.
  pose proof (elems_length _ _ Hin ltac:(lia)) as Hl. unfold qelems, zlen in *.
  apply nil_length_inv. lia.
Qed.

(** Overwriting a slot by the last one and shrinking keeps the array sound but
    for the order. *)
Lemma shrink_inited pq i qn :
  wf_array pq → inited (zset (array pq) i (Some qn)) (size pq - 1).
Proof. intros [_ _ ? Hin _]. apply inited_zset. eapply inited_mono; [|done]. lia. Qed.

(** wc_queue_extract: the queue gives up an event with the least key. *)
Lemma wc_queue_extract_spec g pq :
  wf g pq →
  (size pq = 0 ∧ events g pq = [] ∧ wc_queue_extract g pq = Ok (None, g, pq)) ∨
  (∃ x p pq', wc_queue_extract g pq = Ok (Some x, drop_object g p, pq') ∧
     wf (drop_object g p) pq' ∧ size pq' = size pq - 1 ∧ qlength pq' = qlength pq ∧
     is_Some (objs g !! p) ∧ (data <$> qelems pq) ≡ₚ p :: (data <$> qelems pq') ∧
     events g pq ≡ₚ x :: events (drop_object g p) pq' ∧
     ∀ y, y ∈ events g pq → tle (x_key x) (x_key y)).
Proof.
  intros [Ha Ho Hoff]. pose proof Ha as [Hlen Hcap Hsz Hin Hh].
  unfold wc_queue_extract. rewrite Hoff. cbn [c_assert Z.eqb mbind res_bind].
  destruct (size pq <? 1) eqn:Hs.
  { left. split_and!; [lia| |done]. unfold events. by rewrite qelems_empty by (done || lia). }
  right. destruct (Hin 1) as [q1 Hq1]; [lia|]. destruct (Hin (size pq)) as [qn Hqn]; [lia|].
  res_step (proj2 (arr_read_Ok _ _ _) Hq1). res_step (proj2 (arr_read_Ok _ _ _) Hqn).
  rewrite arr_write_ok by lia. cbn [mbind res_bind].
  set (pq1 := set_size _ _).
  destruct (heapify_spec pq1 1) as (pq' & Hhp & Hh' & Hin' & Hlen' & Hp' & Hs' & Hl' & Ht').
  { by apply shrink_inited. } { cbn. lia. } { lia. } { by apply heap_down_root. }
  res_step Hhp. cbn in Hs', Hl', Ht', Hp', Hlen', Hin', Hh'.
  assert (qelems pq ≡ₚ q1 :: qelems pq') as Hq.
  { unfold qelems. rewrite Hs', Hp'. apply elems_delete; done || lia. }
  assert (q1 ∈ qelems pq) as Hq1in by (rewrite Hq; left).
  destruct (wf_live _ _ Ho q1 Hq1in) as (e & He & _).
  unfold load_event, free_event. rewrite He. cbn [mbind res_bind mret res_ret].
  destruct (wf_objects_del g pq pq' q1 e Ho Hq He) as [Ho' Hev].
  eexists _, (data q1), pq'. split; [done|]. split_and!; try done.
  - split; [|done|congruence]. split; cbn in *; rewrite ?Hs', ?Hl', ?Hlen', ?zlen_zset; done || lia.
  - by rewrite Hq.
  - intros y (q & e' & Hqin & _ & ->)%elem_of_events. cbn.
    by apply (min_of_root pq q1).
Qed.

(** ** Removal *)

Lemma find_id_spec fuel pq i the_id :
  inited (array pq) (size pq) → 1 ≤ i → Z.of_nat fuel = Z.max 0 (size pq - i + 1) →
  ∃ j, find_id fuel pq i the_id = Ok j ∧ i ≤ j ∧
    (j ≤ size pq → ∃ q, zget (array pq) j = Some (Some q) ∧ id q = the_id) ∧
    (size pq < j → ∀ k q, i ≤ k ≤ size pq → zget (array pq) k = Some (Some q) → id q ≠ the_id).
Proof.
  intros Hin. revert i. induction fuel as [|fuel IH]; intros i Hi Hf; cbn.
  { exists i. split_and!; try done; lia. }
  destruct (i <=? size pq) eqn:Hs.
  2: { exists i. split_and!; try done; lia. }
  destruct (Hin i) as [q Hq]; [lia|]. res_step (proj2 (arr_read_Ok _ _ _) Hq).
  destruct (Z.eqb_spec (id q) the_id) as [E|E].
  { exists i. split_and!; try done; try lia. eauto. }
  destruct (IH (i + 1)) as (j & -> & ? & Hf1 & Hf2); [lia|lia|].
  exists j. split_and!; try done; try lia. intros ? k q' Hk Hq'.
  destruct (decide (k = i)) as [->|]; [by simplify_eq|]. by apply (Hf2 ltac:(done) k q' ltac:(lia)).
Qed.

(** heapify at the parent of a slot that may precede it moves the violation
    one level up. *)
Lemma heapify_parent pq i :
  inited (array pq) (size pq) → size pq < 2^30 → 2 ≤ i ≤ size pq →
  heap_up (array pq) (size pq) i →
  ∃ pq', heapify pq (i `div` 2) = Ok pq' ∧
    heap_up (array pq') (size pq) (i `div` 2) ∧ reordered pq pq'.
Proof.
  intros Hin Hn Hi Hu.
  destruct (Hin i) as [qi Hqi]; [lia|]. destruct (Hin (i `div` 2)) as [qp Hqp]; [lia|].
  destruct (timercmp_lt (key qi) (key qp)) eqn:Hlt.
  2: { assert (heap (array pq) (size pq)) as Hh.
       { apply (heap_of_heap_up _ _ i Hu). right. by apply (kle_at _ _ _ qp qi). }
       exists pq. rewrite heapify_id; [|done|lia|].
       - split; [done|]. split; [|done]. apply heap_up_of_heap; done || lia.
       - intros c Hc ?. rewrite <-Hc. apply Hh. lia. }
  destruct (heapify_largest_spec pq (i `div` 2) Hin) as (g & Hg & H); [lia|].
  unfold heapify. cbn. res_step Hg.
  destruct H as [[-> Hk]|(Hgi & Hgn & Hk & qp' & qg & Hqp' & Hqg & Hlt')]; simplify_eq.
  { pose proof (Hk i eq_refl ltac:(lia) _ _ Hqp Hqi). tcmp. }
  assert (g = i) as ->.
  { destruct (decide (g = i)); [done|]. destruct Hu as [Hu _].
    pose proof (Hu g ltac:(lia) ltac:(done)) as Hpg. rewrite Hgi in Hpg.
    pose proof (Hpg _ _ Hqp Hqg). tcmp. }
  simplify_eq.
  assert ((i =? i `div` 2) = false) as -> by lia. cbn [negb].
  res_step (proj2 (arr_read_Ok _ _ _) Hqp). res_step (proj2 (arr_read_Ok _ _ _) Hqi).
  pose proof (zget_Some_bounds _ _ _ Hqi). pose proof (zget_Some_bounds _ _ _ Hqp).
  rewrite arr_write_ok by done. cbn [mbind res_bind].
  rewrite arr_write_ok by (by rewrite zlen_zset). cbn [mbind res_bind].
  assert (zset (zset (array pq) (i `div` 2) (Some qi)) i (Some qp) =
          swap (array pq) i (i `div` 2) qi qp) as -> by (unfold swap; rewrite zset_comm; done || lia).
  set (pq1 := set_array pq _).
  assert (reordered pq pq1) as Hr by (apply reordered_swap; done || lia).
  assert (heap_up (array pq1) (size pq) (i `div` 2)) as Hu1
    by (apply heap_up_swap; auto with oflops).
  assert (1 < S (Z.to_nat (size pq)))%nat by lia.
  destruct (Z.to_nat (size pq)) as [|fuel] eqn:Hfu; [lia|].
  exists pq1. split; [|done]. apply heapify_loop_id; [by destruct Hr|lia|].
  intros c Hc Hcn. rewrite <-Hc. apply Hu1; cbn in Hcn; lia.
Qed.

Lemma fixup_loop_heap fuel pq i :
  inited (array pq) (size pq) → 1 ≤ i < 2^30 → (Z.to_nat i < fuel)%nat →
  heap (array pq) (size pq) → fixup_loop fuel pq i = Ok pq.
Proof.
  intros Hin. revert i. induction fuel as [|fuel IH]; intros i Hi Hf Hh; [lia|]. cbn.
  rewrite heapify_id; [|done|done|intros c <- ?; apply Hh; lia]. cbn.
  rewrite PARENT_div by lia. destruct (i `div` 2 >? 0) eqn:?; [|done].
  apply IH; done || lia.
Qed.

Lemma fixup_parents fuel pq i :
  inited (array pq) (size pq) → size pq < 2^30 → 2 ≤ i ≤ size pq →
  (Z.to_nat (i `div` 2) < fuel)%nat →
  heap_up (array pq) (size pq) i →
  ∃ pq', fixup_loop fuel pq (i `div` 2) = Ok pq' ∧
    heap (array pq') (size pq) ∧ reordered pq pq'.
Proof.
  revert pq i. induction fuel as [|fuel IH]; intros pq i Hin Hn Hi Hf Hu; [lia|]. cbn.
  destruct (heapify_parent pq i) as (pq1 & Hhp & Hu1 & Hr1); try done.
  pose proof Hr1 as (Hin1 & _ & _ & Hs1 & _).
  res_step Hhp. rewrite PARENT_div by lia.
  destruct ((i `div` 2) `div` 2 >? 0) eqn:E.
  - destruct (IH pq1 (i `div` 2)) as (pq' & -> & Hh & Hr); rewrite ?Hs1; try done; try lia.
    exists pq'. split; [done|]. rewrite Hs1 in Hh. split; [done|]. by etrans.
  - exists pq1. split; [done|]. split; [|done].
    apply (heap_of_heap_up _ _ (i `div` 2) Hu1). left. lia.
Qed.

(** The loop of wc_event_remove restores the order whatever is put in slot i. *)
Lemma fixup_loop_spec pq i :
  inited (array pq) (size pq) → size pq < 2^30 → 1 ≤ i < 2^30 →
  (∀ j, 2 ≤ j ≤ size pq → j ≠ i → j `div` 2 ≠ i → kle (array pq) (j `div` 2) j) →
  bridged (array pq) (size pq) i →
  ∃ pq', fixup_loop (S (Z.to_nat i)) pq i = Ok pq' ∧
    heap (array pq') (size pq) ∧ reordered pq pq'.
Proof.
  intros Hin Hn Hi Hrest Hb.
  destruct (decide (size pq < i)) as [Hgt|Hle].
  { assert (heap (array pq) (size pq)) by (intros j ?; apply Hrest; lia).
    exists pq. by rewrite fixup_loop_heap by (done || lia). }
  destruct (Hin i) as [qi Hqi]; [lia|].
  assert ((i ≤ 1 ∨ kle (array pq) (i `div` 2) i) ∨
          2 ≤ i ∧ ∃ qp, zget (array pq) (i `div` 2) = Some (Some qp) ∧
                        tle (key qi) (key qp)) as [Hok|(Hi2 & qp & Hqp & Hlt)].
  { destruct (decide (i ≤ 1)); [by left; left|].
    destruct (Hin (i `div` 2)) as [qp Hqp]; [lia|].
    rewrite (kle_at _ _ _ qp qi) by done.
    destruct (tle_total (key qp) (key qi)); [by left; right|right; eauto with lia]. }
  - destruct (heapify_spec pq i) as (pq1 & Hhp & Hh1 & Hr1); try done.
    { split; [|done]. intros j Hj Hji. destruct (decide (j = i)) as [->|]; [|by apply Hrest].
      destruct Hok; [lia|done]. }
    pose proof Hr1 as (Hin1 & _ & _ & Hs1 & _).
    cbn. res_step Hhp. exists pq1. rewrite PARENT_div by lia.
    destruct (i `div` 2 >? 0) eqn:?; [|done].
    rewrite fixup_loop_heap; rewrite ?Hs1; done || lia.
  - assert (heap_up (array pq) (size pq) i) as Hu.
    { split; [|done]. intros j Hj Hji. destruct (decide (j `div` 2 = i)) as [Hji2|];
        [|by apply Hrest].
      rewrite Hji2. apply (kle_trans' _ _ (i `div` 2) _ qi qp); try done. apply Hb; lia. }
    cbn. rewrite heapify_id; [|done|lia|intros c <- ?; apply Hu; lia]. cbn.
    rewrite PARENT_div by lia. assert ((i `div` 2 >? 0) = true) as -> by lia.
    apply fixup_parents; done || lia.
Qed.

(** wc_event_remove: the event with the given identifier leaves the queue; an
    unknown identifier changes nothing. *)
Lemma wc_event_remove_spec g pq the_id :
  wf g pq →
  (the_id ∉ (x_id <$> events g pq) ∧ wc_event_remove g pq the_id = Ok (None, g, pq)) ∨
  (∃ x p pq', wc_event_remove g pq the_id =
                Ok (Some (x_fun x, x_arg x), drop_object g p, pq') ∧
     x_id x = the_id ∧ is_Some (objs g !! p) ∧
     (data <$> qelems pq) ≡ₚ p :: (data <$> qelems pq') ∧
     wf (drop_object g p) pq' ∧ size pq' = size pq - 1 ∧ qlength pq' = qlength pq ∧
     events g pq ≡ₚ x :: events (drop_object g p) pq').
Proof.
  intros [Ha Ho Hoff]. pose proof Ha as [Hlen Hcap Hsz Hin Hh].
  unfold wc_event_remove. rewrite Hoff. cbn [c_assert Z.eqb mbind res_bind].
  destruct (find_id_spec (Z.to_nat (size pq)) pq 1 the_id Hin) as (i & Hf & Hi & Hf1 & Hf2);
    [lia|lia|].
  res_step Hf. destruct (i >? size pq) eqn:Hgt.
  { left. split; [|done]. intros (x & -> & Hx)%list_elem_of_fmap.
    apply elem_of_events in Hx as (q & e & (k & Hk & Hq)%elem_of_elems & _ & ->). cbn in *.
    apply (Hf2 ltac:(lia) k q); done. }
  right. destruct (Hf1 ltac:(lia)) as (qi & Hqi & Hid).
  destruct (Hin (size pq)) as [qn Hqn]; [lia|].
  assert (qi ∈ qelems pq) as Hqin by (apply elem_of_elems; eauto with lia).
  destruct (wf_live _ _ Ho qi Hqin) as (e & He & _).
  res_step (proj2 (arr_read_Ok _ _ _) Hqi). unfold load_event, free_event.
  rewrite He. cbn [mbind res_bind]. res_step (proj2 (arr_read_Ok _ _ _) Hqn).
  rewrite arr_write_ok by lia. cbn [mbind res_bind].
  set (pq1 := set_size _ _).
  destruct (fixup_loop_spec pq1 i) as (pq' & Hfx & Hh' & Hin' & Hlen' & Hp' & Hs' & Hl' & Ht').
  { by apply shrink_inited. } { cbn. lia. } { lia. }
  { intros j Hj Hji Hji2. unfold kle. cbn in *. zarr. apply Hh. lia. }
  { intros c Hi2 Hc Hcn. unfold kle. cbn in *. zarr.
    apply (kle_trans _ _ i _ qi); [done|apply Hh; lia|rewrite <-Hc; apply Hh; lia]. }
  res_step Hfx. cbn in Hs', Hl', Ht', Hp', Hlen', Hin', Hh'.
  assert (qelems pq ≡ₚ qi :: qelems pq') as Hq.
  { unfold qelems. rewrite Hs', Hp'. apply elems_delete; done || lia. }
  destruct (wf_objects_del g pq pq' qi e Ho Hq He) as [Ho' Hev].
  exists {| x_id := id qi; x_key := key qi; x_fun := ev_fun e; x_arg := ev_arg e |},
    (data qi), pq'. split; [done|]. split_and!; try done.
  - by rewrite Hq.
  - split; [|done|congruence].
    split; rewrite ?Hs', ?Hl', ?Hlen', ?zlen_zset; done || lia.
Qed.

(** ** Queries *)

Lemma wc_get_next_event_delta_spec g pq now :
  wf g pq →
  (events g pq = [] ∧ wc_get_next_event_delta pq now = Ok (-1, None)) ∨
  (∃ x, x ∈ events g pq ∧ (∀ y, y ∈ events g pq → tle (x_key x) (x_key y)) ∧
     wc_get_next_event_delta pq now =
       Ok (if timercmp_lt (x_key x) now then (1, None)
           else (0, Some (timersub (x_key x) now)))).
Proof.
  intros [Ha Ho Hoff]. pose proof Ha as [Hlen Hcap Hsz Hin Hh].
  unfold wc_get_next_event_delta, wc_queue_isempty.
  rewrite Hoff. cbn [c_assert Z.eqb mbind res_bind].
  destruct (size pq <? 1) eqn:Hs.
  { left. split; [|done]. unfold events. by rewrite qelems_empty by (done || lia). }
  right. destruct (Hin 1) as [q1 Hq1]; [lia|].
  res_step (proj2 (arr_read_Ok _ _ _) Hq1).
  assert (q1 ∈ qelems pq) as Hqin
    by (apply elem_of_elems; exists 1; split; [lia|done]).
  destruct (wf_live _ _ Ho q1 Hqin) as (e & He & _).
  exists {| x_id := id q1; x_key := key q1; x_fun := ev_fun e; x_arg := ev_arg e |}.
  split_and!.
  - apply elem_of_events. eauto.
  - intros y (q & e' & Hq & _ & ->)%elem_of_events. cbn. by apply (min_of_root pq q1).
  - cbn. rewrite timercmp_gt_lt. by destruct (timercmp_lt (key q1) now).
Qed.

Lemma verify_heap_loop_spec fuel pq i :
  inited (array pq) (size pq) → heap (array pq) (size pq) → 1 ≤ i →
  verify_heap_loop fuel pq i = Ok tt.
Proof.
  intros Hin Hh. revert i. induction fuel as [|fuel IH]; intros i Hi; [done|]. cbn.
  rewrite LEFT_mul, RIGHT_mul.
  assert (∀ c, c `div` 2 = i →
    (if c <=? size pq then
       qc ← arr_read (array pq) c; qi ← arr_read (array pq) i;
       c_assert (timercmp_ge (key qc) (key qi))
     else mret tt) = Ok tt) as Hc.
  { intros c Hc. destruct (c <=? size pq) eqn:E; [|done].
    destruct (Hin c) as [qc Hqc]; [lia|]. destruct (Hin i) as [qi Hqi]; [lia|].
    res_step (proj2 (arr_read_Ok _ _ _) Hqc). res_step (proj2 (arr_read_Ok _ _ _) Hqi).
    rewrite (proj2 (timercmp_ge_tle _ _)); [done|].
    subst i. apply (Hh c); done || lia. }
  rewrite (Hc (2 * i)), (Hc (2 * i + 1)) by lia. cbn. apply IH. lia.
Qed.
