(* ===== verification/WcRefine.v ===== *)
(** * The timer queue implements a priority queue

    The abstract priority queue is a collection of events (a list up to
    permutation) with the identifier the next event receives.  The heap
    implements it ([queue_run_refines]), hands the events out in the order of
    their keys ([queue_drain_sorted]), frees each event object exactly once
    ([queue_objects_exact]), and passes its own sanity check.  The interface
    [TimerQueue] gives the timer layer these guarantees. *)

From stdpp Require Import sorting.
From S2P Require Import Prelude CTime WcEvent WcHeap WcQueue.
Open Scope Z_scope.

Implicit Types pq : wc_queue.
Implicit Types g : wc_globals.

(** ** The interface used by the timer layer *)

Class TimerQueue (Q : Type) := {
  tq_inv : Q → Prop;
  tq_room : Q → Prop;
  tq_events : Q → list extracted;
  tq_add : Q → Z → Z → timeval → res (Z * Q);
  tq_extract : Q → res (option extracted * Q);
  tq_delta : Q → timeval → res (Z * option timeval);
  tq_add_ok : ∀ q f a k, tq_inv q → tq_room q →
    ∃ i q', tq_add q f a k = Ok (i, q') ∧ tq_inv q' ∧
      i ∉ (x_id <$> tq_events q) ∧
      tq_events q' ≡ₚ {| x_id := i; x_key := k; x_fun := f; x_arg := a |} :: tq_events q;
  tq_extract_ok : ∀ q, tq_inv q →
    (tq_events q = [] ∧ tq_extract q = Ok (None, q)) ∨
    (∃ x q', tq_extract q = Ok (Some x, q') ∧ tq_inv q' ∧
       tq_events q ≡ₚ x :: tq_events q' ∧
       ∀ y, y ∈ tq_events q → tle (x_key x) (x_key y));
  tq_delta_ok : ∀ q now, tq_inv q →
    (tq_events q = [] ∧ tq_delta q now = Ok (-1, None)) ∨
    (∃ x, x ∈ tq_events q ∧ (∀ y, y ∈ tq_events q → tle (x_key x) (x_key y)) ∧
       tq_delta q now = Ok (if timercmp_lt (x_key x) now then (1, None)
                            else (0, Some (timersub (x_key x) now))));
}.

(** The state of wc_event.c as seen by its callers. *)
Definition wcst : Type := wc_globals * wc_queue.

Definition heap_add (q : wcst) (f a : Z) (k : timeval) : res (Z * wcst) :=
  '(i, g, pq) ← wc_event_add q.1 q.2 f a k; mret (i, (g, pq)).
Definition heap_extract (q : wcst) : res (option extracted * wcst) :=
  '(x, g, pq) ← wc_queue_extract q.1 q.2; mret (x, (g, pq)).

Lemma fresh_id g pq : wf g pq → WC_EVENT_ID g ∉ (x_id <$> events g pq).
Proof.
  intros [_ Ho _] (x & Heq & (q & e & Hq & _ & ->)%elem_of_events)%list_elem_of_fmap.
  pose proof (wf_ids_lt _ _ Ho q Hq). cbn in *. lia.
Qed.

#[export, refine] Instance heap_TimerQueue : TimerQueue wcst := {|
  tq_inv q := wf q.1 q.2;
  tq_room q := has_room q.1 q.2;
  tq_events q := events q.1 q.2;
  tq_add := heap_add;
  tq_extract := heap_extract;
  tq_delta q now := wc_get_next_event_delta q.2 now;
|}.
Proof.
  - intros [g pq] f a k Hwf Hr. cbn in *.
    destruct (wc_event_add_spec g pq f a k Hwf Hr) as (g' & pq' & He & Hwf' & _ & _ & _ & _ & _ & Hev).
    unfold heap_add. cbn. rewrite He. cbn. eexists _, (g', pq'). split_and!; try done.
    by apply fresh_id.
  - intros [g pq] Hwf. cbn in *. unfold heap_extract. cbn.
    destruct (wc_queue_extract_spec g pq Hwf)
      as [(_ & ? & ->)|(x & p & pq' & -> & ? & _ & _ & _ & _ & ? & ?)]; [by left|right].
    cbn. by eexists x, (_, pq').
  - intros [g pq] now Hwf. by apply wc_get_next_event_delta_spec.
Defined.

(** ** The abstract priority queue *)

Inductive qop := OAdd (f a : Z) (k : timeval) | OExtract | ORemove (i : Z).
Inductive qret :=
| RId (i : Z)                       (* wc_event_add *)
| RExtract (x : option extracted)   (* wc_queue_extract *)
| RRemove (o : option (Z * Z)).     (* wc_event_remove *)

Inductive abs_step : Z * list extracted → qop → qret → Z * list extracted → Prop :=
| abs_add n s s' f a k :
    s' ≡ₚ {| x_id := n; x_key := k; x_fun := f; x_arg := a |} :: s →
    abs_step (n, s) (OAdd f a k) (RId n) (n + 1, s')
| abs_extract_none n :
    abs_step (n, []) OExtract (RExtract None) (n, [])
| abs_extract n s x s' :
    s ≡ₚ x :: s' → (∀ y, y ∈ s → tle (x_key x) (x_key y)) →
    abs_step (n, s) OExtract (RExtract (Some x)) (n, s')
| abs_remove_none n s i :
    i ∉ (x_id <$> s) → abs_step (n, s) (ORemove i) (RRemove None) (n, s)
| abs_remove n s x s' :
    s ≡ₚ x :: s' →
    abs_step (n, s) (ORemove (x_id x)) (RRemove (Some (x_fun x, x_arg x))) (n, s').

Inductive abs_run : Z * list extracted → list qop → list qret → Z * list extracted → Prop :=
| abs_run_nil st : abs_run st [] [] st
| abs_run_cons st1 st2 st3 op r ops rs :
    abs_step st1 op r st2 → abs_run st2 ops rs st3 → abs_run st1 (op :: ops) (r :: rs) st3.

(** The concrete operations, one after the other. *)
Definition run_op (st : wcst) (op : qop) : res (qret * wcst) :=
  match op with
  | OAdd f a k => '(i, g, pq) ← wc_event_add st.1 st.2 f a k; mret (RId i, (g, pq))
  | OExtract => '(x, g, pq) ← wc_queue_extract st.1 st.2; mret (RExtract x, (g, pq))
  | ORemove i => '(o, g, pq) ← wc_event_remove st.1 st.2 i; mret (RRemove o, (g, pq))
  end.

Fixpoint run_ops (st : wcst) (ops : list qop) : res (list qret * wcst) :=
  match ops with
  | [] => mret ([], st)
  | op :: ops =>
    '(r, st) ← run_op st op;
    '(rs, st) ← run_ops st ops;
    mret (r :: rs, st)
  end.

(** The object addresses of the queued elements. *)
Definition queued_addrs pq : gset Z := list_to_set (data <$> qelems pq).

Lemma queued_addrs_del g pq pq' p :
  wf g pq → (data <$> qelems pq) ≡ₚ p :: (data <$> qelems pq') →
  dom (objs g) = queued_addrs pq → dom (delete p (objs g)) = queued_addrs pq'.
Proof.
  intros [_ Ho _] Hd Hdom. rewrite dom_delete_L, Hdom. unfold queued_addrs. rewrite Hd.
  pose proof (wf_data _ _ Ho) as Hnd. rewrite Hd in Hnd. apply NoDup_cons in Hnd as [Hn _].
  cbn. set_solver.
Qed.

(** The abstraction of a state. *)
Definition absview (st : wcst) : Z * list extracted := (WC_EVENT_ID st.1, events st.1 st.2).

(** Up to order, abstract states with the same events are the same. *)
Definition abs_equiv (s t : Z * list extracted) : Prop := s.1 = t.1 ∧ s.2 ≡ₚ t.2.

#[export] Instance abs_equiv_equivalence : Equivalence abs_equiv.
Proof. split; unfold abs_equiv; repeat intro; intuition (try congruence); by etrans. Qed.

(** One concrete operation is one abstract step. *)
Lemma run_op_refines st op :
  wf st.1 st.2 → has_room st.1 st.2 →
  ∃ r st', run_op st op = Ok (r, st') ∧ wf st'.1 st'.2 ∧
    abs_step (absview st) op r (absview st') ∧
    (dom (objs st.1) = queued_addrs st.2 → dom (objs st'.1) = queued_addrs st'.2) ∧
    0 ≤ WC_EVENT_ID st'.1 - WC_EVENT_ID st.1 ≤ 1 ∧
    size st'.2 - size st.2 ≤ WC_EVENT_ID st'.1 - WC_EVENT_ID st.1 ∧
    (qlength st'.2 = qlength st.2 ∨
     qlength st.2 ≤ size st.2 + 1 ∧ qlength st'.2 = 2 * qlength st.2 ∧
     WC_EVENT_ID st'.1 = WC_EVENT_ID st.1 + 1).
Proof.
  destruct st as [g pq]. cbn. intros Hwf Hroom. destruct op as [f a k| |i]; cbn.
  - destruct (wc_event_add_spec g pq f a k Hwf Hroom)
      as (g' & pq' & -> & Hwf' & Hid & Hs & Hl & Hd & Ho & Hev). cbn.
    eexists _, (g', pq'). split; [done|]. cbn. split_and!; try done; try lia.
    + unfold absview. cbn. rewrite Hid. by constructor.
    + intros Hdom. rewrite Ho, dom_insert_L, Hdom. unfold queued_addrs. rewrite Hd. done.
    + destruct (size pq + 1 >=? qlength pq) eqn:E; lia.
  - destruct (wc_queue_extract_spec g pq Hwf)
      as [(? & Hev & ->)|(x & p & pq' & -> & Hwf' & ? & ? & _ & Hd & Hev & Hmin)]; cbn.
    + eexists _, (g, pq). split; [done|]. cbn. split_and!; try done; try lia.
      unfold absview. cbn. rewrite Hev. constructor.
    + eexists _, (_, pq'). split; [done|]. cbn. split_and!; try done; try lia.
      { by constructor. }
      by apply queued_addrs_del.
  - destruct (wc_event_remove_spec g pq i Hwf)
      as [[? ->]|(x & p & pq' & -> & <- & _ & Hd & Hwf' & ? & ? & Hev)]; cbn.
    + eexists _, (g, pq). split; [done|]. cbn. split_and!; try done; try lia. by constructor.
    + eexists _, (_, pq'). split; [done|]. cbn. split_and!; try done; try lia.
      { by constructor. }
      by apply queued_addrs_del.
Qed.

(** With [k] operations to come the queue cannot outgrow its index range. *)
Definition budget (st : wcst) (k : Z) : Prop :=
  0 ≤ WC_EVENT_ID st.1 ∧ WC_EVENT_ID st.1 + k ≤ 2^28 ∧
  size st.2 ≤ WC_EVENT_ID st.1 ∧ qlength st.2 ≤ 10 + 2 * WC_EVENT_ID st.1.

Lemma budget_room st k : budget st k → 0 < k → has_room st.1 st.2.
Proof. unfold budget, has_room, INT_MAX. lia. Qed.

Lemma run_ops_refines st ops :
  wf st.1 st.2 → budget st (Z.of_nat (length ops)) →
  ∃ rs st', run_ops st ops = Ok (rs, st') ∧ wf st'.1 st'.2 ∧
    (dom (objs st.1) = queued_addrs st.2 → dom (objs st'.1) = queued_addrs st'.2) ∧
    abs_run (absview st) ops rs (absview st').
Proof.
  revert st. induction ops as [|op ops IH]; intros st Hwf Hb.
  { exists [], st. split_and!; try done. constructor. }
  destruct (run_op_refines st op Hwf) as (r & st1 & Hr & Hwf1 & Hstep & Hd1 & H1 & H2 & H3).
  { eapply budget_room; [done|]. cbn. lia. }
  destruct (IH st1 Hwf1) as (rs & st' & Hrs & Hwf' & Hd' & Hrun).
  { unfold budget in *. cbn [length] in Hb. pose proof (wf_size _ (wf_arr _ _ Hwf)). lia. }
  exists (r :: rs), st'. cbn. rewrite Hr. cbn. rewrite Hrs. cbn.
  split_and!; try done; [by eauto|by econstructor].
Qed.

(** ** The initial state *)

Definition wc_globals0 : wc_globals := {| WC_EVENT_ID := 0; objs := ∅; brk := 0 |}.

Lemma wc_queue_init_spec n g :
  1 ≤ n ≤ 2^30 → (∀ p e, objs g !! p = Some e → p ≤ brk g) →
  ∃ pq, wc_queue_init n = Ok pq ∧ wf g pq ∧ size pq = 0 ∧ qlength pq = n ∧ qelems pq = [].
Proof.
  intros Hn Hg. unfold wc_queue_init. assert ((n <? 0) = false) as -> by lia.
  eexists; split; [done|]. assert (qelems {| array := arr_new n; qlength := n; size := 0;
    timersEnabled := 0 |} = []) as Hq by done.
  split_and!; try done. split; [| |done].
  - split; cbn; try (intros ? ?; lia); try lia. by apply zlen_arr_new; lia.
  - split; try done; rewrite Hq; try (intros ? []%not_elem_of_nil); apply NoDup_nil_2.
Qed.

(** C1. Starting from a new queue of 10 slots, any sequence of up to 2^28
    insertions, extractions and removals runs without fault (no failed
    assertion, no access outside the array or to an unwritten slot, no use of a
    freed event, no overflow), and its results are those of a priority queue of
    events: identifiers are handed out in order, an extraction returns an event
    with the least key, a removal the event with the given identifier. *)
Theorem queue_run_refines ops :
  Z.of_nat (length ops) ≤ 2^28 →
  ∃ pq rs st', wc_queue_init 10 = Ok pq ∧
    run_ops (wc_globals0, pq) ops = Ok (rs, st') ∧ wf st'.1 st'.2 ∧
    abs_run (0, []) ops rs (absview st').
Proof.
  intros Hl. destruct (wc_queue_init_spec 10 wc_globals0) as (pq & -> & Hwf & Hs & Hq & He);
    [lia|done|].
  destruct (run_ops_refines (wc_globals0, pq) ops Hwf) as (rs & st' & Hr & Hwf' & _ & Hrun).
  { unfold budget. cbn. lia. }
  exists pq, rs, st'. split_and!; try done.
  replace (0, []) with (absview (wc_globals0, pq)); [done|].
  unfold absview, events. cbn. by rewrite He.
Qed.

Definition demo_ops : list qop :=
  [OAdd 1 10 {| tv_sec := 5; tv_usec := 0 |}; OAdd 2 20 {| tv_sec := 3; tv_usec := 7 |};
   OAdd 3 30 {| tv_sec := 3; tv_usec := 2 |}; ORemove 1; OExtract; OExtract; OExtract].

(** Three insertions, a removal and three extractions. *)
Lemma queue_run_refines_witness :
  Z.of_nat (length demo_ops) ≤ 2^28 ∧
  ∃ pq rs st', wc_queue_init 10 = Ok pq ∧
    run_ops (wc_globals0, pq) demo_ops = Ok (rs, st') ∧ wf st'.1 st'.2 ∧
    abs_run (0, []) demo_ops rs (absview st').
Proof. split; [vm_compute; congruence|apply queue_run_refines; vm_compute; congruence]. Defined.

Example demo_ops_run :
  (pq ← wc_queue_init 10; '(rs, _) ← run_ops (wc_globals0, pq) demo_ops; mret rs) =
  Ok [RId 0; RId 1; RId 2; RRemove (Some (2, 20));
      RExtract (Some {| x_id := 2; x_key := {| tv_sec := 3; tv_usec := 2 |};
                        x_fun := 3; x_arg := 30 |});
      RExtract (Some {| x_id := 0; x_key := {| tv_sec := 5; tv_usec := 0 |};
                        x_fun := 1; x_arg := 10 |});
      RExtract None].
Proof. vm_compute. reflexivity. Qed.

(** ** Draining the queue *)

Fixpoint drain (fuel : nat) (st : wcst) : res (list extracted * wcst) :=
  match fuel with
  | O => mret ([], st)
  | S fuel =>
    '(x, g, pq) ← wc_queue_extract st.1 st.2;
    match x with
    | None => mret ([], (g, pq))
    | Some x => '(xs, st) ← drain fuel (g, pq); mret (x :: xs, st)
    end
  end.

(** C2. Extracting until the queue is empty returns every pending event exactly
    once, in an order in which no event is followed by one with an earlier key,
    and leaves an empty queue. *)
Theorem queue_drain_sorted g pq fuel :
  wf g pq → (Z.to_nat (size pq) < fuel)%nat →
  ∃ xs st', drain fuel (g, pq) = Ok (xs, st') ∧ size st'.2 = 0 ∧
    xs ≡ₚ events g pq ∧ StronglySorted tle (x_key <$> xs).
Proof.
  revert g pq. induction fuel as [|fuel IH]; intros g pq Hwf Hf; [lia|]. cbn.
  destruct (wc_queue_extract_spec g pq Hwf)
    as [(? & Hev & ->)|(x & p & pq' & -> & Hwf' & Hs & _ & _ & _ & Hev & Hmin)]; cbn.
  { eexists [], (g, pq). rewrite Hev. split_and!; try done. constructor. }
  pose proof (wf_size _ (wf_arr _ _ Hwf')).
  destruct (IH _ _ Hwf') as (xs & st' & -> & ? & Hp & Hsort); [lia|]. cbn.
  eexists (x :: xs), st'. split_and!; try done.
  - by rewrite Hp, Hev.
  - cbn. constructor; [done|]. apply Forall_fmap, Forall_forall. intros y Hy.
    cbn. apply Hmin. rewrite Hev, <-Hp. by right.
Qed.

(** A queue of three events, for concrete runs. *)
Definition demo_g : wc_globals :=
  {| WC_EVENT_ID := 3;
     objs := {[ 1 := {| eventtime := {| tv_sec := 5; tv_usec := 0 |}; ev_fun := 1; ev_arg := 10 |};
                2 := {| eventtime := {| tv_sec := 3; tv_usec := 7 |}; ev_fun := 2; ev_arg := 20 |};
                3 := {| eventtime := {| tv_sec := 3; tv_usec := 2 |}; ev_fun := 3; ev_arg := 30 |}
             ]}; brk := 3 |}.
Definition demo_pq : wc_queue :=
  {| array := [None;
       Some {| id := 2; key := {| tv_sec := 3; tv_usec := 2 |}; data := 3 |};
       Some {| id := 0; key := {| tv_sec := 5; tv_usec := 0 |}; data := 1 |};
       Some {| id := 1; key := {| tv_sec := 3; tv_usec := 7 |}; data := 2 |}; None];
     qlength := 5; size := 3; timersEnabled := 0 |}.

Lemma demo_wf : wf demo_g demo_pq.
Proof.
  split; [split|split|done]; cbn; try lia; try done.
  - intros i Hi. assert (i = 1 ∨ i = 2 ∨ i = 3) as [-> | [-> | ->]] by lia; vm_compute; eauto.
  - intros j Hj q1 q2. assert (j = 2 ∨ j = 3) as [-> | ->] by lia;
      intros H1 H2; vm_compute in H1, H2; by simplify_eq.
  - by apply (bool_decide_unpack _).
  - intros q Hq. vm_compute in Hq. repeat (apply elem_of_cons in Hq as [->|Hq]; [done|]).
    by apply not_elem_of_nil in Hq.
  - by apply (bool_decide_unpack _).
  - intros q Hq. vm_compute in Hq.
    repeat (apply elem_of_cons in Hq as [->|Hq]; [eexists; by vm_compute|]).
    by apply not_elem_of_nil in Hq.
  - intros p e. rewrite !lookup_insert_Some, lookup_singleton_Some. naive_solver lia.
Qed.

Lemma queue_drain_sorted_witness :
  (Z.to_nat (size demo_pq) < 4)%nat ∧
  ∃ xs st', drain 4 (demo_g, demo_pq) = Ok (xs, st') ∧ size st'.2 = 0 ∧
    xs ≡ₚ events demo_g demo_pq ∧ StronglySorted tle (x_key <$> xs).
Proof. split; [vm_compute; lia|apply queue_drain_sorted; [exact demo_wf|vm_compute; lia]]. Defined.

(** C3. Whatever sequence of operations was run on a new queue, the event
    objects that are allocated are exactly those of the queued elements: no
    object is freed while queued, and none is left behind when its element
    leaves the queue. *)
Theorem queue_objects_exact ops :
  Z.of_nat (length ops) ≤ 2^28 →
  ∃ pq rs st', wc_queue_init 10 = Ok pq ∧
    run_ops (wc_globals0, pq) ops = Ok (rs, st') ∧
    dom (objs st'.1) = queued_addrs st'.2 ∧
    Z.of_nat (base.size (objs st'.1)) = size st'.2.
Proof.
  intros Hl. destruct (wc_queue_init_spec 10 wc_globals0) as (pq & -> & Hwf & Hs & Hq & He);
    [lia|done|].
  destruct (run_ops_refines (wc_globals0, pq) ops Hwf) as (rs & st' & Hr & Hwf' & Hd & _).
  { unfold budget. cbn. lia. }
  assert (dom (objs st'.1) = queued_addrs st'.2) as Hdom.
  { apply Hd. unfold queued_addrs. cbn. by rewrite He, dom_empty_L. }
  exists pq, rs, st'. split_and!; try done.
  destruct Hwf' as [Ha Ho _]. rewrite <-size_dom, Hdom. unfold queued_addrs.
  rewrite size_list_to_set by apply Ho. rewrite length_fmap.
  apply (elems_length _ _ (wf_init _ Ha)). apply Ha.
Qed.

Lemma queue_objects_exact_witness :
  Z.of_nat (length demo_ops) ≤ 2^28 ∧
  ∃ pq rs st', wc_queue_init 10 = Ok pq ∧
    run_ops (wc_globals0, pq) demo_ops = Ok (rs, st') ∧
    dom (objs st'.1) = queued_addrs st'.2 ∧
    Z.of_nat (base.size (objs st'.1)) = size st'.2.
Proof. split; [vm_compute; congruence|apply queue_objects_exact; vm_compute; congruence]. Defined.

(** ** Removal and the sanity check of HEAP_DEBUG builds *)

Lemma verify_heap_ok pq : wf_array pq → verify_heap pq = Ok tt.
Proof. intros []. apply verify_heap_loop_spec; done || lia. Qed.

(** C4. Removing an event keeps the queue sound: verify_heap, which
    HEAP_DEBUG builds run before and after, passes both times, and what is
    removed is the event with the given identifier (or nothing when there is
    none), with its callback and argument handed back. *)
Theorem wc_event_remove_sound g pq i :
  wf g pq →
  ∃ o g' pq', wc_event_remove g pq i = Ok (o, g', pq') ∧ wf g' pq' ∧
    verify_heap pq = Ok tt ∧ verify_heap pq' = Ok tt ∧
    match o with
    | None => i ∉ (x_id <$> events g pq) ∧ events g' pq' ≡ₚ events g pq
    | Some (f, a) => ∃ k,
        events g pq ≡ₚ {| x_id := i; x_key := k; x_fun := f; x_arg := a |} :: events g' pq'
    end.
Proof.
  intros Hwf.
  destruct (wc_event_remove_spec g pq i Hwf)
    as [[? ->]|(x & p & pq' & -> & Hi & _ & _ & Hwf' & _ & _ & Hev)].
  - exists None, g, pq. split_and!; try done; apply verify_heap_ok, Hwf.
  - eexists _, _, pq'. split; [done|]. split_and!; try done; try apply verify_heap_ok;
      try apply Hwf; try apply Hwf'.
    exists (x_key x). rewrite Hev, <-Hi. by destruct x.
Qed.

Lemma wc_event_remove_sound_witness :
  ∃ o g' pq', wc_event_remove demo_g demo_pq 1 = Ok (o, g', pq') ∧ wf g' pq' ∧
    verify_heap demo_pq = Ok tt ∧ verify_heap pq' = Ok tt ∧
    match o with
    | None => 1 ∉ (x_id <$> events demo_g demo_pq) ∧ events g' pq' ≡ₚ events demo_g demo_pq
    | Some (f, a) => ∃ k,
        events demo_g demo_pq ≡ₚ
          {| x_id := 1; x_key := k; x_fun := f; x_arg := a |} :: events g' pq'
    end.
Proof. apply wc_event_remove_sound. exact demo_wf. Defined.

(** ** The SIGALRM interface *)

(** C5. Enabling the SIGALRM timers on a non-empty queue: when the earliest
    event is not yet due, the interval timer is armed with exactly the time
    that is left; when it is already due, the attempt to run it at once hits
    the assertion of wc_queue_extract that timers are disabled, so the program
    stops. *)
Theorem wc_enable_timers_behaviour call setitimer now nows al g pq q1 :
  0 < size pq → zget (array pq) 1 = Some (Some q1) → (∀ t, setitimer t = 0) →
  wc_enable_timers call setitimer (now :: nows) al g pq =
    if timercmp_lt (key q1) now then Fault FAssert
    else Ok ({| disposition := WC_EVENT_HANDLER; it_value := timersub (key q1) now |},
             g, set_timersEnabled pq 1).
Proof.
  intros Hs Hq Hset. unfold wc_enable_timers, wc_schedule_next_event, wc_queue_isempty. cbn.
  assert ((size pq <? 1) = false) as Hs1 by lia. rewrite Hs1. cbn.
  assert ((0 <? size pq) = true) as -> by lia. cbn.
  unfold wc_queue_isempty. cbn. rewrite Hs1.
  res_step (proj2 (arr_read_Ok _ _ _) Hq). rewrite timercmp_gt_lt.
  destruct (timercmp_lt (key q1) now).
  - unfold wc_run_next_event, wc_queue_isempty. cbn. by rewrite Hs1.
  - cbn. by rewrite Hset.
Qed.

Lemma wc_enable_timers_behaviour_witness :
  wc_enable_timers (λ _ _ st, Ok st) (λ _, 0) [{| tv_sec := 1; tv_usec := 0 |}]
    {| disposition := SIG_DFL; it_value := {| tv_sec := 0; tv_usec := 0 |} |} demo_g demo_pq =
    Ok ({| disposition := WC_EVENT_HANDLER; it_value := {| tv_sec := 2; tv_usec := 2 |} |},
        demo_g, set_timersEnabled demo_pq 1) ∧
  wc_enable_timers (λ _ _ st, Ok st) (λ _, 0) [{| tv_sec := 4; tv_usec := 0 |}]
    {| disposition := SIG_DFL; it_value := {| tv_sec := 0; tv_usec := 0 |} |} demo_g demo_pq =
    Fault FAssert.
Proof.
  split; (erewrite wc_enable_timers_behaviour; [|reflexivity|reflexivity|done]); reflexivity.
Defined.
