(* ===== verification/TimerEvent.v ===== *)
(** * The timer layer (timer_event.c) and the event loop

    timer_init, timer_get_next_event and timer_run_next_event of timer_event.c,
    oflops_schedule_timer_event of test_module.c, and event_loop of wc_event.c
    as a step relation that interleaves the timer thread with the threads that
    schedule events.  Everything but timer_init is stated against the interface
    [TimerQueue]; the witnesses run it on the binary heap.

    The queue's mutex is modelled: wc_event_add and wc_queue_extract hold it
    from their first to their last access to the queue, so each is one step
    that is enabled while the mutex is free; event_loop takes and releases it
    explicitly, and pthread_cond_timedwait releases it while waiting and
    returns at any later moment (timeout, broadcast or spurious wake-up). *)

From stdpp Require Import sorting.
From S2P Require Import Prelude CTime WcEvent WcHeap WcQueue WcRefine.
Open Scope Z_scope.

(** ** timer_event.c *)

(** [struct timer_event] *)
Record timer_event := { timer_id : Z; te_arg : Z; sched_time : timeval }.

Section timer.
Context {Q : Type} `{TimerQueue Q}.
Implicit Types q : Q.

(** The sum is computed as a [long] and returned as an [int]. *)
Definition timer_get_next_event q (now : timeval) : res Z :=
  '(ret, delta) ← tq_delta q now;
  if ret =? 0 then
    match delta with
    | Some tv => mret (i32 (i64 (i64 (tv_sec tv * 1000000) + tv_usec tv)))
    | None => Fault FUninit
    end
  else if ret =? -1 then mret 1000000
  else mret (-1).

(** The event handed to handle_timer_event of the running test, if any. *)
Definition timer_run_next_event q : res (option timer_event * Q) :=
  '(x, q) ← tq_extract q;
  match x with
  | Some x => mret (Some {| timer_id := x_id x; te_arg := x_arg x; sched_time := x_key x |}, q)
  | None => mret (None, q)
  end.

(** oflops_schedule_timer_event: no callback, the timer layer ignores it. *)
Definition oflops_schedule_timer_event q (tv : timeval) (arg : Z) : res (Z * Q) :=
  tq_add q 0 arg tv.

(** The deadline event_loop passes to pthread_cond_timedwait. *)
Definition wait_deadline (ts : timespec) (next_event : Z) : timespec :=
  if next_event `quot` 1000000 >? 0 then
    {| ts_sec := i64 (ts_sec ts + 1); ts_nsec := ts_nsec ts |}
  else
    let sec := i64 (ts_sec ts + next_event `quot` 1000000) in
    let nsec := i64 (ts_nsec ts + (next_event `rem` 1000000) * 1000) in
    if nsec >=? 1000000000 then
      {| ts_sec := i64 (sec + 1); ts_nsec := i64 (nsec - 1000000000) |}
    else {| ts_sec := sec; ts_nsec := nsec |}.

(** ** The event loop among the other threads *)

(** Where the timer thread is in event_loop. *)
Inductive loop_pc :=
| LTop                       (* at the outer while *)
| LLocked                    (* mutex taken, before timer_get_next_event *)
| LInner (next_event : Z)    (* mutex held, at the inner while *)
| LWaiting                   (* in pthread_cond_timedwait, mutex released *)
| LUnlocked (next_event : Z) (* mutex released, before the final test *)
| LDone.

Record system := {
  sq : Q;                               (* the queue *)
  now : timeval;                        (* the clock *)
  end_event : bool;                     (* ctx->end_event *)
  pc : loop_pc;
  handled : list (timer_event * timeval); (* calls of handle_timer_event, latest first *)
  scheduled : list extracted;           (* every event ever scheduled *)
}.

(** The mutex is held by the timer thread between steps only at these points. *)
Definition mutex_free (s : system) : Prop :=
  match pc s with LLocked | LInner _ => False | _ => True end.

Definition with_pc (s : system) (p : loop_pc) : system :=
  {| sq := sq s; now := now s; end_event := end_event s; pc := p;
     handled := handled s; scheduled := scheduled s |}.

Definition as_event (i : Z) (tv : timeval) (arg : Z) : extracted :=
  {| x_id := i; x_key := tv; x_fun := 0; x_arg := arg |}.
Definition timer_of (x : extracted) : timer_event :=
  {| timer_id := x_id x; te_arg := x_arg x; sched_time := x_key x |}.

(** One step of event_loop. *)
Inductive loop_step : system → system → Prop :=
| step_exit s : pc s = LTop → end_event s = true → loop_step s (with_pc s LDone)
| step_lock s : pc s = LTop → end_event s = false → loop_step s (with_pc s LLocked)
| step_query s n :
    pc s = LLocked → timer_get_next_event (sq s) (now s) = Ok n →
    loop_step s (with_pc s (LInner n))
| step_wait s n :
    pc s = LInner n → 0 < n → end_event s = false → loop_step s (with_pc s LWaiting)
| step_wake s : pc s = LWaiting → loop_step s (with_pc s LLocked)
| step_unlock s n :
    pc s = LInner n → (n ≤ 0 ∨ end_event s = true) → loop_step s (with_pc s (LUnlocked n))
| step_skip s n : pc s = LUnlocked n → 0 < n → loop_step s (with_pc s LTop)
| step_run s n te q' :
    pc s = LUnlocked n → n ≤ 0 → timer_run_next_event (sq s) = Ok (te, q') →
    loop_step s {| sq := q'; now := now s; end_event := end_event s; pc := LTop;
                   handled := match te with
                              | Some te => (te, now s) :: handled s
                              | None => handled s
                              end;
                   scheduled := scheduled s |}.

(** The same step as a function: event_loop is deterministic given the clock
    and the queue. *)
Definition loop_exec (s : system) : res (option system) :=
  match pc s with
  | LTop => mret (Some (with_pc s (if end_event s then LDone else LLocked)))
  | LLocked => n ← timer_get_next_event (sq s) (now s); mret (Some (with_pc s (LInner n)))
  | LInner n =>
    mret (Some (with_pc s (if (0 <? n) && negb (end_event s) then LWaiting else LUnlocked n)))
  | LWaiting => mret (Some (with_pc s LLocked))
  | LUnlocked n =>
    if n <=? 0 then
      '(te, q') ← timer_run_next_event (sq s);
      mret (Some {| sq := q'; now := now s; end_event := end_event s; pc := LTop;
                    handled := match te with
                               | Some te => (te, now s) :: handled s
                               | None => handled s
                               end;
                    scheduled := scheduled s |})
    else mret (Some (with_pc s LTop))
  | LDone => mret None
  end.

Lemma loop_exec_sound s s' : loop_exec s = Ok (Some s') → loop_step s s'.
Proof.
  unfold loop_exec. destruct (pc s) eqn:Hpc; cbn; intros Hs.
  - destruct (end_event s) eqn:?; injection Hs as <-; by constructor.
  - destruct (timer_get_next_event _ _) eqn:?; cbn in Hs; [|done].
    injection Hs as <-. by constructor.
  - destruct (0 <? next_event) eqn:?, (end_event s) eqn:?; cbn in Hs; injection Hs as <-;
      first [eapply step_wait; [done|lia|done] | eapply step_unlock; [done|auto with lia]].
  - injection Hs as <-. by constructor.
  - destruct (next_event <=? 0) eqn:?.
    + destruct (timer_run_next_event _) as [[te q']|] eqn:?; cbn in Hs; [|done].
      injection Hs as <-. econstructor; [done|lia|done].
    + injection Hs as <-. econstructor; [done|lia].
  - done.
Qed.

Lemma loop_exec_complete s s' : loop_step s s' → loop_exec s = Ok (Some s').
Proof.
  unfold loop_exec.
  destruct 1 as [s Hp He | s Hp He | s n Hp Hq | s n Hp Hn He | s Hp | s n Hp Hn | s n Hp Hn
    | s n te q1 Hp Hn Hr];
    rewrite Hp; cbn; rewrite ?He; try done.
  - by rewrite Hq.
  - by replace (0 <? n) with true by lia.
  - destruct Hn as [?| ->]; [by replace (0 <? n) with false by lia|].
    by rewrite andb_false_r.
  - by replace (n <=? 0) with false by lia.
  - replace (n <=? 0) with true by lia. by rewrite Hr.
Qed.

(** One step of the rest of the program: the clock advances, the main thread
    sets end_event, a thread schedules an event at most INT_MAX microseconds,
    about 35 minutes, ahead. *)
Inductive env_step : system → system → Prop :=
| step_tick s t : tle (now s) t → tv_ok t → env_step s
    {| sq := sq s; now := t; end_event := end_event s; pc := pc s;
       handled := handled s; scheduled := scheduled s |}
| step_end s : env_step s
    {| sq := sq s; now := now s; end_event := true; pc := pc s;
       handled := handled s; scheduled := scheduled s |}
| step_schedule s tv arg i q' :
    mutex_free s → tq_room (sq s) → tv_ok tv → tv_us tv ≤ tv_us (now s) + INT_MAX →
    oflops_schedule_timer_event (sq s) tv arg = Ok (i, q') →
    env_step s
      {| sq := q'; now := now s; end_event := end_event s; pc := pc s;
         handled := handled s; scheduled := as_event i tv arg :: scheduled s |}.

Definition sys_step (s s' : system) : Prop :=
  loop_step s s' ∨ env_step s s'.

Definition sys_init (q0 : Q) (t0 : timeval) : system :=
  {| sq := q0; now := t0; end_event := false; pc := LTop; handled := []; scheduled := [] |}.

Inductive reachable (s0 : system) : system → Prop :=
| reach_refl : reachable s0 s0
| reach_step s s' : reachable s0 s → sys_step s s' → reachable s0 s'.

(** ** The invariant of the interleaving *)

(** Some pending event is due. *)
Definition due (s : system) : Prop := ∃ y, y ∈ tq_events (sq s) ∧ tle (x_key y) (now s).

Record sys_inv (s : system) : Prop := {
  si_inv : tq_inv (sq s);
  si_now : tv_ok (now s);
  si_hist : (timer_of <$> scheduled s) ≡ₚ
            (fst <$> handled s) ++ (timer_of <$> tq_events (sq s));
  si_keys : ∀ y, y ∈ tq_events (sq s) → tv_ok (x_key y) ∧ tv_us (x_key y) - tv_us (now s) ≤ INT_MAX;
  si_due : ∀ n, pc s = LInner n ∨ pc s = LUnlocked n → n ≤ 0 → due s;
  si_handled : ∀ te t, (te, t) ∈ handled s → tle (sched_time te) t;
}.

Lemma tle_tv_ok_us a b : tv_ok a → tv_ok b → tle a b → tv_us a ≤ tv_us b.
Proof. intros Ha Hb. by apply tle_us. Qed.

(** timer_get_next_event reports a non-positive time only when an event is due,
    as long as no key is more than INT_MAX microseconds away. *)
Lemma timer_get_next_event_due q t :
  tq_inv q → tv_ok t →
  (∀ y, y ∈ tq_events q → tv_ok (x_key y) ∧ tv_us (x_key y) - tv_us t ≤ INT_MAX) →
  ∃ n, timer_get_next_event q t = Ok n ∧
    (n ≤ 0 ↔ ∃ y, y ∈ tq_events q ∧ tle (x_key y) t).
Proof.
  intros Hinv Ht Hk. unfold timer_get_next_event.
  destruct (tq_delta_ok q t Hinv) as [[Hev ->]|(x & Hx & Hmin & ->)]; cbn.
  { exists 1000000. split; [done|]. split; [lia|]. rewrite Hev.
    intros (y & []%not_elem_of_nil & _). }
  destruct (Hk x Hx) as [Hxok Hxh]. destruct (timercmp_lt (x_key x) t) eqn:Hlt; cbn.
  { exists (-1). split; [done|]. split; [|lia]. intros _. exists x. auto with oflops. }
  eexists; split; [done|].
  pose proof (timersub_us (x_key x) t Hxok Ht) as [Hus Hun].
  assert (tle t (x_key x)) as Hle by done. apply tle_us in Hle; [|done|done].
  set (d := timersub (x_key x) t) in *. unfold tv_us in Hus at 1.
  unfold tv_ok, INT_MAX, tv_us in *.
  rewrite (i64_id (_ * _)), i64_id, i32_id by (unfold is_int, INT_MIN, INT_MAX; lia).
  split.
  - intros Hn. exists x. split; [done|]. apply tle_us; unfold tv_ok, tv_us; lia.
  - intros (y & Hy & Hyt). destruct (Hk y Hy) as [Hyok _].
    assert (tle (x_key x) t) as Hxt by (etrans; [by apply Hmin|done]).
    apply tle_us in Hxt; unfold tv_ok, tv_us in *; lia.
Qed.

Lemma due_add q x y t :
  tq_events q ≡ₚ x :: tq_events y → (∃ e, e ∈ tq_events y ∧ tle (x_key e) t) →
  ∃ e, e ∈ tq_events q ∧ tle (x_key e) t.
Proof. intros Hp (e & He & ?). exists e. split; [|done]. rewrite Hp. by right. Qed.

(** ** Preservation *)

Lemma sys_inv_init q0 t0 :
  tq_inv q0 → tq_events q0 = [] → tv_ok t0 → sys_inv (sys_init q0 t0).
Proof.
  intros Hi He Ht. split; cbn; rewrite ?He; try done.
  - by intros y ?%not_elem_of_nil.
  - intros n [?|?]; done.
  - by intros te t ?%not_elem_of_nil.
Qed.

(** A step that only moves the program counter keeps the invariant, when a
    non-positive time at the new point has been read with an event due. *)
Lemma sys_inv_pc s p :
  sys_inv s → (∀ n, p = LInner n ∨ p = LUnlocked n → n ≤ 0 → due s) →
  sys_inv (with_pc s p).
Proof. intros [] Hp. by split. Qed.

Lemma sys_inv_run s n te q' :
  sys_inv s → pc s = LUnlocked n → n ≤ 0 →
  timer_run_next_event (sq s) = Ok (te, q') →
  ∃ x, te = Some (timer_of x) ∧ tle (x_key x) (now s) ∧ tq_inv q' ∧
       tq_events (sq s) ≡ₚ x :: tq_events q'.
Proof.
  intros Hs Hpc Hn Hrun. destruct (si_due _ Hs n (or_intror Hpc) Hn) as (y & Hy & Hyt).
  unfold timer_run_next_event in Hrun.
  destruct (tq_extract_ok (sq s) (si_inv _ Hs)) as [[He _]|(x & q1 & He & Hi & Hp & Hmin)].
  { rewrite He in Hy. by apply not_elem_of_nil in Hy. }
  rewrite He in Hrun. cbn in Hrun. injection Hrun as <- <-.
  exists x. split_and!; try done. etrans; [by apply Hmin|done].
Qed.

Lemma sys_inv_loop s s' :
  sys_inv s → loop_step s s' → sys_inv s'.
Proof.
  intros Hs Hst. inversion Hst as
    [? Hp|? Hp|? n Hp Hq|? n Hp|? Hp|? n Hp Hn|? n Hp|? n te q' Hp Hn Hr]; subst;
    try (apply sys_inv_pc; [done|]; intros ? [?|?]; done).
  - apply sys_inv_pc; [done|]. intros m [[= <-]|?] Hm; [|done].
    pose proof (si_now _ Hs) as Hok.
    destruct (timer_get_next_event_due (sq s) (now s)) as (n' & Hn' & Hdue); try done.
    + by apply Hs.
    + intros y Hy. destruct (si_keys _ Hs y Hy). split; [done|lia].
    + rewrite Hq in Hn'. injection Hn' as <-. by apply Hdue.
  - apply sys_inv_pc; [done|]. intros m [?|[= <-]] Hm; [done|].
    apply (si_due _ Hs n); [by left|done].
  - destruct (sys_inv_run _ _ _ _ Hs Hp Hn Hr) as (x & -> & Hx & Hi & Hev).
    destruct Hs as [? ? Hh' Hk _ Hhd]. split; cbn; try done.
    + rewrite Hh', Hev. cbn. by rewrite <-Permutation_middle.
    + intros y Hy. apply Hk. rewrite Hev. by right.
    + by intros m [?|?].
    + intros te t [[= -> ->]|Hin]%elem_of_cons; [done|by apply Hhd].
Qed.

Lemma sys_inv_env s s' :
  sys_inv s → env_step s s' → sys_inv s'.
Proof.
  intros Hs Hst. destruct Hst as [s t Hle Hok|s|s tv arg i q' Hf Hr Hok Hhz He].
  - destruct Hs as [? Hnow ? Hk Hdue ?]. split; cbn; try done.
    + intros y Hy. destruct (Hk y Hy). apply tle_us in Hle; [|done|done]. split; [done|lia].
    + intros n Hp Hn. destruct (Hdue n Hp Hn) as (y & ? & ?). exists y. split; [done|]. by etrans.
  - by destruct Hs.
  - unfold oflops_schedule_timer_event in He.
    destruct (tq_add_ok (sq s) 0 arg tv (si_inv _ Hs) Hr) as (i1 & q1 & He1 & Hi & _ & Hp).
    rewrite He in He1. injection He1 as <- <-.
    destruct Hs as [? ? Hh Hk Hdue ?]. split; cbn; try done.
    + rewrite Hh, Hp. cbn. by rewrite <-Permutation_middle.
    + intros y. rewrite Hp. intros [->|Hy]%elem_of_cons; [cbn; split; [done|lia]|by apply Hk].
    + intros n Hpc Hn. unfold due. cbn. eapply due_add; [done|by apply (Hdue n)].
Qed.

Lemma sys_inv_reachable t0 q0 s :
  tq_inv q0 → tq_events q0 = [] → tv_ok t0 →
  reachable (sys_init q0 t0) s → sys_inv s.
Proof.
  intros Hi He Ht. induction 1 as [|s s' _ IH [Hs|Hs]].
  - by apply sys_inv_init.
  - by eapply sys_inv_loop.
  - by eapply sys_inv_env.
Qed.

(** ** Progress of the loop *)

(** Reflexive transitive closure of the loop's own steps. *)
Definition loop_steps : system → system → Prop := rtc loop_step.

(** An event is pending, the loop is at its top and it has not been told to
    stop: once the event is due the loop, running alone, hands an event of
    least key to the test, and the queue has that event no more. *)
Lemma loop_delivers s :
  sys_inv s →
  pc s = LTop → end_event s = false → due s →
  ∃ x s', loop_steps s s' ∧ pc s' = LTop ∧ handled s' = (timer_of x, now s) :: handled s ∧
    tq_events (sq s) ≡ₚ x :: tq_events (sq s') ∧
    now s' = now s ∧ end_event s' = false ∧ (∀ y, y ∈ tq_events (sq s) → tle (x_key x) (x_key y)).
Proof.
  intros Hs Hpc Hend Hdue. pose proof (si_now _ Hs) as Hok.
  destruct (timer_get_next_event_due (sq s) (now s)) as (n & Hn & Hd); try done.
  { by apply Hs. }
  { intros y Hy. destruct (si_keys _ Hs y Hy). split; [done|lia]. }
  assert (n ≤ 0) as Hn0 by (by apply Hd).
  destruct (tq_extract_ok (sq s) (si_inv _ Hs)) as [[He _]|(x & q1 & He & Hi & Hp & Hmin)].
  { destruct Hdue as (y & Hy & _). rewrite He in Hy. by apply not_elem_of_nil in Hy. }
  exists x, {| sq := q1; now := now s; end_event := end_event s; pc := LTop;
               handled := (timer_of x, now s) :: handled s; scheduled := scheduled s |}.
  split_and!; try done.
  - eapply rtc_l; [by apply step_lock|]. eapply rtc_l; [by eapply step_query|].
    eapply rtc_l; [eapply step_unlock; [done|by left]|].
    eapply rtc_l; [|apply rtc_refl].
    apply (step_run (with_pc (with_pc (with_pc s LLocked) (LInner n)) (LUnlocked n))
                    n (Some (timer_of x)) q1); [done..|].
    unfold timer_run_next_event. cbn. by rewrite He.
Qed.

Lemma loop_inv s s' :
  sys_inv s → loop_steps s s' → sys_inv s'.
Proof. intros Hs. induction 1; [done|]. eauto using sys_inv_loop. Qed.

Definition key_le (x y : extracted) : Prop := tle (x_key x) (x_key y).

(** The loop alone, from its top: every due event is delivered, in key order. *)
Lemma loop_drains_n n s :
  sys_inv s →
  pc s = LTop → end_event s = false → (length (tq_events (sq s)) ≤ n)%nat →
  ∃ l s', loop_steps s s' ∧ pc s' = LTop ∧
    handled s' = reverse ((λ x, (timer_of x, now s)) <$> l) ++ handled s ∧
    tq_events (sq s) ≡ₚ l ++ tq_events (sq s') ∧ StronglySorted key_le l ∧
    (∀ x, x ∈ l → tle (x_key x) (now s)) ∧
    (∀ y, y ∈ tq_events (sq s') → ¬ tle (x_key y) (now s)).
Proof.
  revert s. induction n as [|n IH]; intros s Hs Hpc Hend Hlen;
    (destruct (decide (Exists (λ y, tle (x_key y) (now s)) (tq_events (sq s)))) as [Hd|Hd];
      [|exists [], s; rewrite Exists_exists in Hd; split_and!; try done;
        [constructor|by intros ? ?%not_elem_of_nil|eauto]]).
  { apply Exists_exists in Hd as (y & Hy & _).
    destruct (tq_events (sq s)); [by apply not_elem_of_nil in Hy|cbn in *; lia]. }
  apply Exists_exists in Hd.
  destruct (loop_delivers s) as (x & s1 & H1 & Hp1 & Hh1 & He1 & Hn1 & Hend1 & Hmin);
    [done..|].
  assert (tle (x_key x) (now s)) as Hx.
  { destruct Hd as (y & Hy & ?). etrans; [by apply Hmin|done]. }
  destruct (IH s1) as (l & s2 & H2 & Hp2 & Hh2 & He2 & Hso & Hl & Hno).
  { by eapply loop_inv. } { done. } { done. }
  { pose proof (Permutation_length He1) as E. cbn in E. lia. }
  rewrite Hn1 in *.
  exists (x :: l), s2. split_and!; try done.
  - by etrans.
  - rewrite Hh2, Hh1, fmap_cons, reverse_cons, <-app_assoc. done.
  - rewrite He1, He2. done.
  - constructor; [done|]. apply Forall_forall. intros y Hy. apply Hmin.
    rewrite He1, He2. apply elem_of_cons; right. apply elem_of_app; by left.
  - intros y [->|Hy]%elem_of_cons; [done|by apply Hl].
Qed.

(** ** The properties of the timer layer *)

(** The result of timer_get_next_event is truncated to an int: when the
    first event is between 2^31 and 2^32 microseconds away (36 to 71 minutes),
    the result is negative, so that event_loop takes the event for overdue and
    delivers it at once, although no event of the queue is due. *)
Theorem timer_get_next_event_truncates q t x :
  tq_inv q → tv_ok t → tv_ok (x_key x) → x ∈ tq_events q →
  (∀ y, y ∈ tq_events q → tle (x_key x) (x_key y)) →
  INT_MAX < tv_us (x_key x) - tv_us t < 2^32 →
  ∃ n, timer_get_next_event q t = Ok n ∧ n < 0 ∧
    n = tv_us (x_key x) - tv_us t - 2^32 ∧
    (∀ y, y ∈ tq_events q → ¬ tle (x_key y) t).
Proof.
  intros Hq Ht Hx Hin Hmin Hd.
  assert (timercmp_lt t (x_key x) = true) as Hlt.
  { apply timercmp_us; unfold INT_MAX in *; [done..|lia]. }
  assert (∀ y, y ∈ tq_events q → ¬ tle (x_key y) t) as Hnone.
  { intros y Hy Hyt. pose proof (tle_trans _ _ _ (Hmin y Hy) Hyt) as Hxt. unfold tle in Hxt. congruence. }
  unfold timer_get_next_event.
  destruct (tq_delta_ok q t Hq) as [[He _]|(x' & Hx' & Hmin' & ->)].
  { rewrite He in Hin. by apply not_elem_of_nil in Hin. }
  assert (x_key x' = x_key x) as ->.
  { apply tle_antisym; auto. }
  destruct (timercmp_lt (x_key x) t) eqn:E; [exfalso; apply (Hnone x Hin); auto with oflops|].
  cbn. pose proof (timersub_us (x_key x) t Hx Ht) as [Hus Hun].
  set (d := timersub (x_key x) t) in *. unfold tv_us in Hus at 1. unfold tv_ok, INT_MAX, tv_us in *.
  rewrite (i64_id (_ * _)), i64_id by lia. rewrite Hus in *.
  eexists; split; [reflexivity|]. unfold i32.
  split_and!; [| |done]; Z.to_euclidean_division_equations; lia.
Qed.
(** The loop alone, from its start, on a queue whose first event is that far
    away: the event is handed over, although none is due. *)
Lemma far_event_early q t x :
  tq_inv q → tv_ok t → tv_ok (x_key x) → x ∈ tq_events q →
  (∀ y, y ∈ tq_events q → tle (x_key x) (x_key y)) →
  INT_MAX < tv_us (x_key x) - tv_us t < 2^32 →
  ∃ y s', loop_steps (sys_init q t) s' ∧ pc s' = LTop ∧ handled s' = [(timer_of y, t)] ∧ ¬ tle (x_key y) t.
Proof.
  intros Hq Ht Hx Hin Hmin Hd.
  destruct (timer_get_next_event_truncates q t x Hq Ht Hx Hin Hmin Hd) as (n & Hn & Hn0 & _ & Hnone).
  destruct (tq_extract_ok q Hq) as [[He _]|(y & q1 & He & Hi & Hp & _)].
  { rewrite He in Hin. by apply not_elem_of_nil in Hin. }
  exists y. eexists. split; [|split; [|split; [|apply Hnone; rewrite Hp; by left]]].
  - eapply rtc_l; [by apply step_lock|]. eapply rtc_l; [by eapply step_query|].
    eapply rtc_l; [eapply step_unlock; [done|left; lia]|]. eapply rtc_l; [|apply rtc_refl].
    apply (step_run (with_pc (with_pc (with_pc (sys_init q t) LLocked) (LInner n)) (LUnlocked n)) n (Some (timer_of y)) q1);
      [done|lia|]. unfold timer_run_next_event. cbn. by rewrite He.
  - done.
  - done.
Qed.

(** C6. Timers fire exactly once and never early.  As long as every event is
    scheduled at most INT_MAX microseconds (about 35 minutes) ahead of the
    clock and the clock does not go back, in every state the interleaved
    program can reach the events handed to the test together with those still
    queued are exactly the events ever scheduled (nothing lost, nothing
    duplicated, identifiers and arguments intact), and each was handed over at
    or after its time.  The distance matters: an event up to twice as far away
    that is the first of its queue is handed over at once. *)
Theorem timer_exactly_once_never_early q0 t0 :
  tq_inv q0 → tv_ok t0 →
  (∀ s, tq_events q0 = [] → reachable (sys_init q0 t0) s →
    (timer_of <$> scheduled s) ≡ₚ (fst <$> handled s) ++ (timer_of <$> tq_events (sq s)) ∧
    (∀ te t, (te, t) ∈ handled s → tle (sched_time te) t)) ∧
  (∀ x, tv_ok (x_key x) → x ∈ tq_events q0 → (∀ y, y ∈ tq_events q0 → tle (x_key x) (x_key y)) →
    INT_MAX < tv_us (x_key x) - tv_us t0 < 2^32 →
    ∃ y s', loop_steps (sys_init q0 t0) s' ∧ pc s' = LTop ∧ handled s' = [(timer_of y, t0)] ∧ ¬ tle (x_key y) t0).
Proof.
  intros Hq Ht. split; [|intros; by eapply far_event_early].
  intros s He Hr. destruct (sys_inv_reachable _ _ _ Hq He Ht Hr) as [_ _ Hp _ _ Hd]. done.
Qed.

(** C7. Due timers are delivered.  As long as every event is scheduled at most
    INT_MAX microseconds (about 35 minutes) ahead of the clock and the clock
    does not go back, from any reachable state in which the loop is at its top
    and has not been told to stop, the loop's own steps reach a state in which
    every event that was due has been handed to the test, in the order of their
    times, no other event has been, and none is due. *)
Theorem timer_due_delivered q0 t0 s :
  tq_inv q0 → tq_events q0 = [] → tv_ok t0 →
  reachable (sys_init q0 t0) s → pc s = LTop → end_event s = false →
  ∃ l s', loop_steps s s' ∧ pc s' = LTop ∧
    handled s' = reverse ((λ x, (timer_of x, now s)) <$> l) ++ handled s ∧
    tq_events (sq s) ≡ₚ l ++ tq_events (sq s') ∧ StronglySorted key_le l ∧
    (∀ x, x ∈ l → tle (x_key x) (now s)) ∧
    (∀ y, y ∈ tq_events (sq s') → ¬ tle (x_key y) (now s)).
Proof.
  intros Hq He Ht Hr Hpc Hend.
  eapply loop_drains_n; try done. by eapply sys_inv_reachable.
Qed.
End timer.

(** ** The timer layer on the binary heap *)

(** timer_init: the previous queue, if any, is freed and replaced. *)
Definition timer_init (g : wc_globals) (timers : option wc_queue) : res (wc_globals * wc_queue) :=
  let g := match timers with Some pq => wc_queue_free pq g | None => g end in
  pq ← wc_queue_init 10;
  mret (g, pq).

(** timer_init always returns a sound, empty queue with room for events;
    the event objects of a queue it replaces stay allocated although no
    element names them any more (wc_queue_free releases only the array). *)
Theorem timer_init_fresh_but_leaks g old :
  wf g old → 0 ≤ WC_EVENT_ID g < INT_MAX →
  ∃ pq, timer_init g (Some old) = Ok (g, pq) ∧ wf g pq ∧ has_room g pq ∧ events g pq = [] ∧
    queued_addrs pq = ∅ ∧ queued_addrs old ⊆ dom (objs g).
Proof.
  intros Hwf Hid. destruct (wc_queue_init_spec 10 g) as (pq & Hpq & Hwf' & Hs & Hl & Hq).
  { lia. } { apply Hwf. }
  exists pq. unfold timer_init. rewrite Hpq. split_and!; try done.
  - unfold has_room. lia.
  - unfold events. by rewrite Hq.
  - unfold queued_addrs. by rewrite Hq.
  - intros p. unfold queued_addrs. rewrite elem_of_list_to_set, list_elem_of_fmap.
    intros (q & -> & Hin). destruct (wf_live _ _ (wf_obj _ _ Hwf) q Hin) as (e & He & _).
    by apply elem_of_dom_2 in He.
Qed.

Lemma timer_init_fresh_but_leaks_witness :
  (0 ≤ WC_EVENT_ID demo_g < INT_MAX) ∧
  ∃ pq, timer_init demo_g (Some demo_pq) = Ok (demo_g, pq) ∧ wf demo_g pq ∧
    has_room demo_g pq ∧ events demo_g pq = [] ∧
    queued_addrs pq = ∅ ∧ queued_addrs demo_pq ⊆ dom (objs demo_g).
Proof.
  split; [vm_compute; split; congruence|].
  apply (timer_init_fresh_but_leaks demo_g demo_pq); [exact demo_wf|vm_compute; split; congruence].
Defined.

(** The wait of event_loop: for a positive time to the next event and a
    normalised clock value the deadline is normalised and lies exactly
    min(next_event, 1 s) ahead, so that the loop neither oversleeps the event
    nor ignores end_event for more than a second. *)
Theorem wait_deadline_bound ts n :
  0 ≤ ts_sec ts < 2^40 → 0 ≤ ts_nsec ts < 1000000000 → 0 < n ≤ INT_MAX →
  0 ≤ ts_nsec (wait_deadline ts n) < 1000000000 ∧
  ts_ns (wait_deadline ts n) = ts_ns ts + Z.min (n * 1000) 1000000000.
Proof.
  unfold ts_ns, wait_deadline, INT_MAX. intros Hn Hs Hb.
  rewrite Z.quot_div_nonneg, Z.rem_mod_nonneg by lia.
  destruct (n `div` 1000000 >? 0) eqn:E; cbn.
  - rewrite i64_id by lia. Z.to_euclidean_division_equations; lia.
  - assert (n `div` 1000000 = 0) as -> by (Z.to_euclidean_division_equations; lia).
    assert (n `mod` 1000000 = n) as -> by (Z.to_euclidean_division_equations; lia).
    assert (n < 1000000) by (Z.to_euclidean_division_equations; lia).
    rewrite (i64_id (ts_nsec ts + _)), (i64_id (ts_sec ts + 0)) by lia.
    destruct (_ >=? _) eqn:E2; cbn; rewrite ?i64_id by lia; lia.
Qed.

Lemma wait_deadline_bound_witness :
  let ts := {| ts_sec := 1400000000; ts_nsec := 999999999 |} in
  0 ≤ ts_nsec (wait_deadline ts 20) < 1000000000 ∧
  ts_ns (wait_deadline ts 20) = ts_ns ts + Z.min (20 * 1000) 1000000000.
Proof.
  intros ts. apply wait_deadline_bound; vm_compute; repeat split; congruence.
Defined.

(** *** A concrete run *)

Fixpoint exec_n {Q : Type} {TQ : TimerQueue Q} (n : nat) (s : @system Q) : res (@system Q) :=
  match n with
  | O => mret s
  | S n => o ← loop_exec s; match o with Some s' => exec_n n s' | None => mret s end
  end.

Lemma exec_n_reachable {Q : Type} {TQ : TimerQueue Q} n (s0 s s' : @system Q) :
  reachable s0 s → exec_n n s = Ok s' → reachable s0 s'.
Proof.
  revert s. induction n as [|n IH]; cbn; intros s Hr Hs; [by injection Hs as <-|].
  apply bind_Ok in Hs as (o & Ho & Hs). destruct o as [s1|]; [|by injection Hs as <-].
  eapply IH; [|done]. eapply reach_step; [done|]. left. by apply loop_exec_sound.
Qed.

Definition demo_q0 : wcst :=
  (wc_globals0, {| array := arr_new 10; qlength := 10; size := 0; timersEnabled := 0 |}).

Lemma demo_q0_inv : tq_inv demo_q0.
Proof.
  destruct (wc_queue_init_spec 10 wc_globals0) as (pq & Hpq & Hwf & _); [lia|done|].
  injection Hpq as <-. exact Hwf.
Qed.

Definition at_us (n : Z) : timeval := {| tv_sec := n `div` 1000000; tv_usec := n `mod` 1000000 |}.

(** One event, [d] microseconds after the start at 100 s, scheduled at once;
    the clock then moves to 100 s + [e] microseconds. *)
Definition demo_sched (d : Z) : @system wcst :=
  match oflops_schedule_timer_event demo_q0 (at_us (100000000 + d)) 7 with
  | Ok (i, q') =>
    {| sq := q'; now := at_us 100000000; end_event := false; pc := LTop; handled := [];
       scheduled := [as_event i (at_us (100000000 + d)) 7] |}
  | Fault _ => sys_init demo_q0 (at_us 100000000)
  end.
Definition demo_at (d e : Z) : @system wcst :=
  {| sq := sq (demo_sched d); now := at_us (100000000 + e); end_event := false; pc := LTop;
     handled := []; scheduled := scheduled (demo_sched d) |}.

Lemma demo_at_reachable : reachable (sys_init demo_q0 (at_us 100000000)) (demo_at 500 600).
Proof.
  eapply (reach_step _ (demo_sched 500)).
  - eapply reach_step; [apply reach_refl|]. right.
    eapply (step_schedule (sys_init demo_q0 (at_us 100000000)) (at_us 100000500) 7 0);
      [done|cbn; unfold has_room, INT_MAX; cbn; lia|..].
    all: vm_compute; repeat split; try done.
  - right. apply (step_tick (demo_sched 500) (at_us 100000600)); vm_compute; repeat split; try done.
Qed.

Definition demo_done : @system wcst :=
  match exec_n 4 (demo_at 500 600) with Ok s => s | Fault _ => demo_at 500 600 end.

Example demo_done_handled :
  handled demo_done = [({| timer_id := 0; te_arg := 7; sched_time := at_us 100000500 |}, at_us 100000600)].
Proof. vm_compute. reflexivity. Qed.

Lemma demo_done_reachable : reachable (sys_init demo_q0 (at_us 100000000)) demo_done.
Proof.
  apply (exec_n_reachable 4 _ (demo_at 500 600)); [exact demo_at_reachable|].
  vm_compute. reflexivity.
Qed.

(** An event 50 minutes away is delivered at once. *)
Example far_event_delivered_at_once :
  (s ← exec_n 4 (demo_at 3000000000 0); mret (handled s)) =
  Ok [({| timer_id := 0; te_arg := 7; sched_time := at_us 3100000000 |}, at_us 100000000)].
Proof. vm_compute. reflexivity. Qed.

Lemma demo_far_inv : tq_inv (sq (demo_at 3000000000 0)).
Proof.
  destruct (tq_add_ok demo_q0 0 7 (at_us 3100000000) demo_q0_inv) as (i & q' & He & Hi & _).
  { cbn. unfold has_room, INT_MAX. cbn. lia. }
  change (sq (demo_at 3000000000 0)) with (sq (demo_sched 3000000000)).
  unfold demo_sched, oflops_schedule_timer_event. change (100000000 + 3000000000) with 3100000000.
  by rewrite He.
Qed.

Lemma timer_exactly_once_never_early_witness :
  ((timer_of <$> scheduled demo_done) ≡ₚ
    (fst <$> handled demo_done) ++ (timer_of <$> tq_events (sq demo_done)) ∧
  (∀ te t, (te, t) ∈ handled demo_done → tle (sched_time te) t)) ∧
  ∃ y s', loop_steps (sys_init (sq (demo_at 3000000000 0)) (at_us 100000000)) s' ∧ pc s' = LTop ∧
    handled s' = [(timer_of y, at_us 100000000)] ∧ ¬ tle (x_key y) (at_us 100000000).
Proof.
  assert (tv_ok (at_us 100000000)) as Ht by (vm_compute; repeat split; congruence). split.
  - apply (proj1 (timer_exactly_once_never_early demo_q0 (at_us 100000000) demo_q0_inv Ht) demo_done).
    + vm_compute. reflexivity.
    + exact demo_done_reachable.
  - apply (proj2 (timer_exactly_once_never_early (sq (demo_at 3000000000 0)) (at_us 100000000) demo_far_inv Ht)
             (as_event 0 (at_us 3100000000) 7)).
    + vm_compute. repeat split; congruence.
    + vm_compute. left.
    + intros y Hy. vm_compute in Hy. apply list_elem_of_singleton in Hy as ->. by vm_compute.
    + vm_compute. repeat split; congruence.
Defined.

Lemma timer_due_delivered_witness :
  ∃ l s', loop_steps (demo_at 500 600) s' ∧ pc s' = LTop ∧
    handled s' = reverse ((λ x, (timer_of x, at_us 100000600)) <$> l) ++ [] ∧
    tq_events (sq (demo_at 500 600)) ≡ₚ l ++ tq_events (sq s') ∧ StronglySorted key_le l ∧
    (∀ x, x ∈ l → tle (x_key x) (at_us 100000600)) ∧
    (∀ y, y ∈ tq_events (sq s') → ¬ tle (x_key y) (at_us 100000600)).
Proof.
  apply (timer_due_delivered demo_q0 (at_us 100000000) (demo_at 500 600)).
  - exact demo_q0_inv.
  - vm_compute. reflexivity.
  - vm_compute. repeat split; congruence.
  - exact demo_at_reachable.
  - reflexivity.
  - reflexivity.
Defined.

Lemma timer_get_next_event_truncates_witness :
  ∃ n, timer_get_next_event (sq (demo_at 3000000000 0)) (at_us 100000000) = Ok n ∧ n < 0 ∧
    n = tv_us (at_us 3100000000) - tv_us (at_us 100000000) - 2^32 ∧
    (∀ y, y ∈ tq_events (sq (demo_at 3000000000 0)) → ¬ tle (x_key y) (at_us 100000000)).
Proof.
  apply (timer_get_next_event_truncates (sq (demo_at 3000000000 0)) (at_us 100000000)
           (as_event 0 (at_us 3100000000) 7)).
  - exact demo_far_inv.
  - vm_compute. repeat split; congruence.
  - vm_compute. repeat split; congruence.
  - vm_compute. left.
  - intros y Hy. vm_compute in Hy. apply list_elem_of_singleton in Hy as ->. by vm_compute.
  - vm_compute. repeat split; congruence.
Defined.
