(* ===== verification/CBytes.v ===== *)
(** * Byte-addressed objects

    A C object as the list of its cells, each holding a byte or, until it is
    first written, nothing; reads of integers in network and host order (the
    host is little-endian), memcpy, and the stdlib's byte-order conversions. *)

From S2P Require Import Prelude.
Open Scope Z_scope.

(** ** Objects *)

Definition mem := list (option Z).

Definition is_byte (b : Z) : Prop := 0 ≤ b < 256.
#[export] Instance is_byte_dec b : Decision (is_byte b).
Proof. unfold is_byte. apply _. Defined.

(** [malloc n]: [n] indeterminate cells (none for a size the allocator refuses,
    so that every access through the NULL it returns is out of bounds). *)
Definition mem_new (n : Z) : mem := replicate (Z.to_nat n) None.
(** [calloc] / [bzero]. *)
Definition mem_zero (n : Z) : mem := replicate (Z.to_nat n) (Some 0).

Definition in_bounds (m : mem) (off n : Z) : Prop := 0 ≤ off ∧ 0 ≤ n ∧ off + n ≤ zlen m.
#[export] Instance in_bounds_dec m off n : Decision (in_bounds m off n).
Proof. unfold in_bounds. apply _. Defined.

(** [n] cells from [off], as memcpy reads them. *)
Definition slice (m : mem) (off n : Z) : mem := take (Z.to_nat n) (drop (Z.to_nat off) m).

Definition rd_cells (m : mem) (off n : Z) : res mem :=
  if decide (in_bounds m off n) then Ok (slice m off n) else Fault FBounds.

Definition splice (m : mem) (off : Z) (c : mem) : mem :=
  take (Z.to_nat off) m ++ c ++ drop (Z.to_nat off + length c) m.

(** memcpy into the object. *)
Definition wr_cells (m : mem) (off : Z) (c : mem) : res mem :=
  if decide (in_bounds m off (zlen c)) then Ok (splice m off c) else Fault FBounds.

Definition rd8 (m : mem) (off : Z) : res Z :=
  match zget m off with
  | Some (Some b) => Ok b
  | Some None => Fault FUninit
  | None => Fault FBounds
  end.

(** All the cells as bytes; a use of an indeterminate cell is a fault. *)
Fixpoint bytes_of (c : mem) : res (list Z) :=
  match c with
  | [] => mret []
  | Some b :: c => bs ← bytes_of c; mret (b :: bs)
  | None :: _ => Fault FUninit
  end.

Definition cells (bs : list Z) : mem := Some <$> bs.

Definition rd_bytes (m : mem) (off n : Z) : res (list Z) :=
  c ← rd_cells m off n; bytes_of c.
Definition wr_bytes (m : mem) (off : Z) (bs : list Z) : res mem := wr_cells m off (cells bs).
Definition wr8 (m : mem) (off b : Z) : res mem := wr_bytes m off [u8 b].

(** ** Integers in memory *)

Definition be16 (z : Z) : list Z := [u8 (z `div` 256); u8 z].
Definition be32 (z : Z) : list Z := be16 (z `div` 65536) ++ be16 z.
Definition be64 (z : Z) : list Z := be32 (z `div` 2^32) ++ be32 z.
Definition le32 (z : Z) : list Z := reverse (be32 z).
Definition le16 (z : Z) : list Z := reverse (be16 z).

Definition un_be16 (bs : list Z) : Z :=
  match bs with [a; b] => a * 256 + b | _ => 0 end.
Definition un_be32 (bs : list Z) : Z :=
  match bs with [a; b; c; d] => ((a * 256 + b) * 256 + c) * 256 + d | _ => 0 end.

(** [ntohs] of a 16-bit field, [ntohl] of a 32-bit field. *)
Definition rd16be (m : mem) (off : Z) : res Z := bs ← rd_bytes m off 2; mret (un_be16 bs).
Definition rd32be (m : mem) (off : Z) : res Z := bs ← rd_bytes m off 4; mret (un_be32 bs).
(** A field assigned with [htons] / [htonl]. *)
Definition wr16be (m : mem) (off z : Z) : res mem := wr_bytes m off (be16 z).
Definition wr32be (m : mem) (off z : Z) : res mem := wr_bytes m off (be32 z).
(** A field assigned without conversion on a little-endian host. *)
Definition wr16le (m : mem) (off z : Z) : res mem := wr_bytes m off (le16 z).
Definition wr32le (m : mem) (off z : Z) : res mem := wr_bytes m off (le32 z).

(** ** Lemmas *)

Lemma zlen_cells bs : zlen (cells bs) = zlen bs.
Proof. unfold zlen, cells. by rewrite length_fmap. Qed.
Lemma zlen_mem_new n : 0 ≤ n → zlen (mem_new n) = n.
Proof. unfold zlen, mem_new. rewrite length_replicate. lia. Qed.
Lemma zlen_mem_zero n : 0 ≤ n → zlen (mem_zero n) = n.
Proof. unfold zlen, mem_zero. rewrite length_replicate. lia. Qed.
Lemma zlen_app {A} (l k : list A) : zlen (l ++ k) = zlen l + zlen k.
Proof. unfold zlen. rewrite length_app. lia. Qed.
Lemma zlen_nonneg {A} (l : list A) : 0 ≤ zlen l.
Proof. unfold zlen. lia. Qed.

Lemma zlen_cons {A} (x : A) l : zlen (x :: l) = 1 + zlen l.
Proof. unfold zlen. cbn [length]. lia. Qed.
Lemma zlen_be16 z : zlen (be16 z) = 2. Proof. done. Qed.
Lemma zlen_be32 z : zlen (be32 z) = 4. Proof. done. Qed.

Lemma zlen_splice m off c : in_bounds m off (zlen c) → zlen (splice m off c) = zlen m.
Proof.
  unfold in_bounds, splice, zlen. intros. rewrite !length_app, length_take, length_drop. lia.
Qed.
Lemma zlen_slice m off n : in_bounds m off n → zlen (slice m off n) = n.
Proof. unfold in_bounds, slice, zlen. intros. rewrite length_take, length_drop. lia. Qed.

Lemma bytes_of_cells bs : bytes_of (cells bs) = Ok bs.
Proof. unfold cells. induction bs as [|b bs IH]; [done|]. cbn in *. by rewrite IH. Qed.
Lemma bytes_of_Ok c bs : bytes_of c = Ok bs → c = cells bs.
Proof.
  revert bs. induction c as [|[b|] c IH]; cbn; intros bs H; res_inv; [done|].
  unfold cells in *. cbn. f_equal. by apply IH.
Qed.

Lemma wr_cells_ok m off c :
  in_bounds m off (zlen c) → wr_cells m off c = Ok (splice m off c).
Proof. intros. unfold wr_cells. by rewrite decide_True. Qed.
Lemma rd_cells_ok m off n : in_bounds m off n → rd_cells m off n = Ok (slice m off n).
Proof. intros. unfold rd_cells. by rewrite decide_True. Qed.

(** Reading back what was written. *)
Lemma slice_splice_eq m off c : in_bounds m off (zlen c) → slice (splice m off c) off (zlen c) = c.
Proof.
  unfold in_bounds, slice, splice, zlen. intros.
  rewrite drop_app_length' by (rewrite length_take; lia).
  by rewrite take_app_length' by lia.
Qed.

(** A write elsewhere does not change a read. *)
Lemma slice_splice_ne m off c off' n :
  in_bounds m off (zlen c) → in_bounds m off' n →
  off' + n ≤ off ∨ off + zlen c ≤ off' → slice (splice m off c) off' n = slice m off' n.
Proof.
  unfold in_bounds, slice, splice, zlen. intros Hb Hb' Hd. apply list_eq. intros i.
  destruct (decide (i < Z.to_nat n)%nat); [|rewrite !lookup_take_ge by lia; done].
  rewrite !lookup_take_lt, !lookup_drop by lia.
  destruct Hd.
  - rewrite lookup_app_l by (rewrite length_take; lia). by rewrite lookup_take_lt by lia.
  - rewrite app_assoc, lookup_app_r by (rewrite length_app, length_take; lia).
    rewrite lookup_drop, length_app, length_take. f_equal. lia.
Qed.

Lemma slice_app m off n k :
  in_bounds m off (n + k) → 0 ≤ n → 0 ≤ k → slice m off (n + k) = slice m off n ++ slice m (off + n) k.
Proof.
  unfold in_bounds, slice. intros. rewrite !Z2Nat.inj_add by lia.
  by rewrite <-take_take_drop, drop_drop.
Qed.

Lemma slice_0 m off : slice m off 0 = [].
Proof. done. Qed.

Lemma splice_nil m off : in_bounds m off 0 → splice m off [] = m.
Proof.
  unfold in_bounds, splice. intros. cbn. rewrite Nat.add_0_r. by apply take_drop.
Qed.

Lemma un_be16_be16 z : 0 ≤ z < 2^16 → un_be16 (be16 z) = z.
Proof. unfold un_be16, be16, u8. intros. Z.to_euclidean_division_equations; lia. Qed.

Lemma un_be32_be32 z : 0 ≤ z < 2^32 → un_be32 (be32 z) = z.
Proof. unfold un_be32, be32, be16, u8. cbn [app]. intros. Z.to_euclidean_division_equations; lia. Qed.

Lemma be32_un_be32 a b c d :
  is_byte a → is_byte b → is_byte c → is_byte d → be32 (un_be32 [a; b; c; d]) = [a; b; c; d].
Proof.
  unfold is_byte. intros. unfold be32, be16, u8, un_be32. cbn [app].
  assert ((((a * 256 + b) * 256 + c) * 256 + d) `div` 65536 = a * 256 + b) as ->
    by (Z.to_euclidean_division_equations; lia).
  f_equal; [Z.to_euclidean_division_equations; lia|]. f_equal; [Z.to_euclidean_division_equations; lia|].
  f_equal; [Z.to_euclidean_division_equations; lia|]. f_equal. Z.to_euclidean_division_equations; lia.
Qed.

Lemma is_byte_u8 z : is_byte (u8 z).
Proof. unfold is_byte, u8. pose proof (Z.mod_pos_bound z (2^8)). lia. Qed.

Lemma be16_bytes z : Forall is_byte (be16 z).
Proof. repeat constructor; apply is_byte_u8. Qed.
Lemma be32_bytes z : Forall is_byte (be32 z).
Proof. repeat constructor; apply is_byte_u8. Qed.

(** ** A prefix of an object *)

Lemma mem_zero_app n k : 0 ≤ n → 0 ≤ k → mem_zero (n + k) = mem_zero n ++ mem_zero k.
Proof. intros. unfold mem_zero. by rewrite Z2Nat.inj_add, replicate_add by lia. Qed.

Lemma wr_cells_app m r off c m' :
  wr_cells m off c = Ok m' → wr_cells (m ++ r) off c = Ok (m' ++ r).
Proof.
  unfold wr_cells. case_decide as Hb; [|done]. intros [= <-]. unfold in_bounds, zlen in *.
  rewrite decide_True by (rewrite length_app; lia). f_equal. unfold splice.
  rewrite take_app_le, drop_app_le by lia. by rewrite <-!app_assoc.
Qed.

Lemma rd_cells_app m r off n c : rd_cells m off n = Ok c → rd_cells (m ++ r) off n = Ok c.
Proof.
  unfold rd_cells. case_decide as Hb; [|done]. intros [= <-]. unfold in_bounds, zlen in *.
  rewrite decide_True by (rewrite length_app; lia). f_equal. unfold slice.
  rewrite drop_app_le by lia. rewrite take_app_le by (rewrite length_drop; lia). done.
Qed.

Lemma rd_bytes_app m r off n bs : rd_bytes m off n = Ok bs → rd_bytes (m ++ r) off n = Ok bs.
Proof.
  unfold rd_bytes. intros (c & Hc & Hb)%bind_Ok. by rewrite (rd_cells_app _ _ _ _ _ Hc).
Qed.

(** Access behind a prefix. *)
Lemma wr_cells_shift p m off k c m' :
  off = zlen p + k → wr_cells m k c = Ok m' → wr_cells (p ++ m) off c = Ok (p ++ m').
Proof.
  intros ->. unfold wr_cells. case_decide as Hb; [|done]. intros [= <-]. unfold in_bounds, zlen in *.
  rewrite decide_True by (rewrite length_app; lia). f_equal. unfold splice.
  replace (Z.to_nat (Z.of_nat (length p) + k)) with (length p + Z.to_nat k)%nat by lia.
  rewrite take_app_add, <-app_assoc, <-Nat.add_assoc, drop_app_add. done.
Qed.

Lemma rd_cells_shift p m off k n c :
  off = zlen p + k → rd_cells m k n = Ok c → rd_cells (p ++ m) off n = Ok c.
Proof.
  intros ->. unfold rd_cells. case_decide as Hb; [|done]. intros [= <-]. unfold in_bounds, zlen in *.
  rewrite decide_True by (rewrite length_app; lia). f_equal. unfold slice.
  replace (Z.to_nat (Z.of_nat (length p) + k)) with (length p + Z.to_nat k)%nat by lia.
  by rewrite drop_app_add.
Qed.

Lemma rd_bytes_shift p m off k n bs :
  off = zlen p + k → rd_bytes m k n = Ok bs → rd_bytes (p ++ m) off n = Ok bs.
Proof.
  intros Ho. unfold rd_bytes. intros (c & Hc & Hb)%bind_Ok. by rewrite (rd_cells_shift _ _ _ _ _ _ Ho Hc).
Qed.

#[export] Hint Resolve zlen_nonneg is_byte_u8 : oflops.
