(* ===== verification/MsgBuf.v ===== *)
(** * Message buffers (msgbuf.c)

    The growing byte buffer used on both sides of a control channel, with the
    non-blocking socket it is filled from and flushed to. *)

From S2P Require Import Prelude CBytes.
Open Scope Z_scope.

(** ** The socket *)

(** What the kernel answers to successive read and write calls.  A socket with
    nothing more to say answers EAGAIN, as a non-blocking socket does. *)
Inductive rd_evt := RdData (bs : list Z) | RdEof | RdErr (e : Z).
Inductive wr_evt := WrAccept (k : Z) | WrErr (e : Z).

Record sock := {
  rx : list rd_evt;      (* answers to read *)
  tx : list wr_evt;      (* answers to write *)
  sent : list Z;         (* the bytes accepted so far *)
  errno : Z;
}.

Definition EINTR : Z := 4.
Definition EAGAIN : Z := 11.
Definition EWOULDBLOCK : Z := 11.

Definition with_rx (s : sock) (r : list rd_evt) : sock :=
  {| rx := r; tx := tx s; sent := sent s; errno := errno s |}.
Definition with_errno (s : sock) (e : Z) : sock :=
  {| rx := rx s; tx := tx s; sent := sent s; errno := e |}.

(** read(2): the bytes delivered (at most [n]; what does not fit stays
    queued), or the error. *)
Definition c_read (s : sock) (n : Z) : Z * list Z * sock :=
  if n =? 0 then (0, [], s)
  else match rx s with
  | RdData bs :: r =>
    let got := take (Z.to_nat n) bs in
    let rest := drop (Z.to_nat n) bs in
    (zlen got, got, with_rx s (match rest with [] => r | _ => RdData rest :: r end))
  | RdEof :: r => (0, [], with_rx s (RdEof :: r))
  | RdErr e :: r => (-1, [], with_errno (with_rx s r) e)
  | [] => (-1, [], with_errno s EAGAIN)
  end.

(** write(2): the kernel accepts a prefix. *)
Definition c_write (s : sock) (bs : list Z) : Z * sock :=
  match tx s with
  | WrAccept k :: t =>
    let n := Z.min (Z.max 0 k) (zlen bs) in
    (n, {| rx := rx s; tx := t; sent := sent s ++ take (Z.to_nat n) bs; errno := errno s |})
  | WrErr e :: t => (-1, {| rx := rx s; tx := t; sent := sent s; errno := e |})
  | [] => (-1, with_errno s EAGAIN)
  end.

(** ** struct msgbuf and its operations *)

Record msgbuf := { buf : mem; len : Z; start : Z; end_ : Z }.

(** The second assertion of msgbuf_new tests the length, not the pointer. *)
Definition msgbuf_new (bufsize : Z) : res msgbuf :=
  c_assert (negb (bufsize =? 0));;
  mret {| buf := mem_new bufsize; len := bufsize; start := 0; end_ := 0 |}.

Definition msgbuf_count_buffered (mb : msgbuf) : Z := end_ mb - start mb.

Definition msgbuf_clear (mb : msgbuf) : msgbuf :=
  {| buf := buf mb; len := len mb; start := 0; end_ := 0 |}.

(** [realloc] keeps the cells that fit and leaves the others indeterminate. *)
Definition realloc (m : mem) (n : Z) : mem :=
  take (Z.to_nat n) m ++ mem_new (n - zlen m).

Definition msgbuf_grow (mb : msgbuf) : res msgbuf :=
  n ← chk_int (len mb * 2);
  mret {| buf := realloc (buf mb) n; len := n; start := start mb; end_ := end_ mb |}.

Definition msgbuf_read (mb : msgbuf) (s : sock) : res (Z * msgbuf * sock) :=
  let n := len mb - end_ mb in
  if n <? 0 then Fault FBounds
  else
    let '(count, bs, s) := c_read s n in
    b ← wr_bytes (buf mb) (end_ mb) bs;
    let mb := {| buf := b; len := len mb; start := start mb;
                 end_ := if count >? 0 then end_ mb + count else end_ mb |} in
    mb ← (if end_ mb >=? len mb then msgbuf_grow mb else mret mb);
    mret (count, mb, s).

Definition retry (e : Z) : bool := (e =? EWOULDBLOCK) || (e =? EINTR) || (e =? EAGAIN).

Fixpoint read_all_loop (fuel : nat) (mb : msgbuf) (s : sock) (len count : Z) :
    res (Z * msgbuf * sock) :=
  match fuel with
  | O => Fault FFuel
  | S fuel =>
    if count <? len then
      '(tmp, mb, s) ← msgbuf_read mb s;
      if (tmp =? 0) || ((tmp <? 0) && negb (retry (errno s))) then mret (tmp, mb, s)
      else read_all_loop fuel mb s len (if tmp >? 0 then count + tmp else count)
    else mret (count, mb, s)
  end.

Definition msgbuf_read_all (fuel : nat) (mb : msgbuf) (s : sock) (len : Z) :=
  read_all_loop fuel mb s len 0.

(** The reset when everything has been consumed. *)
Definition rewind (mb : msgbuf) : msgbuf :=
  if start mb >=? end_ mb then msgbuf_clear mb else mb.

(** [b = mbuf->buf[mbuf->start]] is read before anything is checked, the byte may
    never have been written, and its value is never used: only the access is
    checked here, not that the byte is initialised. *)
Definition msgbuf_write (mb : msgbuf) (s : sock) (len : Z) : res (Z * msgbuf * sock) :=
  _ ← rd_cells (buf mb) (start mb) 1;
  let send_len := end_ mb - start mb in
  if (len >? 0) && (send_len <? len) then mret (-1, mb, s)
  else
    let send_len := if (len >? 0) && (send_len >? len) then len else send_len in
    bs ← rd_bytes (buf mb) (start mb) send_len;
    let '(count, s) := c_write s bs in
    let mb := {| buf := buf mb; len := MsgBuf.len mb;
                 start := if count >? 0 then start mb + count else start mb;
                 end_ := end_ mb |} in
    mret (count, rewind mb, s).

(** [count] is only added to when it is already positive. *)
Fixpoint write_all_loop (fuel : nat) (mb : msgbuf) (s : sock) (len count : Z) :
    res (Z * msgbuf * sock) :=
  match fuel with
  | O => Fault FFuel
  | S fuel =>
    if start mb <? end_ mb then
      '(tmp, mb, s) ← msgbuf_write mb s len;
      if (tmp <? 0) && negb (retry (errno s)) then mret (tmp, mb, s)
      else write_all_loop fuel mb s len (if count >? 0 then count + tmp else count)
    else mret (count, mb, s)
  end.

Definition msgbuf_write_all (fuel : nat) (mb : msgbuf) (s : sock) (len : Z) :=
  write_all_loop fuel mb s len 0.

(** The address of the first buffered byte, as an index; NULL when empty. *)
Definition msgbuf_peek (mb : msgbuf) : option Z :=
  if start mb >=? end_ mb then None else Some (start mb).

(** [want]: whether the caller passes a buffer to copy into. *)
Definition msgbuf_pull (mb : msgbuf) (want : bool) (count : Z) : res (Z * mem * msgbuf) :=
  let min := Z.min count (end_ mb - start mb) in
  if min <=? 0 then mret (-1, [], mb)
  else
    c ← (if want then rd_cells (buf mb) (start mb) min else mret []);
    mret (min, c, rewind {| buf := buf mb; len := len mb; start := start mb + min; end_ := end_ mb |}).

(** Thirty-two doublings overflow any positive length. *)
Fixpoint grow_loop (fuel : nat) (mb : msgbuf) (count : Z) : res msgbuf :=
  match fuel with
  | O => Fault FFuel
  | S fuel =>
    if end_ mb + count >? len mb then mb ← msgbuf_grow mb; grow_loop fuel mb count
    else mret mb
  end.

Definition msgbuf_push (mb : msgbuf) (c : mem) : res msgbuf :=
  let count := zlen c in
  mb ← grow_loop 33 mb count;
  b ← wr_cells (buf mb) (end_ mb) c;
  mret {| buf := b; len := len mb; start := start mb; end_ := end_ mb + count |}.
