(* ===== verification/MsgBufSpec.v ===== *)
(** * Message buffers are byte queues

    The bytes between start and end of a msgbuf are a FIFO queue: push and read
    append, pull and write remove from the front, growing changes nothing.
    [msgbuf_run_refines] states it for arbitrary sequences of operations, with
    all memory accesses in bounds; the flush loop msgbuf_write_all empties the
    queue into the socket in order. *)

From S2P Require Import Prelude CBytes MsgBuf.
Open Scope Z_scope.

(** ** The representation *)

(** [holds mb q]: the buffer is well formed and [q] is what it contains. *)
Record holds (mb : msgbuf) (q : list Z) : Prop := {
  h_len : zlen (buf mb) = len mb;
  h_pos : 0 < len mb;
  h_start : 0 ≤ start mb;
  h_end : end_ mb ≤ len mb;
  h_rewound : start mb < end_ mb ∨ (start mb = 0 ∧ end_ mb = 0);
  h_count : zlen q = end_ mb - start mb;
  h_cells : slice (buf mb) (start mb) (zlen q) = cells q;
}.

Ltac mb_lia := unfold in_bounds in *; cbn in *; lia.

Lemma holds_bounds mb q : holds mb q → in_bounds (buf mb) (start mb) (zlen q).
Proof. intros [Hl Hp Hs He Hr Hc _]. pose proof (zlen_nonneg q). unfold in_bounds. lia. Qed.

(** Growing keeps the bytes. *)
(** A buffer has one contents. *)
Lemma holds_inj mb q q' : holds mb q → holds mb q' → q = q'.
Proof.
  intros [_ _ _ _ _ H1 H2] [_ _ _ _ _ H3 H4]. rewrite H1 in H2. rewrite H3, H2 in H4.
  apply (f_equal bytes_of) in H4. rewrite !bytes_of_cells in H4. by injection H4.
Qed.

Lemma realloc_slice m n off k :
  in_bounds m off k → zlen m ≤ n → slice (realloc m n) off k = slice m off k ∧ zlen (realloc m n) = n.
Proof.
  unfold in_bounds, slice, realloc, zlen, mem_new. intros. split.
  - rewrite (take_ge m) by lia. rewrite drop_app_le by lia. rewrite take_app_le; [done|].
    rewrite length_drop. lia.
  - rewrite length_app, length_take, length_replicate. lia.
Qed.

Lemma msgbuf_grow_spec mb q :
  holds mb q → len mb * 2 ≤ INT_MAX →
  ∃ mb', msgbuf_grow mb = Ok mb' ∧ holds mb' q ∧ len mb' = len mb * 2 ∧
    start mb' = start mb ∧ end_ mb' = end_ mb.
Proof.
  intros Hh Hi. pose proof (holds_bounds _ _ Hh) as Hb. destruct Hh as [Hl Hp Hs He Hr Hc Hce].
  unfold msgbuf_grow. rewrite chk_int_ok by (unfold is_int, INT_MIN; lia). cbn.
  eexists; split; [done|]. split; [|done].
  destruct (realloc_slice (buf mb) (len mb * 2) (start mb) (zlen q)) as [Hsl Hzl]; [done|lia|].
  split; cbn; try done; try lia. by rewrite Hsl.
Qed.

Lemma grow_loop_S fuel mb count :
  grow_loop (S fuel) mb count =
  if end_ mb + count >? len mb then mb ← msgbuf_grow mb; grow_loop fuel mb count else mret mb.
Proof. done. Qed.

(** Growing until [count] more bytes fit. *)
Lemma grow_loop_spec fuel mb q count :
  holds mb q → 0 ≤ count → end_ mb + count ≤ 2^30 - 1 →
  end_ mb + count ≤ len mb * 2 ^ Z.of_nat fuel →
  ∃ mb', grow_loop (S fuel) mb count = Ok mb' ∧ holds mb' q ∧
    end_ mb' + count ≤ len mb' ∧ start mb' = start mb ∧ end_ mb' = end_ mb ∧
    len mb ≤ len mb' ≤ Z.max (len mb) (2 * (end_ mb + count)).
Proof.
  revert mb. induction fuel as [|fuel IH]; intros mb Hh Hc0 Hb Hf;
    rewrite grow_loop_S; destruct (end_ mb + count >? len mb) eqn:E.
  - lia.
  - exists mb. split_and!; try done; lia.
  - destruct (msgbuf_grow_spec mb q Hh) as (mb1 & H1 & Hh1 & Hl1 & Hs1 & He1);
      [unfold INT_MAX; lia|]. rewrite H1. cbn [mbind res_bind].
    destruct (IH mb1) as (mb2 & -> & Hh2 & Hr2 & Hs2 & He2 & Hl2); try done; try lia.
    { rewrite Hl1. rewrite Nat2Z.inj_succ, Z.pow_succ_r in Hf by lia. lia. }
    exists mb2. pose proof (h_pos _ _ Hh). split_and!; try done; lia.
  - exists mb. split_and!; try done; lia.
Qed.

(** Appending into free space. *)
Lemma append_holds mb q b bs :
  holds mb q → end_ mb + zlen bs ≤ len mb → 0 < zlen bs →
  b = splice (buf mb) (end_ mb) (cells bs) →
  holds {| buf := b; len := len mb; start := start mb; end_ := end_ mb + zlen bs |} (q ++ bs).
Proof.
  intros Hh Hr H0 ->. pose proof (holds_bounds _ _ Hh) as Hb.
  destruct Hh as [Hl Hp Hs He Hrw Hc Hce]. pose proof (zlen_nonneg q).
  assert (in_bounds (buf mb) (end_ mb) (zlen (cells bs))) as Hb2
    by (rewrite zlen_cells; unfold in_bounds; lia).
  split; cbn; rewrite ?zlen_app; rewrite ?zlen_splice by done; try done; try lia.
  rewrite slice_app by (unfold in_bounds in *; rewrite ?zlen_splice; unfold in_bounds; lia).
  rewrite slice_splice_ne by (done || lia).
  rewrite Hce. replace (start mb + zlen q) with (end_ mb) by lia.
  rewrite <-(zlen_cells bs), slice_splice_eq by done. unfold cells. by rewrite fmap_app.
Qed.

(** ** The operations *)

Lemma msgbuf_new_spec n : 1 ≤ n → ∃ mb, msgbuf_new n = Ok mb ∧ holds mb [] ∧ len mb = n ∧ end_ mb = 0.
Proof.
  intros. unfold msgbuf_new. replace (n =? 0) with false by lia. cbn.
  eexists; split; [done|]. split; [|done]. split; cbn; try done; try lia.
  by rewrite zlen_mem_new by lia.
Qed.

Lemma msgbuf_push_spec mb q bs :
  holds mb q → end_ mb + zlen bs ≤ 2^30 - 1 →
  ∃ mb', msgbuf_push mb (cells bs) = Ok mb' ∧ holds mb' (q ++ bs) ∧
    end_ mb' = end_ mb + zlen bs ∧ len mb' ≤ Z.max (len mb) (2 * end_ mb').
Proof.
  intros Hh Hb. pose proof (zlen_nonneg bs). unfold msgbuf_push. rewrite zlen_cells.
  destruct (grow_loop_spec 32 mb q (zlen bs)) as (mb1 & -> & Hh1 & Hr1 & Hs1 & He1 & Hl1);
    [done|lia|lia|pose proof (h_pos _ _ Hh); cbn; lia|]. cbn [mbind res_bind].
  rewrite wr_cells_ok by (destruct Hh1; pose proof (zlen_nonneg q); rewrite zlen_cells; mb_lia).
  cbn [mbind res_bind mret res_ret]. eexists; split; [done|].
  destruct (decide (zlen bs = 0)) as [Hz|Hz].
  - destruct bs; [|done]. rewrite Hz, Z.add_0_r, app_nil_r. cbn.
    rewrite splice_nil by (destruct Hh1; pose proof (zlen_nonneg q); mb_lia).
    split; [|lia]. by destruct mb1.
  - split; [|cbn; lia]. by apply append_holds; [done|lia|lia|].
Qed.

(** The reset of start and end is invisible. *)
Lemma rewind_holds b l s e q n :
  holds {| buf := b; len := l; start := s; end_ := e |} q → 0 ≤ n ≤ zlen q →
  holds (rewind {| buf := b; len := l; start := s + n; end_ := e |}) (drop (Z.to_nat n) q).
Proof.
  intros Hh Hn. pose proof (holds_bounds _ _ Hh) as Hb.
  destruct Hh as [Hl Hp Hs He Hr Hc Hce]. unfold rewind. cbn in *.
  assert (zlen (drop (Z.to_nat n) q) = zlen q - n) as Hz by (unfold zlen in *; rewrite length_drop; lia).
  destruct (s + n >=? e) eqn:E.
  - unfold msgbuf_clear. cbn. rewrite (drop_ge q) by (unfold zlen in *; lia). by split; cbn; try lia.
  - split; cbn; rewrite ?Hz; try lia.
    replace (zlen q) with (n + (zlen q - n)) in Hce by lia.
    rewrite slice_app in Hce by (unfold in_bounds in *; lia).
    unfold cells in *. rewrite fmap_drop, <-Hce.
    rewrite drop_app_length'; [done|].
    pose proof (zlen_slice b s n) as Hq. unfold zlen, in_bounds in *. lia.
Qed.

Lemma holds_take mb q n :
  holds mb q → 0 ≤ n ≤ zlen q → rd_bytes (buf mb) (start mb) n = Ok (take (Z.to_nat n) q).
Proof.
  intros Hh Hn. pose proof (holds_bounds _ _ Hh) as Hb. unfold rd_bytes.
  rewrite rd_cells_ok by (unfold in_bounds in *; lia). cbn [mbind res_bind].
  assert (slice (buf mb) (start mb) n = cells (take (Z.to_nat n) q)) as ->.
  { unfold cells. rewrite fmap_take. fold (cells q). rewrite <-(h_cells _ _ Hh). unfold slice.
    rewrite take_take. f_equal. lia. }
  apply bytes_of_cells.
Qed.

(** What read(2) can return. *)
Lemma c_read_spec s n count bs s' :
  0 ≤ n → c_read s n = (count, bs, s') →
  zlen bs ≤ n ∧ (count = zlen bs ∨ (count = -1 ∧ bs = [])).
Proof.
  unfold c_read. intros Hn. destruct (n =? 0) eqn:E.
  { intros [= <- <- <-]. split; [unfold zlen; cbn; lia|by left]. }
  destruct (rx s) as [|[bs0| |e] r]; intros [= <- <- <-]; unfold zlen; cbn;
    try (split; [lia|auto]).
  split; [|by left]. rewrite length_take. lia.
Qed.

(** [msgbuf_read] appends what the socket delivers into the room left. *)
Lemma msgbuf_read_spec mb q s count bs s' :
  holds mb q → len mb * 2 ≤ INT_MAX → c_read s (len mb - end_ mb) = (count, bs, s') →
  ∃ mb', msgbuf_read mb s = Ok (count, mb', s') ∧ holds mb' (q ++ bs) ∧
    end_ mb' = end_ mb + zlen bs ∧ end_ mb' < len mb' ∧
    len mb ≤ len mb' ≤ Z.max (len mb) (2 * end_ mb').
Proof.
  intros Hh Hi Hr. pose proof (zlen_nonneg bs) as Hz. pose proof (h_end _ _ Hh) as He.
  pose proof (h_pos _ _ Hh).
  destruct (c_read_spec s (len mb - end_ mb) count bs s') as [Hzl Hcnt]; [lia|done|].
  unfold msgbuf_read. replace (len mb - end_ mb <? 0) with false by lia. rewrite Hr.
  unfold wr_bytes. rewrite wr_cells_ok
    by (destruct Hh; pose proof (zlen_nonneg q); rewrite zlen_cells; mb_lia).
  cbn [mbind res_bind].
  set (e1 := if count >? 0 then end_ mb + count else end_ mb).
  assert (e1 = end_ mb + zlen bs) as Ee.
  { subst e1. destruct Hcnt as [->|[-> ->]]; [|unfold zlen; cbn; lia]. destruct (zlen bs >? 0) eqn:?; lia. }
  rewrite Ee.
  set (mb1 := {| buf := splice _ _ _; len := len mb; start := start mb; end_ := _ |}).
  assert (holds mb1 (q ++ bs)) as Hh1.
  { destruct (decide (zlen bs = 0)) as [E0|E0]; [|by apply append_holds; [done|lia|lia|]].
    destruct bs; [|done]. subst mb1. change (zlen (@nil Z)) with 0. rewrite Z.add_0_r, app_nil_r.
    cbn. rewrite splice_nil by (destruct Hh; pose proof (zlen_nonneg q); mb_lia). by destruct mb. }
  destruct (end_ mb1 >=? len mb1) eqn:Eg.
  - destruct (msgbuf_grow_spec mb1 (q ++ bs) Hh1) as (mb2 & -> & Hh2 & Hl2 & _ & He2); [done|].
    cbn [mbind res_bind mret res_ret]. exists mb2. subst mb1. cbn in *. split_and!; try done; lia.
  - cbn [mbind res_bind mret res_ret]. exists mb1. subst mb1. cbn in *. split_and!; try done; lia.
Qed.

Lemma msgbuf_pull_spec mb q want n :
  holds mb q →
  let k := Z.min n (zlen q) in
  if k <=? 0 then msgbuf_pull mb want n = Ok (-1, [], mb)
  else ∃ mb', msgbuf_pull mb want n =
      Ok (k, if want then cells (take (Z.to_nat k) q) else [], mb') ∧
    holds mb' (drop (Z.to_nat k) q) ∧ buf mb' = buf mb ∧ len mb' = len mb ∧
    end_ mb' ≤ end_ mb.
Proof.
  intros Hh k. unfold msgbuf_pull. rewrite <-(h_count _ _ Hh). fold k.
  destruct (k <=? 0) eqn:E; [done|].
  assert (rd_cells (buf mb) (start mb) k = Ok (cells (take (Z.to_nat k) q))) as Hrd.
  { pose proof (holds_take mb q k Hh ltac:(lia)) as Ht. unfold rd_bytes in Ht.
    apply bind_Ok in Ht as (c & Hc & Hb). apply bytes_of_Ok in Hb as ->. done. }
  eexists. split.
  { destruct want; [rewrite Hrd|]; cbn [mbind res_bind mret res_ret]; reflexivity. }
  split.
  { apply rewind_holds; [by destruct mb|lia]. }
  unfold rewind. pose proof (h_count _ _ Hh). pose proof (h_start _ _ Hh). pose proof (zlen_nonneg q).
  destruct (_ >=? _); cbn; split_and!; done || lia.
Qed.

(** What is offered to the socket for a requested length. *)
Definition offered (q : list Z) (n : Z) : list Z :=
  if n >? 0 then take (Z.to_nat n) q else q.

Lemma c_write_spec s bs k s' :
  c_write s bs = (k, s') →
  (k = -1 ∧ sent s' = sent s) ∨ (0 ≤ k ≤ zlen bs ∧ sent s' = sent s ++ take (Z.to_nat k) bs).
Proof.
  unfold c_write. pose proof (zlen_nonneg bs).
  destruct (tx s) as [|[j|e] t]; intros [= <- <-]; cbn; auto. right. split; [lia|done].
Qed.

Lemma msgbuf_write_spec mb q s n :
  holds mb q →
  if (n >? 0) && (zlen q <? n) then msgbuf_write mb s n = Ok (-1, mb, s)
  else ∀ k s', c_write s (offered q n) = (k, s') →
    ∃ mb', msgbuf_write mb s n = Ok (k, mb', s') ∧ holds mb' (drop (Z.to_nat k) q) ∧
      len mb' = len mb ∧ end_ mb' ≤ end_ mb.
Proof.
  intros Hh. pose proof (h_count _ _ Hh) as Hc. pose proof (zlen_nonneg q).
  unfold msgbuf_write. rewrite rd_cells_ok
    by (destruct Hh; unfold in_bounds; lia). cbn [mbind res_bind]. rewrite <-Hc.
  destruct ((n >? 0) && (zlen q <? n)) eqn:E; [done|]. intros k s' Hw.
  set (sl := if (n >? 0) && (zlen q >? n) then n else zlen q).
  assert (0 ≤ sl ≤ zlen q) as Hsl.
  { subst sl. destruct ((n >? 0) && (zlen q >? n)) eqn:?; lia. }
  assert (take (Z.to_nat sl) q = offered q n) as Hoff.
  { unfold offered. subst sl. destruct (n >? 0) eqn:?; cbn in *.
    - destruct (zlen q >? n) eqn:?; [done|]. f_equal. lia.
    - apply take_ge. unfold zlen. lia. }
  rewrite (holds_take mb q sl Hh Hsl), Hoff. cbn [mbind res_bind]. rewrite Hw.
  cbn [mret res_ret]. eexists; split; [reflexivity|].
  assert (zlen (offered q n) ≤ zlen q) as Hzo.
  { rewrite <-Hoff. unfold zlen. rewrite length_take. lia. }
  pose proof (c_write_spec _ _ _ _ Hw) as Hk.
  replace (if k >? 0 then start mb + k else start mb) with (start mb + Z.max 0 k)
    by (destruct (k >? 0) eqn:?; lia).
  replace (Z.to_nat k) with (Z.to_nat (Z.max 0 k)) by lia.
  split.
  { apply rewind_holds; [by destruct mb|lia]. }
  unfold rewind. pose proof (h_start _ _ Hh).
  destruct (_ >=? _); cbn; split_and!; done || lia.
Qed.

Lemma msgbuf_clear_spec mb q : holds mb q → holds (msgbuf_clear mb) [].
Proof. intros []. split; cbn; try done; lia. Qed.

Lemma msgbuf_peek_spec mb q :
  holds mb q → msgbuf_peek mb = match q with [] => None | _ => Some (start mb) end.
Proof.
  intros Hh. pose proof (h_count _ _ Hh) as Hc. unfold msgbuf_peek, zlen in *.
  destruct q; cbn in *; destruct (_ >=? _) eqn:?; try done; lia.
Qed.

(** Reading a field of a buffered message. *)
Lemma holds_rd mb q off n :
  holds mb q → 0 ≤ off → 0 ≤ n → off + n ≤ zlen q →
  rd_bytes (buf mb) (start mb + off) n = Ok (take (Z.to_nat n) (drop (Z.to_nat off) q)).
Proof.
  intros Hh H0 Hn Hb. pose proof (holds_bounds _ _ Hh) as Hib. unfold rd_bytes.
  rewrite rd_cells_ok by (unfold in_bounds in *; lia). cbn [mbind res_bind].
  assert (slice (buf mb) (start mb + off) n =
          cells (take (Z.to_nat n) (drop (Z.to_nat off) q))) as ->; [|apply bytes_of_cells].
  unfold cells. rewrite fmap_take, fmap_drop. fold (cells q). rewrite <-(h_cells _ _ Hh). unfold slice.
  pose proof (h_start _ _ Hh). rewrite skipn_firstn_comm, take_take, drop_drop.
  rewrite Z2Nat.inj_add by lia. f_equal. unfold zlen in *. lia.
Qed.

Lemma holds_rd_cells mb q off n :
  holds mb q → 0 ≤ off → 0 ≤ n → off + n ≤ zlen q →
  rd_cells (buf mb) (start mb + off) n = Ok (cells (take (Z.to_nat n) (drop (Z.to_nat off) q))).
Proof.
  intros. pose proof (holds_rd mb q off n) as Hr. unfold rd_bytes in Hr.
  rewrite bind_Ok in Hr. destruct Hr as (c & -> & ->%bytes_of_Ok); done.
Qed.

Lemma holds_rd8 mb q off :
  holds mb q → 0 ≤ off < zlen q → rd8 (buf mb) (start mb + off) = Ok (default 0 (q !! Z.to_nat off)).
Proof.
  intros Hh Hb. pose proof (holds_rd mb q off 1 Hh) as Hr. unfold rd_bytes, rd_cells in Hr.
  specialize (Hr ltac:(lia) ltac:(lia) ltac:(lia)).
  destruct (lookup_lt_is_Some_2 q (Z.to_nat off)) as [b Hlk]; [unfold zlen in *; lia|].
  rewrite Hlk. cbn [default from_option id]. case_decide as Hin; [|done]. cbn [mbind res_bind] in Hr.
  apply bytes_of_Ok in Hr. change (Z.to_nat 1) with 1%nat in Hr.
  rewrite (drop_S _ _ _ Hlk) in Hr. cbn [take] in Hr. rewrite take_0 in Hr.
  pose proof (h_start _ _ Hh). unfold rd8. rewrite zget_nonneg by lia. unfold slice in Hr.
  assert (drop (Z.to_nat (start mb + off)) (buf mb) !! 0%nat = Some (Some b)) as Hz.
  { change (Z.to_nat 1) with 1%nat in Hr.
    destruct (drop _ (buf mb)); [done|]. cbn in Hr. by injection Hr as ->. }
  rewrite lookup_drop, Nat.add_0_r in Hz. by rewrite Hz.
Qed.

(** ** Sequences of operations *)

Inductive bop := BPush (bs : list Z) | BPull (want : bool) (n : Z) | BClear | BRead | BWrite (n : Z).
Inductive bret := BUnit | BInt (z : Z) | BPulled (z : Z) (c : mem).

Definition run_bop (mb : msgbuf) (s : sock) (op : bop) : res (bret * msgbuf * sock) :=
  match op with
  | BPush bs => mb ← msgbuf_push mb (cells bs); mret (BUnit, mb, s)
  | BPull want n => '(k, c, mb) ← msgbuf_pull mb want n; mret (BPulled k c, mb, s)
  | BClear => mret (BUnit, msgbuf_clear mb, s)
  | BRead => '(k, mb, s) ← msgbuf_read mb s; mret (BInt k, mb, s)
  | BWrite n => '(k, mb, s) ← msgbuf_write mb s n; mret (BInt k, mb, s)
  end.

Fixpoint run_bops (mb : msgbuf) (s : sock) (ops : list bop) : res (list bret * msgbuf * sock) :=
  match ops with
  | [] => mret ([], mb, s)
  | op :: ops =>
    '(r, mb, s) ← run_bop mb s op;
    '(rs, mb, s) ← run_bops mb s ops;
    mret (r :: rs, mb, s)
  end.

(** The abstract byte queue.  How much a read asks the socket for is up to the
    implementation. *)
Inductive fifo_step : list Z * sock → bop → bret → list Z * sock → Prop :=
| fifo_push q s bs : fifo_step (q, s) (BPush bs) BUnit (q ++ bs, s)
| fifo_pull_none q s want n :
    Z.min n (zlen q) ≤ 0 → fifo_step (q, s) (BPull want n) (BPulled (-1) []) (q, s)
| fifo_pull q s (want : bool) n k :
    k = Z.min n (zlen q) → 0 < k →
    fifo_step (q, s) (BPull want n)
      (BPulled k (if want then cells (take (Z.to_nat k) q) else [])) (drop (Z.to_nat k) q, s)
| fifo_clear q s : fifo_step (q, s) BClear BUnit ([], s)
| fifo_read q s n count bs s' :
    0 ≤ n → c_read s n = (count, bs, s') →
    fifo_step (q, s) BRead (BInt count) (q ++ bs, s')
| fifo_write_short q s n :
    0 < n → zlen q < n → fifo_step (q, s) (BWrite n) (BInt (-1)) (q, s)
| fifo_write q s n k s' :
    (n ≤ 0 ∨ n ≤ zlen q) → c_write s (offered q n) = (k, s') →
    fifo_step (q, s) (BWrite n) (BInt k) (drop (Z.to_nat k) q, s').

Inductive fifo_run : list Z * sock → list bop → list bret → list Z * sock → Prop :=
| fifo_run_nil st : fifo_run st [] [] st
| fifo_run_cons st1 st2 st3 op r ops rs :
    fifo_step st1 op r st2 → fifo_run st2 ops rs st3 → fifo_run st1 (op :: ops) (r :: rs) st3.

(** The bytes that can still arrive. *)
Definition evt_bytes (e : rd_evt) : Z := match e with RdData bs => zlen bs | _ => 0 end.
Definition rx_bytes (s : sock) : Z := foldr Z.add 0 (evt_bytes <$> rx s).
Definition push_bytes (ops : list bop) : Z :=
  foldr Z.add 0 ((λ o, match o with BPush bs => zlen bs | _ => 0 end) <$> ops).

Lemma sum_nonneg {A} (f : A → Z) (l : list A) : (∀ x, 0 ≤ f x) → 0 ≤ foldr Z.add 0 (f <$> l).
Proof. intros Hf. induction l as [|x l IH]; cbn; [lia|]. specialize (Hf x). cbn in IH. lia. Qed.

Lemma rx_bytes_nonneg s : 0 ≤ rx_bytes s.
Proof. apply sum_nonneg. intros []; cbn; (apply zlen_nonneg || done). Qed.
Lemma push_bytes_nonneg ops : 0 ≤ push_bytes ops.
Proof. apply sum_nonneg. intros []; cbn; (apply zlen_nonneg || done). Qed.

Lemma c_read_rx_bytes s n count bs s' :
  c_read s n = (count, bs, s') → zlen bs + rx_bytes s' = rx_bytes s.
Proof.
  unfold c_read, rx_bytes. destruct (n =? 0); [intros [= <- <- <-]; done|].
  destruct (rx s) as [|[bs0| |e] r] eqn:Hrx; intros [= <- <- <-]; cbn; rewrite ?Hrx; try done.
  assert (zlen bs0 = zlen (take (Z.to_nat n) bs0) + zlen (drop (Z.to_nat n) bs0)) as ->.
  { by rewrite <-zlen_app, take_drop. }
  destruct (drop (Z.to_nat n) bs0) eqn:Hd; cbn; unfold zlen; cbn; lia.
Qed.

Lemma c_write_rx s bs k s' : c_write s bs = (k, s') → rx s' = rx s.
Proof. unfold c_write. destruct (tx s) as [|[]]; by intros [= <- <-]. Qed.

Definition budget (mb : msgbuf) (s : sock) (ops : list bop) : Prop :=
  len mb ≤ 2^30 - 1 ∧ end_ mb + push_bytes ops + rx_bytes s ≤ 2^29 - 1.

Lemma holds_end_nonneg mb q : holds mb q → 0 ≤ end_ mb.
Proof. intros []. pose proof (zlen_nonneg q). lia. Qed.

(** One operation: it runs, it does what the queue does, and the budget for
    what follows is kept. *)
Lemma run_bop_refines mb s op ops q :
  holds mb q → budget mb s (op :: ops) →
  ∃ r mb' s' q', run_bop mb s op = Ok (r, mb', s') ∧ holds mb' q' ∧ budget mb' s' ops ∧
    fifo_step (q, s) op r (q', s').
Proof.
  intros Hh [Hl Hb]. pose proof (push_bytes_nonneg ops). pose proof (rx_bytes_nonneg s).
  pose proof (holds_end_nonneg _ _ Hh). unfold budget.
  destruct op as [bs|want n| | |n]; cbn in Hb; fold (push_bytes ops) in Hb; cbn [run_bop].
  - pose proof (zlen_nonneg bs).
    destruct (msgbuf_push_spec mb q bs Hh) as (mb' & -> & Hh' & He' & Hl'); [lia|].
    cbn. eexists _, _, _, _. split_and!; [done|done|lia|lia|constructor].
  - pose proof (msgbuf_pull_spec mb q want n Hh) as Hp. cbn in Hp.
    destruct (Z.min n (zlen q) <=? 0) eqn:E.
    + rewrite Hp. cbn. eexists _, _, _, _. split_and!; [done|done|lia|lia|constructor; lia].
    + destruct Hp as (mb' & -> & Hh' & _ & Hl' & He').
      cbn. eexists _, _, _, _. split_and!; [done|done|lia|lia|constructor; [done|lia]].
  - cbn. eexists _, _, _, _. split_and!; [done|by eapply msgbuf_clear_spec|done|cbn;lia|constructor].
  - destruct (c_read s (len mb - end_ mb)) as [[count bs] s'] eqn:Hr.
    pose proof (c_read_rx_bytes _ _ _ _ _ Hr). pose proof (zlen_nonneg bs).
    destruct (msgbuf_read_spec mb q s count bs s') as (mb' & -> & Hh' & He' & Hlt & Hl');
      [done|unfold INT_MAX; lia|done|].
    pose proof (h_end _ _ Hh). pose proof (rx_bytes_nonneg s').
    cbn. eexists _, _, _, _. split_and!; [done|done|lia|lia|eapply fifo_read; [|done]; lia].
  - pose proof (msgbuf_write_spec mb q s n Hh) as Hw.
    destruct ((n >? 0) && (zlen q <? n)) eqn:E.
    + rewrite Hw. cbn. eexists _, _, _, _.
      split_and!; [done|done|lia|lia|apply fifo_write_short; lia].
    + destruct (c_write s (offered q n)) as [k s'] eqn:Hk.
      destruct (Hw _ _ eq_refl) as (mb' & -> & Hh' & Hl' & He').
      assert (rx_bytes s' = rx_bytes s) by (unfold rx_bytes; by rewrite (c_write_rx _ _ _ _ Hk)).
      cbn. eexists _, _, _, _. split_and!; [done|done|lia|lia|].
      apply fifo_write; [|done]. apply andb_false_iff in E. lia.
Qed.

Lemma run_bops_refines mb s ops q :
  holds mb q → budget mb s ops →
  ∃ rs mb' s' q', run_bops mb s ops = Ok (rs, mb', s') ∧ holds mb' q' ∧
    fifo_run (q, s) ops rs (q', s').
Proof.
  revert mb s q. induction ops as [|op ops IH]; intros mb s q Hh Hb.
  { eexists _, _, _, _. split_and!; [done|done|constructor]. }
  destruct (run_bop_refines mb s op ops q Hh Hb) as (r & mb1 & s1 & q1 & H1 & Hh1 & Hb1 & Hs1).
  destruct (IH _ _ _ Hh1 Hb1) as (rs & mb2 & s2 & q2 & H2 & Hh2 & Hs2).
  eexists _, _, _, _. split_and!; [|done|by econstructor].
  cbn. rewrite H1. cbn. rewrite H2. done.
Qed.

(** C11. A message buffer is a byte queue: any sequence of pushes, pulls,
    clears, socket reads and socket writes on a new buffer runs without a
    fault (every access inside the buffer and initialised, however often it
    grows) and returns what the abstract first-in first-out queue returns, as
    long as less than 2^29 bytes are put in. *)
Theorem msgbuf_run_refines n s ops :
  1 ≤ n ≤ 2^30 - 1 → push_bytes ops + rx_bytes s ≤ 2^29 - 1 →
  ∃ mb rs mb' s' q', msgbuf_new n = Ok mb ∧ run_bops mb s ops = Ok (rs, mb', s') ∧
    holds mb' q' ∧ fifo_run ([], s) ops rs (q', s').
Proof.
  intros Hn Hb. destruct (msgbuf_new_spec n) as (mb & Hm & Hh & Hl & He); [lia|].
  destruct (run_bops_refines mb s ops [] Hh) as (rs & mb' & s' & q' & Hr & Hh' & Hf).
  { unfold budget. lia. }
  by exists mb, rs, mb', s', q'.
Qed.

Definition demo_sock : sock :=
  {| rx := [RdData [1; 2; 3]; RdErr EAGAIN; RdData [4]]; tx := [WrAccept 2; WrErr EINTR; WrAccept 9];
     sent := []; errno := 0 |}.
Definition demo_bops : list bop :=
  [BPush [10; 11; 12]; BRead; BPull true 2; BWrite 0; BRead; BRead; BWrite 1; BWrite 0].

Example demo_bops_run :
  (mb ← msgbuf_new 2; '(rs, mb, s) ← run_bops mb demo_sock demo_bops; mret (rs, len mb, sent s)) =
  Ok ([BUnit; BInt 1; BPulled 2 [Some 10; Some 11]; BInt 2; BInt 2; BInt (-1); BInt (-1); BInt 2],
      8, [12; 1; 2; 3]).
Proof. vm_compute. reflexivity. Qed.

Lemma msgbuf_run_refines_witness :
  ∃ mb rs mb' s' q', msgbuf_new 2 = Ok mb ∧ run_bops mb demo_sock demo_bops = Ok (rs, mb', s') ∧
    holds mb' q' ∧ fifo_run ([], demo_sock) demo_bops rs (q', s').
Proof. apply msgbuf_run_refines; [lia|vm_compute; congruence]. Defined.

(** ** Flushing and filling *)

(** The socket's answers never make the flush loop give up. *)
Definition tx_retries (e : wr_evt) : Prop :=
  match e with WrAccept k => 0 < k | WrErr e => retry e = true end.
(** What the socket accepts when it is offered at most [n] bytes at a time, or
    everything when [n] is not positive. *)
Definition accepts (n : Z) (t : list wr_evt) : Z :=
  foldr Z.add 0 ((λ e, match e with WrAccept k => if n >? 0 then Z.min k n else k | WrErr _ => 0 end) <$> t).

Lemma accepts_cons n e t :
  accepts n (e :: t) = match e with WrAccept k => if n >? 0 then Z.min k n else k | WrErr _ => 0 end + accepts n t.
Proof. done. Qed.

Lemma accepts_nonneg n t : Forall tx_retries t → 0 ≤ accepts n t.
Proof.
  induction 1 as [|[k|e] t Hk _ IH]; [done|..]; rewrite accepts_cons; cbn in Hk; [|lia].
  destruct (n >? 0) eqn:?; lia.
Qed.

Lemma write_all_loop_S fuel mb s n count :
  write_all_loop (S fuel) mb s n count =
  if start mb <? end_ mb then
    '(tmp, mb, s) ← msgbuf_write mb s n;
    if (tmp <? 0) && negb (retry (errno s)) then mret (tmp, mb, s)
    else write_all_loop fuel mb s n (if count >? 0 then count + tmp else count)
  else mret (count, mb, s).
Proof. done. Qed.

(** Fewer bytes than asked for: nothing is written, and errno is what an earlier
    call left. *)
Lemma write_all_short fuel mb s q n :
  holds mb q → 0 < zlen q < n →
  write_all_loop (S fuel) mb s n 0 = if retry (errno s) then Fault FFuel else Ok (-1, mb, s).
Proof.
  intros Hh Hq. pose proof (h_count _ _ Hh) as Hc.
  pose proof (msgbuf_write_spec mb q s n Hh) as Hw.
  replace ((n >? 0) && (zlen q <? n)) with true in Hw by lia.
  assert (∀ f, write_all_loop (S f) mb s n 0 =
    if retry (errno s) then write_all_loop f mb s n 0 else Ok (-1, mb, s)) as Hstep.
  { intros f. rewrite write_all_loop_S. replace (start mb <? end_ mb) with true by lia.
    rewrite Hw. cbn [mbind res_bind]. by destruct (retry (errno s)). }
  rewrite Hstep. destruct (retry (errno s)); [|done].
  induction fuel as [|fuel IH]; [done|]. by rewrite Hstep.
Qed.

Lemma length_offered q n : zlen (offered q n) = if n >? 0 then Z.min n (zlen q) else zlen q.
Proof. unfold offered, zlen. destruct (n >? 0) eqn:?; [|done]. rewrite length_take. lia. Qed.

Lemma take_offered q n k : k ≤ zlen (offered q n) →
  take (Z.to_nat k) (offered q n) = take (Z.to_nat k) q.
Proof.
  intros Hk. rewrite length_offered in Hk. unfold offered in *. destruct (n >? 0) eqn:?; [|done].
  rewrite take_take. f_equal. lia.
Qed.

Lemma write_all_loop_spec fuel mb s q n :
  holds mb q → Forall tx_retries (tx s) → zlen q ≤ accepts n (tx s) → (length (tx s) < fuel)%nat →
  ∃ q1 q2 mb' s', q = q1 ++ q2 ∧ holds mb' q2 ∧ sent s' = sent s ++ q1 ∧
    ((q2 = [] ∧ write_all_loop fuel mb s n 0 = Ok (0, mb', s')) ∨
     (0 < zlen q2 < n ∧
      write_all_loop fuel mb s n 0 = if retry (errno s') then Fault FFuel else Ok (-1, mb', s'))).
Proof.
  revert mb s q. induction fuel as [|fuel IH]; intros mb s q Hh Ht Ha Hf; [lia|].
  pose proof (h_count _ _ Hh) as Hc. pose proof (zlen_nonneg q).
  destruct (decide (zlen q = 0)) as [H0|H0].
  { assert (q = []) as -> by (destruct q; [done|unfold zlen in *; cbn in *; lia]).
    exists [], [], mb, s. split_and!; rewrite ?app_nil_r; try done. left. split; [done|].
    rewrite write_all_loop_S. by replace (start mb <? end_ mb) with false by lia. }
  destruct (decide (zlen q < n)) as [Hs|Hs].
  { exists [], q, mb, s. split_and!; rewrite ?app_nil_r; try done. right. split; [lia|].
    apply (write_all_short fuel mb s q n Hh). lia. }
  rewrite write_all_loop_S. replace (start mb <? end_ mb) with true by lia.
  pose proof (msgbuf_write_spec mb q s n Hh) as Hw. replace ((n >? 0) && (zlen q <? n)) with false in Hw by lia.
  destruct (c_write s (offered q n)) as [k s1] eqn:Hcw. destruct (Hw _ _ eq_refl) as (mb1 & -> & Hh1 & _ & _).
  cbn [mbind res_bind Z.gtb Z.compare].
  destruct (tx s) as [|e t] eqn:Htx; [unfold accepts in Ha; cbn in Ha; lia|].
  apply Forall_cons in Ht as [Hk Ht]. rewrite accepts_cons in Ha. cbn [length] in Hf.
  unfold c_write in Hcw. rewrite Htx in Hcw. pose proof (accepts_nonneg n t Ht).
  assert (tx s1 = t ∧ ((k <? 0) && negb (retry (errno s1))) = false
    ∧ sent s1 = sent s ++ take (Z.to_nat k) q ∧ zlen (drop (Z.to_nat k) q) ≤ accepts n t) as (Et & -> & Es & El).
  { destruct e as [j|e]; injection Hcw as <- <-; cbn [tx sent errno]; cbn in Hk.
    - pose proof (length_offered q n) as Hlo. pose proof (zlen_nonneg (offered q n)).
      split; [done|]. split; [apply andb_false_iff; lia|]. split.
      + by rewrite take_offered by lia.
      + unfold zlen in *. rewrite length_drop. destruct (n >? 0) eqn:?; lia.
    - rewrite Hk. split_and!; try done. by rewrite app_nil_r. }
  destruct (IH mb1 s1 (drop (Z.to_nat k) q) Hh1) as (q1 & q2 & mb2 & s2 & Hq & Hh2 & Hs2 & Hcase);
    [by rewrite Et|by rewrite Et|rewrite Et; lia|].
  exists (take (Z.to_nat k) q ++ q1), q2, mb2, s2. split_and!; [|done| |done].
  - by rewrite <-app_assoc, <-Hq, take_drop.
  - by rewrite Hs2, Es, <-app_assoc.
Qed.

(** C12. msgbuf_write_all with any [len], whatever mixture of partial writes and
    transient errors the socket answers with, provided that its answers accept
    enough.  It sends a prefix of the contents, in order, and keeps the rest.
    Either the rest is empty and the value returned is 0, not the number of bytes;
    with a [len] that is not positive it always is.  Or the rest is shorter
    than [len]: then nothing more is written and, by what errno is left at from an
    earlier call, either -1 is returned or the loop goes on for ever. *)
Theorem msgbuf_write_all_flushes fuel mb s q n :
  holds mb q → Forall tx_retries (tx s) → zlen q ≤ accepts n (tx s) → (length (tx s) < fuel)%nat →
  ∃ q1 q2 mb' s', q = q1 ++ q2 ∧ holds mb' q2 ∧ sent s' = sent s ++ q1 ∧
    (n ≤ 0 → q2 = []) ∧
    ((q2 = [] ∧ msgbuf_write_all fuel mb s n = Ok (0, mb', s')) ∨
     (0 < zlen q2 < n ∧
      msgbuf_write_all fuel mb s n = if retry (errno s') then Fault FFuel else Ok (-1, mb', s'))).
Proof.
  intros Hh Ht Ha Hf.
  destruct (write_all_loop_spec fuel mb s q n Hh Ht Ha Hf) as (q1 & q2 & mb' & s' & H1 & H2 & H3 & H4).
  exists q1, q2, mb', s'. split_and!; try done. intros Hn. destruct H4 as [[-> _]|[H4 _]]; [done|lia].
Qed.

Definition demo_mb : msgbuf :=
  {| buf := [None; Some 7; Some 8; Some 9; None; None]; len := 6; start := 1; end_ := 4 |}.
Lemma demo_mb_holds : holds demo_mb [7; 8; 9].
Proof. split; cbn; try lia; done. Qed.

Lemma msgbuf_write_all_flushes_witness :
  (∃ mb' s', msgbuf_write_all 4 demo_mb demo_sock 0 = Ok (0, mb', s') ∧ holds mb' [] ∧
     sent s' = [] ++ [7; 8; 9]) ∧
  ∃ q1 q2 mb' s', [7; 8; 9] = q1 ++ q2 ∧ holds mb' q2 ∧ sent s' = [] ++ q1 ∧ (2 ≤ 0 → q2 = []) ∧
    ((q2 = [] ∧ msgbuf_write_all 4 demo_mb demo_sock 2 = Ok (0, mb', s')) ∨
     (0 < zlen q2 < 2 ∧
      msgbuf_write_all 4 demo_mb demo_sock 2 = if retry (errno s') then Fault FFuel else Ok (-1, mb', s'))).
Proof.
  split.
  - destruct (msgbuf_write_all_flushes 4 demo_mb demo_sock [7; 8; 9] 0) as (q1 & q2 & mb & s & H1 & H2 & H3 & H4 & H5).
    + exact demo_mb_holds.
    + repeat constructor.
    + vm_compute. congruence.
    + cbn. lia.
    + rewrite (H4 ltac:(lia)) in *. rewrite app_nil_r in H1. subst q1. exists mb, s.
      destruct H5 as [[_ H5]|[H5 _]]; [done|]. unfold zlen in H5. cbn in H5. lia.
  - apply (msgbuf_write_all_flushes 4 demo_mb demo_sock [7; 8; 9] 2).
    + exact demo_mb_holds.
    + repeat constructor.
    + vm_compute. congruence.
    + cbn. lia.
Defined.

(** The socket's answers while more data is to come. *)
Definition rx_more (e : rd_evt) : Prop :=
  match e with RdData bs => bs ≠ [] | RdEof => False | RdErr e => retry e = true end.

Lemma read_all_loop_S fuel mb s n count :
  read_all_loop (S fuel) mb s n count =
  if count <? n then
    '(tmp, mb, s) ← msgbuf_read mb s;
    if (tmp =? 0) || ((tmp <? 0) && negb (retry (errno s))) then mret (tmp, mb, s)
    else read_all_loop fuel mb s n (if tmp >? 0 then count + tmp else count)
  else mret (count, mb, s).
Proof. done. Qed.

Definition rx_measure (s : sock) : Z := zlen (rx s) + rx_bytes s.

(** One successful or retried read makes progress. *)
Lemma c_read_progress s n count bs s' :
  0 < n → Forall rx_more (rx s) → rx s ≠ [] → c_read s n = (count, bs, s') →
  Forall rx_more (rx s') ∧ rx_measure s' < rx_measure s ∧
  ((0 < count ∧ count = zlen bs) ∨ (count = -1 ∧ bs = [] ∧ retry (errno s') = true)).
Proof.
  intros Hn Hf Hne Hr. pose proof (c_read_rx_bytes _ _ _ _ _ Hr) as Hb. unfold rx_measure.
  unfold c_read in Hr. replace (n =? 0) with false in Hr by lia.
  destruct (rx s) as [|[bs0| |e] r] eqn:Hrx; [done|..]; apply Forall_cons in Hf as [He Hf]; cbn in He.
  - injection Hr as <- <- <-. cbn [rx with_rx].
    assert (0 < zlen (take (Z.to_nat n) bs0)).
    { unfold zlen. rewrite length_take. destruct bs0; [done|cbn; lia]. }
    destruct (drop (Z.to_nat n) bs0) eqn:Hd; cbn; (split; [|split; [|by left]]).
    + done.
    + unfold zlen in *. cbn in *. lia.
    + by constructor.
    + cbn in *. unfold zlen in *. cbn in *. lia.
  - done.
  - injection Hr as <- <- <-. cbn. split_and!; [done|unfold zlen in *; cbn in *; lia|by right].
Qed.

Lemma read_all_loop_spec fuel mb s q n count :
  holds mb q → end_ mb < len mb → len mb ≤ 2^30 - 1 → end_ mb + rx_bytes s ≤ 2^29 - 1 →
  Forall rx_more (rx s) → n ≤ count + rx_bytes s → rx_measure s < Z.of_nat fuel →
  ∃ k mb' s' got, read_all_loop fuel mb s n count = Ok (k, mb', s') ∧ holds mb' (q ++ got) ∧
    k = count + zlen got ∧ n ≤ k.
Proof.
  revert mb s q count. induction fuel as [|fuel IH]; intros mb s q count Hh Hroom Hl Hb Hf Hn Hm.
  { unfold rx_measure, zlen in Hm. pose proof (rx_bytes_nonneg s). lia. }
  rewrite read_all_loop_S. destruct (count <? n) eqn:E.
  2:{ exists count, mb, s, []. rewrite app_nil_r. split_and!; try done; unfold zlen; cbn; lia. }
  destruct (c_read s (len mb - end_ mb)) as [[tmp bs] s'] eqn:Hr.
  assert (rx s ≠ []) as Hne.
  { intros Hx. unfold rx_bytes in Hn. rewrite Hx in Hn. cbn in Hn. lia. }
  destruct (c_read_progress s (len mb - end_ mb) tmp bs s') as (Hf' & Hm' & Hcase); [lia|done..|].
  pose proof (c_read_rx_bytes _ _ _ _ _ Hr). pose proof (rx_bytes_nonneg s').
  destruct (msgbuf_read_spec mb q s tmp bs s') as (mb1 & -> & Hh1 & He1 & Hlt & Hl1);
    [done|unfold INT_MAX; lia|done|]. cbn [mbind res_bind].
  destruct Hcase as [[Hpos ->]|(-> & -> & He)].
  - replace (zlen bs =? 0) with false by lia. replace (zlen bs <? 0) with false by lia.
    replace (zlen bs >? 0) with true by lia. cbn [orb andb].
    destruct (IH mb1 s' (q ++ bs) (count + zlen bs)) as (k & mb2 & s2 & got & -> & Hh2 & Hk & Hnk);
      try done; try lia.
    exists k, mb2, s2, (bs ++ got). rewrite app_assoc, zlen_app. split_and!; done || lia.
  - rewrite He. cbn [orb andb negb Z.eqb Z.ltb Z.gtb Z.compare].
    assert (zlen (@nil Z) = 0) as Hz by done.
    destruct (IH mb1 s' (q ++ []) count) as (k & mb2 & s2 & got & -> & Hh2 & Hk & Hnk);
      try done; try lia.
    exists k, mb2, s2, got. rewrite app_nil_r in Hh2. done.
Qed.

(** msgbuf_read_all collects the requested number of bytes: with room in
    the buffer and a socket that delivers enough data, split in any way and
    interrupted by transient errors, it returns the number [k] of bytes
    appended, which is at least the number requested. *)
Theorem msgbuf_read_all_collects fuel mb s q n :
  holds mb q → end_ mb < len mb → len mb ≤ 2^30 - 1 → end_ mb + rx_bytes s ≤ 2^29 - 1 →
  Forall rx_more (rx s) → n ≤ rx_bytes s → rx_measure s < Z.of_nat fuel →
  ∃ k mb' s' got, msgbuf_read_all fuel mb s n = Ok (k, mb', s') ∧ holds mb' (q ++ got) ∧
    k = zlen got ∧ n ≤ k.
Proof. intros. by apply read_all_loop_spec. Qed.

Lemma msgbuf_read_all_collects_witness :
  ∃ k mb' s' got, msgbuf_read_all 9 demo_mb demo_sock 4 = Ok (k, mb', s') ∧
    holds mb' ([7; 8; 9] ++ got) ∧ k = zlen got ∧ 4 ≤ k.
Proof.
  apply (msgbuf_read_all_collects 9 demo_mb demo_sock).
  - exact demo_mb_holds.
  - reflexivity.
  - vm_compute. congruence.
  - vm_compute. congruence.
  - repeat constructor; done.
  - vm_compute. congruence.
  - reflexivity.
Defined.
