(* ===== verification/OpenFlow.v ===== *)
(** * The OpenFlow header

    openflow/openflow.h is not part of the repository: its constants and the
    layout of its structures are parameters ([OpenFlow]).  What the code relies
    on is stated as laws: [OFLayout], the field offsets and structure sizes
    that the header itself asserts for version 1.0 of the protocol,
    [OFTypes], that message types are distinct bytes, [OFStats], that kinds of
    statistics are distinct, and [OFActions] and [OFWildcards], the numbers of the
    actions and the flags of a match.  [of10] is the header of
    version 1.0, on which the witnesses are evaluated. *)

From S2P Require Import Prelude.
Open Scope Z_scope.

(** Field offsets are named [<struct>_<field>], relative to the structure. *)
Class OpenFlow := {
  OFP_VERSION : Z;
  OFPT_HELLO : Z; OFPT_ERROR : Z; OFPT_ECHO_REQUEST : Z; OFPT_ECHO_REPLY : Z;
  OFPT_VENDOR : Z; OFPT_FEATURES_REQUEST : Z; OFPT_FEATURES_REPLY : Z;
  OFPT_SET_CONFIG : Z; OFPT_PACKET_IN : Z; OFPT_PACKET_OUT : Z; OFPT_FLOW_MOD : Z;
  OFPT_STATS_REQUEST : Z;
  OFPT_FLOW_EXPIRED : Z; OFPT_PORT_STATUS : Z; OFPT_BARRIER_REPLY : Z;
  OFPFC_ADD : Z; OFPFC_MODIFY : Z; OFPFC_MODIFY_STRICT : Z; OFPFC_DELETE : Z;
  OFPST_FLOW : Z; OFPST_AGGREGATE : Z; OFPST_PORT : Z;
  OFPP_NONE : Z; OFPFW_ALL : Z; OFPFF_SEND_FLOW_REM : Z; OFPAT_OUTPUT : Z;
  OFPP_IN_PORT : Z; OFPR_NO_MATCH : Z;
  OFPT_BARRIER_REQUEST : Z; OFPT_STATS_REPLY : Z; OFPSF_REPLY_MORE : Z;
  OFPAT_SET_VLAN_VID : Z; OFPAT_SET_VLAN_PCP : Z; OFPAT_STRIP_VLAN : Z; OFPAT_SET_DL_SRC : Z;
  OFPAT_SET_DL_DST : Z; OFPAT_SET_NW_SRC : Z; OFPAT_SET_NW_DST : Z; OFPAT_SET_NW_TOS : Z;
  OFPAT_SET_TP_SRC : Z; OFPAT_SET_TP_DST : Z;
  OFPFW_DL_TYPE : Z; OFPFW_NW_SRC_SHIFT : Z; OFPFW_NW_DST_SHIFT : Z;
  OFPFW_IN_PORT : Z; OFPFW_DL_VLAN : Z; OFPFW_DL_SRC : Z; OFPFW_DL_DST : Z; OFPFW_NW_PROTO : Z;
  OFPFW_TP_SRC : Z; OFPFW_TP_DST : Z; OFPFW_DL_VLAN_PCP : Z; OFPFW_NW_TOS : Z;
  OFP_FLOW_PERMANENT : Z; OFPET_BAD_REQUEST : Z; OFPBRC_BAD_VENDOR : Z; OFP_TCP_PORT : Z;
  (* struct ofp_header *)
  sizeof_ofp_header : Z;
  ofp_header_version : Z; ofp_header_type : Z; ofp_header_length : Z; ofp_header_xid : Z;
  (* struct ofp_match *)
  sizeof_ofp_match : Z;
  ofp_match_wildcards : Z; ofp_match_in_port : Z; ofp_match_dl_src : Z; ofp_match_dl_dst : Z;
  ofp_match_dl_vlan : Z; ofp_match_dl_type : Z; ofp_match_nw_proto : Z; ofp_match_nw_src : Z;
  ofp_match_nw_dst : Z; ofp_match_tp_src : Z; ofp_match_tp_dst : Z;
  (* struct ofp_flow_mod *)
  sizeof_ofp_flow_mod : Z;
  ofp_flow_mod_match : Z; ofp_flow_mod_command : Z; ofp_flow_mod_idle_timeout : Z;
  ofp_flow_mod_hard_timeout : Z; ofp_flow_mod_priority : Z; ofp_flow_mod_buffer_id : Z;
  ofp_flow_mod_out_port : Z; ofp_flow_mod_flags : Z; ofp_flow_mod_actions : Z;
  (* struct ofp_action_output *)
  sizeof_ofp_action_output : Z;
  ofp_action_output_type : Z; ofp_action_output_len : Z; ofp_action_output_port : Z;
  ofp_action_output_max_len : Z;
  (* the other actions *)
  sizeof_ofp_action_header : Z; ofp_action_header_type : Z; ofp_action_header_len : Z;
  sizeof_ofp_action_vlan_vid : Z; ofp_action_vlan_vid_vlan_vid : Z;
  sizeof_ofp_action_vlan_pcp : Z; ofp_action_vlan_pcp_vlan_pcp : Z;
  sizeof_ofp_action_dl_addr : Z; ofp_action_dl_addr_dl_addr : Z;
  sizeof_ofp_action_nw_addr : Z; ofp_action_nw_addr_nw_addr : Z;
  sizeof_ofp_action_nw_tos : Z; ofp_action_nw_tos_nw_tos : Z;
  sizeof_ofp_action_tp_port : Z; ofp_action_tp_port_tp_port : Z;
  (* struct ofp_hello, ofp_stats_request and the bodies of the statistics requests *)
  sizeof_ofp_hello : Z;
  sizeof_ofp_stats_request : Z; ofp_stats_request_type : Z;
  sizeof_ofp_flow_stats_request : Z; ofp_flow_stats_request_match : Z;
  ofp_flow_stats_request_table_id : Z; ofp_flow_stats_request_out_port : Z;
  sizeof_ofp_aggregate_stats_request : Z; ofp_aggregate_stats_request_match : Z;
  ofp_aggregate_stats_request_table_id : Z; ofp_aggregate_stats_request_out_port : Z;
  sizeof_ofp_port_stats_request : Z; ofp_port_stats_request_port_no : Z;
  (* struct ofp_switch_features, ofp_error_msg, ofp_packet_in *)
  ofp_switch_features_datapath_id : Z;
  sizeof_ofp_error_msg : Z; ofp_error_msg_type : Z; ofp_error_msg_code : Z;
  ofp_packet_in_buffer_id : Z; ofp_packet_in_total_len : Z; ofp_packet_in_in_port : Z;
  ofp_packet_in_reason : Z; ofp_packet_in_data : Z;
  (* struct ofp_flow_removed *)
  ofp_flow_removed_match : Z; ofp_flow_removed_duration_sec : Z; ofp_flow_removed_duration_nsec : Z;
  (* struct ofp_stats_reply *)
  ofp_stats_reply_type : Z; ofp_stats_reply_flags : Z;
}.

(** The wire layout of version 1.0. *)
Class OFLayout (OF : OpenFlow) : Prop := {
  lay_header : sizeof_ofp_header = 8 ∧ ofp_header_version = 0 ∧ ofp_header_type = 1 ∧
    ofp_header_length = 2 ∧ ofp_header_xid = 4;
  lay_match : sizeof_ofp_match = 40 ∧ ofp_match_wildcards = 0 ∧ ofp_match_in_port = 4 ∧
    ofp_match_dl_src = 6 ∧ ofp_match_dl_dst = 12 ∧ ofp_match_dl_vlan = 18 ∧
    ofp_match_dl_type = 22 ∧ ofp_match_nw_proto = 25 ∧ ofp_match_nw_src = 28 ∧
    ofp_match_nw_dst = 32 ∧ ofp_match_tp_src = 36 ∧ ofp_match_tp_dst = 38;
  lay_flow_mod : sizeof_ofp_flow_mod = 72 ∧ ofp_flow_mod_match = 8 ∧ ofp_flow_mod_command = 56 ∧
    ofp_flow_mod_idle_timeout = 58 ∧ ofp_flow_mod_hard_timeout = 60 ∧
    ofp_flow_mod_priority = 62 ∧ ofp_flow_mod_buffer_id = 64 ∧ ofp_flow_mod_out_port = 68 ∧
    ofp_flow_mod_flags = 70 ∧ ofp_flow_mod_actions = 72;
  lay_action_output : sizeof_ofp_action_output = 8 ∧ ofp_action_output_type = 0 ∧
    ofp_action_output_len = 2 ∧ ofp_action_output_port = 4 ∧ ofp_action_output_max_len = 6;
  lay_hello : sizeof_ofp_hello = 8;
  lay_stats_request : sizeof_ofp_stats_request = 12 ∧ ofp_stats_request_type = 8;
  lay_flow_stats : sizeof_ofp_flow_stats_request = 44 ∧ ofp_flow_stats_request_match = 0 ∧
    ofp_flow_stats_request_table_id = 40 ∧ ofp_flow_stats_request_out_port = 42;
  lay_aggregate : sizeof_ofp_aggregate_stats_request = 44 ∧ ofp_aggregate_stats_request_match = 0 ∧
    ofp_aggregate_stats_request_table_id = 40 ∧ ofp_aggregate_stats_request_out_port = 42;
  lay_port_stats : sizeof_ofp_port_stats_request = 8 ∧ ofp_port_stats_request_port_no = 0;
  lay_features : ofp_switch_features_datapath_id = 8;
  lay_error_msg : sizeof_ofp_error_msg = 12 ∧ ofp_error_msg_type = 8 ∧ ofp_error_msg_code = 10;
  lay_packet_in : ofp_packet_in_buffer_id = 8 ∧ ofp_packet_in_total_len = 12 ∧ ofp_packet_in_in_port = 14 ∧
    ofp_packet_in_reason = 16 ∧ ofp_packet_in_data = 18;
  lay_flow_removed : ofp_flow_removed_match = 8 ∧ ofp_flow_removed_duration_sec = 60 ∧
    ofp_flow_removed_duration_nsec = 64;
  lay_actions : sizeof_ofp_action_header = 8 ∧ ofp_action_header_type = 0 ∧ ofp_action_header_len = 2 ∧
    sizeof_ofp_action_vlan_vid = 8 ∧ ofp_action_vlan_vid_vlan_vid = 4 ∧
    sizeof_ofp_action_vlan_pcp = 8 ∧ ofp_action_vlan_pcp_vlan_pcp = 4 ∧
    sizeof_ofp_action_dl_addr = 16 ∧ ofp_action_dl_addr_dl_addr = 4 ∧
    sizeof_ofp_action_nw_addr = 8 ∧ ofp_action_nw_addr_nw_addr = 4 ∧
    sizeof_ofp_action_nw_tos = 8 ∧ ofp_action_nw_tos_nw_tos = 4 ∧
    sizeof_ofp_action_tp_port = 8 ∧ ofp_action_tp_port_tp_port = 4;
  lay_stats_reply : ofp_stats_reply_type = 8 ∧ ofp_stats_reply_flags = 10;
}.

(** Message types label the cases of a switch: bytes, and all different. *)
Class OFTypes (OF : OpenFlow) : Prop := {
  of_version_byte : 0 ≤ OFP_VERSION < 256;
  of_types_byte : Forall (λ t, 0 ≤ t < 256)
    [OFPT_HELLO; OFPT_ERROR; OFPT_ECHO_REQUEST; OFPT_ECHO_REPLY; OFPT_VENDOR;
     OFPT_FEATURES_REQUEST; OFPT_FEATURES_REPLY; OFPT_SET_CONFIG; OFPT_PACKET_IN;
     OFPT_PACKET_OUT; OFPT_FLOW_MOD; OFPT_STATS_REQUEST];
  of_types_distinct : NoDup
    [OFPT_HELLO; OFPT_ERROR; OFPT_ECHO_REQUEST; OFPT_ECHO_REPLY; OFPT_VENDOR;
     OFPT_FEATURES_REQUEST; OFPT_FEATURES_REPLY; OFPT_SET_CONFIG; OFPT_PACKET_IN;
     OFPT_PACKET_OUT; OFPT_FLOW_MOD; OFPT_STATS_REQUEST];
}.

(** The asynchronous events are told apart, and precede the last type. *)
Class OFEvents (OF : OpenFlow) : Prop := {
  of_events_distinct : NoDup [OFPT_PACKET_IN; OFPT_FLOW_EXPIRED; OFPT_PORT_STATUS; OFPT_ECHO_REQUEST];
  of_events_known : Forall (λ t, t ≤ OFPT_BARRIER_REPLY)
    [OFPT_PACKET_IN; OFPT_FLOW_EXPIRED; OFPT_PORT_STATUS; OFPT_ECHO_REQUEST];
}.

(** The actions of version 1.0 are numbered one after the other. *)
Class OFActions (OF : OpenFlow) : Prop := {
  of_actions :
    [OFPAT_OUTPUT; OFPAT_SET_VLAN_VID; OFPAT_SET_VLAN_PCP; OFPAT_STRIP_VLAN; OFPAT_SET_DL_SRC; OFPAT_SET_DL_DST;
     OFPAT_SET_NW_SRC; OFPAT_SET_NW_DST; OFPAT_SET_NW_TOS; OFPAT_SET_TP_SRC; OFPAT_SET_TP_DST]
    = [0; 1; 2; 3; 4; 5; 6; 7; 8; 9; 10];
}.

(** The wildcard flags of version 1.0 and the places of its two netmasks. *)
Class OFWildcards (OF : OpenFlow) : Prop := {
  of_wildcards :
    [OFPFW_IN_PORT; OFPFW_DL_VLAN; OFPFW_DL_SRC; OFPFW_DL_DST; OFPFW_DL_TYPE; OFPFW_NW_PROTO; OFPFW_TP_SRC;
     OFPFW_TP_DST; OFPFW_NW_SRC_SHIFT; OFPFW_NW_DST_SHIFT; OFPFW_DL_VLAN_PCP; OFPFW_NW_TOS]
    = [1; 2; 4; 8; 16; 32; 64; 128; 8; 14; 1048576; 2097152];
}.

(** The kinds of statistics are told apart. *)
Class OFStats (OF : OpenFlow) : Prop := { of_stats_distinct : NoDup [OFPST_FLOW; OFPST_AGGREGATE; OFPST_PORT] }.

(** Put the values of the symbolic offsets and sizes in the context, and in
    the goal. *)
Ltac of_fact p :=
  let H := fresh in pose proof p as H;
  repeat match type of H with _ ∧ _ => let E := fresh in destruct H as [E H] end.
Ltac of_facts L :=
  of_fact (@lay_header _ L); of_fact (@lay_match _ L); of_fact (@lay_flow_mod _ L);
  of_fact (@lay_action_output _ L); of_fact (@lay_hello _ L);
  of_fact (@lay_stats_request _ L); of_fact (@lay_flow_stats _ L);
  of_fact (@lay_aggregate _ L); of_fact (@lay_port_stats _ L);
  of_fact (@lay_features _ L); of_fact (@lay_error_msg _ L);
  of_fact (@lay_packet_in _ L); of_fact (@lay_flow_removed _ L);
  of_fact (@lay_actions _ L); of_fact (@lay_stats_reply _ L).
Ltac of_layout :=
  match goal with
  | L : OFLayout ?OF |- _ =>
    of_facts L;
    repeat match goal with
    | E : ?f = ?v :> Z |- _ =>
      match f with ?h OF => idtac end;
      match v with Z0 => idtac | Zpos _ => idtac end;
      rewrite ?E; clear E
    end
  end.

(** ** The header of version 1.0 *)

Definition of10 : OpenFlow := {|
  OFP_VERSION := 1;
  OFPT_HELLO := 0; OFPT_ERROR := 1; OFPT_ECHO_REQUEST := 2; OFPT_ECHO_REPLY := 3;
  OFPT_VENDOR := 4; OFPT_FEATURES_REQUEST := 5; OFPT_FEATURES_REPLY := 6;
  OFPT_SET_CONFIG := 9; OFPT_PACKET_IN := 10; OFPT_PACKET_OUT := 13; OFPT_FLOW_MOD := 14;
  OFPT_STATS_REQUEST := 16;
  OFPT_FLOW_EXPIRED := 11; OFPT_PORT_STATUS := 12; OFPT_BARRIER_REPLY := 19;
  OFPFC_ADD := 0; OFPFC_MODIFY := 1; OFPFC_MODIFY_STRICT := 2; OFPFC_DELETE := 3;
  OFPST_FLOW := 1; OFPST_AGGREGATE := 2; OFPST_PORT := 4;
  OFPP_NONE := 65535; OFPFW_ALL := 4194303; OFPFF_SEND_FLOW_REM := 1; OFPAT_OUTPUT := 0;
  OFPP_IN_PORT := 65528; OFPR_NO_MATCH := 0;
  OFPT_BARRIER_REQUEST := 18; OFPT_STATS_REPLY := 17; OFPSF_REPLY_MORE := 1;
  OFPAT_SET_VLAN_VID := 1; OFPAT_SET_VLAN_PCP := 2; OFPAT_STRIP_VLAN := 3; OFPAT_SET_DL_SRC := 4;
  OFPAT_SET_DL_DST := 5; OFPAT_SET_NW_SRC := 6; OFPAT_SET_NW_DST := 7; OFPAT_SET_NW_TOS := 8;
  OFPAT_SET_TP_SRC := 9; OFPAT_SET_TP_DST := 10;
  OFPFW_DL_TYPE := 16; OFPFW_NW_SRC_SHIFT := 8; OFPFW_NW_DST_SHIFT := 14;
  OFPFW_IN_PORT := 1; OFPFW_DL_VLAN := 2; OFPFW_DL_SRC := 4; OFPFW_DL_DST := 8; OFPFW_NW_PROTO := 32;
  OFPFW_TP_SRC := 64; OFPFW_TP_DST := 128; OFPFW_DL_VLAN_PCP := 1048576; OFPFW_NW_TOS := 2097152;
  OFP_FLOW_PERMANENT := 0; OFPET_BAD_REQUEST := 1; OFPBRC_BAD_VENDOR := 3; OFP_TCP_PORT := 6633;
  sizeof_ofp_header := 8;
  ofp_header_version := 0; ofp_header_type := 1; ofp_header_length := 2; ofp_header_xid := 4;
  sizeof_ofp_match := 40;
  ofp_match_wildcards := 0; ofp_match_in_port := 4; ofp_match_dl_src := 6; ofp_match_dl_dst := 12;
  ofp_match_dl_vlan := 18; ofp_match_dl_type := 22; ofp_match_nw_proto := 25;
  ofp_match_nw_src := 28; ofp_match_nw_dst := 32; ofp_match_tp_src := 36; ofp_match_tp_dst := 38;
  sizeof_ofp_flow_mod := 72;
  ofp_flow_mod_match := 8; ofp_flow_mod_command := 56; ofp_flow_mod_idle_timeout := 58;
  ofp_flow_mod_hard_timeout := 60; ofp_flow_mod_priority := 62; ofp_flow_mod_buffer_id := 64;
  ofp_flow_mod_out_port := 68; ofp_flow_mod_flags := 70; ofp_flow_mod_actions := 72;
  sizeof_ofp_action_output := 8;
  ofp_action_output_type := 0; ofp_action_output_len := 2; ofp_action_output_port := 4;
  ofp_action_output_max_len := 6;
  sizeof_ofp_action_header := 8; ofp_action_header_type := 0; ofp_action_header_len := 2;
  sizeof_ofp_action_vlan_vid := 8; ofp_action_vlan_vid_vlan_vid := 4;
  sizeof_ofp_action_vlan_pcp := 8; ofp_action_vlan_pcp_vlan_pcp := 4;
  sizeof_ofp_action_dl_addr := 16; ofp_action_dl_addr_dl_addr := 4;
  sizeof_ofp_action_nw_addr := 8; ofp_action_nw_addr_nw_addr := 4;
  sizeof_ofp_action_nw_tos := 8; ofp_action_nw_tos_nw_tos := 4;
  sizeof_ofp_action_tp_port := 8; ofp_action_tp_port_tp_port := 4;
  sizeof_ofp_hello := 8;
  sizeof_ofp_stats_request := 12; ofp_stats_request_type := 8;
  sizeof_ofp_flow_stats_request := 44; ofp_flow_stats_request_match := 0;
  ofp_flow_stats_request_table_id := 40; ofp_flow_stats_request_out_port := 42;
  sizeof_ofp_aggregate_stats_request := 44; ofp_aggregate_stats_request_match := 0;
  ofp_aggregate_stats_request_table_id := 40; ofp_aggregate_stats_request_out_port := 42;
  sizeof_ofp_port_stats_request := 8; ofp_port_stats_request_port_no := 0;
  ofp_switch_features_datapath_id := 8;
  sizeof_ofp_error_msg := 12; ofp_error_msg_type := 8; ofp_error_msg_code := 10;
  ofp_packet_in_buffer_id := 8; ofp_packet_in_total_len := 12; ofp_packet_in_in_port := 14;
  ofp_packet_in_reason := 16; ofp_packet_in_data := 18;
  ofp_flow_removed_match := 8; ofp_flow_removed_duration_sec := 60; ofp_flow_removed_duration_nsec := 64;
  ofp_stats_reply_type := 8; ofp_stats_reply_flags := 10;
|}.

#[export] Instance of10_layout : OFLayout of10.
Proof. by split. Qed.

#[export] Instance of10_types : OFTypes of10.
Proof.
  split; cbn; [lia|repeat constructor; lia|].
  apply (bool_decide_unpack _). vm_compute. done.
Qed.

#[export] Instance of10_events : OFEvents of10.
Proof. split; cbn; [|repeat constructor; lia]. apply (bool_decide_unpack _). vm_compute. done. Qed.

#[export] Instance of10_actions : OFActions of10.
Proof. by split. Qed.

#[export] Instance of10_stats : OFStats of10.
Proof. split. apply (bool_decide_unpack _). vm_compute. done. Qed.

#[export] Instance of10_wildcards : OFWildcards of10.
Proof. by split. Qed.
