(* ===== verification/OfFrame.v ===== *)
(** * OpenFlow messages in a byte stream

    What both receivers of a byte stream (pcap_track.c, fakeswitch.c) rely on:
    a message carries its own length in its header. *)

From S2P Require Import Prelude CBytes OpenFlow.
Open Scope Z_scope.

(** A complete OpenFlow message: its length field says how long it is. *)
Definition of_message (bs : list Z) : Prop :=
  4 ≤ zlen bs < 65536 ∧ take 2 (drop 2 bs) = be16 (zlen bs).
(** The beginning of a message whose end was not captured. *)
Definition of_partial (bs : list Z) : Prop :=
  bs = [] ∨ (4 ≤ zlen bs ∧ ∃ n, zlen bs < n < 65536 ∧ take 2 (drop 2 bs) = be16 n).

#[export] Instance of_message_dec bs : Decision (of_message bs).
Proof. unfold of_message. apply _. Defined.

Lemma rd_bytes_at (pre bs post : list Z) off n :
  off = zlen pre → n = zlen bs → rd_bytes (cells (pre ++ bs ++ post)) off n = Ok bs.
Proof.
  intros -> ->. unfold rd_bytes. rewrite rd_cells_ok.
  - cbn [mbind res_bind]. unfold slice, cells, zlen. rewrite !fmap_app, !Nat2Z.id.
    rewrite drop_app_length' by (by rewrite length_fmap).
    rewrite take_app_length' by (by rewrite length_fmap). apply bytes_of_cells.
  - unfold in_bounds. rewrite zlen_cells, !zlen_app.
    pose proof (zlen_nonneg pre). pose proof (zlen_nonneg bs). pose proof (zlen_nonneg post). lia.
Qed.

(** The length field of a message inside a packet. *)
Lemma rd_length pre bs post n :
  4 ≤ zlen bs → 0 ≤ n < 65536 → take 2 (drop 2 bs) = be16 n →
  rd16be (cells (pre ++ bs ++ post)) (zlen pre + 2) = Ok n.
Proof.
  intros Hl Hn Hf. unfold rd16be.
  assert (bs = take 2 bs ++ be16 n ++ drop 4 bs) as ->.
  { rewrite <-Hf. rewrite <-(take_drop 2 bs) at 1. f_equal.
    by rewrite <-(take_drop 2 (drop 2 bs)) at 1; rewrite drop_drop. }
  rewrite <-!app_assoc, (app_assoc pre). rewrite rd_bytes_at; cbn [mbind res_bind mret res_ret].
  - by rewrite un_be16_be16 by lia.
  - rewrite zlen_app. unfold zlen in *. rewrite length_take. lia.
  - done.
Qed.

