(* ===== verification/PcapTrack.v ===== *)
(** * Timestamps of control messages (pcap_track.c)

    The ring of the last 256 OpenFlow messages seen on the control channel with
    their capture headers: extraction of the TCP payload, splitting of the
    payload into messages, the ring's insertion, lookup and disposal.

    [ptrack_add_tracks] shows that insertion files every complete message of
    the payload in order; [ptrack_lookup_misses] that lookup, which computes
    its index from the count instead of the loop variable, finds none of them
    until the ring has wrapped around; [ptrack_free_double_free] what the same
    index does to the disposal. *)

From S2P Require Import Prelude CTime CBytes OpenFlow OfFrame.
Open Scope Z_scope.

Definition PTRACK_MAX_LEN : Z := 256.
Definition ETHERTYPE_VLAN : Z := 0x8100.
Definition ETHERTYPE_IP : Z := 0x0800.
Definition IPPROTO_TCP : Z := 6.
Definition IPPROTO_UDP : Z := 17.
Definition sizeof_ether_header : Z := 14.

(** [struct pcap_pkthdr] *)
Record pcap_pkthdr := { ts : timeval; caplen : Z; pkt_len : Z }.

(** [struct ptrack_entry]; [e_data] is 0 for NULL. *)
Record ptrack_entry := { e_data : Z; e_len : Z; e_hdr : pcap_pkthdr }.
Record ptrack_list := { entries : list ptrack_entry; count : Z; head : Z }.

(** The copies of messages that are allocated. *)
Record pheap := { blocks : gmap Z mem; pbrk : Z }.

Definition pcap_pkthdr0 : pcap_pkthdr :=
  {| ts := {| tv_sec := 0; tv_usec := 0 |}; caplen := 0; pkt_len := 0 |}.
Definition ptrack_entry0 : ptrack_entry := {| e_data := 0; e_len := 0; e_hdr := pcap_pkthdr0 |}.

Definition ptrack_new : ptrack_list :=
  {| entries := replicate 256 ptrack_entry0; count := 0; head := 0 |}.

(** ** Finding the TCP payload *)

(** Every header field is read before its position is compared with [len]. *)
Definition tcp_payload_offset (data : mem) (len : Z) : res Z :=
  t ← rd16be data 12;
  let offset := if t =? ETHERTYPE_VLAN then 4 else 0 in
  t ← (if t =? ETHERTYPE_VLAN then rd16be data (offset + 12) else mret t);
  if (offset >=? len) || negb (t =? ETHERTYPE_IP) then mret INT_MAX
  else
    let offset := offset + sizeof_ether_header in
    if offset >=? len then mret INT_MAX
    else
      proto ← rd8 data (offset + 9);
      if negb (proto =? IPPROTO_TCP) then mret INT_MAX
      else
        b ← rd8 data offset;
        let offset := offset + Z.land b 15 * 4 in
        b ← rd8 data (offset + 12);
        mret (offset + Z.shiftr b 4 * 4).

(** ** The ring *)

Definition p_malloc (h : pheap) (m : mem) : Z * pheap :=
  let p := pbrk h + 1 in (p, {| blocks := <[p := m]> (blocks h); pbrk := p |}).

(** free(NULL) does nothing; freeing a block twice is an error. *)
Definition p_free (h : pheap) (p : Z) : res pheap :=
  if p =? 0 then mret h
  else match blocks h !! p with
  | Some _ => mret {| blocks := delete p (blocks h); pbrk := pbrk h |}
  | None => Fault FDangling
  end.

Definition p_read (h : pheap) (p n : Z) : res (list Z) :=
  if n <=? 0 then mret []
  else if p =? 0 then Fault FNull
  else match blocks h !! p with
  | Some m => rd_bytes m 0 n
  | None => Fault FDangling
  end.

(** Storing one message in the next slot. *)
Definition ptrack_store (ptl : ptrack_list) (h : pheap) (c : mem) (hdr : pcap_pkthdr) :
    res (ptrack_list * pheap) :=
  match zget (entries ptl) (head ptl) with
  | None => Fault FBounds
  | Some _ =>
    let '(p, h) := p_malloc h c in
    let head' := head ptl + 1 in
    mret ({| entries := zset (entries ptl) (head ptl) {| e_data := p; e_len := zlen c; e_hdr := hdr |};
             count := if count ptl <? PTRACK_MAX_LEN then count ptl + 1 else count ptl;
             head := if head' >=? PTRACK_MAX_LEN then 0 else head' |}, h)
  end.

Section openflow.
Context {OF : OpenFlow}.

(** The while loop over the payload: [off] is the position in the packet. *)
Fixpoint add_loop (fuel : nat) (ptl : ptrack_list) (h : pheap) (data : mem) (off len : Z)
    (hdr : pcap_pkthdr) (add_count : Z) : res (Z * ptrack_list * pheap) :=
  match fuel with
  | O => Fault FFuel
  | S fuel =>
    if len >? 0 then
      add_len ← rd16be data (off + ofp_header_length);
      if add_len >? len then mret (add_count, ptl, h)
      else
        c ← rd_cells data off add_len;
        '(ptl, h) ← ptrack_store ptl h c hdr;
        add_loop fuel ptl h data (off + add_len) (len - add_len) hdr (add_count + 1)
    else mret (add_count, ptl, h)
  end.

Definition ptrack_add_of_entry (fuel : nat) (ptl : ptrack_list) (h : pheap) (data : mem) (len : Z)
    (hdr : pcap_pkthdr) : res (Z * ptrack_list * pheap) :=
  offset ← tcp_payload_offset data len;
  if offset >=? len then mret (0, ptl, h)
  else add_loop fuel ptl h data offset (len - offset) hdr 0.
End openflow.

(** The slot both loops look at, in every iteration. *)
Definition slot (ptl : ptrack_list) : Z :=
  let idx := head ptl - 1 - count ptl in
  if idx <? 0 then idx + PTRACK_MAX_LEN else idx.

(** What the lookup loop does in [n] more iterations.  The result is the
    capture header, if one was found. *)
Fixpoint lookup_loop (n : nat) (ptl : ptrack_list) (h : pheap) (data : mem) (len : Z) :
    res (option pcap_pkthdr * ptrack_list) :=
  match n with
  | O => mret (None, ptl)
  | S n =>
    match zget (entries ptl) (slot ptl) with
    | None => Fault FBounds
    | Some ent =>
      same ← (if len <=? e_len ent then
                let k := Z.min len (e_len ent) in
                a ← rd_bytes data 0 k;
                b ← p_read h (e_data ent) k;
                mret (bool_decide (a = b))
              else mret false);
      if same : bool then
        let hd := head ptl - 1 in
        c_assert (count ptl - 1 >=? 0);;
        mret (Some (e_hdr ent),
              {| entries := entries ptl; count := count ptl - 1;
                 head := if hd <? 0 then hd + PTRACK_MAX_LEN else hd |})
      else lookup_loop n ptl h data len
    end
  end.

Definition ptrack_lookup (ptl : ptrack_list) (h : pheap) (data : mem) (len : Z) :=
  lookup_loop (Z.to_nat (count ptl)) ptl h data len.

Fixpoint free_loop (n : nat) (ptl : ptrack_list) (h : pheap) : res pheap :=
  match n with
  | O => mret h
  | S n =>
    match zget (entries ptl) (slot ptl) with
    | None => Fault FBounds
    | Some ent => h ← p_free h (e_data ent); free_loop n ptl h
    end
  end.

Definition ptrack_free (ptl : ptrack_list) (h : pheap) : res pheap :=
  free_loop (Z.to_nat (count ptl)) ptl h.

(** ** The ring as a bounded history *)

Record pt_wf (ptl : ptrack_list) (h : pheap) : Prop := {
  pw_entries : zlen (entries ptl) = PTRACK_MAX_LEN;
  pw_head : 0 ≤ head ptl < PTRACK_MAX_LEN;
  pw_count : 0 ≤ count ptl ≤ PTRACK_MAX_LEN;
  pw_ptrs : ∀ i e, zget (entries ptl) i = Some e → 0 ≤ e_data e ≤ pbrk h;
}.

(** The message tracked [i] insertions ago, with its capture header. *)
Definition tracked (ptl : ptrack_list) (h : pheap) (i : nat) : option (mem * pcap_pkthdr) :=
  e ← zget (entries ptl) ((head ptl - 1 - Z.of_nat i) `mod` PTRACK_MAX_LEN);
  m ← blocks h !! e_data e;
  if decide (zlen m = e_len e) then Some (m, e_hdr e) else None.

(** The tracked messages, latest first. *)
Definition history (ptl : ptrack_list) (h : pheap) : list (option (mem * pcap_pkthdr)) :=
  tracked ptl h <$> seq 0 (Z.to_nat (count ptl)).

Lemma pt_wf_new h : 0 ≤ pbrk h → pt_wf ptrack_new h.
Proof.
  intros. split; cbn; try done. intros i e He. unfold zget in He. case_decide; [|done].
  change (replicate 256 ptrack_entry0 !! Z.to_nat i = Some e) in He.
  apply lookup_replicate in He as [-> _]. cbn. lia.
Qed.

Lemma ptrack_store_spec ptl h c hdr :
  pt_wf ptl h →
  ∃ ptl' h', ptrack_store ptl h c hdr = Ok (ptl', h') ∧ pt_wf ptl' h' ∧
    history ptl' h' = take 256 (Some (c, hdr) :: history ptl h) ∧
    count ptl' = Z.min 256 (count ptl + 1) ∧ head ptl' = (head ptl + 1) `mod` 256 ∧
    zget (entries ptl') (head ptl) = Some {| e_data := pbrk h'; e_len := zlen c; e_hdr := hdr |} ∧
    is_Some (blocks h' !! pbrk h') ∧ 0 < pbrk h' ∧
    (∀ i, i ≠ head ptl → zget (entries ptl') i = zget (entries ptl) i).
Proof.
  intros [He Hh Hc Hp]. unfold PTRACK_MAX_LEN in *. unfold ptrack_store.
  destruct (zget_in_bounds (entries ptl) (head ptl)) as [e0 He0]; [lia|]. rewrite He0. cbn [p_malloc mret res_ret].
  pose proof (Hp _ _ He0). unfold PTRACK_MAX_LEN.
  set (hd := if head ptl + 1 >=? 256 then 0 else head ptl + 1).
  set (ct := if count ptl <? 256 then count ptl + 1 else count ptl).
  assert (hd = (head ptl + 1) `mod` 256) as Ehd.
  { subst hd. destruct (_ >=? _) eqn:?; Z.to_euclidean_division_equations; lia. }
  assert (ct = Z.min 256 (count ptl + 1)) as Ect by (subst ct; destruct (_ <? _) eqn:?; lia).
  eexists _, _. split; [done|]. split; [|split]; [| |cbn; split_and!; try done].
  - split; unfold PTRACK_MAX_LEN; cbn; rewrite ?zlen_zset; try lia.
    + rewrite Ehd. apply Z.mod_pos_bound. lia.
    + intros i e. destruct (decide (i = head ptl)) as [->|Hne].
      * rewrite zget_zset_eq by lia. intros [= <-]. cbn. lia.
      * rewrite zget_zset_ne by done. intros ?%Hp. lia.
  - unfold history. cbn [count]. apply list_eq. intros i. rewrite Ect.
    rewrite list_lookup_fmap. destruct (decide (i < Z.to_nat (Z.min 256 (count ptl + 1)))%nat) as [Hi|Hi].
    + rewrite lookup_seq_lt by done. rewrite lookup_take_lt by lia. cbn [fmap option_fmap option_map].
      unfold tracked. cbn [entries head blocks]. rewrite Ehd, Z.add_0_l || rewrite Ehd.
      unfold PTRACK_MAX_LEN. destruct i as [|i].
      * replace (((head ptl + 1) `mod` 256 - 1 - Z.of_nat (0 + 0)) `mod` 256) with (head ptl)
          by (Z.to_euclidean_division_equations; lia).
        rewrite zget_zset_eq by lia. cbn. rewrite lookup_insert_eq. cbn. by rewrite decide_True.
      * rewrite lookup_cons, list_lookup_fmap, lookup_seq_lt by lia.
        cbn [fmap option_fmap option_map Nat.add]. f_equal.
        replace (((head ptl + 1) `mod` 256 - 1 - Z.of_nat (S i)) `mod` 256)
          with ((head ptl - 1 - Z.of_nat i) `mod` 256) by (Z.to_euclidean_division_equations; lia).
        rewrite zget_zset_ne by (Z.to_euclidean_division_equations; lia).
        destruct (zget (entries ptl) ((head ptl - 1 - Z.of_nat i) `mod` 256)) as [e|] eqn:Hze;
          [|done].
        cbn [mbind option_bind]. rewrite lookup_insert_ne; [done|]. apply Hp in Hze. lia.
    + rewrite lookup_seq_ge by lia. rewrite lookup_ge_None_2; [done|].
      rewrite length_take. cbn [length]. rewrite length_fmap, length_seq. lia.
  - rewrite zget_zset_eq by lia. done.
  - rewrite lookup_insert_eq. eauto.
  - lia.
  - intros i Hi. by apply zget_zset_ne.
Qed.

(** ** Splitting a payload into messages *)

Section openflow_laws.
Context {OF : OpenFlow} {L : OFLayout OF}.

Lemma add_loop_S fuel ptl h data off len hdr n :
  add_loop (S fuel) ptl h data off len hdr n =
  if len >? 0 then
    add_len ← rd16be data (off + ofp_header_length);
    if add_len >? len then mret (n, ptl, h)
    else
      c ← rd_cells data off add_len;
      '(ptl, h) ← ptrack_store ptl h c hdr;
      add_loop fuel ptl h data (off + add_len) (len - add_len) hdr (n + 1)
  else mret (n, ptl, h).
Proof. done. Qed.

Lemma take_history {A} (l k m : list A) :
  take 256 (l ++ take 256 (k ++ m)) = take 256 ((l ++ k) ++ m).
Proof.
  rewrite <-app_assoc, (take_app l (take _ _)), (take_app l (k ++ m)), take_take.
  do 2 f_equal. lia.
Qed.

Lemma add_loop_spec fuel ptl h pre ms rest hdr n :
  pt_wf ptl h → Forall of_message ms → of_partial rest → (length ms < fuel)%nat →
  ∃ ptl' h', add_loop fuel ptl h (cells (pre ++ concat ms ++ rest)) (zlen pre)
                 (zlen (concat ms ++ rest)) hdr n = Ok (n + zlen ms, ptl', h') ∧ pt_wf ptl' h' ∧
    history ptl' h' = take 256 (reverse ((λ m, Some (cells m, hdr)) <$> ms) ++ history ptl h).
Proof.
  revert ptl h pre ms n. induction fuel as [|fuel IH]; intros ptl h pre ms n Hwf Hms Hr Hf; [lia|].
  assert (history ptl h = take 256 (history ptl h)) as Hh.
  { unfold history. rewrite take_ge; [done|]. rewrite length_fmap, length_seq.
    pose proof (pw_count _ _ Hwf). unfold PTRACK_MAX_LEN in *. lia. }
  rewrite add_loop_S. destruct L as [(_ & _ & _ & -> & _) _ _ _ _ _ _ _ _ _ _ _].
  destruct ms as [|m ms].
  - cbn [concat app]. exists ptl, h. change (zlen (@nil (list Z))) with 0. rewrite Z.add_0_r.
    destruct Hr as [->|(Hl & k & Hk & Hfld)]; [done|].
    replace (zlen rest >? 0) with true by lia.
    rewrite <-(app_nil_r (pre ++ rest)), <-app_assoc, (rd_length _ _ _ k) by (done || lia).
    cbn [mbind res_bind]. replace (k >? zlen rest) with true by lia. done.
  - apply Forall_cons in Hms as [[Hl Hfld] Hms]. cbn [concat].
    rewrite !zlen_app. pose proof (zlen_nonneg (concat ms)). pose proof (zlen_nonneg rest).
    replace (zlen m + zlen (concat ms) + zlen rest >? 0) with true by lia.
    rewrite <-(app_assoc m), (rd_length _ _ _ (zlen m)) by (done || lia). cbn [mbind res_bind].
    replace (zlen m >? zlen m + zlen (concat ms) + zlen rest) with false by lia.
    pose proof (rd_bytes_at pre m (concat ms ++ rest) _ _ eq_refl eq_refl) as Hrd.
    unfold rd_bytes in Hrd. apply bind_Ok in Hrd as (c & -> & ->%bytes_of_Ok). cbn [mbind res_bind].
    destruct (ptrack_store_spec ptl h (cells m) hdr Hwf) as (ptl1 & h1 & -> & Hwf1 & Hh1 & _).
    cbn [mbind res_bind]. destruct (IH ptl1 h1 (pre ++ m) ms (n + 1)) as (ptl2 & h2 & He & Hwf2 & Hh2);
      [done..|cbn in Hf; lia|].
    exists ptl2, h2. rewrite <-app_assoc, zlen_app in He. rewrite zlen_app in He.
    replace (zlen m + zlen (concat ms) + zlen rest - zlen m) with (zlen (concat ms) + zlen rest) by lia.
    rewrite He. split_and!; [|done|].
    + unfold zlen. cbn. do 3 f_equal. lia.
    + rewrite Hh2, Hh1, fmap_cons, reverse_cons.
      apply (take_history _ [Some (cells m, hdr)]).
Qed.


(** A message that announces length 0 is never passed: the loop files it
    again and again and does not end, however many iterations are allowed. *)
Theorem ptrack_add_zero_length_diverges fuel ptl h pre a b rest hdr :
  pt_wf ptl h →
  let data := cells (pre ++ [a; b; 0; 0] ++ rest) in
  tcp_payload_offset data (zlen data) = Ok (zlen pre) →
  ptrack_add_of_entry fuel ptl h data (zlen data) hdr = Fault FFuel.
Proof.
  intros Hwf data Hoff. unfold ptrack_add_of_entry. rewrite Hoff. cbn [mbind res_bind].
  assert (zlen data = zlen pre + (4 + zlen rest)) as ->.
  { subst data. by rewrite zlen_cells, !zlen_app. }
  pose proof (zlen_nonneg rest). replace (_ >=? _) with false by lia.
  replace (zlen pre + (4 + zlen rest) - zlen pre) with (4 + zlen rest) by lia.
  generalize 0 at 1 as n. revert ptl h Hwf. induction fuel as [|fuel IH]; intros ptl h Hwf n; [done|].
  rewrite add_loop_S. destruct L as [(_ & _ & _ & -> & _) _ _ _ _ _ _ _ _ _ _ _].
  replace (4 + zlen rest >? 0) with true by lia.
  subst data. rewrite (rd_length pre [a; b; 0; 0] rest 0) by done. cbn [mbind res_bind].
  replace (0 >? 4 + zlen rest) with false by lia.
  rewrite rd_cells_ok; [|unfold in_bounds; rewrite zlen_cells, !zlen_app;
    pose proof (zlen_nonneg pre); pose proof (zlen_nonneg [a; b; 0; 0]); lia].
  cbn [mbind res_bind]. rewrite slice_0.
  destruct (ptrack_store_spec ptl h [] hdr Hwf) as (ptl1 & h1 & -> & Hwf1 & _).
  cbn [mbind res_bind]. rewrite Z.add_0_r, Z.sub_0_r. by apply IH.
Qed.
End openflow_laws.

(** An Ethernet/IP/TCP packet with minimal headers, for the examples. *)
Definition demo_tcp_headers : list Z :=
  [0;0;0;0;0;1; 0;0;0;0;0;2; 8;0] ++
  [0x45;0;0;0;0;0;0;0;64;6;0;0;10;0;0;1;10;0;0;2] ++
  [0x19;0xe9;0;80;0;0;0;0;0;0;0;0;0x50;0;0;0;0;0;0;0].
Definition demo_hello : list Z := [1; 0; 0; 8; 0; 0; 0; 1].
Definition demo_echo : list Z := [1; 2; 0; 12; 0; 0; 0; 2; 0xde; 0xad; 0xbe; 0xef].
Definition demo_hdr : pcap_pkthdr :=
  {| ts := {| tv_sec := 5; tv_usec := 6 |}; caplen := 78; pkt_len := 78 |}.
Definition pheap0 : pheap := {| blocks := ∅; pbrk := 0 |}.


(** ** What lookup and disposal see *)

(** States reached by tracking packets, with the number of messages filed. *)
Inductive pt_reach {OF : OpenFlow} (h0 : pheap) : Z → ptrack_list → pheap → Prop :=
| reach_new : pt_reach h0 0 ptrack_new h0
| reach_add fuel n k ptl h data len hdr ptl' h' :
    pt_reach h0 n ptl h → ptrack_add_of_entry fuel ptl h data len hdr = Ok (k, ptl', h') →
    pt_reach h0 (n + k) ptl' h'.

(** After [n] messages. *)
Record pt_after (n : Z) (ptl : ptrack_list) (h : pheap) : Prop := {
  pa_wf : pt_wf ptl h;
  pa_n : 0 ≤ n;
  pa_count : count ptl = Z.min 256 n;
  pa_head : head ptl = n `mod` 256;
  pa_last : 0 < n → ∃ e, zget (entries ptl) ((n - 1) `mod` 256) = Some e ∧
    0 < e_data e ∧ is_Some (blocks h !! e_data e);
  pa_unused : n < 256 → zget (entries ptl) 255 = Some ptrack_entry0;
}.

Lemma pt_after_store n ptl h c hdr ptl' h' :
  pt_after n ptl h → ptrack_store ptl h c hdr = Ok (ptl', h') → pt_after (n + 1) ptl' h'.
Proof.
  intros [Hwf Hn Hc Hh Hl Hu] Hs.
  destruct (ptrack_store_spec ptl h c hdr Hwf)
    as (ptl1 & h1 & Hs1 & Hwf1 & _ & Hc1 & Hh1 & Hz & Hlive & Hpos & Hne).
  rewrite Hs in Hs1. injection Hs1 as <- <-. split; try done; try lia.
  - rewrite Hh1, Hh. Z.to_euclidean_division_equations; lia.
  - intros _. replace (n + 1 - 1) with n by lia. rewrite <-Hh. eexists. split; [exact Hz|]. done.
  - intros Hlt. rewrite Hne by (rewrite Hh, Z.mod_small; lia). apply Hu. lia.
Qed.

Lemma pt_after_loop {OF : OpenFlow} fuel n ptl h data off len hdr m k ptl' h' :
  pt_after n ptl h → add_loop fuel ptl h data off len hdr m = Ok (k, ptl', h') →
  pt_after (n + (k - m)) ptl' h'.
Proof.
  revert n ptl h off len m. induction fuel as [|fuel IH]; intros n ptl h off len m Ha He; [done|].
  cbn in He. destruct (len >? 0); [|injection He as <- <- <-; by replace (n + (m - m)) with n by lia].
  apply bind_Ok in He as (al & _ & He). destruct (al >? len).
  { injection He as <- <- <-. by replace (n + (m - m)) with n by lia. }
  apply bind_Ok in He as (c & _ & He). apply bind_Ok in He as ([ptl1 h1] & Hs & He).
  eapply pt_after_store in Ha; [|done]. apply (IH (n + 1)) in He; [|done].
  by replace (n + (k - m)) with (n + 1 + (k - (m + 1))) by lia.
Qed.

Lemma pt_reach_after {OF : OpenFlow} h0 n ptl h : 0 ≤ pbrk h0 → pt_reach h0 n ptl h → pt_after n ptl h.
Proof.
  intros H0. induction 1 as [|fuel n k ptl h data len hdr ptl' h' _ IH He].
  - split; cbn; try done. by apply pt_wf_new.
  - unfold ptrack_add_of_entry in He. apply bind_Ok in He as (off & _ & He).
    destruct (off >=? len); [injection He as <- <- <-; by rewrite Z.add_0_r|].
    apply (pt_after_loop _ n) in He; [|done]. by rewrite Z.sub_0_r in He.
Qed.

Lemma slot_after n ptl h :
  pt_after n ptl h → slot ptl = if decide (n < 256) then 255 else n `mod` 256 - 1.
Proof.
  intros [_ Hn Hc Hh _ _]. unfold slot, PTRACK_MAX_LEN. rewrite Hc, Hh.
  case_decide; destruct (_ <? _) eqn:?; Z.to_euclidean_division_equations; lia.
Qed.

(** Lookup finds nothing: as long as fewer than 256 messages have been
    tracked, whatever they were, ptrack_lookup of any non-empty data reports
    that it was not seen. *)
Theorem ptrack_lookup_misses {OF : OpenFlow} h0 n ptl h data len :
  0 ≤ pbrk h0 → pt_reach h0 n ptl h → n < 256 → 0 < len →
  ptrack_lookup ptl h data len = Ok (None, ptl).
Proof.
  intros H0 Hr Hn Hl. apply pt_reach_after in Hr as Ha; [|done].
  pose proof (slot_after _ _ _ Ha) as Hs. rewrite decide_True in Hs by done.
  unfold ptrack_lookup. generalize (Z.to_nat (count ptl)) as k. induction k as [|k IH]; [done|].
  cbn. rewrite Hs, (pa_unused _ _ _ Ha Hn). cbn. by replace (len <=? 0) with false by lia.
Qed.

(** Disposal: with fewer than 256 tracked messages ptrack_free releases
    none of their copies; with 256 it reads before the array; with more (not a
    multiple of 256) it frees the latest copy twice. *)
Theorem ptrack_free_behaviour {OF : OpenFlow} h0 n ptl h :
  0 ≤ pbrk h0 → pt_reach h0 n ptl h →
  ptrack_free ptl h = if decide (n < 256) then Ok h
                      else if decide (n `mod` 256 = 0) then Fault FBounds else Fault FDangling.
Proof.
  intros H0 Hr. apply pt_reach_after in Hr as Ha; [|done].
  pose proof (slot_after _ _ _ Ha) as Hs. unfold ptrack_free. rewrite (pa_count _ _ _ Ha).
  pose proof (pa_n _ _ _ Ha). case_decide.
  - generalize (Z.to_nat (Z.min 256 n)) as k. induction k as [|k IH]; [done|].
    cbn. rewrite Hs, (pa_unused _ _ _ Ha) by done. cbn. exact IH.
  - replace (Z.to_nat (Z.min 256 n)) with (S (S 254)) by lia.
    generalize 254%nat as k. intros k.
    case_decide as Hm; cbn [free_loop]; rewrite Hs.
    + rewrite Hm. rewrite zget_out by lia. done.
    + destruct (pa_last _ _ _ Ha) as (e & He & Hp & [m Hm']); [lia|].
      replace (n `mod` 256 - 1) with ((n - 1) `mod` 256) by (Z.to_euclidean_division_equations; lia).
      rewrite He. unfold p_free. replace (e_data e =? 0) with false by lia. rewrite Hm'.
      cbn [mbind res_bind mret res_ret blocks]. by rewrite lookup_delete_eq.
Qed.

(** *** Concrete runs *)

Definition demo_packet : mem := cells (demo_tcp_headers ++ demo_hello ++ demo_echo).

(** Track the packet [k] times. *)
Fixpoint demo_track (k : nat) (ptl : ptrack_list) (h : pheap) : ptrack_list * pheap :=
  match k with
  | O => (ptl, h)
  | S k =>
    match @ptrack_add_of_entry of10 3 ptl h demo_packet (zlen demo_packet) demo_hdr with
    | Ok (_, ptl, h) => demo_track k ptl h
    | Fault _ => (ptl, h)
    end
  end.

Lemma demo_track_reach k n ptl h :
  0 ≤ pbrk pheap0 → @pt_reach of10 pheap0 n ptl h → pt_wf ptl h →
  let r := demo_track k ptl h in @pt_reach of10 pheap0 (n + 2 * Z.of_nat k) r.1 r.2.
Proof.
  intros H0. revert n ptl h. induction k as [|k IH]; intros n ptl h Hr Hwf; cbn [demo_track].
  { by replace (n + 2 * Z.of_nat 0) with n by lia. }
  destruct (@add_loop_spec of10 _ 3 ptl h demo_tcp_headers [demo_hello; demo_echo] [] demo_hdr 0 Hwf)
    as (ptl1 & h1 & He & Hwf1 & _); [repeat constructor; by vm_compute|by left|cbn; lia|].
  assert (@ptrack_add_of_entry of10 3 ptl h demo_packet (zlen demo_packet) demo_hdr =
          Ok (2, ptl1, h1)) as Ha.
  { transitivity (@add_loop of10 3 ptl h demo_packet 54 20 demo_hdr 0); [|exact He].
    unfold ptrack_add_of_entry.
    replace (tcp_payload_offset demo_packet (zlen demo_packet)) with (Ok 54) by reflexivity.
    reflexivity. }
  rewrite Ha. replace (n + 2 * Z.of_nat (S k)) with (n + 2 + 2 * Z.of_nat k) by lia.
  apply IH; [|done]. by eapply reach_add.
Qed.

Definition demo_ring (k : nat) : ptrack_list * pheap := demo_track k ptrack_new pheap0.

Lemma demo_ring_reach k : @pt_reach of10 pheap0 (2 * Z.of_nat k) (demo_ring k).1 (demo_ring k).2.
Proof. apply (demo_track_reach k 0); [done|constructor|by apply pt_wf_new]. Qed.

Lemma ptrack_lookup_misses_witness :
  ptrack_lookup (demo_ring 3).1 (demo_ring 3).2 (cells demo_echo) 12 = Ok (None, (demo_ring 3).1).
Proof.
  apply (@ptrack_lookup_misses of10 pheap0 6); [done|exact (demo_ring_reach 3)|lia|lia].
Defined.

Lemma ptrack_free_behaviour_witness :
  ptrack_free (demo_ring 129).1 (demo_ring 129).2 = Fault FDangling.
Proof. apply (@ptrack_free_behaviour of10 pheap0 258); [done|exact (demo_ring_reach 129)]. Defined.

Lemma ptrack_add_zero_length_diverges_witness :
  let data := cells (demo_tcp_headers ++ [1; 0; 0; 0] ++ [0; 0; 0; 1]) in
  @ptrack_add_of_entry of10 100 ptrack_new pheap0 data (zlen data) demo_hdr = Fault FFuel.
Proof.
  apply (@ptrack_add_zero_length_diverges of10 _ 100 ptrack_new pheap0 demo_tcp_headers 1 0
           [0; 0; 0; 1] demo_hdr); [by apply pt_wf_new|vm_compute; reflexivity].
Defined.
