(* ===== verification/FakeSwitch.v ===== *)
(** * The fake switch of the controller benchmark (cbench/fakeswitch.c)

    One emulated switch: the messages it builds (features reply, vendor error,
    packet-in probe) as the bytes that are sent, and the handlers called when
    its socket is readable or writable.  The OpenFlow header is the parameter
    [OpenFlow]; the clock is a parameter of the handlers that read it. *)

From S2P Require Import Prelude CTime CBytes OpenFlow MsgBuf.
Open Scope Z_scope.

Definition BUFLEN : Z := 65536.

Inductive test_mode := MODE_LATENCY | MODE_THROUGHPUT.
#[export] Instance test_mode_eq_dec : EqDecision test_mode.
Proof. solve_decision. Defined.

(** [struct fakeswitch] *)
Record fakeswitch := {
  fs_id : Z;
  fs_debug : Z;
  fs_sock : sock;
  inbuf : msgbuf;
  outbuf : msgbuf;
  mode : test_mode;
  probe_state : Z;
  fs_count : Z;
  ready_to_send : Z;
  probe_size : Z;
  delay : Z;
  delay_start : timeval;
  total_mac_addresses : Z;
  current_mac_address : Z;
}.

(** The parts of the state the handlers update. *)
Definition with_io (fs : fakeswitch) (s : sock) (i o : msgbuf) : fakeswitch :=
  {| fs_id := fs_id fs; fs_debug := fs_debug fs; fs_sock := s; inbuf := i; outbuf := o;
     mode := mode fs; probe_state := probe_state fs; fs_count := fs_count fs;
     ready_to_send := ready_to_send fs; probe_size := probe_size fs; delay := delay fs;
     delay_start := delay_start fs; total_mac_addresses := total_mac_addresses fs;
     current_mac_address := current_mac_address fs |}.
Definition with_probe (fs : fakeswitch) (p c : Z) : fakeswitch :=
  {| fs_id := fs_id fs; fs_debug := fs_debug fs; fs_sock := fs_sock fs; inbuf := inbuf fs;
     outbuf := outbuf fs; mode := mode fs; probe_state := p; fs_count := c;
     ready_to_send := ready_to_send fs; probe_size := probe_size fs; delay := delay fs;
     delay_start := delay_start fs; total_mac_addresses := total_mac_addresses fs;
     current_mac_address := current_mac_address fs |}.
Definition with_ready (fs : fakeswitch) (r : Z) (d : timeval) : fakeswitch :=
  {| fs_id := fs_id fs; fs_debug := fs_debug fs; fs_sock := fs_sock fs; inbuf := inbuf fs;
     outbuf := outbuf fs; mode := mode fs; probe_state := probe_state fs; fs_count := fs_count fs;
     ready_to_send := r; probe_size := probe_size fs; delay := delay fs;
     delay_start := d; total_mac_addresses := total_mac_addresses fs;
     current_mac_address := current_mac_address fs |}.
Definition with_mac (fs : fakeswitch) (m : Z) : fakeswitch :=
  {| fs_id := fs_id fs; fs_debug := fs_debug fs; fs_sock := fs_sock fs; inbuf := inbuf fs;
     outbuf := outbuf fs; mode := mode fs; probe_state := probe_state fs; fs_count := fs_count fs;
     ready_to_send := ready_to_send fs; probe_size := probe_size fs; delay := delay fs;
     delay_start := delay_start fs; total_mac_addresses := total_mac_addresses fs;
     current_mac_address := m |}.

(** ** The messages of the switch *)

(** htonll on a little-endian host, as the bytes it puts in memory. *)
Definition htonll (n : Z) : Z :=
  let htonl z := un_be32 (le32 z) in
  Z.lor (Z.shiftl (htonl (u32 n)) 32) (htonl (u32 (Z.shiftr n 32))).
Definition le64 (z : Z) : list Z := reverse (be64 z).

(** The templates, captured from a real switch. *)
Definition fake_features : list Z :=
  [0x97; 0x06; 0x00; 0xe0; 0x04; 0x01; 0x00; 0x00; 0x00; 0x00; 0x76; 0xa9; 0xd4; 0x0d] ++
  [0x25; 0x48; 0x00; 0x00; 0x01; 0x00; 0x02] ++
  replicate 6 0x00 ++
  [0x1f; 0x00; 0x00; 0x03; 0xff; 0x00; 0x00; 0x1a; 0xc1; 0x51; 0xff; 0xef; 0x8a; 0x76] ++
  [0x65; 0x74; 0x68; 0x31] ++
  replicate 22 0x00 ++
  [0xc0] ++
  replicate 13 0x00 ++
  [0x01; 0xce; 0x2f; 0xa2; 0x87; 0xf6; 0x70; 0x76; 0x65; 0x74; 0x68; 0x33] ++
  replicate 22 0x00 ++
  [0xc0] ++
  replicate 13 0x00 ++
  [0x02; 0xca; 0x8a; 0x1e; 0xf3; 0x77; 0xef; 0x76; 0x65; 0x74; 0x68; 0x35] ++
  replicate 22 0x00 ++
  [0xc0] ++
  replicate 13 0x00 ++
  [0x03; 0xfa; 0xbc; 0x77; 0x8d; 0x7e; 0x0b; 0x76; 0x65; 0x74; 0x68; 0x37] ++
  replicate 22 0x00 ++
  [0xc0] ++
  replicate 12 0x00.
Definition fake_packet_in : list Z :=
  [0x97; 0x0a; 0x00; 0x52] ++
  replicate 6 0x00 ++
  [0x01; 0x01; 0x00; 0x40; 0x00; 0x00; 0x00; 0x00; 0x80; 0x00; 0x00; 0x00; 0x00; 0x01] ++
  replicate 5 0x00 ++
  [0x02; 0x08; 0x00; 0x45; 0x00; 0x00; 0x32; 0x00; 0x00; 0x00; 0x00; 0x40; 0xff; 0xf7] ++
  [0x2c; 0xc0; 0xa8; 0x00; 0x28; 0xc0; 0xa8; 0x01; 0x28; 0x7a; 0x18; 0x58; 0x6b; 0x11] ++
  [0x08; 0x97; 0xf5; 0x19; 0xe2; 0x65; 0x7e; 0x07; 0xcc; 0x31; 0xc3; 0x11; 0xc7; 0xc4] ++
  [0x0c; 0x8b; 0x95; 0x51; 0x51; 0x33; 0x54; 0x51; 0xd5; 0x00; 0x36].

Section openflow.
Context {OF : OpenFlow}.

(** The messages are written over the first bytes of a buffer of [buflen]
    bytes; the model keeps those bytes.  [xid] is the four bytes of the request. *)
Definition make_features_reply (id : Z) (xid : mem) (buflen : Z) : res mem :=
  c_assert (buflen >? zlen fake_features);;
  let b := cells fake_features in
  b ← wr8 b ofp_header_version OFP_VERSION;
  b ← wr_cells b ofp_header_xid xid;
  wr_bytes b ofp_switch_features_datapath_id (le64 (htonll (u64 id))).

Definition make_vendor_reply (xid : mem) (buflen : Z) : res mem :=
  c_assert (buflen >? sizeof_ofp_error_msg);;
  let b := mem_new sizeof_ofp_error_msg in
  b ← wr8 b ofp_header_type OFPT_ERROR;
  b ← wr8 b ofp_header_version OFP_VERSION;
  b ← wr16be b ofp_header_length sizeof_ofp_error_msg;
  b ← wr_cells b ofp_header_xid xid;
  b ← wr16be b ofp_error_msg_type OFPET_BAD_REQUEST;
  wr16be b ofp_error_msg_code OFPBRC_BAD_VENDOR.

(** The source address carries the host's representation of [mac_address]. *)
Definition make_packet_in (switch_id buffer_id buflen mac_address : Z) : res mem :=
  c_assert (buflen >? zlen fake_packet_in);;
  let b := cells fake_packet_in in
  b ← wr8 b ofp_header_version OFP_VERSION;
  b ← wr32be b ofp_packet_in_buffer_id buffer_id;
  let eth := ofp_packet_in_data in
  b ← wr32le b (eth + 6 + 1) mac_address;
  b ← wr8 b (eth + 5) switch_id;
  wr8 b (eth + 6 + 5) switch_id.

(** A header with nothing behind it (hello and echo reply). *)
Definition make_header (type length : Z) (xid : mem) : res mem :=
  let b := mem_new sizeof_ofp_header in
  b ← wr8 b ofp_header_version OFP_VERSION;
  b ← wr8 b ofp_header_type type;
  b ← wr16be b ofp_header_length length;
  wr_cells b ofp_header_xid xid.

(** ** Initialisation *)

(** [ID] is the static counter of switches; [mac0] is what the memory of the
    structure held before (current_mac_address is read before it is set). *)
Definition fakeswitch_init (ID mac0 : Z) (s : sock) (bufsize debug delay_ms : Z) (m : test_mode)
    (total : Z) (d0 : timeval) : res (fakeswitch * Z) :=
  i ← msgbuf_new bufsize;
  o ← msgbuf_new bufsize;
  p ← make_packet_in ID 0 BUFLEN mac0;
  let probe := zlen p in
  h ← make_header OFPT_HELLO sizeof_ofp_header (cells (be32 1));
  o ← msgbuf_push o h;
  mret ({| fs_id := ID; fs_debug := debug; fs_sock := s; inbuf := i; outbuf := o; mode := m;
           probe_state := 0; fs_count := 0; ready_to_send := 0; probe_size := probe;
           delay := delay_ms; delay_start := d0; total_mac_addresses := total;
           current_mac_address := 0 |}, ID + 1).

Definition POLLIN : Z := 1.
Definition POLLOUT : Z := 4.

(** The events asked for, whatever the state. *)
Definition fakeswitch_set_pollfd (fs : fakeswitch) : Z := Z.lor POLLIN POLLOUT.

(** ** Reading *)

(** A response of the controller to a probe. *)
Definition got_response (fs : fakeswitch) : res fakeswitch :=
  c ← chk_int (fs_count fs + 1);
  p ← chk_int (probe_state fs - 1);
  mret (with_probe fs p c).

(** One message, found at [off] of the input buffer, after it was pulled. *)
Definition handle_message (fs : fakeswitch) (off : Z) (now : timeval) : res fakeswitch :=
  let m := buf (inbuf fs) in
  type ← rd8 m (off + ofp_header_type);
  fs ←
    (if type =? OFPT_PACKET_OUT then
       got_response fs
     else if type =? OFPT_FLOW_MOD then
       command ← rd16be m (off + ofp_flow_mod_command);
       if (command =? u16 OFPFC_ADD) || (command =? u16 OFPFC_MODIFY_STRICT)
       then got_response fs
       else mret fs
     else if type =? OFPT_FEATURES_REQUEST then
       xid ← rd_cells m (off + ofp_header_xid) 4;
       r ← make_features_reply (fs_id fs) xid BUFLEN;
       o ← msgbuf_push (outbuf fs) r;
       let fs := with_io fs (fs_sock fs) (inbuf fs) o in
       if delay fs =? 0 then mret (with_ready fs 1 (delay_start fs))
       else mret (with_ready fs 2
              {| tv_sec := i64 (tv_sec now + delay fs `quot` 1000);
                 tv_usec := i64 (tv_usec now + (delay fs `rem` 1000) * 1000) |})
     else if type =? OFPT_SET_CONFIG then mret fs
     else if type =? OFPT_VENDOR then
       xid ← rd_cells m (off + ofp_header_xid) 4;
       r ← make_vendor_reply xid BUFLEN;
       o ← msgbuf_push (outbuf fs) r;
       mret (with_probe (with_io fs (fs_sock fs) (inbuf fs) o) 0 (fs_count fs))
     else if type =? OFPT_HELLO then mret fs
     else if type =? OFPT_ECHO_REQUEST then
       xid ← rd_cells m (off + ofp_header_xid) 4;
       r ← make_header OFPT_ECHO_REPLY sizeof_ofp_header xid;
       o ← msgbuf_push (outbuf fs) r;
       mret (with_io fs (fs_sock fs) (inbuf fs) o)
     else mret fs);
  mret (if probe_state fs <? 0 then with_probe fs 0 (fs_count fs) else fs).

(** The loop over the buffered messages; the clock may be different every
    time it is read. *)
Fixpoint handle_loop (clock : nat → timeval) (fuel : nat) (fs : fakeswitch) : res fakeswitch :=
  match fuel with
  | O => Fault FFuel
  | S fuel =>
    let n := msgbuf_count_buffered (inbuf fs) in
    if n >=? sizeof_ofp_header then
      match msgbuf_peek (inbuf fs) with
      | None => Fault FNull
      | Some off =>
        length ← rd16be (buf (inbuf fs)) (off + ofp_header_length);
        if n <? length then mret fs
        else
          '(_, _, i) ← msgbuf_pull (inbuf fs) false length;
          fs ← handle_message (with_io fs (fs_sock fs) i (outbuf fs)) off (clock fuel);
          handle_loop clock fuel fs
      end
    else mret fs
  end.

Definition fakeswitch_handle_read (clock : nat → timeval) (fuel : nat) (fs : fakeswitch) :
    res fakeswitch :=
  '(n, i, s) ← msgbuf_read (inbuf fs) (fs_sock fs);
  let fs := with_io fs s i (outbuf fs) in
  if n <=? 0 then Fault (FExit 1)
  else handle_loop clock fuel fs.

(** ** Writing *)

Definition throughput_buffer : Z := 65536.

(** How many probes a writable socket triggers. *)
Definition send_count (fs : fakeswitch) : res Z :=
  if bool_decide (mode fs = MODE_LATENCY) && (probe_state fs =? 0) then mret 1
  else if bool_decide (mode fs = MODE_THROUGHPUT)
          && (msgbuf_count_buffered (outbuf fs) <? throughput_buffer) then
    if probe_size fs =? 0 then Fault FDivZero
    else mret ((throughput_buffer - msgbuf_count_buffered (outbuf fs)) `quot` probe_size fs)
  else mret 0.

(** One probe: the packet-in is queued and the next address chosen. *)
Definition send_probe (fs : fakeswitch) : res fakeswitch :=
  p ← chk_int (probe_state fs + 1);
  b ← make_packet_in (fs_id fs) 0 BUFLEN (current_mac_address fs);
  if total_mac_addresses fs =? 0 then Fault FDivZero
  else
    m ← chk_int (current_mac_address fs + 1);
    o ← msgbuf_push (outbuf fs) b;
    mret (with_mac (with_probe (with_io fs (fs_sock fs) (inbuf fs) o) p (fs_count fs))
            (m `rem` total_mac_addresses fs)).

Fixpoint send_probes (n : nat) (fs : fakeswitch) : res fakeswitch :=
  match n with
  | O => mret fs
  | S n => fs ← send_probe fs; send_probes n fs
  end.

Definition fakeswitch_handle_write (now : timeval) (fs : fakeswitch) : res fakeswitch :=
  fs ←
    (if ready_to_send fs =? 1 then n ← send_count fs; send_probes (Z.to_nat n) fs
     else if ready_to_send fs =? 2 then
       mret (if timercmp_gt now (delay_start fs) then with_ready fs 1 (delay_start fs) else fs)
     else mret fs);
  if msgbuf_count_buffered (outbuf fs) >? 0 then
    '(_, o, s) ← msgbuf_write (outbuf fs) (fs_sock fs) 0;
    mret (with_io fs s (inbuf fs) o)
  else mret fs.

Definition fakeswitch_handle_io (clock : nat → timeval) (fuel : nat) (now : timeval)
    (revents : Z) (fs : fakeswitch) : res fakeswitch :=
  fs ← (if negb (Z.land revents POLLIN =? 0) then fakeswitch_handle_read clock fuel fs else mret fs);
  if negb (Z.land revents POLLOUT =? 0) then fakeswitch_handle_write now fs else mret fs.

(** ** Collecting the count *)

(** Messages are skipped as long as the bytes of the last read cover them. *)
Fixpoint skip_loop (fuel : nat) (i : msgbuf) (n : Z) : res msgbuf :=
  match fuel with
  | O => Fault FFuel
  | S fuel =>
    if n >? 0 then
      match msgbuf_peek i with
      | None => Fault FNull
      | Some off =>
        msglen ← rd16be (buf i) (off + ofp_header_length);
        if n <? msglen then mret i
        else '(_, _, i) ← msgbuf_pull i false msglen; skip_loop fuel i (n - msglen)
      end
    else mret i
  end.

Fixpoint drain_loop (fuel : nat) (i : msgbuf) (s : sock) : res (msgbuf * sock) :=
  match fuel with
  | O => Fault FFuel
  | S fuel' =>
    '(n, i, s) ← msgbuf_read i s;
    if n >? 0 then i ← skip_loop fuel i n; drain_loop fuel' i s
    else mret (i, s)
  end.

Definition fakeswitch_get_count (fuel : nat) (fs : fakeswitch) : res (Z * fakeswitch) :=
  let ret := fs_count fs in
  let fs := with_probe fs 0 0 in
  '(i, s) ← drain_loop fuel (inbuf fs) (fs_sock fs);
  mret (ret, with_io fs s i (outbuf fs)).
End openflow.
