(* ===== verification/FakeSwitchSpec.v ===== *)
(** * The fake switch speaks OpenFlow

    The handlers of fakeswitch.c against a specification at the level of
    messages: [react] says what one complete message does to the switch, and
    [fakeswitch_handle_read_refines] that reading from the socket, in chunks of
    any size, is reacting to the messages of the byte stream one by one.  The
    probes queued when the socket is writable are characterised exactly. *)

From S2P Require Import Prelude CTime CBytes OpenFlow OfFrame MsgBuf MsgBufSpec FakeSwitch.
Open Scope Z_scope.

(** ** Bytes *)

Lemma be32_digits a b c d :
  is_byte a → is_byte b → is_byte c → is_byte d → be32 (un_be32 [a; b; c; d]) = [a; b; c; d].
Proof.
  unfold is_byte, un_be32, be32, be16, u8. cbn [app]. intros.
  apply (f_equal4 (λ a b c d, [a; b; c; d])); Z.to_euclidean_division_equations; lia.
Qed.

Lemma be32_split z : 0 ≤ z < 2^32 →
  ∃ a b c d, is_byte a ∧ is_byte b ∧ is_byte c ∧ is_byte d ∧ z = un_be32 [a; b; c; d].
Proof.
  intros. exists (u8 (z `div` 16777216)), (u8 (z `div` 65536)), (u8 (z `div` 256)), (u8 z).
  split_and!; try apply is_byte_u8. unfold un_be32, u8. Z.to_euclidean_division_equations; lia.
Qed.

Lemma lor_shift32 a b : 0 ≤ b < 2^32 → Z.lor (Z.shiftl a 32) b = a * 2^32 + b.
Proof.
  intros Hb. rewrite <-(Z.shiftl_mul_pow2 a 32) by lia.
  rewrite <-(Z.add_lor_land (Z.shiftl a 32) b).
  replace (Z.land (Z.shiftl a 32) b) with 0; [lia|].
  symmetry. apply Z.bits_inj'. intros n Hn.
  rewrite Z.land_spec, Z.shiftl_spec, Z.bits_0 by done.
  destruct (decide (n < 32)); [by rewrite Z.testbit_neg_r by lia|].
  rewrite <-(Z.mod_small b (2^32)) by done. rewrite Z.mod_pow2_bits_high by lia.
  apply andb_false_r.
Qed.

Lemma be32_mod z k : be32 (k * 2^32 + z) = be32 z.
Proof.
  unfold be32, be16, u8. cbn [app].
  apply (f_equal4 (λ a b c d, [a; b; c; d])); Z.to_euclidean_division_equations; lia.
Qed.

(** htonll stores a 64-bit number in network order. *)
Lemma le64_htonll z : 0 ≤ z < 2^64 → le64 (htonll z) = be64 z.
Proof.
  intros Hz. unfold htonll, be64, le64.
  assert (u32 (Z.shiftr z 32) = z `div` 2^32) as ->.
  { unfold u32. rewrite Z.shiftr_div_pow2 by lia. apply Z.mod_small.
    Z.to_euclidean_division_equations; lia. }
  destruct (be32_split (z `div` 2^32)) as (a & b & c & d & Ha & Hb & Hc & Hd & Ehi).
  { Z.to_euclidean_division_equations; lia. }
  destruct (be32_split (u32 z)) as (e & f & g & h & He & Hf & Hg & Hh & Elo).
  { unfold u32. Z.to_euclidean_division_equations; lia. }
  assert (be32 z = be32 (u32 z)) as ->.
  { unfold u32. rewrite (Z.div_mod z (2^32)) at 1 by lia. rewrite Z.mul_comm. apply be32_mod. }
  rewrite Ehi, Elo. unfold le32. rewrite !be32_digits by done. cbn [reverse rev_append].
  rewrite lor_shift32 by (unfold un_be32, is_byte in *; lia).
  unfold be64.
  assert ((un_be32 [h; g; f; e] * 2^32 + un_be32 [d; c; b; a]) `div` 2^32 = un_be32 [h; g; f; e]) as ->.
  { unfold un_be32, is_byte in *. Z.to_euclidean_division_equations; lia. }
  by rewrite be32_mod, !be32_digits by done.
Qed.

(** ** The messages of the switch *)

Section openflow.
Context {OF : OpenFlow} {L : OFLayout OF} {T : OFTypes OF}.

Definition header_msg (type : Z) (xid : list Z) : list Z := [u8 OFP_VERSION; u8 type; 0; 8] ++ xid.
Definition features_msg (id : Z) (xid : list Z) : list Z :=
  [u8 OFP_VERSION; 6; 0; 224] ++ xid ++ be64 (u64 id) ++ drop 16 fake_features.
Definition vendor_msg (xid : list Z) : list Z :=
  [u8 OFP_VERSION; u8 OFPT_ERROR; 0; 12] ++ xid ++ be16 OFPET_BAD_REQUEST ++ be16 OFPBRC_BAD_VENDOR.
Definition probe_msg (id mac : Z) : list Z :=
  [u8 OFP_VERSION; 10; 0; 82; 0; 0; 0; 0] ++ be32 0 ++ take 11 (drop 12 fake_packet_in) ++
  [u8 id; 0] ++ le32 mac ++ [u8 id] ++ drop 30 fake_packet_in.

Ltac four xid H := destruct xid as [|? [|? [|? [|? [|]]]]]; try done; clear H.

Lemma make_header_spec type xid :
  length xid = 4%nat → make_header type 8 (cells xid) = Ok (cells (header_msg type xid)).
Proof. intros H. four xid H. unfold make_header. of_layout. reflexivity. Qed.

Lemma make_vendor_reply_spec xid :
  length xid = 4%nat → make_vendor_reply (cells xid) BUFLEN = Ok (cells (vendor_msg xid)).
Proof. intros H. four xid H. unfold make_vendor_reply. of_layout. reflexivity. Qed.

Lemma make_packet_in_spec id mac : make_packet_in id 0 BUFLEN mac = Ok (cells (probe_msg id mac)).
Proof. unfold make_packet_in. of_layout. reflexivity. Qed.

Lemma make_features_reply_spec id xid :
  length xid = 4%nat → make_features_reply id (cells xid) BUFLEN = Ok (cells (features_msg id xid)).
Proof.
  intros H. four xid H. unfold make_features_reply. rewrite le64_htonll.
  - of_layout. reflexivity.
  - unfold u64. apply Z.mod_pos_bound. lia.
Qed.

(** ** The switch at the level of messages *)

Record fsview := {
  v_probe : Z; v_count : Z; v_ready : Z; v_start : timeval;
  v_out : list Z;                 (* bytes queued for the controller *)
}.

Definition msg_type (m : list Z) : Z := default 0 (m !! 1%nat).
Definition msg_xid (m : list Z) : list Z := take 4 (drop 4 m).
Definition msg_command (m : list Z) : Z := un_be16 (take 2 (drop 56 m)).

(** Is the message a response to a probe? *)
Definition is_response (m : list Z) : bool :=
  (msg_type m =? OFPT_PACKET_OUT) ||
  ((msg_type m =? OFPT_FLOW_MOD) &&
   ((msg_command m =? u16 OFPFC_ADD) || (msg_command m =? u16 OFPFC_MODIFY_STRICT))).

(** What the switch answers. *)
Definition reply (id : Z) (m : list Z) : list Z :=
  if msg_type m =? OFPT_FEATURES_REQUEST then features_msg id (msg_xid m)
  else if msg_type m =? OFPT_VENDOR then vendor_msg (msg_xid m)
  else if msg_type m =? OFPT_ECHO_REQUEST then header_msg OFPT_ECHO_REPLY (msg_xid m)
  else [].

(** When probing may start after a features request at [now]. *)
Definition start_time (d : Z) (now : timeval) : timeval :=
  {| tv_sec := i64 (tv_sec now + d `quot` 1000); tv_usec := i64 (tv_usec now + (d `rem` 1000) * 1000) |}.

Definition react (id d : Z) (now : timeval) (v : fsview) (m : list Z) : fsview :=
  {| v_probe := if is_response m then Z.max 0 (v_probe v - 1)
                else if msg_type m =? OFPT_VENDOR then 0 else v_probe v;
     v_count := if is_response m then v_count v + 1 else v_count v;
     v_ready := if msg_type m =? OFPT_FEATURES_REQUEST then if d =? 0 then 1 else 2 else v_ready v;
     v_start := if (msg_type m =? OFPT_FEATURES_REQUEST) && negb (d =? 0) then start_time d now
                else v_start v;
     v_out := v_out v ++ reply id m |}.

(** A message the switch can handle: complete, and with the command field if
    it is a flow modification. *)
Definition fs_message (m : list Z) : Prop :=
  of_message m ∧ 8 ≤ zlen m ∧ (msg_type m = OFPT_FLOW_MOD → 58 ≤ zlen m).

(** The concrete state shows the view [v]. *)
Record shows (fs : fakeswitch) (v : fsview) : Prop := {
  sh_probe : probe_state fs = v_probe v;
  sh_count : fs_count fs = v_count v;
  sh_ready : ready_to_send fs = v_ready v;
  sh_start : delay_start fs = v_start v;
  sh_out : holds (outbuf fs) (v_out v);
}.

(** What the handlers never change. *)
Definition config (fs : fakeswitch) : Z * Z * test_mode * Z * Z * Z :=
  (fs_id fs, fs_debug fs, mode fs, probe_size fs, delay fs, total_mac_addresses fs).


Lemma types_ne :
  OFPT_PACKET_OUT ≠ OFPT_FLOW_MOD ∧ OFPT_PACKET_OUT ≠ OFPT_FEATURES_REQUEST ∧
  OFPT_PACKET_OUT ≠ OFPT_VENDOR ∧ OFPT_PACKET_OUT ≠ OFPT_ECHO_REQUEST ∧
  OFPT_FLOW_MOD ≠ OFPT_FEATURES_REQUEST ∧ OFPT_FLOW_MOD ≠ OFPT_VENDOR ∧
  OFPT_FLOW_MOD ≠ OFPT_ECHO_REQUEST ∧ OFPT_FEATURES_REQUEST ≠ OFPT_VENDOR ∧
  OFPT_FEATURES_REQUEST ≠ OFPT_ECHO_REQUEST ∧ OFPT_VENDOR ≠ OFPT_ECHO_REQUEST ∧
  OFPT_SET_CONFIG ≠ OFPT_VENDOR ∧ OFPT_SET_CONFIG ≠ OFPT_ECHO_REQUEST ∧
  OFPT_SET_CONFIG ≠ OFPT_HELLO ∧ OFPT_HELLO ≠ OFPT_ECHO_REQUEST.
Proof.
  pose proof of_types_distinct as H. rewrite !NoDup_cons, !not_elem_of_cons in H.
  destruct_and?. by split_and!.
Qed.

Lemma length_msg_xid m : 8 ≤ zlen m → length (msg_xid m) = 4%nat.
Proof. intros. unfold msg_xid, zlen in *. rewrite length_take, length_drop. lia. Qed.

Lemma got_response_spec fs v :
  shows fs v → 0 ≤ v_probe v ≤ INT_MAX → 0 ≤ v_count v < INT_MAX →
  got_response fs = Ok (with_probe fs (v_probe v - 1) (v_count v + 1)).
Proof.
  intros [Hp Hc _ _ _] Hbp Hbc. unfold got_response. rewrite Hp, Hc.
  rewrite !chk_int_ok by (unfold is_int, INT_MIN, INT_MAX in *; lia). done.
Qed.

(** The effect of a message on the concrete state. *)
Record reacted (fs fs' : fakeswitch) (v : fsview) (n : Z) : Prop := {
  re_shows : shows fs' v;
  re_config : config fs' = config fs;
  re_in : inbuf fs' = inbuf fs;
  re_sock : fs_sock fs' = fs_sock fs;
  re_mac : current_mac_address fs' = current_mac_address fs;
  re_end : end_ (outbuf fs') ≤ end_ (outbuf fs) + n;
}.

(** The three replies, queued. *)
Lemma push_reply fs v bs :
  shows fs v → end_ (outbuf fs) + zlen bs ≤ 2^30 - 1 →
  ∃ o, msgbuf_push (outbuf fs) (cells bs) = Ok o ∧ holds o (v_out v ++ bs) ∧
    end_ o = end_ (outbuf fs) + zlen bs.
Proof.
  intros Hs Hb. destruct (msgbuf_push_spec (outbuf fs) (v_out v) bs (sh_out _ _ Hs) Hb)
    as (o & ? & ? & ? & _). eauto.
Qed.



Lemma eqb_other a b c : (a =? b) = true → b ≠ c → (a =? c) = false.
Proof. intros ->%Z.eqb_eq. apply Z.eqb_neq. Qed.

(** The type is one that differs from the one tested. *)
Ltac other E := symmetry; apply (eqb_other _ _ _ E); pose proof types_ne; by destruct_and?.

Ltac by_shows Hs :=
  split; [split; cbn; first [reflexivity | apply Hs | lia | assumption] | reflexivity .. | cbn; lia].

Lemma handle_message_spec fs v mb m tl now :
  holds mb (m ++ tl) → fs_message m → buf (inbuf fs) = buf mb → shows fs v →
  0 ≤ v_probe v ≤ INT_MAX → 0 ≤ v_count v < INT_MAX → end_ (outbuf fs) + 224 ≤ 2^30 - 1 →
  ∃ fs', handle_message fs (start mb) now = Ok fs' ∧
    reacted fs fs' (react (fs_id fs) (delay fs) now v m) 224.
Proof.
  intros Hh (Hm & Hl & Hfm) Hb Hs Hp Hc He. pose proof (zlen_nonneg tl) as Htl.
  assert (rd8 (buf mb) (start mb + 1) = Ok (msg_type m)) as Hty.
  { rewrite (holds_rd8 _ _ _ Hh) by (rewrite zlen_app; lia). unfold msg_type.
    change (Z.to_nat 1) with 1%nat. rewrite lookup_app_l; [done|unfold zlen in *; lia]. }
  assert (rd_cells (buf mb) (start mb + 4) 4 = Ok (cells (msg_xid m))) as Hxid.
  { rewrite (holds_rd_cells _ _ _ _ Hh) by (rewrite ?zlen_app; lia). unfold msg_xid.
    change (Z.to_nat 4) with 4%nat. rewrite drop_app_le, take_app_le; [done|..];
      rewrite ?length_drop; unfold zlen in *; lia. }
  assert (msg_type m = OFPT_FLOW_MOD → rd16be (buf mb) (start mb + 56) = Ok (msg_command m)) as Hcmd.
  { intros Hf%Hfm. unfold rd16be. rewrite (holds_rd _ _ _ _ Hh) by (rewrite ?zlen_app; lia).
    cbn [mbind res_bind mret res_ret]. unfold msg_command. change (Z.to_nat 2) with 2%nat.
    change (Z.to_nat 56) with 56%nat. rewrite drop_app_le, take_app_le; [done|..];
      rewrite ?length_drop; unfold zlen in *; lia. }
  pose proof (length_msg_xid m Hl) as Hlx.
  unfold handle_message. rewrite Hb. of_layout. rewrite Hty. cbn [mbind res_bind].
  unfold react, is_response, reply. set (ty := msg_type m) in *.
  clearbody ty. clear Hh Hty Hm Hfm Hl Htl Hb.
  destruct (ty =? OFPT_PACKET_OUT) eqn:E1.
  { rewrite (got_response_spec fs v Hs Hp Hc). cbn [mbind res_bind mret res_ret].
    eexists; split; [reflexivity|]. cbn [probe_state with_probe fs_count orb].
    replace (ty =? OFPT_FEATURES_REQUEST) with false by other E1.
    replace (ty =? OFPT_VENDOR) with false by other E1.
    replace (ty =? OFPT_ECHO_REQUEST) with false by other E1. rewrite app_nil_r.
    clear -Hs Hp. destruct (v_probe v - 1 <? 0) eqn:?; by_shows Hs. }
  destruct (ty =? OFPT_FLOW_MOD) eqn:E2.
  { rewrite Hcmd by (by apply Z.eqb_eq). cbn [mbind res_bind orb andb].
    replace (ty =? OFPT_FEATURES_REQUEST) with false by other E2.
    replace (ty =? OFPT_VENDOR) with false by other E2.
    replace (ty =? OFPT_ECHO_REQUEST) with false by other E2. rewrite app_nil_r.
    clear -Hs Hp Hc. destruct (_ || _) eqn:E.
    - rewrite (got_response_spec fs v Hs Hp Hc). cbn [mbind res_bind mret res_ret].
      eexists; split; [reflexivity|]. cbn [probe_state with_probe fs_count].
      destruct (v_probe v - 1 <? 0) eqn:?; by_shows Hs.
    - cbn [mbind res_bind mret res_ret]. rewrite (sh_probe _ _ Hs).
      replace (v_probe v <? 0) with false by lia. eexists; split; [reflexivity|]. by_shows Hs. }
  cbn [orb andb]. destruct (ty =? OFPT_FEATURES_REQUEST) eqn:E3.
  { rewrite Hxid. cbn [mbind res_bind]. rewrite (make_features_reply_spec _ _ Hlx).
    replace (ty =? OFPT_VENDOR) with false by other E3.
    cbn [mbind res_bind].
    destruct (push_reply fs v (features_msg (fs_id fs) (msg_xid m)) Hs) as (o & -> & Ho & Heo).
    { unfold features_msg, zlen. rewrite !length_app, Hlx. cbn. cbn in He. lia. }
    assert (zlen (features_msg (fs_id fs) (msg_xid m)) = 224) as Hz.
    { unfold features_msg, zlen. rewrite !length_app, Hlx. done. }
    cbn [mbind res_bind delay with_io]. clear -Hs Hp Ho Heo Hz.
    destruct (delay fs =? 0); cbn [mbind res_bind mret res_ret probe_state with_ready with_io negb];
      rewrite (sh_probe _ _ Hs); replace (v_probe v <? 0) with false by lia;
      (eexists; split; [reflexivity|]); by_shows Hs. }
  destruct (ty =? OFPT_SET_CONFIG) eqn:E4.
  { replace (ty =? OFPT_VENDOR) with false by other E4.
    replace (ty =? OFPT_ECHO_REQUEST) with false by other E4. rewrite app_nil_r. clear -Hs Hp.
    cbn [mbind res_bind mret res_ret]. rewrite (sh_probe _ _ Hs).
    replace (v_probe v <? 0) with false by lia. eexists; split; [reflexivity|]. by_shows Hs. }
  destruct (ty =? OFPT_VENDOR) eqn:E5.
  { rewrite Hxid. cbn [mbind res_bind]. rewrite (make_vendor_reply_spec _ Hlx).
    assert (zlen (vendor_msg (msg_xid m)) = 12) as Hz.
    { unfold vendor_msg, zlen. rewrite !length_app, Hlx. done. }
    cbn [mbind res_bind].
    destruct (push_reply fs v (vendor_msg (msg_xid m)) Hs) as (o & -> & Ho & Heo); [lia|].
    clear -Hs Hp Ho Heo Hz. cbn [mbind res_bind mret res_ret probe_state with_probe].
    eexists; split; [reflexivity|]. by_shows Hs. }
  destruct (ty =? OFPT_HELLO) eqn:E6.
  { replace (ty =? OFPT_ECHO_REQUEST) with false by other E6. rewrite app_nil_r. clear -Hs Hp.
    cbn [mbind res_bind mret res_ret]. rewrite (sh_probe _ _ Hs).
    replace (v_probe v <? 0) with false by lia. eexists; split; [reflexivity|]. by_shows Hs. }
  destruct (ty =? OFPT_ECHO_REQUEST) eqn:E7.
  { rewrite Hxid. cbn [mbind res_bind]. rewrite (make_header_spec _ _ Hlx).
    assert (zlen (header_msg OFPT_ECHO_REPLY (msg_xid m)) = 8) as Hz.
    { unfold header_msg, zlen. rewrite !length_app, Hlx. done. }
    cbn [mbind res_bind].
    destruct (push_reply fs v (header_msg OFPT_ECHO_REPLY (msg_xid m)) Hs) as (o & -> & Ho & Heo); [lia|].
    clear -Hs Hp Ho Heo Hz. cbn [mbind res_bind mret res_ret probe_state with_io].
    rewrite (sh_probe _ _ Hs). replace (v_probe v <? 0) with false by lia.
    eexists; split; [reflexivity|]. by_shows Hs. }
  rewrite app_nil_r. clear -Hs Hp. cbn [mbind res_bind mret res_ret]. rewrite (sh_probe _ _ Hs).
  replace (v_probe v <? 0) with false by lia. eexists; split; [reflexivity|]. by_shows Hs.
Qed.

(** ** From bytes to messages *)

(** The stream is a sequence of messages and the beginning of another one. *)
Definition fs_rest (bs : list Z) : Prop :=
  zlen bs < 8 ∨ ∃ n, zlen bs < n < 65536 ∧ take 2 (drop 2 bs) = be16 n.

(** Reacting to the messages in turn; the clock is read at most once each. *)
Fixpoint react_all (clock : nat → timeval) (fuel : nat) (id d : Z) (v : fsview) (ms : list (list Z)) : fsview :=
  match ms, fuel with
  | m :: ms, S fuel => react_all clock fuel id d (react id d (clock fuel) v m) ms
  | _, _ => v
  end.

Lemma react_bounds id d now v m :
  0 ≤ v_probe v → let v' := react id d now v m in
  0 ≤ v_probe v' ≤ Z.max 0 (v_probe v) ∧ v_count v ≤ v_count v' ≤ v_count v + 1.
Proof. intros. subst v'. unfold react. cbn. destruct (is_response m), (msg_type m =? OFPT_VENDOR); lia. Qed.

Lemma handle_loop_S clock fuel fs :
  handle_loop clock (S fuel) fs =
  let n := msgbuf_count_buffered (inbuf fs) in
  if n >=? sizeof_ofp_header then
    match msgbuf_peek (inbuf fs) with
    | None => Fault FNull
    | Some off =>
      length ← rd16be (buf (inbuf fs)) (off + ofp_header_length);
      if n <? length then mret fs
      else
        '(_, _, i) ← msgbuf_pull (inbuf fs) false length;
        fs ← handle_message (with_io fs (fs_sock fs) i (outbuf fs)) off (clock fuel);
        handle_loop clock fuel fs
    end
  else mret fs.
Proof. done. Qed.

Lemma holds_length mb bs tl n :
  holds mb (bs ++ tl) → 4 ≤ zlen bs → 0 ≤ n < 65536 → take 2 (drop 2 bs) = be16 n →
  rd16be (buf mb) (start mb + 2) = Ok n.
Proof.
  intros Hh Hl Hn Hf. unfold rd16be. pose proof (zlen_nonneg tl).
  rewrite (holds_rd _ _ _ _ Hh) by (rewrite ?zlen_app; lia). cbn [mbind res_bind mret res_ret].
  change (Z.to_nat 2) with 2%nat. rewrite drop_app_le, take_app_le, Hf, un_be16_be16; try done;
    rewrite ?length_drop; unfold zlen in *; lia.
Qed.

Lemma handle_loop_spec clock fuel fs v ms rest :
  holds (inbuf fs) (concat ms ++ rest) → shows fs v → Forall fs_message ms → fs_rest rest →
  (length ms < fuel)%nat → 0 ≤ v_probe v ≤ INT_MAX → 0 ≤ v_count v →
  v_count v + zlen ms ≤ INT_MAX → end_ (outbuf fs) + 224 * zlen ms ≤ 2^30 - 1 →
  ∃ fs', handle_loop clock fuel fs = Ok fs' ∧ holds (inbuf fs') rest ∧
    shows fs' (react_all clock fuel (fs_id fs) (delay fs) v ms) ∧
    config fs' = config fs ∧ fs_sock fs' = fs_sock fs ∧
    current_mac_address fs' = current_mac_address fs ∧
    end_ (outbuf fs') ≤ end_ (outbuf fs) + 224 * zlen ms.
Proof.
  revert fs v ms. induction fuel as [|fuel IH]; intros fs v ms Hi Hs Hms Hr Hf Hp Hc Hcb He; [lia|].
  rewrite handle_loop_S. destruct L as [(Hsz & _ & _ & Hlo & _) _ _ _ _ _ _ _ _ _ _ _].
  rewrite Hsz, Hlo. unfold msgbuf_count_buffered. rewrite <-(h_count _ _ Hi).
  rewrite (msgbuf_peek_spec _ _ Hi). destruct ms as [|m ms].
  { exists fs. cbn [concat app] in *. destruct (zlen rest >=? 8) eqn:E8.
    2:{ split_and!; try done. unfold zlen. cbn. lia. }
    destruct Hr as [Hr|(n & Hn & Hfld)]; [lia|]. destruct rest as [|b rest]; [done|].
    rewrite <-(app_nil_r (b :: rest)) in Hi.
    rewrite (holds_length _ _ _ n Hi) by (done || lia). cbn [mbind res_bind].
    rewrite app_nil_r in Hi. replace (zlen (b :: rest) <? n) with true by lia.
    split_and!; try done. unfold zlen. cbn. lia. }
  apply Forall_cons in Hms as [Hm Hms]. destruct Hm as ([Hml Hmf] & Hm8 & Hmfm) eqn:Hmeq. clear Hmeq.
  cbn [concat] in *. rewrite <-app_assoc in Hi |- *.
  pose proof (zlen_nonneg (concat ms ++ rest)).
  replace (zlen (m ++ concat ms ++ rest) >=? 8) with true by (rewrite zlen_app; lia).
  destruct (m ++ concat ms ++ rest) as [|b0 bs0] eqn:Hq;
    [destruct m; [unfold zlen in Hm8; cbn in Hm8; lia|done]|]. rewrite <-Hq in *. clear Hq b0 bs0.
  rewrite (holds_length _ _ _ (zlen m) Hi) by (done || lia). cbn [mbind res_bind].
  replace (zlen (m ++ concat ms ++ rest) <? zlen m) with false by (rewrite zlen_app; lia).
  pose proof (msgbuf_pull_spec (inbuf fs) _ false (zlen m) Hi) as Hpl. cbn zeta in Hpl.
  replace (Z.min (zlen m) (zlen (m ++ concat ms ++ rest))) with (zlen m) in Hpl by (rewrite zlen_app; lia).
  replace (zlen m <=? 0) with false in Hpl by lia.
  destruct Hpl as (i & -> & Hi' & Hbuf & _ & _). cbn [mbind res_bind].
  unfold zlen in Hi' at 1. rewrite Nat2Z.id, drop_app_length in Hi'.
  assert (zlen (m :: ms) = zlen ms + 1) as Hz by (unfold zlen; cbn; lia). rewrite Hz in *.
  pose proof (zlen_nonneg ms).
  destruct (handle_message_spec (with_io fs (fs_sock fs) i (outbuf fs)) v (inbuf fs) m
              (concat ms ++ rest) (clock fuel)) as (fs1 & -> & [Hs1 Hc1 Hi1 Hk1 Hm1 He1]);
    [done|done|done|by destruct Hs|lia|lia|cbn; lia|]. cbn [mbind res_bind].
  cbn [fs_id delay with_io] in Hs1. cbn [outbuf with_io] in He1.
  assert (fs_id fs1 = fs_id fs ∧ delay fs1 = delay fs) as [Hid Hdl] by (by injection Hc1).
  destruct (react_bounds (fs_id fs) (delay fs) (clock fuel) v m) as [Hb1 Hb2]; [lia|].
  destruct (IH fs1 (react (fs_id fs) (delay fs) (clock fuel) v m) ms)
    as (fs2 & -> & Hi2 & Hs2 & Hc2 & Hk2 & Hm2 & He2); try done; try lia.
  { by rewrite Hi1. } { cbn in Hf. lia. }
  exists fs2. rewrite Hid, Hdl in Hs2. split_and!; try done.
  - by rewrite Hc2, Hc1.
  - by rewrite Hk2, Hk1.
  - by rewrite Hm2, Hm1.
  - lia.
Qed.

(** Reading is reacting to the messages that are now complete. *)
Lemma handle_read_spec clock fuel fs v q k bs s' ms rest :
  holds (inbuf fs) q → len (inbuf fs) * 2 ≤ INT_MAX →
  c_read (fs_sock fs) (len (inbuf fs) - end_ (inbuf fs)) = (k, bs, s') → 0 < k →
  q ++ bs = concat ms ++ rest → Forall fs_message ms → fs_rest rest →
  shows fs v → (length ms < fuel)%nat → 0 ≤ v_probe v ≤ INT_MAX → 0 ≤ v_count v →
  v_count v + zlen ms ≤ INT_MAX → end_ (outbuf fs) + 224 * zlen ms ≤ 2^30 - 1 →
  ∃ fs', fakeswitch_handle_read clock fuel fs = Ok fs' ∧ holds (inbuf fs') rest ∧
    shows fs' (react_all clock fuel (fs_id fs) (delay fs) v ms) ∧
    config fs' = config fs ∧ fs_sock fs' = s' ∧
    current_mac_address fs' = current_mac_address fs ∧
    end_ (outbuf fs') ≤ end_ (outbuf fs) + 224 * zlen ms.
Proof.
  intros Hi Hl Hr Hk Hq Hms Hrest Hs Hf Hp Hc Hcb He. unfold fakeswitch_handle_read.
  destruct (msgbuf_read_spec _ _ _ _ _ _ Hi Hl Hr) as (i & -> & Hi' & _). cbn [mbind res_bind].
  replace (k <=? 0) with false by lia. rewrite Hq in Hi'.
  destruct (handle_loop_spec clock fuel (with_io fs s' i (outbuf fs)) v ms rest)
    as (fs' & -> & ? & ? & ? & ? & ? & ?); try done; [by destruct Hs|].
  by exists fs'.
Qed.

(** C18. Reading from the controller is reacting to its messages: whatever part
    of a message was already buffered and however the bytes are cut into
    chunks, when the socket delivers bytes the switch handles exactly the
    messages that are now complete, each once and in order, queues their
    replies, and keeps the incomplete rest.  With enough fuel for the number
    of messages the handler returns; no access is out of bounds. *)
Theorem fakeswitch_handle_read_refines clock fuel fs v q k bs s' ms rest :
  holds (inbuf fs) q → len (inbuf fs) * 2 ≤ INT_MAX →
  c_read (fs_sock fs) (len (inbuf fs) - end_ (inbuf fs)) = (k, bs, s') → 0 < k →
  q ++ bs = concat ms ++ rest → Forall fs_message ms → fs_rest rest →
  shows fs v → (length ms < fuel)%nat → 0 ≤ v_probe v ≤ INT_MAX → 0 ≤ v_count v →
  v_count v + zlen ms ≤ INT_MAX → end_ (outbuf fs) + 224 * zlen ms ≤ 2^30 - 1 →
  ∃ fs', fakeswitch_handle_read clock fuel fs = Ok fs' ∧ holds (inbuf fs') rest ∧
    shows fs' (react_all clock fuel (fs_id fs) (delay fs) v ms) ∧
    config fs' = config fs ∧ fs_sock fs' = s' ∧
    current_mac_address fs' = current_mac_address fs.
Proof.
  intros. destruct (handle_read_spec clock fuel fs v q k bs s' ms rest) as (fs' & ? & ? & ? & ? & ? & ? & _);
    try done. by exists fs'.
Qed.

(** C19. What the switch sends is well-formed OpenFlow: the features reply, the
    vendor error, the echo reply and the packet-in probe are completely
    initialised messages whose length field is their length; the replies carry
    the transaction id of the request, the features reply the number of the
    switch as its datapath id in network order, and the probe the number of the
    switch in both Ethernet addresses. *)
Theorem messages_wellformed id xid mac :
  length xid = 4%nat →
  (∃ bs, make_features_reply id (cells xid) BUFLEN = Ok (cells bs) ∧ of_message bs ∧
     msg_xid bs = xid ∧ take 8 (drop 8 bs) = be64 (u64 id) ∧ bs !! 0%nat = Some OFP_VERSION) ∧
  (∃ bs, make_vendor_reply (cells xid) BUFLEN = Ok (cells bs) ∧ of_message bs ∧
     msg_xid bs = xid ∧ msg_type bs = OFPT_ERROR ∧ bs !! 0%nat = Some OFP_VERSION) ∧
  (∃ bs, make_header OFPT_ECHO_REPLY sizeof_ofp_header (cells xid) = Ok (cells bs) ∧ of_message bs ∧
     msg_xid bs = xid ∧ msg_type bs = OFPT_ECHO_REPLY ∧ bs !! 0%nat = Some OFP_VERSION) ∧
  (∃ bs, make_packet_in id 0 BUFLEN mac = Ok (cells bs) ∧ of_message bs ∧ zlen bs = 82 ∧
     bs !! 23%nat = Some (u8 id) ∧ bs !! 29%nat = Some (u8 id) ∧ take 4 (drop 25 bs) = le32 mac ∧
     bs !! 0%nat = Some OFP_VERSION).
Proof.
  intros Hx.
  assert (u8 OFP_VERSION = OFP_VERSION) as Hv by (apply Z.mod_small; apply of_version_byte).
  assert (u8 OFPT_ERROR = OFPT_ERROR ∧ u8 OFPT_ECHO_REPLY = OFPT_ECHO_REPLY) as [Ht1 Ht2].
  { pose proof of_types_byte as H. rewrite !Forall_cons in H. unfold u8. by rewrite !Z.mod_small by tauto. }
  assert (sizeof_ofp_header = 8) as -> by apply lay_header.
  rewrite make_features_reply_spec, make_vendor_reply_spec, make_header_spec, make_packet_in_spec by done.
  destruct xid as [|a [|b [|c [|d [|]]]]]; try done. split_and!.
  - exists (features_msg id [a; b; c; d]).
    split_and!; first [done | split; [by vm_compute|done] | cbn; by rewrite Hv].
  - exists (vendor_msg [a; b; c; d]).
    split_and!; first [done | split; [by vm_compute|done] | cbn; by rewrite Hv | exact Ht1].
  - exists (header_msg OFPT_ECHO_REPLY [a; b; c; d]).
    split_and!; first [done | split; [by vm_compute|done] | cbn; by rewrite Hv | exact Ht2].
  - exists (probe_msg id mac).
    split_and!; first [done | split; [by vm_compute|done] | cbn; by rewrite Hv].
Qed.

(** *** A message that announces length zero *)

Lemma handle_message_inbuf fs off now fs' : handle_message fs off now = Ok fs' → inbuf fs' = inbuf fs.
Proof.
  unfold handle_message. intros H. apply bind_Ok in H as (ty & _ & H).
  apply bind_Ok in H as (fs1 & H1 & H2).
  assert (inbuf fs1 = inbuf fs) as Hi.
  { clear H2. unfold got_response in H1.
    repeat first [progress res_inv | destruct_and? ]; done. }
  injection H2 as <-. destruct (_ <? _); done.
Qed.

(** A message whose length field is zero hangs the switch: it is not
    removed from the buffer, so the handler never returns, whatever the type
    of the message and however many iterations are allowed. *)
Theorem fakeswitch_zero_length_hangs clock fuel fs q fs' :
  holds (inbuf fs) q → 8 ≤ zlen q → take 2 (drop 2 q) = [0; 0] →
  handle_loop clock fuel fs ≠ Ok fs'.
Proof.
  intros Hi Hl Hz. revert fs Hi. induction fuel as [|fuel IH]; intros fs Hi; [done|].
  rewrite handle_loop_S. destruct L as [(Hsz & _ & _ & Hlo & _) _ _ _ _ _ _ _ _ _ _ _].
  rewrite Hsz, Hlo. unfold msgbuf_count_buffered. rewrite <-(h_count _ _ Hi).
  replace (zlen q >=? 8) with true by lia. rewrite (msgbuf_peek_spec _ _ Hi).
  destruct q as [|b q]; [unfold zlen in Hl; cbn in Hl; lia|].
  rewrite <-(app_nil_r (b :: q)) in Hi. rewrite (holds_length _ _ _ 0 Hi) by (done || lia).
  rewrite app_nil_r in Hi. cbn [mbind res_bind]. replace (zlen (b :: q) <? 0) with false by lia.
  pose proof (msgbuf_pull_spec _ _ false 0 Hi) as Hpl. cbn zeta in Hpl.
  replace (Z.min 0 (zlen (b :: q))) with 0 in Hpl by lia. cbn [Z.leb Z.compare] in Hpl. rewrite Hpl.
  cbn [mbind res_bind]. destruct (handle_message _ _ _) as [fs1|] eqn:Hm; [|done].
  cbn [mbind res_bind]. apply handle_message_inbuf in Hm. apply IH. by rewrite Hm.
Qed.

(** ** Probes *)

(** The address of the [i]-th probe from now. *)
Definition nth_mac (fs : fakeswitch) (i : nat) : Z :=
  (current_mac_address fs + Z.of_nat i) `mod` total_mac_addresses fs.
Definition probes (fs : fakeswitch) (n : nat) : list Z :=
  concat ((λ i, probe_msg (fs_id fs) (nth_mac fs i)) <$> seq 0 n).

Lemma zlen_probe_msg id mac : zlen (probe_msg id mac) = 82.
Proof. done. Qed.

Lemma zlen_concat_const (f : nat → list Z) k c n :
  (∀ i, zlen (f i) = c) → zlen (concat (f <$> seq k n)) = c * Z.of_nat n.
Proof.
  intros Hf. revert k. induction n as [|n IH]; intros k; cbn; [unfold zlen; cbn; lia|].
  rewrite zlen_app, Hf. cbn in IH. rewrite IH. lia.
Qed.

Lemma zlen_probes fs n : zlen (probes fs n) = 82 * Z.of_nat n.
Proof. apply zlen_concat_const. intros i. apply zlen_probe_msg. Qed.

Definition mac_ok (fs : fakeswitch) : Prop :=
  0 ≤ current_mac_address fs < total_mac_addresses fs ∧ total_mac_addresses fs ≤ INT_MAX.

(** The state after [n] probes. *)
Record probed (fs fs' : fakeswitch) (n : nat) : Prop := {
  pr_config : config fs' = config fs;
  pr_in : inbuf fs' = inbuf fs ∧ fs_sock fs' = fs_sock fs;
  pr_probe : probe_state fs' = probe_state fs + Z.of_nat n;
  pr_keep : fs_count fs' = fs_count fs ∧ ready_to_send fs' = ready_to_send fs ∧
            delay_start fs' = delay_start fs;
  pr_mac : current_mac_address fs' = nth_mac fs n;
}.

Lemma send_probe_spec fs o :
  holds (outbuf fs) o → mac_ok fs → 0 ≤ probe_state fs < INT_MAX →
  end_ (outbuf fs) + 82 ≤ 2^30 - 1 →
  ∃ fs', send_probe fs = Ok fs' ∧ probed fs fs' 1 ∧ mac_ok fs' ∧
    holds (outbuf fs') (o ++ probe_msg (fs_id fs) (current_mac_address fs)) ∧
    end_ (outbuf fs') = end_ (outbuf fs) + 82.
Proof.
  intros Ho Hm Hp He. unfold send_probe, mac_ok in *.
  rewrite chk_int_ok by (unfold is_int, INT_MIN; lia). cbn [mbind res_bind].
  rewrite make_packet_in_spec. cbn [mbind res_bind].
  replace (total_mac_addresses fs =? 0) with false by lia.
  rewrite chk_int_ok by (unfold is_int, INT_MIN; lia). cbn [mbind res_bind].
  destruct (msgbuf_push_spec _ _ (probe_msg (fs_id fs) (current_mac_address fs)) Ho) as (o' & -> & Ho' & He' & _).
  { rewrite zlen_probe_msg. lia. }
  cbn [mbind res_bind mret res_ret]. eexists; split; [reflexivity|].
  rewrite Z.rem_mod_nonneg by lia. split; [by split|].
  cbn. rewrite zlen_probe_msg in He'. split_and!; try done; try lia.
  - apply Z.mod_pos_bound. lia.
  - apply Z.mod_pos_bound. lia.
Qed.

Lemma send_probes_spec n fs o :
  holds (outbuf fs) o → mac_ok fs → 0 ≤ probe_state fs → probe_state fs + Z.of_nat n ≤ INT_MAX →
  end_ (outbuf fs) + 82 * Z.of_nat n ≤ 2^30 - 1 →
  ∃ fs', send_probes n fs = Ok fs' ∧ probed fs fs' n ∧ mac_ok fs' ∧
    holds (outbuf fs') (o ++ probes fs n) ∧ end_ (outbuf fs') = end_ (outbuf fs) + 82 * Z.of_nat n.
Proof.
  revert fs o. induction n as [|n IH]; intros fs o Ho Hm Hp Hpb He.
  { exists fs. change (probes fs 0) with (@nil Z). rewrite app_nil_r.
    split; [done|]. split; [|split; [done|split; [done|lia]]].
    split; [done|done|lia|done|]. unfold nth_mac. rewrite Z.add_0_r, Z.mod_small; [done|apply Hm]. }
  destruct (send_probe_spec fs o Ho Hm) as (fs1 & H1 & [Hc1 [Hi1 Hk1] Hp1 [Hn1 [Hr1 Hd1]] Hm1] & Hmo1 & Ho1 & He1);
    [lia|lia|].
  destruct (IH fs1 _ Ho1 Hmo1) as (fs2 & H2 & [Hc2 [Hi2 Hk2] Hp2 [Hn2 [Hr2 Hd2]] Hm2] & Hmo2 & Ho2 & He2);
    [lia|lia|lia|].
  assert (fs_id fs1 = fs_id fs ∧ total_mac_addresses fs1 = total_mac_addresses fs) as [Hid Htot]
    by (by injection Hc1).
  assert (∀ i, nth_mac fs1 i = nth_mac fs (S i)) as Hnth.
  { intros i. unfold nth_mac. rewrite Hm1, Htot. unfold nth_mac.
    rewrite Zplus_mod_idemp_l. f_equal. lia. }
  exists fs2. cbn [send_probes]. rewrite H1. cbn [mbind res_bind].
  split; [done|]. split; [|split; [done|split; [|lia]]].
  - split; [congruence|split; congruence|lia|split_and!; congruence|by rewrite Hm2, Hnth].
  - replace (o ++ probes fs (S n))
      with ((o ++ probe_msg (fs_id fs) (current_mac_address fs)) ++ probes fs1 n); [done|].
    rewrite <-app_assoc. f_equal. unfold probes. rewrite <-cons_seq, fmap_cons. cbn [concat]. f_equal.
    + f_equal. unfold nth_mac. rewrite Z.add_0_r, Z.mod_small; [done|apply Hm].
    + rewrite <-fmap_S_seq, <-list_fmap_compose. f_equal. apply list_fmap_ext. intros j x _. cbn.
      by rewrite Hid, Hnth.
Qed.

(** C21. Throughput mode keeps the output buffer full: when the socket is
    writable, as many probes are queued behind what was waiting as fit in
    65536 bytes, each a complete 82-byte packet-in with the next source
    address modulo the number of addresses; then as much as the socket accepts
    leaves the buffer from its front. *)
Theorem fakeswitch_handle_write_fills now fs o k s' :
  holds (outbuf fs) o → ready_to_send fs = 1 → mode fs = MODE_THROUGHPUT → probe_size fs = 82 →
  zlen o < 65536 → mac_ok fs → 0 ≤ probe_state fs ≤ INT_MAX - 1000 →
  end_ (outbuf fs) + 65536 ≤ 2^30 - 1 →
  let n := Z.to_nat ((65536 - zlen o) `div` 82) in
  c_write (fs_sock fs) (o ++ probes fs n) = (k, s') →
  65536 - 82 < zlen (o ++ probes fs n) ≤ 65536 ∧
  ∃ fs', fakeswitch_handle_write now fs = Ok fs' ∧
    holds (outbuf fs') (drop (Z.to_nat k) (o ++ probes fs n)) ∧ fs_sock fs' = s' ∧
    probe_state fs' = probe_state fs + Z.of_nat n ∧ current_mac_address fs' = nth_mac fs n.
Proof.
  intros Ho Hr Hmo Hps Hz Hm Hp He n Hw. pose proof (zlen_nonneg o).
  assert (Z.of_nat n = (65536 - zlen o) `div` 82) as Hn.
  { subst n. rewrite Z2Nat.id; [done|]. apply Z.div_pos; lia. }
  assert (65536 - 82 < zlen (o ++ probes fs n) ≤ 65536) as Hlen.
  { rewrite zlen_app, zlen_probes, Hn. Z.to_euclidean_division_equations; lia. }
  split; [done|]. rewrite zlen_app, zlen_probes in Hlen. unfold fakeswitch_handle_write. rewrite Hr.
  cbn [Z.eqb Pos.eqb]. unfold send_count, msgbuf_count_buffered, throughput_buffer.
  rewrite Hmo, Hps, <-(h_count _ _ Ho). cbn [bool_decide decide_rel test_mode_eq_dec andb].
  rewrite bool_decide_false by done. rewrite bool_decide_true by done. cbn [andb].
  replace (zlen o <? 65536) with true by lia. cbn [mbind res_bind mret res_ret Z.eqb].
  rewrite Z.quot_div_nonneg by lia. fold n.
  destruct (send_probes_spec n fs o Ho Hm) as (fs1 & -> & [Hc1 [Hi1 Hk1] Hp1 _ Hm1] & _ & Ho1 & He1);
    [lia|lia|lia|]. cbn [mbind res_bind].
  rewrite <-(h_count _ _ Ho1), zlen_app, zlen_probes.
  replace (zlen o + 82 * Z.of_nat n >? 0) with true by lia.
  pose proof (msgbuf_write_spec _ _ (fs_sock fs1) 0 Ho1) as Hmw. cbn [Z.gtb Z.compare andb] in Hmw.
  change (offered (o ++ probes fs n) 0) with (o ++ probes fs n) in Hmw. rewrite Hk1 in *.
  destruct (Hmw _ _ Hw) as (o2 & -> & Ho2 & _). cbn [mbind res_bind mret res_ret].
  eexists; split; [reflexivity|]. cbn. by split_and!.
Qed.
End openflow.

(** ** Concrete runs *)

Definition demo_empty (n : Z) : msgbuf := {| buf := mem_new n; len := n; start := 0; end_ := 0 |}.
Lemma demo_empty_holds n : 0 < n → holds (demo_empty n) [].
Proof. intros. split; cbn; try done; try lia. by rewrite zlen_mem_new by lia. Qed.

Definition demo_features_req : list Z := [1; 5; 0; 8; 0; 0; 0; 7].
Definition demo_packet_out : list Z := [1; 13; 0; 8; 0; 0; 0; 9].
(** Two messages and the first five bytes of a third, in one chunk. *)
Definition demo_stream : list Z := demo_features_req ++ demo_packet_out ++ [1; 2; 0; 8; 0].
Definition demo_fs (m : test_mode) (ready : Z) : fakeswitch :=
  {| fs_id := 3; fs_debug := 0;
     fs_sock := {| rx := [RdData demo_stream]; tx := [WrAccept 100]; sent := []; errno := 0 |};
     inbuf := demo_empty 64; outbuf := demo_empty 512; mode := m; probe_state := 1; fs_count := 4;
     ready_to_send := ready; probe_size := 82; delay := 1500;
     delay_start := {| tv_sec := 0; tv_usec := 0 |}; total_mac_addresses := 5;
     current_mac_address := 3 |}.
Definition demo_view : fsview :=
  {| v_probe := 1; v_count := 4; v_ready := 0; v_start := {| tv_sec := 0; tv_usec := 0 |}; v_out := [] |}.
Definition demo_clock (n : nat) : timeval := {| tv_sec := 1000; tv_usec := Z.of_nat n |}.

Lemma demo_shows m : shows (demo_fs m 0) demo_view.
Proof. split; try done. by apply demo_empty_holds. Qed.

Lemma demo_messages : Forall (@fs_message of10) [demo_features_req; demo_packet_out].
Proof. repeat constructor; by vm_compute. Qed.

Lemma fakeswitch_handle_read_refines_witness :
  ∃ fs', @fakeswitch_handle_read of10 demo_clock 3 (demo_fs MODE_LATENCY 0) = Ok fs' ∧
    holds (inbuf fs') [1; 2; 0; 8; 0] ∧
    shows fs' (@react_all of10 demo_clock 3 3 1500 demo_view [demo_features_req; demo_packet_out]) ∧
    config fs' = config (demo_fs MODE_LATENCY 0) ∧
    fs_sock fs' = {| rx := []; tx := [WrAccept 100]; sent := []; errno := 0 |} ∧
    current_mac_address fs' = 3.
Proof.
  apply (@fakeswitch_handle_read_refines of10 _ _ demo_clock 3 (demo_fs MODE_LATENCY 0) demo_view []
           21 demo_stream _ [demo_features_req; demo_packet_out] [1; 2; 0; 8; 0]).
  - by apply demo_empty_holds.
  - vm_compute. congruence.
  - vm_compute. reflexivity.
  - lia.
  - reflexivity.
  - exact demo_messages.
  - left. vm_compute. reflexivity.
  - exact (demo_shows MODE_LATENCY).
  - cbn. lia.
  - vm_compute. split; congruence.
  - vm_compute. congruence.
  - vm_compute. congruence.
  - vm_compute. congruence.
Defined.

Example demo_read_result :
  (fs ← @fakeswitch_handle_read of10 demo_clock 3 (demo_fs MODE_LATENCY 0);
   mret (probe_state fs, fs_count fs, ready_to_send fs, delay_start fs, msgbuf_count_buffered (outbuf fs)))
  = Ok (0, 5, 2, {| tv_sec := 1001; tv_usec := 500002 |}, 224).
Proof. vm_compute. reflexivity. Qed.

Lemma messages_wellformed_witness :
  (∃ bs, @make_features_reply of10 3 (cells [0; 0; 0; 7]) BUFLEN = Ok (cells bs) ∧ of_message bs ∧
     msg_xid bs = [0; 0; 0; 7] ∧ take 8 (drop 8 bs) = be64 (u64 3) ∧ bs !! 0%nat = Some 1) ∧
  (∃ bs, @make_vendor_reply of10 (cells [0; 0; 0; 7]) BUFLEN = Ok (cells bs) ∧ of_message bs ∧
     msg_xid bs = [0; 0; 0; 7] ∧ msg_type bs = 1 ∧ bs !! 0%nat = Some 1) ∧
  (∃ bs, @make_header of10 3 8 (cells [0; 0; 0; 7]) = Ok (cells bs) ∧ of_message bs ∧
     msg_xid bs = [0; 0; 0; 7] ∧ msg_type bs = 3 ∧ bs !! 0%nat = Some 1) ∧
  (∃ bs, @make_packet_in of10 3 0 BUFLEN 99999 = Ok (cells bs) ∧ of_message bs ∧ zlen bs = 82 ∧
     bs !! 23%nat = Some (u8 3) ∧ bs !! 29%nat = Some (u8 3) ∧ take 4 (drop 25 bs) = le32 99999 ∧
     bs !! 0%nat = Some 1).
Proof. exact (@messages_wellformed of10 _ _ 3 [0; 0; 0; 7] 99999 eq_refl). Defined.

Definition demo_zero : msgbuf :=
  {| buf := cells [1; 0; 0; 0; 0; 0; 0; 1] ++ mem_new 8; len := 16; start := 0; end_ := 8 |}.

Lemma fakeswitch_zero_length_hangs_witness :
  @handle_loop of10 demo_clock 50
    (with_io (demo_fs MODE_LATENCY 0) (fs_sock (demo_fs MODE_LATENCY 0)) demo_zero (demo_empty 64))
  ≠ Ok (demo_fs MODE_LATENCY 0).
Proof.
  apply (@fakeswitch_zero_length_hangs of10 _ demo_clock 50 _ [1; 0; 0; 0; 0; 0; 0; 1]).
  - split; cbn; try done; lia.
  - vm_compute. congruence.
  - reflexivity.
Defined.

Lemma fakeswitch_handle_write_fills_witness :
  let fs := demo_fs MODE_THROUGHPUT 1 in
  let n := Z.to_nat ((65536 - zlen (@nil Z)) `div` 82) in
  65536 - 82 < zlen ([] ++ @probes of10 fs n) ≤ 65536 ∧
  ∃ fs', @fakeswitch_handle_write of10 (demo_clock 0) fs = Ok fs' ∧
    holds (outbuf fs') (drop (Z.to_nat 100) ([] ++ @probes of10 fs n)) ∧
    fs_sock fs' = {| rx := [RdData demo_stream]; tx := [];
                     sent := [] ++ take (Z.to_nat 100) ([] ++ @probes of10 fs n); errno := 0 |} ∧
    probe_state fs' = 1 + Z.of_nat n ∧ current_mac_address fs' = nth_mac fs n.
Proof.
  intros fs n.
  apply (@fakeswitch_handle_write_fills of10 _ (demo_clock 0) fs [] 100); try done.
  by apply demo_empty_holds.
Defined.
