(* ===== verification/FakeSwitchLife.v ===== *)
(** * The life of a fake switch

    From initialisation over any sequence of events of the poll loop,
    collections of the count and whatever the network does, the bytes the switch
    produced and the messages it received tell how many probes are outstanding.
    The trace of a run lists messages, probes and collections in the order they
    happened; it is tied to the run by the messages that arrived in each event
    and by the bytes that were produced. *)

From S2P Require Import Prelude CTime CBytes OpenFlow OfFrame MsgBuf MsgBufSpec FakeSwitch FakeSwitchSpec.
Open Scope Z_scope.

Section openflow.
Context {OF : OpenFlow} {L : OFLayout OF} {T : OFTypes OF}.

(** ** Traces *)

Inductive entry :=
| Got (m : list Z)          (* a message of the controller was handled *)
| Probed (mac : Z)          (* a probe was queued, with this source address *)
| Collected.                (* the count was collected *)

(** The bytes an entry adds to what the switch sends. *)
Definition entry_bytes (id : Z) (e : entry) : list Z :=
  match e with Got m => reply id m | Probed mac => probe_msg id mac | Collected => [] end.

(** Probes without a response.  A response the switch has no probe for is
    ignored; a vendor message and the collection of the count write off what is
    outstanding. *)
Definition out_step (n : Z) (e : entry) : Z :=
  match e with
  | Got m => if is_response m then Z.max 0 (n - 1) else if msg_type m =? OFPT_VENDOR then 0 else n
  | Probed _ => n + 1
  | Collected => 0
  end.
Definition outstanding (tr : list entry) : Z := foldl out_step 0 tr.

(** Responses since the last collection. *)
Definition count_step (n : Z) (e : entry) : Z :=
  match e with Got m => if is_response m then n + 1 else n | Probed _ => n | Collected => 0 end.
Definition counted (tr : list entry) : Z := foldl count_step 0 tr.

(** Whether the features of the switch were asked for. *)
Definition asks (e : entry) : bool :=
  match e with Got m => msg_type m =? OFPT_FEATURES_REQUEST | _ => false end.

Definition probe_macs (tr : list entry) : list Z :=
  omap (λ e, match e with Probed mac => Some mac | _ => None end) tr.

(** In latency mode a probe is sent only when none is outstanding. *)
Definition spaced (tr : list entry) : Prop :=
  ∀ tr1 mac tr2, tr = tr1 ++ Probed mac :: tr2 → outstanding tr1 = 0.

(** ** Events *)

Inductive event := Io (ms : list (list Z)) | Collect | Network.

(** The part of the trace an event can account for: it handles the messages
    that arrived, then queues probes. *)
Definition accounts (ev : event) (l : list entry) : Prop :=
  match ev with
  | Io ms => ∃ macs, l = (Got <$> ms) ++ (Probed <$> macs)
  | Collect => l = [Collected]
  | Network => l = []
  end.

(** The socket delivers bytes that complete the messages [ms]. *)
Definition delivers (fs : fakeswitch) (ms : list (list Z)) : Prop :=
  ∃ q k bs s' rest, holds (inbuf fs) q ∧
    c_read (fs_sock fs) (len (inbuf fs) - end_ (inbuf fs)) = (k, bs, s') ∧ 0 < k ∧
    q ++ bs = concat ms ++ rest ∧ Forall fs_message ms ∧ fs_rest rest.

(** The buffers and counters stay inside their types. *)
Definition room (fs : fakeswitch) (ms : list (list Z)) : Prop :=
  len (inbuf fs) * 2 ≤ INT_MAX ∧ end_ (outbuf fs) + 224 * zlen ms + 65536 ≤ 2^30 - 1 ∧
  fs_count fs + zlen ms ≤ INT_MAX ∧ probe_state fs ≤ INT_MAX - 1000.

(** What happens in the life of a switch: an event of the poll loop, the
    collection of the count, a change of what the network holds for it. *)
Inductive fs_step : fakeswitch → event → fakeswitch → Prop :=
| fs_io clock fuel now revents fs ms fs' :
    (if negb (Z.land revents POLLIN =? 0) then delivers fs ms else ms = []) →
    room fs ms → (length ms < fuel)%nat →
    fakeswitch_handle_io clock fuel now revents fs = Ok fs' → fs_step fs (Io ms) fs'
| fs_collect fuel fs n fs' :
    fakeswitch_get_count fuel fs = Ok (n, fs') → fs_step fs Collect fs'
| fs_network fs s :
    sent s = sent (fs_sock fs) → fs_step fs Network (with_io fs s (inbuf fs) (outbuf fs)).

Inductive fs_life : fakeswitch → list event → fakeswitch → Prop :=
| life_nil fs : fs_life fs [] fs
| life_snoc fs evs fs1 ev fs2 :
    fs_life fs evs fs1 → fs_step fs1 ev fs2 → fs_life fs (evs ++ [ev]) fs2.

(** ** Reading and writing *)

Lemma c_read_sent s n k bs s' : c_read s n = (k, bs, s') → sent s' = sent s.
Proof. unfold c_read. by destruct (n =? 0), (rx s) as [|[] ?]; intros [= <- <- <-]. Qed.


(** The invariant of a run with trace [tr]; [fs0] is the switch at the start
    and [base] what it has produced before. *)
Record tracks (fs0 : fakeswitch) (base : list Z) (fs : fakeswitch) (tr : list entry) : Prop := {
  tk_config : config fs = config fs0;
  tk_out : ∃ o, holds (outbuf fs) o ∧
    sent (fs_sock fs) ++ o = base ++ concat (entry_bytes (fs_id fs0) <$> tr);
  tk_probe : probe_state fs = outstanding tr;
  tk_count : fs_count fs = counted tr;
  tk_ready : ready_to_send fs ≠ 0 → existsb asks tr = true;
  tk_mac : current_mac_address fs = zlen (probe_macs tr) `mod` total_mac_addresses fs0;
  tk_macs : probe_macs tr = (λ i, i `mod` total_mac_addresses fs0) <$> seqZ 0 (zlen (probe_macs tr));
  tk_paced : ∀ tr1 mac tr2, tr = tr1 ++ Probed mac :: tr2 →
    existsb asks tr1 = true ∧ (mode fs0 = MODE_LATENCY → outstanding tr1 = 0);
}.

Lemma foldl_nonneg (f : Z → entry → Z) n tr :
  (∀ n e, 0 ≤ n → 0 ≤ f n e) → 0 ≤ n → 0 ≤ foldl f n tr.
Proof. intros Hf. revert n. induction tr as [|e tr IH]; intros n Hn; [done|]. by apply IH, Hf. Qed.

Lemma outstanding_nonneg tr : 0 ≤ outstanding tr.
Proof.
  apply foldl_nonneg; [|done]. intros n [m| |] Hn; cbn; [|lia|done].
  destruct (is_response m), (msg_type m =? OFPT_VENDOR); lia.
Qed.

Lemma counted_nonneg tr : 0 ≤ counted tr.
Proof.
  apply foldl_nonneg; [|done]. intros n [m| |] Hn; cbn; [|lia|done]. destruct (is_response m); lia.
Qed.

Lemma probe_macs_app tr1 tr2 : probe_macs (tr1 ++ tr2) = probe_macs tr1 ++ probe_macs tr2.
Proof. apply omap_app. Qed.
Lemma probe_macs_got ms : probe_macs (Got <$> ms) = [].
Proof. by induction ms. Qed.
Lemma probe_macs_probed macs : probe_macs (Probed <$> macs) = macs.
Proof. unfold probe_macs. induction macs as [|a macs IH]; cbn; [done|]. by rewrite IH. Qed.

(** A trace extended by entries that are no probes stays paced. *)
Lemma paced_got (P : list entry → Prop) tr ms :
  (∀ tr1 mac tr2, tr = tr1 ++ Probed mac :: tr2 → P tr1) →
  ∀ tr1 mac tr2, tr ++ (Got <$> ms) = tr1 ++ Probed mac :: tr2 → P tr1.
Proof.
  intros H tr1 mac tr2 E. apply app_eq_inv in E as [(k & -> & E)|(k & -> & E)].
  - destruct k as [|e k]; [by destruct ms|]. injection E as <- _. by eapply H.
  - exfalso. assert (Probed mac ∈ Got <$> ms) as Hin by (rewrite E; set_solver).
    apply list_elem_of_fmap in Hin as (? & ? & ?). done.
Qed.

(** The messages of one read, seen from the trace. *)
Lemma react_all_trace clock fuel id d v ms : (length ms < fuel)%nat →
  let v' := react_all clock fuel id d v ms in
  v_probe v' = foldl out_step (v_probe v) (Got <$> ms) ∧
  v_count v' = foldl count_step (v_count v) (Got <$> ms) ∧
  v_out v' = v_out v ++ concat (reply id <$> ms) ∧
  (v_ready v' ≠ 0 → v_ready v ≠ 0 ∨ existsb asks (Got <$> ms) = true).
Proof.
  revert fuel v. induction ms as [|m ms IH]; intros fuel v Hf; cbn zeta.
  { destruct fuel; cbn; rewrite app_nil_r; auto. }
  destruct fuel as [|fuel]; [lia|]. cbn [react_all].
  destruct (IH fuel (react id d (clock fuel) v m)) as (H1 & H2 & H3 & H4); [cbn in Hf; lia|].
  rewrite H1, H2, H3. cbn [fmap list_fmap foldl out_step count_step concat existsb asks].
  split_and!; [done|done|by apply symmetry, app_assoc|].
  intros [H|H]%H4; [|right; by rewrite orb_true_intro by auto].
  cbn in H. destruct (msg_type m =? OFPT_FEATURES_REQUEST); cbn; auto.
Qed.

Lemma tracks_read fs0 base clock fuel fs tr ms fs' :
  tracks fs0 base fs tr → delivers fs ms → room fs ms → (length ms < fuel)%nat →
  fakeswitch_handle_read clock fuel fs = Ok fs' →
  tracks fs0 base fs' (tr ++ (Got <$> ms)) ∧ end_ (outbuf fs') ≤ end_ (outbuf fs) + 224 * zlen ms.
Proof.
  intros [Hcf (o & Ho & Hout) Hp Hc Hr Hm Hms Hpc] (q & k & bs & s' & rest & Hi & Hrd & Hk & Hq & Hmsg & Hrest)
    (Hl & He & Hcb & Hpb) Hf H.
  pose proof (outstanding_nonneg tr) as Hn1. pose proof (counted_nonneg tr) as Hn2.
  set (v := {| v_probe := probe_state fs; v_count := fs_count fs; v_ready := ready_to_send fs;
               v_start := delay_start fs; v_out := o |}).
  destruct (handle_read_spec clock fuel fs v q k bs s' ms rest) as (fs1 & H1 & _ & Hs & Hcf1 & Hk1 & Hm1 & He1);
    try done; try (cbn; lia).
  assert (fs1 = fs') as -> by congruence.
  destruct (react_all_trace clock fuel (fs_id fs) (delay fs) v ms Hf) as (R1 & R2 & R3 & R4).
  assert (fs_id fs = fs_id fs0) as Hid by (by injection Hcf).
  destruct Hs as [S1 S2 S3 _ S5]. rewrite R1 in S1. rewrite R2 in S2. rewrite R3 in S5.
  split; [|done]. split.
  - congruence.
  - exists (o ++ concat (reply (fs_id fs) <$> ms)). split; [done|].
    rewrite Hk1. rewrite (c_read_sent _ _ _ _ _ Hrd), app_assoc, Hout, fmap_app, concat_app, <-app_assoc.
    do 2 f_equal. rewrite Hid. clear. induction ms as [|m ms IH]; cbn; [done|]. by rewrite IH.
  - unfold outstanding. rewrite foldl_app, S1. cbn [v_probe v]. by rewrite Hp.
  - unfold counted. rewrite foldl_app, S2. cbn [v_count v]. by rewrite Hc.
  - intros Hr1. rewrite S3 in Hr1. apply R4 in Hr1 as [Hr1|Hr1]; rewrite existsb_app;
      [by rewrite Hr|by rewrite Hr1, orb_true_r].
  - by rewrite probe_macs_app, probe_macs_got, app_nil_r, Hm1.
  - by rewrite probe_macs_app, probe_macs_got, app_nil_r.
  - by apply paced_got.
Qed.

(** What a writable socket does: [n] probes, and bytes for the socket. *)
Record wrote (fs fs' : fakeswitch) (o : list Z) (n : nat) : Prop := {
  wr_config : config fs' = config fs;
  wr_out : ∃ o', holds (outbuf fs') o' ∧ sent (fs_sock fs') ++ o' = sent (fs_sock fs) ++ o ++ probes fs n;
  wr_probe : probe_state fs' = probe_state fs + Z.of_nat n;
  wr_count : fs_count fs' = fs_count fs;
  wr_ready : ready_to_send fs' ≠ 0 → ready_to_send fs ≠ 0;
  wr_mac : current_mac_address fs' = nth_mac fs n;
  wr_when : n ≠ 0%nat → ready_to_send fs ≠ 0 ∧ (mode fs = MODE_LATENCY → probe_state fs = 0 ∧ n = 1%nat);
}.

(** The bytes that are queued are offered to the socket. *)
Lemma flush_spec fs q s' :
  holds (outbuf fs) q →
  (if msgbuf_count_buffered (outbuf fs) >? 0 then
     '(_, o, s) ← msgbuf_write (outbuf fs) (fs_sock fs) 0; mret (with_io fs s (inbuf fs) o)
   else mret fs) = Ok s' →
  ∃ o' k, s' = with_io fs k (inbuf fs) o' ∧ ∃ q', holds o' q' ∧ sent k ++ q' = sent (fs_sock fs) ++ q.
Proof.
  intros Hh. destruct (_ >? 0).
  - pose proof (msgbuf_write_spec _ _ (fs_sock fs) 0 Hh) as H. cbn [Z.gtb Z.compare andb] in H.
    change (offered q 0) with q in H. destruct (c_write (fs_sock fs) q) as [k s1] eqn:E.
    destruct (H k s1 eq_refl) as (o2 & -> & Ho2 & _). cbn [mbind res_bind mret res_ret]. intros [= <-].
    exists o2, s1. split; [done|]. exists (drop (Z.to_nat k) q). split; [done|].
    destruct (c_write_spec _ _ _ _ E) as [[-> ->]|[_ ->]]; [done|]. by rewrite <-app_assoc, take_drop.
  - intros [= <-]. exists (outbuf fs), (fs_sock fs). split; [by destruct fs|]. by exists q.
Qed.

(** How many probes are queued at most. *)
Lemma send_count_spec fs o :
  holds (outbuf fs) o → probe_size fs = 82 → ∃ n, send_count fs = Ok n ∧ 0 ≤ n ∧ 82 * n ≤ 65536 ∧
    (n ≠ 0 → mode fs = MODE_LATENCY → probe_state fs = 0 ∧ n = 1).
Proof.
  intros Ho Hps. pose proof (zlen_nonneg o). unfold send_count, msgbuf_count_buffered, throughput_buffer.
  rewrite <-(h_count _ _ Ho), Hps.
  destruct (bool_decide (mode fs = MODE_LATENCY) && (probe_state fs =? 0)) eqn:E1.
  { exists 1. split_and!; try done. intros _ _. apply andb_true_iff in E1. lia. }
  destruct (bool_decide (mode fs = MODE_THROUGHPUT) && (zlen o <? 65536)) eqn:E2; cbn [Z.eqb Pos.eqb].
  2:{ by exists 0. }
  apply andb_true_iff in E2 as [Hm%bool_decide_eq_true E2].
  exists ((65536 - zlen o) `quot` 82). rewrite Z.quot_div_nonneg by lia.
  split; [done|]. split; [apply Z.div_pos; lia|]. split; [Z.to_euclidean_division_equations; lia|].
  intros _ Hl. congruence.
Qed.

Lemma handle_write_spec now fs fs' o :
  holds (outbuf fs) o → mac_ok fs → probe_size fs = 82 → 0 ≤ probe_state fs ≤ INT_MAX - 1000 →
  end_ (outbuf fs) + 65536 ≤ 2^30 - 1 →
  fakeswitch_handle_write now fs = Ok fs' → ∃ n, wrote fs fs' o n.
Proof.
  intros Ho Hm Hps Hp He H. unfold fakeswitch_handle_write in H.
  assert (nth_mac fs 0 = current_mac_address fs) as Hn0
    by (unfold nth_mac; rewrite Z.add_0_r, Z.mod_small; [done|apply Hm]).
  destruct (ready_to_send fs =? 1) eqn:E1.
  - destruct (send_count_spec fs o Ho Hps) as (n & Hn & Hn1 & Hn2 & Hn3). rewrite Hn in H. cbn [mbind res_bind] in H.
    destruct (send_probes_spec (Z.to_nat n) fs o Ho Hm) as (fs1 & H1 & [Hc1 [Hi1 Hk1] Hp1 [Hn4 [Hr1 _]] Hm1] & _ & Ho1 & He1);
      [lia|lia|lia|]. rewrite H1 in H. cbn [mbind res_bind] in H.
    destruct (flush_spec _ _ _ Ho1 H) as (o' & k & -> & q' & Hq' & Hs). exists (Z.to_nat n).
    split; try done.
    + exists q'. split; [done|]. cbn. by rewrite Hs, Hk1.
    + cbn. by rewrite Hr1.
    + intros Hz. split; [lia|]. intros Hl. destruct Hn3 as [? ->]; [lia|done|]. done.
  - exists 0%nat. destruct (ready_to_send fs =? 2) eqn:E2; cbn [mbind res_bind mret res_ret] in H.
    + set (fs1 := if timercmp_gt _ _ then _ else _) in H.
      assert (holds (outbuf fs1) o ∧ fs_sock fs1 = fs_sock fs ∧ config fs1 = config fs ∧
        probe_state fs1 = probe_state fs ∧ fs_count fs1 = fs_count fs ∧
        current_mac_address fs1 = current_mac_address fs) as (A1 & A2 & A3 & A4 & A5 & A6)
        by (subst fs1; by destruct (timercmp_gt _ _)).
      destruct (flush_spec _ _ _ A1 H) as (o' & k & -> & q' & Hq' & Hs).
      split; cbn; rewrite ?A4, ?A5, ?A6; try done; try lia.
      exists q'. split; [done|]. rewrite Hs, A2. change (probes fs 0) with (@nil Z). by rewrite app_nil_r.
    + destruct (flush_spec _ _ _ Ho H) as (o' & k & -> & q' & Hq' & Hs).
      split; cbn; try done; try lia.
      exists q'. split; [done|]. rewrite Hs. change (probes fs 0) with (@nil Z). by rewrite app_nil_r.
Qed.

Lemma foldl_probed n macs : foldl out_step n (Probed <$> macs) = n + zlen macs.
Proof.
  revert n. induction macs as [|a macs IH]; intros n; cbn; [unfold zlen; cbn; lia|].
  rewrite IH, zlen_cons. lia.
Qed.
Lemma foldl_count_probed n macs : foldl count_step n (Probed <$> macs) = n.
Proof. induction macs as [|a macs IH]; cbn; done. Qed.

(** A trace extended by probes. *)
Lemma paced_probed (P : list entry → Prop) tr macs :
  (∀ tr1 mac tr2, tr = tr1 ++ Probed mac :: tr2 → P tr1) →
  (∀ m1 mac m2, macs = m1 ++ mac :: m2 → P (tr ++ (Probed <$> m1))) →
  ∀ tr1 mac tr2, tr ++ (Probed <$> macs) = tr1 ++ Probed mac :: tr2 → P tr1.
Proof.
  intros H Hn tr1 mac tr2 E. apply app_eq_inv in E as [(k & -> & E)|(k & -> & E)].
  - destruct k as [|e k]; [|injection E as <- _; by eapply H].
    rewrite app_nil_r in *. destruct macs as [|a macs]; [done|].
    specialize (Hn [] a macs eq_refl). cbn in Hn. by rewrite app_nil_r in Hn.
  - apply fmap_app_inv in E as (m1 & m2 & -> & E & ->). destruct m2 as [|a m2]; [done|]. by eapply Hn.
Qed.

Lemma probes_bytes fs n :
  probes fs n = concat (entry_bytes (fs_id fs) <$> (Probed <$> (nth_mac fs <$> seq 0 n))).
Proof. unfold probes. by rewrite <-!list_fmap_compose. Qed.

Lemma tracks_write fs0 base fs fs' tr o n :
  tracks fs0 base fs tr → holds (outbuf fs) o → 0 < total_mac_addresses fs0 → wrote fs fs' o n →
  tracks fs0 base fs' (tr ++ (Probed <$> (nth_mac fs <$> seq 0 n))).
Proof.
  intros [Hcf (o1 & Ho1 & Hout) Hp Hc Hr Hm Hms Hpc] Ho Ht [W1 (o2 & Ho2 & W2) W3 W4 W5 W6 W7].
  assert (o1 = o) as -> by (by eapply holds_inj).
  assert (fs_id fs = fs_id fs0 ∧ mode fs = mode fs0 ∧ total_mac_addresses fs = total_mac_addresses fs0)
    as (Hid & Hmo & Htot) by (by injection Hcf).
  set (macs := nth_mac fs <$> seq 0 n).
  assert (zlen macs = Z.of_nat n) as Hz by (unfold zlen, macs; by rewrite length_fmap, length_seq).
  assert (macs = (λ i, i `mod` total_mac_addresses fs0) <$> seqZ (zlen (probe_macs tr)) (zlen macs)) as Hmacs.
  { rewrite Hz. unfold macs, seqZ. rewrite Nat2Z.id, <-list_fmap_compose. apply list_fmap_ext.
    intros _ i _. unfold nth_mac. cbn. rewrite Hm, Htot, Zplus_mod_idemp_l. f_equal. lia. }
  split.
  - congruence.
  - exists o2. split; [done|]. rewrite W2, probes_bytes, app_assoc, Hout, fmap_app, concat_app, <-app_assoc. by rewrite Hid.
  - unfold outstanding. rewrite foldl_app, foldl_probed, Hz. unfold outstanding in Hp. lia.
  - unfold counted. rewrite foldl_app, foldl_count_probed, W4. exact Hc.
  - intros H. rewrite existsb_app, Hr by auto. done.
  - rewrite probe_macs_app, probe_macs_probed, zlen_app, Hz, W6. unfold nth_mac.
    by rewrite Hm, Htot, Zplus_mod_idemp_l.
  - rewrite probe_macs_app, probe_macs_probed, zlen_app, seqZ_app by apply zlen_nonneg.
    rewrite fmap_app, <-Hms, Z.add_0_l, <-Hmacs. done.
  - apply paced_probed; [done|]. intros m1 mac m2 E.
    assert (n ≠ 0%nat) as Hn0 by (intros ->; by destruct m1).
    destruct (W7 Hn0) as [H1 H2]. rewrite existsb_app, Hr by done. split; [done|]. intros Hl.
    destruct H2 as [H2 ->]; [congruence|]. destruct m1 as [|? [|? ?]]; try done.
    cbn [fmap list_fmap]. rewrite app_nil_r. congruence.
Qed.

Lemma foldl_got n ms : 0 ≤ n → foldl out_step n (Got <$> ms) ≤ n.
Proof.
  revert n. induction ms as [|m ms IH]; intros n Hn; cbn; [done|].
  etrans; [apply IH|]; destruct (is_response m), (msg_type m =? OFPT_VENDOR); lia.
Qed.

Lemma tracks_io fs0 base clock fuel now revents fs tr ms fs' :
  tracks fs0 base fs tr → probe_size fs0 = 82 → 0 < total_mac_addresses fs0 ≤ INT_MAX →
  (if negb (Z.land revents POLLIN =? 0) then delivers fs ms else ms = []) →
  room fs ms → (length ms < fuel)%nat → fakeswitch_handle_io clock fuel now revents fs = Ok fs' →
  ∃ macs, tracks fs0 base fs' (tr ++ (Got <$> ms) ++ (Probed <$> macs)).
Proof.
  intros Ht Hps Htot Hd Hroom Hf H. unfold fakeswitch_handle_io in H. apply bind_Ok in H as (fs1 & H1 & H2).
  pose proof Hroom as (_ & He & _ & Hpb). pose proof (zlen_nonneg ms).
  assert (tracks fs0 base fs1 (tr ++ (Got <$> ms)) ∧ end_ (outbuf fs1) ≤ end_ (outbuf fs) + 224 * zlen ms)
    as [Ht1 He1].
  { destruct (negb _); [by eapply tracks_read|]. subst ms. injection H1 as <-.
    cbn [fmap list_fmap]. rewrite app_nil_r. split; [done|lia]. }
  destruct (negb (Z.land revents POLLOUT =? 0)).
  2:{ injection H2 as <-. exists []. by rewrite app_nil_r. }
  destruct (tk_out _ _ _ _ Ht1) as (o & Ho & _). pose proof (tk_config _ _ _ _ Ht1) as Hcf.
  assert (probe_size fs1 = probe_size fs0 ∧ total_mac_addresses fs1 = total_mac_addresses fs0) as [Hp1 Ht2]
    by (by injection Hcf).
  pose proof (outstanding_nonneg tr). pose proof (outstanding_nonneg (tr ++ (Got <$> ms))) as Hn.
  pose proof (foldl_got (outstanding tr) ms ltac:(done)) as Hle.
  destruct (handle_write_spec now fs1 fs' o) as (n & Hw).
  - done.
  - unfold mac_ok. rewrite (tk_mac _ _ _ _ Ht1), Ht2. split; [apply Z.mod_pos_bound|]; lia.
  - congruence.
  - rewrite (tk_probe _ _ _ _ Ht1). rewrite (tk_probe _ _ _ _ Ht) in Hpb. unfold outstanding in *.
    rewrite foldl_app in Hn |- *. lia.
  - lia.
  - done.
  - exists (nth_mac fs1 <$> seq 0 n). rewrite app_assoc. eapply tracks_write; [done|done|lia|done].
Qed.

Lemma drain_loop_sent fuel i s i' s' : drain_loop fuel i s = Ok (i', s') → sent s' = sent s.
Proof.
  revert i s. induction fuel as [|fuel IH]; intros i s H; [done|]. cbn [drain_loop] in H.
  apply bind_Ok in H as ([[n i1] s1] & Hr & H).
  assert (sent s1 = sent s) as Hs.
  { unfold msgbuf_read in Hr. destruct (_ <? 0); [done|]. destruct (c_read _ _) as [[k bs] s2] eqn:E.
    apply c_read_sent in E. res_inv; done. }
  destruct (n >? 0); [|by injection H as _ <-]. apply bind_Ok in H as (i2 & _ & H).
  apply IH in H. congruence.
Qed.

Lemma tracks_same fs0 base fs tr l fs' :
  tracks fs0 base fs tr → config fs' = config fs → outbuf fs' = outbuf fs →
  sent (fs_sock fs') = sent (fs_sock fs) → ready_to_send fs' = ready_to_send fs →
  current_mac_address fs' = current_mac_address fs →
  (l = [] ∧ probe_state fs' = probe_state fs ∧ fs_count fs' = fs_count fs) ∨
  (l = [Collected] ∧ probe_state fs' = 0 ∧ fs_count fs' = 0) →
  tracks fs0 base fs' (tr ++ l).
Proof.
  intros [Hcf (o & Ho & Hout) Hp Hc Hr Hm Hms Hpc] E1 E2 E3 E4 E5 Hl.
  assert (probe_macs l = []) as Hml by (by destruct Hl as [[-> _]|[-> _]]).
  assert (concat (entry_bytes (fs_id fs0) <$> l) = []) as Hbl by (by destruct Hl as [[-> _]|[-> _]]).
  split.
  - congruence.
  - exists o. rewrite E2, E3, fmap_app, concat_app, Hbl, app_nil_r. done.
  - unfold outstanding. rewrite foldl_app. destruct Hl as [(-> & -> & _)|(-> & -> & _)]; done.
  - unfold counted. rewrite foldl_app. destruct Hl as [(-> & _ & ->)|(-> & _ & ->)]; done.
  - intros H. rewrite E4 in H. by rewrite existsb_app, Hr.
  - by rewrite probe_macs_app, Hml, app_nil_r, E5.
  - by rewrite probe_macs_app, Hml, app_nil_r.
  - destruct Hl as [[-> _]|[-> _]]; [by rewrite app_nil_r|].
    intros tr1 mac tr2 E. destruct tr2 as [|e tr2 _] using rev_ind.
    + apply app_inj_tail in E as [_ E]. done.
    + rewrite app_comm_cons, app_assoc in E. apply app_inj_tail in E as [-> _]. by eapply Hpc.
Qed.

Lemma fs_step_tracks fs0 base fs tr ev fs' :
  tracks fs0 base fs tr → probe_size fs0 = 82 → 0 < total_mac_addresses fs0 ≤ INT_MAX →
  fs_step fs ev fs' → ∃ l, accounts ev l ∧ tracks fs0 base fs' (tr ++ l).
Proof.
  intros Ht Hps Htot Hs. destruct Hs as [clock fuel now revents fs ms fs' Hd Hroom Hf H|fuel fs n fs' H|fs s Hs].
  - destruct (tracks_io fs0 base clock fuel now revents fs tr ms fs') as (macs & Ht'); try done.
    eexists. split; [by exists macs|done].
  - exists [Collected]. split; [done|]. unfold fakeswitch_get_count in H.
    apply bind_Ok in H as ([i s] & Hdr & H). injection H as _ <-.
    eapply tracks_same; [done|done|done| |done|done|by right]. cbn. by eapply drain_loop_sent.
  - exists []. split; [done|]. apply (tracks_same fs0 base fs); try done. by left.
Qed.

Lemma fs_life_tracks fs0 base fs evs :
  tracks fs0 base fs0 [] → probe_size fs0 = 82 → 0 < total_mac_addresses fs0 ≤ INT_MAX →
  fs_life fs0 evs fs → ∃ trs, Forall2 accounts evs trs ∧ tracks fs0 base fs (concat trs).
Proof.
  intros H0 Hps Htot Hl. induction Hl as [fs0|fs0 evs fs1 ev fs2 Hl IH Hs]; [by exists []|].
  destruct (IH H0 Hps Htot) as (trs & Ha & Ht).
  destruct (fs_step_tracks _ _ _ _ _ _ Ht Hps Htot Hs) as (l & Hl1 & Ht').
  exists (trs ++ [l]). split; [apply Forall2_app; [done|by repeat constructor]|].
  by rewrite concat_app, concat_cons, app_nil_r.
Qed.

(** Initialisation: a hello is queued. *)
Lemma fakeswitch_init_tracks ID mac0 s size debug d m total d0 fs0 next :
  fakeswitch_init ID mac0 s size debug d m total d0 = Ok (fs0, next) → 0 < size →
  tracks fs0 (sent s ++ header_msg OFPT_HELLO (be32 1)) fs0 [] ∧
  fs_id fs0 = ID ∧ mode fs0 = m ∧ probe_size fs0 = 82 ∧ total_mac_addresses fs0 = total.
Proof.
  intros H Hs. unfold fakeswitch_init in H.
  destruct (msgbuf_new_spec size) as (b & Hb & Hh & _ & He); [lia|]. rewrite Hb in H. cbn [mbind res_bind] in H.
  rewrite make_packet_in_spec in H. cbn [mbind res_bind] in H.
  assert (sizeof_ofp_header = 8) as Hz by apply lay_header. rewrite Hz, make_header_spec in H by done.
  cbn [mbind res_bind] in H.
  destruct (msgbuf_push_spec b [] (header_msg OFPT_HELLO (be32 1)) Hh) as (o & Ho & Hho & _).
  { rewrite He. change (zlen (header_msg _ _)) with 8. lia. }
  rewrite Ho in H. cbn [mbind res_bind mret res_ret] in H. injection H as <- _.
  split_and!; try done. split; try done.
  - exists (header_msg OFPT_HELLO (be32 1)). split; [done|]. cbn. by rewrite app_nil_r.
  - intros tr1 mac tr2 E. by destruct tr1.
Qed.

(** With probes only when none is outstanding there is never more than one. *)
Lemma spaced_outstanding tr : spaced tr → outstanding tr ≤ 1.
Proof.
  induction tr as [|e tr IH] using rev_ind; intros Hs; [done|].
  assert (outstanding (tr ++ [e]) = out_step (outstanding tr) e) as -> by (unfold outstanding; by rewrite foldl_app).
  assert (outstanding tr ≤ 1) as Hle.
  { apply IH. intros tr1 mac tr2 ->. apply (Hs tr1 mac (tr2 ++ [e])). by rewrite <-app_assoc. }
  pose proof (outstanding_nonneg tr). destruct e as [msg|mac|]; cbn; [|by rewrite (Hs tr mac [] eq_refl)|done].
  destruct (is_response msg), (msg_type msg =? OFPT_VENDOR); lia.
Qed.

(** C22. Probes and responses over the life of a switch, from initialisation
    through any sequence of poll events, collections of the count and changes of
    the network, the buffers and counters inside their types: there is a trace in which every
    event accounts for the messages that arrived in it, each once and in order,
    and for the probes it queued, such that the bytes handed to the socket and
    those still buffered are exactly the hello, the replies and the probes of
    the trace in order, the probes with consecutive source addresses.
    [probe_state] is the number of probes of the trace without a response,
    where a vendor message and a collection of the count write off the probe
    that is outstanding, and the count is the number of responses since the
    last collection.  No probe comes before the controller asked for the
    features; in latency mode a probe is queued only when none is outstanding,
    so that at most one is. *)
Theorem latency_one_outstanding ID mac0 s size debug d m total d0 fs0 next evs fs :
  fakeswitch_init ID mac0 s size debug d m total d0 = Ok (fs0, next) → 0 < size →
  0 < total ≤ INT_MAX → fs_life fs0 evs fs →
  ∃ trs, Forall2 accounts evs trs ∧ let tr := concat trs in
    (∃ o, holds (outbuf fs) o ∧
       sent (fs_sock fs) ++ o =
         sent s ++ header_msg OFPT_HELLO (be32 1) ++ concat (entry_bytes ID <$> tr)) ∧
    probe_macs tr = (λ i, i `mod` total) <$> seqZ 0 (zlen (probe_macs tr)) ∧
    probe_state fs = outstanding tr ∧ fs_count fs = counted tr ∧
    (∀ tr1 mac tr2, tr = tr1 ++ Probed mac :: tr2 → existsb asks tr1 = true) ∧
    0 ≤ outstanding tr ∧
    (m = MODE_LATENCY → spaced tr ∧ outstanding tr ≤ 1).
Proof.
  intros Hi Hsz Htot Hl.
  destruct (fakeswitch_init_tracks _ _ _ _ _ _ _ _ _ _ _ Hi Hsz) as (H0 & <- & <- & Hps & <-).
  destruct (fs_life_tracks _ _ _ _ H0 Hps Htot Hl) as (trs & Ha & [_ (o & Ho & Hout) Hp Hc _ _ Hm Hpc]).
  exists trs. split; [done|]. split_and!; try done.
  - exists o. split; [done|]. by rewrite Hout, <-app_assoc.
  - intros. by eapply Hpc.
  - apply outstanding_nonneg.
  - intros Hmo. assert (spaced (concat trs)) by (intros ? ? ? ?; by eapply Hpc). split; [done|].
    by apply spaced_outstanding.
Qed.
End openflow.

(** ** A concrete life *)

(** Initialisation, then one event in which the features request and a response
    that belongs to no probe are read, and the first probe is queued. *)
Definition demo_init : res (fakeswitch * Z) :=
  @fakeswitch_init of10 1 77 (fs_sock (demo_fs MODE_LATENCY 0)) 128 0 0 MODE_LATENCY 5
    {| tv_sec := 0; tv_usec := 0 |}.
Definition demo_event (fs : fakeswitch) : res fakeswitch :=
  @fakeswitch_handle_io of10 demo_clock 5 (demo_clock 0) 5 fs.

Lemma demo_room fs : len (inbuf fs) = 128 → end_ (outbuf fs) = 8 →
  fs_count fs = 0 → probe_state fs = 0 → room fs [demo_features_req; demo_packet_out].
Proof. intros H1 H2 H3 H4. unfold room, zlen, INT_MAX. rewrite H1, H2, H3, H4. cbn. lia. Qed.

Lemma demo_life : ∃ fs0 n fs1 c fs2, demo_init = Ok (fs0, n) ∧ demo_event fs0 = Ok fs1 ∧
  probe_state fs1 = 1 ∧ @fakeswitch_get_count of10 3 fs1 = Ok (c, fs2) ∧ c = 1 ∧
  (@delivers of10 fs0 [demo_features_req; demo_packet_out] ∧ room fs0 [demo_features_req; demo_packet_out]).
Proof.
  do 5 eexists. split; [vm_compute; reflexivity|]. split; [vm_compute; reflexivity|].
  split; [vm_compute; reflexivity|]. split; [vm_compute; reflexivity|]. split; [reflexivity|].
  split; [|by apply demo_room].
  exists [], 21, demo_stream. eexists. exists [1; 2; 0; 8; 0]. split_and!.
  - apply (demo_empty_holds 128). lia.
  - vm_compute. reflexivity.
  - lia.
  - reflexivity.
  - exact demo_messages.
  - left. vm_compute. reflexivity.
Qed.

Lemma latency_one_outstanding_witness :
  ∃ fs0 n fs1 fs2, demo_init = Ok (fs0, n) ∧ demo_event fs0 = Ok fs1 ∧ probe_state fs1 = 1 ∧
    @fakeswitch_get_count of10 3 fs1 = Ok (1, fs2) ∧
    ∃ trs, Forall2 accounts [Io [demo_features_req; demo_packet_out]; Collect] trs ∧
      let tr := concat trs in
      (∃ o, holds (outbuf fs2) o ∧
         sent (fs_sock fs2) ++ o = [] ++ @header_msg of10 (@OFPT_HELLO of10) (be32 1) ++ concat (@entry_bytes of10 1 <$> tr)) ∧
      probe_macs tr = (λ i, i `mod` 5) <$> seqZ 0 (zlen (probe_macs tr)) ∧
      probe_state fs2 = @outstanding of10 tr ∧ fs_count fs2 = @counted of10 tr ∧
      (∀ tr1 mac tr2, tr = tr1 ++ Probed mac :: tr2 → existsb (@asks of10) tr1 = true) ∧
      0 ≤ @outstanding of10 tr ∧
      (MODE_LATENCY = MODE_LATENCY → @spaced of10 tr ∧ @outstanding of10 tr ≤ 1).
Proof.
  destruct demo_life as (fs0 & n & fs1 & c & fs2 & E0 & E1 & E2 & E3 & -> & Hd & Hr).
  exists fs0, n, fs1, fs2. do 4 (split; [assumption|]).
  apply (@latency_one_outstanding of10 _ _ 1 77 _ 128 0 0 MODE_LATENCY 5 _ fs0 n _ fs2 E0);
    [lia|unfold INT_MAX; lia|].
  apply (@life_snoc of10 fs0 [Io [demo_features_req; demo_packet_out]] fs1); [|by apply (@fs_collect of10 3 fs1 1)].
  apply (@life_snoc of10 fs0 [] fs0); [apply life_nil|].
  apply (@fs_io of10 demo_clock 5 (demo_clock 0) 5 fs0); [exact Hd|exact Hr|cbn; lia|exact E1].
Defined.
