(* ===== verification/Msg.v ===== *)
(** * OpenFlow requests and measurement packets (msg.c), checksums (utils.c)

    The functions of msg.c that build the controller's requests and the
    measurement packets, as the bytes they leave in the buffer, the extraction
    of the packet identifier, and ip_sum_calc of utils.c.  Structure layouts
    and constants come from [OpenFlow]; the layout of struct ether_vlan_header
    (with its bit-fields) is that of the x86 System V ABI. *)

From S2P Require Import Prelude CBytes OpenFlow PcapTrack.
Open Scope Z_scope.

(** [struct flow]: 16- and 32-bit fields are in network order, kept as the
    host's value of the bytes. *)
Record flow := {
  f_mask : Z; f_in_port : Z; f_dl_src : list Z; f_dl_dst : list Z; f_dl_vlan : Z; f_dl_type : Z;
  f_nw_src : Z; f_nw_dst : Z; f_nw_proto : Z; f_tp_src : Z; f_tp_dst : Z;
}.

Section openflow.
Context {OF : OpenFlow}.

(** ** Requests without a body *)

Definition ofp_init (b : mem) (type len : Z) : res mem :=
  b ← wr8 b ofp_header_version OFP_VERSION;
  b ← wr8 b ofp_header_type type;
  b ← wr16be b ofp_header_length len;
  wr32le b ofp_header_xid 0.

(** A builder returns the buffer it allocated and the length it reports. *)
Definition make_ofp_hello : res (mem * Z) :=
  b ← ofp_init (mem_new sizeof_ofp_hello) OFPT_HELLO sizeof_ofp_hello; mret (b, sizeof_ofp_hello).
Definition make_ofp_echo_req : res (mem * Z) :=
  b ← ofp_init (mem_new sizeof_ofp_header) OFPT_ECHO_REQUEST sizeof_ofp_header;
  mret (b, sizeof_ofp_header).
Definition make_ofp_feat_req : res (mem * Z) :=
  b ← ofp_init (mem_new sizeof_ofp_hello) OFPT_FEATURES_REQUEST sizeof_ofp_hello;
  mret (b, sizeof_ofp_hello).

(** ** Flow modifications *)

(** The buffer has exactly [len] bytes; it is cleared first. *)
Definition make_flow_mod (b : mem) (command len : Z) (fl : flow) : res mem :=
  b ← wr_cells b 0 (mem_zero len);
  b ← wr8 b ofp_header_version OFP_VERSION;
  b ← wr8 b ofp_header_type OFPT_FLOW_MOD;
  b ← wr16be b ofp_header_length len;
  let m := ofp_flow_mod_match in
  b ← wr32be b (m + ofp_match_wildcards) (f_mask fl);
  b ← wr16le b (m + ofp_match_in_port) (f_in_port fl);
  b ← wr_bytes b (m + ofp_match_dl_src) (take 6 (f_dl_src fl));
  b ← wr_bytes b (m + ofp_match_dl_dst) (take 6 (f_dl_dst fl));
  b ← wr16le b (m + ofp_match_dl_vlan) (f_dl_vlan fl);
  b ← wr16le b (m + ofp_match_dl_type) (f_dl_type fl);
  b ← wr32le b (m + ofp_match_nw_src) (f_nw_src fl);
  b ← wr32le b (m + ofp_match_nw_dst) (f_nw_dst fl);
  b ← wr8 b (m + ofp_match_nw_proto) (f_nw_proto fl);
  b ← wr16le b (m + ofp_match_tp_src) (f_tp_src fl);
  b ← wr16le b (m + ofp_match_tp_dst) (f_tp_dst fl);
  wr16be b ofp_flow_mod_command command.

(** The output action behind the fixed part. *)
Definition put_output (b : mem) (out_port : Z) : res mem :=
  let p := ofp_flow_mod_actions in
  b ← wr16be b (p + ofp_action_output_type) OFPAT_OUTPUT;
  b ← wr16be b (p + ofp_action_output_len) 8;
  b ← wr16be b (p + ofp_action_output_port) out_port;
  wr16be b (p + ofp_action_output_max_len) 2000.

Definition make_ofp_flow_add (fl : flow) (out_port buffer_id idle_timeout : Z) : res (mem * Z) :=
  let len := sizeof_ofp_flow_mod + sizeof_ofp_action_output in
  b ← make_flow_mod (mem_new len) OFPFC_ADD len fl;
  b ← wr16be b ofp_flow_mod_idle_timeout idle_timeout;
  b ← wr16be b ofp_flow_mod_hard_timeout OFP_FLOW_PERMANENT;
  b ← wr32be b ofp_flow_mod_buffer_id (u32 (-1));
  b ← wr16be b ofp_flow_mod_command OFPFC_ADD;
  b ← wr16be b ofp_flow_mod_priority 1000;
  b ← wr16be b ofp_flow_mod_flags OFPFF_SEND_FLOW_REM;
  b ← put_output b out_port;
  mret (b, len).

Definition make_ofp_flow_modify_output_port (fl : flow) (out_port buffer_id idle_timeout : Z) :
    res (mem * Z) :=
  let len := sizeof_ofp_flow_mod + sizeof_ofp_action_output in
  b ← make_flow_mod (mem_new len) OFPFC_MODIFY len fl;
  b ← wr16be b ofp_flow_mod_idle_timeout idle_timeout;
  b ← wr16be b ofp_flow_mod_hard_timeout OFP_FLOW_PERMANENT;
  b ← wr32be b ofp_flow_mod_buffer_id (u32 (-1));
  b ← wr16be b ofp_flow_mod_command OFPFC_ADD;
  b ← wr16be b ofp_flow_mod_flags OFPFF_SEND_FLOW_REM;
  b ← put_output b out_port;
  mret (b, len).

Definition make_ofp_flow_modify (fl : flow) (actions : mem) (action_len buffer_id idle_timeout : Z) :
    res (mem * Z) :=
  let len := sizeof_ofp_flow_mod + action_len in
  b ← make_flow_mod (mem_new len) OFPFC_MODIFY len fl;
  a ← rd_cells actions 0 action_len;
  b ← wr_cells b sizeof_ofp_flow_mod a;
  b ← wr16be b ofp_flow_mod_idle_timeout idle_timeout;
  b ← wr16be b ofp_flow_mod_hard_timeout OFP_FLOW_PERMANENT;
  b ← wr32be b ofp_flow_mod_buffer_id (u32 (-1));
  b ← wr16be b ofp_flow_mod_command OFPFC_ADD;
  mret (b, len).

Definition make_ofp_flow_del : res (mem * Z) :=
  let len := sizeof_ofp_flow_mod in
  b ← wr_cells (mem_new len) 0 (mem_zero len);
  b ← wr8 b ofp_header_version OFP_VERSION;
  b ← wr8 b ofp_header_type OFPT_FLOW_MOD;
  b ← wr16be b ofp_header_length len;
  b ← wr32be b (ofp_flow_mod_match + ofp_match_wildcards) OFPFW_ALL;
  b ← wr16le b ofp_flow_mod_idle_timeout 0;
  b ← wr16be b ofp_flow_mod_hard_timeout OFP_FLOW_PERMANENT;
  b ← wr32be b ofp_flow_mod_buffer_id (u32 (-1));
  b ← wr16be b ofp_flow_mod_priority 32768;
  b ← wr16be b ofp_flow_mod_command OFPFC_DELETE;
  b ← wr16be b ofp_flow_mod_out_port OFPP_NONE;
  mret (b, len).

(** ** Statistics requests *)

(** [out_port] is stored without conversion to network order. *)
Definition make_ofp_flow_get_stat (trans_id : Z) : res (mem * Z) :=
  let len := sizeof_ofp_stats_request + sizeof_ofp_flow_stats_request in
  b ← wr_cells (mem_new len) 0 (mem_zero len);
  b ← wr8 b ofp_header_version OFP_VERSION;
  b ← wr8 b ofp_header_type OFPT_STATS_REQUEST;
  b ← wr16be b ofp_header_length len;
  b ← wr32be b ofp_header_xid (u32 trans_id);
  b ← wr16be b ofp_stats_request_type OFPST_FLOW;
  let r := sizeof_ofp_stats_request in
  b ← wr32be b (r + ofp_flow_stats_request_match + ofp_match_wildcards) OFPFW_ALL;
  b ← wr8 b (r + ofp_flow_stats_request_table_id) 0xFF;
  b ← wr16le b (r + ofp_flow_stats_request_out_port) OFPP_NONE;
  mret (b, len).

Definition make_ofp_aggr_flow_stats (trans_id : Z) : res (mem * Z) :=
  let len := sizeof_ofp_stats_request + sizeof_ofp_aggregate_stats_request in
  b ← wr_cells (mem_new len) 0 (mem_zero len);
  b ← wr8 b ofp_header_version OFP_VERSION;
  b ← wr8 b ofp_header_type OFPT_STATS_REQUEST;
  b ← wr16be b ofp_header_length len;
  b ← wr32be b ofp_header_xid (u32 trans_id);
  b ← wr16be b ofp_stats_request_type OFPST_AGGREGATE;
  let r := sizeof_ofp_stats_request in
  b ← wr32be b (r + ofp_aggregate_stats_request_match + ofp_match_wildcards) OFPFW_ALL;
  b ← wr8 b (r + ofp_aggregate_stats_request_table_id) 0xFF;
  b ← wr16le b (r + ofp_aggregate_stats_request_out_port) OFPP_NONE;
  mret (b, len).

(** The two versions selected by the preprocessor; the buffer is not cleared. *)
Definition make_ofp_port_get_stat : res (mem * Z) :=
  if OFP_VERSION =? 0x97 then
    let b := mem_new sizeof_ofp_stats_request in
    b ← wr8 b ofp_header_version OFP_VERSION;
    b ← wr8 b ofp_header_type OFPT_STATS_REQUEST;
    b ← wr16be b ofp_header_length sizeof_ofp_stats_request;
    b ← wr16be b ofp_stats_request_type OFPST_PORT;
    mret (b, sizeof_ofp_stats_request)
  else
    let len := sizeof_ofp_stats_request + sizeof_ofp_port_stats_request in
    let b := mem_new len in
    b ← wr8 b ofp_header_version OFP_VERSION;
    b ← wr8 b ofp_header_type OFPT_STATS_REQUEST;
    b ← wr16be b ofp_header_length len;
    b ← wr16be b ofp_stats_request_type OFPST_PORT;
    b ← wr16be b (sizeof_ofp_stats_request + ofp_port_stats_request_port_no) OFPP_NONE;
    mret (b, len).
End openflow.

(** ** Measurement packets *)

Definition sizeof_ether_vlan_header : Z := 18.
Definition sizeof_iphdr : Z := 20.
Definition sizeof_tcphdr : Z := 20.
Definition sizeof_udphdr : Z := 8.

(** The bit-fields pcp, cfi and vid share one 16-bit unit, vid in its upper
    twelve bits. *)
Definition wr_vid (b : mem) (vid : Z) : res mem :=
  unit ← rd_bytes b 14 2;
  match unit with
  | [lo; hi] => wr16le b 14 (Z.land lo 15 + Z.shiftl (Z.land vid 0xfff) 4)
  | _ => Fault FBounds
  end.

Definition generate_packet (test : flow) (len : Z) : res (option mem) :=
  let b := mem_zero len in
  if len <? sizeof_ether_vlan_header + sizeof_iphdr + sizeof_tcphdr then mret None
  else
    b ← wr_bytes b 0 (take 6 (f_dl_dst test));
    b ← wr_bytes b 6 (take 6 (f_dl_src test));
    b ← wr16be b 12 0x8100;
    b ← wr_vid b (Z.shiftr (f_dl_vlan test) 4);
    b ← wr16le b 16 (f_dl_type test);
    let ip := sizeof_ether_vlan_header in
    b ← wr8 b (ip + 9) 1;
    b ← wr8 b ip 0x05;
    b ← wr8 b ip 0x45;
    b ← wr16be b (ip + 10) 0x9a97;
    b ← wr16be b (ip + 2) (len - sizeof_ether_vlan_header);
    b ← wr8 b (ip + 8) 10;
    b ← wr8 b (ip + 9) (f_nw_proto test);
    b ← wr32le b (ip + 12) (f_nw_src test);
    b ← wr32le b (ip + 16) (f_nw_dst test);
    if f_nw_proto test =? IPPROTO_UDP then
      let udp := sizeof_ether_vlan_header + sizeof_iphdr in
      b ← wr16le b udp (f_tp_src test);
      b ← wr16le b (udp + 2) (f_tp_dst test);
      b ← wr16be b (udp + 4) (len - sizeof_ether_vlan_header - sizeof_iphdr);
      mret (Some b)
    else mret None.

(** The identifier is read in host order; only the IP header is checked
    against the length. *)
Definition extract_pkt_id (b : mem) (len : Z) : res Z :=
  t ← rd16be b 12;
  t2 ← (if t =? 0x8100 then rd16be b 16 else mret 0);
  let go (off len : Z) :=
    v ← rd8 b off;
    let ihl := Z.land v 15 in
    if len <? 4 * ihl then mret 0
    else
      bs ← rd_bytes b (off + 4 * ihl + sizeof_udphdr) 4;
      mret (un_be32 (reverse bs)) in
  if (t =? 0x8100) && (t2 =? 0x0800) then go sizeof_ether_vlan_header (len - sizeof_ether_vlan_header)
  else if t =? 0x0800 then go sizeof_ether_header (len - sizeof_ether_header)
  else mret 0.

(** ** ip_sum_calc *)

(** The words of the loop are 32-bit unsigned sums of 16-bit numbers read in
    network order. *)
Fixpoint sum_words (fuel : nat) (b : mem) (off len sum : Z) : res (Z * Z * Z) :=
  match fuel with
  | O => Fault FFuel
  | S fuel =>
    if len >? 1 then
      w ← rd16be b off;
      let sum := u32 (sum + w) in
      let sum := if negb (Z.land sum 0x80000000 =? 0)
                 then u32 (Z.land sum 0xFFFF + Z.shiftr sum 16) else sum in
      sum_words fuel b (off + 2) (u16 (len - 2)) sum
    else mret (off, len, sum)
  end.

Fixpoint fold_sum (fuel : nat) (sum : Z) : res Z :=
  match fuel with
  | O => Fault FFuel
  | S fuel =>
    if negb (Z.shiftr sum 16 =? 0)
    then fold_sum fuel (u32 (Z.land sum 0xFFFF + Z.shiftr sum 16))
    else mret sum
  end.

(** At most 2^15 words, and three folds of a 32-bit sum. *)
Definition ip_sum_calc (len : Z) (ip : mem) : res Z :=
  '(off, len, sum) ← sum_words (S (Z.to_nat (len `div` 2))) ip 0 len 0;
  sum ← (if negb (len =? 0) then c ← rd8 ip off; mret (u32 (sum + c)) else mret sum);
  sum ← fold_sum 4 sum;
  mret (u16 (Z.lnot sum)).
