(* ===== verification/MsgSpec.v ===== *)
(** * What the built messages say

    The requests of msg.c are complete, correctly framed and carry the flow
    they were given ([make_ofp_flow_add_roundtrip]); the two functions meant to
    modify a flow send an addition; the measurement packet carries the
    identifier where extract_pkt_id looks for it; ip_sum_calc is the Internet
    checksum ([ip_sum_calc_internet_checksum]). *)

From S2P Require Import Prelude CBytes OpenFlow OfFrame PcapTrack Msg.
Open Scope Z_scope.

(** ** Reading a flow modification back *)

Definition byte_at (bs : list Z) (i : nat) : Z := default 0 (bs !! i).
(** A little-endian 16- and 32-bit field. *)
Definition le16_at (bs : list Z) (i : nat) : Z := byte_at bs i + 256 * byte_at bs (S i).
Definition be16_at (bs : list Z) (i : nat) : Z := 256 * byte_at bs i + byte_at bs (S i).
Definition le32_at (bs : list Z) (i : nat) : Z := le16_at bs i + 65536 * le16_at bs (2 + i).
Definition be32_at (bs : list Z) (i : nat) : Z := 65536 * be16_at bs i + be16_at bs (2 + i).

Definition read_flow (bs : list Z) : flow := {|
  f_mask := be32_at bs 8; f_in_port := le16_at bs 12;
  f_dl_src := take 6 (drop 14 bs); f_dl_dst := take 6 (drop 20 bs);
  f_dl_vlan := le16_at bs 26; f_dl_type := le16_at bs 30;
  f_nw_src := le32_at bs 36; f_nw_dst := le32_at bs 40; f_nw_proto := byte_at bs 33;
  f_tp_src := le16_at bs 44; f_tp_dst := le16_at bs 46 |}.

Definition is_u16 (z : Z) : Prop := 0 ≤ z < 2^16.
Definition is_u32 (z : Z) : Prop := 0 ≤ z < 2^32.

Record flow_ok (fl : flow) : Prop := {
  fo_mask : is_u32 (f_mask fl); fo_port : is_u16 (f_in_port fl);
  fo_src : length (f_dl_src fl) = 6%nat; fo_dst : length (f_dl_dst fl) = 6%nat;
  fo_vlan : is_u16 (f_dl_vlan fl); fo_type : is_u16 (f_dl_type fl);
  fo_nwsrc : is_u32 (f_nw_src fl); fo_nwdst : is_u32 (f_nw_dst fl); fo_proto : is_byte (f_nw_proto fl);
  fo_tpsrc : is_u16 (f_tp_src fl); fo_tpdst : is_u16 (f_tp_dst fl);
}.

Lemma le16_digits z : is_u16 z → u8 z + 256 * u8 (z `div` 256) = z.
Proof. unfold is_u16, u8. intros. Z.to_euclidean_division_equations; lia. Qed.
Lemma be16_digits z : is_u16 z → 256 * u8 (z `div` 256) + u8 z = z.
Proof. intros. rewrite Z.add_comm. by apply le16_digits. Qed.
Lemma u8_id z : is_byte z → u8 z = z.
Proof. apply Z.mod_small. Qed.
Lemma le32_digits z : is_u32 z →
  u8 z + 256 * u8 (z `div` 256) +
  65536 * (u8 (z `div` 65536) + 256 * u8 (z `div` 65536 `div` 256)) = z.
Proof. unfold is_u32, u8. intros. Z.to_euclidean_division_equations; lia. Qed.
Lemma be32_digits' z : is_u32 z →
  65536 * (256 * u8 (z `div` 65536 `div` 256) + u8 (z `div` 65536)) +
  (256 * u8 (z `div` 256) + u8 z) = z.
Proof. unfold is_u32, u8. intros. Z.to_euclidean_division_equations; lia. Qed.

Ltac six l H := destruct l as [|? [|? [|? [|? [|? [|? [|]]]]]]]; try discriminate H.
Ltac built fl :=
  intros Hok; pose proof (fo_src _ Hok) as Hs; pose proof (fo_dst _ Hok) as Hd;
  destruct fl as [mask port src dst vlan ty nsrc ndst pr ts td]; cbn in Hs, Hd; six src Hs; six dst Hd;
  of_layout; reflexivity.

(** A run of writes into the first part of a larger buffer. *)
Ltac wr_prefix :=
  unfold wr8, wr16be, wr32be, wr16le, wr32le, wr_bytes;
  repeat (erewrite wr_cells_app by reflexivity; cbn [mbind res_bind]).

Section openflow.
Context {OF : OpenFlow} {L : OFLayout OF}.

(** What a builder of flow modifications produces: a complete message with the
    flow in its match. *)
Definition flow_mod_for (bs : list Z) (n : Z) (fl : flow) : Prop :=
  zlen bs = n ∧ of_message bs ∧ byte_at bs 0 = u8 OFP_VERSION ∧ byte_at bs 1 = u8 OFPT_FLOW_MOD ∧
  read_flow bs = fl.

Lemma read_flow_eq fl (bs : list Z) :
  flow_ok fl → bs = take 8 bs ++ be32 (f_mask fl) ++ le16 (f_in_port fl) ++ f_dl_src fl ++ f_dl_dst fl ++
    le16 (f_dl_vlan fl) ++ [0; 0] ++ le16 (f_dl_type fl) ++ [0; u8 (f_nw_proto fl); 0; 0] ++
    le32 (f_nw_src fl) ++ le32 (f_nw_dst fl) ++ le16 (f_tp_src fl) ++ le16 (f_tp_dst fl) ++ drop 48 bs →
  length (take 8 bs) = 8%nat → read_flow bs = fl.
Proof.
  intros Hok Hbs H8. rewrite Hbs. clear Hbs.
  destruct (take 8 bs) as [|? [|? [|? [|? [|? [|? [|? [|? [|]]]]]]]]]; try discriminate H8.
  generalize (drop 48 bs) as tl. intros tl. destruct fl as [mask port src dst vlan ty nsrc ndst pr ts td].
  destruct Hok as [H1 H2 H3 H4 H5 H6 H7 H9 H10 H11 H12]. cbn in *. six src H3. six dst H4.
  unfold read_flow, le16_at, be16_at, le32_at, be32_at, byte_at. cbn.
  f_equal; unfold le16_at, be16_at, byte_at; cbn;
    first [by apply be32_digits' | by apply le32_digits | by apply le16_digits | by apply u8_id | done].
Qed.

(** A flow modification as it goes on the wire. *)
Definition flow_mod_msg (len : Z) (fl : flow) (command idle priority out_port flags : Z) (tail : list Z) :
    list Z :=
  [u8 OFP_VERSION; u8 OFPT_FLOW_MOD] ++ be16 len ++ [0; 0; 0; 0] ++
  be32 (f_mask fl) ++ le16 (f_in_port fl) ++ f_dl_src fl ++ f_dl_dst fl ++
  le16 (f_dl_vlan fl) ++ [0; 0] ++ le16 (f_dl_type fl) ++ [0; u8 (f_nw_proto fl); 0; 0] ++
  le32 (f_nw_src fl) ++ le32 (f_nw_dst fl) ++ le16 (f_tp_src fl) ++ le16 (f_tp_dst fl) ++
  [0; 0; 0; 0; 0; 0; 0; 0] ++ be16 command ++ be16 idle ++ be16 OFP_FLOW_PERMANENT ++
  be16 priority ++ [255; 255; 255; 255] ++ be16 out_port ++ be16 flags ++ tail.

Definition output_action (port : Z) : list Z := be16 OFPAT_OUTPUT ++ be16 8 ++ be16 port ++ be16 2000.

Lemma flow_mod_msg_for len fl command idle prio op flags tail :
  flow_ok fl → len = 72 + zlen tail → len < 65536 →
  flow_mod_for (flow_mod_msg len fl command idle prio op flags tail) len fl.
Proof.
  intros Hok Hlen Hb. pose proof (fo_src _ Hok) as Hs. pose proof (fo_dst _ Hok) as Hd.
  assert (zlen (flow_mod_msg len fl command idle prio op flags tail) = len) as Hz.
  { unfold flow_mod_msg, zlen in *. rewrite !length_app, Hs, Hd. cbn. lia. }
  split_and!; [done|split| | |].
  - rewrite Hz. pose proof (zlen_nonneg tail). lia.
  - by rewrite Hz.
  - done.
  - done.
  - apply read_flow_eq; [done| |by destruct fl as [? ? [] []]].
    destruct fl as [mask port src dst vlan ty nsrc ndst pr ts td]. cbn in Hs, Hd. six src Hs. six dst Hd.
    done.
Qed.

Lemma flow_mod_msg_command len fl command idle prio op flags tail :
  flow_ok fl → is_u16 command → is_u16 idle →
  let bs := flow_mod_msg len fl command idle prio op flags tail in
  be16_at bs 56 = command ∧ be16_at bs 58 = idle.
Proof.
  intros Hok Hc Hi. pose proof (fo_src _ Hok) as Hs. pose proof (fo_dst _ Hok) as Hd.
  destruct fl as [mask port src dst vlan ty nsrc ndst pr ts td]. cbn in Hs, Hd. six src Hs. six dst Hd.
  unfold be16_at, byte_at. cbn. split; by apply be16_digits.
Qed.

Lemma make_ofp_flow_add_spec fl out_port buffer_id idle :
  flow_ok fl → make_ofp_flow_add fl out_port buffer_id idle =
    Ok (cells (flow_mod_msg 80 fl OFPFC_ADD idle 1000 0 OFPFF_SEND_FLOW_REM (output_action out_port)), 80).
Proof. unfold make_ofp_flow_add, make_flow_mod, put_output. built fl. Qed.

Lemma make_ofp_flow_modify_output_port_spec fl out_port buffer_id idle :
  flow_ok fl → make_ofp_flow_modify_output_port fl out_port buffer_id idle =
    Ok (cells (flow_mod_msg 80 fl OFPFC_ADD idle 0 0 OFPFF_SEND_FLOW_REM (output_action out_port)), 80).
Proof. unfold make_ofp_flow_modify_output_port, make_flow_mod, put_output. built fl. Qed.

(** C23. Installing a flow: make_ofp_flow_add returns a complete 80-byte
    message whose length field is right and whose match, read back, is the
    flow it was given; its command is an addition, its only action sends to
    the requested port, and its idle timeout is the one given. *)
Theorem make_ofp_flow_add_roundtrip fl out_port buffer_id idle :
  flow_ok fl → is_u16 out_port → is_u16 idle → is_u16 OFPFC_ADD →
  ∃ bs, make_ofp_flow_add fl out_port buffer_id idle = Ok (cells bs, 80) ∧ flow_mod_for bs 80 fl ∧
    be16_at bs 56 = OFPFC_ADD ∧ be16_at bs 58 = idle ∧ be16_at bs 76 = out_port.
Proof.
  intros Hok Hport Hidle Hadd. rewrite make_ofp_flow_add_spec by done.
  eexists. split; [reflexivity|]. split; [by apply flow_mod_msg_for|].
  destruct (flow_mod_msg_command 80 fl OFPFC_ADD idle 1000 0 OFPFF_SEND_FLOW_REM
              (output_action out_port) Hok Hadd Hidle) as [-> ->]. split_and!; try done.
  pose proof (fo_src _ Hok) as Hs. pose proof (fo_dst _ Hok) as Hd.
  destruct fl as [mask port src dst vlan ty nsrc ndst pr ts td]. cbn in Hs, Hd. six src Hs. six dst Hd.
  unfold be16_at, byte_at. cbn. by apply be16_digits.
Qed.

Lemma make_flow_mod_spec fl command n :
  flow_ok fl → 0 ≤ n → make_flow_mod (mem_new (72 + n)) command (72 + n) fl =
  Ok (cells ([u8 OFP_VERSION; u8 OFPT_FLOW_MOD] ++ be16 (72 + n) ++ [0; 0; 0; 0] ++
    be32 (f_mask fl) ++ le16 (f_in_port fl) ++ f_dl_src fl ++ f_dl_dst fl ++
    le16 (f_dl_vlan fl) ++ [0; 0] ++ le16 (f_dl_type fl) ++ [0; u8 (f_nw_proto fl); 0; 0] ++
    le32 (f_nw_src fl) ++ le32 (f_nw_dst fl) ++ le16 (f_tp_src fl) ++ le16 (f_tp_dst fl) ++
    [0; 0; 0; 0; 0; 0; 0; 0] ++ be16 command ++ replicate 14 0) ++ mem_zero n).
Proof.
  intros Hok Hn. pose proof (fo_src _ Hok) as Hs. pose proof (fo_dst _ Hok) as Hd.
  destruct fl as [mask port src dst vlan ty nsrc ndst pr ts td]; cbn in Hs, Hd; six src Hs; six dst Hd.
  unfold make_flow_mod. rewrite wr_cells_ok; [|unfold in_bounds; rewrite zlen_mem_new, zlen_mem_zero by lia; lia].
  cbn [mbind res_bind].
  assert (splice (mem_new (72 + n)) 0 (mem_zero (72 + n)) = mem_zero 72 ++ mem_zero n) as ->.
  { unfold splice. cbn [Z.to_nat take app Nat.add]. rewrite drop_ge, app_nil_r, mem_zero_app by
      (try lia; unfold mem_new, mem_zero; rewrite !length_replicate; lia). done. }
  of_layout. wr_prefix. reflexivity.
Qed.

(** The actions are copied as they are, bytes that were never set included. *)
Lemma make_ofp_flow_modify_cells fl acts buffer_id idle :
  flow_ok fl → make_ofp_flow_modify fl acts (zlen acts) buffer_id idle =
    Ok (cells (flow_mod_msg (72 + zlen acts) fl OFPFC_ADD idle 0 0 0 []) ++ acts, 72 + zlen acts).
Proof.
  intros Hok. pose proof (zlen_nonneg acts). unfold make_ofp_flow_modify. of_layout.
  rewrite make_flow_mod_spec by done. cbn [mbind res_bind].
  rewrite rd_cells_ok by (unfold in_bounds; lia). cbn [mbind res_bind].
  assert (slice acts 0 (zlen acts) = acts) as ->.
  { unfold slice. cbn [Z.to_nat drop]. apply take_ge. unfold zlen. lia. }
  pose proof (fo_src _ Hok) as Hs; pose proof (fo_dst _ Hok) as Hd.
  destruct fl as [mask port src dst vlan ty nsrc ndst pr ts td]; cbn in Hs, Hd; six src Hs; six dst Hd.
  set (hd := cells (_ ++ _)). assert (zlen hd = 72) as Hh by done.
  rewrite wr_cells_ok by (unfold in_bounds; rewrite zlen_app, zlen_mem_zero by done; lia).
  assert (splice (hd ++ mem_zero (zlen acts)) 72 acts = hd ++ acts) as ->.
  { unfold splice. rewrite take_app_length' by (unfold zlen in Hh; lia). f_equal.
    rewrite drop_ge; [by rewrite app_nil_r|]. rewrite length_app. unfold mem_zero.
    rewrite length_replicate. unfold zlen in *. lia. }
  cbn [mbind res_bind]. subst hd. wr_prefix. reflexivity.
Qed.

Lemma flow_mod_msg_tail len fl command idle prio op flags tail :
  flow_mod_msg len fl command idle prio op flags tail = flow_mod_msg len fl command idle prio op flags [] ++ tail.
Proof. unfold flow_mod_msg. by rewrite <-!app_assoc. Qed.

Lemma make_ofp_flow_modify_spec fl acts buffer_id idle :
  flow_ok fl → make_ofp_flow_modify fl (cells acts) (zlen acts) buffer_id idle =
    Ok (cells (flow_mod_msg (72 + zlen acts) fl OFPFC_ADD idle 0 0 0 acts), 72 + zlen acts).
Proof.
  intros Hok. rewrite <-(zlen_cells acts), make_ofp_flow_modify_cells by done.
  rewrite (flow_mod_msg_tail _ _ _ _ _ _ _ acts). unfold cells. by rewrite fmap_app.
Qed.

(** The functions meant to modify a flow send an addition:
    make_ofp_flow_modify and make_ofp_flow_modify_output_port build complete
    messages for the flow they are given, but both overwrite the command
    OFPFC_MODIFY with OFPFC_ADD before they return. *)
Theorem flow_modify_is_add fl acts out_port buffer_id idle :
  flow_ok fl → 72 + zlen acts < 65536 → is_u16 idle → is_u16 OFPFC_ADD →
  (∃ bs, make_ofp_flow_modify fl (cells acts) (zlen acts) buffer_id idle = Ok (cells bs, 72 + zlen acts) ∧
     flow_mod_for bs (72 + zlen acts) fl ∧ be16_at bs 56 = OFPFC_ADD) ∧
  (∃ bs, make_ofp_flow_modify_output_port fl out_port buffer_id idle = Ok (cells bs, 80) ∧
     flow_mod_for bs 80 fl ∧ be16_at bs 56 = OFPFC_ADD).
Proof.
  intros Hok Hl Hi Ha. rewrite make_ofp_flow_modify_spec, make_ofp_flow_modify_output_port_spec by done.
  pose proof (flow_mod_msg_command (72 + zlen acts) fl OFPFC_ADD idle 0 0 0 acts Hok Ha Hi) as [H1 _].
  pose proof (flow_mod_msg_command 80 fl OFPFC_ADD idle 0 0 OFPFF_SEND_FLOW_REM
                (output_action out_port) Hok Ha Hi) as [H2 _].
  split; (eexists; split; [done|]; split; [by apply flow_mod_msg_for|done]).
Qed.

(** The deletion of all flows and the two statistics requests are complete
    messages: every byte is determined, the length field is the length that is
    returned, and the transaction id is the one given. *)
Theorem requests_complete trans_id :
  is_u32 trans_id →
  (∃ bs, make_ofp_flow_del = Ok (cells bs, 72) ∧ zlen bs = 72 ∧ of_message bs) ∧
  (∃ bs, make_ofp_flow_get_stat trans_id = Ok (cells bs, 56) ∧ zlen bs = 56 ∧ of_message bs ∧
     be32_at bs 4 = trans_id) ∧
  (∃ bs, make_ofp_aggr_flow_stats trans_id = Ok (cells bs, 56) ∧ zlen bs = 56 ∧ of_message bs ∧
     be32_at bs 4 = trans_id).
Proof.
  intros Ht. assert (u32 trans_id = trans_id) as Hu by (by apply u32_id).
  unfold make_ofp_flow_del, make_ofp_flow_get_stat, make_ofp_aggr_flow_stats. rewrite Hu. of_layout.
  split; [|split].
  - exists ([u8 OFP_VERSION; u8 OFPT_FLOW_MOD; 0; 72; 0; 0; 0; 0] ++ be32 OFPFW_ALL ++ replicate 44 0 ++
      be16 OFPFC_DELETE ++ [0; 0] ++ be16 OFP_FLOW_PERMANENT ++ [128; 0; 255; 255; 255; 255] ++
      be16 OFPP_NONE ++ [0; 0]).
    split_and!; [reflexivity|done|split; [by vm_compute|done]].
  - exists ([u8 OFP_VERSION; u8 OFPT_STATS_REQUEST; 0; 56] ++ be32 trans_id ++ be16 OFPST_FLOW ++ [0; 0] ++
      be32 OFPFW_ALL ++ replicate 36 0 ++ [255; 0] ++ le16 OFPP_NONE).
    split_and!; [reflexivity|done|split; [by vm_compute|done]|].
    unfold be32_at, be16_at, byte_at. cbn. by apply be32_digits'.
  - exists ([u8 OFP_VERSION; u8 OFPT_STATS_REQUEST; 0; 56] ++ be32 trans_id ++ be16 OFPST_AGGREGATE ++ [0; 0] ++
      be32 OFPFW_ALL ++ replicate 36 0 ++ [255; 0] ++ le16 OFPP_NONE).
    split_and!; [reflexivity|done|split; [by vm_compute|done]|].
    unfold be32_at, be16_at, byte_at. cbn. by apply be32_digits'.
Qed.

(** The request for port statistics is sent with indeterminate bytes:
    neither its transaction id nor its flags nor the padding is ever written,
    so that reading the message back (or writing it to a socket) uses memory
    that was not initialised. *)
Theorem port_get_stat_uninitialised :
  ∃ b n, make_ofp_port_get_stat = Ok (b, n) ∧ zlen b = n ∧ bytes_of b = Fault FUninit ∧
    rd_bytes b ofp_header_xid 4 = Fault FUninit.
Proof.
  unfold make_ofp_port_get_stat. of_layout. destruct (OFP_VERSION =? 0x97).
  - do 2 eexists. split; [reflexivity|]. done.
  - do 2 eexists. split; [reflexivity|]. done.
Qed.
End openflow.

(** ** Measurement packets *)

Definition MEASUREMENT_PACKET_HEADER : Z := 46.

(** The two bytes that hold the priority bits and the VLAN id. *)
Definition tci (vlan : Z) : Z := Z.shiftl (Z.land (Z.shiftr vlan 4) 0xfff) 4.

Definition packet_head (fl : flow) (len : Z) : list Z :=
  f_dl_dst fl ++ f_dl_src fl ++ [0x81; 0] ++ le16 (tci (f_dl_vlan fl)) ++ le16 (f_dl_type fl) ++
  [0x45; 0] ++ be16 (len - 18) ++ [0; 0; 0; 0; 10; u8 (f_nw_proto fl); 0x9a; 0x97] ++
  le32 (f_nw_src fl) ++ le32 (f_nw_dst fl) ++
  le16 (f_tp_src fl) ++ le16 (f_tp_dst fl) ++ be16 (len - 18 - 20) ++ [0; 0].

Lemma generate_packet_spec fl len :
  flow_ok fl → f_nw_proto fl = IPPROTO_UDP → 58 ≤ len →
  generate_packet fl len = Ok (Some (cells (packet_head fl len) ++ mem_zero (len - 46))).
Proof.
  intros Hok Hp Hl. pose proof (fo_src _ Hok) as Hs. pose proof (fo_dst _ Hok) as Hd.
  destruct fl as [mask port src dst vlan ty nsrc ndst pr ts td]; cbn in Hs, Hd, Hp; six src Hs; six dst Hd.
  subst pr. unfold generate_packet, sizeof_ether_vlan_header, sizeof_iphdr, sizeof_tcphdr.
  replace (len <? 18 + 20 + 20) with false by lia.
  replace len with (46 + (len - 46)) at 1 by lia. rewrite mem_zero_app by lia.
  cbn [f_dl_dst f_dl_src f_dl_vlan f_dl_type f_nw_proto f_nw_src f_nw_dst f_tp_src f_tp_dst].
  unfold wr_vid. wr_prefix. erewrite rd_bytes_app by reflexivity. cbn [mbind res_bind].
  wr_prefix. change (IPPROTO_UDP =? IPPROTO_UDP) with true. cbn iota. wr_prefix.
  unfold packet_head. cbn [f_dl_dst f_dl_src f_dl_vlan f_dl_type f_nw_proto f_nw_src f_nw_dst f_tp_src f_tp_dst].
  reflexivity.
Qed.

Lemma length_packet_head fl len : flow_ok fl → length (packet_head fl len) = 46%nat.
Proof.
  intros Hok. unfold packet_head. rewrite !length_app, (fo_src _ Hok), (fo_dst _ Hok). done.
Qed.

(** The measurement packet is found again: a UDP/IP packet built by
    generate_packet has the length asked for, and an identifier stored in the
    host's byte order behind its 46 bytes of headers is what extract_pkt_id
    returns from it. *)
Theorem packet_id_roundtrip fl len id :
  flow_ok fl → f_nw_proto fl = IPPROTO_UDP → f_dl_type fl = 8 (* htons(ETHERTYPE_IP) *) →
  58 ≤ len → is_u32 id →
  ∃ p p', generate_packet fl len = Ok (Some p) ∧ zlen p = len ∧
    wr32le p MEASUREMENT_PACKET_HEADER id = Ok p' ∧ extract_pkt_id p' len = Ok id.
Proof.
  intros Hok Hp Ht Hl Hid. rewrite generate_packet_spec by done.
  pose proof (length_packet_head fl len Hok) as Hlen.
  exists (cells (packet_head fl len) ++ mem_zero (len - 46)),
    (cells (packet_head fl len ++ le32 id) ++ mem_zero (len - 50)).
  split; [done|]. split; [|split].
  - rewrite zlen_app, zlen_cells, zlen_mem_zero by lia. unfold zlen. rewrite Hlen. lia.
  - unfold wr32le, wr_bytes, MEASUREMENT_PACKET_HEADER. replace (len - 46) with (4 + (len - 50)) by lia.
    rewrite mem_zero_app, app_assoc by lia. apply wr_cells_app.
    rewrite wr_cells_ok; [|unfold in_bounds; rewrite zlen_app, !zlen_cells, zlen_mem_zero by lia;
        change (zlen (le32 id)) with 4; unfold zlen; rewrite Hlen; lia].
    f_equal. unfold splice. rewrite take_app_length' by (unfold cells; rewrite length_fmap, Hlen; done).
    rewrite drop_ge; [|unfold cells, mem_zero; rewrite length_app, !length_fmap, Hlen, length_replicate;
      change (length (le32 id)) with 4%nat; lia].
    rewrite app_nil_r. unfold cells. by rewrite fmap_app.
  - set (p' := cells _ ++ _).
    assert (rd16be p' 12 = Ok 0x8100 ∧ rd16be p' 16 = Ok 0x0800 ∧ rd8 p' 18 = Ok 0x45 ∧
            rd_bytes p' 46 4 = Ok (le32 id)) as (H12 & H16 & H18 & H46).
    { destruct fl as [mask port src dst vlan ty nsrc ndst pr ts td]. cbn in Hp, Ht. subst pr ty p'.
      pose proof (fo_src _ Hok) as Hs; pose proof (fo_dst _ Hok) as Hd; cbn in Hs, Hd; six src Hs; six dst Hd.
      unfold rd16be. split_and!; try (erewrite rd_bytes_app by reflexivity); reflexivity. }
    unfold extract_pkt_id. rewrite H12. cbn [mbind res_bind].
    change (33024 =? 33024) with true. cbn iota. rewrite H16. cbn [mbind res_bind].
    change (2048 =? 2048) with true. cbn [andb]. unfold sizeof_ether_vlan_header, sizeof_udphdr.
    rewrite H18. cbn [mbind res_bind]. change (Z.land 69 15) with 5.
    replace (len - 18 <? 4 * 5) with false by lia. change (18 + 4 * 5 + 8) with 46. rewrite H46.
    cbn [mbind res_bind mret res_ret]. f_equal. unfold le32. rewrite reverse_involutive.
    by apply un_be32_be32.
Qed.

(** VLAN identifiers lose their upper bits: for an identifier [v] below
    4096, given in network order as everywhere in struct flow, the tag of the
    generated packet carries [v mod 256] (the value is shifted before it is
    stored in the bit-field although it is in network order). *)
Theorem generate_packet_truncates_vlan fl len v :
  flow_ok fl → f_nw_proto fl = IPPROTO_UDP → 58 ≤ len → 0 ≤ v < 4096 →
  f_dl_vlan fl = v `mod` 256 * 256 + v `div` 256 (* htons(v) *) →
  ∃ p, generate_packet fl len = Ok (Some p) ∧ rd16be p 14 = Ok (v `mod` 256).
Proof.
  intros Hok Hp Hl Hv Hvl. rewrite generate_packet_spec by done.
  eexists; split; [done|].
  assert (tci (f_dl_vlan fl) = v `mod` 256 * 256) as Ht.
  { unfold tci. rewrite Hvl. rewrite Z.shiftr_div_pow2, Z.shiftl_mul_pow2 by lia.
    change 0xfff with (Z.ones 12). rewrite Z.land_ones by lia.
    assert (0 ≤ v `div` 256 < 16) by (Z.to_euclidean_division_equations; lia).
    Z.to_euclidean_division_equations; lia. }
  unfold rd16be. destruct fl as [mask port src dst vlan ty nsrc ndst pr ts td].
  pose proof (fo_src _ Hok) as Hs; pose proof (fo_dst _ Hok) as Hd; cbn in Hs, Hd, Ht; six src Hs; six dst Hd.
  unfold packet_head. cbn [f_dl_dst f_dl_src f_dl_vlan f_dl_type f_nw_proto f_nw_src f_nw_dst f_tp_src f_tp_dst].
  rewrite Ht. erewrite rd_bytes_app by reflexivity. cbn [mbind res_bind mret res_ret un_be16].
  f_equal. unfold u8. Z.to_euclidean_division_equations; lia.
Qed.

(** ** The Internet checksum *)

(** The 16-bit words of a buffer of even length. *)
Fixpoint words (bs : list Z) : list Z :=
  match bs with a :: b :: bs => (a * 256 + b) :: words bs | _ => [] end.
Definition word_sum (bs : list Z) : Z := foldr Z.add 0 (words bs).

(** One's complement reduction: 0 for 0, otherwise the representative in
    1..65535 modulo 65535. *)
Definition oc (s : Z) : Z := if s =? 0 then 0 else (s - 1) `mod` 65535 + 1.

Definition is_word_fold (s f : Z) : Prop :=
  f `mod` 65535 = s `mod` 65535 ∧ (s = 0 ↔ f = 0) ∧ 0 ≤ f ∧ 0 ≤ s.

Lemma fold_step s : 0 ≤ s →
  let f := Z.land s 0xFFFF + Z.shiftr s 16 in is_word_fold s f ∧ (2^16 ≤ s → f < s).
Proof.
  intros Hs f. subst f. change 0xFFFF with (Z.ones 16).
  rewrite Z.land_ones, Z.shiftr_div_pow2 by lia. unfold is_word_fold.
  Z.to_euclidean_division_equations; lia.
Qed.

Lemma is_word_fold_trans a b c : is_word_fold a b → is_word_fold b c → is_word_fold a c.
Proof. unfold is_word_fold. lia. Qed.

Lemma is_word_fold_oc s f : is_word_fold s f → f < 2^16 → f = oc s.
Proof.
  unfold is_word_fold, oc. intros (Hm & Hz & H0 & H1) Hf. destruct (s =? 0) eqn:E; [lia|].
  assert (f ≠ 0) by lia. clear Hz. Z.to_euclidean_division_equations; lia.
Qed.

Lemma high_bit s : 0 ≤ s < 2^32 → (Z.land s 0x80000000 =? 0) = (s <? 2^31).
Proof.
  intros Hs. change 0x80000000 with (2^31).
  assert (Z.land s (2^31) = s `div` 2^31 * 2^31) as ->.
  { apply Z.bits_inj'. intros n Hn. rewrite Z.land_spec, Z.pow2_bits_eqb by lia.
    rewrite <-Z.shiftl_mul_pow2, Z.shiftl_spec, <-Z.shiftr_div_pow2 by lia.
    destruct (decide (n < 31)).
    - rewrite (Z.testbit_neg_r _ (n - 31)) by lia. replace (31 =? n) with false by lia. apply andb_false_r.
    - rewrite Z.shiftr_spec by lia. replace (n - 31 + 31) with n by lia.
      destruct (decide (n = 31)) as [->|]; [by rewrite Z.eqb_refl, andb_true_r|].
      replace (31 =? n) with false by lia. rewrite andb_false_r. symmetry.
      rewrite <-(Z.mod_small s (2^32)) by done. apply Z.mod_pow2_bits_high. lia. }
  Z.to_euclidean_division_equations; lia.
Qed.

Lemma fold_sum_spec s : 0 ≤ s < 2^32 → fold_sum 4 s = Ok (oc s).
Proof.
  intros Hs.
  assert (∀ k a, is_word_fold s a → a < 2^16 → fold_sum (S k) a = Ok (oc s)) as Hdone.
  { intros k a Ha Hb. cbn. assert (Z.shiftr a 16 = 0) as ->.
    { rewrite Z.shiftr_div_pow2 by lia. apply Z.div_small. unfold is_word_fold in Ha. lia. }
    cbn. f_equal. by apply is_word_fold_oc. }
  assert (∀ k a, is_word_fold s a → 2^16 ≤ a < 2^32 →
    ∃ b, is_word_fold s b ∧ b ≤ 65535 + a `div` 65536 ∧ (a ≤ 131070 → b < 2^16) ∧
      fold_sum (S k) a = fold_sum k b) as Hstep.
  { intros k a Ha Hb. destruct (fold_step a ltac:(lia)) as [Hf _].
    change 0xFFFF with (Z.ones 16) in Hf. rewrite Z.land_ones, Z.shiftr_div_pow2 in Hf by lia.
    eexists. split; [by eapply is_word_fold_trans|]. split; [|split].
    - Z.to_euclidean_division_equations; lia.
    - Z.to_euclidean_division_equations; lia.
    - cbn. change 65535 with (Z.ones 16). rewrite Z.land_ones, Z.shiftr_div_pow2 by lia.
      replace (_ =? 0) with false by (Z.to_euclidean_division_equations; lia). cbn [negb].
      rewrite u32_id by (Z.to_euclidean_division_equations; lia). done. }
  assert (is_word_fold s s) as H0 by (unfold is_word_fold; lia).
  destruct (decide (s < 2^16)); [by apply Hdone|].
  destruct (Hstep 3%nat s H0) as (b & Hb & Hle & _ & ->); [lia|].
  assert (s `div` 65536 ≤ 65535) by (Z.to_euclidean_division_equations; lia).
  destruct (decide (b < 2^16)); [by apply Hdone|].
  destruct (Hstep 2%nat b Hb) as (c & Hc & _ & Hlt & ->); [lia|].
  apply Hdone; [done|]. apply Hlt. lia.
Qed.

(** The loop over the words: the running 32-bit sum stays congruent to the
    sum of the words and never wraps; a last byte is left over. *)
Lemma sum_words_spec fuel pre bs tl sum S0 :
  Forall is_byte bs → Nat.Even (length bs) → zlen tl ≤ 1 → zlen bs + zlen tl < 2^16 →
  (length bs < 2 * fuel)%nat → is_word_fold S0 sum → sum < 2^31 →
  ∃ sum', sum_words fuel (cells (pre ++ bs ++ tl)) (zlen pre) (zlen bs + zlen tl) sum =
      Ok (zlen (pre ++ bs), zlen tl, sum') ∧ is_word_fold (S0 + word_sum bs) sum' ∧ sum' < 2^31.
Proof.
  revert pre bs sum S0. induction fuel as [|fuel IH]; intros pre bs sum S0 Hby Hev Htl Hlen Hf Hs Hsb; [lia|].
  destruct bs as [|a [|b bs]].
  - exists sum. rewrite app_nil_r. unfold word_sum. change (zlen (@nil Z)) with 0. cbn [app sum_words].
    rewrite Z.add_0_l. replace (zlen tl >? 1) with false by lia. cbn. by rewrite Z.add_0_r.
  - by apply Nat.even_spec in Hev.
  - apply Forall_cons in Hby as [Ha Hby]. apply Forall_cons in Hby as [Hb Hby].
    assert (zlen (a :: b :: bs) = zlen bs + 2) as Hz by (unfold zlen; cbn; lia).
    cbn [sum_words]. rewrite Hz in *. pose proof (zlen_nonneg bs). pose proof (zlen_nonneg tl).
    replace (zlen bs + 2 + zlen tl >? 1) with true by lia.
    unfold rd16be. change ((a :: b :: bs) ++ tl) with ([a; b] ++ bs ++ tl).
    rewrite (rd_bytes_at pre [a; b] (bs ++ tl)) by done. cbn [mbind res_bind mret res_ret].
    unfold is_byte, is_word_fold in *. change (un_be16 [a; b]) with (a * 256 + b).
    rewrite (u32_id (sum + _)) by lia. rewrite high_bit by lia.
    set (s1 := if negb _ then _ else _).
    assert (is_word_fold (S0 + (a * 256 + b)) s1 ∧ s1 < 2^31) as [Hs1 Hs1b].
    { assert (is_word_fold (S0 + (a * 256 + b)) (sum + (a * 256 + b))) as Hadd.
      { unfold is_word_fold. split; [|lia]. rewrite (Z.add_mod sum), (Z.add_mod S0) by lia.
        by destruct Hs as [-> _]. }
      subst s1. destruct (sum + (a * 256 + b) <? 2^31) eqn:E; cbn [negb]; [split; [done|lia]|].
      destruct (fold_step (sum + (a * 256 + b)) ltac:(lia)) as [Hf1 _].
      pose proof Hf1 as Hf2. change 65535 with (Z.ones 16) in Hf2 at 1 |- *.
      rewrite Z.land_ones, Z.shiftr_div_pow2 in Hf2 |- * by lia.
      rewrite u32_id by (Z.to_euclidean_division_equations; lia).
      split; [by eapply is_word_fold_trans|]. Z.to_euclidean_division_equations; lia. }
    replace (u16 (zlen bs + 2 + zlen tl - 2)) with (zlen bs + zlen tl) by (rewrite u16_id by lia; lia).
    destruct (IH (pre ++ [a; b]) bs s1 (S0 + (a * 256 + b))) as (s2 & He & Hs2 & Hb2); try done.
    { destruct Hev as [k Hk]. exists (pred k). cbn in Hk. lia. } { lia. } { cbn in Hf. lia. }
    exists s2. rewrite <-!app_assoc in He. change ([a; b] ++ bs) with (a :: b :: bs) in He.
    rewrite (zlen_app pre [a; b]) in He. change (zlen [a; b]) with 2 in He. rewrite He.
    split; [done|]. split; [|done]. unfold word_sum in *. cbn [words foldr]. by rewrite Z.add_assoc.
Qed.

(** The end of the function: folding, and the complement. *)
Lemma fold_sum_lnot S0 s : is_word_fold S0 s → s < 2^32 →
  (sum ← fold_sum 4 s; mret (u16 (Z.lnot sum))) = Ok (65535 - oc S0).
Proof.
  intros Hf Hs. unfold is_word_fold in Hf.
  rewrite fold_sum_spec by lia. cbn [mbind res_bind mret res_ret]. f_equal.
  assert (oc s = oc S0) as ->.
  { unfold oc. destruct (s =? 0) eqn:E1, (S0 =? 0) eqn:E2; try lia.
    destruct Hf as (Hm & _). Z.to_euclidean_division_equations; lia. }
  assert (0 ≤ oc S0 ≤ 65535).
  { unfold oc. destruct (_ =? 0); Z.to_euclidean_division_equations; lia. }
  unfold u16. rewrite Z.lnot_eq_pred_opp. Z.to_euclidean_division_equations; lia.
Qed.

(** Over an even number of bytes. *)
Lemma ip_sum_calc_spec bs :
  Forall is_byte bs → Nat.Even (length bs) → zlen bs < 2^16 →
  ip_sum_calc (zlen bs) (cells bs) = Ok (65535 - oc (word_sum bs)).
Proof.
  intros Hb He Hl. unfold ip_sum_calc.
  destruct (sum_words_spec (S (Z.to_nat (zlen bs `div` 2))) [] bs [] 0 0) as (s & Hs & Hf & Hsb); try done.
  { change (zlen (@nil Z)) with 0. lia. }
  { assert (zlen bs < 2 * (zlen bs `div` 2 + 1)) by (Z.to_euclidean_division_equations; lia).
    assert (0 ≤ zlen bs `div` 2) by (apply Z.div_pos; [apply zlen_nonneg|lia]). unfold zlen in *. lia. }
  change (zlen (@nil Z)) with 0 in Hs. rewrite Z.add_0_r, app_nil_r in Hs. cbn [app] in Hs. rewrite Hs.
  cbn [mbind res_bind mret res_ret Z.eqb negb]. apply (fold_sum_lnot _ s); [exact Hf|lia].
Qed.

(** Over an odd number: the last byte is the low half of its word. *)
Lemma ip_sum_calc_odd bs c :
  Forall is_byte bs → Nat.Even (length bs) → zlen bs < 2^16 → is_byte c →
  ip_sum_calc (zlen bs + 1) (cells (bs ++ [c])) = Ok (65535 - oc (word_sum bs + c)).
Proof.
  intros Hb He Hl Hc. pose proof (zlen_nonneg bs). unfold ip_sum_calc.
  destruct (sum_words_spec (S (Z.to_nat ((zlen bs + 1) `div` 2))) [] bs [c] 0 0) as (s & Hs & Hf & Hsb); try done.
  { change (zlen [c]) with 1. destruct He as [k Hk]. unfold zlen in *. lia. }
  { assert (zlen bs + 1 < 2 * ((zlen bs + 1) `div` 2 + 1)) by (Z.to_euclidean_division_equations; lia).
    assert (0 ≤ (zlen bs + 1) `div` 2) by (apply Z.div_pos; lia). unfold zlen in *. lia. }
  change (zlen (@nil Z)) with 0 in Hs. change (zlen [c]) with 1 in Hs. cbn [app] in Hs. rewrite Hs.
  cbn [mbind res_bind mret res_ret Z.eqb negb].
  assert (rd8 (cells (bs ++ [c])) (zlen bs) = Ok c) as ->.
  { unfold rd8, cells. rewrite fmap_app, zget_nonneg by done. unfold zlen. rewrite Nat2Z.id.
    rewrite lookup_app_r by (by rewrite length_fmap). by rewrite length_fmap, Nat.sub_diag. }
  unfold is_byte in Hc. cbn [mbind res_bind]. rewrite u32_id by (unfold is_word_fold in Hf; lia).
  apply (fold_sum_lnot _ (s + c)); [|lia]. rewrite Z.add_0_l in Hf. unfold is_word_fold in *.
  split; [|lia]. rewrite (Z.add_mod s), (Z.add_mod (word_sum bs)) by lia. by destruct Hf as [-> _].
Qed.

Lemma words_app a b : Nat.Even (length a) → words (a ++ b) = words a ++ words b.
Proof.
  intros [k Hk]. revert a Hk. induction k as [|k IH]; intros a Hk.
  - by destruct a.
  - destruct a as [|x [|y a]]; cbn in Hk; try lia. cbn. f_equal. apply IH. lia.
Qed.

Lemma sum_app a b : foldr Z.add 0 (a ++ b) = foldr Z.add 0 a + foldr Z.add 0 b.
Proof. induction a as [|x a IH]; cbn; [done|]. lia. Qed.

Lemma word_sum_app a b : Nat.Even (length a) → word_sum (a ++ b) = word_sum a + word_sum b.
Proof. intros. unfold word_sum. by rewrite words_app, sum_app. Qed.

Lemma word_sum_nonneg bs : Forall is_byte bs → 0 ≤ word_sum bs.
Proof.
  unfold word_sum. intros Hb. remember (length bs) as n eqn:Hn.
  revert bs Hb Hn. induction (lt_wf n) as [n _ IH]. intros bs Hb ->.
  destruct bs as [|x [|y bs]]; cbn; try lia. apply Forall_cons in Hb as [Hx Hb].
  apply Forall_cons in Hb as [Hy Hb]. pose proof (IH (length bs) ltac:(cbn; lia) bs Hb eq_refl).
  unfold is_byte in *. lia.
Qed.

(** A checksum stored in its field verifies. *)
Lemma checksum_verifies pre post n :
  Forall is_byte pre → Forall is_byte post → Nat.Even (length pre) → Nat.Even (length post) →
  n = zlen pre + 2 + zlen post → n < 2^16 →
  ∃ c, ip_sum_calc n (cells (pre ++ [0; 0] ++ post)) = Ok c ∧ 0 ≤ c < 2^16 ∧
    ip_sum_calc n (cells (pre ++ be16 c ++ post)) = Ok 0.
Proof.
  intros Hpre Hpost He1 He2 Hn Hl.
  assert (∀ w, length w = 2%nat → Forall is_byte w →
    ip_sum_calc n (cells (pre ++ w ++ post)) = Ok (65535 - oc (word_sum pre + word_sum w + word_sum post))) as Hs.
  { intros w Hw Hwb. assert (n = zlen (pre ++ w ++ post)) as ->.
    { rewrite !zlen_app. unfold zlen in *. lia. }
    rewrite ip_sum_calc_spec; [|by rewrite !Forall_app| |lia].
    - rewrite (word_sum_app pre), (word_sum_app w) by (done || (rewrite Hw; by exists 1%nat)). do 3 f_equal. lia.
    - rewrite !length_app, Hw. destruct He1 as [a ->], He2 as [b ->]. exists (a + 1 + b)%nat. lia. }
  rewrite (Hs [0; 0]) by (done || (repeat constructor; done)).
  pose proof (word_sum_nonneg _ Hpre) as Hp1. pose proof (word_sum_nonneg _ Hpost) as Hp2.
  change (word_sum [0; 0]) with 0. set (S0 := word_sum pre + 0 + word_sum post).
  assert (0 ≤ oc S0 ≤ 65535) as Hoc.
  { unfold oc. destruct (_ =? 0); Z.to_euclidean_division_equations; lia. }
  eexists. split; [done|]. split; [lia|].
  rewrite Hs by (done || (repeat constructor; apply is_byte_u8)). f_equal.
  assert (word_sum (be16 (65535 - oc S0)) = 65535 - oc S0) as ->.
  { unfold word_sum. cbn [be16 words foldr]. unfold u8. Z.to_euclidean_division_equations; lia. }
  replace (word_sum pre + (65535 - oc S0) + word_sum post) with (S0 + (65535 - oc S0)) by lia.
  assert (0 ≤ S0) by lia. clearbody S0. unfold oc in *.
  destruct (S0 =? 0) eqn:E; [apply Z.eqb_eq in E as ->; reflexivity|].
  set (r := (S0 - 1) `mod` 65535) in *.
  assert (S0 - 1 = 65535 * ((S0 - 1) `div` 65535) + r) as Hr by (apply Z.div_mod; lia).
  set (q := (S0 - 1) `div` 65535) in *.
  assert (0 ≤ q) by (apply Z.div_pos; lia).
  replace (S0 + (65535 - (r + 1))) with (65535 * (q + 1)) by lia.
  replace (65535 * (q + 1) =? 0) with false by lia.
  replace (65535 * (q + 1) - 1) with (65534 + q * 65535) by lia. rewrite Z.mod_add by lia. done.
Qed.

(** The Internet checksum as RFC 1071 defines it: the one's complement sum, with
    end-around carry, of the 16-bit words in network order, complemented. *)
Definition oc_add (a b : Z) : Z := if a + b <? 2^16 then a + b else a + b - 2^16 + 1.
Definition internet_checksum (bs : list Z) : Z := 2^16 - 1 - foldl oc_add 0 (words bs).

Lemma oc_add_oc a w : 0 ≤ a → 0 ≤ w < 2^16 → oc_add (oc a) w = oc (a + w).
Proof.
  intros Ha Hw. unfold oc_add, oc. destruct (a =? 0) eqn:E1.
  - apply Z.eqb_eq in E1 as ->. rewrite !Z.add_0_l. replace (w <? 2^16) with true by lia.
    destruct (w =? 0) eqn:E2; [lia|]. rewrite Z.mod_small; lia.
  - replace (a + w =? 0) with false by lia. case_match; Z.to_euclidean_division_equations; lia.
Qed.

Lemma foldl_oc_add ws a : 0 ≤ a → Forall (λ w, 0 ≤ w < 2^16) ws →
  foldl oc_add (oc a) ws = oc (a + foldr Z.add 0 ws).
Proof.
  revert a. induction ws as [|w ws IH]; intros a Ha Hws; cbn; [by rewrite Z.add_0_r|].
  apply Forall_cons in Hws as [Hw Hws]. rewrite oc_add_oc, IH by (done || lia). f_equal. lia.
Qed.

Lemma words_range bs : Forall is_byte bs → Forall (λ w, 0 ≤ w < 2^16) (words bs).
Proof.
  remember (length bs) as n eqn:Hn. revert bs Hn.
  induction (lt_wf n) as [n _ IH]. intros bs -> Hb.
  destruct bs as [|x [|y bs]]; [constructor|constructor|]. cbn [words].
  apply Forall_cons in Hb as [Hx Hb]. apply Forall_cons in Hb as [Hy Hb]. constructor.
  - unfold is_byte in *. lia.
  - by apply (IH (length bs)); [cbn; lia| |].
Qed.

Lemma internet_checksum_oc bs : Forall is_byte bs → internet_checksum bs = 65535 - oc (word_sum bs).
Proof.
  intros Hb. unfold internet_checksum. change 0 with (oc 0) at 1.
  rewrite foldl_oc_add by (done || by apply words_range). by rewrite Z.add_0_l.
Qed.

(** What follows the summed bytes does not matter. *)
Lemma sum_words_app fuel m r off len sum x :
  sum_words fuel m off len sum = Ok x → sum_words fuel (m ++ r) off len sum = Ok x.
Proof.
  revert off len sum. induction fuel as [|fuel IH]; intros off len sum; [done|]. cbn [sum_words].
  destruct (len >? 1); [|done]. unfold rd16be. intros (w & (bs & Hbs & [= <-])%bind_Ok & H)%bind_Ok.
  rewrite (rd_bytes_app _ _ _ _ _ Hbs). cbn [mbind res_bind mret res_ret]. by apply IH.
Qed.

Lemma ip_sum_calc_app n m r x : ip_sum_calc n m = Ok x → ip_sum_calc n (m ++ r) = Ok x.
Proof.
  unfold ip_sum_calc. intros ([[off len] sum] & Hs & H)%bind_Ok.
  rewrite (sum_words_app _ _ r _ _ _ _ Hs). cbn [mbind res_bind].
  apply bind_Ok in H as (sum' & H1 & H). destruct (negb (len =? 0)).
  - apply bind_Ok in H1 as (c & Hc & H1). unfold rd8 in Hc |- *.
    destruct (zget m off) as [[b|]|] eqn:E; simplify_eq.
    pose proof (zget_Some_bounds _ _ _ E). rewrite zget_nonneg in E |- * by lia.
    rewrite lookup_app_l by (unfold zlen in *; lia). rewrite E. cbn. injection H1 as <-. exact H.
  - injection H1 as <-. exact H.
Qed.

(** C29. ip_sum_calc and the Internet checksum: over an even number of bytes,
    fewer than 2^16, whatever follows them in memory, it returns exactly the
    checksum of RFC 1071, the complement of the one's complement sum of the
    16-bit words in network order; the 32-bit accumulator never loses a carry.
    Stored in network order in a word of the header that was zero, at an even
    offset, it makes the checksum of the whole header zero.  Over an odd number
    of bytes, which no caller uses, the last byte is added as the low half of
    its word, so that the result is the checksum of the bytes with a zero before
    the last one and not, as RFC 1071 has it, after it. *)
Theorem ip_sum_calc_internet_checksum bs rest :
  Forall is_byte bs → Nat.Even (length bs) → zlen bs < 2^16 →
  ip_sum_calc (zlen bs) (cells bs ++ rest) = Ok (internet_checksum bs) ∧
  (∀ pre post, bs = pre ++ [0; 0] ++ post → Nat.Even (length pre) →
     ip_sum_calc (zlen bs) (cells (pre ++ be16 (internet_checksum bs) ++ post) ++ rest) = Ok 0) ∧
  (∀ c, is_byte c →
     ip_sum_calc (zlen bs + 1) (cells (bs ++ [c]) ++ rest) = Ok (internet_checksum (bs ++ [0; c]))).
Proof.
  intros Hb He Hl. assert (ip_sum_calc (zlen bs) (cells bs) = Ok (internet_checksum bs)) as Hs.
  { rewrite internet_checksum_oc by done. by apply ip_sum_calc_spec. }
  split; [by apply ip_sum_calc_app|]. split.
  - intros pre post -> Hpre. apply ip_sum_calc_app.
    rewrite !Forall_app in Hb. destruct Hb as (Hb1 & _ & Hb2).
    assert (Nat.Even (length post)) as Hpost.
    { rewrite !length_app in He. destruct He as [a Ha], Hpre as [b Hb]. exists (a - b - 1)%nat. cbn in Ha. lia. }
    destruct (checksum_verifies pre post (zlen (pre ++ [0; 0] ++ post))) as (c & Hc & _ & H0); try done.
    { rewrite !zlen_app. change (zlen [0; 0]) with 2. lia. }
    rewrite Hs in Hc. injection Hc as <-. exact H0.
  - intros c Hc. apply ip_sum_calc_app. rewrite ip_sum_calc_odd by done.
    rewrite internet_checksum_oc by (rewrite Forall_app; split; [done|by constructor; [|constructor]]).
    rewrite word_sum_app by done. do 3 f_equal. change (word_sum [0; c]) with (0 * 256 + c + 0). lia.
Qed.

(** ** Concrete messages *)

Definition demo_flow : flow := {|
  f_mask := 0x3820e0; f_in_port := 0x0100; f_dl_src := [0; 0; 0; 0; 0; 1]; f_dl_dst := [0; 0; 0; 0; 0; 2];
  f_dl_vlan := 0x0501 (* htons(0x105) *); f_dl_type := 8; f_nw_src := 0x0100000a; f_nw_dst := 0x0200000a;
  f_nw_proto := 17; f_tp_src := 0x1027; f_tp_dst := 0x1127 |}.

Lemma demo_flow_ok : flow_ok demo_flow.
Proof. split; vm_compute; repeat split; congruence. Qed.

Lemma make_ofp_flow_add_roundtrip_witness :
  ∃ bs, @make_ofp_flow_add of10 demo_flow 3 1 120 = Ok (cells bs, 80) ∧
    @flow_mod_for of10 bs 80 demo_flow ∧
    be16_at bs 56 = @OFPFC_ADD of10 ∧ be16_at bs 58 = 120 ∧ be16_at bs 76 = 3.
Proof.
  apply (@make_ofp_flow_add_roundtrip of10 _ demo_flow 3 1 120 demo_flow_ok);
    vm_compute; repeat split; congruence.
Defined.

Lemma flow_modify_is_add_witness :
  @OFPFC_ADD of10 ≠ @OFPFC_MODIFY of10 ∧
  (∃ bs, @make_ofp_flow_modify of10 demo_flow (cells [0; 0; 0; 8; 0; 2; 0; 0]) 8 1 0 = Ok (cells bs, 80) ∧
     @flow_mod_for of10 bs 80 demo_flow ∧ be16_at bs 56 = @OFPFC_ADD of10) ∧
  (∃ bs, @make_ofp_flow_modify_output_port of10 demo_flow 2 1 0 = Ok (cells bs, 80) ∧
     @flow_mod_for of10 bs 80 demo_flow ∧ be16_at bs 56 = @OFPFC_ADD of10).
Proof.
  split; [vm_compute; congruence|].
  apply (@flow_modify_is_add of10 _ demo_flow [0; 0; 0; 8; 0; 2; 0; 0] 2 1 0 demo_flow_ok);
    vm_compute; repeat split; congruence.
Defined.

Lemma requests_complete_witness :
  (∃ bs, @make_ofp_flow_del of10 = Ok (cells bs, 72) ∧ zlen bs = 72 ∧ of_message bs) ∧
  (∃ bs, @make_ofp_flow_get_stat of10 77 = Ok (cells bs, 56) ∧ zlen bs = 56 ∧ of_message bs ∧
     be32_at bs 4 = 77) ∧
  (∃ bs, @make_ofp_aggr_flow_stats of10 77 = Ok (cells bs, 56) ∧ zlen bs = 56 ∧ of_message bs ∧
     be32_at bs 4 = 77).
Proof. apply (@requests_complete of10 _ 77). vm_compute. split; congruence. Defined.

Lemma port_get_stat_uninitialised_witness :
  ∃ b n, @make_ofp_port_get_stat of10 = Ok (b, n) ∧ zlen b = n ∧ bytes_of b = Fault FUninit ∧
    rd_bytes b 4 4 = Fault FUninit.
Proof. exact (@port_get_stat_uninitialised of10 _). Defined.

Lemma packet_id_roundtrip_witness :
  ∃ p p', generate_packet demo_flow 100 = Ok (Some p) ∧ zlen p = 100 ∧
    wr32le p MEASUREMENT_PACKET_HEADER 0xdeadbeef = Ok p' ∧ extract_pkt_id p' 100 = Ok 0xdeadbeef.
Proof.
  apply (packet_id_roundtrip demo_flow 100 0xdeadbeef demo_flow_ok); vm_compute; repeat split; congruence.
Defined.

Lemma generate_packet_truncates_vlan_witness :
  ∃ p, generate_packet demo_flow 100 = Ok (Some p) ∧ rd16be p 14 = Ok (0x105 `mod` 256).
Proof.
  apply (generate_packet_truncates_vlan demo_flow 100 0x105 demo_flow_ok);
    vm_compute; repeat split; congruence.
Defined.

Definition demo_header : list Z :=
  [0x45; 0; 0; 82; 0; 0; 0; 0; 10; 17] ++ [0; 0] ++ [10; 0; 0; 1; 10; 0; 0; 2].

Lemma ip_sum_calc_internet_checksum_witness :
  internet_checksum demo_header = 0x9c99 ∧
  ip_sum_calc (zlen demo_header) (cells demo_header ++ [None]) = Ok (internet_checksum demo_header) ∧
  ip_sum_calc (zlen demo_header)
    (cells (take 10 demo_header ++ be16 (internet_checksum demo_header) ++ drop 12 demo_header) ++ [None]) = Ok 0 ∧
  ip_sum_calc (zlen demo_header + 1) (cells (demo_header ++ [7]) ++ [None]) =
    Ok (internet_checksum (demo_header ++ [0; 7])).
Proof.
  destruct (ip_sum_calc_internet_checksum demo_header [None]) as (H1 & H2 & H3).
  - repeat constructor; by vm_compute.
  - by exists 10%nat.
  - reflexivity.
  - split; [vm_compute; reflexivity|]. split; [exact H1|]. split.
    + apply H2; [reflexivity|exists 5%nat; reflexivity].
    + apply H3. unfold is_byte. lia.
Defined.
