(* ===== verification/CStr.v ===== *)
(** * C strings

    Strings as the list of their bytes before the terminator, with the library
    functions the program uses on them: strtol and atoi, index, strtok,
    strncasecmp, and the conversions of printf. *)

From Stdlib Require Import String Ascii.
From stdpp Require Export strings.
From S2P Require Import Prelude CBytes.
Open Scope Z_scope.

Definition cstring := list Z.

(** A literal of the source. *)
Definition str (s : string) : cstring := (λ a, Z.of_N (Ascii.N_of_ascii a)) <$> list_ascii_of_string s.
#[global] Arguments str _%_string_scope.

(** The text an object of [n] bytes holds after [snprintf]. *)
Definition snprintf (n : nat) (s : cstring) : cstring := take (pred n) s.

(** The text of a C string in memory. *)
Fixpoint c_text (m : mem) : res cstring :=
  match m with
  | [] => Fault FBounds
  | None :: _ => Fault FUninit
  | Some c :: m => if c =? 0 then mret [] else r ← c_text m; mret (c :: r)
  end.

(** The fields [%-ks] and [%ks] of printf. *)
Definition pad_right (k : nat) (s : cstring) : cstring := s ++ replicate (k - length s) 32.
Definition pad_left (k : nat) (s : cstring) : cstring := replicate (k - length s) 32 ++ s.

(** ** Numbers *)

Definition is_space (c : Z) : bool := (c =? 32) || ((9 <=? c) && (c <=? 13)).

Definition digit_val (c : Z) : option Z :=
  if (48 <=? c) && (c <=? 57) then Some (c - 48)
  else if (97 <=? c) && (c <=? 122) then Some (c - 87)
  else if (65 <=? c) && (c <=? 90) then Some (c - 55)
  else None.

(** The digits at the start of the string, in the given base. *)
Fixpoint digits (base acc : Z) (s : cstring) : Z :=
  match s with
  | [] => acc
  | c :: s =>
    match digit_val c with
    | Some d => if d <? base then digits base (acc * base + d) s else acc
    | None => acc
    end
  end.

Fixpoint skip_space (s : cstring) : cstring :=
  match s with c :: s' => if is_space c then skip_space s' else s | [] => [] end.

(** strtol: blanks, a sign, a 0x prefix in base 16, digits; the value is
    clamped to the range of a long. *)
Definition strtol (base : Z) (s : cstring) : Z :=
  let s := skip_space s in
  let c := default 0 (head s) in
  let neg := c =? 45 in
  let s := if neg || (c =? 43) then tail s else s in
  let s := match s with
           | z :: x :: s' =>
             if (base =? 16) && (z =? 48) && ((x =? 120) || (x =? 88)) then s' else s
           | _ => s
           end in
  let v := digits base 0 s in
  Z.max (-2^63) (Z.min (2^63 - 1) (if neg then - v else v)).

(** strtol with base 0: the prefix tells the base. *)
Definition strtol0 (s : cstring) : Z :=
  let t := skip_space s in
  let t := match t with c :: t' => if (c =? 45) || (c =? 43) then t' else t | [] => [] end in
  match t with
  | c :: t' =>
    if c =? 48 then
      match t' with x :: _ => if (x =? 120) || (x =? 88) then strtol 16 s else strtol 8 s | [] => 0 end
    else strtol 10 s
  | [] => 0
  end.

Definition atoi (s : cstring) : Z := i32 (strtol 10 s).

(** %d of a non-negative number, most significant digit first. *)
Fixpoint dec_digits (fuel : nat) (n : Z) (acc : cstring) : cstring :=
  match fuel with
  | O => acc
  | S fuel =>
    let acc := (48 + n `mod` 10) :: acc in
    if n <? 10 then acc else dec_digits fuel (n `div` 10) acc
  end.
Definition dec (n : Z) : cstring :=
  if n <? 0 then 45 :: dec_digits 20 (- n) [] else dec_digits 20 n [].

(** %0kd *)
Definition dec_pad (k : nat) (n : Z) : cstring := replicate (k - length (dec n)) 48 ++ dec n.

(** ** Searching *)

(** index(s, c): the text before and after the first occurrence. *)
Fixpoint split_at (c : Z) (s : cstring) : option (cstring * cstring) :=
  match s with
  | [] => None
  | x :: s =>
    if x =? c then Some ([], s)
    else match split_at c s with Some (a, b) => Some (x :: a, b) | None => None end
  end.

(** strtok with a single delimiter: the non-empty pieces. *)
Fixpoint pieces (c : Z) (cur : cstring) (s : cstring) : list cstring :=
  match s with
  | [] => match cur with [] => [] | _ => [reverse cur] end
  | x :: s =>
    if x =? c then match cur with [] => pieces c [] s | _ => reverse cur :: pieces c [] s end
    else pieces c (x :: cur) s
  end.
Definition strtok_all (c : Z) (s : cstring) : list cstring := pieces c [] s.

Definition lower (c : Z) : Z := if (65 <=? c) && (c <=? 90) then c + 32 else c.
(** strncasecmp(a, b, n) == 0 *)
Definition strncaseeq (a b : cstring) (n : nat) : bool :=
  bool_decide (take n (lower <$> (a ++ [0])) = take n (lower <$> (b ++ [0]))).

(** strstr *)
Fixpoint contains (s t : cstring) : bool :=
  bool_decide (take (length t) s = t) || match s with [] => false | _ :: s => contains s t end.

(** ** Printing and reading numbers *)

Lemma digits_app base acc a b :
  Forall (λ c, ∃ d, digit_val c = Some d ∧ d < base) a →
  digits base acc (a ++ b) = digits base (digits base acc a) b.
Proof.
  intros Ha. revert acc. induction Ha as [|c a (d & Hc & Hd) _ IH]; intros acc; [done|].
  cbn. rewrite Hc. replace (d <? base) with true by lia. apply IH.
Qed.

Lemma digit_val_dec d : 0 ≤ d < 10 → digit_val (48 + d) = Some d.
Proof.
  intros. unfold digit_val. replace ((48 <=? 48 + d) && (48 + d <=? 57)) with true by lia. f_equal. lia.
Qed.

(** The digits printed for [n] are digits, and their value is [n]. *)
Lemma dec_digits_spec fuel n acc :
  0 ≤ n < 10 ^ Z.of_nat fuel → (0 < fuel)%nat →
  ∃ l, dec_digits fuel n acc = l ++ acc ∧ Forall (λ c, 48 ≤ c ≤ 57) l ∧ l ≠ [] ∧ digits 10 0 l = n.
Proof.
  revert n acc. induction fuel as [|fuel IH]; intros n acc Hn Hf; [lia|]. cbn [dec_digits].
  assert (0 ≤ n `mod` 10 < 10) by (apply Z.mod_pos_bound; lia).
  destruct (n <? 10) eqn:E.
  - exists [48 + n `mod` 10]. split_and!; try done; [repeat constructor; lia|].
    cbn. rewrite digit_val_dec by done. replace (_ <? 10) with true by lia.
    rewrite Z.mod_small by lia. lia.
  - rewrite Nat2Z.inj_succ, Z.pow_succ_r in Hn by lia.
    destruct (IH (n `div` 10) ((48 + n `mod` 10) :: acc)) as (l & -> & Hl & Hne & Hv).
    { Z.to_euclidean_division_equations; lia. }
    { destruct fuel; [cbn in Hn; lia|lia]. }
    exists (l ++ [48 + n `mod` 10]). split_and!.
    + by rewrite <-app_assoc.
    + apply Forall_app. split; [done|]. repeat constructor; lia.
    + by destruct l.
    + rewrite digits_app, Hv.
      * cbn. rewrite digit_val_dec by done. replace (_ <? 10) with true by lia.
        Z.to_euclidean_division_equations; lia.
      * eapply Forall_impl; [exact Hl|]. intros c Hc. cbn in Hc. exists (c - 48).
        split; [|lia]. rewrite <-(digit_val_dec (c - 48)) by lia. f_equal. lia.
Qed.

(** A number is printed as digits. *)
Lemma dec_is_digits n : 0 ≤ n < 10 ^ 20 → Forall (λ c, 48 ≤ c ≤ 57) (dec n).
Proof.
  intros. unfold dec. replace (n <? 0) with false by lia.
  destruct (dec_digits_spec 20 n []) as (l & -> & Hl & _); [done|lia|]. by rewrite app_nil_r.
Qed.

(** strtol and atoi read what printf printed. *)
Lemma strtol_dec n : 0 ≤ n < 2 ^ 63 → strtol 10 (dec n) = n.
Proof.
  intros Hn. unfold dec. replace (n <? 0) with false by lia.
  destruct (dec_digits_spec 20 n []) as (l & -> & Hl & Hne & Hv); [lia|lia|].
  rewrite app_nil_r. destruct l as [|c l]; [done|]. unfold strtol.
  apply Forall_cons in Hl as [Hc Hl].
  assert (skip_space (c :: l) = c :: l) as ->.
  { cbn. unfold is_space. replace (_ || _) with false by lia. done. }
  cbn [head default from_option tail]. unfold id.
  replace (c =? 45) with false by lia. replace (c =? 43) with false by lia. cbn [orb].
  change (10 =? 16) with false. cbn [andb].
  replace (match l with [] => c :: l | _ :: _ => c :: l end) with (c :: l) by (by destruct l).
  rewrite Hv. lia.
Qed.

Lemma atoi_dec n : 0 ≤ n ≤ INT_MAX → atoi (dec n) = n.
Proof.
  unfold INT_MAX. intros. unfold atoi. rewrite strtol_dec by lia.
  apply i32_id. unfold is_int, INT_MIN, INT_MAX. lia.
Qed.

(** A terminated text reads back. *)
Lemma c_text_cells s m : Forall (λ c, c ≠ 0) s → c_text (cells s ++ Some 0 :: m) = Ok s.
Proof.
  induction s as [|c s IH]; cbn; intros Hs; [done|].
  apply Forall_cons in Hs as [Hc Hs]. apply Z.eqb_neq in Hc. rewrite Hc.
  unfold cells in IH. by rewrite (IH Hs).
Qed.
