(* ===== verification/MyArgs.v ===== *)
(** * Option tables of the controller benchmark (cbench/myargs.c)

    A table is an array of [struct myargs] closed by an entry without a name.
    From it are derived the usage text, the defaults, and the two descriptions
    of the options that getopt_long takes: a string and a list of structures.
    They are shown to describe the same options. *)

From S2P Require Import Prelude CBytes CStr.
Open Scope Z_scope.

Inductive myargs_type := MYARGS_NONE | MYARGS_INTEGER | MYARGS_FLAG | MYARGS_STRING | MYAGRS_DECIMAL.
#[export] Instance myargs_type_eq_dec : EqDecision myargs_type.
Proof. solve_decision. Defined.

(** [struct option] of getopt.h, as far as it is set. *)
Record long_opt := { lopt_name : option cstring; lopt_has_arg : Z; lopt_val : Z }.

Section tables.
(** The type double, and its %lf. *)
Context {double : Type} (fmt_lf : double → cstring).

(** The union of default values, with the member that was assigned. *)
Inductive myarg_value :=
| VNone (none : Z) | VInteger (integer : Z) | VFlag (flag : Z) | VString (string : cstring)
| VDecimal (decimal : double).

Record myargs := {
  ma_name : option cstring;
  ma_shortname : Z;
  ma_comment : cstring;
  ma_type : myargs_type;
  ma_default_val : myarg_value;
}.

(** Members of the union; reading a member that was not assigned has no
    defined value. *)
Definition integer_of (v : myarg_value) : res Z := match v with VInteger z => Ok z | _ => Fault FUninit end.
Definition flag_of (v : myarg_value) : res Z := match v with VFlag z => Ok z | _ => Fault FUninit end.
Definition string_of (v : myarg_value) : res cstring := match v with VString z => Ok z | _ => Fault FUninit end.
Definition decimal_of (v : myarg_value) : res double := match v with VDecimal z => Ok z | _ => Fault FUninit end.

(** ** Searching *)

Fixpoint count_options (options : list myargs) : res Z :=
  match options with
  | [] => Fault FBounds
  | o :: options =>
    match ma_name o with
    | None => mret 0
    | Some _ => n ← count_options options; chk_int (n + 1)
    end
  end.

(** The loop of find_arg, from entry [i]. *)
Fixpoint find_from (options : list myargs) (arg : cstring) (i : Z) : res Z :=
  match options with
  | [] => Fault FBounds
  | o :: options =>
    match ma_name o with
    | None => mret (-1)
    | Some n => if bool_decide (n = arg) then mret i else j ← chk_int (i + 1); find_from options arg j
    end
  end.
Definition find_arg (options : list myargs) (arg : cstring) : res Z := find_from options arg 0.

Definition option_at (options : list myargs) (i : Z) : res myargs :=
  match zget options i with Some o => Ok o | None => Fault FBounds end.

(** The steps the three functions that return a default share. *)
Definition default_entry (t : myargs_type) (options : list myargs) (argname : cstring) : res myargs :=
  i ← find_arg options argname;
  c_assert (negb (i =? -1));;
  o ← option_at options i;
  c_assert (bool_decide (ma_type o = t));;
  mret o.

Definition myargs_get_default_string (options : list myargs) (argname : cstring) : res cstring :=
  o ← default_entry MYARGS_STRING options argname; string_of (ma_default_val o).
Definition myargs_get_default_integer (options : list myargs) (argname : cstring) : res Z :=
  o ← default_entry MYARGS_INTEGER options argname; integer_of (ma_default_val o).
Definition myargs_get_default_flag (options : list myargs) (argname : cstring) : res Z :=
  o ← default_entry MYARGS_FLAG options argname; flag_of (ma_default_val o).

(** ** Usage *)

Definition quote : cstring := [34].
Definition nl : cstring := [10].

(** The part of a line that depends on the type. *)
Definition usage_value (o : myargs) : res cstring :=
  let c := pad_right 40 (ma_comment o) in
  match ma_type o with
  | MYARGS_NONE => mret (str " " ++ pad_left 6 [] ++ str " " ++ c ++ nl)
  | MYARGS_INTEGER =>
    d ← integer_of (ma_default_val o);
    mret (str " " ++ pad_left 6 (str "<int>") ++ str " " ++ c ++ str " (" ++ dec d ++ str ")" ++ nl)
  | MYARGS_FLAG =>
    f ← flag_of (ma_default_val o);
    mret (str " " ++ pad_left 6 [] ++ str " " ++ c ++ str " (" ++
          (if f =? 0 then str "off" else str "on") ++ str ")" ++ nl)
  | MYARGS_STRING =>
    s ← string_of (ma_default_val o);
    mret (str " " ++ pad_left 6 (str "<str>") ++ str " " ++ c ++ str " (" ++ quote ++ s ++ quote ++ str ")" ++ nl)
  | MYAGRS_DECIMAL =>
    d ← decimal_of (ma_default_val o);
    mret (str " " ++ pad_left 6 (str "<real>") ++ str " " ++ c ++ str " (" ++ fmt_lf d ++ str ")" ++ nl)
  end.

Fixpoint usage_lines (options : list myargs) : res cstring :=
  match options with
  | [] => Fault FBounds
  | o :: options =>
    match ma_name o with
    | None => mret []
    | Some n =>
      v ← usage_value o;
      r ← usage_lines options;
      mret (str "   -" ++ [ma_shortname o] ++ str "/--" ++ pad_right 20 n ++ str "  " ++ v ++ r)
    end
  end.

(** What is printed before the exit, and the exit code. *)
Definition myargs_usage (options : list myargs) (title s1 s2 : option cstring) (exit_val : Z) :
    res (cstring * Z) :=
  let a := default [] s1 in
  let b := match s2 with Some s => str " " ++ s | None => [] end in
  let c := match s1, s2 with None, None => [] | _, _ => nl end in
  let t := match title with Some s => s ++ nl | None => [] end in
  r ← usage_lines options;
  mret (a ++ b ++ c ++ t ++ r ++ nl, exit_val).

(** ** The descriptions for getopt *)

(** Does the option take an argument? *)
Definition takes_arg (t : myargs_type) : bool :=
  negb (bool_decide (t = MYARGS_NONE)) && negb (bool_decide (t = MYARGS_FLAG)).

Definition long_of (o : myargs) : long_opt :=
  {| lopt_name := ma_name o;
     lopt_has_arg := if bool_decide (ma_type o = MYARGS_NONE) || bool_decide (ma_type o = MYARGS_FLAG) then 0 else 1;
     lopt_val := ma_shortname o |}.

(** Entries [i] to [n], the closing one included. *)
Fixpoint long_loop (options : list myargs) (i : Z) (k : nat) : res (list long_opt) :=
  match k with
  | O => mret []
  | S k => o ← option_at options i; r ← long_loop options (i + 1) k; mret (long_of o :: r)
  end.

Definition myargs_to_long (options : list myargs) : res (list long_opt) :=
  n ← count_options options;
  long_loop options 0 (S (Z.to_nat n)).

(** [snprintf(&b[off], size, text)]: the object afterwards and the length of
    the text; the size is converted to size_t. *)
Definition snprintf_at (b : mem) (off size : Z) (text : cstring) : res (mem * Z) :=
  let n := u64 size in
  if n =? 0 then mret (b, zlen text)
  else b ← wr_bytes b off (take (Z.to_nat (n - 1)) text ++ [0]); mret (b, zlen text).

Fixpoint to_short_loop (options : list myargs) (max : Z) (k : nat) (i : Z) (b : mem) (len : Z) : res (mem * Z) :=
  match k with
  | O => mret (b, len)
  | S k =>
    o ← option_at options i;
    '(b, w) ← snprintf_at b len (max - len) [u8 (ma_shortname o)];
    len ← chk_int (len + w);
    '(b, len) ←
      (if takes_arg (ma_type o) then
         '(b, w) ← snprintf_at b len (max - len) (str ":");
         len ← chk_int (len + w);
         mret (b, len)
       else mret (b, len));
    to_short_loop options max k (i + 1) b len
  end.

Definition myargs_to_short (options : list myargs) : res mem :=
  n ← count_options options;
  max ← chk_int (n * 2 + 1);
  '(b, len) ← to_short_loop options max (Z.to_nat n) 0 (mem_new max) 0;
  wr8 b len 0.
End tables.
Arguments myarg_value : clear implicits.
Arguments myargs : clear implicits.

(** ** The two descriptions agree *)

(** How getopt reads its string: characters, each with an argument if a colon
    follows. *)
Fixpoint getopt_reads (s : cstring) : list (Z * Z) :=
  match s with
  | [] => []
  | c :: s =>
    match s with
    | d :: s' => if d =? 58 then (c, 1) :: getopt_reads s' else (c, 0) :: getopt_reads s
    | [] => [(c, 0)]
    end
  end.

Section spec.
Context {double : Type}.
Implicit Types (o stop : myargs double) (opts rest : list (myargs double)).

(** What an option contributes to the string. *)
Definition short_of o : cstring := ma_shortname o :: if takes_arg (ma_type o) then [58] else [].

(** A character that may name an option. *)
Definition option_char (c : Z) : Prop := 0 < c < 128 ∧ c ≠ 58.

Definition named o : Prop := is_Some (ma_name o).

Lemma getopt_reads_step c s :
  option_char c → (∀ d s', s = d :: s' → d ≠ 58) → getopt_reads (c :: s) = (c, 0) :: getopt_reads s.
Proof. intros Hc Hs. destruct s as [|d s]; [done|]. cbn. specialize (Hs d s eq_refl). by apply Z.eqb_neq in Hs as ->. Qed.

Lemma has_arg_takes o : lopt_has_arg (long_of o) = if takes_arg (ma_type o) then 1 else 0.
Proof. unfold long_of, takes_arg. by destruct (ma_type o). Qed.

Lemma getopt_reads_short opts :
  Forall (λ o, option_char (ma_shortname o)) opts →
  getopt_reads (concat (short_of <$> opts)) = (λ l, (lopt_val l, lopt_has_arg l)) ∘ long_of <$> opts.
Proof.
  induction 1 as [|o opts Ho Hos IH]; [done|].
  cbn [fmap list_fmap concat]. unfold compose at 1. rewrite has_arg_takes. unfold short_of at 1.
  destruct (takes_arg (ma_type o)); cbn [app].
  - cbn [getopt_reads]. change (58 =? 58) with true. cbn. by rewrite <-IH.
  - rewrite getopt_reads_step; [by rewrite <-IH|done|].
    intros d s Hd. destruct opts as [|o' opts]; [done|]. cbn in Hd. injection Hd as <- _.
    apply Forall_cons in Hos as [[??] _]. lia.
Qed.

Lemma short_nonzero opts :
  Forall (λ o, option_char (ma_shortname o)) opts → Forall (λ c, c ≠ 0) (concat (short_of <$> opts)).
Proof.
  induction 1 as [|o opts [Ho _] _ IH]; [constructor|]. cbn. constructor; [lia|]. apply Forall_app. split; [|exact IH].
  destruct (takes_arg _); repeat constructor; lia.
Qed.

Lemma count_options_stop opts stop rest :
  Forall named opts → ma_name stop = None → zlen opts ≤ INT_MAX →
  count_options (opts ++ stop :: rest) = Ok (zlen opts).
Proof.
  intros Hn Hs. induction Hn as [|o opts [n Ho] _ IH]; intros Hl; cbn.
  - by rewrite Hs.
  - change (o :: opts) with ([o] ++ opts) in Hl |- *. rewrite zlen_app in *. change (zlen [o]) with 1 in *.
    rewrite Ho, IH by lia. cbn. rewrite chk_int_ok; [f_equal; lia|].
    pose proof (zlen_nonneg opts). unfold is_int, INT_MIN. lia.
Qed.

Lemma option_at_app pre o rest : option_at (pre ++ o :: rest) (zlen pre) = Ok o.
Proof.
  unfold option_at. rewrite zget_nonneg by apply zlen_nonneg. unfold zlen. rewrite Nat2Z.id.
  by rewrite list_lookup_middle.
Qed.

Lemma long_loop_spec pre opts rest :
  long_loop (pre ++ opts ++ rest) (zlen pre) (length opts) = Ok (long_of <$> opts).
Proof.
  revert pre. induction opts as [|o opts IH]; intros pre; [done|].
  cbn [app length long_loop]. rewrite option_at_app. cbn [mbind res_bind].
  specialize (IH (pre ++ [o])). rewrite <-app_assoc, zlen_app in IH. cbn [app] in IH.
  change (zlen [o]) with 1 in IH. by rewrite IH.
Qed.

(** Writing behind the text of a buffer. *)
Lemma wr_bytes_behind acc tl bs :
  (length bs ≤ length tl)%nat →
  wr_bytes (cells acc ++ tl) (zlen acc) bs = Ok (cells (acc ++ bs) ++ drop (length bs) tl).
Proof.
  intros Hl. unfold wr_bytes. rewrite wr_cells_ok.
  - unfold splice. f_equal. unfold zlen. rewrite Nat2Z.id.
    rewrite take_app_length' by (unfold cells; by rewrite length_fmap).
    rewrite drop_app_ge by (unfold cells; rewrite !length_fmap; lia).
    unfold cells. rewrite fmap_app, <-app_assoc, !length_fmap. repeat f_equal. lia.
  - unfold in_bounds. rewrite zlen_app, !zlen_cells. unfold zlen. lia.
Qed.

Lemma snprintf_at_behind acc tl c :
  (2 ≤ length tl)%nat → zlen tl < 2^64 →
  ∃ tl', snprintf_at (cells acc ++ tl) (zlen acc) (zlen tl) [c] = Ok (cells (acc ++ [c]) ++ tl', 1) ∧
    zlen tl' = zlen tl - 1.
Proof.
  intros Hl Hb. unfold snprintf_at, u64. rewrite Z.mod_small by (unfold zlen in *; lia).
  replace (zlen tl =? 0) with false by (unfold zlen in *; lia).
  rewrite (firstn_all2 [c]) by (cbn; unfold zlen in *; lia).
  rewrite wr_bytes_behind by (cbn; lia). cbn [mbind res_bind app length].
  exists (Some 0 :: drop 2 tl). split.
  - change [c; 0] with ([c] ++ [0]). rewrite app_assoc. unfold cells. rewrite (fmap_app _ _ [0]), <-app_assoc. done.
  - unfold zlen. cbn. rewrite length_drop. lia.
Qed.

Lemma zlen_short_of o : 1 ≤ zlen (short_of o) ≤ 2.
Proof. unfold short_of, zlen. destruct (takes_arg _); cbn; lia. Qed.

(** One option: its text is appended and room for the rest remains. *)
Lemma to_short_one (options : list (myargs double)) max k pre o rest acc tl :
  options = pre ++ o :: rest → option_char (ma_shortname o) →
  max = zlen acc + zlen tl → (3 ≤ length tl)%nat → max ≤ INT_MAX →
  ∃ tl', to_short_loop options max (S k) (zlen pre) (cells acc ++ tl) (zlen acc) =
         to_short_loop options max k (zlen pre + 1) (cells (acc ++ short_of o) ++ tl') (zlen (acc ++ short_of o)) ∧
    zlen tl' = zlen tl - zlen (short_of o).
Proof.
  intros -> [Hc _] -> Hl Hi. cbn [to_short_loop]. rewrite option_at_app. cbn [mbind res_bind].
  pose proof (zlen_nonneg acc). assert (u8 (ma_shortname o) = ma_shortname o) as ->.
  { unfold u8. apply Z.mod_small. lia. }
  replace (zlen acc + zlen tl - zlen acc) with (zlen tl) by lia.
  unfold INT_MAX, INT_MIN, is_int in *. unfold short_of.
  destruct (snprintf_at_behind acc tl (ma_shortname o)) as (tl1 & -> & Ht1); [lia|lia|].
  cbn [mbind res_bind]. rewrite chk_int_ok by (unfold is_int, INT_MAX, INT_MIN, zlen in *; lia).
  cbn [mbind res_bind]. replace (zlen acc + 1) with (zlen (acc ++ [ma_shortname o])) by (by rewrite zlen_app).
  destruct (takes_arg (ma_type o)).
  - replace (zlen acc + zlen tl - zlen (acc ++ [ma_shortname o])) with (zlen tl1)
      by (rewrite zlen_app; change (zlen [ma_shortname o]) with 1; lia).
    change (str ":") with [58].
    destruct (snprintf_at_behind (acc ++ [ma_shortname o]) tl1 58) as (tl2 & -> & Ht2); [unfold zlen in *; lia|lia|].
    cbn [mbind res_bind]. rewrite zlen_app in *. change (zlen [ma_shortname o]) with 1 in *.
    rewrite chk_int_ok by (unfold is_int, INT_MAX, INT_MIN, zlen in *; lia).
    cbn [mbind res_bind mret res_ret]. exists tl2. rewrite <-app_assoc. cbn [app]. split; [|unfold zlen in *; cbn; lia].
    rewrite zlen_app. change (zlen [ma_shortname o; 58]) with 2.
    by replace (zlen acc + 1 + 1) with (zlen acc + 2) by lia.
  - cbn [mbind res_bind mret res_ret]. exists tl1. split; [done|]. unfold zlen in *. cbn. lia.
Qed.

Lemma to_short_loop_spec (options : list (myargs double)) max pre opts rest acc tl :
  options = pre ++ opts ++ rest → Forall (λ o, option_char (ma_shortname o)) opts →
  max = zlen acc + zlen tl → 2 * zlen opts + 1 ≤ zlen tl → max ≤ INT_MAX →
  ∃ tl', let s := acc ++ concat (short_of <$> opts) in
    to_short_loop options max (length opts) (zlen pre) (cells acc ++ tl) (zlen acc) = Ok (cells s ++ tl', zlen s) ∧
    zlen s + zlen tl' = max ∧ 1 ≤ zlen tl'.
Proof.
  revert pre acc tl. induction opts as [|o opts IH]; intros pre acc tl Ho Hc Hm Hl Hi.
  - exists tl. cbn. rewrite app_nil_r. split_and!; [done..|]. change (zlen []) with 0 in Hl. lia.
  - apply Forall_cons in Hc as [Hc Hcs]. assert (zlen (o :: opts) = 1 + zlen opts) as Hz by (unfold zlen; cbn; lia).
    pose proof (zlen_short_of o) as Hs. pose proof (zlen_nonneg opts). cbn [length].
    destruct (to_short_one options max (length opts) pre o (opts ++ rest) acc tl) as (tl1 & -> & Ht1);
      [done|done|done|unfold zlen in *; lia|done|].
    destruct (IH (pre ++ [o]) (acc ++ short_of o) tl1) as (tl' & Heq & Ht' & Ht''); try done.
    + subst options. by rewrite <-app_assoc.
    + rewrite zlen_app. lia.
    + lia.
    + rewrite zlen_app in Heq at 1. change (zlen [o]) with 1 in Heq. exists tl'. cbn [fmap list_fmap concat].
      rewrite app_assoc. split; [exact Heq|]. by split.
Qed.

(** The string and the list built from a table describe the same options:
    read as getopt reads it, the string lists the characters of the long
    options in order, with an argument exactly where they take one.  The string
    never outgrows the 2n+1 bytes allocated for it and is terminated, and the
    list is closed by the entry without a name. *)
Theorem myargs_descriptions_agree opts stop rest :
  Forall named opts → Forall (λ o, option_char (ma_shortname o)) opts → ma_name stop = None →
  2 * zlen opts + 1 ≤ INT_MAX →
  ∃ b s, myargs_to_short (opts ++ stop :: rest) = Ok b ∧ zlen b = 2 * zlen opts + 1 ∧ c_text b = Ok s ∧
    myargs_to_long (opts ++ stop :: rest) = Ok ((long_of <$> opts) ++ [long_of stop]) ∧
    getopt_reads s = (λ l, (lopt_val l, lopt_has_arg l)) <$> (long_of <$> opts) ∧
    lopt_name (long_of stop) = None.
Proof.
  intros Hn Hc Hs Hl. pose proof (zlen_nonneg opts).
  unfold myargs_to_short, myargs_to_long. rewrite (count_options_stop opts stop rest Hn Hs) by lia. cbn [mbind res_bind].
  assert (is_int (zlen opts * 2 + 1)) as Hi by (unfold is_int, INT_MIN; lia).
  rewrite (chk_int_ok _ Hi). cbn [mbind res_bind].
  destruct (to_short_loop_spec (opts ++ stop :: rest) (zlen opts * 2 + 1) [] opts (stop :: rest) []
              (mem_new (zlen opts * 2 + 1))) as (tl & Heq & Ht & Ht1); try done.
  { by rewrite zlen_mem_new by lia. }
  { rewrite zlen_mem_new; lia. }
  { lia. }
  unfold zlen at 2. rewrite Nat2Z.id. cbn [app cells fmap list_fmap] in Heq. change (zlen []) with 0 in Heq.
  rewrite Heq. cbn [mbind res_bind app]. clear Heq. set (s := concat (short_of <$> opts)) in *.
  change ([] ++ s) with s in Ht |- *. unfold wr8. change (u8 0) with 0.
  rewrite wr_bytes_behind by (unfold zlen in *; cbn; lia).
  eexists _, s. split; [reflexivity|]. split_and!.
  - rewrite zlen_app, zlen_cells, zlen_app. change (zlen [0]) with 1. unfold zlen in *. rewrite length_drop. cbn. lia.
  - unfold cells. rewrite fmap_app, <-app_assoc. by apply c_text_cells, short_nonzero.
  - pose proof (long_loop_spec [] (opts ++ [stop]) rest) as Hlong. rewrite <-app_assoc, length_app, fmap_app in Hlong.
    unfold zlen. rewrite Nat2Z.id, <-Nat.add_1_r. exact Hlong.
  - unfold s. rewrite (getopt_reads_short opts Hc). by rewrite list_fmap_compose.
  - done.
Qed.
End spec.

(** A flag, an option with an argument, and the end. *)
Definition demo_options : list (myargs Z) :=
  [{| ma_name := Some (str "debug"); ma_shortname := 100; ma_comment := str "enable debugging";
      ma_type := MYARGS_FLAG; ma_default_val := VFlag 0 |};
   {| ma_name := Some (str "loops"); ma_shortname := 108; ma_comment := str "loops per test";
      ma_type := MYARGS_INTEGER; ma_default_val := VInteger 16 |}].
Definition demo_stop : myargs Z :=
  {| ma_name := None; ma_shortname := 0; ma_comment := []; ma_type := MYARGS_NONE; ma_default_val := VNone 0 |}.

Example demo_defaults :
  myargs_get_default_integer (demo_options ++ [demo_stop]) (str "loops") = Ok 16 ∧
  myargs_get_default_integer (demo_options ++ [demo_stop]) (str "debug") = Fault FAssert ∧
  myargs_get_default_integer (demo_options ++ [demo_stop]) (str "port") = Fault FAssert.
Proof. split_and!; vm_compute; reflexivity. Qed.

Lemma myargs_descriptions_agree_witness :
  ∃ b s, myargs_to_short (demo_options ++ [demo_stop]) = Ok b ∧ zlen b = 5 ∧ c_text b = Ok s ∧
    myargs_to_long (demo_options ++ [demo_stop]) = Ok ((long_of <$> demo_options) ++ [long_of demo_stop]) ∧
    getopt_reads s = (λ l, (lopt_val l, lopt_has_arg l)) <$> (long_of <$> demo_options) ∧
    lopt_name (long_of demo_stop) = None.
Proof.
  apply (myargs_descriptions_agree demo_options demo_stop []).
  - repeat constructor; by eexists.
  - repeat constructor; vm_compute; congruence.
  - reflexivity.
  - vm_compute. congruence.
Defined.
