(* ===== verification/Cbench.v ===== *)
(** * The controller benchmark (cbench/cbench.c)

    Connecting the emulated switches, running the timed tests over them and
    reducing the measured rates to a result line.  Floating-point arithmetic is
    a parameter (a type with its operations, one for float and one for double);
    the results of system calls are parameters of the calls. *)

From S2P Require Import Prelude CTime CBytes CStr OpenFlow MsgBuf FakeSwitch MyArgs.
Open Scope Z_scope.

(** Arithmetic of a floating-point type. *)
Class Floating (F : Type) := {
  f_of_Z : Z → F;
  f_add : F → F → F;
  f_sub : F → F → F;
  f_mul : F → F → F;
  f_div : F → F → F;
  f_lt : F → F → bool;
  f_pow2 : F → F;
  f_sqrt : F → F;
  f_max : F;
}.

(** ** Options *)

Section options.
Context {OF : OpenFlow} {double : Type}.

Definition arg_of (name short comment : string) (t : myargs_type) (v : myarg_value double) : myargs double :=
  {| ma_name := Some (str name); ma_shortname := default 0 (str short !! 0%nat); ma_comment := str comment;
     ma_type := t; ma_default_val := v |}.

Definition my_options : list (myargs double) :=
  [arg_of "controller" "c" "hostname of controller to connect to" MYARGS_STRING (VString (str "localhost"));
   arg_of "debug" "d" "enable debugging" MYARGS_FLAG (VFlag 0);
   arg_of "help" "h" "print this message" MYARGS_NONE (VNone 0);
   arg_of "loops" "l" "loops per test" MYARGS_INTEGER (VInteger 16);
   arg_of "mac-addresses" "M" "unique source MAC addresses per switch" MYARGS_INTEGER (VInteger 100000);
   arg_of "ms-per-test" "m" "test length in ms" MYARGS_INTEGER (VInteger 1000);
   arg_of "port" "p" "controller port" MYARGS_INTEGER (VInteger OFP_TCP_PORT);
   arg_of "ranged-test" "r" "test range of 1..$n switches" MYARGS_FLAG (VFlag 0);
   arg_of "switches" "s" "fake $n switches" MYARGS_INTEGER (VInteger 16);
   arg_of "throughput" "t" "test throughput instead of latency" MYARGS_NONE (VNone 0);
   arg_of "warmup" "w" "loops to be disregarded on test start (warmup)" MYARGS_INTEGER (VInteger 1);
   arg_of "cooldown" "C" "loops to be disregarded at test end (cooldown)" MYARGS_INTEGER (VInteger 0);
   arg_of "delay" "D" "delay starting testing after features_reply is received (in ms)" MYARGS_INTEGER (VInteger 0);
   {| ma_name := None; ma_shortname := 0; ma_comment := []; ma_type := MYARGS_NONE; ma_default_val := VNone 0 |}].

(** The variables of main that options set. *)
Record settings := {
  controller_hostname : cstring;
  controller_port : Z;
  n_fakeswitches : Z;
  bench_macs : Z;
  mstestlen : Z;
  should_test_range : Z;
  tests_per_loop : Z;
  debug : Z;
  warmup : Z;
  cooldown : Z;
  bench_delay : Z;
  bench_mode : test_mode;
}.
#[export] Instance settings_rebuild : Rebuild settings := λ s,
  {| controller_hostname := controller_hostname s; controller_port := controller_port s;
     n_fakeswitches := n_fakeswitches s; bench_macs := bench_macs s; mstestlen := mstestlen s;
     should_test_range := should_test_range s; tests_per_loop := tests_per_loop s; debug := debug s;
     warmup := warmup s; cooldown := cooldown s; bench_delay := bench_delay s; bench_mode := bench_mode s |}.

Definition default_settings : res settings :=
  let int n := myargs_get_default_integer my_options (str n) in
  let flag n := myargs_get_default_flag my_options (str n) in
  host ← myargs_get_default_string my_options (str "controller");
  port ← int "port"%string;
  switches ← int "switches"%string;
  macs ← int "mac-addresses"%string;
  ms ← int "ms-per-test"%string;
  range ← flag "ranged-test"%string;
  loops ← int "loops"%string;
  dbg ← flag "debug"%string;
  warm ← int "warmup"%string;
  cool ← int "cooldown"%string;
  d ← int "delay"%string;
  mret {| controller_hostname := host; controller_port := port; n_fakeswitches := switches; bench_macs := macs;
          mstestlen := ms; should_test_range := range; tests_per_loop := loops; debug := dbg; warmup := warm;
          cooldown := cool; bench_delay := d; bench_mode := MODE_LATENCY |}.

Definition need (optarg : option cstring) : res cstring :=
  match optarg with Some a => Ok a | None => Fault FNull end.

Definition is_char (c : Z) (s : string) : bool := bool_decide ([c] = str s).

(** One option found by getopt_long; [-h] and unknown ones print the usage and
    exit. *)
Definition set_option (c : Z) (optarg : option cstring) (s : settings) : res settings :=
  if is_char c "c" then a ← need optarg; mret (s <| controller_hostname := a |>)
  else if is_char c "d" then mret (s <| debug := 1 |>)
  else if is_char c "h" then Fault (FExit 1)
  else if is_char c "l" then a ← need optarg; mret (s <| tests_per_loop := atoi a |>)
  else if is_char c "M" then a ← need optarg; mret (s <| bench_macs := atoi a |>)
  else if is_char c "m" then a ← need optarg; mret (s <| mstestlen := atoi a |>)
  else if is_char c "r" then mret (s <| should_test_range := 1 |>)
  else if is_char c "p" then a ← need optarg; mret (s <| controller_port := atoi a |>)
  else if is_char c "s" then a ← need optarg; mret (s <| n_fakeswitches := atoi a |>)
  else if is_char c "t" then mret (s <| bench_mode := MODE_THROUGHPUT |>)
  else if is_char c "w" then a ← need optarg; mret (s <| warmup := atoi a |>)
  else if is_char c "C" then a ← need optarg; mret (s <| cooldown := atoi a |>)
  else if is_char c "D" then a ← need optarg; mret (s <| bench_delay := atoi a |>)
  else Fault (FExit 1).

Fixpoint set_options (opts : list (Z * option cstring)) (s : settings) : res settings :=
  match opts with
  | [] => mret s
  | (c, a) :: opts => s ← set_option c a s; set_options opts s
  end.

(** The settings of a run; error(10, ...) exits. *)
Definition parse_settings (opts : list (Z * option cstring)) : res settings :=
  s ← default_settings;
  s ← set_options opts s;
  w ← chk_int (warmup s + cooldown s);
  if w >=? tests_per_loop s then Fault (FExit 10) else mret s.
End options.

(** ** Connecting *)

Definition EINPROGRESS : Z := 115.
Definition FD_SETSIZE : Z := 1024.

(** The answers of the system: getaddrinfo (error, and whether a list was
    returned), fcntl, connect (result, errno), select, socket, setsockopt, bind. *)
Record net_env := {
  sys_getaddrinfo : cstring → cstring → Z * bool;
  sys_getfl : Z → Z;
  sys_setfl : Z → Z;
  sys_connect : Z → Z * Z;
  sys_select : Z → timeval → Z;
  sys_socket : nat → Z;
  sys_setsockopt : Z → Z → Z;
  sys_bind : Z → Z;
  sys_stream : Z → sock;
}.

(** Sockets opened and not closed, socket options set, address lists
    allocated, and how often socket was called. *)
Record net := {
  open_socks : list Z;
  tcp_nodelay : list (Z * Z);
  addr_lists : Z;
  socket_calls : nat;
}.
#[export] Instance net_rebuild : Rebuild net := λ n,
  {| open_socks := open_socks n; tcp_nodelay := tcp_nodelay n; addr_lists := addr_lists n;
     socket_calls := socket_calls n |}.

Section connect.
Context (E : net_env).

Definition freeaddrinfo (n : net) : net := n <| addr_lists := addr_lists n - 1 |>.

(** FD_SET: the descriptor is a bit of an array of FD_SETSIZE bits. *)
Definition fd_set_add (fd : Z) : res unit :=
  if (0 <=? fd) && (fd <? FD_SETSIZE) then Ok tt else Fault FBounds.

Definition timeout_connect (fd : Z) (hostname : cstring) (port mstimeout : Z) (n : net) : res (Z * net) :=
  let '(err, found) := sys_getaddrinfo E hostname (dec port) in
  let n := if found then n <| addr_lists := addr_lists n + 1 |> else n in
  if negb (err =? 0) || negb found then mret (-1, if found then freeaddrinfo n else n)
  else if sys_getfl E fd <? 0 then mret (-1, freeaddrinfo n)
  else if sys_setfl E fd <? 0 then mret (-1, freeaddrinfo n)
  else
    fd_set_add fd;;
    '(failed, ret) ←
      (if mstimeout >=? 0 then
         let tv := {| tv_sec := mstimeout `quot` 1000; tv_usec := (mstimeout `rem` 1000) * 1000 |} in
         let '(c, errno) := sys_connect E fd in
         if (c <? 0) && negb (errno =? EWOULDBLOCK) && negb (errno =? EINPROGRESS) then mret (true, -1)
         else mret (false, sys_select E (fd + 1) tv)
       else mret (false, 0));
    let n := freeaddrinfo n in
    mret (if (failed : bool) then -1 else if ret =? 1 then 0 else if ret =? 0 then -1 else ret, n).

Definition make_tcp_connection_from_port (hostname : cstring) (port sport mstimeout nodelay : Z) (n : net) :
    res (Z * net) :=
  let s := sys_socket E (socket_calls n) in
  let n := n <| socket_calls := S (socket_calls n) |> in
  if s <? 0 then Fault (FExit 1)
  else
    let n := n <| open_socks := s :: open_socks n |> in
    let zero := 0 in
    if negb (nodelay =? 0) && (sys_setsockopt E s zero <? 0) then Fault (FExit 1)
    else
      let n := if negb (nodelay =? 0) then n <| tcp_nodelay := (s, zero) :: tcp_nodelay n |> else n in
      if negb (sys_bind E s =? 0) then mret (-4, n)
      else
        '(err, n) ← timeout_connect s hostname (u16 port) mstimeout n;
        if negb (err =? 0) then mret (err, n <| open_socks := filter (.≠ s) (open_socks n) |>)
        else mret (s, n).

Definition make_tcp_connection (hostname : cstring) (port mstimeout nodelay : Z) (n : net) : res (Z * net) :=
  make_tcp_connection_from_port hostname port 0 mstimeout nodelay n.
End connect.

Definition bit_of (n : Z) (i : nat) : bool := negb (Z.land n (Z.shiftl 1 (Z.of_nat i)) =? 0).

(** The bits of an int. *)
Definition count_bits (n : Z) : Z := zlen (filter (λ i, bit_of n i = true) (seq 0 32)).

(** ** A test *)

(** One turn of the polling loop: the time read at its head and, for every
    switch, the events reported and the clocks its handlers read. *)
Record round := {
  rd_now : timeval;
  rd_revents : nat → Z;
  rd_clock : nat → nat → timeval;
  rd_write : nat → timeval;
  rd_fuel : nat;
}.

Record result_line {D : Type} := {
  rl_switches : Z;
  rl_tests : Z;
  rl_min : D;
  rl_max : D;
  rl_avg : D;
  rl_std_dev : D;
}.
Arguments result_line : clear implicits.

Section tests.
Context {OF : OpenFlow} {F D : Type} {Fl : Floating F} {Db : Floating D}.

Fixpoint io_all (r : round) (i : nat) (fss : list fakeswitch) : res (list fakeswitch) :=
  match fss with
  | [] => mret []
  | fs :: fss =>
    fs ← fakeswitch_handle_io (rd_clock r i) (rd_fuel r) (rd_write r i) (rd_revents r i) fs;
    fss ← io_all r (S i) fss;
    mret (fs :: fss)
  end.

(** 1000 * sec + (float)usec / 1000 > total_wait, in single precision. *)
Definition over (diff : timeval) (total_wait : Z) : bool :=
  f_lt (f_of_Z (F := F) total_wait)
       (f_add (f_of_Z (1000 * tv_sec diff)) (f_div (f_of_Z (tv_usec diff)) (f_of_Z 1000))).

(** The loop until the time is over; it may run on as long as there are turns. *)
Fixpoint poll_loop (rounds : list round) (then_ : timeval) (total_wait : Z) (fss : list fakeswitch) :
    res (list fakeswitch * timeval) :=
  match rounds with
  | [] => Fault FFuel
  | r :: rounds =>
    let diff := timersub (rd_now r) then_ in
    if over diff total_wait then mret (fss, diff)
    else fss ← io_all r 0 fss; poll_loop rounds then_ total_wait fss
  end.

Fixpoint counts (fuel : nat) (sum : D) (fss : list fakeswitch) : res (D * list fakeswitch) :=
  match fss with
  | [] => mret (sum, [])
  | fs :: fss =>
    '(c, fs) ← fakeswitch_get_count fuel fs;
    '(sum, fss) ← counts fuel (f_add sum (f_of_Z c)) fss;
    mret (sum, fs :: fss)
  end.

(** A timed test over the switches: the responses per millisecond. *)
Definition run_test (rounds : list round) (fuel : nat) (then_ : timeval) (fss : list fakeswitch)
    (mstestlen delay : Z) : res (D * list fakeswitch) :=
  total_wait ← chk_int (mstestlen + delay);
  '(fss, diff) ← poll_loop rounds then_ total_wait fss;
  '(sum, fss) ← counts fuel (f_of_Z 0) fss;
  let passed := f_add (f_of_Z (1000 * tv_sec diff)) (f_div (f_of_Z (tv_usec diff)) (f_of_Z 1000)) in
  let passed := f_sub passed (f_of_Z delay) in
  mret (f_div sum passed, fss).

(** ** The tests of a number of switches *)

(** What main keeps from one number of switches to the next; [b_results] lists
    the contents of the array [results] at the end of every number tested. *)
Record bench := {
  b_switches : list fakeswitch;
  b_ID : Z;
  b_delay : Z;
  b_min : D;
  b_max : D;
  b_lines : list (result_line D);
  b_results : list (list D);
  b_net : net;
}.
#[export] Instance bench_rebuild : Rebuild bench := λ b,
  {| b_switches := b_switches b; b_ID := b_ID b; b_delay := b_delay b; b_min := b_min b; b_max := b_max b;
     b_lines := b_lines b; b_results := b_results b; b_net := b_net b |}.

(** The environment: the system, the turns of test [j] of [i+1] switches and
    the time it starts, and what memory holds before it is written. *)
Context (E : net_env) (turns : Z → Z → list round) (starts : Z → Z → timeval) (fuel : nat).
Context (mac0 : Z) (d0 : timeval).
Context (s : settings).

(** Is the result of test [j] counted? *)
Definition skipped (j : Z) : bool := (j <? warmup s) || (j >=? tests_per_loop s - cooldown s).

Fixpoint test_loop (k : nat) (i j : Z) (results : list (option D)) (sum : D) (b : bench) :
    res (list (option D) * D * bench) :=
  match k with
  | O => mret (results, sum, b)
  | S k =>
    let b := if j >? 0 then b <| b_delay := 0 |> else b in
    '(r, fss) ← run_test (turns i j) fuel (starts i j) (b_switches b) (mstestlen s) (b_delay b);
    let b := b <| b_switches := fss |> in
    let v := f_mul (f_of_Z 1000) r in
    results ← arr_write results j v;
    if skipped j then test_loop k i (j + 1) results sum b
    else
      let b := if f_lt (b_max b) v then b <| b_max := v |> else b in
      let b := if f_lt v (b_min b) then b <| b_min := v |> else b in
      test_loop k i (j + 1) results (f_add sum v) b
  end.

(** The sum of the squared differences from the mean. *)
Fixpoint dev_loop (k : nat) (j : Z) (results : list (option D)) (avg sum : D) : res D :=
  match k with
  | O => mret sum
  | S k => x ← arr_read results j; dev_loop k (j + 1) results avg (f_add sum (f_pow2 (f_sub x avg)))
  end.

(** All the elements, for the record. *)
Definition written (results : list (option D)) : list D := omap id results.

Definition test_switches (i : Z) (results : list (option D)) (b : bench) : res (list (option D) * bench) :=
  '(results, sum, b) ← test_loop (Z.to_nat (tests_per_loop s)) i 0 results (f_of_Z 0) b;
  t ← chk_int (tests_per_loop s - warmup s);
  counted_tests ← chk_int (t - cooldown s);
  let avg := f_div sum (f_of_Z counted_tests) in
  sum ← dev_loop (Z.to_nat (tests_per_loop s - cooldown s - warmup s)) (warmup s) results avg (f_of_Z 0);
  let std_dev := f_sqrt (f_div sum (f_of_Z counted_tests)) in
  let line := {| rl_switches := i + 1; rl_tests := counted_tests; rl_min := b_min b; rl_max := b_max b;
                 rl_avg := avg; rl_std_dev := std_dev |} in
  mret (results, b <| b_lines := b_lines b ++ [line] |> <| b_results := b_results b ++ [written results] |>).

(** One more switch is connected; then it is tested, or not. *)
Definition one_switch (i : Z) (results : list (option D)) (b : bench) : res (list (option D) * bench) :=
  '(fd, n) ← make_tcp_connection E (controller_hostname s) (controller_port s) 3000
               (if bool_decide (bench_mode s = MODE_THROUGHPUT) then 0 else 1) (b_net b);
  if fd <? 0 then Fault (FExit 1)
  else
    '(fs, id) ← fakeswitch_init (b_ID b) mac0 (sys_stream E fd) 65536 (debug s) (b_delay b) (bench_mode s)
                  (bench_macs s) d0;
    let b := b <| b_net := n |> <| b_ID := id |> <| b_switches := b_switches b ++ [fs] |> in
    if count_bits (i + 1) =? 0 then mret (results, b)
    else if (should_test_range s =? 0) && negb (i + 1 =? n_fakeswitches s) then mret (results, b)
    else test_switches i results b.

Fixpoint switch_loop (k : nat) (i : Z) (results : list (option D)) (b : bench) : res bench :=
  match k with
  | O => mret b
  | S k => '(results, b) ← one_switch i results b; switch_loop k (i + 1) results b
  end.

(** main after the options: malloc of a negative size fails. *)
Definition run_bench (ID : Z) : res bench :=
  c_assert (0 <=? n_fakeswitches s);;
  switch_loop (Z.to_nat (n_fakeswitches s)) 0 (arr_new (tests_per_loop s))
    {| b_switches := []; b_ID := ID; b_delay := bench_delay s; b_min := f_max; b_max := f_of_Z 0; b_lines := [];
       b_results := []; b_net := {| open_socks := []; tcp_nodelay := []; addr_lists := 0; socket_calls := 0 |} |}.
End tests.
Arguments bench : clear implicits.
