(* ===== verification/CbenchSpec.v ===== *)
(** * What the controller benchmark reports

    The result lines of a run related to the measured rates: which numbers of
    switches are tested, and over which results the statistics are taken. *)

From Stdlib Require QArith.
From S2P Require Import Prelude CTime CBytes CStr OpenFlow MsgBuf FakeSwitch FakeSwitchSpec MyArgs Cbench.
Open Scope Z_scope.

(** ** Bits *)

Lemma bit_of_testbit n i : bit_of n i = Z.testbit n (Z.of_nat i).
Proof.
  unfold bit_of. destruct (Z.testbit n (Z.of_nat i)) eqn:E.
  - apply negb_true_iff, Z.eqb_neq. intros H. apply (f_equal (λ z, Z.testbit z (Z.of_nat i))) in H.
    rewrite Z.land_spec, Z.shiftl_spec, Z.bits_0, E, Z.sub_diag in H by lia. done.
  - apply negb_false_iff, Z.eqb_eq, Z.bits_inj'. intros k Hk. rewrite Z.land_spec, Z.shiftl_spec, Z.bits_0 by lia.
    destruct (decide (k = Z.of_nat i)) as [->|]; [by rewrite E|].
    destruct (Z.ltb_spec k (Z.of_nat i)); [rewrite (Z.testbit_neg_r 1) by lia; apply andb_false_r|].
    replace 1 with (2^0) by done. rewrite Z.pow2_bits_false by lia. apply andb_false_r.
Qed.

(** A positive int has a bit. *)
Lemma count_bits_pos n : 0 < n ≤ INT_MAX → 0 < count_bits n.
Proof.
  unfold INT_MAX. intros Hn. unfold count_bits.
  assert (Z.log2 n < 31) as Hlt by (apply Z.log2_lt_pow2; lia). pose proof (Z.log2_nonneg n).
  assert (Z.to_nat (Z.log2 n) ∈ filter (λ i, bit_of n i = true) (seq 0 32)) as Hin.
  { apply list_elem_of_filter. split; [|apply elem_of_seq; lia].
    rewrite bit_of_testbit, Z2Nat.id by lia. apply Z.bit_log2. lia. }
  destruct (filter _ _); [by apply elem_of_nil in Hin|]. unfold zlen. cbn. lia.
Qed.

(** ** Connections *)

(** Every address list is released, on every path. *)
Lemma timeout_connect_releases E fd host port ms n r n' :
  timeout_connect E fd host port ms n = Ok (r, n') →
  addr_lists n' = addr_lists n ∧ open_socks n' = open_socks n ∧ socket_calls n' = socket_calls n.
Proof.
  unfold timeout_connect. destruct (sys_getaddrinfo _ _ _) as [err found].
  destruct found; cbn; intros H; res_inv;
    repeat match goal with H : context [match ?x with (_, _) => _ end] |- _ => destruct x end; res_inv;
    cbn; split_and!; try done; lia.
Qed.

Lemma make_tcp_connection_releases E host port ms nodelay n fd n' :
  make_tcp_connection E host port ms nodelay n = Ok (fd, n') → addr_lists n' = addr_lists n.
Proof.
  unfold make_tcp_connection, make_tcp_connection_from_port. intros H.
  destruct (sys_socket E _ <? 0); [done|].
  destruct (negb (nodelay =? 0) && _); [done|].
  destruct (negb (sys_bind _ _ =? 0)); [res_inv; by destruct (negb _)|].
  res_inv. destruct x as [err n1]. apply timeout_connect_releases in H as (Ha & _ & _).
  destruct (negb (err =? 0)); res_inv; cbn in *; rewrite Ha; by destruct (negb _).
Qed.

Section spec.
Context {OF : OpenFlow} {F D : Type} {Fl : Floating F} {Db : Floating D}.
Context (E : net_env) (turns : Z → Z → list round) (starts : Z → Z → timeval) (fuel : nat).
Context (mac0 : Z) (d0 : timeval).
Context (s : settings).
Implicit Types (b : bench D) (vs : list D) (results : list (option D)).
Local Notation test_loop := (test_loop (F := F) turns starts fuel s).
Local Notation test_switches := (test_switches (F := F) turns starts fuel s).
Local Notation one_switch := (one_switch (F := F) E turns starts fuel mac0 d0 s).
Local Notation switch_loop := (switch_loop (F := F) E turns starts fuel mac0 d0 s).

(** ** Specification *)

(** The results that count: the warm-up and cool-down tests are left out. *)
Definition counted vs : list D :=
  take (Z.to_nat (tests_per_loop s - cooldown s - warmup s)) (drop (Z.to_nat (warmup s)) vs).

Definition dmax (m v : D) : D := if f_lt m v then v else m.
Definition dmin (m v : D) : D := if f_lt v m then v else m.
Definition total vs : D := foldl f_add (f_of_Z 0) vs.
Definition counted_tests : Z := tests_per_loop s - warmup s - cooldown s.
Definition mean vs : D := f_div (total (counted vs)) (f_of_Z counted_tests).
Definition deviation vs : D :=
  f_sqrt (f_div (foldl (λ a x, f_add a (f_pow2 (f_sub x (mean vs)))) (f_of_Z 0) (counted vs)) (f_of_Z counted_tests)).

(** The line for [m] switches after the results [hist], of which [vs] are the
    last. *)
Definition line_for (m : Z) (hist : list (list D)) vs : result_line D :=
  {| rl_switches := m; rl_tests := counted_tests;
     rl_min := foldl dmin f_max (concat (counted <$> hist)); rl_max := foldl dmax (f_of_Z 0) (concat (counted <$> hist));
     rl_avg := mean vs; rl_std_dev := deviation vs |}.

(** ** A test keeps the number of switches *)

Lemma io_all_length r i fss fss' : io_all r i fss = Ok fss' → length fss' = length fss.
Proof.
  revert i fss'. induction fss as [|fs fss IH]; cbn; intros i fss' H; res_inv; [done|]. cbn. f_equal. by eapply IH.
Qed.

Lemma poll_loop_length rounds t w fss fss' d :
  poll_loop (F := F) rounds t w fss = Ok (fss', d) → length fss' = length fss.
Proof.
  revert fss. induction rounds as [|r rounds IH]; cbn; intros fss H; res_inv; [done|].
  rewrite (IH _ H0). by eapply io_all_length.
Qed.

Lemma counts_length n (a : D) fss x fss' : counts n a fss = Ok (x, fss') → length fss' = length fss.
Proof.
  revert a x fss'. induction fss as [|fs fss IH]; cbn; intros a x fss' H; res_inv; [done|].
  destruct x0. res_inv. destruct x0. res_inv. cbn. f_equal. by eapply IH.
Qed.

Lemma run_test_length rounds n t fss ms d x fss' :
  run_test (F := F) (D := D) rounds n t fss ms d = Ok (x, fss') → length fss' = length fss.
Proof.
  unfold run_test. intros H. res_inv. destruct x1 as [f1 df]. res_inv. destruct x1 as [sm f2]. res_inv.
  rewrite (counts_length _ _ _ _ _ H1). by eapply poll_loop_length.
Qed.

(** ** The loop over the tests *)

(** The results that are not skipped, from test [j] on. *)
Fixpoint unskipped (j : Z) vs : list D :=
  match vs with
  | [] => []
  | v :: vs => if skipped s j then unskipped (j + 1) vs else v :: unskipped (j + 1) vs
  end.

Lemma unskipped_counted vs :
  0 ≤ warmup s → 0 ≤ cooldown s → zlen vs = tests_per_loop s → unskipped 0 vs = counted vs.
Proof.
  intros Hw Hc Hl.
  assert (∀ j us, 0 ≤ j → j + zlen us = tests_per_loop s →
            unskipped j us = take (Z.to_nat (tests_per_loop s - cooldown s - Z.max j (warmup s)))
                                  (drop (Z.to_nat (warmup s - j)) us)) as H.
  { intros j us. revert j. induction us as [|v us IH]; intros j Hj Hjl; [by rewrite drop_nil, take_nil|].
    change (v :: us) with ([v] ++ us) in Hjl. rewrite zlen_app in Hjl. change (zlen [v]) with 1 in Hjl.
    cbn [unskipped]. unfold skipped. destruct (j <? warmup s) eqn:E1; cbn [orb].
    - rewrite IH by lia. replace (Z.to_nat (warmup s - j)) with (S (Z.to_nat (warmup s - (j + 1)))) by lia.
      cbn [drop]. f_equal. lia.
    - replace (Z.to_nat (warmup s - j)) with 0%nat by lia. rewrite drop_0.
      destruct (j >=? tests_per_loop s - cooldown s) eqn:E2; rewrite IH by lia;
        replace (Z.to_nat (warmup s - (j + 1))) with 0%nat by lia; rewrite drop_0.
      + by replace (Z.to_nat (tests_per_loop s - cooldown s - Z.max j (warmup s))) with 0%nat by lia;
          replace (Z.to_nat (tests_per_loop s - cooldown s - Z.max (j + 1) (warmup s))) with 0%nat by lia.
      + replace (Z.to_nat (tests_per_loop s - cooldown s - Z.max j (warmup s)))
          with (S (Z.to_nat (tests_per_loop s - cooldown s - Z.max (j + 1) (warmup s)))) by lia.
        done. }
  rewrite (H 0 vs) by lia. unfold counted. rewrite Z.max_r by lia. by rewrite Z.sub_0_r.
Qed.

(** What a number of tests leaves untouched. *)
Definition kept b : Z * list (result_line D) * list (list D) * net * nat :=
  (b_ID b, b_lines b, b_results b, b_net b, length (b_switches b)).

Lemma test_loop_spec k i j results sum b results' sum' b' :
  test_loop k i j results sum b = Ok (results', sum', b') →
  0 ≤ j → j + Z.of_nat k = zlen results →
  ∃ vs, length vs = k ∧ results' = take (Z.to_nat j) results ++ (Some <$> vs) ∧
    sum' = foldl f_add sum (unskipped j vs) ∧
    b_max b' = foldl dmax (b_max b) (unskipped j vs) ∧ b_min b' = foldl dmin (b_min b) (unskipped j vs) ∧
    kept b' = kept b.
Proof.
  revert j results sum b. induction k as [|k IH]; intros j results sum b H Hj Hl; cbn [Cbench.test_loop] in H.
  - res_inv. exists []. split_and!; try done. rewrite app_nil_r, take_ge; [done|unfold zlen in Hl; lia].
  - set (b1 := if j >? 0 then b <| b_delay := 0 |> else b) in H.
    assert (b_max b1 = b_max b ∧ b_min b1 = b_min b ∧ kept b1 = kept b) as (Hmax & Hmin & Hk)
      by (subst b1; by destruct (j >? 0)).
    clearbody b1. res_inv. destruct x as [r fss]. apply run_test_length in H. apply bind_Ok in H0 as (results1 & H0 & H1).
    set (v := f_mul (f_of_Z 1000) r) in *. clearbody v.
    rewrite arr_write_ok in H0 by lia. injection H0 as <-.
    assert (∀ sum1 b2, test_loop k i (j + 1) (zset results j (Some v)) sum1 b2 = Ok (results', sum', b') →
      ∃ vs, length vs = k ∧ results' = take (Z.to_nat j) results ++ (Some <$> v :: vs) ∧
        sum' = foldl f_add sum1 (unskipped (j + 1) vs) ∧
        b_max b' = foldl dmax (b_max b2) (unskipped (j + 1) vs) ∧
        b_min b' = foldl dmin (b_min b2) (unskipped (j + 1) vs) ∧ kept b' = kept b2) as Hnext.
    { intros sum1 b2 H2. destruct (IH _ _ _ _ H2) as (vs & Hvs & Hr & Hrest); [lia|rewrite zlen_zset; lia|].
      exists vs. split; [done|]. split; [|done]. rewrite Hr. cbn [fmap list_fmap].
      rewrite zset_nonneg by lia. replace (Z.to_nat (j + 1)) with (S (Z.to_nat j)) by lia.
      rewrite (take_S_r _ _ (Some v)) by (apply list_lookup_insert_eq; unfold zlen in Hl; lia).
      rewrite take_insert_ge by lia. by rewrite <-app_assoc. }
    destruct (skipped s j) eqn:Es.
    + destruct (Hnext _ _ H1) as (vs & Hvs & Hr & Hs & Hma & Hmi & Hke). exists (v :: vs).
      cbn [length unskipped]. rewrite Es, Hma, Hmi, Hke. cbn [b_max b_min assign].
      split_and!; [by rewrite Hvs|done|done|by rewrite <-Hmax|by rewrite <-Hmin|].
      rewrite <-Hk. unfold kept. cbn. by rewrite H.
    + match type of H1 with test_loop _ _ _ _ _ ?x = _ => set (b2 := x) in H1 end.
      assert (b_max b2 = dmax (b_max b) v ∧ b_min b2 = dmin (b_min b) v ∧ kept b2 = kept b) as (Hm2 & Hn2 & Hk2).
      { subst b2. rewrite <-Hmax, <-Hmin, <-Hk. unfold dmax, dmin, kept. cbn [b_max assign].
        destruct (f_lt (b_max b1) v); cbn; destruct (f_lt v (b_min b1)); cbn; by rewrite H. }
      clearbody b2. destruct (Hnext _ _ H1) as (vs & Hvs & Hr & Hs & Hma & Hmi & Hke). exists (v :: vs).
      cbn [length unskipped]. rewrite Es, Hma, Hmi, Hke, Hm2, Hn2. cbn [foldl].
      split_and!; [by rewrite Hvs|done..].
Qed.

(** ** The lines *)

Context (Hwarm : 0 ≤ warmup s) (Hcool : 0 ≤ cooldown s) (Htests : warmup s + cooldown s < tests_per_loop s ≤ INT_MAX).

Lemma dev_loop_spec k j vs pre us (avg sum : D) :
  vs = pre ++ us → zlen pre = j → (k ≤ length us)%nat →
  dev_loop k j (Some <$> vs) avg sum = Ok (foldl (λ a x, f_add a (f_pow2 (f_sub x avg))) sum (take k us)).
Proof.
  revert j pre us sum. induction k as [|k IH]; intros j pre us sum -> <- Hk; [done|].
  destruct us as [|u us]; [cbn in Hk; lia|]. cbn [dev_loop take foldl].
  assert (arr_read (Some <$> pre ++ u :: us) (zlen pre) = Ok u) as ->.
  { apply arr_read_Ok. rewrite zget_nonneg by apply zlen_nonneg. unfold zlen. rewrite Nat2Z.id.
    rewrite list_lookup_fmap, list_lookup_middle; done. }
  cbn [mbind res_bind]. apply (IH _ (pre ++ [u])); [by rewrite <-app_assoc|by rewrite zlen_app|cbn in Hk; lia].
Qed.

Lemma written_all vs : written (Some <$> vs) = vs.
Proof. unfold written. induction vs as [|v vs IH]; [done|]. cbn. by rewrite IH. Qed.

(** The extremes are those of everything counted so far. *)
Definition extremes b : Prop :=
  b_min b = foldl dmin f_max (concat (counted <$> b_results b)) ∧
  b_max b = foldl dmax (f_of_Z 0) (concat (counted <$> b_results b)).

Lemma test_switches_spec i results b results' b' :
  test_switches i results b = Ok (results', b') → zlen results = tests_per_loop s → extremes b →
  ∃ vs, zlen vs = tests_per_loop s ∧ zlen results' = tests_per_loop s ∧ extremes b' ∧
    b_results b' = b_results b ++ [vs] ∧ b_lines b' = b_lines b ++ [line_for (i + 1) (b_results b') vs] ∧
    b_net b' = b_net b ∧ length (b_switches b') = length (b_switches b).
Proof.
  unfold Cbench.test_switches. intros H Hl [Hmin Hmax]. apply bind_Ok in H as ([[results1 sum] b1] & Hloop & H).
  apply test_loop_spec in Hloop as (vs & Hvs & -> & -> & Hma & Hmi & Hk); [|lia|lia].
  assert (zlen vs = tests_per_loop s) as Hz by (unfold zlen; lia).
  change (Z.to_nat 0) with 0%nat in *. rewrite unskipped_counted in * by done. cbn [take app] in H.
  rewrite (chk_int_ok (tests_per_loop s - warmup s)) in H by (unfold is_int, INT_MIN; lia). cbn [mbind res_bind] in H.
  rewrite chk_int_ok in H by (unfold is_int, INT_MIN; lia). cbn [mbind res_bind] in H.
  rewrite (dev_loop_spec _ _ vs (take (Z.to_nat (warmup s)) vs) (drop (Z.to_nat (warmup s)) vs)) in H;
    [|by rewrite take_drop|unfold zlen in *; rewrite length_take; lia|rewrite length_drop; unfold zlen in *; lia].
  cbn [mbind res_bind] in H. injection H as <- <-.
  assert (extremes (b1 <| b_results := b_results b ++ [vs] |>)) as [He1 He2].
  { unfold extremes. cbn. rewrite fmap_app, concat_app, !foldl_app. cbn. rewrite app_nil_r.
    by rewrite <-Hmin, <-Hmax. }
  unfold kept in Hk. injection Hk as Hid Hli Hre Hne Hsw.
  exists vs. cbn. rewrite written_all, Hre, Hli. split_and!; try done.
  - unfold zlen. by rewrite length_fmap.
  - cbn in He1, He2. unfold line_for, mean, deviation, counted_tests, total, counted at 3. by rewrite He1, He2.
Qed.

(** ** All numbers of switches *)

Definition is_tested (m : Z) : Prop := should_test_range s ≠ 0 ∨ m = n_fakeswitches s.
#[local] Instance is_tested_dec m : Decision (is_tested m).
Proof. unfold is_tested. apply _. Defined.

(** After [i] switches were connected. *)
Record reported (i : Z) b : Prop := {
  rp_switches : zlen (b_switches b) = i;
  rp_tested : rl_switches <$> b_lines b = filter is_tested (seqZ 1 i);
  rp_extremes : extremes b;
  rp_length : length (b_results b) = length (b_lines b);
  rp_lines : ∀ k line vs, b_lines b !! k = Some line → b_results b !! k = Some vs →
    zlen vs = tests_per_loop s ∧ line = line_for (rl_switches line) (take (S k) (b_results b)) vs;
  rp_net : addr_lists (b_net b) = 0;
}.

(** A switch that is connected but not tested. *)
Lemma reported_untested i b :
  reported i b → 0 ≤ i → ∀ b', zlen (b_switches b') = i + 1 → b_lines b' = b_lines b → b_results b' = b_results b →
  b_min b' = b_min b → b_max b' = b_max b → addr_lists (b_net b') = 0 → ¬ is_tested (i + 1) → reported (i + 1) b'.
Proof.
  intros [Hs Ht [Hmi Hma] Hl Hli Hn] Hi b' Hs' El Er Emi Ema En Hnt. split; try done.
  - rewrite El, Ht, (seqZ_app 1 i 1), filter_app by lia. change (seqZ (1 + i) 1) with [1 + i].
    rewrite (filter_cons_False is_tested); [by rewrite filter_nil, app_nil_r|].
    by replace (1 + i) with (i + 1) by lia.
  - unfold extremes. by rewrite Emi, Ema, Er.
  - by rewrite Er, El.
  - by rewrite Er, El.
Qed.

(** A tested number adds one line. *)
Lemma reported_tested i b vs b' :
  reported i b → 0 ≤ i → is_tested (i + 1) → zlen vs = tests_per_loop s → extremes b' →
  zlen (b_switches b') = i + 1 → b_results b' = b_results b ++ [vs] →
  b_lines b' = b_lines b ++ [line_for (i + 1) (b_results b') vs] → addr_lists (b_net b') = 0 → reported (i + 1) b'.
Proof.
  intros [Hs Ht _ Hl Hli Hn] Hi Htst Hz Hex Hs' Er El En. split; try done.
  - rewrite El, fmap_app, Ht, (seqZ_app 1 i 1), filter_app by lia. change (seqZ (1 + i) 1) with [1 + i].
    rewrite (filter_cons_True is_tested) by (by replace (1 + i) with (i + 1) by lia).
    rewrite filter_nil. cbn. do 2 f_equal. lia.
  - rewrite Er, El, !length_app, Hl. done.
  - intros k line us Hk Hu. rewrite El in Hk. rewrite Er in Hu |- *.
    destruct (decide (k < length (b_lines b))%nat).
    + rewrite lookup_app_l in Hk by done. rewrite lookup_app_l in Hu by lia. rewrite take_app_le by lia.
      by apply Hli.
    + rewrite lookup_app_r in Hk by lia. rewrite lookup_app_r in Hu by lia.
      apply list_lookup_singleton_Some in Hk as [Hk0 <-]. apply list_lookup_singleton_Some in Hu as [Hu0 <-].
      split; [done|]. rewrite take_ge by (rewrite length_app; cbn; lia). cbn [rl_switches line_for]. by rewrite Er.
Qed.

Lemma one_switch_spec i results b results' b' :
  one_switch i results b = Ok (results', b') → 0 ≤ i < INT_MAX → zlen results = tests_per_loop s → reported i b →
  zlen results' = tests_per_loop s ∧ reported (i + 1) b'.
Proof.
  unfold Cbench.one_switch. intros H Hi Hl Hr. apply bind_Ok in H as ([fd n] & Hc & H).
  apply make_tcp_connection_releases in Hc. destruct (fd <? 0); [done|].
  apply bind_Ok in H as ([fs id] & _ & H).
  assert (count_bits (i + 1) =? 0 = false) as E0 by (pose proof (count_bits_pos (i + 1)); lia). rewrite E0 in H.
  match type of H with (if _ then mret (_, ?x) else _) = _ => set (b1 := x) in H end.
  assert (zlen (b_switches b1) = i + 1) as Hs1.
  { subst b1. cbn. rewrite zlen_app, (rp_switches _ _ Hr). done. }
  assert (addr_lists (b_net b1) = 0) as Hn1 by (subst b1; cbn; rewrite Hc; by apply (rp_net _ _ Hr)).
  destruct ((should_test_range s =? 0) && negb (i + 1 =? n_fakeswitches s)) eqn:Et.
  - injection H as <- <-. split; [done|]. apply (reported_untested i b); try done; [lia|]. unfold is_tested. lia.
  - assert (extremes b1) as Hex by apply (rp_extremes _ _ Hr).
    apply test_switches_spec in H as (vs & Hvs & Hl' & Hex' & Er & El & En & Esw); try done.
    split; [done|]. apply (reported_tested i b vs); try done; [lia|unfold is_tested; lia|..].
    + unfold zlen in *. by rewrite Esw.
    + by rewrite En.
Qed.

Lemma switch_loop_spec k i results b b' :
  switch_loop k i results b = Ok b' → 0 ≤ i → i + Z.of_nat k ≤ INT_MAX → zlen results = tests_per_loop s →
  reported i b → reported (i + Z.of_nat k) b'.
Proof.
  revert i results b. induction k as [|k IH]; intros i results b H Hi Hk Hl Hr; cbn [Cbench.switch_loop] in H.
  - injection H as <-. by rewrite Z.add_0_r.
  - apply bind_Ok in H as ([results1 b1] & H1 & H).
    destruct (one_switch_spec _ _ _ _ _ H1) as [Hl1 Hr1]; [lia|done|done|].
    replace (i + Z.of_nat (S k)) with (i + 1 + Z.of_nat k) by lia. eapply IH; [exact H|lia..|done|done].
Qed.

(** C40. The result lines of a benchmark that ends.  With the range option
    there is one line for every number of switches from 1 to n, not only for
    powers of two; without it, one for n.  Mean and deviation are taken over
    the tests between warm-up and cool-down of that number of switches, but
    the minimum and the maximum over those of all numbers tested so far. *)
Theorem bench_lines ID b :
  is_int (n_fakeswitches s) → run_bench (F := F) E turns starts fuel mac0 d0 s ID = Ok b →
  zlen (b_switches b) = n_fakeswitches s ∧
  rl_switches <$> b_lines b = filter is_tested (seqZ 1 (n_fakeswitches s)) ∧
  length (b_results b) = length (b_lines b) ∧
  ∀ k line vs, b_lines b !! k = Some line → b_results b !! k = Some vs →
    zlen vs = tests_per_loop s ∧ line = line_for (rl_switches line) (take (S k) (b_results b)) vs.
Proof.
  unfold run_bench. intros [_ Hn] H. unfold c_assert in H. destruct (0 <=? n_fakeswitches s) eqn:E0; [|done].
  cbn [mbind res_bind] in H. apply switch_loop_spec in H; [|lia|lia|..].
  - rewrite Z.add_0_l, Z2Nat.id in H by lia. by destruct H.
  - rewrite zlen_arr_new; lia.
  - by split.
Qed.
End spec.

(** ** A run *)

(** Rational arithmetic in place of floating point. *)
#[local] Instance rational : Floating QArith_base.Q := {
  f_of_Z z := QArith_base.Qmake z 1;
  f_add a b := Qreduction.Qred (QArith_base.Qplus a b);
  f_sub a b := Qreduction.Qred (QArith_base.Qminus a b);
  f_mul a b := Qreduction.Qred (QArith_base.Qmult a b);
  f_div a b := Qreduction.Qred (QArith_base.Qdiv a b);
  f_lt a b := (QArith_base.Qnum a * Z.pos (QArith_base.Qden b) <? QArith_base.Qnum b * Z.pos (QArith_base.Qden a));
  f_pow2 a := Qreduction.Qred (QArith_base.Qmult a a);
  f_sqrt a := QArith_base.Qmake (Z.sqrt (QArith_base.Qnum a * Z.pos (QArith_base.Qden a))) (QArith_base.Qden a);
  f_max := QArith_base.Qmake (10^9) 1;
}.

(** A controller that accepts every connection and sends each switch two
    packets to send. *)
Definition demo_net : net_env :=
  {| sys_getaddrinfo := λ _ _, (0, true); sys_getfl := λ _, 0; sys_setfl := λ _, 0;
     sys_connect := λ _, (-1, EINPROGRESS); sys_select := λ _ _, 1; sys_socket := λ k, 3 + Z.of_nat k;
     sys_setsockopt := λ _ _, 0; sys_bind := λ _, 0;
     sys_stream := λ fd, {| rx := [RdErr EAGAIN; RdData (demo_packet_out ++ demo_packet_out)]; tx := []; sent := []; errno := 0 |} |}.

(** A turn, and the one that ends the test; the only socket that ever becomes
    readable is the second switch's, in the second test of two switches. *)
Definition demo_turns (i j : Z) : list round :=
  let turn t ev := {| rd_now := {| tv_sec := t; tv_usec := 0 |}; rd_revents := λ k, if Z.of_nat k =? i then ev else 0;
                      rd_clock := λ _ _, {| tv_sec := 0; tv_usec := 0 |};
                      rd_write := λ _, {| tv_sec := 0; tv_usec := 0 |}; rd_fuel := 4 |} in
  [turn 0 (if (i =? 1) && (j =? 1) then 1 else 0); turn 2 0].

Definition demo_settings : settings :=
  {| controller_hostname := str "localhost"; controller_port := 6633; n_fakeswitches := 2; bench_macs := 100;
     mstestlen := 1000; should_test_range := 1; tests_per_loop := 3; debug := 0; warmup := 1; cooldown := 1;
     bench_delay := 0; bench_mode := MODE_LATENCY |}.

Local Notation demo_bench :=
  (@run_bench of10 _ _ rational rational demo_net demo_turns (λ _ _, {| tv_sec := 0; tv_usec := 0 |}) 4%nat 0
    {| tv_sec := 0; tv_usec := 0 |} demo_settings 1).

(** The second line reports the minimum of the first: its only counted result
    is 1. *)
Lemma demo_bench_lines :
  (b ← demo_bench; mret ((λ l, (rl_switches l, rl_tests l, rl_min l, rl_max l, rl_avg l)) <$> b_lines b)) =
  Ok [(1, 1, f_of_Z 0, f_of_Z 0, f_of_Z 0); (2, 1, f_of_Z 0, f_of_Z 1, f_of_Z 1)].
Proof. vm_compute. reflexivity. Qed.

Lemma bench_lines_witness :
  ∃ b, demo_bench = Ok b ∧ length (b_lines b) = 2%nat ∧
    ∀ k line vs, b_lines b !! k = Some line → b_results b !! k = Some vs →
      zlen vs = 3 ∧ line = line_for demo_settings (rl_switches line) (take (S k) (b_results b)) vs.
Proof.
  pose proof demo_bench_lines as H. apply bind_Ok in H as (b & Hb & H). exists b. split; [exact Hb|].
  pose proof (@bench_lines of10 QArith_base.Q QArith_base.Q rational rational demo_net demo_turns
                (λ _ _, {| tv_sec := 0; tv_usec := 0 |}) 4%nat 0 {| tv_sec := 0; tv_usec := 0 |} demo_settings) as T.
  specialize (T ltac:(vm_compute; congruence) ltac:(vm_compute; congruence) ltac:(vm_compute; split; congruence)
                1 b ltac:(vm_compute; split; congruence)).
  specialize (T Hb). destruct T as (_ & _ & _ & Hl).
  split; [|exact Hl]. injection H as H. apply (f_equal length) in H. by rewrite length_fmap in H.
Defined.
