(* ===== verification/Context.v ===== *)
(** * The context and its channels (context.c, channel_info.c)

    The configuration every other part reads: the context with its growing
    array of channels, the initialisation and SNMP configuration of a channel,
    and the set-up of packet capture.  libpcap, the NetFPGA library and the
    interface table of the kernel are parameters. *)

From S2P Require Import Prelude CTime CBytes CStr OpenFlow MsgBuf PcapTrack.
Open Scope Z_scope.

(** ** Data *)

(** [struct traf_gen_det] *)
Record traf_gen_det := {
  src_ip : cstring;
  dst_ip_max : cstring;
  dst_ip_min : cstring;
  mac_dst : cstring;
  mac_src : cstring;
  udp_src_port : Z;
  udp_dst_port : Z;
  pkt_size : Z;
  vlan : Z;
  vlan_p : Z;
  vlan_cfi : Z;
  gen_delay : Z;  (* delay *)
  pkt_count : Z;
  gen_flags : cstring;  (* flags *)
}.
#[export] Instance traf_gen_det_rebuild : Rebuild traf_gen_det := λ d,
  {| src_ip := src_ip d; dst_ip_max := dst_ip_max d; dst_ip_min := dst_ip_min d;
     mac_dst := mac_dst d; mac_src := mac_src d; udp_src_port := udp_src_port d;
     udp_dst_port := udp_dst_port d; pkt_size := pkt_size d; vlan := vlan d;
     vlan_p := vlan_p d; vlan_cfi := vlan_cfi d; gen_delay := gen_delay d;
     pkt_count := pkt_count d; gen_flags := gen_flags d |}.

(** [struct channel_info] *)
Record channel_info := {
  dev : option cstring;
  pcap_handle : Z;  (* 0 for NULL *)
  pcap_fd : Z;
  raw_sock : Z;
  ch_sock : Z;  (* sock *)
  ifindex : Z;
  of_port : Z;
  packet_len : Z;
  timestamps : option ptrack_list;
  outgoing : option msgbuf;
  det : option traf_gen_det;
  dump : Z;  (* 0 for NULL *)
  inOID : list (option Z);
  inOID_len : Z;
  outOID : list (option Z);
  outOID_len : Z;
  cap_type : Z;
  nf_cap : Z;  (* 0 for NULL *)
}.
#[export] Instance channel_info_rebuild : Rebuild channel_info := λ c,
  {| dev := dev c; pcap_handle := pcap_handle c; pcap_fd := pcap_fd c; raw_sock := raw_sock c;
     ch_sock := ch_sock c; ifindex := ifindex c; of_port := of_port c;
     packet_len := packet_len c; timestamps := timestamps c; outgoing := outgoing c;
     det := det c; dump := dump c; inOID := inOID c; inOID_len := inOID_len c;
     outOID := outOID c; outOID_len := outOID_len c; cap_type := cap_type c;
     nf_cap := nf_cap c |}.

(** A function pointer of a module: a symbol of its library, or one of the
    defaults of module_default.c. *)
Inductive fptr := Null | Symbol (handle : Z) (sym : cstring) | Default (sym : cstring).

(** [struct test_module] *)
Record test_module := {
  m_name : fptr; m_init : fptr; m_destroy : fptr; m_get_pcap_filter : fptr; m_start : fptr;
  m_handle_pcap_event : fptr; m_of_event_packet_in : fptr; m_of_event_flow_removed : fptr;
  m_of_event_echo_request : fptr; m_of_event_port_status : fptr; m_of_event_other : fptr;
  m_of_message : fptr; m_handle_timer_event : fptr; symbol_handle : Z;
  m_handle_snmp_event : fptr; m_handle_traffic_generation : fptr; m_get_openflow_versions : fptr;
}.

(** What the program sets of the SNMP library's [struct snmp_session]. *)
Record snmp_session := { peername : cstring; community : cstring; community_len : Z }.

(** [struct snmp_channel] *)
Record snmp_channel := {
  hostname : option cstring;
  community_string : option cstring;
  session : option snmp_session;   (* None until setup_snmp_channel *)
  req : Z;                         (* 0 for NULL *)
}.

(** [struct oflops_context]; the timer queue is kept apart *)
Record oflops_context := {
  n_tests : Z;
  max_tests : Z;
  tests : list test_module;
  curr_test : option test_module;
  listen_port : Z;
  snaplen : Z;
  n_channels : Z;
  max_channels : Z;
  channels : list channel_info;  (* max_channels of them *)
  of_versions : list Z;
  end_traffic_generation : Z;
  end_module : Z;
  end_event : Z;
  tls_cert : option cstring;
  tls_privkey : option cstring;
  tls_trustedcert : option cstring;
  snmp_channel_info : snmp_channel;
  fluid_control : Z;  (* 0 for NULL *)
  should_continue : Z;
  started : Z;
  dump_controller : Z;
  log : cstring;
  trafficGen : Z;
  cpuOID : list (list (option Z) * Z);  (* cpuOID, cpuOID_len *)
}.
#[export] Instance oflops_context_rebuild : Rebuild oflops_context := λ c,
  {| n_tests := n_tests c; max_tests := max_tests c; tests := tests c;
     curr_test := curr_test c; listen_port := listen_port c; snaplen := snaplen c;
     n_channels := n_channels c; max_channels := max_channels c; channels := channels c;
     of_versions := of_versions c; end_traffic_generation := end_traffic_generation c;
     end_module := end_module c; end_event := end_event c; tls_cert := tls_cert c;
     tls_privkey := tls_privkey c; tls_trustedcert := tls_trustedcert c;
     snmp_channel_info := snmp_channel_info c; fluid_control := fluid_control c;
     should_continue := should_continue c; started := started c;
     dump_controller := dump_controller c; log := log c; trafficGen := trafficGen c;
     cpuOID := cpuOID c |}.

(** enum trafficGenValues, trafficCapValues *)
Definition USER_SPACE : Z := 1.
Definition PKTGEN : Z := 2.
Definition NF_PKTGEN : Z := 3.
Definition PCAP : Z := 1.
Definition NF2 : Z := 2.
Definition OFLOPS_CONTROL : Z := 0.

Definition get_channel (c : oflops_context) (i : Z) : res channel_info :=
  match zget (channels c) i with Some ch => Ok ch | None => Fault FBounds end.
Definition put_channel (i : Z) (ch : channel_info) (c : oflops_context) : oflops_context :=
  c <| channels := zset (channels c) i ch |>.

(** ** context.c *)

Section context.
Context {OF : OpenFlow}.

(** The channels are allocated but not cleared: until it is initialised,
    channel [i] is [junk i]. *)
Context (junk : Z → channel_info).

Definition oflops_default_context : oflops_context :=
  {| n_tests := 0; max_tests := 10; tests := []; curr_test := None; listen_port := OFP_TCP_PORT;
     snaplen := 112; n_channels := 1; max_channels := 10;
     channels := zset (junk <$> seqZ 0 10) OFLOPS_CONTROL (junk OFLOPS_CONTROL <| raw_sock := -1 |>);
     of_versions := []; end_traffic_generation := 0; end_module := 0; end_event := 0;
     tls_cert := None; tls_privkey := None; tls_trustedcert := None; 
     snmp_channel_info := {| hostname := None; community_string := None; session := None; req := 0 |};
     fluid_control := 0; should_continue := 0; started := 0; dump_controller := 0;
     log := str "oflops.log"; trafficGen := PKTGEN; cpuOID := [] |}.

(** A library is open as often as it was opened. *)
Fixpoint dlclose (h : Z) (open_libs : list Z) : list Z :=
  match open_libs with
  | [] => []
  | l :: r => if l =? h then r else l :: dlclose h r
  end.

(** reset_context closes the library of the previous module and resets
    nothing; [open_libs] are the library handles that are open. *)
Definition reset_context (open_libs : list Z) (c : oflops_context) : list Z :=
  match curr_test c with
  | Some m => dlclose (symbol_handle m) open_libs
  | None => open_libs
  end.

(** ** channel_info.c *)

(** MAX_OID_LEN of the SNMP library and the kernel's interface table. *)
Context (MAX_OID_LEN : Z) (if_index : cstring → option Z).

Definition IFNAMSIZ : nat := 16.

(** "eth1:3" names a device and a switch port. *)
Definition channel_info_init (d : cstring) : res channel_info :=
  let '(d, port) := match split_at 58 d with
                    | Some (d, p) => (d, atoi p)
                    | None => (d, -1)
                    end in
  match if_index (take IFNAMSIZ d) with
  | None => Fault (FExit 1)
  | Some ix =>
    out ← msgbuf_new 4096;
    mret {| dev := Some d; pcap_handle := 0; pcap_fd := -1; raw_sock := -1; ch_sock := -1;
            ifindex := ix; of_port := port; packet_len := 0; timestamps := None;
            outgoing := Some out; det := None; dump := 0;
            inOID := replicate (Z.to_nat MAX_OID_LEN) (Some 0); inOID_len := MAX_OID_LEN;
            outOID := replicate (Z.to_nat MAX_OID_LEN) (Some 0); outOID_len := MAX_OID_LEN;
            cap_type := PCAP; nf_cap := 0 |}
  end.

(** The array of channels doubles when it is full. *)
Definition grow_channels (c : oflops_context) : oflops_context :=
  if n_channels c >=? max_channels c
  then c <| channels := channels c ++ (junk <$> seqZ (max_channels c) (max_channels c)) |>
         <| max_channels := max_channels c * 2 |>
  else c.

(** A new data channel at the end of the array; shared by the command line and
    the configuration file. *)
Definition add_data_channel (d : cstring) (c : oflops_context) : res oflops_context :=
  let c := grow_channels c in
  ch ← channel_info_init d;
  _ ← get_channel c (n_channels c);
  mret (put_channel (n_channels c) ch c <| n_channels := n_channels c + 1 |>).

(** *** Object identifiers *)

(** The characters before the terminator, from position [p] of the array. *)
Fixpoint until_nul (s : list Z) : cstring :=
  match s with c :: s => if c =? 0 then [] else c :: until_nul s | [] => [] end.

(** The inner loop: the next dot or terminator at or after [tmp]. *)
Fixpoint scan_oid (fuel : nat) (a : list Z) (tmp : Z) : res Z :=
  match fuel with
  | O => Fault FFuel
  | S fuel =>
    match zget a tmp with
    | None => Fault FBounds
    | Some c => if negb (c =? 46) && negb (c =? 0) then scan_oid fuel a (tmp + 1) else mret tmp
    end
  end.

(** The outer loop.  [a]: the array with the string, whose dots are replaced by
    terminators as it goes; [out]: the array of numbers; [n]: *out_oid_len. *)
Fixpoint read_oid_loop (fuel : nat) (a : list Z) (len p : Z) (out : list (option Z)) (oid_len n : Z) :
    res (list Z * list (option Z) * Z) :=
  match fuel with
  | O => Fault FFuel
  | S fuel =>
    tmp ← scan_oid (S (length a)) a p;
    let a := zset a tmp 0 in
    let tmp := tmp + 1 in
    out ← arr_write out n (u64 (strtol 10 (until_nul (drop (Z.to_nat p) a))));
    if oid_len =? n then mret (a, out, n)
    else
      let n := n + 1 in
      if tmp >=? len then mret (a, out, n) else read_oid_loop fuel a len tmp out oid_len n
  end.

(** my_read_objid on the string [s], whose array ends with its terminator. *)
Definition my_read_objid (s : cstring) (out : list (option Z)) (oid_len : Z) :
    res (list (option Z) * Z) :=
  '(_, out, n) ← read_oid_loop (S (length s)) (s ++ [0]) (zlen s) 0 out oid_len 0;
  mret (out, n).

Definition setup_channel_snmp (ch : Z) (in_oid out_oid : option cstring) (c : oflops_context) :
    res oflops_context :=
  x ← get_channel c ch;
  x ← match in_oid with
      | None => mret (x <| inOID_len := 0 |>)
      | Some s => '(o, n) ← my_read_objid s (inOID x) MAX_OID_LEN; mret (x <| inOID := o |> <| inOID_len := n |>)
      end;
  x ← match out_oid with
      | None => mret (x <| outOID_len := 0 |>)
      | Some s => '(o, n) ← my_read_objid s (outOID x) MAX_OID_LEN; mret (x <| outOID := o |> <| outOID_len := n |>)
      end;
  mret (put_channel ch x c).
End context.

(** *** Capture *)

(** libpcap and the NetFPGA library, as their answers (0 is NULL). *)
Record capture_env := {
  pcap_lookupdev : option cstring;
  pcap_open_live : cstring → Z → Z;          (* device, snapshot length *)
  pcap_dump_open : Z → Z;
  pcap_compile : Z → cstring → Z;
  pcap_setfilter : Z → Z;
  pcap_get_selectable_fd : Z → Z;
  nf_cap_enable : cstring → Z → Z;
  nf_cap_fileno : Z → Z;
}.

(** The file the control channel is dumped to. *)
Definition open_dump (E : capture_env) (dump_controller h : Z) : res Z :=
  if negb (dump_controller =? 0) then
    if pcap_dump_open E h =? 0 then Fault (FExit 1) else mret (pcap_dump_open E h)
  else mret 0.

(** Capture through libpcap. *)
Definition setup_pcap (E : capture_env) (control : bool) (d : cstring) (snap dump_ctl : Z)
    (filter : cstring) (x : channel_info) : res channel_info :=
  let h := pcap_open_live E d (if control then 65000 else snap) in
  dp ← (if control then open_dump E dump_ctl h else mret (dump x));
  if h =? 0 then Fault (FExit 1)
  else if negb (pcap_compile E h filter =? 0) then Fault (FExit 1)
  else if pcap_setfilter E h =? -1 then Fault (FExit 1)
  else mret (x <| pcap_handle := h |> <| dump := dp |> <| pcap_fd := pcap_get_selectable_fd E h |>).

(** [filter]: what get_pcap_filter of the module answers: its result and the
    text it wrote. *)
Definition setup_channel (E : capture_env) (mod_filter : Z → Z * cstring) (ch : Z) (c : oflops_context) :
    res oflops_context :=
  x ← get_channel c ch;
  x ← match dev x with
      | Some _ => mret x
      | None => match pcap_lookupdev E with
                | Some d => mret (x <| dev := Some d |>)
                | None => Fault (FExit 1)
                end
      end;
  let '(n, text) := mod_filter ch in
  if (n <=? 0) && negb (ch =? OFLOPS_CONTROL) then mret (put_channel ch (x <| pcap_handle := 0 |>) c)
  else
    let text := if n <=? 0 then str "tcp port " ++ dec (listen_port c) else text in
    match dev x with
    | None => Fault FAssert
    | Some d =>
      x ← (if (ch =? OFLOPS_CONTROL) || (cap_type x =? PCAP)
           then setup_pcap E (ch =? OFLOPS_CONTROL) d (snaplen c) (dump_controller c) text x
           else if cap_type x =? NF2 then
             let h := nf_cap_enable E d (snaplen c) in
             mret (x <| nf_cap := h |> <| pcap_fd := nf_cap_fileno E h |>)
           else Fault (FExit 1));
      mret (put_channel ch x c)
    end.
