(* ===== verification/ContextSpec.v ===== *)
(** * What the context promises

    Object identifiers are read back as they were written, with the exact
    bound at which the reader leaves its array; data channels are appended to
    an array that grows as needed. *)

From S2P Require Import Prelude CBytes CStr OpenFlow MsgBuf Context.
Open Scope Z_scope.

(** ** Reading object identifiers *)

(** A dotted string of fields. *)
Fixpoint dotted (fs : list cstring) : cstring :=
  match fs with [] => [] | [f] => f | f :: fs => f ++ 46 :: dotted fs end.

(** A field holds neither a dot nor a terminator. *)
Definition field_ok (f : cstring) : Prop := Forall (λ c, c ≠ 46 ∧ c ≠ 0) f.

Lemma zget_app_mid {A} (l r : list A) x : zget (l ++ x :: r) (zlen l) = Some x.
Proof.
  rewrite zget_nonneg by (unfold zlen; lia). unfold zlen. rewrite Nat2Z.id.
  rewrite lookup_app_r by lia. by rewrite Nat.sub_diag.
Qed.

Lemma zset_app_mid {A} (l r : list A) x y : zset (l ++ x :: r) (zlen l) y = l ++ y :: r.
Proof.
  rewrite zset_nonneg by (unfold zlen; lia). unfold zlen. rewrite Nat2Z.id.
  rewrite insert_app_r_alt by lia. by rewrite Nat.sub_diag.
Qed.

(** The inner loop stops at the end of the field. *)
Lemma scan_oid_field pre f c r fuel :
  field_ok f → c = 46 ∨ c = 0 → (length f < fuel)%nat →
  scan_oid fuel (pre ++ f ++ c :: r) (zlen pre) = Ok (zlen (pre ++ f)).
Proof.
  intros Hf Hc. revert pre fuel. induction Hf as [|x f [Hx Hx'] Hf IH]; intros pre [|fuel] Hfu; cbn in Hfu; try lia.
  - cbn. rewrite zget_app_mid. rewrite app_nil_r. destruct Hc as [-> | ->]; done.
  - cbn. rewrite zget_app_mid. apply Z.eqb_neq in Hx as ->. apply Z.eqb_neq in Hx' as ->. cbn.
    specialize (IH (pre ++ [x]) fuel ltac:(lia)). rewrite <-!app_assoc in IH. cbn in IH.
    replace (zlen pre + 1) with (zlen (pre ++ [x])) by (unfold zlen; rewrite length_app; cbn; lia).
    exact IH.
Qed.

Lemma until_nul_field f r : field_ok f → until_nul (f ++ 0 :: r) = f.
Proof.
  induction 1 as [|x f [_ Hx] Hf IH]; [done|]. cbn. apply Z.eqb_neq in Hx as ->. by rewrite IH.
Qed.

Definition oid_val (f : cstring) : Z := u64 (strtol 10 f).

(** One round of the outer loop, up to the test that ends it. *)
Lemma read_oid_round pre f c r fuel out len oid_len n :
  field_ok f → c = 46 ∨ c = 0 →
  read_oid_loop (S fuel) (pre ++ f ++ c :: r) len (zlen pre) out oid_len n =
  (out ← arr_write out n (oid_val f);
   let a := (pre ++ f ++ [0]) ++ r in
   if oid_len =? n then mret (a, out, n)
   else if zlen (pre ++ f ++ [0]) >=? len then mret (a, out, n + 1)
   else read_oid_loop fuel a len (zlen (pre ++ f ++ [0])) out oid_len (n + 1)).
Proof.
  intros Hf Hc. cbn [read_oid_loop]. rewrite scan_oid_field by (try done; rewrite !length_app; cbn; lia).
  cbn [mbind res_bind]. rewrite (app_assoc pre f), zset_app_mid.
  replace (zlen (pre ++ f) + 1) with (zlen (pre ++ f ++ [0])) by (unfold zlen; rewrite !length_app; cbn; lia).
  replace (Z.to_nat (zlen pre)) with (length pre) by (unfold zlen; lia).
  rewrite <-app_assoc, drop_app_length, until_nul_field by done.
  replace ((pre ++ f ++ [0]) ++ r) with (pre ++ f ++ 0 :: r) by (by rewrite <-!app_assoc).
  done.
Qed.

Lemma zset_take_drop {A} (l : list A) i x :
  0 ≤ i < zlen l → zset l i x = take (Z.to_nat i) l ++ x :: drop (Z.to_nat (i + 1)) l.
Proof.
  unfold zlen. intros. rewrite zset_nonneg by lia. rewrite insert_take_drop by lia.
  by replace (S (Z.to_nat i)) with (Z.to_nat (i + 1)) by lia.
Qed.

Lemma dotted_cons f g fs : dotted (f :: g :: fs) = f ++ 46 :: dotted (g :: fs).
Proof. done. Qed.

(** Only the last field can end the string: it is not empty. *)
Definition last_ok (fs : list cstring) : Prop := ∀ l f, fs = l ++ [f] → l ≠ [] → f ≠ [].

Lemma dotted_nonempty f g fs : last_ok (f :: g :: fs) → 0 < zlen (dotted (g :: fs)).
Proof.
  intros Hl. destruct fs as [|h fs].
  - assert (g ≠ []) by (apply (Hl [f] g); done). cbn. destruct g; [done|]. unfold zlen. cbn. lia.
  - rewrite dotted_cons, zlen_app, zlen_cons. pose proof (zlen_nonneg g). pose proof (zlen_nonneg (dotted (h :: fs))). lia.
Qed.

Lemma length_dotted fs : last_ok fs → (length fs ≤ S (length (dotted fs)))%nat.
Proof.
  intros Hl. induction fs as [|f [|g fs] IH]; cbn [length]; [lia|lia|].
  rewrite dotted_cons, length_app. cbn [length].
  assert (last_ok (g :: fs)) as Hl'.
  { intros l h E El. apply (Hl (f :: l) h); [by rewrite E|done]. }
  specialize (IH Hl'). cbn [length] in IH. lia.
Qed.

(** The whole loop, from a position where the fields [fs] remain. *)
Lemma read_oid_loop_fields fs : ∀ pre out n fuel,
  Forall field_ok fs → fs ≠ [] → last_ok fs → (length fs ≤ fuel)%nat → 0 ≤ n ≤ zlen out →
  (r ← read_oid_loop fuel (pre ++ dotted fs ++ [0]) (zlen (pre ++ dotted fs)) (zlen pre) out (zlen out) n;
   mret (r.1.2, r.2)) =
  if n + zlen fs <=? zlen out
  then Ok (take (Z.to_nat n) out ++ (Some ∘ oid_val <$> fs) ++ drop (Z.to_nat (n + zlen fs)) out, n + zlen fs)
  else Fault FBounds.
Proof.
  induction fs as [|f fs IH]; intros pre out n fuel Hok Hne Hl Hfu Hn; [done|].
  apply Forall_cons in Hok as [Hf Hok]. destruct fuel as [|fuel]; [cbn in Hfu; lia|].
  assert (dotted (f :: fs) ++ [0] = f ++ match fs with [] => 0 | _ => 46 end :: match fs with [] => [] | _ => dotted fs ++ [0] end) as ->.
  { destruct fs; [done|]. rewrite dotted_cons, <-app_assoc. done. }
  rewrite read_oid_round by (try done; destruct fs; auto). rewrite zlen_cons.
  pose proof (zlen_nonneg fs) as Hz. destruct (decide (n = zlen out)) as [->|Hlt].
  { unfold arr_write. rewrite zget_out by lia. replace (_ <=? _) with false by lia. done. }
  rewrite arr_write_ok by lia. cbn [mbind res_bind]. replace (zlen out =? n) with false by lia.
  rewrite !zlen_app. change (zlen [0]) with 1. destruct fs as [|g fs].
  - replace (_ >=? _) with true by (cbn; lia). change (zlen (@nil cstring)) with 0.
    replace (_ <=? _) with true by lia. cbn. rewrite zset_take_drop by lia.
    by replace (n + (1 + 0)) with (n + 1) by lia.
  - pose proof (dotted_nonempty _ _ _ Hl) as Hpos. pose proof (zlen_nonneg fs).
    replace (_ >=? _) with false by (rewrite dotted_cons, zlen_app, zlen_cons; lia).
    specialize (IH (pre ++ f ++ [0]) (zset out n (Some (oid_val f))) (n + 1) fuel).
    replace (zlen ((pre ++ f ++ [0]) ++ dotted (g :: fs))) with (zlen pre + zlen (dotted (f :: g :: fs))) in IH
      by (rewrite dotted_cons, !zlen_app, !zlen_cons; change (zlen (@nil Z)) with 0; lia).
    rewrite !zlen_zset, !zlen_app in IH. change (zlen [0]) with 1 in IH. rewrite zlen_cons in IH |- *.
    rewrite IH; [|done|done| |cbn in *; lia|lia].
    + replace (n + 1 + (1 + zlen fs)) with (n + (1 + (1 + zlen fs))) by lia.
      destruct (n + (1 + (1 + zlen fs)) <=? zlen out) eqn:Hle; [|done]. f_equal. f_equal. rewrite zset_take_drop by lia.
      rewrite take_app_ge, drop_app_ge by (rewrite length_take; unfold zlen in *; lia).
      rewrite length_take, Nat.min_l by (unfold zlen in *; lia).
      replace (Z.to_nat (n + 1) - Z.to_nat n)%nat with 1%nat by lia.
      replace (Z.to_nat (n + (1 + (1 + zlen fs))) - Z.to_nat n)%nat with (S (Z.to_nat (1 + zlen fs))) by lia.
      cbn [drop]. rewrite drop_drop. cbn [take fmap list_fmap]. rewrite <-!app_assoc. cbn. rewrite take_0.
      replace (Z.to_nat (n + 1) + Z.to_nat (1 + zlen fs))%nat with (Z.to_nat (n + (1 + (1 + zlen fs)))) by lia. done.
    + intros l h E El. apply (Hl (f :: l) h); [by rewrite E|done].
Qed.

(** C30. my_read_objid (channel_info.c) on a dotted string: for any fields
    without dots, the last of them not empty, it stores the value strtol gives
    each field, in order, keeps the rest of the array, and returns their number;
    in particular an identifier printed as dotted decimals is read back.  With
    one field more than the array has room for it does not stop before the
    array's end: the bound is tested after the store, one element beyond. *)
Theorem my_read_objid_reads fs out :
  Forall field_ok fs → fs ≠ [] → last_ok fs →
  my_read_objid (dotted fs) out (zlen out) =
    (if zlen fs <=? zlen out
     then Ok ((Some ∘ oid_val <$> fs) ++ drop (length fs) out, zlen fs)
     else Fault FBounds)
  ∧ ∀ ns, fs = dec <$> ns → Forall (λ n, 0 ≤ n < 2 ^ 63) ns → oid_val <$> fs = ns.
Proof.
  intros Hok Hne Hl. split.
  - pose proof (length_dotted fs Hl) as Hlen. pose proof (zlen_nonneg out) as Hz.
    pose proof (read_oid_loop_fields fs [] out 0 (S (length (dotted fs))) Hok Hne Hl Hlen ltac:(lia)) as H.
    cbn [app] in H. change (zlen (@nil Z)) with 0 in H. rewrite Z.add_0_l, take_0 in H.
    replace (Z.to_nat (zlen fs)) with (length fs) in H by (unfold zlen; lia).
    unfold my_read_objid.
    destruct (read_oid_loop _ _ _ _ _ _ _) as [[[a o] n]|f] eqn:E; exact H.
  - intros ns -> Hns. rewrite <-list_fmap_compose. clear -Hns. induction Hns as [|n ns Hn Hns IH]; [done|].
    cbn. rewrite IH. f_equal. unfold oid_val. rewrite strtol_dec by done. apply Z.mod_small. lia.
Qed.

Lemma my_read_objid_reads_witness :
  my_read_objid (str "1.3.6.1") (replicate 4 (Some 0)) 4 = Ok (Some <$> [1; 3; 6; 1], 4)
  ∧ my_read_objid (str "1.3.6.1") (replicate 3 (Some 0)) 3 = Fault FBounds.
Proof.
  assert (Forall field_ok (dec <$> [1; 3; 6; 1])) as Hok by (repeat constructor; done).
  assert (last_ok (dec <$> [1; 3; 6; 1])) as Hl.
  { intros l f E _ ->. apply (f_equal last) in E. by rewrite last_snoc in E. }
  split.
  - exact (proj1 (my_read_objid_reads (dec <$> [1; 3; 6; 1]) (replicate 4 (Some 0)) Hok ltac:(done) Hl)).
  - exact (proj1 (my_read_objid_reads (dec <$> [1; 3; 6; 1]) (replicate 3 (Some 0)) Hok ltac:(done) Hl)).
Defined.

(** ** Growing the array of channels *)

Section growing.
Context {OF : OpenFlow} (junk : Z → channel_info) (MAX_OID_LEN : Z) (if_index : cstring → option Z).

(** The array has its announced size and holds the channels in use. *)
Record channels_ok (c : oflops_context) : Prop := {
  cok_len : zlen (channels c) = max_channels c;
  cok_n : 1 ≤ n_channels c ≤ max_channels c;
}.

Lemma zlen_seqZ m n : 0 ≤ n → zlen (seqZ m n) = n.
Proof. intros. unfold zlen. rewrite length_seqZ. lia. Qed.

Lemma zlen_fmap {A B} (f : A → B) l : zlen (f <$> l) = zlen l.
Proof. unfold zlen. by rewrite length_fmap. Qed.

Lemma default_context_ok : channels_ok (oflops_default_context junk).
Proof. split; [|cbn; lia]. cbn. by rewrite zlen_zset. Qed.

Lemma grow_channels_ok c :
  channels_ok c →
  channels_ok (grow_channels junk c) ∧ n_channels (grow_channels junk c) = n_channels c
  ∧ n_channels c < max_channels (grow_channels junk c)
  ∧ ∀ i, 0 ≤ i < n_channels c → zget (channels (grow_channels junk c)) i = zget (channels c) i.
Proof.
  intros [Hl Hn]. unfold grow_channels. destruct (n_channels c >=? max_channels c) eqn:E.
  - split_and!; [split; cbn|done|cbn; lia|].
    + rewrite zlen_app, zlen_fmap, zlen_seqZ; lia.
    + lia.
    + intros i Hi. cbn. rewrite !zget_nonneg by lia. apply lookup_app_l. unfold zlen in *. lia.
  - split_and!; [by split|done|lia|done].
Qed.

(** A device the kernel knows gives a channel. *)
Lemma channel_info_init_ok d ix :
  if_index (take IFNAMSIZ (from_option fst d (split_at 58 d))) = Some ix →
  ∃ ch, channel_info_init MAX_OID_LEN if_index d = Ok ch
  ∧ dev ch = Some (from_option fst d (split_at 58 d)) ∧ ifindex ch = ix
  ∧ of_port ch = from_option (λ p, atoi p.2) (-1) (split_at 58 d)
  ∧ pcap_handle ch = 0 ∧ pcap_fd ch = -1 ∧ raw_sock ch = -1 ∧ det ch = None ∧ cap_type ch = PCAP
  ∧ nf_cap ch = 0 ∧ timestamps ch = None.
Proof.
  intros H. unfold channel_info_init. destruct (split_at 58 d) as [[d' p]|]; cbn in H |- *;
    rewrite H; cbn; eexists; split_and!; done.
Qed.

(** Adding a channel keeps the others and puts the new one last. *)
Lemma add_data_channel_ok c d ch :
  channels_ok c → channel_info_init MAX_OID_LEN if_index d = Ok ch →
  ∃ c', add_data_channel junk MAX_OID_LEN if_index d c = Ok c' ∧ channels_ok c'
  ∧ n_channels c' = n_channels c + 1 ∧ zget (channels c') (n_channels c) = Some ch
  ∧ (∀ i, 0 ≤ i < n_channels c → zget (channels c') i = zget (channels c) i)
  ∧ tests c' = tests c ∧ trafficGen c' = trafficGen c.
Proof.
  intros Hc Hch. destruct (grow_channels_ok c Hc) as ([Hl Hn] & En & Hlt & Hkeep).
  unfold add_data_channel, get_channel. rewrite Hch. cbn [mbind res_bind]. rewrite En.
  destruct (zget_in_bounds (channels (grow_channels junk c)) (n_channels c)) as [x ->]; [lia|].
  cbn [mbind res_bind mret res_ret]. eexists. split; [done|]. split_and!; cbn.
  - split; cbn; [by rewrite zlen_zset|]. lia.
  - done.
  - apply zget_zset_eq. lia.
  - intros i Hi. rewrite zget_zset_ne by lia. by apply Hkeep.
  - unfold grow_channels. by case_match.
  - unfold grow_channels. by case_match.
Qed.
End growing.
