(* ===== verification/Harness.v ===== *)
(** * The harness and its hooks (test_module.c, oflops_snmp.c, log.c)

    The state the parts of oflops share while a test runs - context, timer
    queue, log, what was handed to the control connection and to the raw
    sockets, live SNMP requests - and the functions a test module may call.
    The kernel, the OpenFlow connection library and the SNMP library are
    parameters, or answers consumed in order. *)

From S2P Require Import Prelude CTime CBytes CStr OpenFlow MsgBuf PcapTrack WcEvent Context.
Open Scope Z_scope.

(** An answer of pcap_next_ex, or of nf_cap_next. *)
Inductive cap_evt := CapNone | CapErr | CapPkt (hdr : pcap_pkthdr) (data : mem).

(** The static pointer of process_pcap_event. *)
Inductive static_pe := PeNull | PeLive | PeFreed.

Record harness := {
  ctx : oflops_context;
  wcg : wc_globals;
  timers : option wc_queue;        (* ctx->timers *)
  logger : option (list cstring);  (* the lines of the log file *)
  control_out : list (list Z);     (* sent on the control connection *)
  wire : list (Z * list Z);        (* frames sent on raw sockets *)
  sockets : list Z;                (* the kernel's answers to socket() *)
  writes : list Z;                 (* its answers to write() on raw sockets *)
  tg_cancelled : bool;             (* the traffic thread was cancelled *)
  pdus : list Z;                   (* SNMP requests allocated *)
  libs : list Z;                   (* libraries opened *)
  caps : list cap_evt;             (* what the capture libraries answer *)
  dumped : list (pcap_pkthdr * mem);  (* written to controller.pcap *)
  dumps_closed : Z;                (* times controller.pcap was closed *)
  nf_pe : static_pe;
}.
#[export] Instance harness_rebuild : Rebuild harness := λ s,
  {| ctx := ctx s; wcg := wcg s; timers := timers s; logger := logger s;
     control_out := control_out s; wire := wire s; sockets := sockets s; writes := writes s;
     tg_cancelled := tg_cancelled s; pdus := pdus s; libs := libs s;
     caps := caps s; dumped := dumped s; dumps_closed := dumps_closed s; nf_pe := nf_pe s |}.

(** ** The log *)

Definition msg_type : list cstring := str <$>
  ["OFPT_FLOW_MOD_ADD"; "OFPT_STATS_REQUEST_FLOW"; "OFPT_STATS_REPLY_FLOW";
   "OFPT_STATS_REQUEST_FLOW"; "OFPT_STATS_REPLY_PORT"; "OFPT_HELLO"; "OFPT_ECHO_REPLY";
   "OFPT_ECHO_REQUEST"; "OFPT_ERROR"; "GENERIC_MSG"; "SNMP_MSG"; "PCAP_MSG";
   "OFPT_PACKET_IN_MSG"; "PKTGEN_MSG"]%string.

Definition PCAP_MSG : Z := 11.
Definition PKTGEN_MSG : Z := 13.

(** [fopen_ok]: whether the file can be opened; it is truncated. *)
Definition oflops_log_init (fopen_ok : bool) (s : harness) : res harness :=
  if fopen_ok then mret (s <| logger := Some [] |>) else Fault (FExit 1).

Definition log_line (ts : timeval) (type details : cstring) : cstring :=
  dec (u64 (tv_sec ts)) ++ str "." ++ dec_pad 6 (u64 (tv_usec ts)) ++ str ":" ++ type ++ str ":" ++ details.

Definition oflops_log (ts : timeval) (type : Z) (details : cstring) (s : harness) : res harness :=
  match logger s with
  | None => mret s
  | Some ls =>
    match zget msg_type type with
    | None => Fault FBounds
    | Some t => mret (s <| logger := Some (ls ++ [log_line ts t details]) |>)
    end
  end.

(** The file is closed; the pointer to it is kept. *)
Definition oflops_log_close (s : harness) : harness := s.

(** ** SNMP *)

Section snmp.
(** The SNMP library: opening a session, sending a request.  A request sent is
    released by the library. *)
Context (snmp_open : option snmp_session → bool) (snmp_pdu_create : list Z → Z) (snmp_send : bool).

Definition snmp_free_pdu (p : Z) (s : harness) : res harness :=
  if bool_decide (p ∈ pdus s) then mret (s <| pdus := filter (λ q, q ≠ p) (pdus s) |>)
  else Fault FDangling.

Definition snmp_channel_init (host community : option cstring) : res snmp_channel :=
  match host, community with
  | Some h, Some c =>
    mret {| hostname := Some h; community_string := Some c; session := None; req := 0 |}
  | _, _ => Fault FNull
  end.

Definition setup_snmp_channel (c : oflops_context) : oflops_context :=
  let ch := snmp_channel_info c in
  match hostname ch, community_string ch with
  | Some h, Some cs =>
    c <| snmp_channel_info :=
      {| hostname := Some h; community_string := Some cs;
         session := Some {| peername := h; community := cs; community_len := zlen cs |};
         req := 0 |} |>
  | _, _ => c
  end.

(** The session is closed last; it has no further effect here. *)
Definition teardown_snmp_channel (s : harness) : res harness :=
  let r := req (snmp_channel_info (ctx s)) in
  if negb (r =? 0) then snmp_free_pdu r s else mret s.

Definition set_req (r : Z) (c : oflops_context) : oflops_context :=
  let ch := snmp_channel_info c in
  c <| snmp_channel_info := {| hostname := hostname ch; community_string := community_string ch;
                               session := session ch; req := r |} |>.

Definition oflops_snmp_get (s : harness) : res (Z * harness) :=
  let ch := snmp_channel_info (ctx s) in
  if negb (snmp_open (session ch)) then mret (1, s)
  else
    s ← (if negb (req ch =? 0) then snmp_free_pdu (req ch) s else mret s);
    let p := snmp_pdu_create (pdus s) in
    let s := s <| pdus := p :: pdus s |> <| ctx := set_req p (ctx s) |> in
    s ← (if snmp_send then snmp_free_pdu p s else mret s);
    mret (0, s).
End snmp.

(** ** Ending a test *)

Definition oflops_end_test (cont : Z) (s : harness) : Z * harness :=
  let s := if trafficGen (ctx s) =? PKTGEN then s <| tg_cancelled := true |> else s in
  (0, s <| ctx := ctx s <| end_traffic_generation := 1 |> <| should_continue := cont |> |>).

(** ** Scheduling timers *)

(** oflops_schedule_timer_event on the harness. *)
Definition schedule_timer (tv : timeval) (arg : Z) (s : harness) : res harness :=
  match timers s with
  | None => Fault FNull
  | Some q => '(_, g, q) ← wc_event_add (wcg s) q 0 arg tv; mret (s <| wcg := g |> <| timers := Some q |>)
  end.

(** ** Sending *)

(** net/ethernet.h *)
Definition sizeof_ether_header : Z := 14.

Section sending.
Context {OF : OpenFlow} (if_index : cstring → option Z) (bind_ok : Z → bool).

Definition take_socket (s : harness) : Z * harness :=
  match sockets s with
  | fd :: r => (fd, s <| sockets := r |>)
  | [] => (-1, s)
  end.

(** A device name as the ioctl sees it. *)
Definition dev_index (x : channel_info) : res Z :=
  match dev x with
  | None => Fault FNull
  | Some d => match if_index (take IFNAMSIZ d) with Some ix => mret ix | None => Fault (FExit 1) end
  end.

Definition oflops_get_channel_raw_fd (ch : Z) (s : harness) : res (Z * harness) :=
  if ch >=? n_channels (ctx s) then mret (-1, s)
  else
    x ← get_channel (ctx s) ch;
    if negb (raw_sock x =? -1) then mret (raw_sock x, s)
    else
      let '(fd, s) := take_socket s in
      if fd =? -1 then Fault (FExit 1)
      else
        ix ← dev_index x;
        if bind_ok ix then mret (fd, s <| ctx := put_channel ch (x <| raw_sock := fd |>) (ctx s) |>)
        else Fault (FExit 1).

Definition oflops_get_channel_fd (ch : Z) (s : harness) : res (Z * harness) :=
  if ch >=? n_channels (ctx s) then mret (-1, s)
  else
    x ← get_channel (ctx s) ch;
    if negb (ch_sock x =? -1) then mret (ch_sock x, s)
    else
      let '(fd, s) := take_socket s in
      if fd =? -1 then Fault (FExit 1)
      else
        _ ← dev_index x;
        mret (fd, s <| ctx := put_channel ch (x <| ch_sock := fd |>) (ctx s) |>).

(** One frame per write; a failed write is reported or ignored, and the length
    is returned in any case. *)
Definition oflops_send_raw_mesg (ch : Z) (msg : mem) (len : Z) (s : harness) : res (Z * harness) :=
  '(_, s) ← oflops_get_channel_raw_fd ch s;
  x ← get_channel (ctx s) ch;
  bs ← rd_bytes msg 0 len;
  let '(ok, s) := match writes s with
                  | r :: rs => (r >=? 0, s <| writes := rs |>)
                  | [] => (true, s)
                  end in
  mret (len, if ok : bool then s <| wire := wire s ++ [(raw_sock x, bs)] |> else s).

(** control.cpp: a zero length stands for the one in the header. *)
Definition write_oflops_control (data : mem) (len : Z) (s : harness) : res harness :=
  if fluid_control (ctx s) =? 0 then Fault FNull
  else
    len ← (if len =? 0 then rd16be data ofp_header_length else mret len);
    bs ← rd_bytes data 0 len;
    mret (s <| control_out := control_out s ++ [bs] |>).

Definition oflops_send_of_mesgs (b : mem) (buflen : Z) (s : harness) : res (Z * harness) :=
  s ← write_oflops_control b buflen s; mret (buflen, s).

Definition oflops_send_of_mesg (ofph : mem) (s : harness) : res (Z * harness) :=
  len ← rd16be ofph ofp_header_length;
  oflops_send_of_mesgs ofph len s.
End sending.

(** ** Time stamps *)

(** The header of a tracked copy of the data: 1 and the header, or 0. *)
Definition oflops_get_timestamp (h : pheap) (data : mem) (len : Z) (ofc : Z) (s : harness) :
    res (option pcap_pkthdr * harness) :=
  x ← get_channel (ctx s) ofc;
  match timestamps x with
  | None => mret (None, s)
  | Some t =>
    '(hdr, t) ← ptrack_lookup t h data len;
    mret (hdr, s <| ctx := put_channel ofc (x <| timestamps := Some t |>) (ctx s) |>)
  end.
