(* ===== verification/ModuleDefault.v ===== *)
(** * Callbacks of a test module and their defaults (module_default.c)

    How the harness calls into a module: through the function pointers of
    struct test_module, each of which is a symbol of the module's library or a
    default.  The code of the libraries is a parameter. *)

From S2P Require Import Prelude CTime CBytes CStr OpenFlow PcapTrack TimerEvent Context Harness.
Open Scope Z_scope.

(** The calls of struct test_module that act on the harness, with their
    arguments. *)
Inductive callback :=
| CbInit (config : cstring)
| CbDestroy
| CbStart
| CbPcapEvent (hdr : pcap_pkthdr) (data : mem) (ch : Z)
| CbPacketIn (ofph : mem)
| CbFlowRemoved (ofph : mem)
| CbEchoRequest (ofph : mem)
| CbPortStatus (ofph : mem)
| CbOther (ofph : mem)
| CbTimerEvent (te : timer_event)
| CbSnmpEvent
| CbTrafficGeneration.

Section defaults.
Context {OF : OpenFlow}.

(** The header is copied, its type changed, and the copy sent as a message. *)
Definition default_module_of_event_echo_request (ofph : mem) (s : harness) : res harness :=
  resp ← rd_cells ofph 0 sizeof_ofp_header;
  resp ← wr8 resp ofp_header_type OFPT_ECHO_REPLY;
  '(_, s) ← oflops_send_of_mesg resp s;
  mret s.

(** The first statement of the function returns; what follows it would track
    the packet. *)
Definition default_module_handle_pcap_event (hdr : pcap_pkthdr) (data : mem) (ch : Z) (s : harness) :
    res harness := mret s.

(** Every other default returns 0 and does nothing. *)
Definition default_call (cb : callback) (s : harness) : res harness :=
  match cb with
  | CbEchoRequest ofph => default_module_of_event_echo_request ofph s
  | CbPcapEvent hdr data ch => default_module_handle_pcap_event hdr data ch s
  | _ => mret s
  end.

Definition default_module_get_openflow_versions : list Z := [1; 0].

(** What the libraries' code does when it is called. *)
Context (module_code : Z → callback → harness → res harness).

Definition invoke (f : fptr) (cb : callback) (s : harness) : res harness :=
  match f with
  | Null => Fault FNull
  | Symbol h _ => module_code h cb s
  | Default _ => default_call cb s
  end.

(** Messages are passed on by their type. *)
Definition default_module_of_message (type : Z) (data : mem) (s : harness) : res harness :=
  match curr_test (ctx s) with
  | None => Fault FNull
  | Some m =>
    if type =? OFPT_PACKET_IN then invoke (m_of_event_packet_in m) (CbPacketIn data) s
    else if type =? OFPT_FLOW_EXPIRED then invoke (m_of_event_flow_removed m) (CbFlowRemoved data) s
    else if type =? OFPT_PORT_STATUS then invoke (m_of_event_port_status m) (CbPortStatus data) s
    else if type =? OFPT_ECHO_REQUEST then invoke (m_of_event_echo_request m) (CbEchoRequest data) s
    else if type >? OFPT_BARRIER_REPLY then Fault FAbort
    else invoke (m_of_event_other m) (CbOther data) s
  end.

(** oflops_snmp.c: a reply is handed to the module. *)
Definition snmp_response (received : bool) (s : harness) : res harness :=
  if received then
    match curr_test (ctx s) with
    | None => Fault FNull
    | Some m => invoke (m_handle_snmp_event m) CbSnmpEvent s
    end
  else mret s.
End defaults.
