(* ===== verification/ModuleRun.v ===== *)
(** * Loading and running a test module (module_run.c)

    A module is opened and its callbacks resolved; its channels are set up;
    the main loop polls the capture descriptors and dispatches packets.  The
    dynamic loader, poll and the capture libraries are parameters or answers
    consumed in order; what other threads do to the context is part of a
    round of the loop. *)

From S2P Require Import Prelude CTime CBytes CStr OpenFlow MsgBuf PcapTrack WcEvent TimerEvent.
From S2P Require Import FakeSwitch Context Harness ModuleDefault.
Open Scope Z_scope.

Section run.
Context {OF : OpenFlow} (module_code : Z → callback → harness → res harness).

(** ** Loading *)

Section load.
Context (dlopen : cstring → option Z) (dlsym : Z → cstring → bool).

Definition symbol_fetch (h : Z) (x : cstring) : fptr :=
  if dlsym h x then Symbol h x else Default x.

Definition load_test_module (mod_filename initstr : cstring) (s : harness) : res (Z * harness) :=
  match dlopen mod_filename with
  | None => mret (1, s)
  | Some h =>
    if negb (dlsym h (str "name")) || negb (dlsym h (str "start")) then mret (1, s)
    else
      let f x := symbol_fetch h (str x) in
      let m :=
        {| m_name := Symbol h (str "name"); m_init := f "init"%string; m_destroy := f "destroy"%string;
           m_get_pcap_filter := f "get_pcap_filter"%string; m_start := Symbol h (str "start");
           m_handle_pcap_event := f "handle_pcap_event"%string;
           m_of_event_packet_in := f "of_event_packet_in"%string;
           m_of_event_flow_removed := f "of_event_flow_removed"%string;
           m_of_event_echo_request := f "of_event_echo_request"%string;
           m_of_event_port_status := f "of_event_port_status"%string;
           m_of_event_other := f "of_event_other"%string; m_of_message := f "of_message"%string;
           m_handle_timer_event := f "handle_timer_event"%string; symbol_handle := h;
           m_handle_snmp_event := f "handle_snmp_event"%string;
           m_handle_traffic_generation := f "handle_traffic_generation"%string;
           m_get_openflow_versions := f "get_openflow_versions"%string |} in
      let c := ctx s in
      let c := if n_tests c >=? max_tests c then c <| max_tests := max_tests c * 2 |> else c in
      let c := c <| tests := tests c ++ [m] |> <| n_tests := n_tests c + 1 |> in
      s ← invoke module_code (m_init m) (CbInit initstr) (s <| libs := h :: libs s |> <| ctx := c |>);
      mret (0, s)
  end.
End load.

Definition get_test (c : oflops_context) (i : Z) : res test_module :=
  match zget (tests c) i with Some m => Ok m | None => Fault FBounds end.

(** ** Setting up *)

Section setup.
Context (E : capture_env) (module_filter : Z → oflops_context → Z → Z * cstring).

Definition get_pcap_filter (m : test_module) (c : oflops_context) (ch : Z) : Z * cstring :=
  match m_get_pcap_filter m with
  | Symbol h _ => module_filter h c ch
  | _ => (0, [])
  end.

Fixpoint setup_channels (m : test_module) (n : nat) (i : Z) (c : oflops_context) : res oflops_context :=
  match n with
  | O => mret c
  | S n => c ← setup_channel E (get_pcap_filter m c) i c; setup_channels m n (i + 1) c
  end.

Definition setup_test_module (ix_mod : Z) (s : harness) : res harness :=
  m ← get_test (ctx s) ix_mod;
  let c := setup_snmp_channel (ctx s) in
  c ← setup_channels m (Z.to_nat (n_channels c)) 0 c;
  '(g, q) ← timer_init (wcg s) (timers s);
  mret (s <| ctx := c |> <| wcg := g |> <| timers := Some q |>).
End setup.

(** ** The main loop *)

(** The descriptors of the channels that capture, in order. *)
Definition polled (x : channel_info) : bool := negb (pcap_handle x =? 0) || negb (nf_cap x =? 0).
Definition poll_set (c : oflops_context) : list Z :=
  pcap_fd <$> filter (λ x, polled x = true) (take (Z.to_nat (n_channels c)) (channels c)).

(** The next answer of the capture library. *)
Definition next_cap (s : harness) : cap_evt * harness :=
  match caps s with
  | e :: r => (e, s <| caps := r |>)
  | [] => (CapNone, s)
  end.

(** Flushing the outgoing buffer when the descriptor is writable.  [err] is the
    result of a comparison, never an error number. *)
Definition flush_outgoing (x : channel_info) (ch : Z) (s : harness) : res harness :=
  match outgoing x with
  | None => Fault FNull
  | Some mb =>
    let answer := match writes s with
                  | r :: _ => if r >=? 0 then WrAccept r else WrErr (- r)
                  | [] => WrErr EAGAIN
                  end in
    '(n, mb, sk) ← msgbuf_write mb {| rx := []; tx := [answer]; sent := []; errno := 0 |} (packet_len x);
    let s := s <| writes := tail (writes s) |> <| wire := wire s ++ [(raw_sock x, sent sk)] |>
               <| ctx := put_channel ch (x <| outgoing := Some mb |>) (ctx s) |> in
    let err := if n <? 0 then 1 else 0 in
    if negb (err =? 0) && negb (err =? EAGAIN) && negb (err =? EWOULDBLOCK) && negb (err =? EINTR)
    then Fault (FExit 1) else mret s
  end.

Definition deliver (m : test_module) (hdr : pcap_pkthdr) (data : mem) (ch : Z) (s : harness) : res harness :=
  if negb (started (ctx s) =? 0) then invoke module_code (m_handle_pcap_event m) (CbPcapEvent hdr data ch) s
  else mret s.

Definition process_pcap_event (m : test_module) (revents ch : Z) (s : harness) : res harness :=
  x ← get_channel (ctx s) ch;
  s ← (if negb (Z.land revents POLLOUT =? 0) then flush_outgoing x ch s else mret s);
  if Z.land revents POLLIN =? 0 then mret s
  else if cap_type x =? PCAP then
    c_assert (negb (pcap_handle x =? 0));;
    let '(e, s) := next_cap s in
    match e with
    | CapNone | CapErr => mret s
    | CapPkt hdr data =>
      let s := if (ch =? OFLOPS_CONTROL) && negb (dump_controller (ctx s) =? 0)
               then s <| dumped := dumped s ++ [(hdr, data)] |> else s in
      deliver m hdr data ch s
    end
  else if cap_type x =? NF2 then
    s ← match nf_pe s with
        | PeNull => mret (s <| nf_pe := PeLive |>)
        | PeLive => mret s
        | PeFreed => Fault FDangling
        end;
    let '(e, s) := next_cap s in
    match e with
    | CapNone | CapErr => mret s
    | CapPkt hdr data =>
      copy ← rd_cells data 0 (caplen hdr);
      if caplen hdr >? 2000 then Fault FBounds
      else
        s ← deliver m hdr copy ch s;
        mret (s <| nf_pe := PeFreed |>)
    end
  else mret s.

(** The first channel with this descriptor. *)
Fixpoint find_fd (fd : Z) (xs : list channel_info) (ch : Z) : option Z :=
  match xs with
  | [] => None
  | x :: xs => if fd =? pcap_fd x then Some ch else find_fd fd xs (ch + 1)
  end.

Definition process_event (m : test_module) (fd revents : Z) (s : harness) : res harness :=
  match find_fd fd (take (Z.to_nat (n_channels (ctx s))) (channels (ctx s))) 0 with
  | Some ch => process_pcap_event m revents ch s
  | None => Fault FAbort
  end.

Fixpoint process_ready (m : test_module) (fds revents : list Z) (s : harness) : res harness :=
  match fds, revents with
  | fd :: fds, r :: revents =>
    s ← (if negb (Z.land r (Z.lor POLLIN POLLOUT) =? 0) then process_event m fd r s else mret s);
    process_ready m fds revents s
  | _, _ => mret s
  end.

(** A round of the loop: what the main thread has done to the flag by then, and
    the answer of poll. *)
Record poll_round := { pr_end_module : Z; pr_ret : Z; pr_errno : Z; pr_revents : list Z }.

Definition loop_round (m : test_module) (r : poll_round) (s : harness) : res harness :=
  let fds := poll_set (ctx s) in
  if (pr_ret r =? -1) && negb (pr_errno r =? EINTR) then Fault (FExit 1)
  else if pr_ret r =? 0 then mret s
  else process_ready m fds (pr_revents r) s.

(** The loop over the rounds observed: whether it ended, and the state. *)
Fixpoint test_module_loop (m : test_module) (rounds : list poll_round) (s : harness) : res (bool * harness) :=
  match rounds with
  | [] => mret (false, s)
  | r :: rounds =>
    let s := s <| ctx := ctx s <| end_module := pr_end_module r |> |> in
    if negb (end_module (ctx s) =? 0) then mret (true, s)
    else s ← loop_round m r s; test_module_loop m rounds s
  end.

(** ** Running *)

Definition run_test_module (ix_mod : Z) (rounds : list poll_round) (s : harness) : res (bool * harness) :=
  m ← get_test (ctx s) ix_mod;
  '(ended, s) ← test_module_loop m rounds s;
  if negb ended then mret (false, s)
  else
    s ← invoke module_code (m_destroy m) CbDestroy s;
    s ← teardown_snmp_channel s;
    x ← get_channel (ctx s) OFLOPS_CONTROL;
    let s := if negb (dump x =? 0) && negb (dump_controller (ctx s) =? 0)
             then s <| dumps_closed := dumps_closed s + 1 |> else s in
    mret (true, s).

Definition run_traffic_generation (ix_mod : Z) (s : harness) : res harness :=
  m ← get_test (ctx s) ix_mod;
  invoke module_code (m_handle_traffic_generation m) CbTrafficGeneration s.
End run.
