(* ===== verification/ModuleRunSpec.v ===== *)
(** * What the main loop promises

    Every ready descriptor reaches its own channel, in channel order; default
    callbacks and the dispatch of OpenFlow messages; the life of the static
    packet of the NetFPGA path. *)

From S2P Require Import Prelude CTime CBytes CStr OpenFlow MsgBuf PcapTrack WcEvent TimerEvent.
From S2P Require Import FakeSwitch Context ContextSpec Harness ModuleDefault ModuleRun.
Open Scope Z_scope.

Section dispatch.
Context {OF : OpenFlow} (module_code : Z → callback → harness → res harness).

(** The channels in use. *)
Definition in_use (c : oflops_context) : list channel_info := take (Z.to_nat (n_channels c)) (channels c).
(** What the dispatch depends on: the number of channels and, of each, the
    descriptor and whether it captures. *)
Definition fd_view (c : oflops_context) : list (Z * bool) := (λ x, (pcap_fd x, polled x)) <$> in_use c.

(** Callbacks do not touch the capture descriptors: no hook changes them. *)
Definition keeps_fds : Prop := ∀ h cb s s', module_code h cb s = Ok s' → fd_view (ctx s') = fd_view (ctx s).

(** The channels of a descriptor table that are polled, from number [i]. *)
Fixpoint polled_ix (v : list (Z * bool)) (i : Z) : list Z :=
  match v with
  | [] => []
  | (_, b) :: v => if b : bool then i :: polled_ix v (i + 1) else polled_ix v (i + 1)
  end.

(** The channels with something to do, with what poll said of them. *)
Definition ready (chs revents : list Z) : list (Z * Z) :=
  filter (λ p, Z.land p.2 (Z.lor POLLIN POLLOUT) ≠ 0) (zip chs revents).

(** The reference: the events one after the other, each on its channel. *)
Fixpoint receive_all (m : test_module) (evs : list (Z * Z)) (s : harness) : res harness :=
  match evs with
  | [] => mret s
  | (ch, r) :: evs => s ← process_pcap_event module_code m r ch s; receive_all m evs s
  end.

Lemma poll_set_view s : poll_set (ctx s) = (filter (λ p, p.2 = true) (fd_view (ctx s))).*1.
Proof.
  unfold poll_set, fd_view, in_use. induction (take _ (channels (ctx s))) as [|x l IH]; [done|].
  rewrite fmap_cons, !filter_cons. destruct (polled x) eqn:E; [|by rewrite !decide_False].
  rewrite !decide_True by done. cbn [fmap list_fmap]. by f_equal.
Qed.

Lemma find_fd_view fd xs ch :
  find_fd fd xs ch = (λ i, ch + Z.of_nat i.1) <$> list_find (fd =.) (pcap_fd <$> xs).
Proof.
  revert ch. induction xs as [|x xs IH]; intros ch; [done|]. cbn.
  destruct (fd =? pcap_fd x) eqn:E.
  - rewrite decide_True by lia. cbn. f_equal. lia.
  - rewrite decide_False by lia. rewrite IH. destruct (list_find _ _) as [[i y]|]; cbn; [f_equal; lia|done].
Qed.

(** A descriptor that occurs once leads to its channel. *)
Lemma process_event_view m fd b r s v1 v2 :
  fd_view (ctx s) = v1 ++ (fd, b) :: v2 → NoDup (fd_view (ctx s)).*1 →
  process_event module_code m fd r s = process_pcap_event module_code m r (zlen v1) s.
Proof.
  intros Hv Hnd. unfold process_event. fold (in_use (ctx s)). rewrite find_fd_view.
  assert (pcap_fd <$> in_use (ctx s) = (fd_view (ctx s)).*1) as ->.
  { unfold fd_view. by rewrite <-list_fmap_compose. }
  rewrite Hv in Hnd |- *. rewrite fmap_app, fmap_cons in Hnd |- *. cbn in Hnd |- *.
  assert (list_find (fd =.) (v1.*1 ++ fd :: v2.*1) = Some (length v1.*1, fd)) as ->.
  { apply list_find_Some. split_and!; [by rewrite list_lookup_middle|done|].
    intros j y Hj Hlt <-. rewrite lookup_app_l in Hj by done.
    apply NoDup_app in Hnd as (_ & Hd & _). apply (Hd fd); [by eapply list_elem_of_lookup_2|left]. }
  cbn. rewrite length_fmap. by replace (0 + Z.of_nat (length v1)) with (zlen v1).
Qed.

(** ** Handling an event keeps the descriptors *)

Lemma fd_view_put c x x' ch :
  get_channel c ch = Ok x → pcap_fd x' = pcap_fd x → polled x' = polled x →
  fd_view (put_channel ch x' c) = fd_view c.
Proof.
  unfold get_channel, fd_view, in_use, put_channel. cbn. intros Hx Hf Hp.
  destruct (zget (channels c) ch) as [y|] eqn:Hy; simplify_eq. rewrite !fmap_take. f_equal.
  unfold zget, zset in *. case_decide; [|done]. rewrite list_fmap_insert. apply list_insert_id.
  rewrite list_lookup_fmap, Hy. cbn. by rewrite Hf, Hp.
Qed.

Lemma default_call_view cb s s' : default_call cb s = Ok s' → fd_view (ctx s') = fd_view (ctx s).
Proof.
  destruct cb; cbn; intros H; try by injection H as <-.
  unfold default_module_of_event_echo_request, oflops_send_of_mesg, oflops_send_of_mesgs,
    write_oflops_control in H. by res_inv; repeat (case_match; res_inv; simplify_eq/=).
Qed.

Context (Hkeep : keeps_fds).

Lemma invoke_view f cb s s' : invoke module_code f cb s = Ok s' → fd_view (ctx s') = fd_view (ctx s).
Proof. destruct f; cbn; [done|apply Hkeep|apply default_call_view]. Qed.

Lemma deliver_view m hdr data ch s s' :
  deliver module_code m hdr data ch s = Ok s' → fd_view (ctx s') = fd_view (ctx s).
Proof. unfold deliver. intros H. res_inv; [by eapply invoke_view|done]. Qed.

Lemma flush_outgoing_view x ch s s' :
  get_channel (ctx s) ch = Ok x → flush_outgoing x ch s = Ok s' → fd_view (ctx s') = fd_view (ctx s).
Proof.
  intros Hx. unfold flush_outgoing. destruct (outgoing x) as [mb|]; [|done]. intros H.
  apply bind_Ok in H as ([[n mb'] sk] & _ & H). res_inv.
  by apply (fd_view_put (ctx s) x).
Qed.

Lemma process_pcap_event_view m r ch s s' :
  process_pcap_event module_code m r ch s = Ok s' → fd_view (ctx s') = fd_view (ctx s).
Proof.
  unfold process_pcap_event, next_cap. intros H. apply bind_Ok in H as (x & Hx & H).
  apply bind_Ok in H as (s1 & H1 & H).
  assert (fd_view (ctx s1) = fd_view (ctx s)) as <-.
  { destruct (negb _); [by eapply flush_outgoing_view|]. by injection H1 as ->. }
  clear H1. destruct (Z.land r POLLIN =? 0); [by injection H as ->|].
  destruct (cap_type x =? PCAP).
  - apply bind_Ok in H as (_ & _ & H).
    destruct (caps s1) as [|[| |hdr data] l]; try by injection H as <-.
    destruct (_ && _); apply deliver_view in H; exact H.
  - destruct (cap_type x =? NF2); [|by injection H as ->]. apply bind_Ok in H as (s2 & H2 & H).
    assert (fd_view (ctx s2) = fd_view (ctx s1)) as <- 
      by (destruct (nf_pe s1); [by injection H2 as <-|by injection H2 as <-|done]).
    destruct (caps s2) as [|[| |hdr data] l]; try by injection H as <-.
    apply bind_Ok in H as (copy & _ & H). destruct (_ >? _); [done|].
    apply bind_Ok in H as (s3 & H3 & H). apply deliver_view in H3. injection H as <-. exact H3.
Qed.

(** ** The loop *)

Lemma process_ready_spec m v2 : ∀ v1 revents s,
  fd_view (ctx s) = v1 ++ v2 → NoDup (fd_view (ctx s)).*1 →
  process_ready module_code m (filter (λ p, p.2 = true) v2).*1 revents s =
  receive_all m (ready (polled_ix v2 (zlen v1)) revents) s.
Proof.
  induction v2 as [|[fd b] v2 IH]; intros v1 revents s Hv Hnd; [done|].
  assert (zlen v1 + 1 = zlen (v1 ++ [(fd, b)])) as Hn by (rewrite zlen_app; done).
  assert (v1 ++ (fd, b) :: v2 = (v1 ++ [(fd, b)]) ++ v2) as Hsplit by (by rewrite <-app_assoc).
  rewrite filter_cons. cbn [polled_ix snd]. destruct b; [|rewrite Hn; apply IH; [by rewrite Hv|done]].
  rewrite decide_True by done. cbn [fmap list_fmap fst]. destruct revents as [|r revents]; [done|].
  cbn [process_ready]. unfold ready. cbn [zip zip_with]. rewrite filter_cons. cbn [snd].
  destruct (Z.land r (Z.lor POLLIN POLLOUT) =? 0) eqn:Er.
  - rewrite decide_False by (apply Z.eqb_eq in Er; congruence). cbn [negb mbind res_bind mret res_ret].
    rewrite Hn. apply IH; [by rewrite Hv|done].
  - rewrite decide_True by (by apply Z.eqb_neq in Er). cbn [negb receive_all].
    rewrite (process_event_view _ _ _ _ _ _ _ Hv Hnd).
    destruct (process_pcap_event module_code m r (zlen v1) s) as [s'|] eqn:Ep; [|done].
    cbn [mbind res_bind]. apply process_pcap_event_view in Ep. rewrite Hn.
    apply IH; rewrite Ep; [by rewrite Hv|done].
Qed.
End dispatch.

(** C38. The main loop of module_run.c: when the capture descriptors of the
    channels are distinct and the module's callbacks leave them alone, a round
    of the loop handles exactly the ready channels - each of them by its own
    number, in increasing order, and no event reaches the [abort] for unknown
    descriptors. *)
Theorem loop_round_dispatches {OF : OpenFlow} module_code m r s :
  keeps_fds module_code → NoDup (fd_view (ctx s)).*1 → pr_ret r ≠ -1 → pr_ret r ≠ 0 →
  loop_round module_code m r s =
  receive_all module_code m (ready (polled_ix (fd_view (ctx s)) 0) (pr_revents r)) s.
Proof.
  intros Hk Hnd H1 H2. unfold loop_round. apply Z.eqb_neq in H1 as ->. apply Z.eqb_neq in H2 as ->.
  rewrite poll_set_view. by apply (process_ready_spec _ Hk m (fd_view (ctx s)) [] _ s).
Qed.

(** *** A harness with three channels *)

Definition demo_channel (fd handle type : Z) : channel_info :=
  {| dev := Some (str "eth1"); pcap_handle := handle; pcap_fd := fd; raw_sock := -1; ch_sock := -1;
     ifindex := 2; of_port := -1; packet_len := 0; timestamps := None; outgoing := None; det := None;
     dump := 0; inOID := []; inOID_len := 0; outOID := []; outOID_len := 0; cap_type := type;
     nf_cap := if type =? NF2 then 1 else 0 |}.

Definition demo_module : test_module :=
  let f := λ x, Symbol 1 (str x) in let d := λ x, Default (str x) in
  {| m_name := f "name"%string; m_init := d "init"%string; m_destroy := d "destroy"%string;
     m_get_pcap_filter := d "get_pcap_filter"%string; m_start := f "start"%string;
     m_handle_pcap_event := f "handle_pcap_event"%string;
     m_of_event_packet_in := d "of_event_packet_in"%string;
     m_of_event_flow_removed := d "of_event_flow_removed"%string;
     m_of_event_echo_request := d "of_event_echo_request"%string;
     m_of_event_port_status := d "of_event_port_status"%string;
     m_of_event_other := d "of_event_other"%string; m_of_message := d "of_message"%string;
     m_handle_timer_event := d "handle_timer_event"%string; symbol_handle := 1;
     m_handle_snmp_event := d "handle_snmp_event"%string;
     m_handle_traffic_generation := d "handle_traffic_generation"%string;
     m_get_openflow_versions := d "get_openflow_versions"%string |}.

Definition demo_harness (type : Z) (pkts : list cap_evt) : harness :=
  let c := oflops_default_context (OF := of10) (λ _, demo_channel (-1) 0 PCAP) in
  {| ctx := c <| channels := [demo_channel 5 1 PCAP; demo_channel 6 0 PCAP; demo_channel 7 1 type] |>
              <| n_channels := 3 |> <| max_channels := 3 |> <| started := 1 |>
              <| curr_test := Some demo_module |> <| fluid_control := 1 |>;
     wcg := {| WC_EVENT_ID := 0; objs := ∅; brk := 0 |}; timers := None; logger := None; control_out := [];
     wire := []; sockets := []; writes := []; tg_cancelled := false; pdus := []; libs := [1];
     caps := pkts; dumped := []; dumps_closed := 0; nf_pe := PeNull |}.

(** A module that notes the channel of each packet. *)
Definition demo_code (h : Z) (cb : callback) (s : harness) : res harness :=
  match cb with
  | CbPcapEvent _ _ ch => mret (s <| wire := wire s ++ [(ch, [])] |>)
  | _ => mret s
  end.

Lemma demo_code_keeps : keeps_fds demo_code.
Proof. intros h cb s s' H. destruct cb; by injection H as <-. Qed.

Definition demo_pkt : cap_evt := CapPkt demo_hdr (mem_zero 100).

Lemma loop_round_dispatches_witness :
  keeps_fds demo_code ∧
  ∃ s', loop_round (OF := of10) demo_code demo_module
          {| pr_end_module := 0; pr_ret := 2; pr_errno := 0; pr_revents := [POLLIN; POLLIN] |}
          (demo_harness PCAP [demo_pkt; demo_pkt]) = Ok s' ∧ wire s' = [(0, []); (2, [])].
Proof.
  split; [exact demo_code_keeps|].
  rewrite (loop_round_dispatches demo_code demo_module _ _ demo_code_keeps);
    [| |done|done].
  - eexists. split; [vm_compute; reflexivity|]. reflexivity.
  - apply (bool_decide_unpack _). vm_compute. done.
Defined.

(** ** Default handling of OpenFlow messages *)

Section messages.
Context {OF : OpenFlow} {L : OFLayout OF} {T : OFTypes OF} {Ev : OFEvents OF}.
Context (module_code : Z → callback → harness → res harness).

(** The echo request is none of the other events. *)
Lemma echo_request_case :
  (OFPT_ECHO_REQUEST =? OFPT_PACKET_IN) = false ∧ (OFPT_ECHO_REQUEST =? OFPT_FLOW_EXPIRED) = false ∧
  (OFPT_ECHO_REQUEST =? OFPT_PORT_STATUS) = false.
Proof.
  pose proof (@of_events_distinct OF Ev) as H.
  apply NoDup_cons in H as [H1 H]. apply NoDup_cons in H as [H2 H]. apply NoDup_cons in H as [H3 H].
  rewrite !not_elem_of_cons in H1. rewrite !not_elem_of_cons in H2. rewrite !not_elem_of_cons in H3.
  split_and!; apply Z.eqb_neq; intuition congruence.
Qed.

Lemma slice_0_all (c : mem) n : zlen c = n → slice c 0 n = c.
Proof. intros <-. unfold slice, zlen. rewrite Nat2Z.id, drop_0. by rewrite firstn_all. Qed.

(** The copy of the header, with its type changed. *)
Lemma echo_header (v t l1 l2 x1 x2 x3 x4 : Z) rest :
  (resp ← rd_cells (cells ([v; t; l1; l2; x1; x2; x3; x4] ++ rest)) 0 sizeof_ofp_header;
   wr8 resp ofp_header_type OFPT_ECHO_REPLY) = Ok (cells [v; u8 OFPT_ECHO_REPLY; l1; l2; x1; x2; x3; x4]).
Proof.
  of_layout. rewrite rd_cells_ok.
  - cbn [mbind res_bind]. unfold slice, cells. cbn [Z.to_nat Pos.to_nat drop]. done.
  - unfold in_bounds. rewrite zlen_cells, zlen_app. pose proof (zlen_nonneg rest).
    change (zlen [v; t; l1; l2; x1; x2; x3; x4]) with 8. lia.
Qed.

(** An echo request for a module without a handler of its own: the
    dispatch finds the default, which answers with the request's header - same
    version, length and transaction id, the type that of a reply - when the
    request is no longer than a header.  A longer request (one that carries
    data to echo) makes the reply read beyond the copied header. *)
Theorem default_echo_reply m v t l1 l2 x1 x2 x3 x4 rest s :
  curr_test (ctx s) = Some m → m_of_event_echo_request m = Default (str "of_event_echo_request") →
  fluid_control (ctx s) ≠ 0 → 0 ≤ l1 → 0 ≤ l2 →
  default_module_of_message module_code OFPT_ECHO_REQUEST
    (cells ([v; t; l1; l2; x1; x2; x3; x4] ++ rest)) s =
  if l1 * 256 + l2 <=? 8
  then Ok (s <| control_out := control_out s ++
             [take (Z.to_nat (l1 * 256 + l2)) [v; OFPT_ECHO_REPLY; l1; l2; x1; x2; x3; x4]] |>)
  else Fault FBounds.
Proof.
  intros Hm Hd Hf Hl1 Hl2. unfold default_module_of_message. rewrite Hm, Hd.
  destruct echo_request_case as (-> & -> & ->). rewrite Z.eqb_refl. cbn [invoke default_call].
  unfold default_module_of_event_echo_request. rewrite <-res_bind_assoc, echo_header. cbn [mbind res_bind].
  assert (u8 OFPT_ECHO_REPLY = OFPT_ECHO_REPLY) as ->.
  { apply Z.mod_small. pose proof (@of_types_byte OF T) as Hb. repeat (apply Forall_cons in Hb as [? Hb]). lia. }
  unfold oflops_send_of_mesg, oflops_send_of_mesgs, write_oflops_control.
  apply Z.eqb_neq in Hf as ->. set (h := [v; OFPT_ECHO_REPLY; l1; l2; x1; x2; x3; x4]).
  assert (rd16be (cells h) ofp_header_length = Ok (l1 * 256 + l2)) as Hlen by (by of_layout).
  rewrite Hlen. cbn [mbind res_bind mret res_ret].
  assert ((if l1 * 256 + l2 =? 0 then Ok (l1 * 256 + l2) else mret (l1 * 256 + l2)) = Ok (l1 * 256 + l2)) as ->
    by (by case_match).
  cbn [mbind res_bind]. unfold rd_bytes. destruct (_ <=? 8) eqn:E.
  - rewrite rd_cells_ok by (unfold in_bounds; rewrite zlen_cells; change (zlen h) with 8; lia).
    cbn [mbind res_bind]. unfold slice. rewrite drop_0. unfold cells. rewrite <-fmap_take.
    fold (cells (take (Z.to_nat (l1 * 256 + l2)) h)). by rewrite bytes_of_cells.
  - unfold rd_cells. rewrite decide_False; [done|]. unfold in_bounds. rewrite zlen_cells.
    change (zlen h) with 8. lia.
Qed.
End messages.

Lemma default_echo_reply_witness :
  (∃ s', default_module_of_message (OF := of10) demo_code 2 (cells [1; 2; 0; 8; 0; 0; 0; 9])
           (demo_harness PCAP []) = Ok s' ∧ control_out s' = [[1; 3; 0; 8; 0; 0; 0; 9]])
  ∧ default_module_of_message (OF := of10) demo_code 2 (cells [1; 2; 0; 9; 0; 0; 0; 9; 77])
      (demo_harness PCAP []) = Fault FBounds.
Proof.
  split.
  - eexists. split.
    + apply (default_echo_reply (OF := of10) demo_code demo_module 1 2 0 8 0 0 0 9 []
               (demo_harness PCAP [])); done.
    + reflexivity.
  - exact (default_echo_reply (OF := of10) demo_code demo_module 1 2 0 9 0 0 0 9 [77] (demo_harness PCAP [])
             ltac:(done) ltac:(done) ltac:(done) ltac:(done) ltac:(done)).
Defined.

(** ** The static packet of the NetFPGA path *)

(** Once a NetFPGA packet was handled, the pointer to the freed packet is kept:
    the next event on a NetFPGA channel uses it. *)
Lemma nf2_second_packet_dangles {OF : OpenFlow} module_code m r ch s s' x :
  get_channel (ctx s') ch = Ok x → cap_type x = NF2 → Z.land r POLLIN ≠ 0 → Z.land r POLLOUT = 0 →
  process_pcap_event module_code m r ch s = Ok s' → nf_pe s' = PeFreed →
  process_pcap_event module_code m r ch s' = Fault FDangling.
Proof.
  intros Hx Ht Hin Hout _ Hpe. unfold process_pcap_event. rewrite Hx. cbn [mbind res_bind].
  rewrite Hout. cbn. apply Z.eqb_neq in Hin as ->. rewrite Ht. cbn. by rewrite Hpe.
Qed.
