(* ===== verification/TrafficGen.v ===== *)
(** * Traffic generation (traffic_generator.c)

    The three traffic generators - user space, the kernel's pktgen and the
    NetFPGA - and the extraction of the measurement header.  A pointer into the
    packet is its offset.  The C library's inet_addr and rand, the NetFPGA
    library and the files of /proc are parameters, answers, or a trace of what
    was asked of them. *)

From S2P Require Import Prelude CTime CBytes CStr OpenFlow PcapTrack Msg Context Harness.
Open Scope Z_scope.

(** ** Byte order of values already in memory *)

Definition bswap16 (z : Z) : Z := un_be16 (le16 z).
Definition bswap32 (z : Z) : Z := un_be32 (le32 z).
Definition rd32le (m : mem) (off : Z) : res Z := bs ← rd_bytes m off 4; mret (un_be32 (reverse bs)).

(** ** Data *)

(** [struct pkt_details]; addresses are in network order, as the 32-bit value
    the host sees.  Pointers are NULL until the packet is initialised. *)
Record pkt_details := {
  traffic_gen : Z;
  seq_num : Z;
  timestamp : timespec;
  pkt : mem;              (* data *)
  data_len : Z;
  ip : option Z;
  udp : option Z;
  pktgen : option Z;
  ip_dest_min : Z;
  ip_dest_max : Z;
}.
#[export] Instance pkt_details_rebuild : Rebuild pkt_details := λ p,
  {| traffic_gen := traffic_gen p; seq_num := seq_num p; timestamp := timestamp p; pkt := pkt p;
     data_len := data_len p; ip := ip p; udp := udp p; pktgen := pktgen p;
     ip_dest_min := ip_dest_min p; ip_dest_max := ip_dest_max p |}.

Definition pkt_details0 : pkt_details :=
  {| traffic_gen := 0; seq_num := 0; timestamp := {| ts_sec := 0; ts_nsec := 0 |}; pkt := [];
     data_len := 0; ip := None; udp := None; pktgen := None; ip_dest_min := 0; ip_dest_max := 0 |}.

(** [struct pktgen_hdr] *)
Definition PKTGEN_MAGIC : Z := 0xbe9be955.
Definition sizeof_pktgen_hdr : Z := 16.

Definition not_null (p : option Z) : res Z := match p with Some o => Ok o | None => Fault FNull end.

(** ** Choosing a generator *)

Definition add_traffic_generator (channel : Z) (d : traf_gen_det) (c : oflops_context) :
    res (Z * oflops_context) :=
  if n_channels c <? channel then Fault (FExit 1)
  else x ← get_channel c channel; mret (1, put_channel channel (x <| det := Some d |>) c).

Fixpoint min_loop (gens : list pkt_details) (i min_gen : Z) (min_tv : timespec) : Z :=
  match gens with
  | [] => min_gen
  | g :: gens =>
    if timespec_diff (timestamp g) min_tv >? 0 then min_loop gens (i + 1) i (timestamp g)
    else min_loop gens (i + 1) min_gen min_tv
  end.

Definition get_min_generator (gens : list pkt_details) : Z :=
  match gens with
  | [] => -1
  | g :: rest => min_loop rest 1 0 (timestamp g)
  end.

(** ** Sending a packet *)

(** The destination moves on through its range; the checksum follows. *)
Definition next_dest (st : pkt_details) : res pkt_details :=
  if ip_dest_min st =? ip_dest_max st then mret st
  else
    o ← not_null (ip st);
    a ← rd32le (pkt st) (o + 16);
    b ← (if a =? ip_dest_max st then wr32le (pkt st) (o + 16) (ip_dest_min st)
         else wr32be (pkt st) (o + 16) (u32 (bswap32 a + 1)));
    b ← wr16be b (o + 10) 0;
    c ← ip_sum_calc 20 (drop (Z.to_nat o) b);
    b ← wr16be b (o + 10) c;
    mret (st <| pkt := b |>).

Section send.
Context (if_index : cstring → option Z) (bind_ok : Z → bool).

Definition stamp (st : pkt_details) (now : timeval) : res pkt_details :=
  o ← not_null (pktgen st);
  b ← wr32be (pkt st) (o + 4) (seq_num st);
  b ← wr32be b (o + 8) (tv_sec now);
  b ← wr32be b (o + 12) (tv_usec now);
  mret (st <| pkt := b |> <| seq_num := u32 (seq_num st + 1) |>).

Definition send_pkt (ix : Z) (now : timeval) (gens : list pkt_details) (s : harness) :
    res (list pkt_details * harness) :=
  match zget gens ix with
  | None => Fault FBounds
  | Some st =>
    st ← stamp st now;
    st ← next_dest st;
    '(_, s) ← oflops_send_raw_mesg if_index bind_ok (traffic_gen st) (pkt st) (data_len st) s;
    x ← get_channel (ctx s) (traffic_gen st);
    match det x with
    | None => Fault FNull
    | Some d =>
      mret (zset gens ix (st <| timestamp := add_timespec (timestamp st) 0 (gen_delay d) |>), s)
    end
  end.
End send.

(** ** Building the packet *)

(** One octet per piece of the string; the string is cut at its first colon. *)
Fixpoint write_mac (b : mem) (off : Z) (pieces : list cstring) : res mem :=
  match pieces with
  | [] => mret b
  | p :: pieces => b ← wr8 b off (strtol 16 p); write_mac b (off + 1) pieces
  end.

(** The pieces between the colons. *)
Fixpoint colon_pieces (cur : cstring) (s : cstring) : list cstring :=
  match s with
  | [] => [reverse cur]
  | c :: s => if c =? 58 then reverse cur :: colon_pieces [] s else colon_pieces (c :: cur) s
  end.

Definition read_mac_addr (b : mem) (addr : Z) (s : cstring) : res (mem * cstring) :=
  b ← write_mac b addr (colon_pieces [] s);
  mret (b, from_option fst s (split_at 58 s)).

Section packet.
Context (inet_addr : cstring → Z).

(** The layers below the measurement header: where IP starts, and the type
    fields. *)
Definition put_ether (b : mem) (d : traf_gen_det) : res (mem * Z) :=
  if negb (vlan d =? 0) && negb (vlan d =? 0xffff) then
    b ← wr16be b 12 0x8100;
    b ← wr_vid b (Z.shiftr (bswap16 (vlan d)) 4);
    b ← wr16be b 16 ETHERTYPE_IP;
    mret (b, sizeof_ether_vlan_header)
  else
    b ← wr16be b 12 ETHERTYPE_IP;
    mret (b, sizeof_ether_header).

Definition put_ip (b : mem) (o len : Z) (d : traf_gen_det) : res mem :=
  b ← wr16be b (o + 2) (u16 (len - o));
  b ← wr8 b (o + 9) 1;
  b ← wr8 b o 0x05;
  b ← wr8 b o 0x45;
  b ← wr8 b (o + 8) 100;
  b ← wr8 b (o + 9) IPPROTO_UDP;
  b ← wr32le b (o + 12) (inet_addr (src_ip d));
  b ← wr32le b (o + 16) (inet_addr (dst_ip_min d));
  c ← ip_sum_calc 20 (drop (Z.to_nat o) b);
  wr16be b (o + 10) c.

Definition put_udp (b : mem) (u len : Z) (d : traf_gen_det) : res mem :=
  b ← wr16be b u (udp_src_port d);
  b ← wr16be b (u + 2) (udp_dst_port d);
  wr16be b (u + 4) (u16 (len - u)).

(** The result, the state, and the details with their addresses cut. *)
Definition innitialize_generator_packet (st : pkt_details) (d : traf_gen_det) :
    res (Z * pkt_details * traf_gen_det) :=
  let len := i32 (pkt_size d) in
  if len <? 0 then Fault FBounds
  else
    let b := mem_zero len in
    let st := st <| pkt := b |> <| data_len := len |> in
    if len <? sizeof_ether_vlan_header + sizeof_iphdr + sizeof_tcphdr then mret (0, st, d)
    else
      '(b, md) ← read_mac_addr b 0 (mac_dst d);
      '(b, ms) ← read_mac_addr b 6 (mac_src d);
      '(b, o) ← put_ether b d;
      b ← put_ip b o len d;
      let u := o + sizeof_iphdr in
      b ← put_udp b u len d;
      let g := u + sizeof_udphdr in
      b ← wr32be b g PKTGEN_MAGIC;
      mret (1, st <| pkt := b |> <| ip := Some o |> <| udp := Some u |> <| pktgen := Some g |>
                  <| ip_dest_min := inet_addr (dst_ip_min d) |> <| ip_dest_max := inet_addr (dst_ip_max d) |>,
            d <| mac_dst := md |> <| mac_src := ms |>).

(** ** The user space generator *)

(** A generator for each channel with details.  [nows] and [rands]: the clock
    and rand() when channel [ix] is reached. *)
Fixpoint init_traffic_gen (nows : Z → timeval) (rands : Z → Z) (n : nat) (ix : Z)
    (gens : list pkt_details) (c : oflops_context) : res (list pkt_details * oflops_context) :=
  match n with
  | O => mret (gens, c)
  | S n =>
    x ← get_channel c ix;
    match det x with
    | None => init_traffic_gen nows rands n (ix + 1) gens c
    | Some d =>
      let t := add_timespec (tv_to_ts (nows ix)) 0 (Z.rem (rands ix) 1000000000) in
      '(_, st, d) ← innitialize_generator_packet
                      (pkt_details0 <| traffic_gen := ix |> <| timestamp := t |>) d;
      init_traffic_gen nows rands n (ix + 1) (gens ++ [st]) (put_channel ix (x <| det := Some d |>) c)
    end
  end.

(** A turn of the loop: the flag as other threads left it, and the clock. *)
Record tg_round := { tr_end : Z; tr_now : timeval }.

Section user.
Context (if_index : cstring → option Z) (bind_ok : Z → bool).

Fixpoint user_loop (rounds : list tg_round) (gens : list pkt_details) (s : harness) :
    res (bool * list pkt_details * harness) :=
  match rounds with
  | [] => mret (false, gens, s)
  | r :: rounds =>
    let s := s <| ctx := ctx s <| end_traffic_generation := tr_end r |> |> in
    if negb (tr_end r =? 0) then mret (true, gens, s)
    else
      let nr := get_min_generator gens in
      if nr <? 0 then user_loop rounds gens s
      else match zget gens nr with
           | None => Fault FBounds
           | Some g =>
             if i32 (time_diff (tr_now r) (ts_to_tv (timestamp g))) >? 0 then user_loop rounds gens s
             else '(gens, s) ← send_pkt if_index bind_ok nr (tr_now r) gens s; user_loop rounds gens s
           end
  end.

Definition start_user_traffic_generator (nows : Z → timeval) (rands : Z → Z) (rounds : list tg_round)
    (s : harness) : res (bool * list pkt_details * harness) :=
  '(gens, c) ← init_traffic_gen nows rands (Z.to_nat (n_channels (ctx s))) 0 [] (ctx s);
  user_loop rounds gens (s <| ctx := c |>).
End user.
End packet.
