(* ===== verification/TrafficKernel.v ===== *)
(** * Traffic generation in the kernel and in hardware (traffic_generator.c)

    The generator of the Linux kernel (pktgen, driven through files of /proc),
    the one of the NetFPGA, starting and stopping them, their report, and the
    extraction of the measurement header from a captured packet. *)

From S2P Require Import Prelude CTime CBytes CStr OpenFlow PcapTrack Msg Context Harness TrafficGen.
Open Scope Z_scope.

(** ** pktgen *)

(** The commands written to /proc/net/pktgen, in order: file and text. *)
Definition commands := list (cstring * cstring).

Section pktgen.
(** Which files of /proc exist, and can be opened and written. *)
Context (exists_ writable : cstring → bool).

Definition printf_and_check (file msg : cstring) (t : commands) : res commands :=
  if writable file then mret (t ++ [(file, msg ++ [10])]) else Fault (FExit 1).

Fixpoint printf_all (file : cstring) (msgs : list cstring) (t : commands) : res commands :=
  match msgs with
  | [] => mret t
  | m :: msgs => t ← printf_and_check file m t; printf_all file msgs t
  end.

Definition kpktgend (i : Z) : cstring := str "/proc/net/pktgen/kpktgend_" ++ dec i.
Definition pktgen_intf (d : cstring) : cstring := snprintf 1024 (str "/proc/net/pktgen/" ++ d).

(** The first loop: one turn per channel, the thread advances while it exists. *)
Fixpoint remove_devices (n : nat) (i : Z) (t : commands) : res commands :=
  match n with
  | O => mret t
  | S n =>
    if exists_ (kpktgend i)
    then t ← printf_and_check (kpktgend i) (str "rem_device_all") t; remove_devices n (i + 1) t
    else remove_devices n i t
  end.

(** The channels with details, in order. *)
Definition dev_of (x : channel_info) : res cstring :=
  match dev x with Some d => Ok d | None => Fault FNull end.

Fixpoint add_devices (xs : list channel_info) (i : Z) (t : commands) : res commands :=
  match xs with
  | [] => mret t
  | x :: xs =>
    match det x with
    | None => add_devices xs i t
    | Some _ =>
      d ← dev_of x;
      t ← printf_and_check (kpktgend i) (snprintf 5000 (str "add_device " ++ d)) t;
      add_devices xs (i + 1) t
    end
  end.

(** The parameters of one interface. *)
Definition pktgen_params (d : traf_gen_det) : list cstring :=
  [str "clone_skb 0"; str "count 0";
   snprintf 5000 (str "delay " ++ dec (i32 (gen_delay d)));
   snprintf 5000 (str "pkt_size " ++ dec (i32 (pkt_size d)));
   snprintf 5000 (str "dst_min " ++ dst_ip_min d);
   snprintf 5000 (str "dst_max " ++ dst_ip_max d);
   snprintf 5000 (str "flag " ++ gen_flags d ++ str " ");
   snprintf 5000 (str "vlan_id " ++ dec (vlan d));
   snprintf 5000 (str "vlan_p " ++ dec (vlan_p d));
   snprintf 5000 (str "vlan_cfi " ++ dec (vlan_cfi d));
   snprintf 5000 (str "dst_mac " ++ mac_dst d);
   snprintf 5000 (str "src_mac " ++ mac_src d);
   snprintf 5000 (str "src_min " ++ src_ip d);
   snprintf 5000 (str "src_max " ++ src_ip d);
   str "tos 4";
   snprintf 5000 (str "udp_src_max " ++ dec (udp_src_port d));
   snprintf 5000 (str "udp_src_min " ++ dec (udp_src_port d));
   snprintf 5000 (str "udp_dst_max " ++ dec (udp_dst_port d));
   snprintf 5000 (str "udp_dst_min " ++ dec (udp_dst_port d));
   snprintf 5000 (str "count " ++ dec (u64 (pkt_count d)))].

Fixpoint configure_devices (xs : list channel_info) (t : commands) : res commands :=
  match xs with
  | [] => mret t
  | x :: xs =>
    match det x with
    | None => configure_devices xs t
    | Some d =>
      dv ← dev_of x;
      t ← printf_all (pktgen_intf dv) (pktgen_params d) t;
      configure_devices xs t
    end
  end.

Definition used_channels (c : oflops_context) : list channel_info :=
  take (Z.to_nat (n_channels c)) (channels c).

Definition start_pktgen_traffic_generator (c : oflops_context) (t : commands) : res (Z * commands) :=
  t ← remove_devices (Z.to_nat (n_channels c)) 0 t;
  t ← add_devices (used_channels c) 0 t;
  t ← configure_devices (used_channels c) t;
  t ← printf_and_check (str "/proc/net/pktgen/pgctrl") (str "start") t;
  mret (1, t).

(** *** The report *)

(** fgets: the next line, or the buffer as it was at the end of the file. *)
Definition fgets (lines : list cstring) (line : option cstring) : list cstring * option cstring :=
  match lines with l :: r => (r, Some (take 2047 l)) | [] => ([], line) end.

Fixpoint fgets_n (n : nat) (lines : list cstring) (line : option cstring) :=
  match n with
  | O => (lines, line)
  | S n => let '(lines, line) := fgets lines line in fgets_n n lines line
  end.

(** The line with its last character replaced. *)
Definition replace_last (line : option cstring) (c : Z) : res cstring :=
  match line with
  | None => Fault FUninit
  | Some [] => Fault FBounds
  | Some l => Ok (take (pred (length l)) l ++ (if c =? 0 then [] else [c]))
  end.

Definition realloc_to (m : mem) (n : Z) : mem := take (Z.to_nat n) m ++ mem_new (n - zlen m).

(** sizeof("dev XXXXXXXXXXX ") *)
Definition DEV_FIELD : Z := 17.

(** One interface: the buffer and the number of characters in it. *)
Definition report_one (lines : list cstring) (d : cstring) (ret : mem) (size : Z) : res (mem * Z) :=
  let '(lines, line) := fgets_n 18 lines None in
  let ret := realloc_to ret (size + DEV_FIELD) in
  let txt := str "dev " ++ d ++ str " " in
  ret ← wr_bytes ret size (snprintf (Z.to_nat DEV_FIELD) txt ++ [0]);
  let size := size + zlen txt in
  let '(lines, line) := fgets lines line in
  l1 ← replace_last line 0;
  let ret := realloc_to ret (size + zlen l1 + 1) in
  ret ← wr_bytes ret size (l1 ++ [0]);
  let size := size + zlen l1 + 1 in
  let '(lines, line) := fgets lines (Some l1) in
  l2 ← replace_last line 44;
  let ret := realloc_to ret (size + zlen l2 + 1) in
  ret ← wr_bytes ret (size - 1) (l2 ++ [0]);
  mret (ret, size + zlen l2 - 1).

(** [proc]: the contents of a file of /proc, by lines. *)
Fixpoint report_loop (proc : cstring → option (list cstring)) (xs : list channel_info) (ret : mem) (size : Z) :
    res (mem * Z) :=
  match xs with
  | [] => mret (ret, size)
  | x :: xs =>
    match det x with
    | None => report_loop proc xs ret size
    | Some _ =>
      d ← dev_of x;
      match proc (pktgen_intf d) with
      | None => Fault FNull
      | Some lines =>
        '(ret, size) ← report_one lines d ret size;
        report_loop proc xs ret size
      end
    end
  end.

Definition report_pktgen_traffic_generator (proc : cstring → option (list cstring)) (c : oflops_context) :
    res mem :=
  '(ret, _) ← report_loop proc (used_channels c) [] 0; mret ret.

Definition report_traffic_generator (proc : cstring → option (list cstring)) (c : oflops_context) : res mem :=
  if trafficGen c =? PKTGEN then report_pktgen_traffic_generator proc c else mret (cells [0]).
End pktgen.

(** ** NetFPGA *)

(** What is asked of the NetFPGA library. *)
Inductive nf_call :=
| NfInit (pad nodrop resolve : Z)
| NfRateLimiterDisable (queue : Z)
| NfIterations (n queue : Z)
| NfLoad (data : list Z) (queue delay : Z)
| NfStart
| NfFinish.

Section nf.
Context (inet_addr : cstring → Z) (rands : Z → Z → Z).

Definition IPDST_RND : cstring := str "IPDST_RND".

(** The number of flows: the arithmetic is unsigned, the result an int. *)
Definition flow_num (d : traf_gen_det) : Z :=
  i32 (u32 (bswap32 (inet_addr (dst_ip_max d)) - bswap32 (inet_addr (dst_ip_min d))) + 1).

(** 1.2 times the flows, truncated, for random destinations; a conversion that
    does not fit an int is undefined. *)
Definition nf_pkt_count (d : traf_gen_det) : res Z :=
  if contains (gen_flags d) IPDST_RND then chk_int ((6 * flow_num d) `quot` 5) else mret (flow_num d).

(** The iterations per queue; four queues. *)
Fixpoint nf_iterations (xs : list channel_info) (ix : Z) (iteration : list (option Z)) (send : bool) :
    res (list (option Z) * bool) :=
  match xs with
  | [] => mret (iteration, send)
  | x :: xs =>
    match det x with
    | None => nf_iterations xs (ix + 1) iteration send
    | Some d =>
      let max_packets := if negb (pkt_count d =? 0) then u32 (pkt_count d) else 100000000 in
      n ← nf_pkt_count d;
      iteration ← arr_write iteration (ix - 1)
                    (if negb (n =? 0) then max_packets `quot` u32 n else max_packets);
      nf_iterations xs (ix + 1) iteration true
    end
  end.

(** The destination of the [i]th packet of a queue. *)
Definition nf_dest (d : traf_gen_det) (queue i : Z) : res Z :=
  if contains (gen_flags d) IPDST_RND then
    if flow_num d =? 0 then Fault FDivZero
    else mret (u32 (bswap32 (inet_addr (dst_ip_min d)) + Z.rem (rands queue i) (flow_num d)))
  else mret (u32 (bswap32 (inet_addr (dst_ip_min d)) + i)).

Fixpoint nf_load (n : nat) (i queue : Z) (d : traf_gen_det) (st : pkt_details) (t : list nf_call) :
    res (pkt_details * list nf_call) :=
  match n with
  | O => mret (st, t)
  | S n =>
    o ← not_null (ip st);
    a ← nf_dest d queue i;
    b ← wr32be (pkt st) (o + 16) a;
    b ← wr16be b (o + 10) 0;
    c ← ip_sum_calc 20 (drop (Z.to_nat o) b);
    b ← wr16be b (o + 10) c;
    bs ← rd_bytes b 0 (pkt_size d);
    nf_load n (i + 1) queue d (st <| pkt := b |>) (t ++ [NfLoad bs queue (gen_delay d)])
  end.

(** Loading the packets of every channel; the result keeps the details with
    their addresses cut, and the last of them. *)
Fixpoint nf_load_all (n : nat) (ix : Z) (iteration : list (option Z)) (last : option traf_gen_det)
    (c : oflops_context) (t : list nf_call) : res (option traf_gen_det * oflops_context * list nf_call) :=
  match n with
  | O => mret (last, c, t)
  | S n =>
    x ← get_channel c ix;
    match det x with
    | None => nf_load_all n (ix + 1) iteration last c t
    | Some d =>
      it ← arr_read iteration (ix - 1);
      '(_, st, d) ← innitialize_generator_packet inet_addr pkt_details0 d;
      let t := t ++ [NfIterations it (ix - 1)] in
      k ← nf_pkt_count d;
      '(_, t) ← nf_load (Z.to_nat k) 0 (ix - 1) d st t;
      nf_load_all n (ix + 1) iteration (Some d) (put_channel ix (x <| det := Some d |>) c) t
    end
  end.

(** A turn of the waiting loop: the flag, and whether the hardware is done. *)
Record nf_round := { nr_end : Z; nr_finished : bool }.

Fixpoint nf_wait (rounds : list nf_round) (send : bool) (last : option traf_gen_det) (t : list nf_call) :
    res (bool * list nf_call) :=
  match rounds with
  | [] => mret (false, t)
  | r :: rounds =>
    if negb (nr_end r =? 0) then mret (true, t)
    else if nr_finished r && send then
      let t := t ++ [NfFinish] in
      match last with
      | None => Fault FUninit
      | Some d => if negb (pkt_count d =? 0) then mret (true, t) else nf_wait rounds send last (t ++ [NfStart])
      end
    else nf_wait rounds send last t
  end.

Definition start_nf_traffic_generator (rounds : list nf_round) (c : oflops_context) :
    res (bool * oflops_context * list nf_call) :=
  let t := NfInit 1 0 1 :: (NfRateLimiterDisable <$> [0; 1; 2; 3]) in
  '(iteration, send) ← nf_iterations (tail (used_channels c)) 1 (replicate 4 (Some 0)) false;
  '(last, c, t) ← nf_load_all (Z.to_nat (n_channels c)) 0 iteration None c t;
  '(ended, t) ← nf_wait rounds send last (t ++ [NfStart]);
  mret (ended, c, if ended : bool then t ++ [NfFinish] else t).
End nf.

(** ** Starting and stopping *)

(** init_traf_gen: whether the kernel module could be loaded. *)
Definition init_traf_gen (setuid_ok modprobe_ok : bool) (c : oflops_context) : res Z :=
  if (trafficGen c =? PKTGEN) && negb (setuid_ok && modprobe_ok) then Fault (FExit 1) else mret 1.

(** start_traffic_generator runs the generator that was chosen: the result is
    None while the user-space or the NetFPGA generator is still running. *)
Definition start_traffic_generator (inet_addr : cstring → Z) (if_index : cstring → option Z) (bind_ok : Z → bool)
    (exists_ writable : cstring → bool) (nows : Z → timeval) (rands : Z → Z) (nf_rands : Z → Z → Z)
    (rounds : list tg_round) (nf_rounds : list nf_round) (s : harness) (k : commands) (t : list nf_call) :
    res (option Z * harness * commands * list nf_call) :=
  if trafficGen (ctx s) =? PKTGEN then
    '(r, k) ← start_pktgen_traffic_generator exists_ writable (ctx s) k; mret (Some r, s, k, t)
  else if trafficGen (ctx s) =? USER_SPACE then
    '(ended, _, s) ← start_user_traffic_generator inet_addr if_index bind_ok nows rands rounds s;
    mret (if (ended : bool) then Some 1 else None, s, k, t)
  else if trafficGen (ctx s) =? NF_PKTGEN then
    '(ended, c, calls) ← start_nf_traffic_generator inet_addr nf_rands nf_rounds (ctx s);
    mret (if (ended : bool) then Some 1 else None, s <| ctx := c |>, k, t ++ calls)
  else mret (Some 0, s, k, t).

(** What stop_traffic_generator does: a command to the kernel's generator, a
    call of the NetFPGA library, or nothing. *)
Definition stop_traffic_generator (writable : cstring → bool) (c : oflops_context)
    (k : commands) (t : list nf_call) : res (Z * commands * list nf_call) :=
  if trafficGen c =? PKTGEN then mret (1, k, t ++ [NfFinish])
  else if trafficGen c =? NF_PKTGEN then
    let ctrl := str "/proc/net/pktgen/pgctrl" in
    if writable ctrl then mret (1, k ++ [(ctrl, str "stop")], t) else Fault (FExit 1)
  else mret (1, k, t).

Definition oflops_gettimeofday (c : oflops_context) (nf_clock clock : timeval) : timeval :=
  if trafficGen c =? NF_PKTGEN then nf_clock else clock.

(** ** The measurement header of a captured packet *)

(** The header as the module reads it: host order, the magic as it is. *)
Record pktgen_hdr := { pg_magic : Z; pg_seq_num : Z; pg_tv_sec : Z; pg_tv_usec : Z }.

(** The flow of the packet, whose IP header is at [o] and UDP header at [u]. *)
Definition flow_of_packet (b : mem) (o u : Z) : res flow :=
  src ← rd_bytes b 6 6;
  dst ← rd_bytes b 0 6;
  t ← rd16be b 12;
  '(ty, vl) ← (if t =? 0x8100
               then ty ← rd16be b 16;
                    unit ← rd_bytes b 14 2;
                    let vid := Z.shiftr (un_be16 (reverse unit)) 4 in
                    mret (ty, Z.land 0x0FFF (bswap16 (Z.shiftl vid 4)))
               else mret (t, 0xFFFF));
  nsrc ← rd32le b (o + 12);
  ndst ← rd32le b (o + 16);
  ps ← rd16be b u;
  pd ← rd16be b (u + 2);
  mret {| f_mask := 0; f_in_port := 0; f_dl_src := src; f_dl_dst := dst; f_dl_vlan := vl; f_dl_type := ty;
          f_nw_src := nsrc; f_nw_dst := ndst; f_nw_proto := IPPROTO_UDP; f_tp_src := ps; f_tp_dst := pd |}.

(** From the IP header at [o] on, of which [len] bytes were captured.
    [nf_extract]: nf_gen_extract_header of the NetFPGA library.  The code exchanges
    the bytes of the measurement header in the captured packet itself and returns
    a pointer to it; the value returned here is the header with its bytes
    exchanged, and the packet, which the callers do not read again, stays as it is. *)
Definition extract_at (nf_extract : Z → mem → Z → option pktgen_hdr) (c : oflops_context) (port : Z)
    (b : mem) (len : Z) (want_flow : bool) (o : Z) : res (option pktgen_hdr * option flow) :=
  v ← rd8 b o;
  let ihl := Z.land v 15 in
  if len <? 4 * ihl then mret (None, None)
  else
    let u := o + 4 * ihl in
    let len := len - 4 * ihl in
    fl ← (if want_flow then f ← flow_of_packet b o u; mret (Some f) else mret None);
    let g := u + sizeof_udphdr in
    x ← get_channel c port;
    if cap_type x =? PCAP then
      magic ← rd32le b g;
      seq ← rd32be b (g + 4);
      sec ← rd32be b (g + 8);
      usec ← rd32be b (g + 12);
      mret (Some {| pg_magic := magic; pg_seq_num := seq; pg_tv_sec := sec; pg_tv_usec := usec |}, fl)
    else if cap_type x =? NF2 then mret (nf_extract (nf_cap x) b len, fl)
    else mret (None, fl).

Definition extract_pktgen_pkt (nf_extract : Z → mem → Z → option pktgen_hdr) (c : oflops_context) (port : Z)
    (b : mem) (len : Z) (want_flow : bool) : res (option pktgen_hdr * option flow) :=
  if (port <? 0) || (port >? n_channels c) then mret (None, None)
  else
    t ← rd16be b 12;
    t2 ← (if t =? 0x8100 then rd16be b 16 else mret 0);
    if (t =? 0x8100) && (t2 =? 0x0800)
    then extract_at nf_extract c port b (len - sizeof_ether_vlan_header) want_flow sizeof_ether_vlan_header
    else if t =? 0x0800
    then extract_at nf_extract c port b (len - sizeof_ether_header) want_flow sizeof_ether_header
    else mret (None, None).
