(* ===== verification/TrafficSpec.v ===== *)
(** * What the traffic generators promise

    The user space generator always serves the most urgent channel; the frames
    it sends are complete, carry consecutive sequence numbers and a valid
    checksum, and walk through the range of destinations; the measurement
    header of a captured frame is the one that was sent. *)

From S2P Require Import Prelude CTime CBytes CStr OpenFlow PcapTrack Msg MsgSpec Context ContextSpec.
From S2P Require Import Harness ModuleDefault ModuleRun ModuleRunSpec TrafficGen TrafficKernel.
Open Scope Z_scope.

(** ** The next generator *)

(** A time in nanoseconds; times whose differences fit 64 bits. *)
Definition ns (t : timespec) : Z := ts_sec t * 1000000000 + ts_nsec t.
Definition ts_sane (t : timespec) : Prop := 0 ≤ ts_sec t < 2 ^ 32 ∧ 0 ≤ ts_nsec t < 2 ^ 32.

Lemma timespec_diff_sane a b : ts_sane a → ts_sane b → timespec_diff a b = ns b - ns a.
Proof.
  unfold ts_sane, timespec_diff, ns, i64. intros [? ?] [? ?].
  rewrite (Z.mod_small (_ * _ + _)) by lia. rewrite Z.mod_small by lia. lia.
Qed.

Lemma min_loop_spec gens : ∀ pre i,
  Forall (λ g, ts_sane (timestamp g)) (pre ++ gens) → (i < length pre)%nat →
  (∀ g, pre !! i = Some g →
     (∀ j h, pre !! j = Some h → ns (timestamp g) ≤ ns (timestamp h)) →
     (∀ j h, (j < i)%nat → pre !! j = Some h → ns (timestamp g) < ns (timestamp h)) →
   ∃ k g', min_loop gens (zlen pre) (Z.of_nat i) (timestamp g) = Z.of_nat k ∧ (pre ++ gens) !! k = Some g' ∧
     (∀ j h, (pre ++ gens) !! j = Some h → ns (timestamp g') ≤ ns (timestamp h)) ∧
     (∀ j h, (j < k)%nat → (pre ++ gens) !! j = Some h → ns (timestamp g') < ns (timestamp h))).
Proof.
  induction gens as [|x gens IH]; intros pre i Hs Hi g Hg Hmin Hfirst.
  - rewrite app_nil_r in *. exists i, g. done.
  - cbn [min_loop].
    assert (pre ++ x :: gens = (pre ++ [x]) ++ gens) as Hsplit by (by rewrite <-app_assoc).
    assert (zlen pre + 1 = zlen (pre ++ [x])) as Hz by (rewrite zlen_app; done).
    rewrite Hsplit in *. rewrite Hz.
    assert (ts_sane (timestamp x)) as Hx.
    { apply (Forall_lookup_1 _ _ (length pre) x Hs). rewrite lookup_app_l by (rewrite length_app; cbn; lia).
      by apply list_lookup_middle. }
    assert (ts_sane (timestamp g)) as Hgs.
    { apply (Forall_lookup_1 _ _ i g Hs). rewrite lookup_app_l by (rewrite length_app; cbn; lia).
      by rewrite lookup_app_l. }
    assert (∀ j h, (pre ++ [x]) !! j = Some h →
      ((j < length pre)%nat ∧ pre !! j = Some h) ∨ (j = length pre ∧ h = x)) as Hcase.
    { intros j h Hj. destruct (decide (j < length pre)%nat); [left; by rewrite lookup_app_l in Hj|right].
      rewrite lookup_app_r in Hj by lia. apply list_lookup_singleton_Some in Hj as [? <-]. split; [lia|done]. }
    rewrite timespec_diff_sane by done. destruct (_ >? 0) eqn:E.
    + apply IH; [done|rewrite length_app; cbn; lia|by apply list_lookup_middle| |].
      * intros j h [[_ Hj]|[_ ->]]%Hcase; [|lia]. specialize (Hmin _ _ Hj). lia.
      * intros j h Hlt [[_ Hj]|[-> ->]]%Hcase; [|lia]. specialize (Hmin _ _ Hj). lia.
    + apply (IH (pre ++ [x]) i); [done|rewrite length_app; cbn; lia|by rewrite lookup_app_l| |].
      * intros j h [[_ Hj]|[_ ->]]%Hcase; [by apply Hmin in Hj|lia].
      * intros j h Hlt [[_ Hj]|[-> ->]]%Hcase; [by eapply Hfirst|lia].
Qed.

(** get_min_generator returns -1 exactly when there is no generator, and
    otherwise the first of the generators whose next packet is due earliest. *)
Theorem get_min_generator_minimal gens :
  Forall (λ g, ts_sane (timestamp g)) gens →
  (gens = [] ∧ get_min_generator gens = -1) ∨
  ∃ k g, get_min_generator gens = Z.of_nat k ∧ gens !! k = Some g ∧
    (∀ j h, gens !! j = Some h → ns (timestamp g) ≤ ns (timestamp h)) ∧
    (∀ j h, (j < k)%nat → gens !! j = Some h → ns (timestamp g) < ns (timestamp h)).
Proof.
  intros Hs. destruct gens as [|g gens]; [by left|right].
  apply (min_loop_spec gens [g] 0%nat Hs ltac:(cbn; lia) g eq_refl).
  - intros j h [-> <-]%list_lookup_singleton_Some. lia.
  - intros j h ?. lia.
Qed.

Definition demo_gen (sec : Z) : pkt_details := pkt_details0 <| timestamp := {| ts_sec := sec; ts_nsec := 5 |} |>.

Lemma get_min_generator_minimal_witness :
  get_min_generator [demo_gen 9; demo_gen 7; demo_gen 8; demo_gen 7] = 1 ∧
  ∃ g, [demo_gen 9; demo_gen 7; demo_gen 8; demo_gen 7] !! 1%nat = Some g ∧
    ∀ j h, [demo_gen 9; demo_gen 7; demo_gen 8; demo_gen 7] !! j = Some h → ns (timestamp g) ≤ ns (timestamp h).
Proof.
  destruct (get_min_generator_minimal [demo_gen 9; demo_gen 7; demo_gen 8; demo_gen 7])
    as [[? _]|(k & g & Hk & Hg & Hmin & _)].
  - repeat constructor; cbn; lia.
  - done.
  - assert (Z.of_nat k = 1) as Hk1 by (rewrite <-Hk; reflexivity). assert (k = 1%nat) as -> by lia.
    split; [exact Hk|]. by exists g.
Defined.

(** ** Frames *)

Record frame := {
  fr_eth : list Z;              (* the Ethernet header *)
  fr_tot : Z; fr_src : Z; fr_dst : Z;       (* IP: total length, addresses as numbers *)
  fr_sp : Z; fr_dp : Z; fr_ulen : Z;        (* UDP *)
  fr_seq : Z; fr_sec : Z; fr_usec : Z;      (* the measurement header *)
  fr_pad : list Z;
}.
#[export] Instance frame_rebuild : Rebuild frame := λ f,
  {| fr_eth := fr_eth f; fr_tot := fr_tot f; fr_src := fr_src f; fr_dst := fr_dst f; fr_sp := fr_sp f;
     fr_dp := fr_dp f; fr_ulen := fr_ulen f; fr_seq := fr_seq f; fr_sec := fr_sec f;
     fr_usec := fr_usec f; fr_pad := fr_pad f |}.

(** The IP header with a given checksum, and the checksum it should have. *)
Definition ip_header (f : frame) (chk : Z) : list Z :=
  ([0x45; 0] ++ be16 (fr_tot f) ++ [0; 0; 0; 0; 100; 17]) ++ be16 chk ++ (be32 (fr_src f) ++ be32 (fr_dst f)).
Definition ip_chk (f : frame) : Z := 65535 - oc (word_sum (ip_header f 0)).

Definition transport (f : frame) : list Z :=
  be16 (fr_sp f) ++ be16 (fr_dp f) ++ be16 (fr_ulen f) ++ [0; 0] ++
  be32 PKTGEN_MAGIC ++ be32 (fr_seq f) ++ be32 (fr_sec f) ++ be32 (fr_usec f).

Definition frame_bytes (f : frame) : list Z :=
  fr_eth f ++ ip_header f (ip_chk f) ++ transport f ++ fr_pad f.

Definition ip_off (f : frame) : Z := zlen (fr_eth f).

(** A generator whose packet is the frame. *)
Record holds_frame (st : pkt_details) (f : frame) : Prop := {
  hf_pkt : pkt st = cells (frame_bytes f);
  hf_len : data_len st = ip_off f + 44 + zlen (fr_pad f);
  hf_ip : ip st = Some (ip_off f);
  hf_pktgen : pktgen st = Some (ip_off f + 28);
  hf_seq : 0 ≤ fr_dst f < 2 ^ 32;
}.

(** *** The checksum of the first twenty bytes *)

Lemma ip_header_sum f r : ip_sum_calc 20 (cells (ip_header f 0 ++ r)) = Ok (ip_chk f).
Proof.
  unfold cells. rewrite fmap_app. apply ip_sum_calc_app.
  apply (ip_sum_calc_spec (ip_header f 0)).
  - unfold ip_header. rewrite !Forall_app. split_and!; try (by apply be16_bytes || by apply be32_bytes);
      repeat constructor; done.
  - by exists 10%nat.
  - done.
Qed.

(** The header of a frame verifies. *)
Lemma ip_header_verifies f r : ip_sum_calc 20 (cells (ip_header f (ip_chk f) ++ r)) = Ok 0.
Proof.
  unfold cells. rewrite fmap_app. apply ip_sum_calc_app.
  destruct (checksum_verifies ([0x45; 0] ++ be16 (fr_tot f) ++ [0; 0; 0; 0; 100; 17])
              (be32 (fr_src f) ++ be32 (fr_dst f)) 20) as (c & Hc & _ & H0).
  - rewrite !Forall_app. split_and!; try (by apply be16_bytes); repeat constructor; done.
  - rewrite Forall_app. split; apply be32_bytes.
  - by exists 5%nat.
  - by exists 4%nat.
  - done.
  - done.
  - pose proof (ip_header_sum f []) as Hc'. rewrite app_nil_r in Hc'.
    assert (c = ip_chk f) as <-; [|exact H0].
    enough (Ok c = Ok (ip_chk f)) by congruence. rewrite <-Hc', <-Hc. done.
Qed.

(** *** Stamping and moving on *)

(** The cells of a frame: the Ethernet header, a part of known size, the rest. *)
Definition frame_mid (f : frame) (chk : Z) : mem := cells (ip_header f chk ++ transport f).

Lemma frame_cells f : cells (frame_bytes f) = cells (fr_eth f) ++ frame_mid f (ip_chk f) ++ cells (fr_pad f).
Proof. unfold frame_bytes, frame_mid, cells. by rewrite !fmap_app, <-app_assoc. Qed.

(** A write behind the Ethernet header, at a known distance. *)
Lemma wr_mid eth m rest off k c m' :
  off = zlen eth + k → wr_cells m k c = Ok m' →
  wr_cells (cells eth ++ m ++ cells rest) off c = Ok (cells eth ++ m' ++ cells rest).
Proof.
  intros Ho H. eapply wr_cells_shift; [|by apply wr_cells_app]. rewrite zlen_cells. exact Ho.
Qed.
Lemma wr_frame f m off k c m' :
  off = ip_off f + k → wr_cells m k c = Ok m' →
  wr_cells (cells (fr_eth f) ++ m ++ cells (fr_pad f)) off c = Ok (cells (fr_eth f) ++ m' ++ cells (fr_pad f)).
Proof. apply wr_mid. Qed.

Lemma rd_frame f m off k n bs :
  off = ip_off f + k → rd_bytes m k n = Ok bs →
  rd_bytes (cells (fr_eth f) ++ m ++ cells (fr_pad f)) off n = Ok bs.
Proof.
  intros Ho H. eapply rd_bytes_shift; [|by apply rd_bytes_app].
  rewrite zlen_cells. exact Ho.
Qed.

Lemma stamp_frame st f now :
  holds_frame st f →
  ∃ st', stamp st now = Ok st' ∧
    holds_frame st' (f <| fr_seq := seq_num st |> <| fr_sec := tv_sec now |> <| fr_usec := tv_usec now |>) ∧
    seq_num st' = u32 (seq_num st + 1) ∧ traffic_gen st' = traffic_gen st ∧ timestamp st' = timestamp st ∧
    ip_dest_min st' = ip_dest_min st ∧ ip_dest_max st' = ip_dest_max st.
Proof.
  intros [Hp Hl Hi Hg Hd]. unfold stamp. rewrite Hg. cbn [not_null mbind res_bind].
  rewrite Hp, frame_cells. unfold wr32be, wr_bytes.
  rewrite (wr_frame f _ _ 32 _ (frame_mid (f <| fr_seq := seq_num st |>) (ip_chk f))) by (lia || reflexivity).
  cbn [mbind res_bind].
  rewrite (wr_frame f _ _ 36 _ (frame_mid (f <| fr_seq := seq_num st |> <| fr_sec := tv_sec now |>) (ip_chk f)))
    by (lia || reflexivity).
  cbn [mbind res_bind].
  rewrite (wr_frame f _ _ 40 _ (frame_mid (f <| fr_seq := seq_num st |> <| fr_sec := tv_sec now |>
                                             <| fr_usec := tv_usec now |>) (ip_chk f))) by (lia || reflexivity).
  cbn [mbind res_bind mret res_ret]. eexists. split; [done|]. split_and!; try done.
  split; [by rewrite frame_cells|exact Hl|exact Hi|exact Hg|exact Hd].
Qed.

(** *** Addresses in network order *)

Lemma le32_bswap n : le32 (bswap32 n) = be32 n.
Proof.
  unfold bswap32, le32. assert (∃ a b c d, be32 n = [a; b; c; d] ∧ is_byte a ∧ is_byte b ∧ is_byte c ∧ is_byte d)
    as (a & b & c & d & -> & ? & ? & ? & ?).
  { do 4 eexists. split; [reflexivity|]. split_and!; apply is_byte_u8. }
  change (reverse [a; b; c; d]) with [d; c; b; a]. by rewrite be32_un_be32.
Qed.

Lemma bswap32_range n : 0 ≤ bswap32 n < 2 ^ 32.
Proof.
  unfold bswap32, le32, be32, be16, reverse. cbn. unfold u8.
  Z.to_euclidean_division_equations; lia.
Qed.

Lemma bswap32_invol n : 0 ≤ n < 2 ^ 32 → bswap32 (bswap32 n) = n.
Proof.
  intros Hn. unfold bswap32 at 1. rewrite le32_bswap. by apply un_be32_be32.
Qed.

Lemma bswap32_inj a b : 0 ≤ a < 2 ^ 32 → 0 ≤ b < 2 ^ 32 → bswap32 a = bswap32 b → a = b.
Proof. intros Ha Hb H. rewrite <-(bswap32_invol a), <-(bswap32_invol b), H by done. done. Qed.

(** The destination that follows [n] in the range. *)
Definition succ_dest (lo hi n : Z) : Z := if n =? hi then lo else u32 (n + 1).

Lemma sum_frame f f' chk :
  fr_eth f' = fr_eth f → chk = 0 →
  ip_sum_calc 20 (drop (Z.to_nat (ip_off f)) (cells (fr_eth f) ++ frame_mid f' chk ++ cells (fr_pad f))) =
  Ok (ip_chk f').
Proof.
  intros He ->. unfold ip_off, zlen. rewrite Nat2Z.id.
  rewrite drop_app_length' by (unfold cells; by rewrite length_fmap).
  unfold frame_mid, cells. rewrite <-fmap_app, <-app_assoc. apply ip_header_sum.
Qed.

Lemma next_dest_frame st f lo hi :
  holds_frame st f → ip_dest_min st = bswap32 lo → ip_dest_max st = bswap32 hi →
  0 ≤ lo < 2 ^ 32 → 0 ≤ hi < 2 ^ 32 → lo ≠ hi →
  ∃ st', next_dest st = Ok st' ∧ holds_frame st' (f <| fr_dst := succ_dest lo hi (fr_dst f) |>) ∧
    st' = st <| pkt := pkt st' |>.
Proof.
  intros [Hp Hl Hi Hg Hd] Hlo Hhi Rlo Rhi Hne. unfold next_dest. rewrite Hlo, Hhi.
  assert (bswap32 lo =? bswap32 hi = false) as -> by (apply Z.eqb_neq; intros ?%bswap32_inj; done).
  rewrite Hi. cbn [not_null mbind res_bind]. rewrite Hp, frame_cells. unfold rd32le.
  rewrite (rd_frame f _ _ 16 4 (be32 (fr_dst f))) by (done || reflexivity).
  cbn [mbind res_bind mret res_ret]. change (un_be32 (reverse (be32 (fr_dst f)))) with (bswap32 (fr_dst f)).
  set (f' := f <| fr_dst := succ_dest lo hi (fr_dst f) |>).
  assert ((if bswap32 (fr_dst f) =? bswap32 hi
           then wr32le (cells (fr_eth f) ++ frame_mid f (ip_chk f) ++ cells (fr_pad f)) (ip_off f + 16) (bswap32 lo)
           else wr32be (cells (fr_eth f) ++ frame_mid f (ip_chk f) ++ cells (fr_pad f)) (ip_off f + 16)
                  (u32 (bswap32 (bswap32 (fr_dst f)) + 1))) =
          Ok (cells (fr_eth f) ++ frame_mid f' (ip_chk f) ++ cells (fr_pad f))) as ->.
  { unfold wr32le, wr32be, wr_bytes. rewrite bswap32_invol by done. rewrite le32_bswap.
    subst f'. unfold succ_dest. destruct (fr_dst f =? hi) eqn:E.
    - apply Z.eqb_eq in E as ->. rewrite Z.eqb_refl. by apply (wr_frame f _ _ 16).
    - assert (bswap32 (fr_dst f) =? bswap32 hi = false) as ->.
      { apply Z.eqb_neq. intros ?%bswap32_inj; [|done|done]. apply Z.eqb_neq in E. done. }
      by apply (wr_frame f _ _ 16). }
  cbn [mbind res_bind]. unfold wr16be, wr_bytes.
  rewrite (wr_frame f _ _ 10 _ (frame_mid f' 0)) by (done || reflexivity).
  cbn [mbind res_bind]. rewrite (sum_frame f f') by done. cbn [mbind res_bind].
  rewrite (wr_frame f _ _ 10 _ (frame_mid f' (ip_chk f'))) by (done || reflexivity).
  cbn [mbind res_bind mret res_ret]. eexists. split; [done|]. split; [|done].
  split; [by rewrite frame_cells|exact Hl|exact Hi|exact Hg|].
  subst f'. cbn. unfold succ_dest. destruct (_ =? _); [done|]. unfold u32. apply Z.mod_pos_bound. lia.
Qed.

(** ** Building the packet *)

Definition octet (p : cstring) : Z := u8 (strtol 16 p).

Lemma write_mac_spec pieces : ∀ pre n,
  zlen pieces ≤ n →
  write_mac (cells pre ++ mem_zero n) (zlen pre) pieces =
  Ok (cells (pre ++ (octet <$> pieces)) ++ mem_zero (n - zlen pieces)).
Proof.
  induction pieces as [|p pieces IH]; intros pre n Hn.
  - cbn. rewrite app_nil_r. by rewrite Z.sub_0_r.
  - rewrite zlen_cons in Hn |- *. pose proof (zlen_nonneg pieces). cbn [write_mac]. unfold wr8, wr_bytes.
    assert (mem_zero n = mem_zero 1 ++ mem_zero (n - 1)) as ->
      by (rewrite <-mem_zero_app by lia; f_equal; lia).
    rewrite (wr_cells_shift _ _ _ 0 _ (cells [octet p] ++ mem_zero (n - 1))).
    + cbn [mbind res_bind]. replace (zlen pre + 1) with (zlen (pre ++ [octet p])) by (rewrite zlen_app; done).
      rewrite app_assoc. unfold cells at 1 2. rewrite <-fmap_app. rewrite IH by lia.
      rewrite <-app_assoc. cbn. f_equal. f_equal. f_equal. lia.
    + rewrite zlen_cells. lia.
    + by apply wr_cells_app.
Qed.

(** Behind the Ethernet header there is room for 32 bytes of headers, then the
    rest of the packet. *)
Lemma put_ip_spec inet_addr f d len rest :
  fr_tot f = u16 (len - ip_off f) →
  bswap32 (fr_src f) = inet_addr (src_ip d) → bswap32 (fr_dst f) = inet_addr (dst_ip_min d) →
  put_ip inet_addr (cells (fr_eth f) ++ mem_zero 32 ++ cells rest) (ip_off f) len d =
  Ok (cells (fr_eth f) ++ (cells (ip_header f (ip_chk f)) ++ mem_zero 12) ++ cells rest).
Proof.
  intros Htot Hs Hd. unfold put_ip. rewrite <-Htot, <-Hs, <-Hd.
  unfold wr8, wr16be, wr32le, wr_bytes. rewrite !le32_bswap.
  do 8 (erewrite (wr_mid (fr_eth f)) by first [reflexivity | symmetry; apply Z.add_0_r]; cbn [mbind res_bind]).
  match goal with |- context [cells (fr_eth f) ++ ?m ++ cells rest] =>
    change m with (cells (ip_header f 0) ++ mem_zero 12) end.
  assert (ip_sum_calc 20 (drop (Z.to_nat (ip_off f)) (cells (fr_eth f) ++
            (cells (ip_header f 0) ++ mem_zero 12) ++ cells rest)) = Ok (ip_chk f)) as ->.
  { unfold ip_off, zlen. rewrite Nat2Z.id, drop_app_length' by (unfold cells; by rewrite length_fmap).
    rewrite <-app_assoc. apply ip_sum_calc_app. pose proof (ip_header_sum f []) as H.
    by rewrite app_nil_r in H. }
  cbn [mbind res_bind]. by erewrite (wr_mid (fr_eth f)) by reflexivity.
Qed.

(** The headers up to the magic number. *)
Definition heads (f : frame) : list Z :=
  fr_eth f ++ ip_header f (ip_chk f) ++
  be16 (fr_sp f) ++ be16 (fr_dp f) ++ be16 (fr_ulen f) ++ [0; 0] ++ be32 PKTGEN_MAGIC.

Lemma put_udp_spec f d len rest :
  fr_sp f = udp_src_port d → fr_dp f = udp_dst_port d → fr_ulen f = u16 (len - (ip_off f + 20)) →
  (b ← put_udp (cells (fr_eth f) ++ (cells (ip_header f (ip_chk f)) ++ mem_zero 12) ++ cells rest)
         (ip_off f + sizeof_iphdr) len d;
   wr32be b (ip_off f + sizeof_iphdr + sizeof_udphdr) PKTGEN_MAGIC) = Ok (cells (heads f ++ rest)).
Proof.
  intros Hsp Hdp Hul. unfold put_udp. unfold sizeof_iphdr, sizeof_udphdr.
  rewrite <-Hul, <-Hsp, <-Hdp. rewrite <-!Z.add_assoc. cbn [Z.add Pos.add Pos.succ Pos.add_carry].
  unfold wr8, wr16be, wr32be, wr_bytes.
  do 3 (erewrite (wr_mid (fr_eth f)) by reflexivity; cbn [mbind res_bind]).
  erewrite (wr_mid (fr_eth f)) by reflexivity. unfold heads, cells. rewrite !fmap_app, <-!app_assoc. done.
Qed.

(** What the details of a channel describe. *)
Definition tagged (d : traf_gen_det) : bool := negb (vlan d =? 0) && negb (vlan d =? 0xffff).
Definition mac_of (s : cstring) : list Z := octet <$> colon_pieces [] s.
Definition eth_of (d : traf_gen_det) : list Z :=
  mac_of (mac_dst d) ++ mac_of (mac_src d) ++
  (if tagged d then [0x81; 0] ++ le16 (tci (bswap16 (vlan d))) ++ [8; 0] else [8; 0]).

Record det_ok (inet_addr : cstring → Z) (d : traf_gen_det) : Prop := {
  dok_dst : length (mac_of (mac_dst d)) = 6%nat;
  dok_src : length (mac_of (mac_src d)) = 6%nat;
  dok_size : 58 ≤ pkt_size d < 2 ^ 16;
  dok_addr : ∀ s, 0 ≤ inet_addr s < 2 ^ 32;
}.

Section details.
Context (inet_addr : cstring → Z) (d : traf_gen_det) (Hd : det_ok inet_addr d).

Definition frame_of : frame :=
  let o := zlen (eth_of d) in
  {| fr_eth := eth_of d; fr_tot := u16 (pkt_size d - o); fr_src := bswap32 (inet_addr (src_ip d));
     fr_dst := bswap32 (inet_addr (dst_ip_min d)); fr_sp := udp_src_port d; fr_dp := udp_dst_port d;
     fr_ulen := u16 (pkt_size d - (o + 20)); fr_seq := 0; fr_sec := 0; fr_usec := 0;
     fr_pad := replicate (Z.to_nat (pkt_size d - o - 44)) 0 |}.

Lemma zlen_eth_of : zlen (eth_of d) = if tagged d then 18 else 14.
Proof.
  unfold eth_of. rewrite !zlen_app. unfold zlen at 1 2. rewrite (dok_dst _ _ Hd), (dok_src _ _ Hd).
  by destruct (tagged d).
Qed.

Lemma put_ether_spec n :
  6 ≤ n →
  put_ether (cells (mac_of (mac_dst d) ++ mac_of (mac_src d)) ++ mem_zero n) d =
  Ok (cells (eth_of d) ++ mem_zero (n + 12 - zlen (eth_of d)), zlen (eth_of d)).
Proof.
  intros Hn. rewrite zlen_eth_of. unfold put_ether, eth_of. fold (tagged d).
  pose proof (dok_dst _ _ Hd) as H1. pose proof (dok_src _ _ Hd) as H2.
  destruct (mac_of (mac_dst d)) as [|a0 [|a1 [|a2 [|a3 [|a4 [|a5 [|]]]]]]]; try discriminate H1.
  destruct (mac_of (mac_src d)) as [|b0 [|b1 [|b2 [|b3 [|b4 [|b5 [|]]]]]]]; try discriminate H2.
  destruct (tagged d).
  - replace n with (6 + (n - 6)) by lia. rewrite mem_zero_app, app_assoc by lia.
    unfold wr_vid, wr16be, wr16le, wr_bytes. erewrite wr_cells_app by reflexivity. cbn [mbind res_bind].
    erewrite rd_bytes_app by reflexivity. cbn [mbind res_bind].
    erewrite wr_cells_app by reflexivity. cbn [mbind res_bind].
    erewrite wr_cells_app by reflexivity. cbn [mbind res_bind].
    replace (6 + (n - 6) + 12 - 18) with (n - 6) by lia. done.
  - replace n with (2 + (n - 2)) by lia. rewrite mem_zero_app, app_assoc by lia.
    unfold wr16be, wr_bytes. erewrite wr_cells_app by reflexivity. cbn [mbind res_bind].
    replace (2 + (n - 2) + 12 - 14) with (n - 2) by lia. done.
Qed.

(** Initialising a generator writes the headers of its details. *)
Lemma innitialize_heads st :
  ∃ st' d', innitialize_generator_packet inet_addr st d = Ok (1, st', d') ∧
    pkt st' = cells (heads frame_of ++ replicate (Z.to_nat (pkt_size d - zlen (eth_of d) - 32)) 0) ∧
    data_len st' = pkt_size d ∧ ip st' = Some (ip_off frame_of) ∧ pktgen st' = Some (ip_off frame_of + 28) ∧
    seq_num st' = seq_num st ∧ traffic_gen st' = traffic_gen st ∧ timestamp st' = timestamp st ∧
    ip_dest_min st' = inet_addr (dst_ip_min d) ∧ ip_dest_max st' = inet_addr (dst_ip_max d).
Proof.
  pose proof (dok_size _ _ Hd) as Hsz. unfold innitialize_generator_packet.
  rewrite i32_id by (unfold is_int, INT_MIN, INT_MAX; lia).
  replace (pkt_size d <? 0) with false by lia.
  change (sizeof_ether_vlan_header + sizeof_iphdr + sizeof_tcphdr) with 58.
  replace (pkt_size d <? 58) with false by lia.
  pose proof (dok_dst _ _ Hd) as H1. pose proof (dok_src _ _ Hd) as H2. unfold mac_of in H1, H2.
  rewrite length_fmap in H1, H2. unfold read_mac_addr.
  rewrite (write_mac_spec _ [] (pkt_size d)) by (unfold zlen; rewrite H1; lia).
  cbn [mbind res_bind mret res_ret app].
  assert (6 = zlen (mac_of (mac_dst d))) as E6 by (unfold zlen, mac_of; by rewrite length_fmap, H1).
  fold (mac_of (mac_dst d)).
  pose proof (write_mac_spec (colon_pieces [] (mac_src d)) (mac_of (mac_dst d))
                (pkt_size d - zlen (colon_pieces [] (mac_dst d)))) as Hw.
  rewrite <-E6 in Hw. rewrite Hw by (unfold zlen; rewrite H1, H2; lia).
  cbn [mbind res_bind mret res_ret]. fold (mac_of (mac_src d)).
  unfold zlen at 1 2. rewrite H1, H2. rewrite put_ether_spec by lia. cbn [mbind res_bind].
  pose proof zlen_eth_of as Ho.
  assert (32 ≤ pkt_size d - zlen (eth_of d)) as Hroom by (rewrite Ho; destruct (tagged d); lia).
  set (rest := replicate (Z.to_nat (pkt_size d - zlen (eth_of d) - 32)) 0).
  replace (pkt_size d - Z.of_nat 6 - Z.of_nat 6 + 12 - zlen (eth_of d))
    with (32 + (pkt_size d - zlen (eth_of d) - 32)) by lia.
  rewrite mem_zero_app by lia.
  assert (mem_zero (pkt_size d - zlen (eth_of d) - 32) = cells rest) as ->
    by (unfold mem_zero, cells; subst rest; by rewrite fmap_replicate).
  change (eth_of d) with (fr_eth frame_of). change (zlen (fr_eth frame_of)) with (ip_off frame_of).
  rewrite put_ip_spec; [|done|by apply bswap32_invol, Hd|by apply bswap32_invol, Hd]. cbn [mbind res_bind].
  pose proof (put_udp_spec frame_of d (pkt_size d) rest eq_refl eq_refl eq_refl) as Hu.
  apply bind_Ok in Hu as (b & -> & Hb). cbn [mbind res_bind]. rewrite Hb. cbn [mbind res_bind mret res_ret].
  do 2 eexists. split; [done|]. split_and!; try done.
  change (Some (ip_off frame_of + 20 + 8) = Some (ip_off frame_of + 28)). f_equal. lia.
Qed.

(** With room for the whole measurement header the packet is the frame. *)
Lemma innitialize_spec st :
  zlen (eth_of d) + 44 ≤ pkt_size d →
  ∃ st' d', innitialize_generator_packet inet_addr st d = Ok (1, st', d') ∧ holds_frame st' frame_of ∧
    seq_num st' = seq_num st ∧ traffic_gen st' = traffic_gen st ∧ timestamp st' = timestamp st ∧
    ip_dest_min st' = inet_addr (dst_ip_min d) ∧ ip_dest_max st' = inet_addr (dst_ip_max d).
Proof.
  intros Hroom. destruct (innitialize_heads st) as (st' & d' & -> & Hp & Hl & Hi & Hg & Hrest).
  exists st', d'. split; [done|]. split; [|exact Hrest]. split; [|..|apply bswap32_range].
  - rewrite Hp. replace (Z.to_nat (pkt_size d - zlen (eth_of d) - 32))
      with (12 + Z.to_nat (pkt_size d - zlen (eth_of d) - 44))%nat by lia.
    rewrite replicate_add. unfold frame_bytes, heads, transport. rewrite <-!app_assoc. done.
  - rewrite Hl. unfold ip_off. cbn [frame_of fr_eth fr_pad]. unfold zlen at 2. rewrite length_replicate. lia.
  - exact Hi.
  - exact Hg.
Qed.
End details.

(** ** A run of sends *)

(** The frame that follows: next sequence number, new time, next destination. *)
Definition next_frame (f : frame) (q lo hi : Z) (now : timeval) : frame :=
  f <| fr_seq := q |> <| fr_sec := tv_sec now |> <| fr_usec := tv_usec now |>
    <| fr_dst := succ_dest lo hi (fr_dst f) |>.

Fixpoint run_frames (f : frame) (q lo hi : Z) (nows : list timeval) : list frame :=
  match nows with
  | [] => []
  | now :: nows => let f' := next_frame f q lo hi now in f' :: run_frames f' (u32 (q + 1)) lo hi nows
  end.

(** The [i]th frame of a run, at once. *)
Definition nth_frame (f : frame) (q lo hi i : Z) (now : timeval) : frame :=
  f <| fr_seq := u32 (q + i) |> <| fr_sec := tv_sec now |> <| fr_usec := tv_usec now |>
    <| fr_dst := lo + (fr_dst f - lo + i + 1) `mod` (hi - lo + 1) |>.

Lemma succ_dest_mod lo hi n :
  0 ≤ lo → lo ≤ n ≤ hi → hi < 2 ^ 32 → succ_dest lo hi n = lo + (n - lo + 1) `mod` (hi - lo + 1).
Proof.
  intros. unfold succ_dest. destruct (n =? hi) eqn:E.
  - apply Z.eqb_eq in E as ->. rewrite Z.mod_same by lia. lia.
  - rewrite u32_id by lia. rewrite Z.mod_small by lia. lia.
Qed.

Lemma nth_frame_next f q lo hi i t now :
  0 ≤ lo → lo ≤ fr_dst f ≤ hi → hi < 2 ^ 32 →
  nth_frame (next_frame f q lo hi t) (u32 (q + 1)) lo hi (Z.of_nat i) now =
  nth_frame f q lo hi (Z.of_nat (S i)) now.
Proof.
  intros Hlo Hf Hhi. pose proof (succ_dest_mod lo hi (fr_dst f) Hlo Hf Hhi) as Hs.
  destruct f as [eth tot src dst sp dp ulen seq sec usec pad]. change (fr_dst _) with dst in Hs, Hf at 1 2.
  unfold nth_frame, next_frame.
  cbn [assign rebuild fr_eth fr_tot fr_src fr_dst fr_sp fr_dp fr_ulen fr_seq fr_sec fr_usec fr_pad] in *.
  set (x := succ_dest lo hi dst) in *. clearbody x. subst x. set (m := hi - lo + 1).
  assert (0 < m) by lia.
  assert (u32 (u32 (q + 1) + Z.of_nat i) = u32 (q + Z.of_nat (S i))) as ->.
  { unfold u32. rewrite Z.add_mod_idemp_l by lia. f_equal. lia. }
  assert ((lo + (dst - lo + 1) `mod` m - lo + Z.of_nat i + 1) `mod` m = (dst - lo + Z.of_nat (S i) + 1) `mod` m)
    as ->; [|reflexivity].
  replace (lo + (dst - lo + 1) `mod` m - lo + Z.of_nat i + 1) with ((dst - lo + 1) `mod` m + (Z.of_nat i + 1)) by lia.
  rewrite Z.add_mod_idemp_l by lia. f_equal. lia.
Qed.

Lemma run_frames_nth nows : ∀ f q lo hi i now,
  0 ≤ lo → lo ≤ fr_dst f ≤ hi → hi < 2 ^ 32 → 0 ≤ q < 2 ^ 32 →
  nows !! i = Some now →
  run_frames f q lo hi nows !! i = Some (nth_frame f q lo hi (Z.of_nat i) now).
Proof.
  induction nows as [|t nows IH]; intros f q lo hi i now Hlo Hf Hhi Hq Hi; [done|].
  pose proof (succ_dest_mod lo hi (fr_dst f) Hlo Hf Hhi) as Hs.
  destruct i as [|i]; cbn in Hi.
  - injection Hi as ->. cbn [run_frames lookup list_lookup]. unfold next_frame, nth_frame. rewrite Hs.
    change (Z.of_nat 0) with 0. rewrite !Z.add_0_r, (u32_id q) by done. done.
  - change (run_frames (next_frame f q lo hi t) (u32 (q + 1)) lo hi nows !! i =
            Some (nth_frame f q lo hi (Z.of_nat (S i)) now)).
    assert (0 ≤ (fr_dst f - lo + 1) `mod` (hi - lo + 1) < hi - lo + 1) by (apply Z.mod_pos_bound; lia).
    rewrite (IH _ _ lo hi i now); [|done|change (lo ≤ succ_dest lo hi (fr_dst f) ≤ hi); lia|done|apply Z.mod_pos_bound; lia|done].
    by rewrite nth_frame_next.
Qed.

Section sends.
Context (if_index : cstring → option Z) (bind_ok : Z → bool).

(** The generator at [ix] sends at the given times. *)
Fixpoint send_many (ix : Z) (nows : list timeval) (gens : list pkt_details) (s : harness) :
    res (list pkt_details * harness) :=
  match nows with
  | [] => mret (gens, s)
  | now :: nows =>
    '(gens, s) ← send_pkt if_index bind_ok ix now gens s;
    send_many ix nows gens s
  end.

(** A channel that is ready to send: bound, with details. *)
Definition can_send (s : harness) (ch fd : Z) : Prop :=
  ch < n_channels (ctx s) ∧ writes s = [] ∧
  ∃ x d, get_channel (ctx s) ch = Ok x ∧ raw_sock x = fd ∧ fd ≠ -1 ∧ det x = Some d.

Lemma raw_send_ok s ch fd bs :
  can_send s ch fd →
  oflops_send_raw_mesg if_index bind_ok ch (cells bs) (zlen bs) s =
  Ok (zlen bs, s <| wire := wire s ++ [(fd, bs)] |>).
Proof.
  intros (Hn & Hw & x & d & Hx & Hr & Hfd & _). unfold oflops_send_raw_mesg, oflops_get_channel_raw_fd.
  replace (ch >=? n_channels (ctx s)) with false by lia. rewrite Hx. cbn [mbind res_bind]. rewrite Hr.
  apply Z.eqb_neq in Hfd as ->. cbn [negb mbind res_bind mret res_ret]. rewrite Hx. cbn [mbind res_bind].
  unfold rd_bytes. rewrite rd_cells_ok by (unfold in_bounds; rewrite zlen_cells; pose proof (zlen_nonneg bs); lia).
  cbn [mbind res_bind]. assert (slice (cells bs) 0 (zlen bs) = cells bs) as ->.
  { unfold slice, zlen. rewrite Nat2Z.id, drop_0. apply take_ge. unfold cells. by rewrite length_fmap. }
  rewrite bytes_of_cells. cbn [mbind res_bind]. rewrite Hw, Hr. done.
Qed.

(** The range of a generator. *)
Definition ranges (st : pkt_details) (lo hi : Z) : Prop :=
  ip_dest_min st = bswap32 lo ∧ ip_dest_max st = bswap32 hi ∧ 0 ≤ lo ≤ hi ∧ hi < 2 ^ 32.

Lemma can_send_wire s ch fd w : can_send s ch fd → can_send (s <| wire := w |>) ch fd.
Proof. done. Qed.

Lemma zlen_frame f : zlen (frame_bytes f) = ip_off f + 44 + zlen (fr_pad f).
Proof. unfold frame_bytes, ip_off. rewrite !zlen_app. change (zlen (ip_header f (ip_chk f))) with 20.
  change (zlen (transport f)) with 24. lia.
Qed.

(** One send. *)
Lemma send_pkt_frame s st f lo hi fd now :
  holds_frame st f → ranges st lo hi → lo ≤ fr_dst f ≤ hi → can_send s (traffic_gen st) fd →
  ∃ st', send_pkt if_index bind_ok 0 now [st] s =
      Ok ([st'], s <| wire := wire s ++ [(fd, frame_bytes (next_frame f (seq_num st) lo hi now))] |>) ∧
    holds_frame st' (next_frame f (seq_num st) lo hi now) ∧ ranges st' lo hi ∧
    traffic_gen st' = traffic_gen st ∧ seq_num st' = u32 (seq_num st + 1).
Proof.
  intros Hf (Hmin & Hmax & Hlh & Hhi) Hr Hs. unfold send_pkt. change (zget [st] 0) with (Some st). cbv iota beta.
  destruct (stamp_frame st f now Hf) as (st1 & -> & H1 & Hq & Htg & Hts & Hm1 & Hm2). cbn [mbind res_bind].
  set (f1 := f <| fr_seq := seq_num st |> <| fr_sec := tv_sec now |> <| fr_usec := tv_usec now |>) in *.
  assert (∃ st2, next_dest st1 = Ok st2 ∧ holds_frame st2 (next_frame f (seq_num st) lo hi now) ∧
            st2 = st1 <| pkt := pkt st2 |>) as (st2 & -> & H2 & E2).
  { destruct (decide (lo = hi)) as [->|Hne].
    - exists st1. split_and!; [|..|by destruct st1].
      + unfold next_dest. rewrite Hm1, Hm2, Hmin, Hmax, Z.eqb_refl. done.
      + assert (next_frame f (seq_num st) hi hi now = f1) as ->; [|done].
        unfold next_frame, succ_dest. replace (fr_dst f) with hi by lia. rewrite Z.eqb_refl.
        subst f1. assert (fr_dst f = hi) as <- by lia. by destruct f.
    - apply (next_dest_frame st1 f1 lo hi); [done|congruence|congruence|lia|lia|done]. }
  cbn [mbind res_bind].
  assert (traffic_gen st2 = traffic_gen st) as Htg2 by (rewrite E2; exact Htg).
  assert (ip_dest_min st2 = bswap32 lo) as Hm3 by (rewrite E2, <-Hmin; exact Hm1).
  assert (ip_dest_max st2 = bswap32 hi) as Hm4 by (rewrite E2, <-Hmax; exact Hm2).
  assert (seq_num st2 = u32 (seq_num st + 1)) as Hq2 by (rewrite E2; exact Hq).
  rewrite (hf_pkt _ _ H2), (hf_len _ _ H2), <-zlen_frame, Htg2, (raw_send_ok s _ fd) by done.
  cbn [mbind res_bind]. destruct Hs as (_ & _ & x & d & Hx & _ & _ & Hdet). cbn [ctx assign].
  rewrite Hx. cbn [mbind res_bind]. rewrite Hdet. eexists. split; [reflexivity|].
  destruct H2 as [P1 P2 P3 P4 P5]. split; [by split|]. split; [by split|]. split; [exact Htg2|exact Hq2].
Qed.

(** A run. *)
Lemma send_many_frames nows : ∀ s st f lo hi fd,
  holds_frame st f → ranges st lo hi → lo ≤ fr_dst f ≤ hi → can_send s (traffic_gen st) fd →
  ∃ st', send_many 0 nows [st] s =
    Ok ([st'], s <| wire := wire s ++ ((λ g, (fd, frame_bytes g)) <$> run_frames f (seq_num st) lo hi nows) |>).
Proof.
  induction nows as [|now nows IH]; intros s st f lo hi fd Hf Hr Hd Hs.
  - exists st. cbn. rewrite app_nil_r. by destruct s.
  - destruct (send_pkt_frame s st f lo hi fd now Hf Hr Hd Hs) as (st1 & E & H1 & Hr1 & Ht1 & Hq1).
    cbn [send_many]. rewrite E. cbn [mbind res_bind].
    pose proof Hr as (_ & _ & Hlh & Hhi). pose proof (succ_dest_mod lo hi (fr_dst f)) as Hsd.
    assert (0 ≤ (fr_dst f - lo + 1) `mod` (hi - lo + 1) < hi - lo + 1) by (apply Z.mod_pos_bound; lia).
    destruct (IH (s <| wire := wire s ++ [(fd, frame_bytes (next_frame f (seq_num st) lo hi now))] |>)
                st1 (next_frame f (seq_num st) lo hi now) lo hi fd) as (st' & ->); [done|done| |by rewrite Ht1|].
    { change (lo ≤ succ_dest lo hi (fr_dst f) ≤ hi). lia. }
    exists st'. rewrite Hq1. cbn [run_frames fmap list_fmap].
    assert (∀ (w : list (Z * list Z)) a l, (w ++ [a]) ++ l = w ++ a :: l) as Ha by (intros; by rewrite <-app_assoc).
    cbn [assign wire]. by rewrite Ha.
Qed.
End sends.

Lemma run_frames_length nows : ∀ f q lo hi, length (run_frames f q lo hi nows) = length nows.
Proof. induction nows as [|t nows IH]; intros; [done|]. cbn. by rewrite IH. Qed.

(** C34. The user space generator: a channel whose details name two hardware
    addresses, a size with room for the headers (the tag included) and a range
    of destinations is initialised successfully, and any number of sends puts
    that many frames on its raw socket.  Frame [i] carries sequence number [i],
    the time of its send, and destination number [i+1] of the range, cyclically;
    the checksum of its IP header is valid. *)
Theorem sends_cycle inet_addr if_index bind_ok d s ch fd nows :
  det_ok inet_addr d → zlen (eth_of d) + 44 ≤ pkt_size d → can_send s ch fd →
  bswap32 (inet_addr (dst_ip_min d)) ≤ bswap32 (inet_addr (dst_ip_max d)) →
  ∃ st d', innitialize_generator_packet inet_addr (pkt_details0 <| traffic_gen := ch |>) d = Ok (1, st, d') ∧
  ∃ st' s' frames, send_many if_index bind_ok 0 nows [st] s = Ok ([st'], s') ∧
    wire s' = wire s ++ ((λ g, (fd, frame_bytes g)) <$> frames) ∧ length frames = length nows ∧
    ∀ (i : nat) now, nows !! i = Some now →
      let lo := bswap32 (inet_addr (dst_ip_min d)) in let hi := bswap32 (inet_addr (dst_ip_max d)) in
      ∃ g, frames !! i = Some g ∧
        g = frame_of inet_addr d <| fr_seq := u32 (Z.of_nat i) |> <| fr_sec := tv_sec now |> <| fr_usec := tv_usec now |>
              <| fr_dst := lo + (Z.of_nat i + 1) `mod` (hi - lo + 1) |> ∧
        ip_sum_calc 20 (drop (length (fr_eth g)) (cells (frame_bytes g))) = Ok 0.
Proof.
  intros Hd Hroom Hs Hle. set (lo := bswap32 (inet_addr (dst_ip_min d))) in *.
  set (hi := bswap32 (inet_addr (dst_ip_max d))) in *.
  destruct (innitialize_spec inet_addr d Hd (pkt_details0 <| traffic_gen := ch |>) Hroom)
    as (st & d' & -> & Hf & Hq & Ht & _ & Hmin & Hmax).
  exists st, d'. split; [done|].
  assert (0 ≤ lo < 2 ^ 32) by apply bswap32_range. assert (0 ≤ hi < 2 ^ 32) by apply bswap32_range.
  assert (ranges st lo hi) as Hr.
  { split_and!; [rewrite Hmin|rewrite Hmax|lia|lia|lia]; symmetry; apply bswap32_invol, Hd. }
  destruct (send_many_frames if_index bind_ok nows s st (frame_of inet_addr d) lo hi fd) as (st' & E);
    [done|done|cbn [frame_of fr_dst]; fold lo; lia|by rewrite Ht|].
  do 3 eexists. split; [exact E|]. split; [reflexivity|]. split; [apply run_frames_length|].
  intros i now Hi. rewrite Hq.
  pose proof (run_frames_nth nows (frame_of inet_addr d) 0 lo hi i now) as Hn.
  eexists. split; [apply Hn; try done; cbn [frame_of fr_dst]; fold lo; lia|]. split.
  - unfold nth_frame. cbn [frame_of fr_dst]. fold lo. rewrite Z.add_0_l. by rewrite Z.sub_diag, Z.add_0_l.
  - unfold frame_bytes. unfold cells. rewrite fmap_app, drop_app_length' by (by rewrite length_fmap).
    apply (ip_header_verifies _ (transport _ ++ fr_pad _)).
Qed.

Definition demo_det : traf_gen_det :=
  {| src_ip := str "10.1.1.1"; dst_ip_max := str "192.168.3.2"; dst_ip_min := str "192.168.3.0";
     mac_dst := str "00:1e:68:9a:c5:75"; mac_src := str "00:04:23:b4:74:95"; udp_src_port := 8080;
     udp_dst_port := 8081; pkt_size := 100; vlan := 0x105; vlan_p := 0; vlan_cfi := 0; gen_delay := 1000;
     pkt_count := 0; gen_flags := [] |}.

(** inet_addr on the three addresses. *)
Definition demo_inet (s : cstring) : Z :=
  if decide (s = dst_ip_min demo_det) then bswap32 0xc0a80300
  else if decide (s = dst_ip_max demo_det) then bswap32 0xc0a80302
  else bswap32 0x0a010101.

Lemma demo_det_ok : det_ok demo_inet demo_det.
Proof.
  split; [reflexivity|reflexivity|vm_compute; split; congruence|].
  intros s. unfold demo_inet. repeat case_decide; apply bswap32_range.
Qed.

Definition demo_sender : harness :=
  let x := (demo_channel 7 1 PCAP) <| raw_sock := 9 |> <| det := Some demo_det |> in
  let s := demo_harness PCAP [] in
  s <| ctx := put_channel 1 x (ctx s) |>.

Lemma demo_can_send : can_send demo_sender 1 9.
Proof. split_and!; [done|done|]. do 2 eexists. split_and!; done. Qed.

Definition demo_times : list timeval := (λ n, {| tv_sec := 1000; tv_usec := n |}) <$> [1; 2; 3; 4].

Lemma sends_cycle_witness :
  det_ok demo_inet demo_det ∧ can_send demo_sender 1 9 ∧
  ∃ st d', innitialize_generator_packet demo_inet (pkt_details0 <| traffic_gen := 1 |>) demo_det = Ok (1, st, d') ∧
  ∃ st' s' frames, send_many (λ _, None) (λ _, true) 0 demo_times [st] demo_sender = Ok ([st'], s') ∧
    wire s' = (λ g, (9, frame_bytes g)) <$> frames ∧
    fr_dst <$> frames = [0xc0a80301; 0xc0a80302; 0xc0a80300; 0xc0a80301].
Proof.
  split; [exact demo_det_ok|]. split; [exact demo_can_send|].
  destruct (sends_cycle demo_inet (λ _, None) (λ _, true) demo_det demo_sender 1 9 demo_times)
    as (st & d' & Hi & st' & s' & frames & Hs & Hw & Hl & Hf);
    [exact demo_det_ok|vm_compute; congruence|exact demo_can_send|vm_compute; congruence|].
  exists st, d'. split; [exact Hi|]. exists st', s', frames. split; [exact Hs|]. split; [exact Hw|].
  destruct frames as [|f0 [|f1 [|f2 [|f3 [|]]]]]; try discriminate Hl.
  destruct (Hf 0%nat _ eq_refl) as (g0 & [= <-] & E0 & _). destruct (Hf 1%nat _ eq_refl) as (g1 & [= <-] & E1 & _).
  destruct (Hf 2%nat _ eq_refl) as (g2 & [= <-] & E2 & _). destruct (Hf 3%nat _ eq_refl) as (g3 & [= <-] & E3 & _).
  rewrite E0, E1, E2, E3. reflexivity.
Defined.

(** ** Reading a captured frame *)

Lemma rd_head eth m off n bs : rd_bytes (cells eth) off n = Ok bs → rd_bytes (cells eth ++ m) off n = Ok bs.
Proof. apply rd_bytes_app. Qed.

(** The VLAN identifier survives modulo 256. *)
Lemma vid_roundtrip v :
  0 ≤ v < 2 ^ 16 →
  Z.land 0x0FFF (bswap16 (Z.shiftl (Z.shiftr (un_be16 (reverse (le16 (tci (bswap16 v))))) 4) 4)) = v `mod` 256.
Proof.
  intros Hv. unfold le16. rewrite reverse_involutive.
  assert (bswap16 v = v `mod` 256 * 256 + v `div` 256) as Hb.
  { unfold bswap16, le16, be16, reverse. cbn. unfold u8. Z.to_euclidean_division_equations; lia. }
  assert (0 ≤ v `div` 256 < 256) by (Z.to_euclidean_division_equations; lia).
  assert (0 ≤ v `mod` 256 < 256) by (apply Z.mod_pos_bound; lia).
  assert (tci (bswap16 v) = v `mod` 256 * 256 + v `div` 256 `div` 16 * 16) as Ht.
  { unfold tci. rewrite Hb. rewrite Z.shiftr_div_pow2, Z.shiftl_mul_pow2 by lia.
    change 0xfff with (Z.ones 12). rewrite Z.land_ones by lia. Z.to_euclidean_division_equations; lia. }
  rewrite un_be16_be16 by (rewrite Ht; Z.to_euclidean_division_equations; lia).
  rewrite Ht, Z.shiftr_div_pow2, Z.shiftl_mul_pow2 by lia.
  replace ((v `mod` 256 * 256 + v `div` 256 `div` 16 * 16) `div` 2 ^ 4 * 2 ^ 4)
    with (v `mod` 256 * 256 + v `div` 256 `div` 16 * 16) by (Z.to_euclidean_division_equations; lia).
  assert (bswap16 (v `mod` 256 * 256 + v `div` 256 `div` 16 * 16) = v `div` 256 `div` 16 * 4096 + v `mod` 256) as ->.
  { unfold bswap16, le16, be16, reverse. cbn. unfold u8. clear Hb Ht.
    set (q := v `div` 256) in *. set (r := v `mod` 256) in *. clearbody q r.
    Z.to_euclidean_division_equations; lia. }
  rewrite Z.land_comm. change 0x0FFF with (Z.ones 12). rewrite Z.land_ones by lia.
  rewrite Z.add_comm, Z.mod_add by lia. apply Z.mod_small. lia.
Qed.

(** What extract_pktgen_pkt reports of the frame. *)
Definition header_of (f : frame) : pktgen_hdr :=
  {| pg_magic := bswap32 PKTGEN_MAGIC; pg_seq_num := u32 (fr_seq f); pg_tv_sec := u32 (fr_sec f);
     pg_tv_usec := u32 (fr_usec f) |}.
Definition flow_of (d : traf_gen_det) (f : frame) : flow :=
  {| f_mask := 0; f_in_port := 0; f_dl_src := mac_of (mac_src d); f_dl_dst := mac_of (mac_dst d);
     f_dl_vlan := if tagged d then vlan d `mod` 256 else 0xFFFF; f_dl_type := ETHERTYPE_IP;
     f_nw_src := bswap32 (fr_src f); f_nw_dst := bswap32 (fr_dst f); f_nw_proto := IPPROTO_UDP;
     f_tp_src := u16 (fr_sp f); f_tp_dst := u16 (fr_dp f) |}.

Lemma un_be32_mod z : un_be32 (be32 z) = u32 z.
Proof. unfold un_be32, be32, be16, u8, u32. cbn [app]. Z.to_euclidean_division_equations; lia. Qed.
Lemma un_be16_mod z : un_be16 (be16 z) = u16 z.
Proof. unfold un_be16, be16, u8, u16. Z.to_euclidean_division_equations; lia. Qed.

(** The fields of the Ethernet header. *)
Lemma eth_reads inet_addr d eth m :
  det_ok inet_addr d → 0 ≤ vlan d < 2 ^ 16 → eth = eth_of d →
  let b := cells eth ++ m in
  rd_bytes b 0 6 = Ok (mac_of (mac_dst d)) ∧ rd_bytes b 6 6 = Ok (mac_of (mac_src d)) ∧
  rd16be b 12 = Ok (if tagged d then 0x8100 else 0x0800) ∧
  (tagged d = true → rd16be b 16 = Ok 0x0800 ∧ rd_bytes b 14 2 = Ok (le16 (tci (bswap16 (vlan d))))).
Proof.
  intros Hd Hv -> b. subst b. unfold eth_of, rd16be.
  pose proof (dok_dst _ _ Hd) as H1. pose proof (dok_src _ _ Hd) as H2.
  destruct (mac_of (mac_dst d)) as [|a0 [|a1 [|a2 [|a3 [|a4 [|a5 [|]]]]]]]; try discriminate H1.
  destruct (mac_of (mac_src d)) as [|b0 [|b1 [|b2 [|b3 [|b4 [|b5 [|]]]]]]]; try discriminate H2.
  destruct (tagged d); split_and!; try (intros [=]; split); try done;
    by (erewrite rd_head by reflexivity).
Qed.

(** The flow of a frame. *)
Lemma flow_of_frame inet_addr d f :
  det_ok inet_addr d → 0 ≤ vlan d < 2 ^ 16 → fr_eth f = eth_of d →
  flow_of_packet (cells (frame_bytes f)) (ip_off f) (ip_off f + 20) = Ok (flow_of d f).
Proof.
  intros Hd Hv He. unfold flow_of_packet. rewrite frame_cells.
  destruct (eth_reads inet_addr d (fr_eth f) (frame_mid f (ip_chk f) ++ cells (fr_pad f)) Hd Hv He)
    as (R1 & R2 & R3 & R4).
  rewrite R1, R2, R3. cbn [mbind res_bind].
  assert (((if (if tagged d then 33024 else 2048) =? 33024
            then ty ← rd16be (cells (fr_eth f) ++ frame_mid f (ip_chk f) ++ cells (fr_pad f)) 16;
                 unit ← rd_bytes (cells (fr_eth f) ++ frame_mid f (ip_chk f) ++ cells (fr_pad f)) 14 2;
                 mret (ty, Z.land 4095 (bswap16 (Z.shiftl (Z.shiftr (un_be16 (reverse unit)) 4) 4)))
            else mret (if tagged d then 33024 else 2048, 65535)) : res (Z * Z)) =
          Ok (ETHERTYPE_IP, if tagged d then vlan d `mod` 256 else 65535)) as ->.
  { destruct (tagged d); [|done]. cbn [Z.eqb Pos.eqb]. destruct R4 as [R4 R5]; [done|].
    rewrite R4, R5. cbn [mbind res_bind mret res_ret]. do 2 f_equal. by apply vid_roundtrip. }
  cbn [mbind res_bind]. unfold rd32le, rd16be.
  rewrite (rd_frame f _ (ip_off f + 12) 12 4 (be32 (fr_src f))) by reflexivity. cbn [mbind res_bind mret res_ret].
  rewrite (rd_frame f _ (ip_off f + 16) 16 4 (be32 (fr_dst f))) by reflexivity. cbn [mbind res_bind mret res_ret].
  rewrite (rd_frame f _ (ip_off f + 20) 20 2 (be16 (fr_sp f))) by reflexivity. cbn [mbind res_bind mret res_ret].
  rewrite (rd_frame f _ (ip_off f + 20 + 2) 22 2 (be16 (fr_dp f))) by (lia || reflexivity). cbn [mbind res_bind mret res_ret].
  unfold flow_of. rewrite !un_be16_mod. done.
Qed.

Lemma extract_at_frame inet_addr nf_extract d f c port x len :
  det_ok inet_addr d → 0 ≤ vlan d < 2 ^ 16 → fr_eth f = eth_of d → get_channel c port = Ok x →
  cap_type x = PCAP → 20 ≤ len →
  extract_at nf_extract c port (cells (frame_bytes f)) len true (ip_off f) =
  Ok (Some (header_of f), Some (flow_of d f)).
Proof.
  intros Hd Hv He Hx Hc Hl. unfold extract_at.
  assert (rd8 (cells (frame_bytes f)) (ip_off f) = Ok 0x45) as ->.
  { unfold rd8, ip_off, frame_bytes, ip_header, cells. rewrite fmap_app.
    replace (zlen (fr_eth f)) with (zlen (Some <$> fr_eth f)) by (unfold zlen; by rewrite length_fmap).
    cbn [app fmap list_fmap]. by rewrite zget_app_mid. }
  cbn [mbind res_bind]. change (4 * Z.land 69 15) with 20. replace (len <? 20) with false by lia.
  rewrite (flow_of_frame inet_addr d) by done. cbn [mbind res_bind mret res_ret].
  rewrite Hx. cbn [mbind res_bind]. rewrite Hc, Z.eqb_refl. unfold rd32le, rd32be, sizeof_udphdr.
  rewrite frame_cells.
  rewrite (rd_frame f _ (ip_off f + 20 + 8) 28 4 (be32 PKTGEN_MAGIC)) by (lia || reflexivity). cbn [mbind res_bind mret res_ret].
  rewrite (rd_frame f _ (ip_off f + 20 + 8 + 4) 32 4 (be32 (fr_seq f))) by (lia || reflexivity). cbn [mbind res_bind mret res_ret].
  rewrite (rd_frame f _ (ip_off f + 20 + 8 + 8) 36 4 (be32 (fr_sec f))) by (lia || reflexivity). cbn [mbind res_bind mret res_ret].
  rewrite (rd_frame f _ (ip_off f + 20 + 8 + 12) 40 4 (be32 (fr_usec f))) by (lia || reflexivity). cbn [mbind res_bind mret res_ret].
  rewrite !un_be32_mod. done.
Qed.

Lemma extract_frame inet_addr nf_extract d f c port x :
  det_ok inet_addr d → 0 ≤ vlan d < 2 ^ 16 → fr_eth f = eth_of d →
  0 ≤ port ≤ n_channels c → get_channel c port = Ok x → cap_type x = PCAP →
  extract_pktgen_pkt nf_extract c port (cells (frame_bytes f)) (zlen (frame_bytes f)) true =
  Ok (Some (header_of f), Some (flow_of d f)).
Proof.
  intros Hd Hv He Hp Hx Hc. unfold extract_pktgen_pkt.
  replace ((port <? 0) || (port >? n_channels c)) with false by lia.
  pose proof (zlen_eth_of inet_addr d Hd) as Ho. rewrite <-He in Ho. fold (ip_off f) in Ho.
  pose proof (zlen_nonneg (fr_pad f)).
  destruct (eth_reads inet_addr d (fr_eth f) (frame_mid f (ip_chk f) ++ cells (fr_pad f)) Hd Hv He)
    as (_ & _ & R3 & R4).
  rewrite <-frame_cells in R3, R4. rewrite R3. cbn [mbind res_bind].
  pose proof (zlen_frame f) as Hz. destruct (tagged d).
  - destruct R4 as [R4 _]; [done|]. cbn [Z.eqb Pos.eqb]. rewrite R4. cbn [mbind res_bind Z.eqb Pos.eqb andb].
    change sizeof_ether_vlan_header with 18. rewrite <-Ho.
    apply (extract_at_frame inet_addr _ d f c port x); try done. lia.
  - cbn [Z.eqb Pos.eqb mbind res_bind mret res_ret andb].
    change sizeof_ether_header with 14. rewrite <-Ho.
    apply (extract_at_frame inet_addr _ d f c port x); try done. lia.
Qed.

(** C35. extract_pktgen_pkt undoes the sender: from a captured copy of any frame
    built from the details of a channel it recovers the sequence number and the
    time stamp, and the flow - addresses, ports, hardware addresses - except
    that a VLAN identifier comes back modulo 256. *)
Theorem extract_reads_sent inet_addr nf_extract d f c port x :
  det_ok inet_addr d → 0 ≤ vlan d < 2 ^ 16 → fr_eth f = eth_of d →
  0 ≤ port ≤ n_channels c → get_channel c port = Ok x → cap_type x = PCAP →
  extract_pktgen_pkt nf_extract c port (cells (frame_bytes f)) (zlen (frame_bytes f)) true =
  Ok (Some (header_of f), Some (flow_of d f)).
Proof. apply extract_frame. Qed.

Lemma extract_reads_sent_witness :
  ∃ hdr fl, extract_pktgen_pkt (λ _ _ _, None) (ctx demo_sender) 1
      (cells (frame_bytes (frame_of demo_inet demo_det <| fr_seq := 77 |>)))
      (zlen (frame_bytes (frame_of demo_inet demo_det <| fr_seq := 77 |>))) true = Ok (Some hdr, Some fl) ∧
    pg_seq_num hdr = 77 ∧ f_dl_vlan fl = 5 ∧ f_tp_dst fl = 8081.
Proof.
  do 2 eexists. split.
  - eapply (extract_reads_sent demo_inet (λ _ _ _, None) demo_det
              (frame_of demo_inet demo_det <| fr_seq := 77 |>) (ctx demo_sender) 1).
    + exact demo_det_ok.
    + vm_compute. split; congruence.
    + reflexivity.
    + vm_compute. split; congruence.
    + reflexivity.
    + reflexivity.
  - vm_compute. done.
Defined.

(** The size check of innitialize_generator_packet counts a TCP header, not
    the UDP and measurement headers: for a tagged channel and packets of 58 to
    61 bytes the initialisation reports success, and every send then writes
    the time stamp beyond the end of the packet. *)
Theorem short_tagged_packet_overruns inet_addr if_index bind_ok d st s now :
  det_ok inet_addr d → tagged d = true → pkt_size d < 62 →
  ∃ st' d', innitialize_generator_packet inet_addr st d = Ok (1, st', d') ∧
    send_pkt if_index bind_ok 0 now [st'] s = Fault FBounds.
Proof.
  intros Hd Ht Hsz. destruct (innitialize_heads inet_addr d Hd st) as (st' & d' & -> & Hp & _ & _ & Hg & _).
  exists st', d'. split; [done|]. unfold send_pkt. change (zget [st'] 0) with (Some st'). cbv iota beta.
  unfold stamp. rewrite Hg. cbn [not_null mbind res_bind].
  pose proof (zlen_eth_of inet_addr d Hd) as Ho. rewrite Ht in Ho.
  assert (zlen (pkt st') = pkt_size d) as Hlen.
  { rewrite Hp, zlen_cells, zlen_app. unfold heads. rewrite !zlen_app. cbn [frame_of fr_eth].
    rewrite Ho. unfold zlen at 7. rewrite length_replicate. pose proof (dok_size _ _ Hd).
    change (zlen (ip_header (frame_of inet_addr d) (ip_chk (frame_of inet_addr d)))) with 20.
    rewrite !zlen_be16, zlen_be32. change (zlen [0; 0]) with 2. lia. }
  assert (ip_off (frame_of inet_addr d) = 18) as -> by exact Ho.
  unfold wr32be, wr_bytes. pose proof (dok_size _ _ Hd).
  assert (∀ m off z, zlen m = pkt_size d → 0 ≤ off → off + 4 ≤ 58 →
    ∃ m', wr_cells m off (cells (be32 z)) = Ok m' ∧ zlen m' = pkt_size d) as Hw.
  { intros m off z Hm Ho1 Ho2. assert (in_bounds m off (zlen (cells (be32 z)))) as Hb.
    { rewrite zlen_cells. unfold in_bounds. rewrite zlen_be32. lia. }
    rewrite wr_cells_ok by done. eexists. split; [done|]. by rewrite zlen_splice. }
  destruct (Hw (pkt st') (18 + 28 + 4) (seq_num st')) as (m1 & -> & H1); [done|lia|lia|]. cbn [mbind res_bind].
  destruct (Hw m1 (18 + 28 + 8) (tv_sec now)) as (m2 & -> & H2); [done|lia|lia|]. cbn [mbind res_bind].
  unfold wr_cells. rewrite decide_False; [done|]. unfold in_bounds. rewrite zlen_cells, zlen_be32. lia.
Qed.

Lemma short_tagged_packet_overruns_witness :
  tagged (demo_det <| pkt_size := 60 |>) = true ∧
  ∃ st' d', innitialize_generator_packet demo_inet pkt_details0 (demo_det <| pkt_size := 60 |>) = Ok (1, st', d') ∧
    send_pkt (λ _, None) (λ _, true) 0 {| tv_sec := 1; tv_usec := 2 |} [st'] demo_sender = Fault FBounds.
Proof.
  split; [reflexivity|]. apply short_tagged_packet_overruns; [|reflexivity|reflexivity].
  destruct demo_det_ok as [H1 H2 _ H4]. split; [exact H1|exact H2| |exact H4]. vm_compute. split; congruence.
Defined.

(** ** Starting and stopping *)

(** stop_traffic_generator has its cases exchanged: a running kernel generator
    gets no command, and stopping the NetFPGA one writes to the kernel's. *)
Lemma stop_traffic_generator_exchanged writable c k t :
  (trafficGen c = PKTGEN → stop_traffic_generator writable c k t = Ok (1, k, t ++ [NfFinish])) ∧
  (trafficGen c = NF_PKTGEN → writable (str "/proc/net/pktgen/pgctrl") = true →
   stop_traffic_generator writable c k t =
     Ok (1, k ++ [(str "/proc/net/pktgen/pgctrl", str "stop")], t)).
Proof.
  split.
  - intros H. unfold stop_traffic_generator. by rewrite H.
  - intros H Hw. unfold stop_traffic_generator, printf_and_check. by rewrite H, Hw.
Qed.

