(* ===== verification/Usage.v ===== *)
(** * Command line and configuration file (usage.c)

    getopt_long and libconfig are parameters: the options and arguments found,
    and the settings of the file.  Everything is applied to the harness, since
    loading a module runs its initialisation. *)

From S2P Require Import Prelude CTime CBytes CStr OpenFlow MsgBuf PcapTrack WcEvent Context Harness.
From S2P Require Import ModuleDefault ModuleRun.
Open Scope Z_scope.

(** ** Options *)

(** [struct option]: name, has_arg, val. *)
Record long_option := { lo_name : cstring; lo_has_arg : Z; lo_val : Z }.
Definition opt (n : string) (has_arg : Z) (v : string) : long_option :=
  {| lo_name := str n; lo_has_arg := has_arg; lo_val := default 0 (str v !! 0%nat) |}.

Definition no_argument : Z := 0.
Definition required_argument : Z := 1.
Definition optional_argument : Z := 2.

Definition oflops_options : list long_option :=
  [opt "control-dev" required_argument "c"; opt "snmp-dev" optional_argument "s";
   opt "data-dev" required_argument "d"; opt "port" required_argument "p";
   opt "log" required_argument "o"; opt "generator" required_argument "g";
   opt "trace" no_argument "t"; opt "input_config" required_argument "i";
   opt "of_versions" required_argument "v"; opt "tls-cert" required_argument "x";
   opt "tls-privkey" required_argument "y"; opt "tls-trustedcert" required_argument "z"].

(** The buffer of utils.h. *)
Definition USAGE_BUFLEN : Z := 4096.

Fixpoint short_loop (b : mem) (buf_index : Z) (opts : list long_option) : res (mem * Z) :=
  match opts with
  | [] => mret (b, buf_index)
  | o :: opts =>
    b ← wr8 b buf_index (lo_val o);
    let i := buf_index + 1 in
    if negb (lo_has_arg o =? 0)
    then b ← wr8 b i 58; short_loop b (i + 1) opts
    else short_loop b i opts
  end.

(** The text before the terminator of the cleared buffer. *)
Definition make_short_from_long (opts : list long_option) : res cstring :=
  '(b, n) ← short_loop (mem_zero USAGE_BUFLEN) 0 opts;
  _ ← rd8 b n;
  rd_bytes b 0 n.

(** usage prints and exits. *)
Definition usage {A} : res A := Fault (FExit 1).

(** ** Modules *)

Section usage.
Context {OF : OpenFlow} (junk : Z → channel_info) (MAX_OID_LEN : Z) (if_index : cstring → option Z).
Context (module_code : Z → callback → harness → res harness).
Context (dlopen : cstring → option Z) (dlsym : Z → cstring → bool).
(** What an array on the stack holds before it is written. *)
Context (stack_junk : cstring).

(** The arguments as one string, cut to the buffer; without arguments the
    buffer is passed on as it is. *)
Fixpoint join_args (argv : list cstring) (n : nat) : res cstring :=
  match n with
  | O => mret []
  | S n =>
    match argv with
    | [] => Fault FBounds
    | a :: argv => r ← join_args argv n; mret (32 :: a ++ r)
    end
  end.

Definition parse_test_module (argc : Z) (argv : list cstring) (s : harness) : res harness :=
  if argc =? 0 then usage
  else
    args ← join_args (tail argv) (Z.to_nat (argc - 1));
    let initstr := if argc =? 1 then stack_junk else take (Z.to_nat (USAGE_BUFLEN - 2)) args in
    match argv with
    | [] => Fault FBounds
    | f :: _ => '(_, s) ← load_test_module module_code dlopen dlsym f initstr s; mret s
    end.

(** ** The configuration file *)

(** libconfig on a file it could read. *)
Record libconfig := {
  setting : Type;
  config_lookup : cstring → option setting;
  config_setting_get_int : setting → Z;
  config_setting_get_string : setting → option cstring;
  config_setting_length : setting → Z;
  config_setting_get_elem : setting → Z → setting;
  config_setting_get_member : setting → cstring → option setting;
}.

Section config.
Context (conf : libconfig).
Notation elem := (setting conf).

(** A setting of type int other than 0, a setting of type string. *)
Definition int_setting (path : string) : option Z :=
  match config_lookup conf (str path) with
  | Some e => let v := config_setting_get_int conf e in if v =? 0 then None else Some v
  | None => None
  end.
Definition string_setting (path : string) : option cstring :=
  match config_lookup conf (str path) with
  | Some e => config_setting_get_string conf e
  | None => None
  end.

(** strlen(config_setting_get_string(e)) > 0: NULL for another type. *)
Definition nonempty (e : option elem) : res (option cstring) :=
  match e with
  | None => mret None
  | Some e =>
    match config_setting_get_string conf e with
    | None => Fault FNull
    | Some [] => mret None
    | Some t => mret (Some t)
    end
  end.

(** The address needs a community: without one the pointer is indeterminate. *)
Definition load_snmp (s : harness) : res harness :=
  match string_setting "oflops.control.snmp_addr" with
  | None => mret s
  | Some client =>
    match config_lookup conf (str "oflops.control.snmp_community") with
    | None => Fault FUninit
    | Some e =>
      match config_setting_get_string conf e with
      | None => Fault FNull
      | Some c =>
        ch ← snmp_channel_init (Some client) (Some c);
        mret (s <| ctx := ctx s <| snmp_channel_info := ch |> |>)
      end
    end
  end.

(** my_read_objid returns nothing; [ret] is what the caller finds in the
    register it tests. *)
Context (ret : bool).

Fixpoint load_cpu (pieces : list cstring) (c : oflops_context) : res oflops_context :=
  match pieces with
  | [] => mret c
  | p :: pieces =>
    '(o, n) ← my_read_objid p (arr_new MAX_OID_LEN) MAX_OID_LEN;
    if ret then load_cpu pieces (c <| cpuOID := cpuOID c ++ [(o, n)] |>) else Fault (FExit 1)
  end.

Definition load_cpu_mib (c : oflops_context) : res oflops_context :=
  t ← nonempty (config_lookup conf (str "oflops.control.cpu_mib"));
  match t with
  | None => mret c
  | Some t => match strtok_all 59 t with [] => Fault FNull | ps => load_cpu ps c end
  end.

(** The capture type, copied to an array of 100. *)
Definition capture_type (t : cstring) : res Z :=
  if zlen t >=? 100 then Fault FBounds
  else if strncaseeq t (str "pcap") 5 then mret PCAP
  else if strncaseeq t (str "nf2") 4 then mret NF2
  else Fault (FExit 1).

(** One data channel. *)
Definition load_data (e : elem) (c : oflops_context) : res oflops_context :=
  match config_setting_get_member conf e (str "dev") with
  | None => mret c
  | Some d =>
    match config_setting_get_string conf d with
    | None => Fault FNull
    | Some d =>
      c ← add_data_channel junk MAX_OID_LEN if_index d c;
      let ch := n_channels c - 1 in
      x ← get_channel c ch;
      let port := match config_setting_get_member conf e (str "port_num") with
                  | Some p => config_setting_get_int conf p
                  | None => ch
                  end in
      in_oid ← nonempty (config_setting_get_member conf e (str "in_snmp_mib"));
      out_oid ← nonempty (config_setting_get_member conf e (str "out_snmp_mib"));
      type ← nonempty (config_setting_get_member conf e (str "type"));
      cap ← match type with None => mret (cap_type x) | Some t => capture_type t end;
      setup_channel_snmp MAX_OID_LEN ch in_oid out_oid
        (put_channel ch (x <| of_port := port |> <| cap_type := cap |>) c)
    end
  end.

Fixpoint load_datas (n : nat) (i : Z) (data : elem) (c : oflops_context) : res oflops_context :=
  match n with
  | O => mret c
  | S n => c ← load_data (config_setting_get_elem conf data i) c; load_datas n (i + 1) data c
  end.

(** The loop over the modules: its counter is reused to free the arguments, and
    the number of arguments is never reset. *)
Fixpoint load_modules (fuel : nat) (i argc : Z) (data : elem) (s : harness) : res harness :=
  match fuel with
  | O => Fault FFuel
  | S fuel =>
    if i <? config_setting_length conf data then
      let e := config_setting_get_elem conf data i in
      match config_setting_get_member conf e (str "path") with
      | None => load_modules fuel (i + 1) argc data s
      | Some p =>
        match config_setting_get_string conf p with
        | None => Fault FNull
        | Some path =>
          '(argc, argv) ← match config_setting_get_member conf e (str "param") with
                          | None => mret (argc + 1, [path])
                          | Some q => match config_setting_get_string conf q with
                                      | None => Fault FNull
                                      | Some t => mret (argc + 2, [path; t])
                                      end
                          end;
          s ← parse_test_module argc argv s;
          if argc >? zlen argv then Fault FBounds else load_modules fuel (argc + 1) argc data s
        end
      end
    else mret s
  end.

Definition set_if {A} (v : option A) (f : A → oflops_context → oflops_context) (c : oflops_context) :=
  match v with Some x => f x c | None => c end.

Definition load_config_file (fuel : nat) (s : harness) : res harness :=
  let c := ctx s in
  let c := set_if (int_setting "oflops.traffic_generator") (λ v c, c <| trafficGen := v |>) c in
  let c := set_if (int_setting "oflops.dump_control_channel") (λ v c, c <| dump_controller := v |>) c in
  c ← match string_setting "oflops.control.control_dev" with
      | None => mret c
      | Some d => x ← channel_info_init MAX_OID_LEN if_index d; mret (put_channel OFLOPS_CONTROL x c)
      end;
  let c := set_if (string_setting "oflops.control.tls_cert") (λ v c, c <| tls_cert := Some v |>) c in
  let c := set_if (string_setting "oflops.control.tls_privkey") (λ v c, c <| tls_privkey := Some v |>) c in
  let c := set_if (string_setting "oflops.control.tls_trustedcert") (λ v c, c <| tls_trustedcert := Some v |>) c in
  let c := set_if (int_setting "oflops.control.control_port") (λ v c, c <| listen_port := u16 v |>) c in
  s ← load_snmp (s <| ctx := c |>);
  in_oid ← nonempty (config_lookup conf (str "oflops.control.in_mib"));
  out_oid ← nonempty (config_lookup conf (str "oflops.control.out_mib"));
  c ← setup_channel_snmp MAX_OID_LEN OFLOPS_CONTROL in_oid out_oid (ctx s);
  c ← load_cpu_mib c;
  c ← match config_lookup conf (str "oflops.data") with
      | None => mret c
      | Some data => load_datas (Z.to_nat (config_setting_length conf data)) 0 data c
      end;
  let s := s <| ctx := c |> in
  match config_lookup conf (str "oflops.module") with
  | None => mret s
  | Some data => load_modules fuel 0 0 data s
  end.
End config.

(** ** The command line *)

(** The file named by an option, if libconfig can read it. *)
Context (config_read_file : cstring → option libconfig) (ret : bool) (fuel : nat).

Definition required (optarg : option cstring) : res cstring :=
  match optarg with Some a => mret a | None => usage end.
(** An argument used without a test. *)
Definition deref (optarg : option cstring) : res cstring :=
  match optarg with Some a => mret a | None => Fault FNull end.

(** -d: the switch port defaults to the number of the channel. *)
Definition data_dev (d : cstring) (c : oflops_context) : res oflops_context :=
  c ← add_data_channel junk MAX_OID_LEN if_index d c;
  let ch := n_channels c - 1 in
  x ← get_channel c ch;
  mret (if of_port x =? -1 then put_channel ch (x <| of_port := ch |>) c else c).

Definition is_opt (c : Z) (o : string) : bool := c =? default 0 (str o !! 0%nat).

(** One option; the number counts -s. *)
Definition parse_option (c : Z) (optarg : option cstring) (st : Z * harness) : res (Z * harness) :=
  let '(snmp_arg, s) := st in
  let keep (c : oflops_context) : res (Z * harness) := mret (snmp_arg, s <| ctx := c |>) in
  if is_opt c "c" then
    c_assert (n_channels (ctx s) >? 0);;
    a ← required optarg;
    x ← channel_info_init MAX_OID_LEN if_index a;
    keep (put_channel OFLOPS_CONTROL x (ctx s))
  else if is_opt c "s" then
    c_assert (snmp_arg + 1 <? 2);;
    a ← required optarg;
    let ps := strtok_all 58 a in
    ch ← snmp_channel_init (ps !! 0%nat) (ps !! 1%nat);
    mret (snmp_arg + 1, s <| ctx := ctx s <| snmp_channel_info := ch |> |>)
  else if is_opt c "d" then
    a ← required optarg;
    x ← data_dev a (ctx s); keep x
  else if is_opt c "p" then a ← deref optarg; keep (ctx s <| listen_port := u16 (atoi a) |>)
  else if is_opt c "o" then a ← deref optarg; keep (ctx s <| log := a |>)
  else if is_opt c "g" then
    a ← deref optarg;
    let v := i32 (strtol 10 a) in
    keep (ctx s <| trafficGen := if (v <? 1) || (v >? 2) then 2 else v |>)
  else if is_opt c "i" then
    a ← deref optarg;
    match config_read_file a with
    | None => mret (snmp_arg, s)
    | Some conf => s ← load_config_file conf ret fuel s; mret (snmp_arg, s)
    end
  else if is_opt c "t" then keep (ctx s <| dump_controller := 1 |>)
  else if is_opt c "x" then keep (ctx s <| tls_cert := optarg |>)
  else if is_opt c "y" then keep (ctx s <| tls_privkey := optarg |>)
  else if is_opt c "z" then keep (ctx s <| tls_trustedcert := optarg |>)
  else if is_opt c "v" then
    a ← deref optarg;
    keep (ctx s <| of_versions := of_versions (ctx s) ++ ((λ p, u8 (atoi p)) <$> strtok_all 44 a) |>)
  else usage.

Fixpoint parse_options (opts : list (Z * option cstring)) (st : Z * harness) : res (Z * harness) :=
  match opts with
  | [] => mret st
  | (c, a) :: opts => st ← parse_option c a st; parse_options opts st
  end.

(** getopt_long: the options in order, and the arguments that remain. *)
Context (getopt_long : cstring → list long_option → list cstring → list (Z * option cstring) * list cstring).

Definition parse_args (argv : list cstring) (s : harness) : res harness :=
  short ← make_short_from_long oflops_options;
  let '(opts, rest) := getopt_long short oflops_options argv in
  '(_, s) ← parse_options opts (0, s);
  if zlen rest >? 0 then parse_test_module (zlen rest) rest s else mret s.
End usage.
