(* ===== verification/UsageSpec.v ===== *)
(** * What the command line sets up

    Data channels are added in order, each with its device and switch port, to
    an array that grows; of the modules a configuration file lists, the second
    is skipped. *)

From S2P Require Import Prelude CTime CBytes CStr OpenFlow MsgBuf PcapTrack WcEvent Context ContextSpec.
From S2P Require Import Harness ModuleDefault ModuleRun ModuleRunSpec Usage.
Open Scope Z_scope.

Section args.
Context {OF : OpenFlow} (junk : Z → channel_info) (MAX_OID_LEN : Z) (if_index : cstring → option Z).
Context (module_code : Z → callback → harness → res harness).
Context (dlopen : cstring → option Z) (dlsym : Z → cstring → bool) (stack_junk : cstring).
Context (config_read_file : cstring → option libconfig) (ret : bool) (fuel : nat).

(** "name:port" *)
Definition dev_name (d : cstring) : cstring := from_option fst d (split_at 58 d).
Definition dev_port (d : cstring) (default : Z) : Z :=
  match split_at 58 d with
  | Some (_, p) => if atoi p =? -1 then default else atoi p
  | None => default
  end.
Definition known (d : cstring) : Prop := is_Some (if_index (take IFNAMSIZ (dev_name d))).

(** One -d. *)
Lemma data_dev_ok d c :
  known d → channels_ok c →
  ∃ c' x, data_dev junk MAX_OID_LEN if_index d c = Ok c' ∧ channels_ok c' ∧
    n_channels c' = n_channels c + 1 ∧ zget (channels c') (n_channels c) = Some x ∧
    dev x = Some (dev_name d) ∧ of_port x = dev_port d (n_channels c) ∧ cap_type x = PCAP ∧
    (∀ i, 0 ≤ i < n_channels c → zget (channels c') i = zget (channels c) i).
Proof.
  intros [ix Hix] Hc. destruct (channel_info_init_ok MAX_OID_LEN if_index d ix Hix)
    as (ch & Hi & Hdev & _ & Hp & _ & _ & _ & _ & Ht & _).
  destruct (add_data_channel_ok junk MAX_OID_LEN if_index c d ch Hc Hi)
    as (c1 & H1 & [Hl1 Hn1] & En & Hg & Hkeep & _).
  unfold data_dev. rewrite H1. cbn [mbind res_bind]. unfold get_channel.
  replace (n_channels c1 - 1) with (n_channels c) by lia. rewrite Hg. cbn [mbind res_bind mret res_ret].
  destruct (of_port ch =? -1) eqn:E.
  - exists (put_channel (n_channels c) (ch <| of_port := n_channels c |>) c1), (ch <| of_port := n_channels c |>).
    split; [done|]. split; [split; cbn; [by rewrite zlen_zset|lia]|]. split; [done|].
    split; [apply zget_zset_eq; cbn; destruct Hc; lia|]. split; [done|]. split_and!; [|done|].
    + cbn. unfold dev_port. rewrite Hp in E. destruct (split_at 58 d) as [[? p]|]; [|done]. cbn in E. by rewrite E.
    + intros i Hi'. cbn. rewrite zget_zset_ne by lia. by apply Hkeep.
  - exists c1, ch. split; [done|]. split; [by split|]. split_and!; try done.
    unfold dev_port. rewrite Hp in E |- *. destruct (split_at 58 d) as [[? p]|]; [|done].
    cbn in E |- *. by rewrite E.
Qed.

Notation parse := (parse_options junk MAX_OID_LEN if_index module_code dlopen dlsym stack_junk
                     config_read_file ret fuel).

Lemma parse_option_d d k s :
  parse_option junk MAX_OID_LEN if_index module_code dlopen dlsym stack_junk config_read_file ret fuel
    100 (Some d) (k, s) =
  (c ← data_dev junk MAX_OID_LEN if_index d (ctx s); mret (k, s <| ctx := c |>)).
Proof. reflexivity. Qed.

(** C31. Any number of -d options with devices the kernel knows: every one adds
    a channel, in order, with the device name, capture by libpcap, and the
    switch port given behind the colon or else the number of the channel; the
    channels already there are kept, and the array grows when it has to. *)
Theorem data_channels_added ds k s :
  Forall known ds → channels_ok (ctx s) →
  ∃ s', parse ((λ d, (100, Some d)) <$> ds) (k, s) = Ok (k, s') ∧ channels_ok (ctx s') ∧
    n_channels (ctx s') = n_channels (ctx s) + zlen ds ∧
    (∀ i, 0 ≤ i < n_channels (ctx s) → zget (channels (ctx s')) i = zget (channels (ctx s)) i) ∧
    ∀ (i : nat) d, ds !! i = Some d →
      let n := n_channels (ctx s) + Z.of_nat i in
      ∃ x, zget (channels (ctx s')) n = Some x ∧ dev x = Some (dev_name d) ∧ of_port x = dev_port d n ∧
        cap_type x = PCAP.
Proof.
  intros Hk. revert s. induction Hk as [|d ds Hd Hk IH]; intros s Hc.
  - exists s. split; [done|]. split; [done|]. split; [change (zlen (@nil cstring)) with 0; lia|].
    split; [done|]. intros i d. done.
  - destruct (data_dev_ok d (ctx s) Hd Hc) as (c1 & x & H1 & Hc1 & En & Hx & Hdev & Hp & Ht & Hkeep).
    specialize (IH (s <| ctx := c1 |>)). destruct (IH Hc1) as (s' & Hs' & Hc' & En' & Hkeep' & Hall).
    cbn [ctx assign] in En', Hkeep', Hall. exists s'. split.
    { cbn [fmap list_fmap parse_options]. rewrite parse_option_d, H1. exact Hs'. }
    split; [done|]. destruct Hc as [_ Hn]. split; [rewrite zlen_cons; lia|]. split.
    { intros i Hi. rewrite Hkeep' by lia. by apply Hkeep. }
    intros [|i] e Hi; cbn in Hi.
    + injection Hi as <-. exists x. rewrite Z.add_0_r. split; [by rewrite Hkeep' by lia|]. done.
    + destruct (Hall i e Hi) as (y & Hy). rewrite En in Hy.
      replace (n_channels (ctx s) + Z.of_nat (S i)) with (n_channels (ctx s) + 1 + Z.of_nat i) by lia.
      by exists y.
Qed.
End args.

Definition demo_devs : list cstring := (λ i, str "eth" ++ dec (Z.of_nat i)) <$> seq 1 12.

Lemma data_channels_added_witness :
  ∃ s', parse_options (OF := of10) (λ _, demo_channel (-1) 0 PCAP) 128 (λ _, Some 2) demo_code (λ _, None)
      (λ _ _, false) [] (λ _, None) true 0 ((λ d, (100, Some d)) <$> (str "eth0:7" :: demo_devs)) (0, demo_harness PCAP []) =
      Ok (0, s') ∧ n_channels (ctx s') = 16 ∧
    (∃ x, zget (channels (ctx s')) 3 = Some x ∧ dev x = Some (str "eth0") ∧ of_port x = 7 ∧ cap_type x = PCAP) ∧
    (∃ x, zget (channels (ctx s')) 15 = Some x ∧ dev x = Some (str "eth12") ∧ of_port x = 15 ∧ cap_type x = PCAP).
Proof.
  destruct (data_channels_added (OF := of10) (λ _, demo_channel (-1) 0 PCAP) 128 (λ _, Some 2) demo_code
              (λ _, None) (λ _ _, false) [] (λ _, None) true 0 (str "eth0:7" :: demo_devs) 0 (demo_harness PCAP []))
    as (s' & Hs' & _ & Hn & _ & Hall).
  - apply Forall_true. intros d. by exists 2.
  - split; [done|]. vm_compute. split; congruence.
  - exists s'. split; [exact Hs'|]. split; [rewrite Hn; reflexivity|]. split.
    + exact (Hall 0%nat _ eq_refl).
    + exact (Hall 12%nat _ eq_refl).
Defined.

(** ** Modules of a configuration file *)

(** Of two modules without parameters the second is never loaded: freeing the
    arguments of the first leaves the counter of the loop beyond it. *)
Lemma second_module_skipped {OF : OpenFlow} module_code dlopen dlsym sj (conf : libconfig) data p path s f :
  config_setting_length conf data = 2 →
  config_setting_get_member conf (config_setting_get_elem conf data 0) (str "path") = Some p →
  config_setting_get_member conf (config_setting_get_elem conf data 0) (str "param") = None →
  config_setting_get_string conf p = Some path →
  load_modules module_code dlopen dlsym sj conf (S (S f)) 0 0 data s =
  parse_test_module module_code dlopen dlsym sj 1 [path] s.
Proof.
  intros Hl Hp Hq Hs. cbn [load_modules]. rewrite Hl, Hp, Hs, Hq. cbn [Z.ltb Z.compare mbind res_bind mret res_ret].
  change (0 + 1) with 1. change (1 >? zlen [path]) with false. change (1 + 1 <? 2) with false.
  destruct (parse_test_module _ _ _ _ 1 [path] s); done.
Qed.
