(* ===== verification/Oflops.v ===== *)
(** * The life of a test (oflops.c)

    The main program as a transition system: the main thread works through the
    tests; for each it starts the thread that captures, the one that generates
    traffic and the one that serves timers, and joins them.  A step of a thread
    runs the code of that thread; the flags of the context connect them. *)

From S2P Require Import Prelude CTime CBytes CStr OpenFlow MsgBuf PcapTrack WcEvent TimerEvent Context.
From S2P Require Import Harness ModuleDefault ModuleRun TrafficKernel.
Open Scope Z_scope.

(** Where the main thread is. *)
Inductive main_pc :=
| MTest          (* at the head of the loop over the tests *)
| MControl       (* the capture thread runs; setup_control_channel *)
| MStart         (* start the module, the traffic thread and the timer thread *)
| MJoinTraffic
| MJoinEvent
| MJoinRun
| MDone.

Inductive thread := TNone | TRunning | TEnded.

(** What happened in test number [i]. *)
Inductive happening :=
| HSetup (i : Z) | HStart (i : Z) | HRound (i : Z) | HTimer (i : Z)
| HTrafficEnd (i : Z) | HEventEnd (i : Z) | HControlDown (i : Z) | HDestroy (i : Z).

Record prog := {
  pc : main_pc;
  test_ix : Z;
  run_thread : thread;
  traffic_thread : thread;
  event_thread : thread;
  hs : harness;
  trace : list happening;
}.
#[export] Instance prog_rebuild : Rebuild prog := λ p,
  {| pc := pc p; test_ix := test_ix p; run_thread := run_thread p; traffic_thread := traffic_thread p;
     event_thread := event_thread p; hs := hs p; trace := trace p |}.

Section main.
Context {OF : OpenFlow} (module_code : Z → callback → harness → res harness).
Context (E : capture_env) (module_filter : Z → oflops_context → Z → Z * cstring).

(** ** The report of a test *)

(** Statistics of libpcap (received, dropped) and of the NetFPGA library
    (received, captured; sent). *)
Record stats_env := {
  pcap_stats : Z → Z * Z;
  nf_cap_stat : Z → Z * Z;
  display_xmit_metrics : Z → Z;
  proc_file : cstring → option (list cstring);
}.
Context (S : stats_env).

Definition dev_text (x : channel_info) : cstring := default [] (dev x).

(** The generator's report, logged unless it is NULL. *)
Definition report_generator (now : timeval) (s : harness) : res harness :=
  m ← report_traffic_generator (proc_file S) (ctx s);
  match m with
  | [] => mret s
  | _ => t ← c_text m; oflops_log now PKTGEN_MSG t s
  end.

Definition report_channel (now : timeval) (j : Z) (s : harness) : res harness :=
  x ← get_channel (ctx s) j;
  if (cap_type x =? PCAP) && negb (pcap_handle x =? 0) then
    let '(recv, drop) := pcap_stats S (pcap_handle x) in
    s ← oflops_log now PCAP_MSG (snprintf 1024 (dev_text x ++ str ":" ++ dec (u32 recv) ++ str ":" ++ dec (u32 drop))) s;
    report_generator now s
  else if (cap_type x =? NF2) && negb (nf_cap x =? 0) then
    let '(cnt, captured) := nf_cap_stat S (j - 1) in
    s ← oflops_log now PCAP_MSG
          (snprintf 1024 (dev_text x ++ str ":rcv:" ++ dec (u32 cnt) ++ str ":" ++ dec (u32 (cnt - captured)))) s;
    oflops_log now PCAP_MSG
      (snprintf 1024 (dev_text x ++ str ":snd:" ++ dec (u32 (display_xmit_metrics S (j - 1))))) s
  else mret s.

Fixpoint report_channels (now : timeval) (n : nat) (j : Z) (s : harness) : res harness :=
  match n with
  | O => mret s
  | Datatypes.S n => s ← report_channel now j s; report_channels now n (j + 1) s
  end.

(** ** The threads *)

(** The main thread up to the start of the capture thread. *)
Definition begin_test (i : Z) (s : harness) : res harness :=
  m ← get_test (ctx s) i;
  let s := s <| libs := reset_context (libs s) (ctx s) |> in
  let s := s <| ctx := ctx s <| curr_test := Some m |> <| started := 0 |> |> in
  setup_test_module E module_filter i s.

Definition start_test (s : harness) : res harness :=
  match curr_test (ctx s) with
  | None => Fault FNull
  | Some m =>
    s ← invoke module_code (m_start m) CbStart s;
    mret (s <| ctx := ctx s <| started := 1 |> |>)
  end.

Definition raise_end_event (s : harness) : harness := s <| ctx := ctx s <| end_event := 1 |> |>.
Definition raise_end_module (s : harness) : harness :=
  s <| ctx := ctx s <| fluid_control := 0 |> <| end_module := 1 |> |>.

(** The capture thread at its end. *)
Definition finish_run (i : Z) (s : harness) : res harness :=
  m ← get_test (ctx s) i;
  s ← invoke module_code (m_destroy m) CbDestroy s;
  s ← teardown_snmp_channel s;
  x ← get_channel (ctx s) OFLOPS_CONTROL;
  mret (if negb (dump x =? 0) && negb (dump_controller (ctx s) =? 0)
        then s <| dumps_closed := dumps_closed s + 1 |> else s).

Definition note (p : prog) (h : happening) : list happening := trace p ++ [h].

Inductive main_step : prog → prog → Prop :=
| ms_begin p s' :
    pc p = MTest → test_ix p < n_tests (ctx (hs p)) → begin_test (test_ix p) (hs p) = Ok s' →
    main_step p (p <| pc := MControl |> <| run_thread := TRunning |> <| hs := s' |>
                   <| trace := note p (HSetup (test_ix p)) |>)
| ms_control p h :
    pc p = MControl → h ≠ 0 →
    main_step p (p <| pc := MStart |> <| hs := hs p <| ctx := ctx (hs p) <| fluid_control := h |> |> |>)
| ms_start p s' :
    pc p = MStart → start_test (hs p) = Ok s' →
    main_step p (p <| pc := MJoinTraffic |> <| traffic_thread := TRunning |> <| event_thread := TRunning |>
                   <| hs := s' |> <| trace := note p (HStart (test_ix p)) |>)
| ms_join_traffic p :
    pc p = MJoinTraffic → traffic_thread p = TEnded →
    main_step p (p <| pc := MJoinEvent |> <| hs := raise_end_event (hs p) |>)
| ms_join_event p :
    pc p = MJoinEvent → event_thread p = TEnded →
    main_step p (p <| pc := MJoinRun |> <| hs := raise_end_module (hs p) |>
                   <| trace := note p (HControlDown (test_ix p)) |>)
| ms_join_run p now s' :
    pc p = MJoinRun → run_thread p = TEnded →
    report_channels now (Z.to_nat (n_channels (ctx (hs p)))) 0 (hs p) = Ok s' →
    main_step p (p <| pc := MTest |> <| test_ix := test_ix p + 1 |> <| run_thread := TNone |>
                   <| traffic_thread := TNone |> <| event_thread := TNone |> <| hs := s' |>)
| ms_done p :
    pc p = MTest → n_tests (ctx (hs p)) ≤ test_ix p → main_step p (p <| pc := MDone |>).

Inductive thread_step : prog → prog → Prop :=
| ts_round p m r s' :
    run_thread p = TRunning → get_test (ctx (hs p)) (test_ix p) = Ok m → end_module (ctx (hs p)) = 0 →
    loop_round module_code m r (hs p) = Ok s' →
    thread_step p (p <| hs := s' |> <| trace := note p (HRound (test_ix p)) |>)
| ts_run_end p s' :
    run_thread p = TRunning → end_module (ctx (hs p)) ≠ 0 → finish_run (test_ix p) (hs p) = Ok s' →
    thread_step p (p <| run_thread := TEnded |> <| hs := s' |> <| trace := note p (HDestroy (test_ix p)) |>)
| ts_traffic p s' :
    traffic_thread p = TRunning → run_traffic_generation module_code (test_ix p) (hs p) = Ok s' →
    thread_step p (p <| traffic_thread := TEnded |> <| hs := s' |> <| trace := note p (HTrafficEnd (test_ix p)) |>)
| ts_cancelled p :
    traffic_thread p = TRunning → tg_cancelled (hs p) = true →
    thread_step p (p <| traffic_thread := TEnded |> <| trace := note p (HTrafficEnd (test_ix p)) |>)
| ts_timer p m te s' :
    event_thread p = TRunning → end_event (ctx (hs p)) = 0 → curr_test (ctx (hs p)) = Some m →
    invoke module_code (m_handle_timer_event m) (CbTimerEvent te) (hs p) = Ok s' →
    thread_step p (p <| hs := s' |> <| trace := note p (HTimer (test_ix p)) |>)
| ts_event_end p :
    event_thread p = TRunning → end_event (ctx (hs p)) ≠ 0 →
    thread_step p (p <| event_thread := TEnded |> <| trace := note p (HEventEnd (test_ix p)) |>).

Definition prog_step (p p' : prog) : Prop := main_step p p' ∨ thread_step p p'.

(** The program after its arguments were parsed. *)
Definition prog_init (s : harness) : prog :=
  {| pc := MTest; test_ix := 0; run_thread := TNone; traffic_thread := TNone; event_thread := TNone;
     hs := s; trace := [] |}.
End main.
