(* ===== verification/OflopsSpec.v ===== *)
(** * What the life of a test promises

    In the first test the module is destroyed only after it was started, the
    traffic and timer threads have ended and the control channel is down.  The
    flags that stop the threads are never lowered again: in every later test
    the capture thread handles no packet and the timer thread no timer. *)

From S2P Require Import Prelude CTime CBytes CStr OpenFlow MsgBuf PcapTrack WcEvent TimerEvent FakeSwitch.
From S2P Require Import Context ContextSpec Harness ModuleDefault ModuleRun ModuleRunSpec TrafficKernel Oflops.
Open Scope Z_scope.

(** The flags that stop the timer thread and the capture thread. *)
Definition flags (s : harness) : Z * Z := (end_event (ctx s), end_module (ctx s)).

Section spec.
Context {OF : OpenFlow} (module_code : Z → callback → harness → res harness).
Context (E : capture_env) (module_filter : Z → oflops_context → Z → Z * cstring) (S : stats_env).

(** Modules raise end_traffic_generation through oflops_end_test; they do not
    touch the two other flags. *)
Definition keeps_flags : Prop := ∀ h cb s s', module_code h cb s = Ok s' → flags s' = flags s.
Context (Hkeep : keeps_flags).

Lemma default_call_flags cb s s' : default_call cb s = Ok s' → flags s' = flags s.
Proof.
  destruct cb; cbn; intros H; try by injection H as <-.
  unfold default_module_of_event_echo_request, oflops_send_of_mesg, oflops_send_of_mesgs,
    write_oflops_control in H. by res_inv; repeat (case_match; res_inv; simplify_eq/=).
Qed.

Lemma invoke_flags f cb s s' : invoke module_code f cb s = Ok s' → flags s' = flags s.
Proof. destruct f; cbn; [done|apply Hkeep|apply default_call_flags]. Qed.

Lemma process_pcap_event_flags m r ch s s' :
  process_pcap_event module_code m r ch s = Ok s' → flags s' = flags s.
Proof.
  assert (∀ hdr data s s', deliver module_code m hdr data ch s = Ok s' → flags s' = flags s) as Hdel.
  { intros hdr data s1 s1' H. unfold deliver in H. destruct (negb _); [by eapply invoke_flags|by injection H as <-]. }
  unfold process_pcap_event, next_cap. intros H. apply bind_Ok in H as (x & Hx & H).
  apply bind_Ok in H as (s1 & H1 & H).
  assert (flags s1 = flags s) as <-.
  { destruct (negb _); [|by injection H1 as <-]. unfold flush_outgoing in H1.
    destruct (outgoing x); [|done]. apply bind_Ok in H1 as ([[n mb'] sk] & _ & H1).
    destruct (_ && _); [done|]. by injection H1 as <-. }
  clear H1. destruct (Z.land r POLLIN =? 0); [by injection H as <-|].
  destruct (cap_type x =? PCAP).
  - apply bind_Ok in H as (_ & _ & H). destruct (caps s1) as [|[| |hdr data] l]; try by injection H as <-.
    destruct (_ && _); apply Hdel in H; exact H.
  - destruct (cap_type x =? NF2); [|by injection H as <-]. apply bind_Ok in H as (s2 & H2 & H).
    assert (flags s2 = flags s1) as <-
      by (destruct (nf_pe s1); [by injection H2 as <-|by injection H2 as <-|done]).
    destruct (caps s2) as [|[| |hdr data] l]; try by injection H as <-.
    apply bind_Ok in H as (copy & _ & H). destruct (_ >? _); [done|].
    apply bind_Ok in H as (s3 & H3 & H). apply Hdel in H3. injection H as <-. exact H3.
Qed.

Lemma loop_round_flags m r s s' : loop_round module_code m r s = Ok s' → flags s' = flags s.
Proof.
  unfold loop_round. destruct (_ && _); [done|]. destruct (_ =? 0); [by intros [= <-]|].
  generalize (pr_revents r) as revs. generalize (poll_set (ctx s)) as fds.
  intros fds. revert s. induction fds as [|fd fds IH]; intros s revs H; [by injection H as <-|].
  destruct revs as [|v revs]; [by injection H as <-|]. cbn [process_ready] in H.
  apply bind_Ok in H as (s1 & H1 & H). rewrite (IH s1 revs H).
  destruct (negb _); [|by injection H1 as <-]. unfold process_event in H1.
  destruct (find_fd _ _ _); [by eapply process_pcap_event_flags|done].
Qed.

Lemma setup_channel_ends cap flt ch c c' :
  setup_channel cap flt ch c = Ok c' → (end_event c', end_module c') = (end_event c, end_module c).
Proof.
  unfold setup_channel. intros H. apply bind_Ok in H as (x & _ & H). apply bind_Ok in H as (y & _ & H).
  destruct (flt ch) as [n text]. destruct (_ && _); [by injection H as <-|].
  destruct (dev y); [|done]. apply bind_Ok in H as (z & _ & H). by injection H as <-.
Qed.

Lemma setup_channels_ends m n : ∀ j c c',
  setup_channels E module_filter m n j c = Ok c' → (end_event c', end_module c') = (end_event c, end_module c).
Proof.
  induction n as [|n IH]; intros j c c' H; [by injection H as <-|].
  cbn [setup_channels] in H. apply bind_Ok in H as (c1 & H1 & H).
  rewrite (IH _ _ _ H). by eapply setup_channel_ends.
Qed.

Lemma begin_test_flags i s s' : begin_test E module_filter i s = Ok s' → flags s' = flags s.
Proof.
  unfold begin_test. intros H. apply bind_Ok in H as (m & _ & H). unfold setup_test_module in H.
  apply bind_Ok in H as (m' & _ & H). apply bind_Ok in H as (c & Hc & H).
  apply bind_Ok in H as ([g q] & _ & H). injection H as <-. unfold flags. cbn [ctx assign].
  apply setup_channels_ends in Hc. rewrite Hc. unfold setup_snmp_channel. by repeat case_match.
Qed.

Lemma oflops_log_flags ts t d s s' : oflops_log ts t d s = Ok s' → flags s' = flags s.
Proof.
  unfold oflops_log. destruct (logger s); [|by intros [= <-]]. destruct (zget msg_type t); [|done].
  by intros [= <-].
Qed.

Lemma report_channel_flags now j s s' : report_channel S now j s = Ok s' → flags s' = flags s.
Proof.
  unfold report_channel. intros H. apply bind_Ok in H as (x & _ & H). destruct (_ && _).
  - destruct (pcap_stats S _). apply bind_Ok in H as (s1 & H1 & H). apply oflops_log_flags in H1 as <-.
    unfold report_generator in H. apply bind_Ok in H as (m & _ & H). destruct m; [by injection H as <-|].
    apply bind_Ok in H as (t & _ & H). by eapply oflops_log_flags.
  - destruct (_ && _); [|by injection H as <-]. destruct (nf_cap_stat S _).
    apply bind_Ok in H as (s1 & H1 & H). apply oflops_log_flags in H1 as <-. by eapply oflops_log_flags.
Qed.

Lemma report_channels_flags now n : ∀ j s s', report_channels S now n j s = Ok s' → flags s' = flags s.
Proof.
  induction n as [|n IH]; intros j s s' H; [by injection H as <-|]. cbn [report_channels] in H.
  apply bind_Ok in H as (s1 & H1 & H). apply report_channel_flags in H1 as <-. by eapply IH.
Qed.

Lemma finish_run_flags i s s' : finish_run module_code i s = Ok s' → flags s' = flags s.
Proof.
  unfold finish_run. intros H. apply bind_Ok in H as (m & _ & H). apply bind_Ok in H as (s1 & H1 & H).
  apply invoke_flags in H1 as <-. apply bind_Ok in H as (s2 & H2 & H). apply bind_Ok in H as (x & _ & H).
  assert (flags s2 = flags s1) as <-.
  { unfold teardown_snmp_channel, snmp_free_pdu in H2. destruct (negb _); [|by injection H2 as <-].
    destruct (bool_decide _); [by injection H2 as <-|done]. }
  injection H as <-. by case_match.
Qed.

Lemma run_traffic_generation_flags i s s' :
  run_traffic_generation module_code i s = Ok s' → flags s' = flags s.
Proof.
  unfold run_traffic_generation. intros H. apply bind_Ok in H as (m & _ & H). by eapply invoke_flags.
Qed.

Lemma start_test_flags s s' : start_test module_code s = Ok s' → flags s' = flags s.
Proof.
  unfold start_test. destruct (curr_test (ctx s)); [|done]. intros H. apply bind_Ok in H as (s1 & H1 & H).
  apply invoke_flags in H1 as <-. by injection H as <-.
Qed.

(** ** The invariant *)

(** Test 0 is destroyed after everything else of it has ended. *)
Definition destroyed_last (t : list happening) : Prop :=
  ∀ t1 t2, t = t1 ++ HDestroy 0 :: t2 →
    HStart 0 ∈ t1 ∧ HTrafficEnd 0 ∈ t1 ∧ HEventEnd 0 ∈ t1 ∧ HControlDown 0 ∈ t1.

(** Packets and timers are handled in test 0 only. *)
Definition only_first (t : list happening) : Prop :=
  ∀ i, HRound i ∈ t ∨ HTimer i ∈ t → i = 0.

Definition idle (p : prog) : Prop :=
  run_thread p = TNone ∧ traffic_thread p = TNone ∧ event_thread p = TNone.

(** Test 0, by the position of the main thread. *)
Definition first_ok (p : prog) : Prop :=
  match pc p with
  | MTest => flags (hs p) = (0, 0) ∧ idle p
  | MControl | MStart => flags (hs p) = (0, 0) ∧ traffic_thread p = TNone ∧ event_thread p = TNone
  | MJoinTraffic => flags (hs p) = (0, 0) ∧ HStart 0 ∈ trace p ∧
      (traffic_thread p = TEnded → HTrafficEnd 0 ∈ trace p) ∧ (event_thread p = TEnded → HEventEnd 0 ∈ trace p)
  | MJoinEvent => flags (hs p) = (1, 0) ∧ HStart 0 ∈ trace p ∧ traffic_thread p = TEnded ∧
      HTrafficEnd 0 ∈ trace p ∧ (event_thread p = TEnded → HEventEnd 0 ∈ trace p)
  | MJoinRun => flags (hs p) = (1, 1) ∧ traffic_thread p = TEnded ∧ event_thread p = TEnded ∧
      HStart 0 ∈ trace p ∧ HTrafficEnd 0 ∈ trace p ∧ HEventEnd 0 ∈ trace p ∧ HControlDown 0 ∈ trace p
  | MDone => idle p
  end.

Definition later_ok (p : prog) : Prop :=
  flags (hs p) = (1, 1) ∧ (pc p = MTest ∨ pc p = MDone → idle p).

Record life (p : prog) : Prop := {
  li_ix : 0 ≤ test_ix p;
  li_first : test_ix p = 0 → first_ok p;
  li_later : 1 ≤ test_ix p → later_ok p;
  li_last : destroyed_last (trace p);
  li_only : only_first (trace p);
}.

Lemma destroyed_last_snoc t h :
  destroyed_last t → (h = HDestroy 0 → HStart 0 ∈ t ∧ HTrafficEnd 0 ∈ t ∧ HEventEnd 0 ∈ t ∧ HControlDown 0 ∈ t) →
  destroyed_last (t ++ [h]).
Proof.
  intros Ht Hh t1 t2 E1. destruct t2 as [|x t2 _] using rev_ind.
  - apply app_inj_tail in E1 as [<- ->]. by apply Hh.
  - rewrite app_comm_cons, app_assoc in E1. apply app_inj_tail in E1 as [-> _]. by eapply Ht.
Qed.

Lemma only_first_snoc t h :
  only_first t → (∀ i, h = HRound i ∨ h = HTimer i → i = 0) → only_first (t ++ [h]).
Proof.
  intros Ht Hh i. rewrite !elem_of_app, !list_elem_of_singleton. intros [[?|Hr]|[?|Hr]].
  - apply Ht. by left.
  - apply Hh. left. by rewrite Hr.
  - apply Ht. by right.
  - apply Hh. right. by rewrite Hr.
Qed.

Lemma elem_of_snoc (x : happening) t h : x ∈ t → x ∈ t ++ [h].
Proof. intros. apply elem_of_app. by left. Qed.
Lemma elem_of_snoc_new (x : happening) t : x ∈ t ++ [x].
Proof. apply elem_of_app. right. by apply list_elem_of_singleton. Qed.
Hint Resolve elem_of_snoc elem_of_snoc_new : oflops.

(** A happening that is neither a destruction nor the handling of an event. *)
Lemma harmless_snoc t h :
  destroyed_last t → only_first t →
  match h with HDestroy _ | HRound _ | HTimer _ => False | _ => True end →
  destroyed_last (t ++ [h]) ∧ only_first (t ++ [h]).
Proof.
  intros Ht Ho Hh. split.
  - apply destroyed_last_snoc; [done|]. by intros ->.
  - apply only_first_snoc; [done|]. by intros i [-> | ->].
Qed.

Ltac unfold_life := unfold first_ok, later_ok, idle, note in *;
  cbn [assign pc test_ix run_thread traffic_thread event_thread hs trace] in *.

Lemma main_step_life p p' :
  life p → main_step module_code E module_filter S p p' → life p'.
Proof.
  intros L Hs. destruct Hs as [p s' Hpc Hn Hb|p h Hpc Hh|p s' Hpc Hb|p Hpc Ht|p Hpc Ht|p now s' Hpc Hr Hrep|p Hpc Hn];
    destruct L as [L1 L2 L3 L10 L11]; unfold_life; rewrite Hpc in L2, L3.
  - apply begin_test_flags in Hb. destruct (harmless_snoc _ (HSetup (test_ix p)) L10 L11 I) as [D1 D2].
    split; unfold_life; try done; rewrite Hb; intros Hi; [destruct (L2 Hi) as (? & ? & ?)|destruct (L3 Hi) as [? ?]].
    + done.
    + split; [done|]. by intros [|].
  - split; unfold_life; try done. intros Hi. destruct (L3 Hi) as [? _]. split; [done|]. by intros [|].
  - apply start_test_flags in Hb. destruct (harmless_snoc _ (HStart (test_ix p)) L10 L11 I) as [D1 D2].
    split; unfold_life; try done; rewrite Hb; intros Hi; [destruct (L2 Hi) as (? & ?)|destruct (L3 Hi) as [? ?]].
    + rewrite Hi. split_and!; try done; auto with oflops.
    + split; [done|]. by intros [|].
  - split; unfold_life; try done; intros Hi; [destruct (L2 Hi) as (Hf & ? & ? & ?)|destruct (L3 Hi) as [Hf ?]];
      injection Hf as Hf1 Hf2; unfold flags, raise_end_event; cbn; rewrite Hf2.
    + split_and!; auto.
    + split; [done|]. by intros [|].
  - destruct (harmless_snoc _ (HControlDown (test_ix p)) L10 L11 I) as [D1 D2].
    split; unfold_life; try done; intros Hi; [destruct (L2 Hi) as (Hf & ? & ? & ? & ?)|destruct (L3 Hi) as [Hf ?]];
      injection Hf as Hf1 Hf2; unfold flags, raise_end_module; cbn; rewrite Hf1.
    + rewrite Hi. split_and!; auto with oflops.
    + split; [done|]. by intros [|].
  - apply report_channels_flags in Hrep. split; unfold_life; try done; rewrite ?Hrep; [lia|intros Hi; lia|intros Hi].
    split; [|done]. destruct (decide (test_ix p = 0)) as [Hz|]; [by apply L2|]. apply L3. lia.
  - split; unfold_life; try done; intros Hi; [by apply L2|]. destruct (L3 Hi) as [? Hidle]. split; [done|].
    intros _. apply Hidle. by left.
Qed.

(** A step that only changes the harness, and appends to the trace. *)
Lemma first_ok_more p s h :
  first_ok p → flags s = flags (hs p) → first_ok (p <| hs := s |> <| trace := trace p ++ [h] |>).
Proof. intros Hf Hs. unfold_life. rewrite Hs. destruct (pc p); intuition auto with oflops. Qed.

(** The capture thread runs in none but the middle phases. *)
Lemma run_busy p : first_ok p → run_thread p = TRunning → pc p ≠ MTest ∧ pc p ≠ MDone.
Proof. unfold_life. intros Hf Hr. split; intros Hp; rewrite Hp in Hf; intuition congruence. Qed.

Lemma thread_step_life p p' : life p → thread_step module_code p p' → life p'.
Proof.
  intros L Hs. destruct Hs as [p m r s' Hr Hm He Hl|p s' Hr He Hf|p s' Ht Hg|p Ht Hc|p m te s' Ht He Hm Hi|p Ht He];
    destruct L as [L1 L2 L3 L4 L5].
  - apply loop_round_flags in Hl. split; [done| | | |].
    + intros Hi. by apply first_ok_more; [apply L2|].
    + intros Hi. destruct (L3 Hi) as [Hf _]. injection Hf as _ Hf. congruence.
    + by apply destroyed_last_snoc.
    + apply only_first_snoc; [done|]. intros i [[= <-]|]; [|done].
      destruct (decide (test_ix p = 0)); [done|]. destruct (L3 ltac:(lia)) as [Hf _]. injection Hf as _ Hf. congruence.
  - apply finish_run_flags in Hf. split; [done| | | |].
    + intros Hi. specialize (L2 Hi). pose proof (run_busy p L2 Hr) as [Hb1 Hb2]. unfold_life. rewrite Hf.
      destruct (pc p); intuition auto with oflops.
    + intros Hi. destruct (L3 Hi) as [Hfl Hid]. unfold_life. rewrite Hf. split; [done|].
      intros Hp. destruct (Hid Hp) as [? _]. congruence.
    + apply destroyed_last_snoc; [done|]. intros [= Hi]. specialize (L2 Hi). unfold_life.
      unfold flags in L2. destruct (pc p); intuition congruence.
    + apply only_first_snoc; [done|]. by intros i [|].
  - apply run_traffic_generation_flags in Hg. destruct (harmless_snoc _ (HTrafficEnd (test_ix p)) L4 L5 I) as [D1 D2].
    split; [done| | |done|done].
    + intros Hi. specialize (L2 Hi). unfold_life. rewrite Hg, Hi. destruct (pc p); intuition (congruence || auto with oflops).
    + intros Hi. destruct (L3 Hi) as [Hfl Hid]. unfold_life. rewrite Hg. split; [done|].
      intros Hp. destruct (Hid Hp) as (_ & ? & _). congruence.
  - destruct (harmless_snoc _ (HTrafficEnd (test_ix p)) L4 L5 I) as [D1 D2].
    split; [done| | |done|done].
    + intros Hi. specialize (L2 Hi). unfold_life. rewrite Hi. destruct (pc p); intuition (congruence || auto with oflops).
    + intros Hi. destruct (L3 Hi) as [Hfl Hid]. unfold_life. split; [done|].
      intros Hp. destruct (Hid Hp) as (_ & ? & _). congruence.
  - apply invoke_flags in Hi. split; [done| | | |].
    + intros Hz. by apply first_ok_more; [apply L2|].
    + intros Hz. destruct (L3 Hz) as [Hf _]. injection Hf as Hf _. congruence.
    + by apply destroyed_last_snoc.
    + apply only_first_snoc; [done|]. intros i [|[= <-]]; [done|].
      destruct (decide (test_ix p = 0)); [done|]. destruct (L3 ltac:(lia)) as [Hf _]. injection Hf as Hf _. congruence.
  - destruct (harmless_snoc _ (HEventEnd (test_ix p)) L4 L5 I) as [D1 D2].
    split; [done| | |done|done].
    + intros Hi. specialize (L2 Hi). unfold_life. rewrite Hi. destruct (pc p); intuition (congruence || auto with oflops).
    + intros Hi. destruct (L3 Hi) as [Hfl Hid]. unfold_life. split; [done|].
      intros Hp. destruct (Hid Hp) as (_ & _ & ?). congruence.
Qed.

Lemma reach_life s p :
  flags s = (0, 0) → rtc (prog_step module_code E module_filter S) (prog_init s) p → life p.
Proof.
  intros Hf Hr. assert (life (prog_init s)) as H0.
  { split; [done| |cbn; lia| |].
    - done.
    - intros t1 t2 E1. by destruct t1.
    - intros i [H|H]; by apply elem_of_nil in H. }
  revert H0. generalize (prog_init s) as q, Hr. clear Hr. intros q Hr. induction Hr as [|x y z Hxy _ IH]; [done|].
  intros H0. apply IH. destruct Hxy; [by eapply main_step_life|by eapply thread_step_life].
Qed.
End spec.

(** C37. The life of the tests, in every reachable state of the program and for
    any interleaving of its threads: the first test's module is destroyed only
    after it was started, its traffic and timer threads have ended and the
    control channel is down.  The flags that end the threads are not lowered
    again: packets and timers are handled in the first test and in no other. *)
Theorem first_test_orderly_later_void {OF : OpenFlow} module_code E module_filter S s p :
  keeps_flags module_code → end_event (ctx s) = 0 → end_module (ctx s) = 0 →
  rtc (prog_step module_code E module_filter S) (prog_init s) p →
  (∀ t1 t2, trace p = t1 ++ HDestroy 0 :: t2 →
     HStart 0 ∈ t1 ∧ HTrafficEnd 0 ∈ t1 ∧ HEventEnd 0 ∈ t1 ∧ HControlDown 0 ∈ t1) ∧
  (∀ i, HRound i ∈ trace p ∨ HTimer i ∈ trace p → i = 0).
Proof.
  intros Hk He Hm Hr. destruct (reach_life module_code E module_filter S Hk s p) as [_ _ _ H1 H2]; [|done|].
  - unfold flags. by rewrite He, Hm.
  - by split.
Qed.

Definition demo_capture : capture_env :=
  {| pcap_lookupdev := None; pcap_open_live := λ _ _, 1; pcap_dump_open := λ _, 1; pcap_compile := λ _ _, 0;
     pcap_setfilter := λ _, 0; pcap_get_selectable_fd := λ _, 5; nf_cap_enable := λ _ _, 1;
     nf_cap_fileno := λ _, 6 |}.
Definition demo_stats : stats_env :=
  {| pcap_stats := λ _, (10, 1); nf_cap_stat := λ _, (10, 9); display_xmit_metrics := λ _, 7;
     proc_file := λ _, None |}.

(** Two tests of the same module. *)
Definition demo_two : harness :=
  let s := demo_harness PCAP [] in
  s <| ctx := ctx s <| tests := [demo_module; demo_module] |> <| n_tests := 2 |> <| fluid_control := 0 |>
                    <| trafficGen := USER_SPACE |> |>
    <| logger := Some [] |> <| libs := [1; 1] |>.

Lemma demo_code_flags : keeps_flags demo_code.
Proof. intros h cb s s' H. destruct cb; by injection H as <-. Qed.

(** Take a step, and compute the state it leads to. *)
Ltac run_step tac :=
  eapply rtc_l; [tac|];
  lazymatch goal with |- rtc _ ?p _ => let q := eval vm_compute in p in change p with q end.

(** In the second test the module is destroyed before it is started. *)
Lemma demo_two_tests :
  ∃ p, rtc (prog_step (OF := of10) demo_code demo_capture (λ _ _ _, (0, [])) demo_stats) (prog_init demo_two) p ∧
    trace p = [HSetup 0; HStart 0; HRound 0; HTrafficEnd 0; HEventEnd 0; HControlDown 0; HDestroy 0;
               HSetup 1; HDestroy 1].
Proof.
  eexists. split.
  - run_step ltac:(left; eapply ms_begin; [reflexivity|reflexivity|vm_compute; reflexivity]).
    run_step ltac:(left; apply (ms_control _ _ _ _ _ 1); [reflexivity|done]).
    run_step ltac:(left; eapply ms_start; [reflexivity|vm_compute; reflexivity]).
    run_step ltac:(right; eapply (ts_round _ _ demo_module
      {| pr_end_module := 0; pr_ret := 0; pr_errno := 0; pr_revents := [] |}); [reflexivity..|vm_compute; reflexivity]).
    run_step ltac:(right; eapply ts_traffic; [reflexivity|vm_compute; reflexivity]).
    run_step ltac:(left; eapply ms_join_traffic; reflexivity).
    run_step ltac:(right; eapply ts_event_end; [reflexivity|vm_compute; discriminate]).
    run_step ltac:(left; eapply ms_join_event; reflexivity).
    run_step ltac:(right; eapply ts_run_end; [reflexivity|vm_compute; discriminate|vm_compute; reflexivity]).
    run_step ltac:(left; eapply (ms_join_run _ _ _ _ _ {| tv_sec := 1; tv_usec := 0 |});
                   [reflexivity|reflexivity|vm_compute; reflexivity]).
    run_step ltac:(left; eapply ms_begin; [reflexivity|reflexivity|vm_compute; reflexivity]).
    run_step ltac:(right; eapply ts_run_end; [reflexivity|vm_compute; discriminate|vm_compute; reflexivity]).
    apply rtc_refl.
  - reflexivity.
Qed.

Lemma first_test_orderly_later_void_witness :
  ∃ p, rtc (prog_step (OF := of10) demo_code demo_capture (λ _ _ _, (0, [])) demo_stats) (prog_init demo_two) p ∧
    HDestroy 1 ∈ trace p ∧ HStart 1 ∉ trace p ∧ ∀ i, HRound i ∈ trace p ∨ HTimer i ∈ trace p → i = 0.
Proof.
  destruct demo_two_tests as (p & Hr & Ht). exists p. split; [exact Hr|].
  destruct (first_test_orderly_later_void (OF := of10) demo_code demo_capture (λ _ _ _, (0, [])) demo_stats
              demo_two p demo_code_flags eq_refl eq_refl Hr) as [_ H2].
  split; [|split; [|exact H2]]; rewrite Ht; [set_solver|]. set_solver.
Defined.
