(* ===== verification/Utils.v ===== *)
(** * The remaining utilities: utils.c

    Allocation, errors that end the program, the hardware address of an
    interface and the hexadecimal dump. *)

From Stdlib Require Import String.
From S2P Require Import Prelude CBytes CStr.
Open Scope Z_scope.

(** [block] is what realloc returns, None for NULL. *)
Definition realloc_and_check (block : option mem) : res mem :=
  match block with Some m => mret m | None => Fault FAbort end.

Definition perror_and_exit {A} (exit_code : Z) : res A := Fault (FExit exit_code).

(** The name is copied into a field of sixteen bytes without a check.  [hwaddr]
    is the kernel's answer to SIOCGIFHWADDR, None when it fails. *)
Definition get_mac_address (socket_ret : Z) (hwaddr : cstring → option (list Z)) (intf_name : cstring)
    (mac_addr : mem) : res (Z * mem) :=
  if socket_ret =? -1 then mret (-1, mac_addr)
  else if 16 <=? zlen intf_name then Fault FBounds
  else match hwaddr intf_name with
       | None => perror_and_exit 1
       | Some sa_data => mac_addr ← wr_cells mac_addr 0 (cells (take 6 sa_data)); mret (0, mac_addr)
       end.

(** %02x *)
Definition hex_digit (d : Z) : Z := if d <? 10 then 48 + d else 87 + d.
Definition hex2 (b : Z) : cstring := [hex_digit (b `div` 16); hex_digit (b `mod` 16)].

(** A line break after sixteen bytes, a blank after eight. *)
Definition hexdump_sep (ix : Z) : cstring :=
  if (0 <? ix) && (ix `mod` 16 =? 0) then [10] else if (0 <? ix) && (ix `mod` 8 =? 0) then [32] else [].

Fixpoint hexdump_from (ix : Z) (data : list Z) : cstring :=
  match data with [] => [] | b :: data => hexdump_sep ix ++ hex2 b ++ hexdump_from (ix + 1) data end.
Definition hexdump (data : mem) (len : Z) : res cstring :=
  bs ← rd_bytes data 0 len; mret (hexdump_from 0 bs).

(** ** The dump can be read back *)

Definition is_sep (c : Z) : bool := (c =? 10) || (c =? 32).
Fixpoint undump (s : cstring) : list Z :=
  match s with
  | a :: s' =>
    if is_sep a then undump s'
    else match s' with
         | b :: s'' =>
           match digit_val a, digit_val b with Some x, Some y => x * 16 + y :: undump s'' | _, _ => [] end
         | [] => []
         end
  | [] => []
  end.

Lemma hex_digit_val d : 0 ≤ d < 16 → digit_val (hex_digit d) = Some d ∧ is_sep (hex_digit d) = false.
Proof.
  intros Hd. unfold hex_digit. destruct (Z.ltb_spec d 10).
  - split; [apply digit_val_dec; lia|]. unfold is_sep. apply orb_false_iff. rewrite !Z.eqb_neq. lia.
  - split; [|unfold is_sep; apply orb_false_iff; rewrite !Z.eqb_neq; lia].
    unfold digit_val. replace ((48 <=? 87 + d) && (87 + d <=? 57)) with false
      by (symmetry; apply andb_false_iff; rewrite !Z.leb_gt; lia).
    replace ((97 <=? 87 + d) && (87 + d <=? 122)) with true
      by (symmetry; apply andb_true_iff; rewrite !Z.leb_le; lia).
    f_equal. lia.
Qed.

Lemma undump_hex2 b s : is_byte b → undump (hex2 b ++ s) = b :: undump s.
Proof.
  unfold is_byte. intros Hb.
  destruct (hex_digit_val (b `div` 16)) as [H1 S1]; [Z.to_euclidean_division_equations; lia|].
  destruct (hex_digit_val (b `mod` 16)) as [H2 _]; [Z.to_euclidean_division_equations; lia|].
  cbn [hex2 app undump]. rewrite S1, H1, H2. f_equal. pose proof (Z.div_mod b 16). lia.
Qed.

Lemma undump_sep ix s : undump (hexdump_sep ix ++ s) = undump s.
Proof. unfold hexdump_sep. by repeat case_match. Qed.

(** Dropping the separators and combining the digits gives the bytes. *)
Lemma undump_hexdump bs ix : Forall is_byte bs → undump (hexdump_from ix bs) = bs.
Proof.
  intros Hall. revert ix. induction Hall as [|b bs Hb _ IH]; intros ix; [done|]. cbn [hexdump_from].
  by rewrite undump_sep, undump_hex2, IH.
Qed.
