(* ===== verification/TestModule.v ===== *)
(** * What test modules share

    The modules under example_modules are written alike: the same parsing of
    the configuration string, the same SNMP requests and handling of replies,
    the same answer to echo requests, the same start of the traffic.  Their
    common code, over the harness. *)

From S2P Require Import Prelude CTime CBytes CStr OpenFlow WcEvent PcapTrack TimerEvent Msg Context Harness.
From S2P Require Import TrafficGen TrafficKernel Utils.
Open Scope Z_scope.

(** ** Names *)

Definition tv0 : timeval := {| tv_sec := 0; tv_usec := 0 |}.

(** The arguments of timers are pointers to strings. *)
Definition BYESTR : Z := 1.
Definition ECHO_REQUEST : Z := 2.
Definition SNMPGET : Z := 3.
Definition SND_FLOW : Z := 4.

Definition GENERIC_MSG : Z := 9.
Definition OFPT_ERROR_MSG : Z := 8.

(** enum oflops_channel_name *)
Definition OFLOPS_DATA1 : Z := 1.
Definition OFLOPS_DATA2 : Z := 2.

(** Printing a string through a NULL pointer is undefined. *)
Definition log_text (now : timeval) (t : option cstring) (s : harness) : res harness :=
  match logger s, t with
  | Some _, None => Fault FNull
  | _, _ => oflops_log now GENERIC_MSG (default [] t) s
  end.

(** The time stamp, or the text, passed to the log was never set. *)
Definition log_unset (s : harness) : res harness :=
  match logger s with None => mret s | Some _ => Fault FUninit end.

(** A line of the log. *)
Definition generic_line (now : timeval) (t : cstring) : cstring := log_line now (str "GENERIC_MSG") t.

Lemma log_generic now t s ls :
  logger s = Some ls → oflops_log now GENERIC_MSG t s = Ok (s <| logger := Some (ls ++ [generic_line now t]) |>).
Proof. intros Hl. unfold oflops_log. by rewrite Hl. Qed.

(** ** Arrays of times *)

(** xmalloc and memset to zero of [n] structures. *)
Definition times_new (n : Z) : list timeval := replicate (Z.to_nat n) tv0.
Definition time_at (l : list timeval) (i : Z) : res timeval :=
  match zget l i with Some t => mret t | None => Fault FBounds end.
Definition time_put (l : list timeval) (i : Z) (t : timeval) : res (list timeval) :=
  match zget l i with Some _ => mret (zset l i t) | None => Fault FBounds end.

(** Only the first time is kept. *)
Definition time_first (l : list timeval) (i : Z) (t : timeval) : res (list timeval) :=
  o ← time_at l i; if tv_sec o =? 0 then time_put l i t else mret l.

(** %lu.%06lu *)
Definition time_text (t : timeval) : cstring :=
  dec (u64 (tv_sec t)) ++ str "." ++ dec_pad 6 (u64 (tv_usec t)).

Section module.
Context {OF : OpenFlow}.

(** ** Messages *)

(** A header of the given type; the transaction id as it lies in memory. *)
Definition echo_message (type : Z) (xid : list Z) : res mem :=
  '(b, _) ← make_ofp_hello;
  b ← wr8 b ofp_header_type type;
  wr_bytes b ofp_header_xid xid.

(** The answer to an echo request: no data, the same transaction id. *)
Definition reply_echo (ofph : mem) (s : harness) : res harness :=
  xid ← rd_bytes ofph ofp_header_xid 4;
  b ← echo_message OFPT_ECHO_REPLY xid;
  '(_, s) ← oflops_send_of_mesgs b sizeof_ofp_hello s;
  mret s.
End module.

(** ** SNMP *)

Section snmp.
Context (snmp_open : option snmp_session → bool) (snmp_pdu_create : list Z → Z) (snmp_send : bool).
Local Notation snmp_get s := (oflops_snmp_get snmp_open snmp_pdu_create snmp_send s).

Fixpoint snmp_get_n (n : nat) (s : harness) : res harness :=
  match n with O => mret s | S n => '(_, s) ← snmp_get s; snmp_get_n n s end.

(** Two requests per channel. *)
Fixpoint snmp_get_channels (n : nat) (i : Z) (s : harness) : res harness :=
  match n with
  | O => mret s
  | S n => _ ← get_channel (ctx s) i; s ← snmp_get_n 2 s; snmp_get_channels n (i + 1) s
  end.

(** The variables of the processor and of every channel. *)
Definition snmp_requests (s : harness) : res harness :=
  s ← snmp_get_n (length (cpuOID (ctx s))) s;
  snmp_get_channels (Z.to_nat (n_channels (ctx s))) 0 s.
End snmp.

(** A variable of an SNMP reply: its name and its printed value. *)
Record snmp_var := { var_name : list Z; var_text : cstring }.

(** Same length and same components. *)
Definition same_oid (v : snmp_var) (o : list (option Z)) (len : Z) : res bool :=
  if zlen (var_name v) =? len then
    c ← rd_cells o 0 len; bs ← bytes_of c; mret (bool_decide (bs = var_name v))
  else mret false.

Fixpoint snmp_cpu (v : snmp_var) (os : list (list (option Z) * Z)) (s : harness) : res harness :=
  match os with
  | [] => mret s
  | (o, len) :: os =>
    same ← same_oid v o len;
    s ← (if (same : bool) then log_unset s else mret s);
    snmp_cpu v os s
  end.

(** The first channel with the name is logged. *)
Fixpoint snmp_ports (v : snmp_var) (n : nat) (i : Z) (s : harness) : res harness :=
  match n with
  | O => mret s
  | S n =>
    x ← get_channel (ctx s) i;
    rx ← same_oid v (inOID x) (inOID_len x);
    if (rx : bool) then _ ← arr_read (outOID x) (outOID_len x - 1); log_unset s
    else
      tx ← same_oid v (outOID x) (outOID_len x);
      if (tx : bool) then _ ← arr_read (outOID x) (outOID_len x - 1); log_unset s
      else snmp_ports v n (i + 1) s
  end.

Fixpoint log_snmp (vars : list snmp_var) (s : harness) : res harness :=
  match vars with
  | [] => mret s
  | v :: vars =>
    s ← snmp_cpu v (cpuOID (ctx s)) s;
    s ← snmp_ports v (Z.to_nat (n_channels (ctx s))) 0 s;
    log_snmp vars s
  end.

(** ** The configuration string *)

(** index(&b[i], c). *)
Fixpoint index_in (b : mem) (c i : Z) : res (option Z) :=
  match b with
  | [] => Fault FBounds
  | None :: _ => Fault FUninit
  | Some x :: b => if x =? c then mret (Some i) else if x =? 0 then mret None else index_in b c (i + 1)
  end.
Definition index_at (b : mem) (c i : Z) : res (option Z) := index_in (drop (Z.to_nat i) b) c i.

Definition text_at (b : mem) (i : Z) : res cstring := c_text (drop (Z.to_nat i) b).

Fixpoint skip_blanks (fuel : nat) (b : mem) (i : Z) : res Z :=
  match fuel with
  | O => Fault FFuel
  | S fuel => x ← rd8 b i; if x =? 32 then skip_blanks fuel b (i + 1) else mret i
  end.

(** The end of the parameter at [i]: the blank, or the byte behind the
    terminator; None when there is no parameter. *)
Definition param_end (b : mem) (i : Z) : res (option Z) :=
  pos ← index_at b 32 i;
  match pos with
  | Some p => mret (Some p)
  | None => x ← rd8 b i; if x =? 0 then mret None else t ← text_at b i; mret (Some (i + zlen t + 1))
  end.

Section params.
Context {M : Type} (set_value : mem → cstring → Z → M → res (mem * M)).

(** The parameters, [name=value], one after the other; [set_value] is given the
    name and the place of the value. *)
Fixpoint param_loop (fuel : nat) (b : mem) (i : Z) (m : M) : res (mem * M) :=
  match fuel with
  | O => Fault FFuel
  | S fuel =>
    pos ← param_end b i;
    match pos with
    | None => mret (b, m)
    | Some pos =>
      b ← wr8 b pos 0;
      value ← index_at b 61 i;
      match value with
      | None => Fault FNull
      | Some v =>
        b ← wr8 b v 0;
        name ← text_at b i;
        '(b, m) ← set_value b name (v + 1) m;
        param_loop fuel b (pos + 1) m
      end
    end
  end.

(** The value as a string. *)
Definition text_value (set_param : cstring → cstring → M → res M) (b : mem) (name : cstring) (v : Z) (m : M) :
    res (mem * M) :=
  value ← text_at b v; m ← set_param name value m; mret (b, m).
End params.

(** [b] is the buffer of the configuration string. *)
Definition read_params {M} (set_param : cstring → cstring → M → res M) (b : mem) (m : M) : res (mem * M) :=
  i ← skip_blanks (S (length b)) b 0;
  param_loop (text_value set_param) (S (length b)) b i m.

(** ** Traffic *)

(** The address of the interface of a channel; it is kept when there is no
    socket. *)
Definition load_mac (ch socket_ret : Z) (hwaddr : cstring → option (list Z)) (mac : mem) (s : harness) : res mem :=
  x ← get_channel (ctx s) ch;
  match dev x with
  | None => if socket_ret =? -1 then mret mac else Fault FNull
  | Some d => '(_, mac) ← get_mac_address socket_ret hwaddr d mac; mret mac
  end.

(** An address in network order, as the number the host reads. *)
Definition inet_ntoa (a : Z) : cstring :=
  match le32 a with
  | [b0; b1; b2; b3] => dec b0 ++ str "." ++ dec b1 ++ str "." ++ dec b2 ++ str "." ++ dec b3
  | _ => []
  end.

(** The address [i] behind [a], in the order of the network: ntohl(htonl(a) + i). *)
Definition addr_plus (a i : Z) : Z := bswap32 (u32 (bswap32 a + i)).

(** The number of the flow a packet belongs to, an int. *)
Definition flow_id (base a : Z) : Z := i32 (u32 (bswap32 a - bswap32 base)).

Definition colon (bs : list Z) : cstring :=
  match bs with
  | [a; b; c; d; e; f] =>
    hex2 a ++ str ":" ++ hex2 b ++ str ":" ++ hex2 c ++ str ":" ++ hex2 d ++ str ":" ++ hex2 e ++ str ":" ++ hex2 f
  | _ => []
  end.

(** %02x of six bytes, in an array of twenty. *)
Definition mac_text (mac : mem) : res cstring := bs ← rd_bytes mac 0 6; mret (snprintf 20 (colon bs)).

(** Only the first data channel is captured. *)
Definition udp_filter (ofc : Z) (buflen : nat) : Z * cstring :=
  if ofc =? OFLOPS_DATA1 then (3, snprintf buflen (str "udp")) else (0, []).

Definition network : cstring := str "192.168.2.0".
#[global] Arguments network : simpl never.

(** The destination of the probes. *)
Definition gateway_mac : list Z := [0x00; 0x15; 0x17; 0x7b; 0x92; 0x0a].

Definition mbits_to_bits : Z := 1024 * 1024.

(** The time between two packets, in microseconds; the number of bytes is 32, the
    rest 64 bits wide. *)
Definition send_interval (pkt_size rate : Z) : res Z :=
  let d := u64 (rate * mbits_to_bits) in
  if d =? 0 then Fault FDivZero else mret (u64 (pkt_size * 8 * 1000000) `div` d).

(** [junk] is what the structure held before: the number of packets is not set. *)
Definition probe_det (inet_addr : cstring → Z) (flows pkt_size interval vlan_id : Z) (mac : mem) (junk : traf_gen_det) (c : oflops_context) :
    res traf_gen_det :=
  text ← (if trafficGen c =? PKTGEN then mret (str "00:00:00:00:00:00") else mac_text mac);
  mret {| src_ip := str "10.1.1.1"; dst_ip_min := network;
          dst_ip_max := inet_ntoa (addr_plus (inet_addr network) (flows - 1));
          mac_dst := str "00:15:17:7b:92:0a"; mac_src := text; udp_src_port := 8080; udp_dst_port := 8080;
          pkt_size := pkt_size; vlan := vlan_id; vlan_p := 0; vlan_cfi := 0; gen_delay := u32 (interval * 1000);
          pkt_count := pkt_count junk; gen_flags := [] |}.

Section traffic.
Context (setuid_ok modprobe_ok : bool) (inet_addr : cstring → Z).
Context (if_index : cstring → option Z) (bind_ok : Z → bool) (exists_ writable : cstring → bool) (nows : Z → timeval).
Context (rands : Z → Z) (nf_rands : Z → Z → Z) (rounds : list tg_round) (nf_rounds : list nf_round).

(** One generator on the first data channel, and the start of the traffic. *)
Definition generate (d : oflops_context → res traf_gen_det) (s : harness) (k : commands) (t : list nf_call) :
    res (option Z * harness * commands * list nf_call) :=
  _ ← init_traf_gen setuid_ok modprobe_ok (ctx s);
  d ← d (ctx s);
  '(_, c) ← add_traffic_generator OFLOPS_DATA1 d (ctx s);
  '(r, s, k, t) ← start_traffic_generator inet_addr if_index bind_ok exists_ writable nows rands nf_rands rounds
                     nf_rounds (s <| ctx := c |>) k t;
  mret (match r with Some _ => Some 1 | None => None end, s, k, t).
End traffic.
