(* ===== verification/EchoModule.v ===== *)
(** * A test module: the echo delay (example_modules/openflow_echo_delay)

    The module measures the control channel with echo requests: a timer sends
    them, with consecutive transaction ids; the capture of the control channel
    gives the times of requests and replies; at the end the delays are logged.
    Its static variables are [echo]; its functions act on them and on the
    harness.  The statistics library and printf's %f are parameters. *)

From S2P Require Import Prelude CTime CBytes CStr OpenFlow WcEvent PcapTrack TimerEvent Msg Context Harness.
From S2P Require Import TrafficGen TrafficKernel Cbench TestModule.
Open Scope Z_scope.

(** ** State *)

(** [struct entry] *)
Record echo_entry := { snd : timeval; rcv : timeval }.
Definition echo_entry0 : echo_entry := {| snd := tv0; rcv := tv0 |}.

(** The static variables; [echo_data] is an array of ECHO_MAX entries that are
    zero until they are written. *)
Record echo := {
  em_delay : Z;
  em_trans_id : Z;
  em_cli_param : option cstring;
  echo_data : gmap Z echo_entry;
  echo_data_count : Z;
}.
#[export] Instance echo_rebuild : Rebuild echo := λ m,
  {| em_delay := em_delay m; em_trans_id := em_trans_id m; em_cli_param := em_cli_param m;
     echo_data := echo_data m; echo_data_count := echo_data_count m |}.

Definition echo0 : echo :=
  {| em_delay := 1000000; em_trans_id := 1; em_cli_param := None; echo_data := ∅; echo_data_count := 0 |}.

Definition ECHO_MAX : Z := 1000000.
Definition echo_at (m : echo) (i : Z) : echo_entry := default echo_entry0 (echo_data m !! i).
Definition echo_read (m : echo) (i : Z) : res echo_entry :=
  if (0 <=? i) && (i <? ECHO_MAX) then Ok (echo_at m i) else Fault FBounds.
Definition echo_write (m : echo) (i : Z) (f : echo_entry → echo_entry) : res echo :=
  e ← echo_read m i; mret (m <| echo_data := <[i := f e]> (echo_data m) |>).

(** ** Names *)

Definition echo_name : cstring := str "openflow_echo_test".

Section echo.
Context {OF : OpenFlow}.

(** ** Starting *)

Definition next_probe (m : echo) (now : timeval) : timeval :=
  add_time now (em_delay m `div` 1000000) (em_delay m `mod` 1000000).

(** The clock gives the time of each reading. *)
Definition echo_start (clock : nat → timeval) (m : echo) (s : harness) : res harness :=
  s ← oflops_log (clock 0%nat) GENERIC_MSG (snprintf 1024 (str "Intializing module " ++ echo_name)) s;
  s ← log_text (clock 0%nat) (em_cli_param m) s;
  '(b, _) ← make_ofp_hello;
  '(_, s) ← oflops_send_of_mesgs b sizeof_ofp_hello s;
  '(b, _) ← make_ofp_flow_del;
  '(_, s) ← oflops_send_of_mesg b s;
  s ← schedule_timer (next_probe m (clock 1%nat)) ECHO_REQUEST s;
  s ← schedule_timer (add_time (clock 2%nat) 1 0) SNMPGET s;
  schedule_timer (add_time (clock 3%nat) 60 0) BYESTR s.

(** ** Timers *)

Definition send_echo (m : echo) (s : harness) : res (echo * harness) :=
  b ← echo_message OFPT_ECHO_REQUEST (be32 (em_trans_id m));
  t ← chk_int (em_trans_id m + 1);
  '(_, s) ← oflops_send_of_mesg b s;
  mret (m <| em_trans_id := t |>, s).

Section snmp.
Context (snmp_open : option snmp_session → bool) (snmp_pdu_create : list Z → Z) (snmp_send : bool).

Definition echo_handle_timer_event (clock nf_clock : timeval) (te : timer_event) (m : echo) (s : harness) :
    res (echo * harness) :=
  if te_arg te =? BYESTR then mret (m, (oflops_end_test 1 s).2)
  else if te_arg te =? ECHO_REQUEST then
    '(m, s) ← send_echo m s;
    s ← schedule_timer (next_probe m (oflops_gettimeofday (ctx s) nf_clock clock)) ECHO_REQUEST s;
    mret (m, s)
  else if te_arg te =? SNMPGET then
    s ← snmp_requests snmp_open snmp_pdu_create snmp_send s;
    s ← schedule_timer (add_time clock 10 0) SNMPGET s;
    mret (m, s)
  else mret (m, s).
End snmp.

(** ** Messages of the switch *)

Definition echo_of_event_other (now : timeval) (ofph : mem) (s : harness) : res harness :=
  type ← rd8 ofph ofp_header_type;
  if type =? OFPT_ERROR then
    t ← rd16be ofph ofp_error_msg_type;
    c ← rd16be ofph ofp_error_msg_code;
    oflops_log now OFPT_ERROR_MSG
      (snprintf 1024 (str "OFPT_ERROR(type: " ++ dec t ++ str ", code: " ++ dec c ++ str ")")) s
  else mret s.

Definition echo_of_event_echo_request (ofph : mem) (s : harness) : res harness := reply_echo ofph s.

Definition echo_handle_snmp_event (vars : list snmp_var) (s : harness) : res harness := log_snmp vars s.

(** ** Traffic *)

Definition echo_handle_traffic_generation (setuid_ok modprobe_ok : bool) (inet_addr : cstring → Z)
    (if_index : cstring → option Z) (bind_ok : Z → bool) (exists_ writable : cstring → bool) (nows : Z → timeval)
    (rands : Z → Z) (nf_rands : Z → Z → Z) (rounds : list tg_round) (nf_rounds : list nf_round)
    (s : harness) (k : commands) (t : list nf_call) : res (option Z * harness * commands * list nf_call) :=
  _ ← init_traf_gen setuid_ok modprobe_ok (ctx s);
  '(r, s, k, t) ← start_traffic_generator inet_addr if_index bind_ok exists_ writable nows rands nf_rands rounds
                     nf_rounds s k t;
  mret (match r with Some _ => Some 1 | None => None end, s, k, t).

(** ** Initialisation *)

(** One parameter, [name=value]. *)
Definition set_param (name value : cstring) (m : echo) : res echo :=
  if bool_decide (name = str "delay") then
    let d := u64 (strtol0 value) in
    if d <=? 100 then Fault (FExit 1) else mret (m <| em_delay := d |>)
  else mret m.

(** [b] is the buffer of the configuration string. *)
Definition echo_init (b : mem) (m : echo) : res (mem * echo) :=
  t ← text_at b 0;
  let m := m <| em_cli_param := Some t |> in
  read_params set_param b m.

Definition echo_get_pcap_filter (ofc : Z) (c : oflops_context) (buflen : nat) : Z * cstring :=
  if ofc =? OFLOPS_CONTROL then
    let t := str "port " ++ dec (listen_port c) in (zlen t, snprintf buflen t)
  else (0, []).

(** ** Captured packets *)

(** The number of an echo message that is one of ours. *)
Definition own_xid (m : echo) (xid : Z) : bool := (xid >? 0) && (xid <=? u32 (em_trans_id m)).

Definition echo_handle_pcap_event (hdr : pcap_pkthdr) (data : mem) (ch : Z) (m : echo) : res echo :=
  if ch =? OFLOPS_CONTROL then
    let ip_p := sizeof_ether_header in
    let len := i32 (caplen hdr) - sizeof_ether_header in
    vi ← rd8 data ip_p;
    let ihl := 4 * Z.land vi 15 in
    if len <? ihl then mret m
    else
      let tcp_p := ip_p + ihl in
      let len := len - ihl in
      d ← rd8 data (tcp_p + 12);
      let doff := 4 * Z.shiftr d 4 in
      if len <? doff then mret m
      else
        let ofph := tcp_p + doff in
        type ← rd8 data (ofph + ofp_header_type);
        if type =? OFPT_ECHO_REQUEST then
          xid ← rd32be data (ofph + ofp_header_xid);
          if own_xid m xid then
            c ← chk_int (echo_data_count m + 1);
            echo_write (m <| echo_data_count := c |>) xid (λ e, {| snd := ts hdr; rcv := rcv e |})
          else mret m
        else if type =? OFPT_ECHO_REPLY then
          xid ← rd32be data (ofph + ofp_header_xid);
          if own_xid m xid then echo_write m xid (λ e, {| snd := snd e; rcv := ts hdr |})
          else mret m
        else mret m
  else mret m.

(** ** The report *)

Section report.
Context {F D : Type} {Fl : Floating F} {Db : Floating D}.
Context (gsl_sort : list D → list D) (gsl_mean gsl_variance gsl_median : list D → D).
Context (to_uint : D → Z) (fmt_f : F → cstring).

Definition echo_line (i : Z) (e : echo_entry) : cstring :=
  snprintf 1024 (str "OFP_ECHO:" ++ dec i ++ str ":" ++ dec (tv_sec (snd e)) ++ str "." ++ dec_pad 6 (tv_usec (snd e)) ++
    str ":" ++ dec (tv_sec (rcv e)) ++ str "." ++ dec_pad 6 (tv_usec (rcv e)) ++ str ":" ++
    dec (i32 (time_diff (snd e) (rcv e)))).

(** Sent and answered. *)
Definition answered (e : echo_entry) : bool := (tv_sec (snd e) >? 0) && (tv_sec (rcv e) >? 0).

(** The loop over the entries: the delays found and the number of losses. *)
Fixpoint echo_lines (n : nat) (i : Z) (now : timeval) (data : list D) (lost : F) (m : echo) (s : harness) :
    res (list D * F * harness) :=
  match n with
  | O => mret (data, lost, s)
  | S n =>
    e ← echo_read m i;
    s ← oflops_log now GENERIC_MSG (echo_line i e) s;
    if answered e then echo_lines n (i + 1) now (data ++ [f_of_Z (time_diff (snd e) (rcv e))]) lost m s
    else echo_lines n (i + 1) now data (f_add lost (f_of_Z 1)) m s
  end.

Definition echo_statistics (data : list D) (lost : F) (total : Z) : cstring :=
  let data := gsl_sort data in
  snprintf 1024 (str "statistics:echo:" ++ dec (to_uint (gsl_mean data)) ++ str ":" ++ dec (to_uint (gsl_median data)) ++
    str ":" ++ dec (to_uint (f_sqrt (gsl_variance data))) ++ str ":" ++ dec (zlen data) ++ str ":" ++
    fmt_f (f_div lost (f_of_Z total))).

Definition echo_destroy (now : timeval) (m : echo) (s : harness) : res harness :=
  '(data, lost, s) ← echo_lines (Z.to_nat (echo_data_count m)) 1 now [] (f_of_Z 0) m s;
  if zlen data >? 0 then oflops_log now GENERIC_MSG (echo_statistics data lost (echo_data_count m)) s
  else mret s.
End report.
End echo.
