(* ===== verification/EchoSpec.v ===== *)
(** * What the echo module measures

    From the packets captured on the control channel to the lines of the log:
    every request's delay is reported, whatever the order in which requests and
    replies were captured. *)

From S2P Require Import Prelude CTime CBytes CStr OpenFlow PcapTrack Context Harness ModuleRunSpec Cbench.
From S2P Require Import TestModule EchoModule.
Open Scope Z_scope.

(** A captured packet and the OpenFlow message it carries. *)
Record capture := { c_hdr : pcap_pkthdr; c_data : mem; c_type : Z; c_xid : Z }.

Section spec.
Context {OF : OpenFlow} {OT : OFTypes OF}.
Implicit Types (m : echo) (c : capture) (cs : list capture) (s : harness).

(** The packet has whole IP and TCP headers, and behind them an OpenFlow header
    with the type and the transaction id. *)
Definition carries c : Prop :=
  ∃ vi d, rd8 (c_data c) 14 = Ok vi ∧
    let ihl := 4 * Z.land vi 15 in let len := i32 (caplen (c_hdr c)) - 14 in
    ihl ≤ len ∧ rd8 (c_data c) (14 + ihl + 12) = Ok d ∧
    let doff := 4 * Z.shiftr d 4 in
    doff ≤ len - ihl ∧ rd8 (c_data c) (14 + ihl + doff + ofp_header_type) = Ok (c_type c) ∧
    rd32be (c_data c) (14 + ihl + doff + ofp_header_xid) = Ok (c_xid c).

Fixpoint capture_all cs m : res echo :=
  match cs with
  | [] => mret m
  | c :: cs => m ← echo_handle_pcap_event (c_hdr c) (c_data c) OFLOPS_CONTROL m; capture_all cs m
  end.

(** ** The entries *)

Definition of_kind (type i : Z) c : bool := (c_type c =? type) && (c_xid c =? i).

(** The time of the last captured message of a type with number [i]. *)
Definition time_from (t : timeval) (type i : Z) cs : timeval :=
  foldl (λ t c, if of_kind type i c then ts (c_hdr c) else t) t cs.
Definition time_of (type i : Z) cs : timeval := time_from tv0 type i cs.
Definition entry_of (i : Z) cs : echo_entry := {| snd := time_of OFPT_ECHO_REQUEST i cs; rcv := time_of OFPT_ECHO_REPLY i cs |}.

(** The numbers of the requests captured. *)
Definition requests cs : list Z := c_xid <$> filter (λ c, c_type c = OFPT_ECHO_REQUEST) cs.

Lemma request_not_reply : OFPT_ECHO_REQUEST ≠ OFPT_ECHO_REPLY.
Proof.
  pose proof of_types_distinct as H. rewrite !NoDup_cons, !not_elem_of_cons in H. by destruct_and?.
Qed.

(** Writing an entry of the array. *)
Lemma echo_write_ok m i f :
  0 ≤ i < ECHO_MAX → ∃ m', echo_write m i f = Ok m' ∧ em_trans_id m' = em_trans_id m ∧
    echo_data_count m' = echo_data_count m ∧
    ∀ j, echo_at m' j = if decide (j = i) then f (echo_at m i) else echo_at m j.
Proof.
  intros Hi. unfold echo_write, echo_read. replace (_ && _) with true by lia. cbn. eexists. split; [done|].
  split_and!; try done. intros j. unfold echo_at. cbn. case_decide as Hj; [subst|]; by simplify_map_eq.
Qed.

(** One captured message of the module's own. *)
Lemma capture_one n m c :
  carries c → em_trans_id m = n + 1 → 0 ≤ n → n + 1 < ECHO_MAX → 0 ≤ echo_data_count m < INT_MAX →
  (c_type c = OFPT_ECHO_REQUEST → 0 < c_xid c ≤ n) →
  ∃ m', echo_handle_pcap_event (c_hdr c) (c_data c) OFLOPS_CONTROL m = Ok m' ∧ em_trans_id m' = n + 1 ∧
    echo_data_count m' = echo_data_count m + (if c_type c =? OFPT_ECHO_REQUEST then 1 else 0) ∧
    ∀ i, 0 < i ≤ n → echo_at m' i =
      {| snd := if of_kind OFPT_ECHO_REQUEST i c then ts (c_hdr c) else snd (echo_at m i);
         rcv := if of_kind OFPT_ECHO_REPLY i c then ts (c_hdr c) else rcv (echo_at m i) |}.
Proof.
  intros (vi & d & Hvi & Hip & Hd & Htcp & Hty & Hx) Htr Hn Hmax Hc Hreq. cbn zeta in *.
  unfold echo_handle_pcap_event. change (OFLOPS_CONTROL =? OFLOPS_CONTROL) with true. cbn iota.
  unfold sizeof_ether_header. rewrite Hvi. cbn [mbind res_bind].
  replace (_ <? 4 * Z.land vi 15) with false by lia. rewrite Hd. cbn [mbind res_bind].
  replace (_ <? 4 * Z.shiftr d 4) with false by lia. rewrite Hty. cbn [mbind res_bind].
  unfold ECHO_MAX in *. assert (u32 (n + 1) = n + 1) as Hu by (apply u32_id; lia).
  unfold of_kind. destruct (c_type c =? OFPT_ECHO_REQUEST) eqn:E1.
  - rewrite Hx. cbn [mbind res_bind]. unfold own_xid. rewrite Htr, Hu.
    specialize (Hreq (proj1 (Z.eqb_eq _ _) E1)). replace (_ && _) with true by lia.
    rewrite chk_int_ok by (unfold is_int, INT_MIN, INT_MAX in *; lia). cbn [mbind res_bind].
    destruct (echo_write_ok (m <| echo_data_count := echo_data_count m + 1 |>) (c_xid c)
                (λ e, {| snd := ts (c_hdr c); rcv := rcv e |})) as (m' & Hw & Ht & Hcnt & Hat); [unfold ECHO_MAX; lia|].
    exists m'. split; [exact Hw|]. split; [by rewrite Ht|]. split; [by rewrite Hcnt|].
    intros i Hi. rewrite Hat. replace (c_type c =? OFPT_ECHO_REPLY) with false by (pose proof request_not_reply; lia).
    cbn [andb]. destruct (decide (i = c_xid c)) as [->|Hne]; [by rewrite Z.eqb_refl|].
    replace (c_xid c =? i) with false by lia. change (echo_at _ i) with (echo_at m i). by destruct (echo_at m i).
  - cbn [andb]. destruct (c_type c =? OFPT_ECHO_REPLY) eqn:E2; cbn [andb].
    2: { exists m. split_and!; [done..|lia|]. intros i _. by destruct (echo_at m i). }
    rewrite Hx. cbn [mbind res_bind]. unfold own_xid. rewrite Htr, Hu.
    destruct ((c_xid c >? 0) && (c_xid c <=? n + 1)) eqn:E3.
    + destruct (echo_write_ok m (c_xid c) (λ e, {| snd := snd e; rcv := ts (c_hdr c) |})) as (m' & Hw & Ht & Hcnt & Hat);
        [unfold ECHO_MAX; lia|].
      exists m'. split; [exact Hw|]. split; [by rewrite Ht|]. split; [rewrite Hcnt; lia|].
      intros i Hi. rewrite Hat. destruct (decide (i = c_xid c)) as [->|Hne]; [by rewrite Z.eqb_refl|].
      replace (c_xid c =? i) with false by lia. by destruct (echo_at m i).
    + exists m. split_and!; [done..|lia|]. intros i Hi. replace (c_xid c =? i) with false by lia.
      by destruct (echo_at m i).
Qed.

Lemma capture_all_entries n cs m :
  Forall carries cs → em_trans_id m = n + 1 → 0 ≤ n → n + 1 < ECHO_MAX →
  0 ≤ echo_data_count m → echo_data_count m + zlen (requests cs) < INT_MAX →
  Forall (λ i, 0 < i ≤ n) (requests cs) →
  ∃ m', capture_all cs m = Ok m' ∧ echo_data_count m' = echo_data_count m + zlen (requests cs) ∧
    ∀ i, 0 < i ≤ n → echo_at m' i =
      {| snd := time_from (snd (echo_at m i)) OFPT_ECHO_REQUEST i cs;
         rcv := time_from (rcv (echo_at m i)) OFPT_ECHO_REPLY i cs |}.
Proof.
  intros Hcs. revert m. induction Hcs as [|c cs Hc _ IH]; intros m Htr Hn Hmax Hc0 Hlen Hreq.
  { exists m. change (zlen (requests [])) with 0. split_and!; [done|lia|]. intros i _. by destruct (echo_at m i). }
  assert (requests (c :: cs) = (if c_type c =? OFPT_ECHO_REQUEST then [c_xid c] else []) ++ requests cs) as Hr.
  { unfold requests. rewrite filter_cons. destruct (Z.eqb_spec (c_type c) OFPT_ECHO_REQUEST);
      [by rewrite decide_True|by rewrite decide_False]. }
  rewrite Hr in *. rewrite zlen_app in *. apply Forall_app in Hreq as [Hreq1 Hreq2].
  pose proof (zlen_nonneg (requests cs)).
  assert (zlen (if c_type c =? OFPT_ECHO_REQUEST then [c_xid c] else []) =
          if c_type c =? OFPT_ECHO_REQUEST then 1 else 0) as Hz by (by destruct (_ =? _)).
  rewrite Hz in *. clear Hr Hz.
  destruct (capture_one n m c Hc Htr Hn Hmax) as (m1 & H1 & Htr1 & Hc1 & Hat1).
  { destruct (_ =? _); lia. }
  { intros E. rewrite E, Z.eqb_refl in Hreq1. cbn in Hreq1. exact (proj1 (Forall_singleton _ _) Hreq1). }
  destruct (IH m1) as (m' & Hm' & Hc' & Hat'); [done..|rewrite Hc1; destruct (_ =? _); lia|rewrite Hc1; lia|done|].
  exists m'. cbn [capture_all]. rewrite H1. cbn [mbind res_bind]. split; [done|]. split; [rewrite Hc', Hc1; lia|].
  intros i Hi. rewrite (Hat' i Hi), (Hat1 i Hi). done.
Qed.

(** ** The lines *)

(** An echo request carries the next number, and numbers follow each other. *)
Lemma send_echo_numbers {OL : OFLayout OF} m s :
  fluid_control (ctx s) ≠ 0 → 0 ≤ em_trans_id m < INT_MAX →
  send_echo m s = Ok (m <| em_trans_id := em_trans_id m + 1 |>,
    s <| control_out := control_out s ++
           [[u8 OFP_VERSION; u8 OFPT_ECHO_REQUEST; 0; 8] ++ be32 (em_trans_id m)] |>).
Proof.
  intros Hf Ht. unfold send_echo, echo_message, Msg.make_ofp_hello, Msg.ofp_init. of_layout. cbn -[be32 chk_int].
  unfold be32 at 1, be16 at 1 2. cbn -[be32 chk_int].
  rewrite chk_int_ok by (unfold is_int, INT_MIN, INT_MAX in *; lia). cbn -[be32].
  unfold oflops_send_of_mesg, oflops_send_of_mesgs, write_oflops_control. of_layout. cbn -[be32].
  apply Z.eqb_neq in Hf. rewrite Hf. done.
Qed.

Section report.
Context {F D : Type} {Fl : Floating F} {Db : Floating D}.
Context (gsl_sort : list D → list D) (gsl_mean gsl_variance gsl_median : list D → D).
Context (to_uint : D → Z) (fmt_f : F → cstring).
Local Notation echo_lines := (echo_lines (F := F) (D := D)).

(** The delays of the answered requests, and the losses counted in floating
    point. *)
Definition delays (es : list echo_entry) : list D :=
  (λ e, f_of_Z (time_diff (snd e) (rcv e))) <$> filter (λ e, answered e = true) es.
Definition losses (lost : F) (es : list echo_entry) : F :=
  foldl (λ l _, f_add l (f_of_Z 1)) lost (filter (λ e, answered e = false) es).

Lemma echo_lines_spec k i now data lost m s ls :
  logger s = Some ls → 0 ≤ i → i + Z.of_nat k ≤ ECHO_MAX →
  let es := echo_at m <$> seqZ i (Z.of_nat k) in
  echo_lines k i now data lost m s =
    Ok (data ++ delays es, losses lost es,
        s <| logger := Some (ls ++ zip_with (λ j e, generic_line now (echo_line j e)) (seqZ i (Z.of_nat k)) es) |>).
Proof.
  revert i data lost s ls. induction k as [|k IH]; intros i data lost s ls Hl Hi Hk; cbn zeta.
  { cbn. rewrite !app_nil_r. f_equal. f_equal. destruct s. cbn in *. by rewrite Hl. }
  rewrite Nat2Z.inj_succ, seqZ_cons by lia. replace (Z.pred (Z.succ (Z.of_nat k))) with (Z.of_nat k) by lia.
  cbn [EchoModule.echo_lines]. unfold echo_read. replace (_ && _) with true by lia. cbn [mbind res_bind].
  rewrite (log_generic _ _ _ _ Hl). cbn [mbind res_bind fmap list_fmap zip_with].
  replace (Z.succ i) with (i + 1) by lia. unfold delays, losses. rewrite !filter_cons.
  destruct (answered (echo_at m i)) eqn:E.
  - rewrite (IH (i + 1) _ _ _ (ls ++ [generic_line now (echo_line i (echo_at m i))])) by (done || lia).
    rewrite decide_True, decide_False by done. cbn [fmap list_fmap].
    unfold delays, losses. by rewrite <-!app_assoc.
  - rewrite (IH (i + 1) _ _ _ (ls ++ [generic_line now (echo_line i (echo_at m i))])) by (done || lia).
    rewrite decide_False, decide_True by done. cbn [foldl].
    unfold delays, losses. by rewrite <-!app_assoc.
Qed.

(** The report after [n] requests, all of them captured: a line for each, and
    the statistics unless none was answered. *)
Definition report (now : timeval) (n : Z) cs : list cstring :=
  let es := (λ i, entry_of i cs) <$> seqZ 1 n in
  zip_with (λ i e, generic_line now (echo_line i e)) (seqZ 1 n) es ++
  match delays es with
  | [] => []
  | ds => [generic_line now (echo_statistics gsl_sort gsl_mean gsl_variance gsl_median to_uint fmt_f ds
                               (losses (f_of_Z 0) es) n)]
  end.

(** C28. The echo module from capture to log.  After [n] requests were sent, each
    of them captured once, in any order and interleaved with any number of
    replies and other messages, the module logs for every request the times of
    request and reply and the delay between them, unanswered requests included,
    and one line of statistics (mean, median, standard deviation, number, share of
    the requests lost), over exactly the answered ones. *)
Theorem echo_delays_reported n cs m s now ls :
  Forall carries cs → requests cs ≡ₚ seqZ 1 n → 0 ≤ n → n + 1 < ECHO_MAX →
  em_trans_id m = n + 1 → echo_data m = ∅ → echo_data_count m = 0 → logger s = Some ls →
  ∃ m' s', capture_all cs m = Ok m' ∧
    echo_destroy gsl_sort gsl_mean gsl_variance gsl_median to_uint fmt_f now m' s = Ok s' ∧
    logger s' = Some (ls ++ report now n cs).
Proof.
  intros Hcs Hreq Hn Hmax Htr Hd Hc Hl.
  assert (zlen (requests cs) = n) as Hlen.
  { unfold zlen. rewrite Hreq, length_seqZ. lia. }
  destruct (capture_all_entries n cs m) as (m' & Hm' & Hc' & Hat); try done; [lia|unfold ECHO_MAX, INT_MAX in *; lia|..].
  { apply Forall_forall. intros i. rewrite Hreq, elem_of_seqZ. lia. }
  rewrite Hc, Hlen, Z.add_0_l in Hc'.
  assert (echo_at m' <$> seqZ 1 n = (λ i, entry_of i cs) <$> seqZ 1 n) as Hes.
  { apply list_fmap_ext. intros k i Hk. apply list_elem_of_lookup_2, elem_of_seqZ in Hk. rewrite Hat by lia.
    unfold echo_at, entry_of, time_of. by rewrite Hd, lookup_empty. }
  exists m'. unfold echo_destroy. rewrite Hc'.
  rewrite (echo_lines_spec _ _ _ _ _ _ _ ls) by (done || lia). rewrite Z2Nat.id, Hes by lia. cbn [mbind res_bind app].
  unfold report. set (es := (λ i, entry_of i cs) <$> seqZ 1 n). clearbody es.
  destruct (delays es) as [|d ds] eqn:Ed.
  - cbn. eexists. split_and!; [done..|]. by rewrite app_nil_r.
  - replace (zlen (d :: ds) >? 0) with true by (symmetry; apply Z.gtb_lt; unfold zlen; cbn [length]; lia).
    erewrite log_generic by done. eexists. split_and!; [done..|]. cbn. by rewrite <-app_assoc.
Qed.
End report.
End spec.

(** ** A run *)

(** Integer arithmetic in place of floating point. *)
#[local] Instance integers : Floating Z := {
  f_of_Z z := z; f_add := Z.add; f_sub := Z.sub; f_mul := Z.mul; f_div := Z.quot; f_lt := Z.ltb;
  f_pow2 z := z * z; f_sqrt := Z.sqrt; f_max := 2^63 - 1;
}.

(** A packet of the control channel: Ethernet, IP and TCP headers without
    options, and an OpenFlow header. *)
Definition demo_packet (type xid : Z) : mem :=
  cells (replicate 14 7 ++ 69 :: replicate 19 8 ++ replicate 12 9 ++ 80 :: replicate 7 10 ++
         [1; type; 0; 8] ++ be32 xid).
Definition demo_capture_at (type xid sec usec : Z) : capture :=
  {| c_hdr := {| ts := {| tv_sec := sec; tv_usec := usec |}; caplen := 62; pkt_len := 62 |};
     c_data := demo_packet type xid; c_type := type; c_xid := xid |}.

(** Two requests, captured in the wrong order; the second is never answered. *)
Definition demo_captures : list capture :=
  [demo_capture_at 2 2 11 0; demo_capture_at 2 1 10 5; demo_capture_at 0 9 10 6; demo_capture_at 3 1 10 905].

Definition demo_echo : echo := echo0 <| em_trans_id := 3 |>.

Definition demo_log : harness := demo_harness PCAP [] <| logger := Some [] |>.

Lemma demo_captures_carry : Forall (carries (OF := of10)) demo_captures.
Proof.
  repeat constructor; eexists 69, 80; (split; [vm_compute; reflexivity|]); cbn zeta;
    (split; [vm_compute; congruence|]); (split; [vm_compute; reflexivity|]);
    (split; [vm_compute; congruence|]); split; vm_compute; reflexivity.
Qed.

Lemma echo_delays_reported_witness :
  ∃ m' s', capture_all (OF := of10) demo_captures demo_echo = Ok m' ∧
    echo_destroy (F := Z) (D := Z) id (λ _, 900) (λ _, 0) (λ _, 900) id dec tv0 m' demo_log = Ok s' ∧
    logger s' = Some [str "0.000000:GENERIC_MSG:OFP_ECHO:1:10.000005:10.000905:900";
                      str "0.000000:GENERIC_MSG:OFP_ECHO:2:11.000000:0.000000:-11000000";
                      str "0.000000:GENERIC_MSG:statistics:echo:900:900:0:1:0"].
Proof.
  destruct (echo_delays_reported (OF := of10) (F := Z) (D := Z) id (λ _, 900) (λ _, 0) (λ _, 900) id dec
              2 demo_captures demo_echo demo_log tv0 [])
    as (m' & s' & H1 & H2 & H3); [exact demo_captures_carry|apply Permutation_swap|lia|done..|].
  exists m', s'. split; [exact H1|]. split; [exact H2|]. rewrite H3. vm_compute. reflexivity.
Defined.

(** ** Initialisation *)

(** A blank behind the last parameter: the delay is taken. *)
Example demo_init_blank :
  ('(_, m) ← echo_init (cells (str " delay=500 ") ++ cells [0; 0; 0]) echo0; mret (em_delay m)) = Ok 500.
Proof. vm_compute. reflexivity. Qed.

(** Without it, the module goes on two bytes behind the end of its string. *)
Example demo_init_beyond :
  echo_init (cells (str " delay=500") ++ cells [0] ++ mem_new 10) echo0 = Fault FUninit ∧
  echo_init (cells (str "delay=500") ++ cells [0; 0] ++ cells (str "x") ++ cells [0]) echo0 = Fault FBounds.
Proof. split; vm_compute; reflexivity. Qed.

(** A parameter without a value. *)
Example demo_init_novalue : echo_init (cells (str "delay ") ++ cells [0; 0; 0]) echo0 = Fault FNull.
Proof. vm_compute. reflexivity. Qed.
