(* ===== verification/DebugModule.v ===== *)
(** * The debugging module (example_modules/oflops_debug)

    A module without state of its own, as an instance of the code that the
    harness calls.  It meets what the harness asks of modules: the hooks it
    uses leave the flags of the threads and the capture descriptors alone. *)

From S2P Require Import Prelude CTime CBytes CStr OpenFlow WcEvent PcapTrack TimerEvent Context Harness.
From S2P Require Import ModuleDefault ModuleRun ModuleRunSpec Oflops OflopsSpec TestModule.
Open Scope Z_scope.

(** Pointers to the strings the timers carry. *)
Definition SEC1 : Z := 11.
Definition SEC2 : Z := 12.
Definition SEC3 : Z := 13.
Definition SEC4 : Z := 14.
Definition DEBUG_BYESTR : Z := 15.

Definition HISTR : cstring := str "Oh... hello there".

Section debug.
Context {OF : OpenFlow} (if_index : cstring → option Z) (bind_ok : Z → bool).
(** The clock, and the copies of tracked messages. *)
Context (clock : timeval) (h : pheap).

(** now.tv_sec ++ *)
Definition one_later (t : timeval) : timeval := {| tv_sec := i64 (tv_sec t + 1); tv_usec := tv_usec t |}.

Definition debug_header (type : Z) : res mem :=
  b ← wr16be (mem_new sizeof_ofp_header) ofp_header_length sizeof_ofp_header;
  b ← wr32le b ofp_header_xid 0;
  b ← wr8 b ofp_header_type type;
  wr8 b ofp_header_version OFP_VERSION.

(** The frame sent on two data channels, in a cleared buffer. *)
Definition debug_frame : res mem :=
  b ← wr8 (mem_zero 4096) 5 2;
  b ← wr8 b 11 1;
  b ← wr16be b 12 12345;
  wr_bytes b sizeof_ether_header HISTR.

Definition debug_start (s : harness) : res harness :=
  let t1 := one_later clock in
  s ← schedule_timer t1 SEC1 s;
  let t2 := one_later t1 in
  s ← schedule_timer t2 SEC2 s;
  let t3 := one_later t2 in
  s ← schedule_timer t3 SEC3 s;
  let t4 := one_later t3 in
  s ← schedule_timer t4 SEC4 s;
  s ← schedule_timer (one_later t4) DEBUG_BYESTR s;
  b ← debug_header OFPT_HELLO;
  '(_, s) ← oflops_send_of_mesg b s;
  b ← debug_header OFPT_FEATURES_REQUEST;
  '(_, s) ← oflops_send_of_mesg b s;
  b ← debug_frame;
  '(_, s) ← oflops_send_raw_mesg if_index bind_ok OFLOPS_DATA1 b 64 s;
  '(_, s) ← oflops_send_raw_mesg if_index bind_ok OFLOPS_DATA2 b 64 s;
  mret s.

Definition debug_handle_timer_event (te : timer_event) (s : harness) : res harness :=
  if te_arg te =? DEBUG_BYESTR then mret (oflops_end_test 1 s).2 else mret s.

Definition debug_of_event_packet_in (ofph : mem) (s : harness) : res harness :=
  len ← rd16be ofph ofp_header_length;
  '(_, s) ← oflops_get_timestamp h ofph len OFLOPS_CONTROL s;
  mret s.

(** The functions the library exports; the harness has defaults for the others. *)
Definition debug_code (handle : Z) (cb : callback) (s : harness) : res harness :=
  match cb with
  | CbStart => debug_start s
  | CbTimerEvent te => debug_handle_timer_event te s
  | CbPacketIn ofph => debug_of_event_packet_in ofph s
  | _ => mret s
  end.

(** ** What the hooks leave alone *)

Definition undisturbed (s s' : harness) : Prop :=
  flags s' = flags s ∧ fd_view (ctx s') = fd_view (ctx s).

#[local] Instance undisturbed_preorder : PreOrder undisturbed.
Proof. split; unfold undisturbed; [done|]. intros s1 s2 s3 [-> ->] [-> ->]. done. Qed.

Lemma schedule_timer_undisturbed tv arg s s' : schedule_timer tv arg s = Ok s' → undisturbed s s'.
Proof.
  unfold schedule_timer. destruct (timers s); [|done]. intros H. res_inv. destruct x as [[i g] q]. by res_inv.
Qed.

Lemma send_of_mesg_undisturbed b s x s' : oflops_send_of_mesg b s = Ok (x, s') → undisturbed s s'.
Proof.
  unfold oflops_send_of_mesg, oflops_send_of_mesgs, write_oflops_control. intros H. by res_inv.
Qed.

Lemma raw_fd_undisturbed ch s fd s' : oflops_get_channel_raw_fd if_index bind_ok ch s = Ok (fd, s') → undisturbed s s'.
Proof.
  unfold oflops_get_channel_raw_fd, take_socket. intros H.
  destruct (_ >=? _); [by res_inv|]. apply bind_Ok in H as (x & Hx & H). destruct (negb _); [by res_inv|].
  destruct (sockets s) as [|f r]; res_inv; (split; [done|]); cbn; by eapply fd_view_put.
Qed.

Lemma send_raw_undisturbed ch b n s x s' :
  oflops_send_raw_mesg if_index bind_ok ch b n s = Ok (x, s') → undisturbed s s'.
Proof.
  unfold oflops_send_raw_mesg. intros H. apply bind_Ok in H as ([fd s1] & H1 & H). apply raw_fd_undisturbed in H1.
  etrans; [exact H1|]. apply bind_Ok in H as (ch1 & _ & H). apply bind_Ok in H as (bs & _ & H).
  destruct (writes s1) as [|r rs]; [|destruct (r >=? 0)]; by injection H as _ <-.
Qed.

Lemma end_test_undisturbed c s : undisturbed s (oflops_end_test c s).2.
Proof. unfold oflops_end_test. cbn. by destruct (_ =? PKTGEN). Qed.

Lemma get_timestamp_undisturbed data n c s x s' :
  oflops_get_timestamp h data n c s = Ok (x, s') → undisturbed s s'.
Proof.
  unfold oflops_get_timestamp. intros H. apply bind_Ok in H as (ch & Hch & H).
  destruct (timestamps ch); [|by res_inv]. apply bind_Ok in H as ([hdr t] & _ & H). injection H as <- <-.
  split; [done|]. cbn. by eapply fd_view_put.
Qed.

Lemma debug_undisturbed handle cb s s' : debug_code handle cb s = Ok s' → undisturbed s s'.
Proof.
  destruct cb; cbn; intros H; try by injection H as <-.
  - unfold debug_start in H. cbn zeta in H.
    repeat (apply bind_Ok in H as (? & ?%schedule_timer_undisturbed & H)).
    apply bind_Ok in H as (b1 & _ & H). apply bind_Ok in H as ([? ?] & ?%send_of_mesg_undisturbed & H).
    apply bind_Ok in H as (b2 & _ & H). apply bind_Ok in H as ([? ?] & ?%send_of_mesg_undisturbed & H).
    apply bind_Ok in H as (b3 & _ & H). apply bind_Ok in H as ([? ?] & ?%send_raw_undisturbed & H).
    apply bind_Ok in H as ([? ?] & ?%send_raw_undisturbed & H). injection H as <-.
    repeat (etrans; [eassumption|]). done.
  - apply bind_Ok in H as (n & _ & H). apply bind_Ok in H as ([? ?] & ?%get_timestamp_undisturbed & H).
    by injection H as <-.
  - unfold debug_handle_timer_event in H. destruct (_ =? _); injection H as <-; [apply end_test_undisturbed|done].
Qed.

Lemma debug_keeps_flags : keeps_flags debug_code.
Proof. intros handle cb s s' H. by apply debug_undisturbed in H as []. Qed.

Lemma debug_keeps_fds : keeps_fds debug_code.
Proof. intros handle cb s s' H. by apply debug_undisturbed in H as []. Qed.

(** A program whose tests run this module goes through the life of a test in
    order. *)
Lemma debug_life E module_filter S s p :
  flags s = (0, 0) → rtc (prog_step debug_code E module_filter S) (prog_init s) p → life p.
Proof. apply reach_life. exact debug_keeps_flags. Qed.
End debug.
