(* ===== verification/CFloat.v ===== *)
(** * float and double

    The floating-point arithmetic of C as the IEEE 754 formats binary32 and
    binary64, from the Standard Library's specification of them: every operation
    rounds to nearest.  Converting a value that is out of range to an unsigned
    integer has no defined result in C; the value it gives is a parameter. *)

From Stdlib Require Import SpecFloat.
From S2P Require Import Prelude.
Open Scope Z_scope.

(** ** Operations *)

Definition f32_of_Z (n : Z) : spec_float := binary_normalize 24 128 n 0 false.
Definition f64_of_Z (n : Z) : spec_float := binary_normalize 53 1024 n 0 false.

(** Conversion between the formats. *)
Definition sf_cvt (prec emax : Z) (x : spec_float) : spec_float :=
  match x with S754_finite s m e => binary_round prec emax s m e | _ => x end.
Definition f32_of (x : spec_float) : spec_float := sf_cvt 24 128 x.
Definition f64_of (x : spec_float) : spec_float := sf_cvt 53 1024 x.

Definition f32_mul := SFmul 24 128.
Definition f32_div := SFdiv 24 128.
Definition f32_add := SFadd 24 128.
Definition f64_add := SFadd 53 1024.
Definition f64_sub := SFsub 53 1024.
Definition f64_mul := SFmul 53 1024.
Definition f64_div := SFdiv 53 1024.

(** floor and ceil of a double. *)
Definition signed_mantissa (s : bool) (m : positive) : Z := if s then Zneg m else Zpos m.
Definition sf_floor (x : spec_float) : spec_float :=
  match x with
  | S754_finite s m e =>
    if 0 <=? e then x else binary_normalize 53 1024 (signed_mantissa s m `div` 2^(-e)) 0 s
  | _ => x
  end.
Definition sf_ceil (x : spec_float) : spec_float :=
  match x with
  | S754_finite s m e =>
    if 0 <=? e then x else binary_normalize 53 1024 (- ((- signed_mantissa s m) `div` 2^(-e))) 0 s
  | _ => x
  end.

(** The integer part; None for infinities and NaN. *)
Definition sf_trunc (x : spec_float) : option Z :=
  match x with
  | S754_zero _ => Some 0
  | S754_finite s m e =>
    Some (if 0 <=? e then signed_mantissa s m * 2^e else signed_mantissa s m `quot` 2^(-e))
  | _ => None
  end.

(** Conversion to uint32_t. *)
Definition u32_of_float (oor : spec_float → Z) (x : spec_float) : Z :=
  match sf_trunc x with
  | Some z => if (0 <=? z) && (z <? 2^32) then z else u32 (oor x)
  | None => u32 (oor x)
  end.

Lemma u32_of_float_range oor x : 0 ≤ u32_of_float oor x < 2^32.
Proof.
  unfold u32_of_float, u32. pose proof (Z.mod_pos_bound (oor x) (2^32)).
  repeat case_match; rewrite ?andb_true_iff, ?Z.leb_le, ?Z.ltb_lt in *; lia.
Qed.

(** ** Exact operations *)

Lemma digits2_log p : Zpos (digits2_pos p) = Z.log2 (Zpos p) + 1.
Proof.
  induction p as [p IH|p IH|]; [| |done]; cbn [digits2_pos]; rewrite Pos2Z.inj_succ, IH.
  - rewrite (Pos2Z.inj_xI p), Z.log2_succ_double by lia. lia.
  - rewrite (Pos2Z.inj_xO p), Z.log2_double by lia. lia.
Qed.

Lemma iter_xO p k : Zpos (Pos.iter xO p k) = Zpos p * 2^Zpos k.
Proof.
  induction k using Pos.peano_ind; [cbn; lia|].
  rewrite Pos.iter_succ, Pos2Z.inj_xO, IHk, Pos2Z.inj_succ, Z.pow_succ_r by lia. lia.
Qed.

(** A right shift by a number of bits. *)
Lemma iter_shr_m p mrs : 0 ≤ shr_m mrs → shr_m (SpecFloat.iter_pos shr_1 p mrs) = shr_m mrs `div` 2^Zpos p.
Proof.
  assert (∀ mrs, 0 ≤ shr_m mrs → shr_m (shr_1 mrs) = shr_m mrs `div` 2) as H1.
  { intros [[|[q|q|]|q] r t]; cbn [shr_m shr_1]; intros; try done; try lia.
    - rewrite (Pos2Z.inj_xI q). Z.to_euclidean_division_equations; lia.
    - rewrite (Pos2Z.inj_xO q). Z.to_euclidean_division_equations; lia. }
  assert (∀ m q, 0 ≤ m → 0 ≤ m `div` 2^Zpos q) as H0.
  { intros. apply Z.div_pos; [done|apply Z.pow_pos_nonneg; lia]. }
  revert mrs. induction p as [p IH|p IH|]; intros mrs Hm; cbn [SpecFloat.iter_pos].
  - assert (0 ≤ shr_m mrs `div` 2) by (apply Z.div_pos; lia).
    rewrite IH; [|rewrite IH by (rewrite H1; done); rewrite H1 by done; by apply H0].
    rewrite IH by (rewrite H1; done). rewrite H1 by done.
    rewrite !Z.div_div by (try apply Z.pow_pos_nonneg; lia).
    f_equal. rewrite (Pos2Z.inj_xI p), Z.pow_add_r, Z.pow_twice_r by lia. lia.
  - rewrite IH by (rewrite IH by done; by apply H0). rewrite IH by done.
    rewrite Z.div_div by (try apply Z.pow_pos_nonneg; lia). f_equal.
    rewrite (Pos2Z.inj_xO p), Z.pow_twice_r. done.
  - by rewrite H1.
Qed.

Lemma iter_shr_exact p m :
  SpecFloat.iter_pos shr_1 p (Build_shr_record (Zpos m * 2^Zpos p) false false) = Build_shr_record (Zpos m) false false.
Proof.
  assert (∀ m, shr_1 (Build_shr_record (Zpos m * 2) false false) = Build_shr_record (Zpos m) false false) as H1
    by (intros q; by rewrite Z.mul_comm).
  revert m. induction p as [p IH|p IH|]; intros m; cbn [SpecFloat.iter_pos].
  - rewrite (Pos2Z.inj_xI p), Z.pow_add_r, Z.pow_twice_r by lia.
    replace (Zpos m * (2^Zpos p * 2^Zpos p * 2^1)) with (Zpos m * 2^Zpos p * 2^Zpos p * 2) by lia.
    rewrite <-!iter_xO, H1, iter_xO, IH, iter_xO. apply IH.
  - rewrite (Pos2Z.inj_xO p), Z.pow_twice_r, Z.mul_assoc, <-iter_xO, IH, iter_xO. apply IH.
  - apply H1.
Qed.

Section exact.
Context (prec emax : Z).
Hypothesis prec_ok : 2 ≤ prec.
Hypothesis emax_ok : prec + 3 ≤ emax.

Lemma emin_low : emin prec emax ≤ - prec.
Proof. unfold emin. lia. Qed.

Lemma shr_fexp_aligned m e : Zpos (digits2_pos m) = prec → emin prec emax ≤ e →
  shr_fexp prec emax (Zpos m) e loc_Exact = (Build_shr_record (Zpos m) false false, e).
Proof.
  intros Hd He. unfold shr_fexp, fexp. cbn [Zdigits2 shr_record_of_loc]. rewrite Hd.
  rewrite Z.max_l by lia. replace (prec + e - prec - e) with 0 by lia. done.
Qed.

(** A mantissa of the full width is not rounded. *)
Lemma round_aligned s m e : Zpos (digits2_pos m) = prec → emin prec emax ≤ e ≤ emax - prec →
  binary_round_aux prec emax s (Zpos m) e loc_Exact = S754_finite s m e.
Proof.
  intros Hd He. unfold binary_round_aux. rewrite shr_fexp_aligned by (done || lia). cbn [shr_m loc_of_shr_record round_nearest_even].
  rewrite shr_fexp_aligned by (done || lia). cbn [shr_m]. by rewrite (proj2 (Z.leb_le _ _)) by lia.
Qed.

(** An even mantissa that is one bit too wide loses only that bit. *)
Lemma round_even s m e : Zpos (digits2_pos m) = prec → emin prec emax ≤ e → e + 1 ≤ emax - prec →
  binary_round_aux prec emax s (Zpos m~0) e loc_Exact = S754_finite s m (e + 1).
Proof.
  intros Hd He Hx. unfold binary_round_aux.
  assert (shr_fexp prec emax (Zpos m~0) e loc_Exact = (Build_shr_record (Zpos m) false false, e + 1)) as ->.
  { unfold shr_fexp, fexp. cbn [Zdigits2 digits2_pos shr_record_of_loc]. rewrite Pos2Z.inj_succ, Hd.
    rewrite Z.max_l by lia. replace (Z.succ prec + e - prec - e) with 1 by lia. done. }
  cbn [shr_m loc_of_shr_record round_nearest_even].
  rewrite shr_fexp_aligned by (done || lia). cbn [shr_m]. by rewrite (proj2 (Z.leb_le _ _)) by lia.
Qed.

(** A narrower mantissa is only shifted. *)
Lemma round_narrow s p e (k := prec - Zpos (digits2_pos p)) :
  0 ≤ k → emin prec emax ≤ e - k → e - k ≤ emax - prec →
  ∃ m, binary_round prec emax s p e = S754_finite s m (e - k) ∧ Zpos m = Zpos p * 2^k
    ∧ Zpos (digits2_pos m) = prec.
Proof.
  intros Hk Hlo Hhi. unfold binary_round, fexp, shl_align.
  rewrite Z.max_l by (subst k; lia).
  replace (Zpos (digits2_pos p) + e - prec - e) with (- k) by (subst k; lia).
  replace (Zpos (digits2_pos p) + e - prec) with (e - k) by (subst k; lia).
  destruct k as [|k'|k'] eqn:Hkeq; [| |lia].
  - change (- 0) with 0. cbv beta iota. exists p. rewrite Z.sub_0_r in *. rewrite round_aligned by (subst k; lia). split_and!; [done|lia|subst k; lia].
  - change (- Zpos k') with (Zneg k'). cbv beta iota.
    assert (Zpos (digits2_pos (Pos.iter xO p k')) = prec) as Hd.
    { rewrite digits2_log, iter_xO, Z.log2_mul_pow2 by lia. pose proof (digits2_log p). subst k. lia. }
    eexists. rewrite round_aligned by (done || lia). split_and!; [done|by rewrite iter_xO|done].
Qed.

(** Dividing by a power of two changes the exponent only. *)
Lemma div_pow2 s m e d e2 :
  Zpos (digits2_pos m) = prec → Zpos d = 2^(prec - 1) →
  emin prec emax ≤ e - e2 - prec → e - e2 - (prec - 1) ≤ emax - prec →
  SFdiv prec emax (S754_finite s m e) (S754_finite false d e2) = S754_finite s m (e - e2 - (prec - 1)).
Proof.
  intros Hm Hd Hlo Hhi. unfold SFdiv, SFdiv_core_binary.
  assert (Zpos (digits2_pos d) = prec) as Hdd.
  { rewrite digits2_log, Hd, Z.log2_pow2 by lia. lia. }
  cbn [Zdigits2]. rewrite Hm, Hdd. unfold fexp. rewrite Z.max_l by lia. rewrite Z.min_l by lia.
  replace (e - e2 - (prec + e - (prec + e2) - prec)) with prec by lia.
  destruct prec as [|p|p] eqn:Hp; [lia| |lia]. rewrite <-Hp in *. cbv beta iota.
  assert (Z.div_eucl (Z.shiftl (Zpos m) prec) (Zpos d) = (Zpos m~0, 0)) as ->.
  { rewrite Z.shiftl_mul_pow2 by lia. rewrite Hd.
    replace (Zpos m * 2^prec) with (Zpos m~0 * 2^(prec - 1)).
    2: { rewrite Pos2Z.inj_xO. replace prec with (Z.succ (prec - 1)) at 2 by lia. rewrite Z.pow_succ_r by lia. lia. }
    pose proof (Z.pow_pos_nonneg 2 (prec - 1)).
    rewrite (surjective_pairing (Z.div_eucl _ _)). f_equal.
    - apply Z.div_mul. lia.
    - apply Z.mod_mul. lia. }
  assert (new_location (Zpos d) 0 = loc_Exact) as ->.
  { unfold new_location, new_location_even, new_location_odd. by destruct (Z.even _). }
  rewrite xorb_false_r. replace (prec + e - (prec + e2) - prec) with (e - e2 - prec) by lia.
  rewrite round_even by (done || lia). f_equal. lia.
Qed.

(** A mantissa that is [n] bits too wide, with what is known of lower bits:
    rounding gives its high part or the next number, one bit wider when that
    carries. *)
Lemma round_near s M e l (n := Zpos (digits2_pos M) - prec) :
  0 ≤ n → emin prec emax ≤ e + n → e + n + 1 ≤ emax - prec →
  ∃ m c M1, binary_round_aux prec emax s (Zpos M) e l = S754_finite s m (e + n + c)
    ∧ Zpos M `div` 2^n ≤ M1 ≤ Zpos M `div` 2^n + 1 ∧ 0 ≤ c ≤ 1 ∧ M1 = Zpos m * 2^c
    ∧ Zpos (digits2_pos m) = prec.
Proof.
  intros Hn Hlo Hhi. unfold binary_round_aux.
  assert (∃ mrs, shr_fexp prec emax (Zpos M) e l = (mrs, e + n) ∧ shr_m mrs = Zpos M `div` 2^n) as (mrs & -> & Hm).
  { unfold shr_fexp, fexp. cbn [Zdigits2]. rewrite Z.max_l by lia.
    replace (Zpos (digits2_pos M) + e - prec - e) with n by lia.
    assert (shr_m (shr_record_of_loc (Zpos M) l) = Zpos M) as Hl by (by destruct l as [|[]]).
    unfold shr. destruct n as [|p|p]; [| |lia].
    - exists (shr_record_of_loc (Zpos M) l). rewrite Z.add_0_r, Z.div_1_r. done.
    - eexists. split; [done|]. rewrite iter_shr_m by (rewrite Hl; lia). by rewrite Hl. }
  set (M1 := round_nearest_even _ _).
  assert (Zpos M `div` 2^n ≤ M1 ≤ Zpos M `div` 2^n + 1) as HM1.
  { subst M1. rewrite Hm. unfold round_nearest_even. destruct (loc_of_shr_record mrs) as [|[]]; [lia|destruct (Z.even _); lia|lia..]. }
  clearbody M1. clear Hm mrs.
  assert (2^(prec - 1) ≤ Zpos M `div` 2^n < 2^prec) as Hr.
  { pose proof (Z.log2_spec (Zpos M) ltac:(lia)) as [L1 L2]. pose proof (digits2_log M) as Hd.
    replace (Z.log2 (Zpos M)) with (prec - 1 + n) in L1 by lia.
    replace (Z.succ (Z.log2 (Zpos M))) with (prec + n) in L2 by lia.
    rewrite Z.pow_add_r in L1, L2 by lia. pose proof (Z.pow_pos_nonneg 2 n).
    split; [apply Z.div_le_lower_bound|apply Z.div_lt_upper_bound]; lia. }
  pose proof (Z.pow_pos_nonneg 2 (prec - 1)) as Hp1.
  destruct (decide (M1 = 2^prec)) as [->|Hne].
  - set (m := Z.to_pos (2^(prec - 1))). assert (Zpos m = 2^(prec - 1)) as Hm by (subst m; rewrite Z2Pos.id; lia).
    assert (Zpos (digits2_pos m) = prec) as Hdm by (rewrite digits2_log, Hm, Z.log2_pow2; lia).
    assert (2^prec = Zpos m~0) as E2.
    { rewrite (Pos2Z.inj_xO m), Hm. replace prec with (Z.succ (prec - 1)) at 1 by lia. rewrite Z.pow_succ_r; lia. }
    exists m, 1, (2^prec). rewrite E2. unfold shr_fexp, fexp. cbn [Zdigits2 digits2_pos shr_record_of_loc].
    rewrite Pos2Z.inj_succ, Hdm. rewrite Z.max_l by lia.
    replace (Z.succ prec + (e + n) - prec - (e + n)) with 1 by lia. cbn [shr SpecFloat.iter_pos shr_1 orb shr_m].
    rewrite (proj2 (Z.leb_le _ _)) by lia. split_and!; [done|lia..|done].
  - destruct M1 as [|m|m]; [lia| |lia]. exists m, 0, (Zpos m).
    assert (Zpos (digits2_pos m) = prec) as Hdm.
    { rewrite digits2_log. assert (Z.log2 (Zpos m) = prec - 1); [|lia].
      apply Z.log2_unique; [lia|]. replace (Z.succ (prec - 1)) with prec by lia. lia. }
    rewrite shr_fexp_aligned by (done || lia). cbn [shr_m]. rewrite Z.add_0_r.
    rewrite (proj2 (Z.leb_le _ _)) by lia. split_and!; [done|lia..|done].
Qed.

(** A mantissa whose low bits are zero only loses them. *)
Lemma round_exact s m k e M :
  Zpos M = Zpos m * 2^Zpos k → Zpos (digits2_pos m) = prec →
  emin prec emax ≤ e + Zpos k ≤ emax - prec →
  binary_round_aux prec emax s (Zpos M) e loc_Exact = S754_finite s m (e + Zpos k).
Proof.
  intros HM Hd He. unfold binary_round_aux.
  assert (shr_fexp prec emax (Zpos M) e loc_Exact = (Build_shr_record (Zpos m) false false, e + Zpos k)) as ->.
  { unfold shr_fexp, fexp. cbn [Zdigits2 shr_record_of_loc].
    assert (Zpos (digits2_pos M) = prec + Zpos k) as -> by
      (rewrite digits2_log, HM, Z.log2_mul_pow2 by lia; pose proof (digits2_log m); lia).
    rewrite Z.max_l by lia. replace (prec + Zpos k + e - prec - e) with (Zpos k) by lia.
    cbn [shr]. by rewrite HM, iter_shr_exact. }
  cbn [shr_m loc_of_shr_record round_nearest_even].
  rewrite shr_fexp_aligned by (done || lia). cbn [shr_m]. by rewrite (proj2 (Z.leb_le _ _)) by lia.
Qed.
End exact.

Lemma normalize_pos prec emax n : 2 ≤ prec → prec + 3 ≤ emax → 0 < n < 2^prec →
  ∃ m k, binary_normalize prec emax n 0 false = S754_finite false m (- k) ∧ Zpos m = n * 2^k
    ∧ Zpos (digits2_pos m) = prec ∧ 0 ≤ k < prec.
Proof.
  intros Hp He Hn. destruct n as [|p|p]; [lia| |lia]. cbn [binary_normalize].
  assert (1 ≤ Zpos (digits2_pos p) ≤ prec) as Hd.
  { rewrite digits2_log. pose proof (Z.log2_nonneg (Zpos p)).
    assert (Z.log2 (Zpos p) < prec) by (apply Z.log2_lt_pow2; lia). lia. }
  pose proof (emin_low prec emax Hp He).
  destruct (round_narrow prec emax false p 0) as (m & -> & Hm & Hdm); [lia..|].
  exists m, (prec - Zpos (digits2_pos p)). split_and!; [f_equal; lia|done|done|lia..].
Qed.

(** An integer of at most 53 bits is a double. *)
Lemma trunc_f64 n s : 0 ≤ n < 2^53 → sf_trunc (binary_normalize 53 1024 n 0 s) = Some n.
Proof.
  intros Hn. destruct (decide (n = 0)) as [->|]; [done|].
  destruct (normalize_pos 53 1024 n) as (m & k & Hx & Hm & _ & Hk); [lia..|].
  assert (binary_normalize 53 1024 n 0 s = binary_normalize 53 1024 n 0 false) as -> by (destruct n; lia || done).
  rewrite Hx. unfold sf_trunc, signed_mantissa. f_equal. rewrite Hm, Z.opp_involutive.
  destruct (Z.leb_spec 0 (- k)).
  - replace k with 0 by lia. cbn. lia.
  - apply Z.quot_mul. pose proof (Z.pow_pos_nonneg 2 k). lia.
Qed.

(** The quotient of an integer and a power of two, in float. *)
Lemma f32_div_pow2 n j : 0 < n < 2^24 → 0 ≤ j < 24 →
  ∃ m k, f32_div (f32_of_Z n) (f32_of_Z (2^j)) = S754_finite false m (- k) ∧ Zpos m = n * 2^(k - j)
    ∧ Zpos (digits2_pos m) = 24 ∧ j ≤ k < 48.
Proof.
  intros Hn Hj. unfold f32_div, f32_of_Z.
  destruct (normalize_pos 24 128 n) as (m & k & -> & Hm & Hd & Hk); [lia..|].
  assert (0 < 2^j < 2^24) as H2.
  { split; [apply Z.pow_pos_nonneg; lia|apply Z.pow_lt_mono_r; lia]. }
  destruct (normalize_pos 24 128 (2^j)) as (m2 & k2 & -> & Hm2 & Hd2 & Hk2); [lia..|].
  rewrite <-Z.pow_add_r in Hm2 by lia. rewrite digits2_log, Hm2, Z.log2_pow2 in Hd2 by lia.
  rewrite (div_pow2 24 128) by (done || (unfold emin; lia) || (rewrite Hm2; f_equal; lia)).
  exists m, (k + j). split_and!; [f_equal; lia|rewrite Hm; do 2 f_equal; lia|done|lia..].
Qed.

Lemma f64_of_f32 m k : Zpos (digits2_pos m) = 24 → 0 ≤ k < 48 →
  ∃ m', f64_of (S754_finite false m (- k)) = S754_finite false m' (- (k + 29)) ∧ Zpos m' = Zpos m * 2^29.
Proof.
  intros Hd Hk. unfold f64_of, sf_cvt.
  destruct (round_narrow 53 1024 false m (- k)) as (m' & -> & Hm & _); rewrite Hd in *; try (unfold emin; lia).
  exists m'. split; [f_equal; lia|done].
Qed.

(** Hence rounding the quotient to an integer gives the integer quotient. *)
Lemma f64_div_pow2 n j : 0 < n < 2^24 → 0 ≤ j < 24 →
  ∃ m k, f64_of (f32_div (f32_of_Z n) (f32_of_Z (2^j))) = S754_finite false m (- k)
    ∧ Zpos m = n * 2^(k - j) ∧ j ≤ k ∧ 0 < k.
Proof.
  intros Hn Hj. destruct (f32_div_pow2 n j Hn Hj) as (m & k & -> & Hm & Hd & Hk).
  destruct (f64_of_f32 m k) as (m' & -> & Hm'); [done|lia|].
  exists m', (k + 29). split_and!; [done| |lia..].
  rewrite Hm', Hm, <-Z.mul_assoc, <-Z.pow_add_r by lia. do 2 f_equal. lia.
Qed.

Lemma f32_div_zero j : 0 ≤ j < 24 → f32_div (f32_of_Z 0) (f32_of_Z (2^j)) = S754_zero false.
Proof.
  intros Hj. unfold f32_div, f32_of_Z. assert (0 < 2^j < 2^24) as H2.
  { split; [apply Z.pow_pos_nonneg; lia|apply Z.pow_lt_mono_r; lia]. }
  by destruct (normalize_pos 24 128 (2^j)) as (m & k & -> & _); [lia..|].
Qed.

Lemma div_scaled n j k : 0 ≤ j ≤ k → (n * 2^(k - j)) `div` 2^k = n `div` 2^j.
Proof.
  intros. replace (2^k) with (2^j * 2^(k - j)) by (rewrite <-Z.pow_add_r by lia; f_equal; lia).
  apply Z.div_mul_cancel_r; apply Z.pow_nonzero; lia.
Qed.

Lemma div_pow2_small n j : 0 ≤ n < 2^24 → 0 ≤ j → 0 ≤ n `div` 2^j ≤ n.
Proof.
  intros. pose proof (Z.pow_pos_nonneg 2 j). split; [apply Z.div_pos; lia|].
  apply Z.div_le_upper_bound; [lia|]. nia.
Qed.

Lemma floor_f32_div n j : 0 ≤ n < 2^24 → 0 ≤ j < 24 →
  sf_trunc (sf_floor (f64_of (f32_div (f32_of_Z n) (f32_of_Z (2^j))))) = Some (n `div` 2^j).
Proof.
  intros Hn Hj. destruct (decide (n = 0)) as [->|].
  { rewrite f32_div_zero, Z.div_0_l by (done || (apply Z.pow_nonzero; lia)). done. }
  destruct (f64_div_pow2 n j) as (m & k & -> & Hm & Hk & Hk0); [lia..|].
  unfold sf_floor, signed_mantissa. rewrite (proj2 (Z.leb_gt _ _)) by lia.
  rewrite Hm, Z.opp_involutive, div_scaled by lia. apply trunc_f64. pose proof (div_pow2_small n j). lia.
Qed.

Lemma ceil_f32_div n j : 0 ≤ n < 2^24 → 0 ≤ j < 24 →
  sf_trunc (sf_ceil (f64_of (f32_div (f32_of_Z n) (f32_of_Z (2^j))))) = Some (- ((- n) `div` 2^j)).
Proof.
  intros Hn Hj. destruct (decide (n = 0)) as [->|].
  { rewrite f32_div_zero, Z.div_0_l by (done || (apply Z.pow_nonzero; lia)). done. }
  destruct (f64_div_pow2 n j) as (m & k & -> & Hm & Hk & Hk0); [lia..|].
  unfold sf_ceil, signed_mantissa. cbv iota. rewrite (proj2 (Z.leb_gt _ _)) by lia.
  rewrite Hm, Z.opp_involutive, <-Z.mul_opp_l, div_scaled by lia. apply trunc_f64.
  pose proof (Z.pow_pos_nonneg 2 j).
  assert (- n ≤ (- n) `div` 2^j) by (apply Z.div_le_lower_bound; nia).
  assert ((- n) `div` 2^j ≤ 0) by (apply Z.div_le_upper_bound; lia). lia.
Qed.

(** A conversion of an integer value in range. *)
Lemma u32_of_float_trunc oor x z : sf_trunc x = Some z → 0 ≤ z < 2^32 → u32_of_float oor x = z.
Proof.
  intros Hx Hz. unfold u32_of_float. rewrite Hx.
  by rewrite (proj2 (Z.leb_le _ _)), (proj2 (Z.ltb_lt _ _)) by lia.
Qed.
