(* ===== verification/Nf2Util.v ===== *)
(** * The registers of the NetFPGA card: pkt_gen/common/nf2util.c

    The library reads and writes 32-bit registers of the card through an ioctl of
    its driver, and reads once the block of registers that identifies the
    hardware design.  The driver and the kernel are parameters: a class [Driver]
    for the ioctl and a record [sys] for the answers of the other system calls. *)

From Stdlib Require Import String.
From S2P Require Import Prelude CBytes CStr.
Open Scope Z_scope.

(** ** Constants of nf2util.h and reg_defines.h *)

Definition IFNAMSIZ : nat := 16.
Definition PATHLEN : Z := 80.
Definition DEVICE_INFO_STR_LEN : Z := 1024.
Definition MAX_STR_LEN : Z := 1024.
Definition MAX_VER_LEN : Z := 32.
Definition MD5_LEN : nat := 4.
Definition PROJ_UNKNOWN : cstring := str "Unknown".
Definition VERSION_ANY : Z := -1.

Definition CPCI_ID_REG : Z := 0x0.
Definition CPCI_REPROG_STATUS_REG : Z := 0x104.
Definition DEV_ID_MD5_0_REG : Z := 0x400000.
Definition DEV_ID_DEVICE_ID_REG : Z := 0x400010.
Definition DEV_ID_VERSION_REG : Z := 0x400014.
Definition DEV_ID_CPCI_ID_REG : Z := 0x400018.
Definition DEV_ID_PROJ_DIR_0_REG : Z := 0x40001c.
Definition DEV_ID_PROJ_NAME_0_REG : Z := 0x40005c.
Definition DEV_ID_PROJ_DESC_0_REG : Z := 0x40009c.
Definition DEV_ID_PROJ_DIR_BYTE_LEN : Z := 64.
Definition DEV_ID_PROJ_NAME_BYTE_LEN : Z := 64.
Definition DEV_ID_PROJ_DESC_BYTE_LEN : Z := 100.
Definition DEV_ID_PROJ_NAME_BYTE_LEN_V1 : Z := 100.
Definition DEV_ID_MD5_VALUE_V1 : list Z := [0x4071736d; 0x8a603d2b; 0x4d55f629; 0x89a73c95].
Definition DEV_ID_MD5_VALUE_V2 : list Z := [0x5e461ffe; 0x439725c9; 0x279a22a1; 0x855f6c53].

Record nf2device := { device_name : cstring; fd : Z; net_iface : Z }.
#[export] Instance nf2device_rebuild : Rebuild nf2device := λ d,
  {| device_name := device_name d; fd := fd d; net_iface := net_iface d |}.

(** ** The driver *)

Inductive ioctl_req := SIOCREGREAD | SIOCREGWRITE.

(** The argument of the ioctl: on a socket, a struct ifreq that names the
    interface and points to the struct nf2reg; on a device file, that structure.
    [val] is indeterminate in a request to read. *)
Inductive ioctl_arg :=
| IfReq (ifrn_name : cstring) (reg : Z) (val : option Z)
| Nf2Reg (reg : Z) (val : option Z).

(** ioctl returns its result, the field [val] afterwards and the new state of the
    card. *)
Class Driver (card : Type) := ioctl : Z → ioctl_req → ioctl_arg → card → Z * Z * card.

(** The other system calls.  [fopen_fd] is None when fopen returns NULL. *)
Record sys := {
  stat_ret : cstring → Z;
  socket_ret : Z;
  geteuid_ret : Z;
  setsockopt_ret : Z → cstring → Z;
  fopen_fd : cstring → option Z;
}.

(** strncpy into an array of [n] bytes. *)
Definition strncpy (n : nat) (s : cstring) : cstring := take n s ++ replicate (n - length s) 0.

(** sprintf into an array of [n] bytes. *)
Definition sprintf (n : Z) (s : cstring) : res cstring :=
  if zlen s <? n then mret s else Fault FBounds.

Section registers.
Context {card : Type} {drv : Driver card}.

(** ** Single registers *)

(** Both readers leave [*val] alone when the ioctl fails. *)
Definition readRegNet (nf2 : nf2device) (reg : Z) (val : option Z) (c : card) : Z * option Z * card :=
  let '(ret, v, c) := ioctl (fd nf2) SIOCREGREAD (IfReq (strncpy IFNAMSIZ (device_name nf2)) reg None) c in
  if ret =? 0 then (0, Some (u32 v), c) else (-1, val, c).

Definition readRegFile (nf2 : nf2device) (reg : Z) (val : option Z) (c : card) : Z * option Z * card :=
  let '(ret, v, c) := ioctl (fd nf2) SIOCREGREAD (Nf2Reg reg None) c in
  if ret =? 0 then (0, Some (u32 v), c) else (-1, val, c).

Definition readReg (nf2 : nf2device) (reg : Z) (val : option Z) (c : card) : Z * option Z * card :=
  if net_iface nf2 =? 0 then readRegFile nf2 (u32 reg) val c else readRegNet nf2 (u32 reg) val c.

Definition writeRegNet (nf2 : nf2device) (reg val : Z) (c : card) : Z * card :=
  let '(ret, _, c) :=
    ioctl (fd nf2) SIOCREGWRITE (IfReq (strncpy IFNAMSIZ (device_name nf2)) reg (Some val)) c in
  if ret =? 0 then (0, c) else (-1, c).

Definition writeRegFile (nf2 : nf2device) (reg val : Z) (c : card) : Z * card :=
  let '(ret, _, c) := ioctl (fd nf2) SIOCREGWRITE (Nf2Reg reg (Some val)) c in
  if ret =? 0 then (0, c) else (-1, c).

Definition writeReg (nf2 : nf2device) (reg val : Z) (c : card) : Z * card :=
  if net_iface nf2 =? 0 then writeRegFile nf2 (u32 reg) (u32 val) c
  else writeRegNet nf2 (u32 reg) (u32 val) c.

(** ** Finding and opening the device *)

(** A path is built in an array of PATHLEN bytes. *)
Definition path_of (dir : string) (nf2 : nf2device) : res cstring :=
  sprintf PATHLEN (str dir ++ device_name nf2).

Definition check_iface (o : sys) (nf2 : nf2device) : res (Z * nf2device) :=
  if Z.of_nat IFNAMSIZ <? zlen (device_name nf2) then mret (-1, nf2)
  else
    filename ← path_of "/sys/class/net/" nf2;
    if stat_ret o filename =? 0 then mret (0, nf2 <| net_iface := 1 |>)
    else
      filename ← path_of "/dev/" nf2;
      if stat_ret o filename =? 0 then mret (0, nf2 <| net_iface := 0 |>)
      else mret (-1, nf2).

(** fileno(NULL) is undefined: fopen is not checked before it. *)
Definition openDescriptor (o : sys) (nf2 : nf2device) : res (Z * nf2device) :=
  if net_iface nf2 =? 0 then
    filename ← path_of "/dev/" nf2;
    match fopen_fd o filename with
    | None => Fault FNull
    | Some d => let nf2 := nf2 <| fd := d |> in mret (if d =? -1 then -1 else 0, nf2)
    end
  else
    let nf2 := nf2 <| fd := socket_ret o |> in
    if fd nf2 =? -1 then mret (-1, nf2)
    else if (geteuid_ret o =? 0)
         && (setsockopt_ret o (fd nf2) (strncpy IFNAMSIZ (device_name nf2)) <? 0)
    then mret (-1, nf2)
    else mret (0, nf2).

(** Closes the same descriptor in both cases; the structure keeps its number. *)
Definition closeDescriptor (close : Z → card → card) (nf2 : nf2device) (c : card) : Z * card :=
  if net_iface nf2 =? 0 then (0, close (fd nf2) c) else (0, close (fd nf2) c).
End registers.

(** ** The identification of the hardware *)

(** The variables of the file, with the card.  [have_version_info] and
    [virtex_programmed] are char; the project strings are arrays of char. *)
Record nf2lib (card : Type) := {
  the_card : card;
  cpci_version : Z;
  cpci_revision : Z;
  nf2_dev_id_module_version : Z;
  nf2device_id : Z;
  nf2_version : Z;
  nf2_cpci_version : Z;
  nf2_cpci_revision : Z;
  have_version_info : Z;
  virtex_programmed : Z;
  nf2_proj_name_v1 : mem;
  nf2_proj_dir : mem;
  nf2_proj_name : mem;
  nf2_proj_desc : mem;
  nf2device_info : cstring;
  nf2_version_err : cstring;
  prev_dev : nf2device;
}.
Arguments the_card {_} _.
Arguments cpci_version {_} _.
Arguments cpci_revision {_} _.
Arguments nf2_dev_id_module_version {_} _.
Arguments nf2device_id {_} _.
Arguments nf2_version {_} _.
Arguments nf2_cpci_version {_} _.
Arguments nf2_cpci_revision {_} _.
Arguments have_version_info {_} _.
Arguments virtex_programmed {_} _.
Arguments nf2_proj_name_v1 {_} _.
Arguments nf2_proj_dir {_} _.
Arguments nf2_proj_name {_} _.
Arguments nf2_proj_desc {_} _.
Arguments nf2device_info {_} _.
Arguments nf2_version_err {_} _.
Arguments prev_dev {_} _.
#[export] Instance nf2lib_rebuild card : Rebuild (nf2lib card) := λ s,
  {| the_card := the_card s; cpci_version := cpci_version s; cpci_revision := cpci_revision s;
     nf2_dev_id_module_version := nf2_dev_id_module_version s; nf2device_id := nf2device_id s;
     nf2_version := nf2_version s; nf2_cpci_version := nf2_cpci_version s;
     nf2_cpci_revision := nf2_cpci_revision s; have_version_info := have_version_info s;
     virtex_programmed := virtex_programmed s; nf2_proj_name_v1 := nf2_proj_name_v1 s;
     nf2_proj_dir := nf2_proj_dir s; nf2_proj_name := nf2_proj_name s;
     nf2_proj_desc := nf2_proj_desc s; nf2device_info := nf2device_info s;
     nf2_version_err := nf2_version_err s; prev_dev := prev_dev s |}.

Definition UNSIGNED_MAX : Z := 2^32 - 1.

(** The initial values; the device of the last reading is all zero. *)
Definition nf2lib_init {card} (c : card) : nf2lib card :=
  {| the_card := c; cpci_version := UNSIGNED_MAX; cpci_revision := UNSIGNED_MAX;
     nf2_dev_id_module_version := UNSIGNED_MAX; nf2device_id := UNSIGNED_MAX;
     nf2_version := UNSIGNED_MAX; nf2_cpci_version := UNSIGNED_MAX;
     nf2_cpci_revision := UNSIGNED_MAX; have_version_info := 0; virtex_programmed := 0;
     nf2_proj_name_v1 := mem_zero DEV_ID_PROJ_NAME_BYTE_LEN_V1;
     nf2_proj_dir := mem_zero DEV_ID_PROJ_DIR_BYTE_LEN;
     nf2_proj_name := mem_zero DEV_ID_PROJ_NAME_BYTE_LEN;
     nf2_proj_desc := mem_zero DEV_ID_PROJ_DESC_BYTE_LEN;
     nf2device_info := []; nf2_version_err := [];
     prev_dev := {| device_name := []; fd := 0; net_iface := 0 |} |}.

(** The use of a variable that may still be indeterminate. *)
Definition used (v : option Z) : res Z :=
  match v with Some z => mret z | None => Fault FUninit end.

Section info.
Context {card : Type} {drv : Driver card}.
Implicit Types s : nf2lib card.

(** A read through the state of the library: [*val] and the card. *)
Definition lib_read (nf2 : nf2device) (reg : Z) (val : option Z) s : option Z * nf2lib card :=
  let '(_, v, c) := readReg nf2 reg val (the_card s) in (v, s <| the_card := c |>).

Definition isVirtexProgrammed (nf2 : nf2device) s : res (Z * nf2lib card) :=
  let '(progStatus, s) := lib_read nf2 CPCI_REPROG_STATUS_REG None s in
  v ← used progStatus;
  mret (if Z.land v 0x100 =? 0 then 0 else 1, s).

(** One word of readStr: the register is stored in the order of the (little
    endian) machine and swapped in place; when the read fails the old bytes are
    swapped. *)
Definition read_word (nf2 : nf2device) (reg off : Z) (dst : mem) (c : card) : res (mem * card) :=
  let '(_, v, c) := readReg nf2 reg None c in
  old ← rd_cells dst off 4;
  dst ← wr_cells dst off (reverse match v with Some z => cells (le32 z) | None => old end);
  mret (dst, c).

Fixpoint readStr_loop (nf2 : nf2device) (regStart i : Z) (n : nat) (dst : mem) (c : card) :
    res (mem * card) :=
  match n with
  | O => mret (dst, c)
  | S n =>
    '(dst, c) ← read_word nf2 (regStart + i * 4) (i * 4) dst c;
    readStr_loop nf2 regStart (i + 1) n dst c
  end.

Definition readStr (nf2 : nf2device) (regStart len : Z) (dst : mem) (c : card) : res (mem * card) :=
  '(dst, c) ← readStr_loop nf2 regStart 0 (Z.to_nat (len `div` 4)) dst c;
  dst ← wr8 dst ((len `div` 4) * 4 - 1) 0;
  mret (dst, c).

(** The four words of the checksum. *)
Fixpoint read_md5 (nf2 : nf2device) (i : Z) (n : nat) s : list (option Z) * nf2lib card :=
  match n with
  | O => ([], s)
  | S n =>
    let '(v, s) := lib_read nf2 (DEV_ID_MD5_0_REG + i * 4) None s in
    let '(vs, s) := read_md5 nf2 (i + 1) n s in (v :: vs, s)
  end.

(** The comparison of all four words: none of them is skipped. *)
Fixpoint md5_good (md5 : list (option Z)) (expected : list Z) : res bool :=
  match md5, expected with
  | m :: md5, e :: expected =>
    v ← used m; rest ← md5_good md5 expected; mret ((v =? e) && (rest : bool))
  | _, _ => mret true
  end.

Definition read_ids (nf2 : nf2device) s : res (nf2lib card) :=
  let '(v, s) := lib_read nf2 DEV_ID_DEVICE_ID_REG (Some (nf2device_id s)) s in
  id ← used v;
  let s := s <| nf2device_id := id |> in
  let '(v, s) := lib_read nf2 DEV_ID_VERSION_REG (Some (nf2_version s)) s in
  ver ← used v;
  let s := s <| nf2_version := ver |> in
  let '(v, s) := lib_read nf2 DEV_ID_CPCI_ID_REG None s in
  nf2_cpci_id ← used v;
  mret (s <| nf2_cpci_version := Z.land nf2_cpci_id 0xffffff |>
          <| nf2_cpci_revision := Z.shiftr nf2_cpci_id 24 |>).

(** The part of nf2_read_info that forgets what was known of the Virtex: each
    string gets an empty text, the rest of its array stays. *)
Definition clear_virtex s : res (nf2lib card) :=
  a ← wr8 (nf2_proj_name_v1 s) 0 0;
  b ← wr8 (nf2_proj_dir s) 0 0;
  d ← wr8 (nf2_proj_name s) 0 0;
  e ← wr8 (nf2_proj_desc s) 0 0;
  mret (s <| nf2_dev_id_module_version := UNSIGNED_MAX |> <| nf2device_id := UNSIGNED_MAX |>
          <| nf2_version := UNSIGNED_MAX |> <| nf2_cpci_version := UNSIGNED_MAX |>
          <| nf2_cpci_revision := UNSIGNED_MAX |> <| nf2_proj_name_v1 := a |>
          <| nf2_proj_dir := b |> <| nf2_proj_name := d |> <| nf2_proj_desc := e |>).

Definition read_strings_v1 (nf2 : nf2device) s : res (nf2lib card) :=
  '(a, c) ← readStr nf2 DEV_ID_PROJ_DIR_0_REG DEV_ID_PROJ_NAME_BYTE_LEN_V1 (nf2_proj_name_v1 s) (the_card s);
  mret (s <| nf2_dev_id_module_version := 1 |> <| nf2_proj_name_v1 := a |> <| the_card := c |>).

Definition read_strings_v2 (nf2 : nf2device) s : res (nf2lib card) :=
  '(a, c) ← readStr nf2 DEV_ID_PROJ_DIR_0_REG DEV_ID_PROJ_DIR_BYTE_LEN (nf2_proj_dir s) (the_card s);
  '(b, c) ← readStr nf2 DEV_ID_PROJ_NAME_0_REG DEV_ID_PROJ_NAME_BYTE_LEN (nf2_proj_name s) c;
  '(d, c) ← readStr nf2 DEV_ID_PROJ_DESC_0_REG DEV_ID_PROJ_DESC_BYTE_LEN (nf2_proj_desc s) c;
  mret (s <| nf2_dev_id_module_version := 2 |> <| nf2_proj_dir := a |> <| nf2_proj_name := b |>
          <| nf2_proj_desc := d |> <| the_card := c |>).

Definition nf2_read_info (nf2 : nf2device) s : res (nf2lib card) :=
  let s := s <| prev_dev := nf2 |> in
  let '(v, s) := lib_read nf2 CPCI_ID_REG None s in
  cpci_id ← used v;
  let s := s <| cpci_version := Z.land cpci_id 0xffffff |> <| cpci_revision := Z.shiftr cpci_id 24 |>
             <| have_version_info := 1 |> in
  '(p, s) ← isVirtexProgrammed nf2 s;
  s ← clear_virtex (s <| virtex_programmed := p |>);
  let '(md5, s) := read_md5 nf2 0 MD5_LEN s in
  md5_good_v1 ← md5_good md5 DEV_ID_MD5_VALUE_V1;
  md5_good_v2 ← md5_good md5 DEV_ID_MD5_VALUE_V2;
  s ← (if (md5_good_v1 : bool) || (md5_good_v2 : bool) then read_ids nf2 s else mret s);
  s ← (if (md5_good_v1 : bool) then read_strings_v1 nf2 s else mret s);
  if (md5_good_v2 : bool) then read_strings_v2 nf2 s else mret s.

Definition prepDeviceInfo (nf2 : nf2device) s : res (nf2lib card) :=
  if (have_version_info s =? 0) || negb (fd (prev_dev s) =? fd nf2) then nf2_read_info nf2 s else mret s.

(** ** The getters: read the block if needed, then return a variable *)

Definition getter {A} (f : nf2lib card → A) (nf2 : nf2device) s : res (A * nf2lib card) :=
  s ← prepDeviceInfo nf2 s; mret (f s, s).

Definition getCPCIVersion := getter cpci_version.
Definition getCPCIRevision := getter cpci_revision.
Definition getDeviceID := getter nf2device_id.
Definition getDeviceCPCIVersion := getter nf2_cpci_version.
Definition getDeviceCPCIRevision := getter nf2_cpci_revision.

(** The comparison is of unsigned numbers: it holds when nothing is known. *)
Definition getDeviceMajor := getter (λ s,
  if 1 <? nf2_dev_id_module_version s then Z.land (Z.shiftr (nf2_version s) 16) 0xff else nf2_version s).
Definition getDeviceMinor := getter (λ s,
  if 1 <? nf2_dev_id_module_version s then Z.land (Z.shiftr (nf2_version s) 8) 0xff else 0).
Definition getDeviceRevision := getter (λ s,
  if 1 <? nf2_dev_id_module_version s then Z.land (Z.shiftr (nf2_version s) 0) 0xff else 0).
Definition getDeviceIDModuleVersion := getter nf2_dev_id_module_version.

Definition getProjDir (nf2 : nf2device) s : res (cstring * nf2lib card) :=
  s ← prepDeviceInfo nf2 s;
  if nf2_dev_id_module_version s =? 2 then t ← c_text (nf2_proj_dir s); mret (t, s)
  else mret (PROJ_UNKNOWN, s).

Definition getProjName (nf2 : nf2device) s : res (cstring * nf2lib card) :=
  s ← prepDeviceInfo nf2 s;
  if nf2_dev_id_module_version s =? 2 then t ← c_text (nf2_proj_name s); mret (t, s)
  else if nf2_dev_id_module_version s =? 1 then t ← c_text (nf2_proj_name_v1 s); mret (t, s)
  else mret (PROJ_UNKNOWN, s).

Definition getProjDesc (nf2 : nf2device) s : res (cstring * nf2lib card) :=
  s ← prepDeviceInfo nf2 s;
  if nf2_dev_id_module_version s =? 2 then t ← c_text (nf2_proj_desc s); mret (t, s)
  else mret (PROJ_UNKNOWN, s).

(** printHello: prints, and sets [*val]. *)
Definition printHello (nf2 : nf2device) (val : Z) : cstring * Z :=
  (str "Hello world. Name=" ++ device_name nf2 ++ str " val=" ++ dec val ++ [10], 10).

(** ** The description of the device *)

Definition nl : cstring := [10].
(** %d of an unsigned number. *)
Definition pd (v : Z) : cstring := dec (i32 v).

Definition cpci_text (ver rev : Z) : cstring :=
  str "CPCI Information" ++ nl ++ str "----------------" ++ nl
  ++ str "Version: " ++ pd ver ++ str " (rev " ++ pd rev ++ str ")" ++ nl.

Definition device_title : cstring :=
  str "Device (Virtex) Information" ++ nl ++ str "---------------------------" ++ nl.

Definition built_text (ver rev : Z) : cstring :=
  str "Built against CPCI version: " ++ pd ver ++ str " (rev " ++ pd rev ++ str ")" ++ nl.

Definition device_text_v2 (dir name desc : cstring) (id major minor revision cver crev : Z) : cstring :=
  device_title ++ str "Project directory: " ++ dir ++ nl ++ str "Project name: " ++ name ++ nl
  ++ str "Project description: " ++ desc ++ nl ++ nl ++ str "Device ID: " ++ pd id ++ nl
  ++ str "Version: " ++ pd major ++ str "." ++ pd minor ++ str "." ++ pd revision ++ nl
  ++ built_text cver crev.

Definition device_text_v1 (name : cstring) (id major cver crev : Z) : cstring :=
  device_title ++ str "Project name: " ++ name ++ nl ++ nl ++ str "Device ID: " ++ pd id ++ nl
  ++ str "Version: " ++ pd major ++ nl ++ built_text cver crev.

(** The text about the Virtex.  The argument expressions are calls of the getters. *)
Definition deviceVersionStr (nf2 : nf2device) s : res (cstring * nf2lib card) :=
  if virtex_programmed s =? 0 then mret (device_title ++ str "Device not programmed" ++ nl, s)
  else
    '(v, s) ← getDeviceIDModuleVersion nf2 s;
    if v =? UNSIGNED_MAX then mret (device_title ++ str "Device info not found" ++ nl, s)
    else if v =? 2 then
      '(dir, s) ← getProjDir nf2 s;
      '(name, s) ← getProjName nf2 s;
      '(desc, s) ← getProjDesc nf2 s;
      '(id, s) ← getDeviceID nf2 s;
      '(major, s) ← getDeviceMajor nf2 s;
      '(minor, s) ← getDeviceMinor nf2 s;
      '(revision, s) ← getDeviceRevision nf2 s;
      '(cver, s) ← getDeviceCPCIVersion nf2 s;
      '(crev, s) ← getDeviceCPCIRevision nf2 s;
      mret (device_text_v2 dir name desc id major minor revision cver crev, s)
    else if v =? 1 then
      '(name, s) ← getProjName nf2 s;
      '(id, s) ← getDeviceID nf2 s;
      '(major, s) ← getDeviceMajor nf2 s;
      '(cver, s) ← getDeviceCPCIVersion nf2 s;
      '(crev, s) ← getDeviceCPCIRevision nf2 s;
      mret (device_text_v1 name id major cver crev, s)
    else mret (str "Uknown Device ID Module verions: " ++ pd v ++ nl, s).

Definition getDeviceInfoStr (nf2 : nf2device) s : res (cstring * nf2lib card) :=
  s ← prepDeviceInfo nf2 s;
  '(ver, s) ← getCPCIVersion nf2 s;
  '(rev, s) ← getCPCIRevision nf2 s;
  let cpciVersionStr := snprintf (Z.to_nat MAX_STR_LEN) (cpci_text ver rev) in
  '(t, s) ← deviceVersionStr nf2 s;
  let devStr := snprintf (Z.to_nat MAX_STR_LEN) t in
  let t := snprintf (Z.to_nat DEVICE_INFO_STR_LEN) (cpciVersionStr ++ nl ++ devStr ++ nl) in
  mret (t, s <| nf2device_info := t |>).

(** ** Checking the loaded design *)

(** [v <<= 8] on an int: undefined for a negative value or a result that is none. *)
Definition shl8 (v : Z) : res Z := if v <? 0 then Fault FOverflow else chk_int (v * 256).

Definition add_ver (acc v dflt : Z) : res Z := chk_int (acc + (if v =? VERSION_ANY then dflt else v)).

(** The version number of three components, an unspecified one being [dflt]. *)
Definition version_number (dflt major minor rev : Z) : res Z :=
  v ← add_ver 0 major dflt; v ← shl8 v;
  v ← add_ver v minor dflt; v ← shl8 v;
  add_ver v rev dflt.

Definition version_str (major minor rev : Z) : res cstring :=
  sprintf MAX_VER_LEN
    (if negb (rev =? VERSION_ANY) then dec major ++ str "." ++ dec minor ++ str "." ++ dec rev
     else if negb (minor =? VERSION_ANY) then dec major ++ str "." ++ dec minor ++ str ".x"
     else if negb (major =? VERSION_ANY) then dec major ++ str ".x.x"
     else str "x.x.x").

Definition has_version (major minor rev : Z) : bool :=
  negb (major =? VERSION_ANY) || negb (minor =? VERSION_ANY) || negb (rev =? VERSION_ANY).

Definition bitfile_err (projDir virtexProjName expecting active : cstring) : cstring :=
  str "Error: Incorrect version for bitfile: '" ++ projDir ++ str "' (" ++ virtexProjName
  ++ str ").  Expecting: " ++ expecting ++ str "   Active: " ++ active.

(** Both alternatives of a component's comparison use -1 for VERSION_ANY, so
    they compare the numbers as they are. *)
Definition version_err (projDir virtexProjName : cstring) (minMajor minMinor minRev maxMajor maxMinor maxRev : Z)
    (active : cstring) : res cstring :=
  minStr ← version_str minMajor minMinor minRev;
  maxStr ← version_str maxMajor maxMinor maxRev;
  let hasMin := has_version minMajor minMinor minRev in
  let hasMax := has_version maxMajor maxMinor maxRev in
  let minMaxEqual := (minMajor =? maxMajor) && (minMinor =? maxMinor) && (minRev =? maxRev) in
  let expecting :=
    if minMaxEqual then minStr
    else if hasMin && hasMax then minStr ++ str " -- " ++ maxStr
    else if hasMin then str "> " ++ minStr
    else str "< " ++ maxStr in
  sprintf DEVICE_INFO_STR_LEN (bitfile_err projDir virtexProjName expecting active).

Definition set_version_err (t : cstring) s : res (nf2lib card) :=
  t ← sprintf DEVICE_INFO_STR_LEN t; mret (s <| nf2_version_err := t |>).

Definition virtex_project (nf2 : nf2device) s : res (cstring * cstring * nf2lib card) :=
  if 2 <=? nf2_dev_id_module_version s then
    '(dir, s) ← getProjDir nf2 s; '(name, s) ← getProjName nf2 s; mret (dir, name, s)
  else '(name, s) ← getProjName nf2 s; mret (name, PROJ_UNKNOWN, s).

Definition checkVirtexBitfile (nf2 : nf2device) (projDir : cstring)
    (minVerMajor minVerMinor minVerRev maxVerMajor maxVerMinor maxVerRev : Z) s : res (Z * nf2lib card) :=
  s ← prepDeviceInfo nf2 s;
  if virtex_programmed s =? 0 then
    s ← set_version_err (str "Error: Virtex is not programmed") s; mret (0, s)
  else
    minVer ← version_number 0 minVerMajor minVerMinor minVerRev;
    maxVer ← version_number 255 maxVerMajor maxVerMinor maxVerRev;
    '(major, s) ← getDeviceMajor nf2 s;
    '(minor, s) ← getDeviceMinor nf2 s;
    '(revision, s) ← getDeviceRevision nf2 s;
    let virtexVer := i32 (Z.lor (Z.lor (u32 (Z.shiftl major 16)) (u32 (Z.shiftl minor 8))) revision) in
    '(virtexProjDir, virtexProjName, s) ← virtex_project nf2 s;
    if negb (bool_decide (virtexProjDir = projDir)) then
      s ← set_version_err (str "Error: Incorrect bitfile loaded. Found '" ++ virtexProjDir ++ str "' ("
                           ++ virtexProjName ++ str "), expecting: '" ++ projDir ++ str "'") s;
      mret (0, s)
    else if (virtexVer <? minVer) || (maxVer <? virtexVer) then
      active ← sprintf MAX_VER_LEN (pd major ++ str "." ++ pd minor ++ str "." ++ pd revision);
      t ← version_err projDir virtexProjName minVerMajor minVerMinor minVerRev
            maxVerMajor maxVerMinor maxVerRev active;
      mret (0, s <| nf2_version_err := t |>)
    else s ← set_version_err (str "GOOD") s; mret (1, s).

Definition getVirtexBitfileErr s : cstring := nf2_version_err s.
End info.

(** ** Addresses and checksums: pkt_gen/common/util.c *)

(** One byte per token; the array of [n] bytes is not checked against their
    number. *)
Fixpoint store_tokens (conv : cstring → res Z) (ret : mem) (index : Z) (toks : list cstring) : res mem :=
  match toks with
  | [] => mret ret
  | num :: toks =>
    v ← conv num;
    ret ← wr8 ret index v;
    store_tokens conv ret (index + 1) toks
  end.

Definition parseip (s : cstring) : res mem :=
  store_tokens (λ num, mret (atoi num)) (mem_new 4) 0 (strtok_all 46 s).

(** sscanf with %x leaves its argument alone when there is no number; the
    variable is declared in the loop and indeterminate. *)
Definition scan_hex (s : cstring) : option Z :=
  let t := skip_space s in
  let t := match t with c :: t' => if (c =? 45) || (c =? 43) then t' else t | [] => [] end in
  match t with
  | c :: _ => match digit_val c with Some d => if d <? 16 then Some (u32 (strtol 16 s)) else None | None => None end
  | [] => None
  end.

Definition parsemac (s : cstring) : res mem :=
  store_tokens (λ num, used (scan_hex num)) (mem_new 6) 0 (strtok_all 58 s).

(** The sum of the 16-bit halves of an array of words from byte 14 on. *)
Fixpoint cksm_loop (fuel : nat) (buf : list Z) (ind max sum : Z) : res Z :=
  match fuel with
  | O => Fault FFuel
  | S fuel =>
    if ind <? max then
      match zget buf (ind `div` 4) with
      | None => Fault FBounds
      | Some v =>
        let v := if ind `mod` 4 =? 0 then Z.shiftr v 16 else v in
        cksm_loop fuel buf (ind + 2) max (u32 (sum + Z.land v 0xffff))
      end
    else mret sum
  end.

Fixpoint cksm_fold (fuel : nat) (sum : Z) : res Z :=
  match fuel with
  | O => Fault FFuel
  | S fuel =>
    if Z.shiftr sum 16 =? 0 then mret sum else cksm_fold fuel (u32 (Z.land sum 0xffff + Z.shiftr sum 16))
  end.

(** The length is the upper half of the fifth word; the parameter is not used. *)
Definition cksm (length : Z) (buf : list Z) : res Z :=
  match zget buf 4 with
  | None => Fault FBounds
  | Some w =>
    let max := 14 + Z.shiftr w 16 in
    sum ← cksm_loop (S (Z.to_nat max)) buf 14 max 0;
    sum ← cksm_fold 4 sum;
    mret (u16 (Z.lnot sum))
  end.
