(* ===== verification/Nf2Spec.v ===== *)
(** * What the register library reports of a card

    A card whose identification block holds a design of the second format is
    described as it is: the strings come back as they were stored in the big
    endian registers, and checkVirtexBitfile accepts exactly the designs of the
    given name whose version lies in the given range, versions being ordered
    component by component. *)

From Stdlib Require Import String.
From S2P Require Import Prelude CBytes CStr Nf2Util.
Open Scope Z_scope.

(** Facts about constants. *)
Ltac closed := vm_compute; intuition discriminate.

(** ** The block of registers *)

(** The registers from [start] on hold the bytes, four in a register, the most
    significant first. *)
Definition stores (r : Z → Z) (start : Z) (bs : list Z) : Prop :=
  ∀ k : nat, (4 * k + 4 ≤ length bs)%nat → be32 (r (start + Z.of_nat k * 4)) = take 4 (drop (4 * k) bs).

(** A text in a field of [len] bytes. *)
Definition field_text (len : Z) (t : cstring) : list Z := t ++ replicate (Z.to_nat len - length t) 0.

Definition is_text (len : Z) (t : cstring) : Prop := zlen t < len ∧ Forall (λ c, c ≠ 0) t.

Record id_block := {
  ib_device : Z;
  ib_version : Z;
  ib_cpci : Z;
  ib_dir : cstring;
  ib_name : cstring;
  ib_desc : cstring;
}.

Definition id_block_ok (b : id_block) : Prop :=
  0 ≤ ib_device b < 2^32 ∧ 0 ≤ ib_version b < 2^32 ∧ 0 ≤ ib_cpci b < 2^32
  ∧ is_text DEV_ID_PROJ_DIR_BYTE_LEN (ib_dir b) ∧ is_text DEV_ID_PROJ_NAME_BYTE_LEN (ib_name b)
  ∧ is_text DEV_ID_PROJ_DESC_BYTE_LEN (ib_desc b).

Definition holds_block (r : Z → Z) (b : id_block) : Prop :=
  (∀ (k : nat) w, DEV_ID_MD5_VALUE_V2 !! k = Some w → r (DEV_ID_MD5_0_REG + Z.of_nat k * 4) = w)
  ∧ r DEV_ID_DEVICE_ID_REG = ib_device b ∧ r DEV_ID_VERSION_REG = ib_version b
  ∧ r DEV_ID_CPCI_ID_REG = ib_cpci b
  ∧ stores r DEV_ID_PROJ_DIR_0_REG (field_text DEV_ID_PROJ_DIR_BYTE_LEN (ib_dir b))
  ∧ stores r DEV_ID_PROJ_NAME_0_REG (field_text DEV_ID_PROJ_NAME_BYTE_LEN (ib_name b))
  ∧ stores r DEV_ID_PROJ_DESC_0_REG (field_text DEV_ID_PROJ_DESC_BYTE_LEN (ib_desc b)).

Definition arg_reg (a : ioctl_arg) : Z := match a with IfReq _ r _ | Nf2Reg r _ => r end.

(** ** Versions *)

(** The order of versions: the first component that differs decides. *)
Definition ver_le (a b : Z * Z * Z) : Prop :=
  let '(a1, a2, a3) := a in let '(b1, b2, b3) := b in
  a1 < b1 ∨ a1 = b1 ∧ (a2 < b2 ∨ a2 = b2 ∧ a3 ≤ b3).
#[export] Instance ver_le_dec a b : Decision (ver_le a b).
Proof. destruct a as [[??]?], b as [[??]?]. unfold ver_le. apply _. Defined.

(** A bound with unspecified components. *)
Definition bound_of (dflt major minor rev : Z) : Z * Z * Z :=
  let f v := if v =? VERSION_ANY then dflt else v in (f major, f minor, f rev).

Definition device_version (b : id_block) : Z * Z * Z :=
  (ib_version b `div` 65536 `mod` 256, ib_version b `div` 256 `mod` 256, ib_version b `mod` 256).

Definition is_component (v : Z) : Prop := -1 ≤ v ≤ 255.

Lemma version_number_ok dflt major minor rev :
  0 ≤ dflt ≤ 255 → is_component major → is_component minor → is_component rev →
  let '(a, b, c) := bound_of dflt major minor rev in
  version_number dflt major minor rev = Ok (a * 65536 + b * 256 + c)
  ∧ 0 ≤ a ≤ 255 ∧ 0 ≤ b ≤ 255 ∧ 0 ≤ c ≤ 255.
Proof.
  unfold is_component, bound_of, version_number, add_ver, VERSION_ANY. intros Hd H1 H2 H3.
  set (a := if major =? -1 then dflt else major). set (b := if minor =? -1 then dflt else minor).
  set (c := if rev =? -1 then dflt else rev).
  assert (0 ≤ a ≤ 255 ∧ 0 ≤ b ≤ 255 ∧ 0 ≤ c ≤ 255) as (Ha & Hb & Hc).
  { subst a b c. repeat case_match; lia. }
  clearbody a b c. split; [|done].
  assert (∀ z, 0 ≤ z < 2^24 → chk_int z = Ok z) as Hk
    by (intros; apply chk_int_ok; unfold is_int, INT_MIN, INT_MAX; lia).
  unfold shl8. rewrite (Hk (0 + a)) by lia. cbn [mbind res_bind].
  rewrite (proj2 (Z.ltb_ge _ _)) by lia. rewrite Hk by lia. cbn [mbind res_bind].
  rewrite Hk by lia. cbn [mbind res_bind]. rewrite (proj2 (Z.ltb_ge _ _)) by lia.
  rewrite Hk by lia. cbn [mbind res_bind]. rewrite Hk by lia. f_equal. lia.
Qed.

(** The number checkVirtexBitfile compares. *)
Lemma virtex_number v : 0 ≤ v < 2^32 →
  i32 (Z.lor (Z.lor (u32 (Z.shiftl (Z.land (Z.shiftr v 16) 0xff) 16))
                    (u32 (Z.shiftl (Z.land (Z.shiftr v 8) 0xff) 8))) (Z.land (Z.shiftr v 0) 0xff))
  = v `div` 65536 `mod` 256 * 65536 + v `div` 256 `mod` 256 * 256 + v `mod` 256.
Proof.
  intros Hv. change 0xff with (Z.ones 8). rewrite !Z.land_ones by lia.
  rewrite !Z.shiftr_div_pow2, !Z.shiftl_mul_pow2 by lia. change (2^0) with 1. rewrite Z.div_1_r.
  change (2^16) with 65536. change (2^8) with 256.
  set (a := v `div` 65536 `mod` 256). set (b := v `div` 256 `mod` 256). set (c := v `mod` 256).
  assert (0 ≤ a < 256 ∧ 0 ≤ b < 256 ∧ 0 ≤ c < 256) as (Ha & Hb & Hc)
    by (subst a b c; split_and!; apply Z.mod_pos_bound; lia).
  clearbody a b c. rewrite !u32_id by lia.
  replace (a * 65536) with (a * 256 * 2^8) by lia. rewrite (Z.lor_comm _ (b * 256)).
  replace (b * 256) with (b * 2^8) by lia.
  rewrite (Z.lor_comm (b * 2^8)). replace (a * 256 * 2^8) with (a * 2^16) by lia.
  rewrite (lor_high_low a (b * 2^8) 16) by lia.
  replace (a * 2^16 + b * 2^8) with ((a * 256 + b) * 2^8) by lia.
  rewrite lor_high_low by lia. rewrite i32_id by (unfold is_int, INT_MIN, INT_MAX; lia). lia.
Qed.

Lemma bit8_spec v : (Z.land v 0x100 =? 0) = negb (Z.testbit v 8).
Proof.
  change 0x100 with (2^8). destruct (Z.testbit v 8) eqn:Hb; cbn.
  - apply Z.eqb_neq. intros Hz. assert (Z.testbit (Z.land v (2^8)) 8 = true) as H1; [|by rewrite Hz in H1].
    by rewrite Z.land_spec, Hb.
  - apply Z.eqb_eq, Z.bits_inj'. intros n Hn. rewrite Z.land_spec, Z.bits_0.
    destruct (decide (n = 8)) as [->|]; [by rewrite Hb|]. rewrite Z.pow2_bits_false by lia. apply andb_false_r.
Qed.

(** ** Reading strings *)

Lemma c_text_field len t : is_text len t →
  ∃ m, wr8 (cells (field_text len t)) (len - 1) 0 = Ok m ∧ zlen m = len ∧ c_text m = Ok t.
Proof.
  intros [Hl Ht]. unfold zlen in Hl. unfold field_text.
  replace (Z.to_nat len - length t)%nat with (Z.to_nat len - length t - 1 + 1)%nat by lia.
  rewrite replicate_add. cbn [replicate]. rewrite app_assoc. unfold cells. rewrite fmap_app.
  set (p := Some <$> (t ++ replicate _ 0)).
  assert (zlen p = len - 1) as Hp
    by (subst p; unfold zlen; rewrite length_fmap, length_app, length_replicate; lia).
  exists (p ++ [Some 0]). split_and!.
  - unfold wr8, wr_bytes, cells. apply (wr_cells_shift _ _ _ 0); [lia|]. done.
  - rewrite zlen_app, Hp. unfold zlen. cbn. lia.
  - subst p. rewrite fmap_app, <-app_assoc. fold (cells t).
    destruct (Z.to_nat len - length t - 1)%nat; cbn [replicate fmap list_fmap app]; by apply c_text_cells.
Qed.

Section card.
Context {card : Type} {drv : Driver card}.
Context (nf2 : nf2device) (r : Z → Z) (c : card).

(** The driver answers a read with the value of the register. *)
Hypothesis reads : ∀ a, ioctl (fd nf2) SIOCREGREAD a c = (0, r (arg_reg a), c).
Hypothesis reg32 : ∀ x, 0 ≤ r x < 2^32.

Lemma readReg_value reg v : 0 ≤ reg < 2^32 → readReg nf2 reg v c = (0, Some (r reg), c).
Proof.
  intros. unfold readReg, readRegFile, readRegNet. rewrite u32_id by done.
  case_match; rewrite reads; cbn; by rewrite u32_id by apply reg32.
Qed.

Lemma lib_read_value s reg v : the_card s = c → 0 ≤ reg < 2^32 → lib_read nf2 reg v s = (Some (r reg), s).
Proof. intros Hs ?. unfold lib_read. rewrite Hs, readReg_value by done. cbn. subst c. by destruct s. Qed.

Lemma readStr_loop_value start bs i n pre old :
  0 ≤ start → start + (i + Z.of_nat n) * 4 < 2^32 → 0 ≤ i → zlen pre = i * 4 →
  length bs = (4 * n)%nat → length old = (4 * n)%nat → stores r (start + i * 4) bs →
  readStr_loop nf2 start i n (pre ++ old) c = Ok (pre ++ cells bs, c).
Proof.
  revert i pre old bs. induction n as [|n IH]; intros i pre old bs H0 Hm Hi Hp Hb Ho Hst.
  { apply nil_length_inv in Hb, Ho. by subst. }
  destruct bs as [|b1 [|b2 [|b3 [|b4 bs]]]]; simplify_eq/=; try lia.
  destruct old as [|o1 [|o2 [|o3 [|o4 old]]]]; simplify_eq/=; try lia.
  pose proof (Hst 0%nat ltac:(cbn; lia)) as Hw. rewrite Z.mul_0_l, Z.add_0_r in Hw. change (be32 (r (start + i * 4)) = [b1; b2; b3; b4]) in Hw.
  assert (read_word nf2 (start + i * 4) (i * 4) (pre ++ o1 :: o2 :: o3 :: o4 :: old) c
          = Ok (pre ++ Some b1 :: Some b2 :: Some b3 :: Some b4 :: old, c)) as ->.
  { unfold read_word. rewrite readReg_value by lia.
    erewrite (rd_cells_shift _ _ _ 0); [|lia|apply rd_cells_ok; unfold in_bounds, zlen; cbn [length]; lia].
    cbn [mbind res_bind]. unfold cells, le32. rewrite <-fmap_reverse, reverse_involutive, Hw.
    erewrite (wr_cells_shift _ _ _ 0); [|lia|apply wr_cells_ok; unfold in_bounds, zlen; cbn [length fmap list_fmap]; lia]. done. }
  cbn [mbind res_bind].
  change (Some b1 :: Some b2 :: Some b3 :: Some b4 :: old) with ([Some b1; Some b2; Some b3; Some b4] ++ old).
  rewrite app_assoc. rewrite (IH _ _ _ bs); [by rewrite <-app_assoc|lia..| | | |].
  - rewrite zlen_app, Hp. unfold zlen. cbn. lia.
  - lia.
  - lia.
  - intros k Hk. specialize (Hst (S k) ltac:(cbn; lia)).
    replace (4 * S k)%nat with (4 + 4 * k)%nat in Hst by lia. cbn [drop Nat.add] in Hst.
    rewrite <-Hst. do 2 f_equal. lia.
Qed.

(** A string comes back as it was stored. *)
Lemma readStr_value start len t dst :
  0 ≤ start → start + len < 2^32 → len `mod` 4 = 0 → is_text len t → zlen dst = len →
  stores r start (field_text len t) →
  ∃ m, readStr nf2 start len dst c = Ok (m, c) ∧ zlen m = len ∧ c_text m = Ok t.
Proof.
  intros H0 Hm Hmod Ht Hd Hst. destruct (c_text_field _ _ Ht) as (m & Hw & Hl & Htx).
  exists m. split; [|done]. unfold readStr.
  assert (len = len `div` 4 * 4) as Hdiv by (pose proof (Z.div_mod len 4); lia).
  assert (length (field_text len t) = Z.to_nat len) as Hf.
  { destruct Ht as [Hlt _]. unfold zlen in *. unfold field_text.
    rewrite length_app, length_replicate. lia. }
  unfold zlen in Hd.
  rewrite (readStr_loop_value _ (field_text len t) 0 _ [] dst);
    [|lia..|unfold zlen; cbn; lia|lia|lia|by rewrite Z.add_0_r].
  cbn [mbind res_bind app]. rewrite <-Hdiv. by rewrite Hw.
Qed.

(** ** The block as a whole *)

Definition lib_ok (s : nf2lib card) : Prop :=
  zlen (nf2_proj_name_v1 s) = DEV_ID_PROJ_NAME_BYTE_LEN_V1 ∧ zlen (nf2_proj_dir s) = DEV_ID_PROJ_DIR_BYTE_LEN
  ∧ zlen (nf2_proj_name s) = DEV_ID_PROJ_NAME_BYTE_LEN ∧ zlen (nf2_proj_desc s) = DEV_ID_PROJ_DESC_BYTE_LEN.

(** What the library knows after reading the card. *)
Record described (b : id_block) (s : nf2lib card) : Prop := {
  d_ok : lib_ok s;
  d_card : the_card s = c;
  d_dev : prev_dev s = nf2;
  d_have : have_version_info s = 1;
  d_prog : virtex_programmed s = if Z.land (r CPCI_REPROG_STATUS_REG) 0x100 =? 0 then 0 else 1;
  d_cver : cpci_version s = Z.land (r CPCI_ID_REG) 0xffffff;
  d_crev : cpci_revision s = Z.shiftr (r CPCI_ID_REG) 24;
  d_module : nf2_dev_id_module_version s = 2;
  d_id : nf2device_id s = ib_device b;
  d_version : nf2_version s = ib_version b;
  d_cpciv : nf2_cpci_version s = Z.land (ib_cpci b) 0xffffff;
  d_cpcir : nf2_cpci_revision s = Z.shiftr (ib_cpci b) 24;
  d_dir : c_text (nf2_proj_dir s) = Ok (ib_dir b);
  d_name : c_text (nf2_proj_name s) = Ok (ib_name b);
  d_desc : c_text (nf2_proj_desc s) = Ok (ib_desc b);
}.

Lemma wr8_head m : 0 < zlen m → ∃ m', wr8 m 0 0 = Ok m' ∧ zlen m' = zlen m.
Proof.
  intros. unfold wr8, wr_bytes.
  assert (in_bounds m 0 (zlen (cells [u8 0]))) by (change (zlen (cells [u8 0])) with 1; unfold in_bounds; lia).
  rewrite wr_cells_ok by done. eexists. split; [done|]. by rewrite zlen_splice.
Qed.

Lemma clear_virtex_value s : lib_ok s → ∃ s', clear_virtex s = Ok s' ∧ lib_ok s' ∧ the_card s' = the_card s
  ∧ prev_dev s' = prev_dev s ∧ have_version_info s' = have_version_info s
  ∧ virtex_programmed s' = virtex_programmed s ∧ cpci_version s' = cpci_version s
  ∧ cpci_revision s' = cpci_revision s.
Proof.
  unfold lib_ok, clear_virtex, DEV_ID_PROJ_NAME_BYTE_LEN_V1, DEV_ID_PROJ_DIR_BYTE_LEN,
    DEV_ID_PROJ_NAME_BYTE_LEN, DEV_ID_PROJ_DESC_BYTE_LEN.
  intros (H1 & H2 & H3 & H4).
  destruct (wr8_head (nf2_proj_name_v1 s)) as (? & -> & ?); [lia|].
  destruct (wr8_head (nf2_proj_dir s)) as (? & -> & ?); [lia|].
  destruct (wr8_head (nf2_proj_name s)) as (? & -> & ?); [lia|].
  destruct (wr8_head (nf2_proj_desc s)) as (? & -> & ?); [lia|].
  eexists. split; [done|]. cbn. split_and!; congruence.
Qed.

Lemma read_md5_value i n s : the_card s = c → 0 ≤ i → i + Z.of_nat n ≤ 4 →
  read_md5 nf2 i n s = ((λ k : nat, Some (r (DEV_ID_MD5_0_REG + (i + Z.of_nat k) * 4))) <$> seq 0 n, s).
Proof.
  intros Hs. revert i. induction n as [|n IH]; intros i Hi Hn; [done|].
  cbn [read_md5]. rewrite lib_read_value by (done || (unfold DEV_ID_MD5_0_REG; lia)).
  rewrite IH by lia. rewrite <-cons_seq. cbn [fmap list_fmap]. rewrite Z.add_0_r. do 2 f_equal.
  rewrite <-fmap_S_seq, <-list_fmap_compose. apply list_fmap_ext. intros ? k _. cbn [compose].
  do 3 f_equal. lia.
Qed.

Lemma nf2_read_info_value b s :
  the_card s = c → lib_ok s → id_block_ok b → holds_block r b →
  ∃ s', nf2_read_info nf2 s = Ok s' ∧ described b s'.
Proof.
  intros Hs Hok (Hb1 & Hb2 & Hb3 & Hdir & Hname & Hdesc) (Hm & Hid & Hver & Hcp & Sdir & Sname & Sdesc).
  unfold nf2_read_info. rewrite lib_read_value by done. cbn [mbind res_bind used mret res_ret].
  unfold isVirtexProgrammed. rewrite lib_read_value by done. cbn [mbind res_bind used mret res_ret].
  match goal with |- context [clear_virtex ?t] => destruct (clear_virtex_value t Hok)
    as (s1 & -> & Hok1 & Hc1 & Hp1 & Hh1 & Hv1 & Hcv1 & Hcr1) end.
  cbn [mbind res_bind] in *. cbn in Hc1, Hp1, Hh1, Hv1, Hcv1, Hcr1. rewrite Hs in Hc1.
  rewrite read_md5_value by (done || (unfold MD5_LEN; lia)).
  pose proof (Hm 0%nat _ eq_refl) as M0. pose proof (Hm 1%nat _ eq_refl) as M1.
  pose proof (Hm 2%nat _ eq_refl) as M2. pose proof (Hm 3%nat _ eq_refl) as M3.
  cbn [seq MD5_LEN fmap list_fmap]. rewrite !Z.add_0_l, M0, M1, M2, M3.
  cbn [md5_good DEV_ID_MD5_VALUE_V1 DEV_ID_MD5_VALUE_V2 used mbind res_bind mret res_ret].
  cbn [Z.eqb Pos.eqb andb orb]. unfold read_ids.
  repeat (rewrite lib_read_value by done; cbn [used mbind res_bind mret res_ret]).
  destruct Hok1 as (O1 & O2 & O3 & O4). unfold read_strings_v2. cbn.
  rewrite Hc1.
  destruct (readStr_value DEV_ID_PROJ_DIR_0_REG DEV_ID_PROJ_DIR_BYTE_LEN _ _ ltac:(closed) ltac:(closed) ltac:(closed) Hdir O2 Sdir)
    as (m1 & -> & L1 & T1). cbn [mbind res_bind].
  destruct (readStr_value DEV_ID_PROJ_NAME_0_REG DEV_ID_PROJ_NAME_BYTE_LEN _ _ ltac:(closed) ltac:(closed) ltac:(closed) Hname O3 Sname)
    as (m2 & -> & L2 & T2). cbn [mbind res_bind].
  destruct (readStr_value DEV_ID_PROJ_DESC_0_REG DEV_ID_PROJ_DESC_BYTE_LEN _ _ ltac:(closed) ltac:(closed) ltac:(closed) Hdesc O4 Sdesc)
    as (m3 & -> & L3 & T3). cbn [mbind res_bind].
  eexists. split; [done|]. rewrite Hid, Hver, Hcp. by constructor; [unfold lib_ok|..].
Qed.

(** The library either has not read this card or describes it. *)
Definition ready (b : id_block) (s : nf2lib card) : Prop :=
  described b s
  ∨ the_card s = c ∧ lib_ok s ∧ (have_version_info s = 0 ∨ fd (prev_dev s) ≠ fd nf2).

Lemma prep_described b s : described b s → prepDeviceInfo nf2 s = Ok s.
Proof.
  intros []. unfold prepDeviceInfo. rewrite d_have0, d_dev0, Z.eqb_refl. done.
Qed.

Lemma prep_ready b s : id_block_ok b → holds_block r b → ready b s →
  ∃ s', prepDeviceInfo nf2 s = Ok s' ∧ described b s'.
Proof.
  intros Hb Hr [Hd|(Hc & Hok & Hn)]; [by eauto using prep_described|].
  destruct (nf2_read_info_value b s) as (s' & Hi & Hd); [done..|]. exists s'. split; [|done].
  unfold prepDeviceInfo. destruct (Z.eqb_spec (have_version_info s) 0); [done|].
  destruct (Z.eqb_spec (fd (prev_dev s)) (fd nf2)); [|done]. naive_solver.
Qed.

Lemma getter_described {A} (f : nf2lib card → A) b s : described b s → getter f nf2 s = Ok (f s, s).
Proof. intros. unfold getter. by erewrite prep_described. Qed.

Lemma getProjDir_described b s : described b s → getProjDir nf2 s = Ok (ib_dir b, s).
Proof.
  intros Hd. unfold getProjDir. erewrite prep_described by done. cbn [mbind res_bind].
  destruct Hd. by rewrite d_module0, d_dir0.
Qed.
Lemma getProjName_described b s : described b s → getProjName nf2 s = Ok (ib_name b, s).
Proof.
  intros Hd. unfold getProjName. erewrite prep_described by done. cbn [mbind res_bind].
  destruct Hd. by rewrite d_module0, d_name0.
Qed.
Lemma getProjDesc_described b s : described b s → getProjDesc nf2 s = Ok (ib_desc b, s).
Proof.
  intros Hd. unfold getProjDesc. erewrite prep_described by done. cbn [mbind res_bind].
  destruct Hd. by rewrite d_module0, d_desc0.
Qed.

(** The description printed of a programmed card: every value of the block, the
    version split into its three bytes. *)
Lemma device_info_str b s : id_block_ok b → holds_block r b → ready b s →
  Z.testbit (r CPCI_REPROG_STATUS_REG) 8 = true →
  let ver := ib_version b in
  let dev := device_text_v2 (ib_dir b) (ib_name b) (ib_desc b) (ib_device b)
    (Z.land (Z.shiftr ver 16) 0xff) (Z.land (Z.shiftr ver 8) 0xff) (Z.land (Z.shiftr ver 0) 0xff)
    (Z.land (ib_cpci b) 0xffffff) (Z.shiftr (ib_cpci b) 24) in
  let text := snprintf (Z.to_nat DEVICE_INFO_STR_LEN)
    (snprintf (Z.to_nat MAX_STR_LEN) (cpci_text (Z.land (r CPCI_ID_REG) 0xffffff) (Z.shiftr (r CPCI_ID_REG) 24))
     ++ nl ++ snprintf (Z.to_nat MAX_STR_LEN) dev ++ nl) in
  ∃ s', getDeviceInfoStr nf2 s = Ok (text, s') ∧ nf2device_info s' = text.
Proof.
  intros Hb Hr Hs Hbit. destruct (prep_ready b s Hb Hr Hs) as (s1 & Hp & Hd).
  unfold getDeviceInfoStr. rewrite Hp. cbn [mbind res_bind].
  unfold getCPCIVersion, getCPCIRevision, deviceVersionStr, getDeviceIDModuleVersion, getDeviceID, getDeviceMajor,
    getDeviceMinor, getDeviceRevision, getDeviceCPCIVersion, getDeviceCPCIRevision.
  repeat (rewrite (getter_described _ b) by done; cbn [mbind res_bind]).
  rewrite (d_prog _ _ Hd), bit8_spec, Hbit. cbn [negb Z.eqb].
  rewrite (d_module _ _ Hd).
  change (2 =? UNSIGNED_MAX) with false. change (2 =? 2) with true. cbn iota.
  rewrite (getProjDir_described b) by done. cbn [mbind res_bind].
  rewrite (getProjName_described b) by done. cbn [mbind res_bind].
  rewrite (getProjDesc_described b) by done. cbn [mbind res_bind].
  repeat (rewrite (getter_described _ b) by done; cbn [mbind res_bind]).
  rewrite (d_module _ _ Hd), (d_version _ _ Hd), (d_id _ _ Hd), (d_cver _ _ Hd), (d_crev _ _ Hd),
    (d_cpciv _ _ Hd), (d_cpcir _ _ Hd).
  eexists. split; [reflexivity|]. done.
Qed.
End card.

(** ** Lengths of the texts of an error *)

Lemma dec_component_short v : is_component v → (length (dec v) ≤ 3)%nat.
Proof.
  unfold is_component. intros Hv.
  assert (Forall (λ k, length (dec (Z.of_nat k - 1)) ≤ 3)%nat (seq 0 257)) as Hall
    by (apply (bool_decide_eq_true_1 _); vm_compute; reflexivity).
  rewrite Forall_forall in Hall. specialize (Hall (Z.to_nat (v + 1))).
  rewrite elem_of_seq in Hall. rewrite Z2Nat.id in Hall by lia.
  replace (v + 1 - 1) with v in Hall by lia. apply Hall. lia.
Qed.

Lemma sprintf_ok n t : zlen t < n → sprintf n t = Ok t.
Proof. intros. unfold sprintf. by rewrite (proj2 (Z.ltb_lt _ _)). Qed.

Lemma version_str_ok a b c : is_component a → is_component b → is_component c →
  ∃ t, version_str a b c = Ok t ∧ (length t ≤ 11)%nat.
Proof.
  intros Ha%dec_component_short Hb%dec_component_short Hc%dec_component_short. unfold version_str.
  match goal with |- context [sprintf _ ?t] => assert (length t ≤ 11)%nat as Hl end.
  { repeat case_match; rewrite ?length_app; cbn [length str fmap]; cbn; lia. }
  eexists. rewrite sprintf_ok by (unfold zlen, MAX_VER_LEN; lia). done.
Qed.

Lemma version_err_ok projDir name a b c a' b' c' active :
  zlen projDir ≤ 512 → zlen name < 64 → zlen active ≤ 11 →
  is_component a → is_component b → is_component c →
  is_component a' → is_component b' → is_component c' →
  ∃ t, version_err projDir name a b c a' b' c' active = Ok t ∧ t ≠ str "GOOD".
Proof.
  unfold zlen. intros Hp Hn Hact Ha Hb Hc Ha' Hb' Hc'. unfold version_err.
  destruct (version_str_ok a b c) as (t & -> & Ht); [done..|]. cbn [mbind res_bind].
  destruct (version_str_ok a' b' c') as (t' & -> & Ht'); [done..|]. cbn [mbind res_bind].
  match goal with |- context [bitfile_err _ _ ?e _] => set (ex := e) end.
  assert (length ex ≤ 40)%nat as Hx by (subst ex; repeat case_match; rewrite ?length_app; cbn; lia).
  clearbody ex. eexists. rewrite sprintf_ok; [split; [done|]; by cbn|].
  unfold bitfile_err, zlen, DEVICE_INFO_STR_LEN. rewrite !length_app. cbn. lia.
Qed.

Lemma set_version_err_ok {card} t (s : nf2lib card) :
  zlen t < DEVICE_INFO_STR_LEN → set_version_err t s = Ok (s <| nf2_version_err := t |>).
Proof. intros. unfold set_version_err. by rewrite sprintf_ok. Qed.

(** The order of versions is the order of the numbers made of them. *)
Lemma ver_le_number a b c a' b' c' :
  0 ≤ a ≤ 255 → 0 ≤ b ≤ 255 → 0 ≤ c ≤ 255 → 0 ≤ a' ≤ 255 → 0 ≤ b' ≤ 255 → 0 ≤ c' ≤ 255 →
  ver_le (a, b, c) (a', b', c') ↔ a * 65536 + b * 256 + c ≤ a' * 65536 + b' * 256 + c'.
Proof. unfold ver_le. lia. Qed.

Lemma byte_component v k : 0 ≤ v → is_component (Z.land (Z.shiftr v k) 0xff) ∧ 0 ≤ Z.land (Z.shiftr v k) 0xff.
Proof.
  intros. change 0xff with (Z.ones 8). rewrite Z.land_ones by lia. unfold is_component.
  pose proof (Z.mod_pos_bound (Z.shiftr v k) (2^8)). lia.
Qed.

Lemma pd_component v : is_component v → (length (pd v) ≤ 3)%nat.
Proof.
  intros Hv. unfold pd. rewrite i32_id; [by apply dec_component_short|].
  unfold is_component, is_int, INT_MIN, INT_MAX in *. lia.
Qed.

(** The text of the version in use. *)
Lemma active_ok v : 0 ≤ v →
  ∃ t, sprintf MAX_VER_LEN (pd (Z.land (Z.shiftr v 16) 0xff) ++ str "." ++ pd (Z.land (Z.shiftr v 8) 0xff)
                            ++ str "." ++ pd (Z.land (Z.shiftr v 0) 0xff)) = Ok t ∧ zlen t ≤ 11.
Proof.
  intros Hv. destruct (byte_component v 16 Hv) as [C1%pd_component _].
  destruct (byte_component v 8 Hv) as [C2%pd_component _].
  destruct (byte_component v 0 Hv) as [C3%pd_component _].
  eexists. rewrite sprintf_ok; [split; [done|]|]; unfold zlen, MAX_VER_LEN; rewrite !length_app; cbn; lia.
Qed.

Section check.
Context {card : Type} {drv : Driver card}.

(** C24. On a card whose driver answers reads with the registers' values and whose
    registers hold an identification block of the second format, a call of
    checkVirtexBitfile always returns, and it accepts exactly when the Virtex is
    programmed (bit 8 of the status register), the project directory of the block
    is the expected one and the version of the block lies between the two bounds in
    the lexicographic order of versions, an unspecified component being 0 in the
    lower and 255 in the upper bound; the error text is GOOD exactly then. *)
Theorem bitfile_check_exact nf2 r (c : card) b s projDir a1 a2 a3 b1 b2 b3 :
  (∀ a, ioctl (fd nf2) SIOCREGREAD a c = (0, r (arg_reg a), c)) → (∀ x, 0 ≤ r x < 2^32) →
  id_block_ok b → holds_block r b → ready nf2 r c b s →
  is_component a1 → is_component a2 → is_component a3 →
  is_component b1 → is_component b2 → is_component b3 → zlen projDir ≤ 512 →
  ∃ ret s', checkVirtexBitfile nf2 projDir a1 a2 a3 b1 b2 b3 s = Ok (ret, s')
    ∧ (ret = 0 ∨ ret = 1) ∧ (ret = 1 ↔ getVirtexBitfileErr s' = str "GOOD")
    ∧ (ret = 1 ↔ Z.testbit (r CPCI_REPROG_STATUS_REG) 8 = true ∧ ib_dir b = projDir
        ∧ ver_le (bound_of 0 a1 a2 a3) (device_version b)
        ∧ ver_le (device_version b) (bound_of 255 b1 b2 b3)).
Proof.
  intros Hread Hreg Hb Hr Hs Ha1 Ha2 Ha3 Hb1 Hb2 Hb3 Hp.
  destruct (prep_ready nf2 r c Hread Hreg b s Hb Hr Hs) as (s1 & Hprep & Hd).
  destruct Hb as (_ & Hver & _ & [Hdl _] & [Hnl _] & _).
  unfold checkVirtexBitfile. rewrite Hprep. cbn [mbind res_bind].
  rewrite (d_prog _ _ _ _ _ Hd), bit8_spec. destruct (Z.testbit _ 8); cbn [negb Z.eqb].
  2: { rewrite set_version_err_ok by closed. eexists 0, _. split; [done|]. cbn. naive_solver. }
  pose proof (version_number_ok 0 a1 a2 a3) as Hmin. destruct (bound_of 0 a1 a2 a3) as [[x1 x2] x3].
  destruct Hmin as (-> & Hx1 & Hx2 & Hx3); [lia|done..|]. cbn [mbind res_bind].
  pose proof (version_number_ok 255 b1 b2 b3) as Hmax. destruct (bound_of 255 b1 b2 b3) as [[y1 y2] y3].
  destruct Hmax as (-> & Hy1 & Hy2 & Hy3); [lia|done..|]. cbn [mbind res_bind].
  unfold getDeviceMajor, getDeviceMinor, getDeviceRevision.
  repeat (rewrite (getter_described nf2 r c _ b) by done; cbn [mbind res_bind]).
  rewrite (d_module _ _ _ _ _ Hd), (d_version _ _ _ _ _ Hd). cbn [Z.ltb Z.compare Pos.compare Pos.compare_cont].
  rewrite virtex_number by done. set (v := ib_version b) in *.
  unfold virtex_project. rewrite (d_module _ _ _ _ _ Hd). cbn [Z.leb Z.compare Pos.compare Pos.compare_cont].
  rewrite (getProjDir_described nf2 r c b) by done. cbn [mbind res_bind].
  rewrite (getProjName_described nf2 r c b) by done. cbn [mbind res_bind mret res_ret].
  unfold device_version. fold v.
  assert (0 ≤ v `div` 65536 `mod` 256 ≤ 255 ∧ 0 ≤ v `div` 256 `mod` 256 ≤ 255 ∧ 0 ≤ v `mod` 256 ≤ 255)
    as (Hv1 & Hv2 & Hv3).
  { pose proof (Z.mod_pos_bound (v `div` 65536) 256). pose proof (Z.mod_pos_bound (v `div` 256) 256).
    pose proof (Z.mod_pos_bound v 256). lia. }
  set (ver := (_, _, _)).
  pose proof (ver_le_number x1 x2 x3 _ _ _ Hx1 Hx2 Hx3 Hv1 Hv2 Hv3) as Emin.
  pose proof (ver_le_number _ _ _ y1 y2 y3 Hv1 Hv2 Hv3 Hy1 Hy2 Hy3) as Emax.
  fold ver in Emin, Emax. case_bool_decide as Hdir; cbn [negb].
  2: { rewrite set_version_err_ok; [eexists 0, _; split; [done|]; cbn; naive_solver|].
    unfold zlen, DEVICE_INFO_STR_LEN, DEV_ID_PROJ_DIR_BYTE_LEN, DEV_ID_PROJ_NAME_BYTE_LEN in *.
    rewrite !length_app. cbn. lia. }
  destruct ((_ <? _) || (_ <? _)) eqn:Hcmp.
  - destruct (active_ok v) as (active & -> & Hact); [lia|]. cbn [mbind res_bind].
    destruct (version_err_ok projDir (ib_name b) a1 a2 a3 b1 b2 b3 active) as (t & -> & Ht); [done..|].
    cbn [mbind res_bind]. eexists 0, _. split; [done|]. cbn [getVirtexBitfileErr nf2_version_err assign].
    apply orb_true_iff in Hcmp. rewrite !Z.ltb_lt in Hcmp. rewrite Emin, Emax.
    split_and!; [by left|by split|]. split; [done|]. lia.
  - rewrite set_version_err_ok by closed. eexists 1, _. split; [done|].
    apply orb_false_iff in Hcmp. rewrite !Z.ltb_ge in Hcmp. rewrite Emin, Emax.
    split_and!; [by right|done|]. naive_solver.
Qed.
End check.

(** ** A concrete card *)

(** The words of a text in a field of [4 * n] bytes. *)
Fixpoint words_of (n : nat) (bs : list Z) : list Z :=
  match n with O => [] | S n => un_be32 (take 4 bs) :: words_of n (drop 4 bs) end.

Definition block_words (b : id_block) : list Z :=
  DEV_ID_MD5_VALUE_V2 ++ [ib_device b; ib_version b; ib_cpci b]
  ++ words_of 16 (field_text 64 (ib_dir b)) ++ words_of 16 (field_text 64 (ib_name b))
  ++ words_of 25 (field_text 100 (ib_desc b)).

(** A card that is a table of registers: the block, and a programmed Virtex. *)
Definition table_regs (ws : list Z) (x : Z) : Z :=
  if x =? CPCI_REPROG_STATUS_REG then 0x100
  else default 0 (zget ws ((x - DEV_ID_MD5_0_REG) `div` 4)).
Definition table_driver : Driver (list Z) := λ _ _ a ws, (0, table_regs ws (arg_reg a), ws).

Definition demo_block : id_block :=
  {| ib_device := 101; ib_version := 0x10101; ib_cpci := 0x01000004; ib_dir := str "packet_generator";
     ib_name := str "Packet Generator"; ib_desc := str "Packet Generator that replays PCAP files" |}.
Definition demo_card : list Z := Eval vm_compute in block_words demo_block.
Definition demo_nf2 : nf2device := {| device_name := str "nf2c0"; fd := 3; net_iface := 1 |}.

Lemma demo_block_ok : id_block_ok demo_block.
Proof. apply (bool_decide_unpack _). vm_compute. exact I. Qed.

Lemma demo_regs32 x : 0 ≤ table_regs demo_card x < 2^32.
Proof.
  assert (Forall (λ w, 0 ≤ w < 2^32) demo_card) as Hall by (apply (bool_decide_unpack _); vm_compute; exact I).
  unfold table_regs. case_match; [lia|].
  destruct (zget demo_card _) as [w|] eqn:Hw; cbn; [|lia].
  unfold zget in Hw. case_decide; [|done]. rewrite Forall_lookup in Hall. by eapply Hall.
Qed.

Lemma stores_table start bs :
  Forall (λ k : nat, be32 (table_regs demo_card (start + Z.of_nat k * 4)) = take 4 (drop (4 * k) bs))
    (seq 0 (length bs `div` 4)) → stores (table_regs demo_card) start bs.
Proof.
  intros Hall k Hk. rewrite Forall_forall in Hall. apply Hall, elem_of_seq. split; [lia|]. rewrite Nat.add_0_l.
  apply Nat.div_le_lower_bound; lia.
Qed.

Lemma demo_holds : holds_block (table_regs demo_card) demo_block.
Proof.
  unfold holds_block. split.
  { intros k w Hk. do 4 (destruct k as [|k]; [by injection Hk as <-|]). done. }
  split_and!; [reflexivity..| | |]; apply stores_table; apply (bool_decide_unpack _); vm_compute; exact I.
Qed.

Lemma bitfile_check_exact_witness :
  ∃ ret s', checkVirtexBitfile (drv := table_driver) demo_nf2 (str "packet_generator") 1 0 VERSION_ANY
      1 VERSION_ANY VERSION_ANY (nf2lib_init demo_card) = Ok (ret, s') ∧ ret = 1.
Proof.
  destruct (bitfile_check_exact (drv := table_driver) demo_nf2 (table_regs demo_card) demo_card demo_block
    (nf2lib_init demo_card) (str "packet_generator") 1 0 VERSION_ANY 1 VERSION_ANY VERSION_ANY)
    as (ret & s' & Hc & _ & _ & Hiff);
    [reflexivity|exact demo_regs32|exact demo_block_ok|exact demo_holds| |unfold is_component, VERSION_ANY; lia..|closed|].
  { right. split; [done|]. split; [closed|]. by left. }
  exists ret, s'. split; [exact Hc|]. apply Hiff. split_and!; [reflexivity|reflexivity|..];
    apply (bool_decide_unpack _); vm_compute; exact I.
Defined.
