(* ===== verification/PktGen.v ===== *)
(** * The packet generator of the NetFPGA card: pkt_gen/pkt_gen_2.c

    The program fills four transmit queues from pcap files, divides the card's
    memory between the queues, copies the queues to the card and starts the
    transmission.  All state is in global variables, here one record; registers
    are written through nf2util.c.  float and double are the IEEE formats. *)

From Stdlib Require Import SpecFloat String.
From S2P Require Import Prelude CTime CBytes MsgBuf PcapTrack CStr CFloat Nf2Util.
Open Scope Z_scope.

(** ** Constants *)

Definition MEM_SIZE : Z := 0x80000.
Definition NUM_PORTS : Z := 4.
Definition XMIT_QUEUE_SIZE : Z := 4096.
Definition MIN_RX_QUEUE_SIZE : Z := MEM_SIZE `div` (2 * NUM_PORTS) `div` 2.
Definition MIN_TX_QUEUE_SIZE : Z := 4.
Definition MAX_TX_QUEUE_SIZE : Z :=
  MEM_SIZE - NUM_PORTS * (MIN_RX_QUEUE_SIZE + XMIT_QUEUE_SIZE + MIN_TX_QUEUE_SIZE).
Definition FCS_LEN : Z := 4.
Definition OVERHEAD_LEN : Z := 8 + 12.
Definition MIN_PKT_SIZE : Z := 60.

(** The double nearest to 0.008, the time in ns as the macro computes it, and the
    clock frequency. *)
Definition USEC_PER_BYTE : spec_float := f64_div (f64_of_Z 8) (f64_of_Z 1000).
Definition NSEC_PER_BYTE : spec_float := f64_mul USEC_PER_BYTE (f64_of_Z 1000).
Definition CLK_FREQ : spec_float := f64_mul (f64_of_Z 125) (f64_of_Z (10^6)).

Definition IO_QUEUE_STAGE_NUM : Z := 0xff.
Definition PAD_CTRL_VAL : Z := 0xfd.
Definition SRAM_BASE_ADDR : Z := 0x1000000.
Definition OQ_QUEUE_0_CTRL_REG : Z := 0x2000000.
Definition OQ_QUEUE_0_ADDR_LO_REG : Z := 0x2000020.
Definition OQ_QUEUE_0_ADDR_HI_REG : Z := 0x2000024.
Definition OQ_QUEUE_0_MAX_ITER_REG : Z := 0x2000048.
Definition OQ_QUEUE_1_ADDR_LO_REG : Z := 0x2000120.
Definition OQ_QUEUE_GROUP_INST_OFFSET : Z := 0x100.
Definition DELAY_RESET_REG : Z := 0x2001100.
Definition RATE_LIMIT_0_CTRL_REG : Z := 0x2001140.
Definition RATE_LIMIT_0_TOKEN_INTERVAL_REG : Z := 0x2001144.
Definition RATE_LIMIT_0_TOKEN_INC_REG : Z := 0x2001148.
Definition RATE_LIMIT_1_CTRL_REG : Z := 0x2001180.
Definition PKT_GEN_CTRL_ENABLE_REG : Z := 0x2001400.

(** ** The global variables *)

Record pktgen (card : Type) := {
  pg_card : card;
  pg_nf2 : nf2device;
  queue_addr_offset : Z;
  total_words : Z;
  queue_words : list Z;
  queue_bytes : list Z;
  queue_pkts : list Z;
  num_pkts : list Z;
  queue_base_addr : list Z;
  sec_current : list Z;
  usec_current : list Z;
  queue_data : list mem;             (* NULL and realloc'ed blocks *)
  queue_data_len : list Z;
  rate : list spec_float;
  clks_between_tokens : list spec_float;
  number_tokens : list spec_float;
  last_len : list Z;
  last_nsec : list Z;
  last_sec : list Z;
  final_pkt_delay : list Z;
  iterations : list Z;
  usec_per_byte : list Z;            (* uint32_t, initialised with 0.008 *)
  capture_enable : Z;
  send_enable : Z;
  pad : Z;
  nodrop : Z;
}.
Arguments pg_card {_} _.
Arguments pg_nf2 {_} _.
Arguments queue_addr_offset {_} _.
Arguments total_words {_} _.
Arguments queue_words {_} _.
Arguments queue_bytes {_} _.
Arguments queue_pkts {_} _.
Arguments num_pkts {_} _.
Arguments queue_base_addr {_} _.
Arguments sec_current {_} _.
Arguments usec_current {_} _.
Arguments queue_data {_} _.
Arguments queue_data_len {_} _.
Arguments rate {_} _.
Arguments clks_between_tokens {_} _.
Arguments number_tokens {_} _.
Arguments last_len {_} _.
Arguments last_nsec {_} _.
Arguments last_sec {_} _.
Arguments final_pkt_delay {_} _.
Arguments iterations {_} _.
Arguments usec_per_byte {_} _.
Arguments capture_enable {_} _.
Arguments send_enable {_} _.
Arguments pad {_} _.
Arguments nodrop {_} _.

#[export] Instance pktgen_rebuild card : Rebuild (pktgen card) := λ s,
  {| pg_card := pg_card s; pg_nf2 := pg_nf2 s; queue_addr_offset := queue_addr_offset s;
     total_words := total_words s; queue_words := queue_words s; queue_bytes := queue_bytes s;
     queue_pkts := queue_pkts s; num_pkts := num_pkts s; queue_base_addr := queue_base_addr s;
     sec_current := sec_current s; usec_current := usec_current s; queue_data := queue_data s;
     queue_data_len := queue_data_len s; rate := rate s; clks_between_tokens := clks_between_tokens s;
     number_tokens := number_tokens s; last_len := last_len s; last_nsec := last_nsec s;
     last_sec := last_sec s; final_pkt_delay := final_pkt_delay s; iterations := iterations s;
     usec_per_byte := usec_per_byte s; capture_enable := capture_enable s; send_enable := send_enable s;
     pad := pad s; nodrop := nodrop s |}.

Definition zeros : list Z := [0; 0; 0; 0].
Definition minus_ones : list spec_float := replicate 4 (f32_of_Z (-1)).

(** The initial values.  0.008 becomes 0 in the array of integers. *)
Definition pktgen_init {card} (c : card) : pktgen card :=
  {| pg_card := c; pg_nf2 := {| device_name := []; fd := 0; net_iface := 0 |};
     queue_addr_offset := OQ_QUEUE_GROUP_INST_OFFSET; total_words := 0; queue_words := zeros;
     queue_bytes := zeros; queue_pkts := zeros; num_pkts := zeros; queue_base_addr := zeros;
     sec_current := zeros; usec_current := zeros; queue_data := [[]; []; []; []];
     queue_data_len := zeros; rate := minus_ones; clks_between_tokens := minus_ones;
     number_tokens := minus_ones; last_len := zeros; last_nsec := zeros; last_sec := zeros;
     final_pkt_delay := zeros; iterations := [1; 1; 1; 1];
     usec_per_byte := replicate 4 (u32_of_float (λ _, 0) USEC_PER_BYTE);
     capture_enable := 0; send_enable := 0; pad := 0; nodrop := 0 |}.

(** Element of one of the arrays of four. *)
Definition elt {A} (l : list A) (port : Z) : res A :=
  match zget l port with Some x => mret x | None => Fault FBounds end.

(** The loops that carry from a fraction to the seconds. *)
Fixpoint carry (fuel : nat) (limit frac sec : Z) : res (Z * Z) :=
  match fuel with
  | O => Fault FFuel
  | S fuel => if limit <? frac then carry fuel limit (frac - limit) (u32 (sec + 1)) else mret (frac, sec)
  end.

(** Enough iterations for an unsigned number: 4295 times a million and 5 times a
    billion exceed it. *)
Definition usec_fuel : nat := 4296.
Definition nsec_fuel : nat := 6.

Section pktgen.
Context {card : Type} {drv : Driver card}.
(** What converting a number out of range to uint32_t gives. *)
Context (oor : spec_float → Z).
Implicit Types s : pktgen card.

(** A register write whose result is ignored. *)
Definition wreg (reg val : Z) s : pktgen card :=
  s <| pg_card := (writeReg (pg_nf2 s) reg val (pg_card s)).2 |>.

Definition DEFAULT_IFACE : cstring := str "nf2c0".

Definition init (o : sys) s : res (pktgen card) :=
  '(r, d) ← check_iface o (pg_nf2 s <| device_name := DEFAULT_IFACE |>);
  if negb (r =? 0) then Fault (FExit 1)
  else
    '(r, d) ← openDescriptor o d;
    if negb (r =? 0) then Fault (FExit 1) else mret (s <| pg_nf2 := d |>).

Definition packet_generator_enable (status : Z) s : Z * pktgen card :=
  let '(r, c) := writeReg (pg_nf2 s) PKT_GEN_CTRL_ENABLE_REG status (pg_card s) in
  (r, s <| pg_card := c |>).

(** ** Loading a packet *)

(** The distance to the previous packet of the file, unless a delay is given. *)
Definition packet_delay (sec usec port delay : Z) s : res Z :=
  if delay =? -1 then
    sc ← elt (sec_current s) port;
    uc ← elt (usec_current s) port;
    d ← chk_int (i32 (u32 (sec - sc)) * 1000000);
    chk_int (i32 (u32 (u32 (usec + d) - uc)) * 1000)
  else mret delay.

(** Append a control byte and eight bytes to a queue. *)
Definition append_word (port ctrl : Z) (payload : mem) s : res (pktgen card) :=
  pointer ← elt (queue_data_len s) port;
  q ← elt (queue_data s) port;
  let n := u32 (pointer + 9) in
  let q := realloc q n in
  q ← wr8 q pointer ctrl;
  q ← wr_cells q (pointer + 1) payload;
  mret (s <| queue_data_len := zset (queue_data_len s) port n |>
          <| queue_data := zset (queue_data s) port q |>).

(** A module header: two words in network order. *)
Definition append_header (port ctrl words_ports len_port : Z) s : res (pktgen card) :=
  append_word port ctrl (cells (be32 words_ports ++ be32 len_port)) s.

(** The control byte of the last word tells how many of its bytes are used. *)
Definition last_ctrl (len : Z) : Z :=
  let ctrl := Z.shiftr 0x100 (len `mod` 8) in
  Z.lor (Z.land ctrl 0xff) (if ctrl =? 0x100 then 1 else 0).

(** The words of the packet; eight bytes are copied whatever is left. *)
Fixpoint append_data (fuel : nat) (port non_pad_word_len non_pad_len count i : Z) (data : mem) s :
    res (pktgen card) :=
  match fuel with
  | O => Fault FFuel
  | S fuel =>
    if i <? count then
      let ctrl := if i `div` 8 =? u32 (non_pad_word_len - 1) then last_ctrl non_pad_len else 0 in
      payload ← rd_cells data i 8;
      s ← append_word port ctrl payload s;
      append_data fuel port non_pad_word_len non_pad_len count (u32 (i + 8)) data s
    else mret s
  end.
Definition data_fuel (count : Z) : nat := Z.to_nat (count `div` 8 + 2).

(** Count the packet and advance the clock of the port. *)
Definition account (sec usec len packet_words port : Z) s : res (pktgen card) :=
  w ← elt (queue_words s) port;
  b ← elt (queue_bytes s) port;
  p ← elt (queue_pkts s) port;
  pb ← elt (usec_per_byte s) port;
  '(u, sec) ← carry usec_fuel (10^6) (u32 (usec + u32 (u32 (len + 4) * pb))) sec;
  mret (s <| total_words := i32 (u32 (total_words s + packet_words)) |>
          <| queue_words := zset (queue_words s) port (u32 (w + packet_words)) |>
          <| queue_bytes := zset (queue_bytes s) port (u32 (b + len)) |>
          <| queue_pkts := zset (queue_pkts s) port (u32 (p + 1)) |>
          <| sec_current := zset (sec_current s) port sec |>
          <| usec_current := zset (usec_current s) port u |>).

(** ns of a number of bytes. *)
Definition nsec_of (bytes : Z) : spec_float := f64_mul (f64_of_Z bytes) NSEC_PER_BYTE.
Definition limited (r : spec_float) : bool := SFleb (f32_of_Z 1) r.

(** The delay the rate limiter adds after [bytes], in ns. *)
Definition delay_of_rate (lastlen : Z) (r tokens clks : spec_float) : Z :=
  if limited r then
    let d := u32_of_float oor (sf_ceil (f64_of (f32_div (f32_of_Z lastlen) tokens))) in
    u32_of_float oor (f64_mul (f64_of_Z d) (f64_mul (f64_of clks) NSEC_PER_BYTE))
  else 0.

(** The time between the packets; all arithmetic on unsigned variables, so
    the test for a negative number never succeeds. *)
Definition delay_between (len lastlen delay_hdr delay_rate : Z) : Z :=
  let d := if delay_rate <? delay_hdr then delay_hdr else delay_rate in
  let d := u32_of_float oor (f64_sub (f64_of_Z d) (nsec_of (u32 (lastlen + FCS_LEN)))) in
  let d := if d <? 0 then 0 else d in
  let wire := u32 (u32 ((if MIN_PKT_SIZE <? len then len else MIN_PKT_SIZE) + FCS_LEN) + OVERHEAD_LEN) in
  u32_of_float oor (f64_add (f64_of_Z d) (nsec_of wire)).

Definition final_delay (len : Z) (r tokens clks : spec_float) : Z :=
  if limited r then
    let d := u32_of_float oor (sf_ceil (f64_of (f32_div (f32_of_Z (u32 (len + FCS_LEN))) tokens))) in
    let d := u32_of_float oor (f32_mul (f32_of_Z d) clks) in
    let d := u32 (d - u32 (len + FCS_LEN)) in
    u32_of_float oor (nsec_of d)
  else 0.

Definition update_times (len port delay : Z) s : res (pktgen card) :=
  ll ← elt (last_len s) port;
  ln ← elt (last_nsec s) port;
  ls ← elt (last_sec s) port;
  r ← elt (rate s) port;
  nt ← elt (number_tokens s) port;
  ck ← elt (clks_between_tokens s) port;
  let delay_max := delay_between len ll (u32 delay) (delay_of_rate ll r nt ck) in
  '(n, sec) ← carry nsec_fuel (10^9) (u32 (ln + delay_max)) ls;
  mret (s <| last_nsec := zset (last_nsec s) port n |> <| last_len := zset (last_len s) port len |>
          <| last_sec := zset (last_sec s) port sec |>
          <| final_pkt_delay := zset (final_pkt_delay s) port (final_delay len r nt ck) |>).

Definition words_of_len (len : Z) : Z :=
  u32_of_float oor (sf_ceil (f64_of (f32_div (f32_of_Z len) (f32_of_Z 8)))).

(** The module header, the pad header and the data. *)
Definition append_packet (port word_len len non_pad_word_len non_pad_len : Z) (write_pad : bool) (data : mem) s :
    res (pktgen card) :=
  let src_port := 0 in
  let dst_port := u32 (Z.shiftl 0x100 port) in
  s ← append_header port IO_QUEUE_STAGE_NUM (Z.lor non_pad_word_len (u32 (Z.shiftl dst_port 16)))
        (Z.lor non_pad_len (u32 (Z.shiftl src_port 16))) s;
  s ← (if write_pad then
         append_header port PAD_CTRL_VAL (Z.lor word_len (u32 (Z.shiftl dst_port 16)))
           (Z.lor len (u32 (Z.shiftl src_port 16))) s
       else mret s);
  let count := if pad s =? 0 then len else non_pad_word_len in
  append_data (data_fuel count) port non_pad_word_len non_pad_len count 0 data s.

(** A full queue is reported and the packet skipped; the result is 0 in all
    cases. *)
Definition load_packet (h : pcap_pkthdr) (data : mem) (port delay : Z) s : res (Z * pktgen card) :=
  let sec := u32 (tv_sec (ts h)) in
  let usec := u32 (tv_usec (ts h)) in
  let len := pkt_len h in
  let word_len := words_of_len len in
  delay ← packet_delay sec usec port delay s;
  let write_pad := negb (pad s =? 0) && (64 <? len) in
  let non_pad_len := if write_pad then 64 else len in
  let non_pad_word_len := if write_pad then 8 else word_len in
  let packet_words := u32 (non_pad_word_len + 1 + (if 0 <? delay then 1 else 0) + (if write_pad then 1 else 0)) in
  if MAX_TX_QUEUE_SIZE <? u32 (packet_words + total_words s) then mret (0, s)
  else
    s ← account sec usec len packet_words port s;
    s ← append_packet port word_len len non_pad_word_len non_pad_len write_pad data s;
    s ← update_times len port delay s;
    mret (0, s).

(** The packets of a file, as pcap_next returns them. *)
Fixpoint load_packets (pkts : list (pcap_pkthdr * mem)) (port delay : Z) s : res (pktgen card) :=
  match pkts with
  | [] => mret s
  | (h, data) :: pkts =>
    '(r, s) ← load_packet h data port delay s;
    if r =? 0 then
      n ← elt (num_pkts s) port;
      load_packets pkts port delay (s <| num_pkts := zset (num_pkts s) port (u32 (n + 1)) |>)
    else mret s
  end.

(** [file] is None when the file cannot be opened. *)
Definition load_pcap (file : option (list (pcap_pkthdr * mem))) (port delay : Z) s : res (pktgen card) :=
  match file with
  | None => Fault (FExit 1)
  | Some pkts => load_packets pkts port delay s
  end.

(** ** Iterations and the rate limiter *)

(** The second argument is not used. *)
Definition set_number_iterations (number_iterations iterations_enable queue : Z) s : Z * pktgen card :=
  let off := (queue + 2 * NUM_PORTS) * queue_addr_offset s in
  let s := wreg (OQ_QUEUE_0_CTRL_REG + off) 0x1 s in
  (0, wreg (OQ_QUEUE_0_MAX_ITER_REG + off) number_iterations s).

Definition rate_limit_offset : Z := RATE_LIMIT_1_CTRL_REG - RATE_LIMIT_0_CTRL_REG.

Definition rate_limiter_enable (queue : Z) s : Z * pktgen card :=
  (0, wreg (RATE_LIMIT_0_CTRL_REG + queue * rate_limit_offset) 0x1 s).
Definition rate_limiter_disable (queue : Z) s : Z * pktgen card :=
  (0, wreg (RATE_LIMIT_0_CTRL_REG + queue * rate_limit_offset) 0x0 s).

Definition queue_name (queue : Z) : cstring :=
  if (queue <? 0) || (12 <=? queue) then str "Invalid queue"
  else if queue <? 8 then (if queue `mod` 2 =? 0 then str "MAC Queue " else str "CPU Queue ")
  else str "MAC Queue ".

Definition epsilon : spec_float := f32_of (f64_div (f64_of_Z 1) (f64_of_Z 1000)).
Definition MAX_TOKENS : Z := 84.

(** [number_tokens - floor(number_tokens)] of an unsigned number. *)
Definition token_fraction (n : Z) : spec_float := f64_sub (f64_of_Z n) (sf_floor (f64_of_Z n)).
Definition not_whole (n : Z) : bool := SFltb (f64_of epsilon) (token_fraction n).

(** The search for a whole number of tokens: [delta] is an int that is compared
    with unsigned variables. *)
Fixpoint token_loop (fuel : nat) (token_inc tokens clks min_delta min_delta_clk : Z) : res (Z * Z * Z) :=
  match fuel with
  | O => Fault FFuel
  | S fuel =>
    if ((tokens <? 1) || not_whole tokens) && (tokens <? MAX_TOKENS) then
      let tokens := u32 (tokens + token_inc) in
      let clks := u32 (clks + 1) in
      let delta := u32 (default 0 (sf_trunc (token_fraction tokens))) in
      let better := (1 <? tokens) && (delta <? min_delta) in
      token_loop fuel token_inc tokens clks (if better then delta else min_delta)
        (if better then clks else min_delta_clk)
    else mret (tokens, clks, min_delta_clk)
  end.

(** The number of tokens in the first clock tick: a quotient of floats stored in
    an unsigned variable. *)
Definition first_tokens (r : spec_float) : Z :=
  let r := f32_div (f32_mul r (f32_of_Z 1000)) (f32_of_Z 8) in
  u32_of_float oor (f64_div (f64_of (f32_mul r (f32_of_Z 1))) CLK_FREQ).

(** The rate that results, which is computed at the end only to be printed, is left
    out. *)
Definition rate_limiter_set (fuel : nat) (queue : Z) (r : spec_float) s : res (Z * pktgen card) :=
  if SFltb r (f32_of_Z 1) then mret (0, s)
  else
    let token_inc := first_tokens r in
    '(tokens, clks, min_delta_clk) ← token_loop fuel token_inc token_inc 1 1 1;
    let adjust := not_whole tokens in
    let clks := if adjust then min_delta_clk else clks in
    let tokens := if adjust then u32 (token_inc * clks) else tokens in
    let s := wreg (RATE_LIMIT_0_TOKEN_INTERVAL_REG + queue * rate_limit_offset) clks s in
    mret (1, wreg (RATE_LIMIT_0_TOKEN_INC_REG + queue * rate_limit_offset) tokens s).

(** ** Dividing the memory *)

Definition get_queue_size (port : Z) s : res Z :=
  w ← elt (queue_words s) port;
  mret (if w <? MIN_TX_QUEUE_SIZE then MIN_TX_QUEUE_SIZE else i32 w).

Definition oq_offset : Z := OQ_QUEUE_1_ADDR_LO_REG - OQ_QUEUE_0_ADDR_LO_REG.

(** The bounds of one queue, and its initialisation. *)
Definition place_queue (i lo size : Z) s : pktgen card :=
  let s := wreg (OQ_QUEUE_0_ADDR_LO_REG + i * oq_offset) lo s in
  let s := wreg (OQ_QUEUE_0_ADDR_HI_REG + i * oq_offset) (u32 (lo + size - 1)) s in
  wreg (OQ_QUEUE_0_CTRL_REG + i * oq_offset) 0x02 s.

Fixpoint ctrl_all (n : nat) (i val : Z) s : pktgen card :=
  match n with O => s | S n => ctrl_all n (i + 1) val (wreg (OQ_QUEUE_0_CTRL_REG + i * oq_offset) val s) end.

Fixpoint free_words (n : nat) (i free : Z) s : res Z :=
  match n with
  | O => mret free
  | S n => q ← get_queue_size i s; free_words n (i + 1) (u32 (free - q)) s
  end.

(** The receive queues share what is left; the first gets the remainder. *)
Definition rx_queue_size (queue_free i : Z) : Z :=
  let r := u32_of_float oor (sf_floor (f64_of (f32_div (f32_of_Z queue_free) (f32_of_Z NUM_PORTS)))) in
  if i =? 0 then u32 (r + u32 (queue_free - u32 (NUM_PORTS * r))) else r.

Fixpoint place_rx (n : nat) (i queue_free curr : Z) s : Z * pktgen card :=
  match n with
  | O => (curr, s)
  | S n =>
    let s := place_queue (i * 2) curr XMIT_QUEUE_SIZE s in
    let curr := u32 (curr + XMIT_QUEUE_SIZE) in
    let size := rx_queue_size queue_free i in
    let s := place_queue (i * 2 + 1) curr size s in
    place_rx n (i + 1) queue_free (u32 (curr + size)) s
  end.

Fixpoint place_tx (n : nat) (i curr : Z) s : res (pktgen card) :=
  match n with
  | O => mret s
  | S n =>
    size ← get_queue_size i s;
    let s := place_queue (i + 2 * NUM_PORTS) curr size s in
    place_tx n (i + 1) (u32 (curr + size)) (s <| queue_base_addr := zset (queue_base_addr s) i (i32 curr) |>)
  end.

Definition queue_reorganize s : res (Z * pktgen card) :=
  queue_free ← free_words 4 0 (u32 (MEM_SIZE - NUM_PORTS * XMIT_QUEUE_SIZE)) s;
  let s := ctrl_all 12 0 0x00 s in
  let '(curr, s) := place_rx 4 0 queue_free 0 s in
  s ← place_tx 4 0 curr s;
  mret (0, ctrl_all 8 0 0x01 s).

(** ** Copying a queue to the card *)

(** [htonl] of four bytes in memory is the number they are in network order. *)
Fixpoint load_words (fuel : nat) (i n sram_addr : Z) (q : mem) s : res (pktgen card) :=
  match fuel with
  | O => Fault FFuel
  | S fuel =>
    if i <? n then
      c ← rd8 q i;
      a ← rd32be q (i + 1);
      b ← rd32be q (i + 5);
      let s := wreg (sram_addr + 0x4) c s in
      let s := wreg (sram_addr + 0x8) a s in
      let s := wreg (sram_addr + 0xc) b s in
      load_words fuel (i + 9) n (u32 (sram_addr + 16)) q s
    else mret s
  end.

Definition load_queues (queue : Z) s : res (Z * pktgen card) :=
  base ← elt (queue_base_addr s) queue;
  n ← elt (queue_data_len s) queue;
  q ← elt (queue_data s) queue;
  s ← load_words (Z.to_nat (n `div` 9 + 2)) 0 n (u32 (SRAM_BASE_ADDR + base * 16)) q s;
  mret (0, s).

(** ** Sending *)

(** The double nearest to 10^-9. *)
Definition NANO : spec_float := f64_div (f64_of_Z 1) (f64_of_Z (10^9)).
Definition one : spec_float := f64_of_Z 1.

Definition queue_last (sec nsec fin it : Z) : spec_float :=
  let q := f64_add (f64_mul (f64_of_Z sec) one) (f64_mul (f64_of_Z nsec) NANO) in
  let q := f64_mul q (f64_mul (f64_of_Z it) one) in
  f64_add q (f64_mul (f64_mul (f64_of_Z fin) NANO) (f64_sub (f64_of_Z it) one)).

Fixpoint last_packet (n : nat) (i : Z) (last_pkt : spec_float) s : res spec_float :=
  match n with
  | O => mret last_pkt
  | S n =>
    len ← elt (queue_data_len s) i;
    l ← (if len =? 0 then mret last_pkt
         else
           sec ← elt (last_sec s) i;
           nsec ← elt (last_nsec s) i;
           fin ← elt (final_pkt_delay s) i;
           it ← elt (iterations s) i;
           let q := queue_last sec nsec fin it in
           mret (if SFltb (f64_of last_pkt) q then f32_of q else last_pkt));
    last_packet n (i + 1) l s
  end.

(** The waiting loop; the list holds what time() returns after each second. *)
Fixpoint wait_loop (clock : list Z) (start : Z) (delta last_pkt : spec_float) : res unit :=
  if SFleb delta last_pkt then
    match clock with
    | [] => Fault FFuel
    | t :: clock => wait_loop clock start (f32_of_Z (u32 (t - start))) last_pkt
    end
  else mret tt.

Definition wait_for_last_packet (clock : list Z) (start : Z) s : res unit :=
  last_pkt ← last_packet 4 0 (f32_of_Z 0) s;
  wait_loop clock start (f32_of_Z 0) last_pkt.

Definition reset_delay s : pktgen card := wreg DELAY_RESET_REG 1 s.
Definition disable_queue (queue : Z) s : pktgen card :=
  wreg (OQ_QUEUE_0_CTRL_REG + queue * queue_addr_offset s) 0x0 s.

Fixpoint disable_queues (n : nat) (i : Z) s : pktgen card :=
  match n with O => s | S n => disable_queues n (i + 1) (disable_queue (i + 8) s) end.

Definition finish_gen s : pktgen card :=
  let s := disable_queues 4 0 s in
  let s := Nat.iter 1024 reset_delay s in
  let s := (packet_generator_enable 0x0 s).2 in
  reset_delay s.

(** ** main *)

Fixpoint load_all (n : nat) (i : Z) s : res (pktgen card) :=
  match n with
  | O => mret s
  | S n =>
    len ← elt (queue_data_len s) i;
    s ← (if len =? 0 then mret s else '(_, s) ← load_queues i s; mret s);
    load_all n (i + 1) s
  end.

Fixpoint setup_ports (n : nat) (i : Z) s : res (pktgen card) :=
  match n with
  | O => mret s
  | S n =>
    len ← elt (queue_data_len s) i;
    it ← elt (iterations s) i;
    r ← elt (rate s) i;
    let s := if len =? 0 then s else (set_number_iterations (i32 it) 1 i s).2 in
    let s := if SFltb (f32_of_Z 0) r then (rate_limiter_enable (i * 2) s).2
             else (rate_limiter_disable (i * 2) s).2 in
    setup_ports n (i + 1) s
  end.

Fixpoint enable_cpu (n : nat) (i : Z) s : pktgen card :=
  match n with O => s | S n => enable_cpu n (i + 1) (rate_limiter_enable (i * 2 + 1) s).2 end.

(** The statements of main, in order.  [start] is the time when the generator is
    enabled and [clock] the later readings. *)
Definition main_steps (fuel : nat) (o : sys) (file : option (list (pcap_pkthdr * mem))) (start : Z)
    (clock : list Z) : list (pktgen card → res (pktgen card)) :=
  [ init o;
    λ s, let '(r, s) := packet_generator_enable 0x0 s in
         if negb (r =? 0) then Fault (FExit 1) else mret s;
    λ s, load_pcap file 2 0 (s <| send_enable := 1 |> <| pad := 0 |>);
    λ s, '(_, s) ← queue_reorganize s; mret s;
    load_all 4 0;
    setup_ports 4 0;
    λ s, '(_, s) ← rate_limiter_set fuel 4 (f32_of_Z 200000) s; mret s;
    λ s, mret (rate_limiter_enable 4 s).2;
    λ s, mret (enable_cpu 4 0 s);
    λ s, mret (packet_generator_enable 0xF s).2;
    λ s, _ ← (if send_enable s =? 0 then mret tt else wait_for_last_packet clock start s); mret s;
    λ s, mret (finish_gen s) ].

Fixpoint run_steps (l : list (pktgen card → res (pktgen card))) s : res (pktgen card) :=
  match l with [] => mret s | f :: l => s ← f s; run_steps l s end.

Definition main (fuel : nat) (o : sys) (file : option (list (pcap_pkthdr * mem))) (start : Z) (clock : list Z) s :
    res (Z * pktgen card) :=
  s ← run_steps (main_steps fuel o file start clock) s;
  mret (0, s).
End pktgen.
