(* ===== verification/PktGenSpec.v ===== *)
(** * What the packet generator puts on the card

    The bookkeeping of the queues is an invariant of loading packets; from it
    follow the division of the card's memory between the twelve queues and that
    the words a queue sends are the packets that were loaded.  The search of the
    rate limiter does not end for rates below one token per clock tick. *)

From Stdlib Require Import SpecFloat String.
From S2P Require Import Prelude CTime CBytes MsgBuf PcapTrack CStr CFloat Nf2Util PktGen Nf2Spec.
Open Scope Z_scope.

(** ** Arithmetic of the code *)

Lemma words_of_len_exact oor len : 0 ≤ len < 2^24 → words_of_len oor len = (len + 7) `div` 8.
Proof.
  intros Hl. unfold words_of_len. assert (- ((- len) `div` 2^3) = (len + 7) `div` 8) as Hd.
  { change (2^3) with 8. Z.to_euclidean_division_equations; lia. }
  apply u32_of_float_trunc; [|Z.to_euclidean_division_equations; lia].
  rewrite <-Hd. by apply (ceil_f32_div len 3).
Qed.

Lemma rx_queue_size_exact oor free i : 0 ≤ free < 2^24 →
  rx_queue_size oor free i = free `div` 4 + (if i =? 0 then free `mod` 4 else 0).
Proof.
  intros Hf. unfold rx_queue_size, NUM_PORTS.
  rewrite (u32_of_float_trunc oor _ (free `div` 4));
    [|by apply (floor_f32_div free 2)|Z.to_euclidean_division_equations; lia].
  pose proof (Z.div_mod free 4). pose proof (Z.mod_pos_bound free 4).
  assert (0 ≤ free `div` 4) by (apply Z.div_pos; lia).
  case_match; [|lia]. unfold u32. rewrite !(Z.mod_small (4 * _)) by lia.
  rewrite (Z.mod_small (free - _)) by lia. rewrite Z.mod_small; lia.
Qed.

Lemma carry_ok fuel limit frac sec : 0 < limit → 0 ≤ frac < limit * Z.of_nat fuel →
  ∃ r, carry fuel limit frac sec = Ok r.
Proof.
  intros Hl. revert frac sec. induction fuel as [|fuel IH]; intros frac sec Hf; [lia|]. cbn [carry].
  destruct (Z.ltb_spec limit frac) as [H|H]; [apply IH; lia|]. by eexists.
Qed.

Lemma usec_fuel_Z : Z.of_nat usec_fuel = 4296.
Proof. by vm_compute. Qed.
Lemma nsec_fuel_Z : Z.of_nat nsec_fuel = 6.
Proof. done. Qed.

Lemma elt_get {A} (l : list A) i x : zget l i = Some x → elt l i = Ok x.
Proof. intros H. unfold elt. by rewrite H. Qed.

Lemma elt_ok {A} (l : list A) i : zlen l = 4 → 0 ≤ i < 4 → ∃ x, elt l i = Ok x.
Proof. intros Hl Hi. destruct (zget_in_bounds l i) as [x Hx]; [lia|]. exists x. by apply elt_get. Qed.

Definition zsum (l : list Z) : Z := foldr Z.add 0 l.

Lemma zsum_zset l i x y : zget l i = Some x → zsum (zset l i y) = zsum l - x + y.
Proof.
  unfold zget, zset. case_decide; [|done]. generalize (Z.to_nat i). clear.
  induction l as [|a l IH]; intros [|n] Hn; simplify_eq/=; [lia|]. rewrite IH by done. lia.
Qed.


(** ** The invariant of the queues *)

Section inv.
Context {card : Type} {drv : Driver card} (oor : spec_float → Z).
Implicit Types s : pktgen card.

(** The arrays have an element for each port. *)
Definition sized s : Prop :=
  zlen (queue_words s) = 4 ∧ zlen (queue_bytes s) = 4 ∧ zlen (queue_pkts s) = 4 ∧ zlen (num_pkts s) = 4
  ∧ zlen (queue_base_addr s) = 4 ∧ zlen (sec_current s) = 4 ∧ zlen (usec_current s) = 4
  ∧ zlen (queue_data s) = 4 ∧ zlen (queue_data_len s) = 4 ∧ zlen (rate s) = 4
  ∧ zlen (clks_between_tokens s) = 4 ∧ zlen (number_tokens s) = 4 ∧ zlen (last_len s) = 4
  ∧ zlen (last_nsec s) = 4 ∧ zlen (last_sec s) = 4 ∧ zlen (final_pkt_delay s) = 4
  ∧ zlen (iterations s) = 4 ∧ zlen (usec_per_byte s) = 4.

(** The data of a port and its length. *)
Definition has (port : Z) (q : mem) s : Prop :=
  zget (queue_data s) port = Some q ∧ zget (queue_data_len s) port = Some (zlen q).
Definition put (port : Z) (q : mem) s : pktgen card :=
  s <| queue_data_len := zset (queue_data_len s) port (zlen q) |> <| queue_data := zset (queue_data s) port q |>.

(** Whole words are stored, never more than were counted; the counts add up to
    the total, which stays below the space for transmit queues. *)
Record pg_inv s : Prop := {
  inv_sized : sized s;
  inv_port : ∀ p, 0 ≤ p < 4 → ∃ w q k, zget (queue_words s) p = Some w ∧ has p q s
    ∧ zlen q = 9 * k ∧ 0 ≤ k ≤ w;
  inv_sum : zsum (queue_words s) = total_words s;
  inv_max : total_words s ≤ MAX_TX_QUEUE_SIZE;
}.

Lemma put_put port q q' s : put port q' (put port q s) = put port q' s.
Proof. unfold put. cbn. by rewrite !zset_zset. Qed.

Lemma has_put port q s : sized s → 0 ≤ port < 4 → has port q (put port q s).
Proof. intros Hs Hp. unfold sized in Hs. unfold has, put. cbn. rewrite !zget_zset_eq by lia. done. Qed.

Lemma sized_put port q s : sized s → sized (put port q s).
Proof. unfold sized, put. cbn. by rewrite !zlen_zset. Qed.

Lemma put_has port q s : has port q s → put port q s = s.
Proof.
  intros [H1 H2]. unfold put. cbn. rewrite (zset_id _ _ _ H1), (zset_id _ _ _ H2). by destruct s.
Qed.

(** ** Appending words *)

Definition word_cells (ctrl : Z) (payload : mem) : mem := Some (u8 ctrl) :: payload.

Lemma zlen_word_cells ctrl payload : zlen (word_cells ctrl payload) = zlen payload + 1.
Proof. unfold word_cells. change (Some ?a :: ?l) with ([Some a] ++ l). rewrite zlen_app. change (zlen [_]) with 1. lia. Qed.

Lemma append_word_ok port ctrl payload q s :
  has port q s → zlen payload = 8 → zlen q + 9 < 2^32 →
  append_word port ctrl payload s = Ok (put port (q ++ word_cells ctrl payload) s).
Proof.
  intros [Hq Hn] Hp Hl. pose proof (zlen_nonneg q). unfold append_word.
  rewrite (elt_get _ _ _ Hn), (elt_get _ _ _ Hq). cbn [mbind res_bind].
  rewrite u32_id by lia. unfold realloc.
  rewrite take_ge by (unfold zlen in *; lia). replace (zlen q + 9 - zlen q) with 9 by lia.
  unfold wr8, wr_bytes.
  erewrite (wr_cells_shift _ _ _ 0); [|lia|done]. cbn [mbind res_bind].
  destruct payload as [|a [|b [|c [|d [|e [|f [|g [|h [|]]]]]]]]]; unfold zlen in Hp; cbn [length] in Hp; try lia.
  erewrite (wr_cells_shift _ _ _ 1); [|lia|done]. cbn [mbind res_bind mret res_ret].
  unfold put. repeat f_equal. rewrite zlen_app, zlen_word_cells. unfold zlen. cbn. lia.
Qed.

(** The words of a packet from byte [i] on. *)
Fixpoint data_cells (n : nat) (i wl len : Z) (data : mem) : mem :=
  match n with
  | O => []
  | S n => word_cells (if i `div` 8 =? u32 (wl - 1) then last_ctrl len else 0) (slice data i 8)
           ++ data_cells n (i + 8) wl len data
  end.

Lemma zlen_data_cells n i wl len data : 0 ≤ i → in_bounds data i (8 * Z.of_nat n) →
  zlen (data_cells n i wl len data) = 9 * Z.of_nat n.
Proof.
  revert i. induction n as [|n IH]; intros i Hi Hb; [done|]. cbn [data_cells].
  unfold in_bounds in *. rewrite zlen_app, IH, zlen_word_cells, zlen_slice by (unfold in_bounds; lia). lia.
Qed.

Lemma append_data_ok n fuel port wl len count i data q s :
  (n < fuel)%nat → 0 ≤ port < 4 → sized s → has port q s → 0 ≤ i → i + 8 * Z.of_nat n < 2^32 →
  count ≤ i + 8 * Z.of_nat n → (n ≠ 0%nat → i + 8 * (Z.of_nat n - 1) < count) →
  in_bounds data i (8 * Z.of_nat n) → zlen q + 9 * Z.of_nat n < 2^32 →
  append_data fuel port wl len count i data s = Ok (put port (q ++ data_cells n i wl len data) s).
Proof.
  revert fuel i q s. induction n as [|n IH]; intros fuel i q s Hf Hp Hs Hq Hi Hm Hc1 Hc2 Hb Hl;
    (destruct fuel as [|fuel]; [lia|]); cbn [append_data data_cells].
  { rewrite (proj2 (Z.ltb_ge _ _)) by lia. rewrite app_nil_r, put_has by done. done. }
  rewrite (proj2 (Z.ltb_lt _ _)) by (specialize (Hc2 ltac:(done)); lia).
  unfold in_bounds in Hb. rewrite rd_cells_ok by (unfold in_bounds; lia). cbn [mbind res_bind].
  erewrite append_word_ok; [|done|rewrite zlen_slice; [done|unfold in_bounds; lia]|lia]. cbn [mbind res_bind].
  rewrite u32_id by lia. set (w := word_cells _ _).
  assert (zlen w = 9) as Hw by (subst w; rewrite zlen_word_cells, zlen_slice by (unfold in_bounds; lia); done).
  rewrite (IH _ _ (q ++ w)); [|lia|done|by apply sized_put|by apply has_put|lia..|intros; lia
    |unfold in_bounds; lia|rewrite zlen_app; lia].
  by rewrite put_put, <-app_assoc.
Qed.

Lemma append_data_short n fuel port wl len count i data q s :
  0 ≤ port < 4 → sized s → has port q s → 0 ≤ i → i + 8 * Z.of_nat n < 2^32 →
  (n ≠ 0%nat → i + 8 * (Z.of_nat n - 1) < count) →
  ¬ in_bounds data i (8 * Z.of_nat n) → i ≤ zlen data → zlen q + 9 * Z.of_nat n < 2^32 →
  ∃ f, append_data fuel port wl len count i data s = Fault f.
Proof.
  revert fuel i q s. induction n as [|n IH]; intros fuel i q s Hp Hs Hq Hi Hm Hc2 Hb Hd Hl.
  { exfalso. apply Hb. unfold in_bounds. lia. }
  destruct fuel as [|fuel]; cbn [append_data]; [by eexists|].
  rewrite (proj2 (Z.ltb_lt _ _)) by (specialize (Hc2 ltac:(done)); lia).
  destruct (decide (in_bounds data i 8)) as [H8|H8].
  - rewrite rd_cells_ok by done. cbn [mbind res_bind].
    erewrite append_word_ok; [|done|by rewrite zlen_slice|lia]. cbn [mbind res_bind].
    rewrite u32_id by lia. eapply IH; [done|by apply sized_put|by apply has_put|lia..| |unfold in_bounds in H8; lia|].
    + intros Hn. apply Hb. unfold in_bounds in *. lia.
    + rewrite zlen_app, zlen_word_cells, zlen_slice by done. lia.
  - unfold rd_cells. rewrite decide_False by done. by eexists.
Qed.

(** ** The other steps of load_packet *)

(** The part of the state that loading a packet does not touch. *)
Definition same_card s s' : Prop :=
  pg_card s' = pg_card s ∧ pg_nf2 s' = pg_nf2 s ∧ queue_base_addr s' = queue_base_addr s ∧ pad s' = pad s
  ∧ queue_addr_offset s' = queue_addr_offset s.

Ltac elts :=
  repeat match goal with
  | |- context [elt ?l ?p] =>
    let x := fresh "x" in let H := fresh "H" in
    destruct (elt_ok l p) as [x H]; [done|done|]; rewrite (bind_val _ _ _ H); cbv beta
  end.

Lemma account_ok sec usec len pw port w s :
  sized s → 0 ≤ port < 4 → zget (queue_words s) port = Some w →
  ∃ s', account sec usec len pw port s = Ok s' ∧ sized s' ∧ same_card s s'
    ∧ queue_data s' = queue_data s ∧ queue_data_len s' = queue_data_len s
    ∧ queue_words s' = zset (queue_words s) port (u32 (w + pw))
    ∧ total_words s' = i32 (u32 (total_words s + pw)).
Proof.
  intros Hs Hp Hw. unfold account. rewrite (bind_val _ _ _ (elt_get _ _ _ Hw)). cbv beta.
  pose proof Hs as Hz. unfold sized in Hz. destruct_and! Hz. elts.
  match goal with |- context [carry _ _ (u32 ?f) ?t] =>
    pose proof (u32_range f); destruct (carry_ok usec_fuel (10^6) (u32 f) t) as [[u t'] Hc] end.
  { lia. } { rewrite usec_fuel_Z. lia. }
  rewrite (bind_val _ _ _ Hc). cbv beta iota. eexists. split; [done|]. unfold sized, same_card in *. cbn.
  rewrite !zlen_zset. done.
Qed.

Lemma update_times_ok len port delay s : sized s → 0 ≤ port < 4 →
  ∃ s', update_times oor len port delay s = Ok s' ∧ sized s' ∧ same_card s s'
    ∧ queue_data s' = queue_data s ∧ queue_data_len s' = queue_data_len s
    ∧ queue_words s' = queue_words s ∧ total_words s' = total_words s.
Proof.
  intros Hs Hp. unfold update_times. pose proof Hs as Hz. unfold sized in Hz. destruct_and! Hz. elts.
  match goal with |- context [carry _ _ (u32 ?f) ?t] =>
    pose proof (u32_range f); destruct (carry_ok nsec_fuel (10^9) (u32 f) t) as [[u t'] Hc] end.
  { lia. } { rewrite nsec_fuel_Z. lia. }
  rewrite (bind_val _ _ _ Hc). cbv beta iota. eexists. split; [done|]. unfold sized, same_card in *. cbn.
  rewrite !zlen_zset. done.
Qed.

(** ** Loading one packet *)

(** The geometry of a packet: padded or not, bytes and words before padding, words
    counted, words of data stored. *)
Definition padded (pd len : Z) : bool := negb (pd =? 0) && (64 <? len).
Definition np_len (pd len : Z) : Z := if padded pd len then 64 else len.
Definition np_words (pd len : Z) : Z := if padded pd len then 8 else (len + 7) `div` 8.
Definition counted (pd len delay : Z) : Z :=
  np_words pd len + 1 + (if 0 <? delay then 1 else 0) + (if padded pd len then 1 else 0).
Definition data_count (pd len : Z) : Z := if pd =? 0 then len else np_words pd len.
Definition data_n (pd len : Z) : nat := Z.to_nat ((data_count pd len + 7) `div` 8).

Definition header_cells (ctrl words len port : Z) : mem :=
  word_cells ctrl (cells (be32 (Z.lor words (u32 (Z.shiftl (u32 (Z.shiftl 0x100 port)) 16)))
                          ++ be32 (Z.lor len (u32 (Z.shiftl 0 16))))).

(** The words appended for a packet. *)
Definition frame_cells (pd len port : Z) (data : mem) : mem :=
  header_cells IO_QUEUE_STAGE_NUM (np_words pd len) (np_len pd len) port
  ++ (if padded pd len then header_cells PAD_CTRL_VAL ((len + 7) `div` 8) len port else [])
  ++ data_cells (data_n pd len) 0 (np_words pd len) (np_len pd len) data.

Lemma geometry pd len delay : 0 ≤ len < 2^24 →
  0 ≤ np_words pd len < 2^22 ∧ 0 ≤ Z.of_nat (data_n pd len) ≤ np_words pd len
  ∧ data_count pd len ≤ 8 * Z.of_nat (data_n pd len) < data_count pd len + 8
  ∧ 0 ≤ data_count pd len ∧ 8 * Z.of_nat (data_n pd len) < 2^25
  ∧ 1 + np_words pd len ≤ counted pd len delay < 2^23.
Proof.
  intros Hl. unfold data_n, data_count, counted, np_words, padded.
  destruct (pd =? 0), (64 <? len), (0 <? delay); cbn [negb andb]; Z.to_euclidean_division_equations; lia.
Qed.

Lemma header_ok port ctrl words len q s :
  has port q s → zlen q + 9 < 2^32 →
  append_header port ctrl (Z.lor words (u32 (Z.shiftl (u32 (Z.shiftl 0x100 port)) 16)))
    (Z.lor len (u32 (Z.shiftl 0 16))) s = Ok (put port (q ++ header_cells ctrl words len port) s).
Proof. intros. unfold append_header, header_cells. by apply append_word_ok. Qed.

Lemma zlen_header ctrl words len port : zlen (header_cells ctrl words len port) = 9.
Proof. unfold header_cells. by rewrite zlen_word_cells. Qed.
Opaque header_cells.

(** Storing the words of a packet in a queue that has room for them. *)
Lemma append_packet_result port q data len s :
  sized s → 0 ≤ port < 4 → 0 ≤ len < 2^24 → has port q s → zlen q < 2^30 →
  let pd := pad s in
  let r := append_packet port ((len + 7) `div` 8) len (np_words pd len) (np_len pd len) (padded pd len) data s in
  if decide (in_bounds data 0 (8 * Z.of_nat (data_n pd len)))
  then r = Ok (put port (q ++ frame_cells pd len port data) s) else ∃ f, r = Fault f.
Proof.
  intros Hs Hp Hl Hq Hz pd. destruct (geometry pd len 0 Hl) as (G1 & G2 & G3 & G4 & G5 & _).
  unfold append_packet. rewrite (bind_val _ _ _ (header_ok _ _ _ _ _ _ Hq ltac:(lia))). cbv beta.
  set (q1 := q ++ header_cells IO_QUEUE_STAGE_NUM (np_words pd len) (np_len pd len) port).
  set (q2 := q1 ++ if padded pd len then header_cells PAD_CTRL_VAL ((len + 7) `div` 8) len port else []).
  assert (zlen q1 = zlen q + 9) as Hq1 by (subst q1; by rewrite zlen_app, zlen_header).
  assert (zlen q1 ≤ zlen q2 ≤ zlen q1 + 9) as Hq2
    by (subst q2; rewrite zlen_app; destruct (padded pd len); rewrite ?zlen_header; [lia|change (zlen []) with 0; lia]).
  assert (∀ s', s' = put port q1 s → (if padded pd len then
    append_header port PAD_CTRL_VAL (Z.lor ((len + 7) `div` 8) (u32 (Z.shiftl (u32 (Z.shiftl 0x100 port)) 16)))
      (Z.lor len (u32 (Z.shiftl 0 16))) s' else mret s') = Ok (put port q2 s)) as Hpad.
  { intros s' ->. subst q2. destruct (padded pd len); [|by rewrite app_nil_r].
    rewrite (header_ok _ _ _ _ q1) by (by apply has_put || lia). by rewrite put_put. }
  rewrite (bind_val _ _ _ (Hpad _ eq_refl)). cbv beta. clear Hpad.
  change (if pad (put port q2 s) =? 0 then len else np_words pd len) with (data_count pd len).
  case_decide as Hb.
  - rewrite (append_data_ok (data_n pd len) _ _ _ _ _ _ _ q2); try done; try lia.
    + rewrite put_put. do 2 f_equal. subst q2 q1. unfold frame_cells. by rewrite <-!app_assoc.
    + unfold data_fuel. Z.to_euclidean_division_equations; lia.
    + by apply sized_put.
    + by apply has_put.
  - apply (append_data_short (data_n pd len) _ _ _ _ _ _ _ q2); try done; try lia.
    + by apply sized_put.
    + by apply has_put.
    + apply zlen_nonneg.
Qed.

Lemma zsum_elem l i x : Forall (λ z, 0 ≤ z) l → zget l i = Some x → 0 ≤ x ≤ zsum l.
Proof.
  unfold zget. case_decide; [|done]. generalize (Z.to_nat i). clear. intros n Hall. revert n.
  induction Hall as [|a l Ha Hall IH]; intros [|n] Hn; simplify_eq/=.
  - assert (0 ≤ zsum l); [|unfold zsum in *; lia]. clear -Hall. unfold zsum. induction Hall; cbn in *; lia.
  - apply IH in Hn. unfold zsum in *. lia.
Qed.

Lemma inv_words p w s : pg_inv s → zget (queue_words s) p = Some w → 0 ≤ w ≤ total_words s.
Proof.
  intros Hi Hw. rewrite <-(inv_sum _ Hi). eapply zsum_elem; [|done].
  apply Forall_lookup. intros n x Hx. pose proof (lookup_lt_Some _ _ _ Hx) as Hn.
  destruct (inv_sized _ Hi) as [Hz _]. unfold zlen in Hz.
  destruct (inv_port _ Hi (Z.of_nat n)) as (w' & q & k & Hw' & _ & _ & Hk); [lia|].
  rewrite zget_nonneg, Nat2Z.id in Hw' by lia. simplify_eq. lia.
Qed.

Lemma load_packet_result h data port delay d w q k s (len := pkt_len h) (pd := pad s) :
  pg_inv s → 0 ≤ port < 4 → 0 ≤ len < 2^24 →
  packet_delay (u32 (tv_sec (ts h))) (u32 (tv_usec (ts h))) port delay s = Ok d →
  zget (queue_words s) port = Some w → has port q s → zlen q = 9 * k → 0 ≤ k ≤ w →
  if MAX_TX_QUEUE_SIZE <? counted pd len d + total_words s then load_packet oor h data port delay s = Ok (0, s)
  else if decide (in_bounds data 0 (8 * Z.of_nat (data_n pd len))) then
    ∃ s', load_packet oor h data port delay s = Ok (0, s') ∧ sized s' ∧ same_card s s'
      ∧ queue_data s' = zset (queue_data s) port (q ++ frame_cells pd len port data)
      ∧ queue_data_len s' = zset (queue_data_len s) port (zlen (q ++ frame_cells pd len port data))
      ∧ queue_words s' = zset (queue_words s) port (w + counted pd len d)
      ∧ total_words s' = total_words s + counted pd len d
  else ∃ f, load_packet oor h data port delay s = Fault f.
Proof.
  intros Hi Hp Hl Hd Hw Hq Hk1 Hk2. pose proof (inv_words _ _ _ Hi Hw) as Hwt. pose proof (inv_max _ Hi) as Hmax.
  assert (MAX_TX_QUEUE_SIZE = 376816) as HM by reflexivity.
  destruct (geometry pd len d Hl) as (G1 & _ & _ & _ & _ & G6).
  unfold load_packet. rewrite (bind_val _ _ _ Hd). cbv beta zeta. fold len pd.
  rewrite words_of_len_exact by done. fold (padded pd len). fold (np_words pd len) (np_len pd len).
  fold (counted pd len d). rewrite (u32_id (counted pd len d)) by lia. rewrite u32_id by lia.
  destruct (Z.ltb_spec MAX_TX_QUEUE_SIZE (counted pd len d + total_words s)) as [Hfull|Hfit]; [done|].
  destruct (account_ok (u32 (tv_sec (ts h))) (u32 (tv_usec (ts h))) len (counted pd len d) port w s (inv_sized _ Hi) Hp Hw)
    as (s1 & Ha & Hs1 & (C1 & C2 & C3 & C4 & C5) & D1 & D2 & D3 & D4).
  rewrite (bind_val _ _ _ Ha). cbv beta.
  rewrite u32_id in D3 by lia. rewrite u32_id, i32_id in D4 by (unfold is_int, INT_MIN, INT_MAX; lia).
  assert (has port q s1) as Hq1 by (unfold has in *; by rewrite D1, D2).
  pose proof (append_packet_result port q data len s1 Hs1 Hp Hl Hq1 ltac:(lia)) as Hr. cbv zeta in Hr.
  rewrite C4 in Hr. fold pd in Hr. case_decide as Hb.
  - rewrite (bind_val _ _ _ Hr). cbv beta.
    destruct (update_times_ok len port d (put port (q ++ frame_cells pd len port data) s1))
      as (s2 & Hu & Hs2 & (E1 & E2 & E3 & E4 & E5) & F1 & F2 & F3 & F4); [by apply sized_put|done|].
    rewrite (bind_val _ _ _ Hu). cbv beta. exists s2. split; [done|]. split; [done|].
    split; [unfold same_card; cbn in *; split_and!; congruence|].
    rewrite F1, F2, F3, F4. unfold put. cbn. rewrite D1, D2, D3, D4. done.
  - destruct Hr as [f Hf]. exists f. by rewrite Hf.
Qed.

Lemma zlen_frame_cells pd len port data : in_bounds data 0 (8 * Z.of_nat (data_n pd len)) →
  zlen (frame_cells pd len port data) = 9 * (1 + (if padded pd len then 1 else 0) + Z.of_nat (data_n pd len)).
Proof.
  intros Hb. unfold frame_cells. rewrite !zlen_app, zlen_header, zlen_data_cells by done || lia.
  destruct (padded pd len); rewrite ?zlen_header; [lia|]. change (zlen []) with 0. lia.
Qed.

Lemma inv_store port q Q w k n pw s s' :
  pg_inv s → sized s' → 0 ≤ port < 4 → zget (queue_words s) port = Some w → has port q s →
  zlen q = 9 * k → 0 ≤ k ≤ w → zlen Q = zlen q + 9 * n → 0 ≤ n ≤ pw → total_words s + pw ≤ MAX_TX_QUEUE_SIZE →
  queue_data s' = zset (queue_data s) port Q → queue_data_len s' = zset (queue_data_len s) port (zlen Q) →
  queue_words s' = zset (queue_words s) port (w + pw) → total_words s' = total_words s + pw → pg_inv s'.
Proof.
  intros Hi Hs' Hp Hw [Hq Hn] Hk Hkw HQ Hnp Hmax E1 E2 E3 E4. pose proof (inv_sized _ Hi) as Hs.
  unfold sized in Hs. constructor; [done| |rewrite E3, (zsum_zset _ _ _ _ Hw), (inv_sum _ Hi); lia|lia].
  intros p Hp'. unfold has. rewrite E1, E2, E3. destruct (decide (p = port)) as [->|Hne].
  - exists (w + pw), Q, (k + n). rewrite !zget_zset_eq by lia. split_and!; [done..|lia|lia|lia].
  - rewrite !zget_zset_ne by done. by apply (inv_port _ Hi).
Qed.

Lemma load_packet_inv h data port delay r s s' :
  pg_inv s → 0 ≤ port < 4 → 0 ≤ pkt_len h < 2^24 → load_packet oor h data port delay s = Ok (r, s') →
  r = 0 ∧ pg_inv s' ∧ same_card s s'.
Proof.
  intros Hi Hp Hl Hr. destruct (inv_port _ Hi port Hp) as (w & q & k & Hw & Hq & Hk & Hkw).
  assert (∃ d, packet_delay (u32 (tv_sec (ts h))) (u32 (tv_usec (ts h))) port delay s = Ok d) as [d Hd].
  { unfold load_packet in Hr. apply bind_Ok in Hr as (d & Hd & _). eauto. }
  pose proof (load_packet_result h data port delay d w q k s Hi Hp Hl Hd Hw Hq Hk Hkw) as Hres.
  destruct (geometry (pad s) (pkt_len h) d Hl) as (_ & G2 & _ & _ & _ & G6).
  destruct (Z.ltb_spec MAX_TX_QUEUE_SIZE (counted (pad s) (pkt_len h) d + total_words s)) as [|Hfit].
  { rewrite Hr in Hres. simplify_eq. done. }
  case_decide as Hb; [|destruct Hres as [f Hf]; congruence].
  destruct Hres as (s1 & H1 & Hs1 & Hc & E1 & E2 & E3 & E4). rewrite Hr in H1. simplify_eq.
  split_and!; [done| |done].
  eapply (inv_store port q _ w k (1 + (if padded (pad s) (pkt_len h) then 1 else 0) + Z.of_nat (data_n (pad s) (pkt_len h))));
    try done; [rewrite zlen_app, zlen_frame_cells by done; lia| |lia].
  unfold counted in *. destruct (padded _ _), (0 <? d); lia.
Qed.

Lemma inv_num_pkts l s : zlen l = 4 → pg_inv s → pg_inv (s <| num_pkts := l |>).
Proof. intros Hl []. constructor; [|done..]. unfold sized in *. cbn. tauto. Qed.

Lemma load_packets_inv pkts port delay s s' :
  pg_inv s → 0 ≤ port < 4 → Forall (λ x, 0 ≤ pkt_len x.1 < 2^24) pkts →
  load_packets oor pkts port delay s = Ok s' → pg_inv s' ∧ same_card s s'.
Proof.
  intros Hi Hp Hall. revert s Hi. induction Hall as [|[h data] pkts Hl Hall IH]; intros s Hi Hr; cbn in Hr.
  { injection Hr as <-. done. }
  apply bind_Ok in Hr as ([r s1] & H1 & Hr). destruct (load_packet_inv _ _ _ _ _ _ _ Hi Hp Hl H1) as (-> & Hi1 & Hc1).
  cbn [Z.eqb] in Hr. apply bind_Ok in Hr as (n & Hn & Hr). apply IH in Hr as [Hi2 Hc2].
  - split; [done|]. unfold same_card in *. cbn in *. destruct_and!. split_and!; congruence.
  - apply inv_num_pkts; [|done]. rewrite zlen_zset. pose proof (inv_sized _ Hi1) as Hz. unfold sized in Hz. tauto.
Qed.

(** The states of the program after any number of calls of load_pcap. *)
Inductive loaded (c : card) : pktgen card → Prop :=
| loaded_init nf2 pd : loaded c (pktgen_init c <| pg_nf2 := nf2 |> <| pad := pd |>)
| loaded_step file port delay s s' :
  loaded c s → 0 ≤ port < 4 → Forall (λ x, 0 ≤ pkt_len x.1 < 2^24) file →
  load_pcap oor (Some file) port delay s = Ok s' → loaded c s'.

Lemma loaded_inv c s : loaded c s → pg_inv s.
Proof.
  induction 1 as [nf2 pd|file port delay s s' _ IH Hp Hf Hr].
  - constructor; [done| |done|done]. intros p Hp. exists 0, [], 0.
    assert (p = 0 ∨ p = 1 ∨ p = 2 ∨ p = 3) as [->|[->|[->| ->]]] by lia; done.
  - by eapply load_packets_inv.
Qed.
End inv.
