(* ===== verification/PktLayout.v ===== *)
(** * The division of the card's memory

    queue_reorganize places the twelve queues one after the other so that they
    fill the memory exactly, whatever packets were loaded before. *)

From Stdlib Require Import SpecFloat.
From S2P Require Import Prelude CTime CBytes MsgBuf PcapTrack CStr CFloat Nf2Util PktGen Nf2Spec PktGenSpec.
Open Scope Z_scope.

Definition arg_val (a : ioctl_arg) : Z := match a with IfReq _ _ v | Nf2Reg _ v => default 0 v end.

(** A driver that stores what is written: [regs] is the contents of the registers. *)
Definition stores_writes {card} {drv : Driver card} (regs : card → gmap Z Z) : Prop :=
  ∀ d a c, (ioctl d SIOCREGWRITE a c).1.1 = 0
    ∧ regs (ioctl d SIOCREGWRITE a c).2 = <[arg_reg a := arg_val a]> (regs c).

Lemma increasing_le (st : list Z) : (∀ i lo hi, st !! i = Some lo → st !! S i = Some hi → lo < hi) →
  ∀ (n i : nat) a b, st !! i = Some a → st !! (i + n)%nat = Some b → a ≤ b.
Proof.
  intros H n. induction n as [|n IH]; intros i a b Ha Hb.
  { rewrite Nat.add_0_r in Hb. simplify_eq. done. }
  destruct (lookup_lt_is_Some_2 st (i + n)) as [m Hm]; [apply lookup_lt_Some in Hb; lia|].
  pose proof (IH i a m Ha Hm). rewrite Nat.add_succ_r in Hb. pose proof (H _ _ _ Hm Hb). lia.
Qed.

Section layout.
Context {card : Type} {drv : Driver card} (oor : spec_float → Z) (regs : card → gmap Z Z).
Hypothesis writes : stores_writes regs.
Implicit Types s : pktgen card.

Definition sregs s : gmap Z Z := regs (pg_card s).

Lemma writeReg_regs nf2 reg val c : ∃ c', writeReg nf2 reg val c = (0, c')
  ∧ regs c' = <[u32 reg := u32 val]> (regs c).
Proof.
  unfold writeReg, writeRegFile, writeRegNet. case_match.
  - destruct (writes (fd nf2) (Nf2Reg (u32 reg) (Some (u32 val))) c) as [H1 H2].
    destruct (ioctl _ _ _ _) as [[r v] c']. cbn in *. subst r. eauto.
  - destruct (writes (fd nf2) (IfReq (strncpy IFNAMSIZ (device_name nf2)) (u32 reg) (Some (u32 val))) c) as [H1 H2].
    destruct (ioctl _ _ _ _) as [[r v] c']. cbn in *. subst r. eauto.
Qed.

Lemma wreg_regs reg val s : sregs (wreg reg val s) = <[u32 reg := u32 val]> (sregs s).
Proof.
  unfold wreg, sregs. cbn. by destruct (writeReg_regs (pg_nf2 s) reg val (pg_card s)) as (c' & -> & ?).
Qed.

(** The registers with the bounds of queue [i]. *)
Definition lo_reg (i : Z) : Z := OQ_QUEUE_0_ADDR_LO_REG + i * oq_offset.
Definition hi_reg (i : Z) : Z := OQ_QUEUE_0_ADDR_HI_REG + i * oq_offset.
Definition bounds (i : Z) s : option Z * option Z := (sregs s !! lo_reg i, sregs s !! hi_reg i).

Ltac regnum := unfold lo_reg, hi_reg, oq_offset in *; unfold OQ_QUEUE_0_ADDR_LO_REG, OQ_QUEUE_0_ADDR_HI_REG, OQ_QUEUE_0_CTRL_REG,
  OQ_QUEUE_1_ADDR_LO_REG in *; rewrite ?u32_id by lia; try lia.

Lemma bounds_ctrl i j val s : 0 ≤ i < 12 → 0 ≤ j < 12 →
  bounds i (wreg (OQ_QUEUE_0_CTRL_REG + j * oq_offset) val s) = bounds i s.
Proof. intros. unfold bounds. rewrite wreg_regs, !lookup_insert_ne by regnum. done. Qed.

Lemma bounds_place_eq i lo size s : 0 ≤ i < 12 → 0 ≤ lo → 0 < size → lo + size ≤ MEM_SIZE →
  bounds i (place_queue i lo size s) = (Some lo, Some (lo + size - 1)).
Proof.
  intros Hi Hlo Hsz Hm. unfold MEM_SIZE in Hm. unfold place_queue. rewrite bounds_ctrl by done. unfold bounds.
  rewrite !wreg_regs. rewrite (lookup_insert_ne _ _ (lo_reg i)) by regnum.
  replace (u32 (OQ_QUEUE_0_ADDR_LO_REG + i * oq_offset)) with (lo_reg i) by regnum.
  replace (u32 (OQ_QUEUE_0_ADDR_HI_REG + i * oq_offset)) with (hi_reg i) by regnum.
  rewrite !lookup_insert_eq. by rewrite !u32_id by (rewrite ?u32_id by lia; lia).
Qed.

Lemma bounds_place_ne i j lo size s : 0 ≤ i < 12 → 0 ≤ j < 12 → i ≠ j →
  bounds i (place_queue j lo size s) = bounds i s.
Proof.
  intros. unfold place_queue. rewrite bounds_ctrl by done. unfold bounds. rewrite !wreg_regs.
  by rewrite !lookup_insert_ne by regnum.
Qed.

Lemma bounds_ctrl_all i n j val s : 0 ≤ i < 12 → 0 ≤ j → j + Z.of_nat n ≤ 12 →
  bounds i (ctrl_all n j val s) = bounds i s.
Proof.
  intros Hi. revert j s. induction n as [|n IH]; intros j s Hj Hn; [done|]. cbn [ctrl_all].
  rewrite IH by lia. apply bounds_ctrl; lia.
Qed.

(** ** Sizes *)

Definition tx_size (w : Z) : Z := Z.max MIN_TX_QUEUE_SIZE w.

Lemma get_queue_size_ok p w s : zget (queue_words s) p = Some w → 0 ≤ w < 2^31 → get_queue_size p s = Ok (tx_size w).
Proof.
  intros Hw Hr. unfold get_queue_size. rewrite (bind_val _ _ _ (elt_get _ _ _ Hw)). cbv beta. unfold mret, res_ret. f_equal.
  unfold tx_size, MIN_TX_QUEUE_SIZE. destruct (Z.ltb_spec w 4); [lia|].
  rewrite i32_id by (unfold is_int, INT_MIN, INT_MAX; lia). lia.
Qed.

(** The start of each queue and the end of the last, in words: for each port a
    setup and a receive queue, then the transmit queues. *)
Definition starts (free t0 t1 t2 t3 : Z) : list Z :=
  let x := XMIT_QUEUE_SIZE in
  let r := free `div` 4 in
  let a := free `mod` 4 in
  let t := 4 * x + 4 * r + a in
  [0; x; x + r + a; 2 * x + r + a; 2 * x + 2 * r + a; 3 * x + 2 * r + a; 3 * x + 3 * r + a; 4 * x + 3 * r + a;
   t; t + t0; t + t0 + t1; t + t0 + t1 + t2; t + t0 + t1 + t2 + t3].

(** The two queues of a port and its transmit queue. *)
Definition place_pair (i lo size : Z) s : pktgen card :=
  place_queue (i * 2 + 1) (lo + XMIT_QUEUE_SIZE) size (place_queue (i * 2) lo XMIT_QUEUE_SIZE s).
Definition place_out (i lo size : Z) s : pktgen card :=
  (place_queue (i + 2 * NUM_PORTS) lo size s) <| queue_base_addr := zset (queue_base_addr s) i lo |>.

(** What queue_reorganize leaves. *)
Definition organized (free t0 t1 t2 t3 : Z) s : pktgen card :=
  let x := XMIT_QUEUE_SIZE in
  let r := free `div` 4 in
  let a := free `mod` 4 in
  let t := 4 * x + 4 * r + a in
  let s := place_pair 0 0 (r + a) (ctrl_all 12 0 0x00 s) in
  let s := place_pair 1 (x + r + a) r s in
  let s := place_pair 2 (2 * x + 2 * r + a) r s in
  let s := place_pair 3 (3 * x + 3 * r + a) r s in
  let s := place_out 0 t t0 s in
  let s := place_out 1 (t + t0) t1 s in
  let s := place_out 2 (t + t0 + t1) t2 s in
  ctrl_all 8 0 0x01 (place_out 3 (t + t0 + t1 + t2) t3 s).

Lemma place_rx_step n i free lo size hi s :
  rx_queue_size oor free i = size → 0 ≤ lo → 0 ≤ size → hi = lo + XMIT_QUEUE_SIZE + size → hi < 2^31 →
  place_rx oor (S n) i free lo s = place_rx oor n (i + 1) free hi (place_pair i lo size s).
Proof.
  intros Hs Hlo Hsz Hhi Hb. cbn [place_rx]. rewrite Hs. unfold XMIT_QUEUE_SIZE in *.
  rewrite (u32_id (lo + 4096)) by lia. rewrite u32_id by lia. by subst hi.
Qed.

Lemma place_tx_step n i lo size hi s :
  get_queue_size i s = Ok size → 0 ≤ lo → 0 ≤ size → hi = lo + size → hi < 2^31 →
  place_tx (S n) i lo s = place_tx n (i + 1) hi (place_out i lo size s).
Proof.
  intros Hs Hlo Hsz Hhi Hb. cbn [place_tx]. rewrite (bind_val _ _ _ Hs). cbv beta zeta.
  rewrite i32_id by (unfold is_int, INT_MIN, INT_MAX; lia). rewrite u32_id by lia. by subst hi.
Qed.

Lemma queue_reorganize_ok w0 w1 w2 w3 s :
  queue_words s = [w0; w1; w2; w3] → 0 ≤ w0 → 0 ≤ w1 → 0 ≤ w2 → 0 ≤ w3 → w0 + w1 + w2 + w3 ≤ MAX_TX_QUEUE_SIZE →
  let free := MEM_SIZE - NUM_PORTS * XMIT_QUEUE_SIZE - (tx_size w0 + tx_size w1 + tx_size w2 + tx_size w3) in
  NUM_PORTS * MIN_RX_QUEUE_SIZE ≤ free ∧ queue_reorganize oor s
    = Ok (0, organized free (tx_size w0) (tx_size w1) (tx_size w2) (tx_size w3) s).
Proof.
  intros Hws H0 H1 H2 H3 Hmax free.
  assert (MAX_TX_QUEUE_SIZE = 376816) as HM by reflexivity. rewrite HM in Hmax.
  assert (∀ p w, zget [w0; w1; w2; w3] p = Some w → ∀ s', queue_words s' = queue_words s → get_queue_size p s' = Ok (tx_size w)) as Hg.
  { intros p w Hw s' Hs'. apply get_queue_size_ok; [by rewrite Hs', Hws|].
    unfold zget in Hw. case_decide; [|done].
    destruct (Z.to_nat p) as [|[|[|[|]]]]; simplify_eq/=; lia. }
  assert (4 ≤ tx_size w0 ≤ w0 + 4 ∧ 4 ≤ tx_size w1 ≤ w1 + 4 ∧ 4 ≤ tx_size w2 ≤ w2 + 4 ∧ 4 ≤ tx_size w3 ≤ w3 + 4) as Ht
    by (unfold tx_size, MIN_TX_QUEUE_SIZE; lia).
  pose proof (Hg 0 w0 eq_refl) as G0. pose proof (Hg 1 w1 eq_refl) as G1.
  pose proof (Hg 2 w2 eq_refl) as G2. pose proof (Hg 3 w3 eq_refl) as G3. clear Hg.
  set (t0 := tx_size w0) in *. set (t1 := tx_size w1) in *. set (t2 := tx_size w2) in *. set (t3 := tx_size w3) in *.
  assert (MEM_SIZE = 524288 ∧ XMIT_QUEUE_SIZE = 4096 ∧ NUM_PORTS = 4 ∧ MIN_RX_QUEUE_SIZE = 32768) as (E1 & E2 & E3 & E4)
    by (split_and!; reflexivity).
  assert (131072 ≤ free < 2^24) as Hf by (subst free; lia). split; [lia|].
  assert (free_words 4 0 (u32 (MEM_SIZE - NUM_PORTS * XMIT_QUEUE_SIZE)) s = Ok free) as Hfree.
  { cbn [free_words]. rewrite (bind_val _ _ _ (G0 s eq_refl)), (bind_val _ _ _ (G1 s eq_refl)).
    cbv beta. change (0 + 1 + 1) with 2. change (2 + 1) with 3.
    rewrite (bind_val _ _ _ (G2 s eq_refl)), (bind_val _ _ _ (G3 s eq_refl)). cbv beta.
    unfold mret, res_ret. f_equal. subst free. rewrite E1, E2, E3 in *.
    rewrite (u32_id (524288 - _)) by lia. rewrite (u32_id (_ - t0)) by lia. rewrite (u32_id (_ - t1)) by lia.
    rewrite (u32_id (_ - t2)) by lia. rewrite (u32_id (_ - t3)) by lia. lia. }
  unfold queue_reorganize. rewrite (bind_val _ _ _ Hfree). cbv beta zeta. clear Hfree.
  pose proof (Z.div_mod free 4 ltac:(lia)) as Hdm. pose proof (Z.mod_pos_bound free 4 ltac:(lia)) as Hmod.
  unfold organized. set (r := free `div` 4) in *. set (a := free `mod` 4) in *.
  assert (rx_queue_size oor free 0 = r + a ∧ rx_queue_size oor free 1 = r ∧ rx_queue_size oor free 2 = r
          ∧ rx_queue_size oor free 3 = r) as (R0 & R1 & R2 & R3)
    by (split_and!; rewrite rx_queue_size_exact by lia; cbn; fold r a; lia).
  rewrite (place_rx_step _ _ _ _ _ (XMIT_QUEUE_SIZE + r + a) _ R0) by lia. change (0 + 1) with 1.
  rewrite (place_rx_step _ _ _ _ _ (2 * XMIT_QUEUE_SIZE + 2 * r + a) _ R1) by lia. change (1 + 1) with 2.
  rewrite (place_rx_step _ _ _ _ _ (3 * XMIT_QUEUE_SIZE + 3 * r + a) _ R2) by lia. change (2 + 1) with 3.
  rewrite (place_rx_step _ _ _ _ _ (4 * XMIT_QUEUE_SIZE + 4 * r + a) _ R3) by lia. cbn [place_rx].
  set (t := 4 * XMIT_QUEUE_SIZE + 4 * r + a). cbv beta iota.
  erewrite place_tx_step; [|apply G0; reflexivity|lia|lia|reflexivity|lia]. change (0 + 1) with 1.
  erewrite place_tx_step; [|apply G1; reflexivity|lia|lia|reflexivity|lia]. change (1 + 1) with 2.
  erewrite place_tx_step; [|apply G2; reflexivity|lia|lia|reflexivity|lia]. change (2 + 1) with 3.
  erewrite place_tx_step; [|apply G3; reflexivity|lia|lia|reflexivity|lia]. done.
Qed.

(** ** The bounds of all queues *)

Lemma bounds_pair_ne i k lo size s : 0 ≤ i < 12 → 0 ≤ k < 4 → i ≠ k * 2 → i ≠ k * 2 + 1 →
  bounds i (place_pair k lo size s) = bounds i s.
Proof. intros. unfold place_pair. by rewrite !bounds_place_ne by lia. Qed.
Lemma bounds_pair_lo i k lo size s : i = k * 2 → 0 ≤ k < 4 → 0 ≤ lo → lo + XMIT_QUEUE_SIZE ≤ MEM_SIZE →
  bounds i (place_pair k lo size s) = (Some lo, Some (lo + XMIT_QUEUE_SIZE - 1)).
Proof.
  intros ->. intros. unfold place_pair. rewrite bounds_place_ne by lia. unfold XMIT_QUEUE_SIZE in *. by rewrite bounds_place_eq by lia.
Qed.
Lemma bounds_pair_hi i k lo size s : i = k * 2 + 1 → 0 ≤ k < 4 → 0 ≤ lo → 0 < size →
  lo + XMIT_QUEUE_SIZE + size ≤ MEM_SIZE → bounds i (place_pair k lo size s)
  = (Some (lo + XMIT_QUEUE_SIZE), Some (lo + XMIT_QUEUE_SIZE + size - 1)).
Proof. intros ->. intros. unfold place_pair, XMIT_QUEUE_SIZE in *. by rewrite bounds_place_eq by lia. Qed.
Lemma bounds_out_ne i k lo size s : 0 ≤ i < 12 → 0 ≤ k < 4 → i ≠ k + 8 →
  bounds i (place_out k lo size s) = bounds i s.
Proof. intros. exact (bounds_place_ne i (k + 8) lo size s ltac:(lia) ltac:(lia) ltac:(lia)). Qed.
Lemma bounds_out_eq i k lo size s : i = k + 8 → 0 ≤ k < 4 → 0 ≤ lo → 0 < size → lo + size ≤ MEM_SIZE →
  bounds i (place_out k lo size s) = (Some lo, Some (lo + size - 1)).
Proof. intros ->. intros. exact (bounds_place_eq (k + 8) lo size s ltac:(lia) ltac:(lia) ltac:(lia) ltac:(lia)). Qed.

Ltac bnd :=
  rewrite bounds_ctrl_all by lia;
  repeat first [rewrite bounds_out_ne by lia | rewrite bounds_pair_ne by lia];
  first [rewrite bounds_out_eq by lia | rewrite bounds_pair_lo by lia | rewrite bounds_pair_hi by lia];
  apply f_equal2; f_equal; lia.

Lemma organized_bounds free t0 t1 t2 t3 s (i : nat) lo hi :
  131072 ≤ free → 0 < t0 → 0 < t1 → 0 < t2 → 0 < t3 → 4 * XMIT_QUEUE_SIZE + free + t0 + t1 + t2 + t3 = MEM_SIZE →
  starts free t0 t1 t2 t3 !! i = Some lo → starts free t0 t1 t2 t3 !! S i = Some hi →
  lo < hi ∧ bounds (Z.of_nat i) (organized free t0 t1 t2 t3 s) = (Some lo, Some (hi - 1)).
Proof.
  intros Hf H0 H1 H2 H3 Hsum Hlo Hhi.
  pose proof (Z.div_mod free 4 ltac:(lia)) as Hdm. pose proof (Z.mod_pos_bound free 4 ltac:(lia)) as Hmod.
  unfold starts, organized in *. set (r := free `div` 4) in *. set (a := free `mod` 4) in *. cbv zeta in *.
  assert (XMIT_QUEUE_SIZE = 4096) as HX by reflexivity.
  do 12 (destruct i as [|i]; [injection Hlo as <-; injection Hhi as <-; split; [lia|]; bnd|]). done.
Qed.

Lemma organized_base free t0 t1 t2 t3 s (t := 4 * XMIT_QUEUE_SIZE + 4 * (free `div` 4) + free `mod` 4) :
  zlen (queue_base_addr s) = 4 →
  queue_base_addr (organized free t0 t1 t2 t3 s) = [t; t + t0; t + t0 + t1; t + t0 + t1 + t2].
Proof.
  intros Hl.
  assert (queue_base_addr (organized free t0 t1 t2 t3 s)
    = zset (zset (zset (zset (queue_base_addr s) 0 t) 1 (t + t0)) 2 (t + t0 + t1)) 3 (t + t0 + t1 + t2)) as -> by reflexivity.
  clearbody t. destruct (queue_base_addr s) as [|? [|? [|? [|? [|]]]]]; unfold zlen in Hl; cbn [length] in Hl; try lia.
  reflexivity.
Qed.

Lemma organized_sized free t0 t1 t2 t3 s : sized s → sized (organized free t0 t1 t2 t3 s).
Proof.
  intros Hs. pose proof Hs as (_ & _ & _ & _ & Hb & _). unfold sized in *.
  rewrite (organized_base _ _ _ _ _ _ Hb). rewrite Hb in Hs. exact Hs.
Qed.

(** The bounds from the invariant; the queues' data is left alone. *)
Lemma reorganize_partition s : pg_inv s →
  ∃ s' st, queue_reorganize oor s = Ok (0, s') ∧ length st = 13%nat
    ∧ st !! 0%nat = Some 0 ∧ st !! 12%nat = Some MEM_SIZE
    ∧ (∀ (i : nat) lo hi, st !! i = Some lo → st !! S i = Some hi →
         lo < hi ∧ bounds (Z.of_nat i) s' = (Some lo, Some (hi - 1)))
    ∧ (∀ (p : nat) lo hi, (p < 4)%nat → st !! (2 * p + 1)%nat = Some lo → st !! (2 * p + 2)%nat = Some hi →
         MIN_RX_QUEUE_SIZE ≤ hi - lo)
    ∧ (∀ (p : nat) lo hi w, st !! (8 + p)%nat = Some lo → st !! (9 + p)%nat = Some hi →
         queue_words s !! p = Some w → w ≤ hi - lo ∧ queue_base_addr s' !! p = Some lo)
    ∧ queue_data s' = queue_data s ∧ queue_data_len s' = queue_data_len s ∧ sized s'.
Proof.
  intros Hi. pose proof (inv_sized _ Hi) as (Hw & _ & _ & _ & Hb & _).
  pose proof (inv_sum _ Hi) as Hsum. pose proof (inv_max _ Hi) as Hmax.
  assert (∀ w, w ∈ queue_words s → 0 ≤ w) as Hpos.
  { intros w (n & Hn)%list_elem_of_lookup. apply (inv_words (Z.of_nat n) w s Hi).
    rewrite zget_nonneg, Nat2Z.id by lia. done. }
  destruct (queue_words s) as [|w0 [|w1 [|w2 [|w3 [|]]]]] eqn:Hws; unfold zlen in Hw; cbn [length] in Hw; try lia.
  clear Hw. cbn in Hsum. assert (0 ≤ w0 ∧ 0 ≤ w1 ∧ 0 ≤ w2 ∧ 0 ≤ w3) as (P0 & P1 & P2 & P3)
    by (split_and!; apply Hpos; set_solver).
  destruct (queue_reorganize_ok w0 w1 w2 w3 s Hws P0 P1 P2 P3 ltac:(lia)) as [Hf Hr]. cbv zeta in Hf, Hr.
  set (free := MEM_SIZE - _ - _) in *. unfold NUM_PORTS, MIN_RX_QUEUE_SIZE in Hf.
  assert (4 ≤ tx_size w0 ∧ 4 ≤ tx_size w1 ∧ 4 ≤ tx_size w2 ∧ 4 ≤ tx_size w3
          ∧ w0 ≤ tx_size w0 ∧ w1 ≤ tx_size w1 ∧ w2 ≤ tx_size w2 ∧ w3 ≤ tx_size w3) as Ht
    by (unfold tx_size, MIN_TX_QUEUE_SIZE; lia).
  pose proof (organized_base free (tx_size w0) (tx_size w1) (tx_size w2) (tx_size w3) s Hb) as Hbase. cbv zeta in Hbase.
  pose proof (λ i lo hi, organized_bounds free (tx_size w0) (tx_size w1) (tx_size w2) (tx_size w3) s i lo hi) as Hbnd.
  eexists _, (starts free (tx_size w0) (tx_size w1) (tx_size w2) (tx_size w3)). split; [exact Hr|].
  pose proof (Z.div_mod free 4 ltac:(lia)) as Hdm. pose proof (Z.mod_pos_bound free 4 ltac:(lia)) as Hmod.
  assert (MIN_RX_QUEUE_SIZE = 32768 ∧ MEM_SIZE = 524288 ∧ XMIT_QUEUE_SIZE = 4096 ∧ NUM_PORTS = 4) as (K1 & K2 & K3 & K4)
    by (split_and!; reflexivity).
  assert (4 * XMIT_QUEUE_SIZE + free + tx_size w0 + tx_size w1 + tx_size w2 + tx_size w3 = MEM_SIZE) as Htot
    by (subst free; lia).
  assert (131072 ≤ free) as Hfree by (rewrite K2 in Hf; change (4 * (524288 `div` (2 * 4) `div` 2)) with 131072 in Hf; done).
  clearbody free. split_and!; [done|done|cbn; f_equal; lia| | | |done|done|by apply organized_sized, inv_sized].
  - intros i lo hi. apply Hbnd; lia.
  - intros p lo hi Hp Hlo Hhi. destruct p as [|[|[|[|]]]]; [..|lia]; injection Hlo as <-; injection Hhi as <-; lia.
  - rewrite Hbase. intros p lo hi w Hlo Hhi Hp.
    destruct p as [|[|[|[|]]]]; [..|done]; injection Hlo as <-; injection Hhi as <-; injection Hp as <-; split; (done || lia).
Qed.

(** In particular every transmit queue has its window of the memory. *)
Lemma reorganize_windows s : pg_inv s →
  ∃ s', queue_reorganize oor s = Ok (0, s') ∧ sized s' ∧ queue_data s' = queue_data s
    ∧ queue_data_len s' = queue_data_len s
    ∧ ∀ p w, 0 ≤ p < 4 → zget (queue_words s) p = Some w → ∃ lo hi, bounds (8 + p) s' = (Some lo, Some hi)
        ∧ zget (queue_base_addr s') p = Some lo ∧ 0 ≤ lo ∧ lo + w ≤ hi + 1 ∧ hi < MEM_SIZE.
Proof.
  intros Hi. destruct (reorganize_partition s Hi)
    as (s' & st & H1 & Hl & Hbeg & Hend & Hb & _ & Ht & E1 & E2 & Hs'). exists s'. split_and!; [done..|].
  pose proof (increasing_le st (λ i a b Ha Hb', proj1 (Hb i a b Ha Hb'))) as Hmono.
  intros p w Hp Hw. set (n := Z.to_nat p). rewrite zget_nonneg in Hw by lia.
  destruct (lookup_lt_is_Some_2 st (8 + n)) as [lo Hlo]; [lia|].
  destruct (lookup_lt_is_Some_2 st (9 + n)) as [hi Hhi]; [lia|].
  destruct (Ht n lo hi w Hlo Hhi Hw) as [Hwsz Hbase]. destruct (Hb (8 + n)%nat lo hi Hlo Hhi) as [_ Hbnd].
  assert (0 ≤ lo) by (apply (Hmono (8 + n)%nat 0%nat); done).
  assert (hi ≤ MEM_SIZE)
    by (apply (Hmono (12 - (9 + n))%nat (9 + n)%nat); [done|rewrite Nat.add_comm, Nat.sub_add by lia; done]).
  exists lo, (hi - 1). split_and!; [|by rewrite zget_nonneg by lia|lia..]. rewrite <-Hbnd. f_equal. lia.
Qed.

(** C17. Whatever pcap files were loaded before (packets below 16 MB), on a card
    that stores what is written queue_reorganize returns, and the bounds it writes
    divide the memory exactly: the twelve queues lie one after the other from word
    0 to the last word, none empty; every receive queue has at least
    MIN_RX_QUEUE_SIZE words, every transmit queue room for the words counted for
    its port, and queue_base_addr points to its first word. *)
Theorem memory_partition c s : loaded oor c s →
  ∃ s' st, queue_reorganize oor s = Ok (0, s') ∧ length st = 13%nat
    ∧ st !! 0%nat = Some 0 ∧ st !! 12%nat = Some MEM_SIZE
    ∧ (∀ (i : nat) lo hi, st !! i = Some lo → st !! S i = Some hi →
         lo < hi ∧ bounds (Z.of_nat i) s' = (Some lo, Some (hi - 1)))
    ∧ (∀ (p : nat) lo hi, (p < 4)%nat → st !! (2 * p + 1)%nat = Some lo → st !! (2 * p + 2)%nat = Some hi →
         MIN_RX_QUEUE_SIZE ≤ hi - lo)
    ∧ (∀ (p : nat) lo hi w, st !! (8 + p)%nat = Some lo → st !! (9 + p)%nat = Some hi →
         queue_words s !! p = Some w → w ≤ hi - lo ∧ queue_base_addr s' !! p = Some lo).
Proof.
  intros Hi%loaded_inv. destruct (reorganize_partition s Hi) as (s' & st & H1 & H2 & H3 & H4 & H5 & H6 & H7 & _).
  by exists s', st.
Qed.
End layout.

(** ** A card in memory *)

Definition map_driver : Driver (gmap Z Z) := λ _ req a m,
  match req with
  | SIOCREGREAD => (0, default 0 (m !! arg_reg a), m)
  | SIOCREGWRITE => (0, 0, <[arg_reg a := arg_val a]> m)
  end.

Lemma map_driver_stores : stores_writes (drv := map_driver) id.
Proof. done. Qed.

Definition demo_header (len : Z) : pcap_pkthdr :=
  {| ts := {| tv_sec := 1; tv_usec := 500 |}; caplen := len; pkt_len := len |}.
Definition demo_bytes : list Z := (λ k, Z.of_nat k `mod` 256) <$> seq 1 64.
Definition demo_file : list (pcap_pkthdr * mem) :=
  [(demo_header 60, cells demo_bytes); (demo_header 17, cells demo_bytes)].
Definition demo_start : pktgen (gmap Z Z) := pktgen_init ∅ <| pg_nf2 := demo_nf2 |> <| pad := 0 |>.
Definition demo_loaded : pktgen (gmap Z Z) :=
  Eval vm_compute in match load_pcap (λ _, 0) (Some demo_file) 2 0 demo_start with Ok s => s | _ => demo_start end.

Lemma memory_partition_witness : ∃ s' (st : list Z),
  queue_reorganize (drv := map_driver) (λ _, 0) demo_loaded = Ok (0, s') ∧ st !! 12%nat = Some MEM_SIZE.
Proof.
  destruct (memory_partition (drv := map_driver) (λ _, 0) id map_driver_stores ∅ demo_loaded)
    as (s' & st & H1 & _ & _ & H2 & _); [|eauto].
  eapply (loaded_step _ _ demo_file 2 0 demo_start); [constructor|lia| |vm_compute; reflexivity].
  repeat constructor; cbn; lia.
Defined.
