(* ===== verification/PktRate.v ===== *)
(** * The rate limiter of the packet generator

    rate_limiter_set looks for a number of clock ticks in which a whole number of
    tokens is due.  The arithmetic is that of float and double; the search
    returns from 1 Gbit/s on and for every lower rate adds zero tokens for
    ever. *)

From Stdlib Require Import SpecFloat.
From S2P Require Import Prelude CTime CBytes MsgBuf PcapTrack CStr CFloat Nf2Util PktGen Nf2Spec PktGenSpec PktLayout.
Open Scope Z_scope.

(** ** The search *)

(** floor does not change a whole number. *)
Lemma floor_whole n : 0 ≤ n < 2^53 → sf_floor (f64_of_Z n) = f64_of_Z n.
Proof.
  intros Hn. destruct (decide (n = 0)) as [->|]; [done|]. unfold f64_of_Z.
  destruct (normalize_pos 53 1024 n) as (m & k & Hx & Hm & _ & Hk); [lia..|]. rewrite Hx.
  unfold sf_floor, signed_mantissa. destruct (Z.leb_spec 0 (- k)); [done|]. cbv iota.
  rewrite Hm, Z.opp_involutive, Z.div_mul by (apply Z.pow_nonzero; lia). done.
Qed.

Lemma whole_tokens n : 0 ≤ n < 2^32 → not_whole n = false.
Proof.
  intros Hn. unfold not_whole, token_fraction. rewrite floor_whole by lia.
  assert (f64_sub (f64_of_Z n) (f64_of_Z n) = S754_zero false) as ->.
  { destruct (decide (n = 0)) as [->|]; [done|]. unfold f64_of_Z.
    destruct (normalize_pos 53 1024 n) as (m & k & -> & _); [lia..|].
    unfold f64_sub, SFsub. by rewrite Z.sub_diag. }
  reflexivity.
Qed.

(** With no token in the first tick the search goes on for ever. *)
Lemma token_loop_zero fuel clks min_delta min_delta_clk :
  token_loop fuel 0 0 clks min_delta min_delta_clk = Fault FFuel.
Proof.
  revert clks min_delta min_delta_clk. induction fuel as [|fuel IH]; intros; [done|].
  cbn [token_loop]. change ((0 <? 1) || not_whole 0) with true. change (0 <? MAX_TOKENS) with true.
  change (u32 (0 + 0)) with 0. apply IH.
Qed.

Lemma token_loop_whole fuel inc tokens clks min_delta min_delta_clk :
  1 ≤ tokens < 2^32 → token_loop (S fuel) inc tokens clks min_delta min_delta_clk = Ok (tokens, clks, min_delta_clk).
Proof.
  intros Ht. cbn [token_loop]. rewrite (proj2 (Z.ltb_ge _ _)), whole_tokens by lia. done.
Qed.

Lemma first_tokens_range oor r : 0 ≤ first_tokens oor r < 2^32.
Proof. apply u32_of_float_range. Qed.

(** ** The number of tokens in the first tick *)

(** The product with 1000 is rounded to a float: a multiple of 2^6 around 10^9,
    which does not move a whole number of kbit/s over that bound. *)
Lemma thousand k : 0 < k < 2^24 → ∃ m e,
  f32_mul (f32_of_Z k) (f32_of_Z 1000) = S754_finite false m e ∧ Zpos (digits2_pos m) = 24 ∧ -14 ≤ e ≤ 11
  ∧ (10^6 ≤ k → 10^9 * 2^14 ≤ Zpos m * 2^(e + 14)) ∧ (k < 10^6 → Zpos m * 2^(e + 14) ≤ 999999064 * 2^14).
Proof.
  intros Hk. destruct (normalize_pos 24 128 k) as (m1 & j & Hx & Hm1 & _ & Hj); [lia..|].
  unfold f32_mul. replace (f32_of_Z k) with (S754_finite false m1 (- j)) by done.
  change (f32_of_Z 1000) with (S754_finite false 16384000 (-14)). cbn [SFmul xorb].
  set (M := (m1 * 16384000)%positive). set (L := Z.log2 (1000 * k)).
  assert (Zpos M = 1000 * k * 2^14 * 2^j) as HM by (unfold M; rewrite Pos2Z.inj_mul, Hm1; lia).
  pose proof (Z.log2_spec (1000 * k) ltac:(lia)) as [L1 L2]. fold L in L1, L2.
  assert (9 ≤ L ≤ 33) as HL.
  { split; [apply (Z.log2_le_mono 1000); lia|].
    assert (L < 34) by (apply Z.log2_lt_pow2; lia). lia. }
  assert (Zpos (digits2_pos M) = L + 14 + j + 1) as Hd.
  { rewrite digits2_log, HM, <-Z.mul_assoc, <-Z.pow_add_r, Z.log2_mul_pow2 by lia. subst L. lia. }
  destruct (round_near 24 128 ltac:(lia) false M (- j + -14) loc_Exact)
    as (m & c & M1 & -> & HM1 & Hc & HMm & Hdm); rewrite ?Hd; [lia|unfold emin; lia|lia|].
  rewrite Hd in HM1. replace (L + 14 + j + 1 - 24) with (L - 9 + j) in * by lia.
  assert (Zpos M `div` 2^(L - 9 + j) = (1000 * k * 2^14) `div` 2^(L - 9)) as HF.
  { rewrite HM, Z.pow_add_r by lia. apply Z.div_mul_cancel_r; apply Z.pow_nonzero; lia. }
  rewrite HF in HM1. exists m, (- j + -14 + (L - 9 + j) + c). split; [do 2 f_equal; lia|].
  split; [done|]. split; [lia|].
  assert (Zpos m * 2^(- j + -14 + (L - 9 + j) + c + 14) = M1 * 2^(L - 9)) as ->.
  { rewrite HMm, <-Z.mul_assoc, <-Z.pow_add_r by lia. do 2 f_equal. lia. }
  clear -HM1 L1 L2 HL Hk. replace (Z.succ L) with (L - 9 + 10) in L2 by lia.
  replace L with (L - 9 + 9) in L1 by lia. rewrite Z.pow_add_r in L1, L2 by lia.
  set (N := 1000 * k * 2^14) in *. set (p := 2^(L - 9)) in *.
  pose proof (Z.div_mod N p) as Hdm. pose proof (Z.mod_pos_bound N p) as Hmb. split.
  - intros H6. assert (L = 29 ∨ L = 30 ∨ L = 31 ∨ L = 32 ∨ L = 33) as HLc.
    { assert (28 < L); [|lia]. subst p. apply (Z.pow_lt_mono_r_iff 2); [lia..|].
      replace L with (L - 9 + 9) by lia. rewrite Z.pow_add_r by lia. lia. }
    destruct_or! HLc; subst p; rewrite HLc in *;
      cbn in Hdm, Hmb, L1, L2 |- *; lia.
  - intros H6. assert (p ≤ 2^20).
    { subst p. apply Z.pow_le_mono_r; [lia|]. assert (L < 30); [|lia]. apply (Z.pow_lt_mono_r_iff 2); [lia..|].
      replace L with (L - 9 + 9) by lia. rewrite Z.pow_add_r by lia. lia. }
    assert (0 < p) by (subst p; apply Z.pow_pos_nonneg; lia). nia.
Qed.

(** Dividing by 8, multiplying by 1 and going to double do not round. *)
Lemma eighth m e : Zpos (digits2_pos m) = 24 → -14 ≤ e ≤ 11 →
  f32_div (S754_finite false m e) (f32_of_Z 8) = S754_finite false m (e - 3).
Proof.
  intros Hd He. change (f32_of_Z 8) with (S754_finite false 8388608 (-20)). unfold f32_div.
  rewrite (div_pow2 24 128); try done; [f_equal; lia|unfold emin; lia..].
Qed.

Lemma times_one m e : Zpos (digits2_pos m) = 24 → -17 ≤ e ≤ 8 →
  f32_mul (S754_finite false m e) (f32_of_Z 1) = S754_finite false m e.
Proof.
  intros Hd He. change (f32_of_Z 1) with (S754_finite false 8388608 (-23)). unfold f32_mul. cbn [SFmul xorb].
  rewrite (round_exact 24 128) with (m := m) (k := 23%positive); [f_equal; lia| |done|unfold emin; lia].
  by rewrite Pos2Z.inj_mul.
Qed.

Lemma f64_of_scaled m e : Zpos (digits2_pos m) = 24 → -17 ≤ e ≤ 8 →
  ∃ m', f64_of (S754_finite false m e) = S754_finite false m' (e - 29) ∧ Zpos m' = Zpos m * 2^29
    ∧ Zpos (digits2_pos m') = 53.
Proof.
  intros Hd He. unfold f64_of, sf_cvt.
  destruct (round_narrow 53 1024 false m e) as (m' & -> & Hm & Hdm); rewrite Hd in *;
    try (unfold emin; lia). by exists m'.
Qed.

Lemma clk_freq : CLK_FREQ = S754_finite false 8388608000000000 (-26).
Proof. vm_compute. reflexivity. Qed.

(** The quotient by the clock frequency is below 1 when the dividend is at most
    124999883, and at least 1 from 125000000 on. *)
Lemma clock_quotient m e : Zpos (digits2_pos m) = 53 → -46 ≤ e ≤ -21 →
  ∃ t, sf_trunc (f64_div (S754_finite false m e) CLK_FREQ) = Some t ∧ 0 ≤ t < 2^32
    ∧ (125000000 * 2^(-e) ≤ Zpos m → 1 ≤ t) ∧ (Zpos m ≤ 124999883 * 2^(-e) → t = 0).
Proof.
  intros Hd He. rewrite clk_freq. unfold f64_div, SFdiv, SFdiv_core_binary.
  change (Zdigits2 (Zpos 8388608000000000)) with 53. cbn [Zdigits2]. rewrite Hd. unfold fexp, emin.
  rewrite Z.max_l, Z.min_l by lia.
  replace (e - -26 - (53 + e - (53 + -26) - 53)) with 53 by lia. cbv beta iota.
  replace (53 + e - (53 + -26) - 53) with (e - 27) by lia. rewrite Z.shiftl_mul_pow2 by lia.
  rewrite (surjective_pairing (Z.div_eucl _ _)). change (Z.div_eucl ?a ?b).1 with (a `div` b).
  set (q := _ `div` _). set (loc := new_location _ _). clearbody loc.
  pose proof (Z.log2_spec (Zpos m) ltac:(lia)) as [L1 L2]. pose proof (digits2_log m) as Hm.
  replace (Z.log2 (Zpos m)) with 52 in L1, L2 by lia.
  assert (2^52 ≤ q < 2^54) as Hq.
  { subst q. split; [apply Z.div_le_lower_bound|apply Z.div_lt_upper_bound]; lia. }
  pose proof (Z.div_mod (Zpos m * 2^53) 8388608000000000 ltac:(lia)) as Hqm. fold q in Hqm.
  pose proof (Z.mod_pos_bound (Zpos m * 2^53) 8388608000000000 ltac:(lia)) as Hqb. clearbody q.
  destruct q as [|q|q]; [lia| |lia].
  assert (∃ n, Zpos (digits2_pos q) - 53 = n ∧ (n = 0 ∨ n = 1)) as (n & En & Hn).
  { rewrite digits2_log. assert (52 ≤ Z.log2 (Zpos q)) by (by apply (Z.log2_le_pow2); lia).
    assert (Z.log2 (Zpos q) < 54) by (apply Z.log2_lt_pow2; lia). eexists; split; [done|lia]. }
  destruct (round_near 53 1024 ltac:(lia) (xorb false false) q (e - 27) loc) as (m3 & c & M1 & -> & HM1 & Hc & HMm & Hd3);
    rewrite ?En in *; [lia|unfold emin; lia|lia|].
  unfold sf_trunc, signed_mantissa. rewrite (proj2 (Z.leb_gt _ _)) by lia. cbn [xorb].
  rewrite Z.quot_div_nonneg by (try apply Z.pow_pos_nonneg; lia).
  replace (- (e - 27 + n + c)) with (27 - e - n - c) by lia. set (D := 2^(27 - e - n - c)).
  assert (2^46 ≤ D) as HD by (apply Z.pow_le_mono_r; lia).
  assert (D * 2^c * 2^n = 2^27 * 2^(-e)) as HP by (subst D; rewrite <-!Z.pow_add_r by lia; f_equal; lia).
  assert (2^21 ≤ 2^(-e)) as HA by (apply Z.pow_le_mono_r; lia). set (A := 2^(-e)) in *. clearbody A D.
  assert (Zpos m3 < 2^53).
  { pose proof (Z.log2_spec (Zpos m3) ltac:(lia)) as [_ H3]. pose proof (digits2_log m3).
    replace (Z.log2 (Zpos m3)) with 52 in H3 by lia. exact H3. }
  eexists. split; [done|]. split; [|split].
  - split; [apply Z.div_pos; lia|]. apply Z.div_lt_upper_bound; lia.
  - intros HmA. assert (2^27 * A ≤ Zpos q) by lia. apply Z.div_le_lower_bound; [lia|].
    assert (c = 0 ∨ c = 1) as [-> | ->] by lia; destruct Hn as [-> | ->]; Z.to_euclidean_division_equations; lia.
  - intros HmA. assert (Zpos q + 4 ≤ 2^27 * A) by lia. apply Z.div_small.
    assert (c = 0 ∨ c = 1) as [-> | ->] by lia; destruct Hn as [-> | ->]; Z.to_euclidean_division_equations; lia.
Qed.

(** The tokens of the first tick for a whole number of kbit/s. *)
Lemma first_tokens_kbits oor k : 0 < k < 2^24 →
  0 ≤ first_tokens oor (f32_of_Z k) < 2^32 ∧ (1 ≤ first_tokens oor (f32_of_Z k) ↔ 10^6 ≤ k).
Proof.
  intros Hk. unfold first_tokens. destruct (thousand k Hk) as (m & e & -> & Hd & He & Hup & Hlow).
  rewrite eighth, times_one by (done || lia).
  destruct (f64_of_scaled m (e - 3) Hd ltac:(lia)) as (m' & -> & Hm' & Hd').
  destruct (clock_quotient m' (e - 3 - 29) Hd' ltac:(lia)) as (t & Ht & Hr & H1 & H0).
  rewrite (u32_of_float_trunc oor _ t Ht Hr). split; [done|].
  assert (2^(-(e - 3 - 29)) * 2^(e + 14) = 2^46) as HE by (rewrite <-Z.pow_add_r by lia; f_equal; lia).
  assert (0 < 2^(-(e - 3 - 29))) by (apply Z.pow_pos_nonneg; lia).
  assert (0 < 2^(e + 14)) by (apply Z.pow_pos_nonneg; lia).
  set (A := 2^(-(e - 3 - 29))) in *. set (B := 2^(e + 14)) in *. clearbody A B. rewrite Hm' in H1, H0.
  split.
  - intros Ht1. destruct (Z.lt_ge_cases k (10^6)) as [Hlt|]; [|lia]. specialize (Hlow Hlt).
    assert (t = 0); [|lia]. apply H0. apply (Z.mul_le_mono_pos_r _ _ B); [done|].
    replace (124999883 * A * B) with (124999883 * (A * B)) by ring. rewrite HE.
    replace (Zpos m * 2^29 * B) with (2^29 * (Zpos m * B)) by ring. lia.
  - intros Hge. apply H1. specialize (Hup Hge). apply (Z.mul_le_mono_pos_r _ _ B); [done|].
    replace (125000000 * A * B) with (125000000 * (A * B)) by ring. rewrite HE.
    replace (Zpos m * 2^29 * B) with (2^29 * (Zpos m * B)) by ring. lia.
Qed.

(** A positive whole number is not below 1. *)
Lemma f32_at_least_one k : 0 < k < 2^24 → SFltb (f32_of_Z k) (f32_of_Z 1) = false.
Proof.
  intros Hk. destruct (normalize_pos 24 128 k) as (m & j & Hx & _ & Hd & Hj); [lia..|].
  replace (f32_of_Z k) with (S754_finite false m (- j)) by done.
  change (f32_of_Z 1) with (S754_finite false 8388608 (-23)). unfold SFltb. cbn [SFcompare].
  destruct (Z.compare_spec (- j) (-23)) as [E|E|E]; [|lia|done].
  change (Pos.compare_cont Eq m 8388608) with (Pos.compare m 8388608).
  pose proof (Z.log2_spec (Zpos m) ltac:(lia)) as [H1 _]. pose proof (digits2_log m).
  replace (Z.log2 (Zpos m)) with 23 in H1 by lia.
  destruct (Pos.compare_spec m 8388608); [done|lia|done].
Qed.

Section limiter.
Context {card : Type} {drv : Driver card} (oor : spec_float → Z).
Implicit Types s : pktgen card.

(** C20. rate_limiter_set for a rate of a whole number of kbit/s below 2^24, more
    than 16 Gbit/s.  For 0 it returns at once without touching the card.  From 10^6
    on, that is from 1 Gbit/s, at least one whole token is due in a clock tick: it
    returns without an iteration of its search and writes an interval of one
    tick and that number of tokens.  For every rate in between, the increment of
    the search is zero, no number of iterations is enough and it does not return.
    The arithmetic is the one of float and double, rounding included. *)
Theorem rate_limiter_returns_iff queue k s : 0 ≤ k < 2^24 →
  (k = 0 → ∀ fuel, rate_limiter_set oor fuel queue (f32_of_Z k) s = Ok (0, s)) ∧
  (10^6 ≤ k → ∃ t, 1 ≤ t < 2^32 ∧ ∀ fuel, rate_limiter_set oor (S fuel) queue (f32_of_Z k) s =
     Ok (1, wreg (RATE_LIMIT_0_TOKEN_INC_REG + queue * rate_limit_offset) t
              (wreg (RATE_LIMIT_0_TOKEN_INTERVAL_REG + queue * rate_limit_offset) 1 s))) ∧
  (1 ≤ k < 10^6 → ∀ fuel, rate_limiter_set oor fuel queue (f32_of_Z k) s = Fault FFuel).
Proof.
  intros Hk. split_and!.
  - intros -> fuel. done.
  - intros H6. destruct (first_tokens_kbits oor k) as (Hr & Ht); [lia|]. apply Ht in H6 as H1.
    exists (first_tokens oor (f32_of_Z k)). split; [lia|]. intros fuel. unfold rate_limiter_set.
    rewrite f32_at_least_one, token_loop_whole by lia. cbn [mbind res_bind].
    by rewrite whole_tokens by lia.
  - intros H1 fuel. destruct (first_tokens_kbits oor k) as (Hr & Ht); [lia|]. unfold rate_limiter_set.
    rewrite f32_at_least_one by lia.
    assert (first_tokens oor (f32_of_Z k) = 0) as ->.
    { destruct (decide (1 ≤ first_tokens oor (f32_of_Z k))) as [Hge|]; [apply Ht in Hge; lia|lia]. }
    by rewrite token_loop_zero.
Qed.
End limiter.

Lemma rate_limiter_returns_iff_witness :
  (∀ fuel, rate_limiter_set (drv := map_driver) (λ _, 0) fuel 4 (f32_of_Z 999999) (pktgen_init ∅) = Fault FFuel) ∧
  ∃ t, 1 ≤ t < 2^32 ∧ ∀ fuel,
    rate_limiter_set (drv := map_driver) (λ _, 0) (S fuel) 4 (f32_of_Z 1000000) (pktgen_init ∅) =
    Ok (1, wreg (drv := map_driver) (RATE_LIMIT_0_TOKEN_INC_REG + 4 * rate_limit_offset) t
             (wreg (drv := map_driver) (RATE_LIMIT_0_TOKEN_INTERVAL_REG + 4 * rate_limit_offset) 1 (pktgen_init ∅))).
Proof.
  split.
  - apply (rate_limiter_returns_iff (drv := map_driver) (λ _, 0) 4 999999 (pktgen_init ∅)); lia.
  - apply (rate_limiter_returns_iff (drv := map_driver) (λ _, 0) 4 1000000 (pktgen_init ∅)); lia.
Defined.
