(* ===== verification/PktSend.v ===== *)
(** * The packets on the card

    The words that load_queues writes to a transmit queue decode to the packets
    that were loaded from the pcap file, and main never gets to send them: the
    search of the rate limiter it starts first does not end. *)

From Stdlib Require Import SpecFloat.
From S2P Require Import Prelude CTime CBytes MsgBuf PcapTrack CStr CFloat Nf2Util PktGen Nf2Spec PktGenSpec PktRate PktLayout.
Open Scope Z_scope.

(** ** Words and packets *)

(** A word of the data path: the control byte and eight bytes. *)
Definition word : Type := Z * list Z.
Definition enc (ws : list word) : mem := concat ((λ w : word, Some w.1 :: cells w.2) <$> ws).
Definition word_ok (w : word) : Prop := is_byte w.1 ∧ length w.2 = 8%nat ∧ Forall is_byte w.2.

(** The format of the data path: a module header with the control byte 0xff, whose
    four 16-bit fields are the output ports, the number of data words, the source
    port and the number of bytes; then data words, of which only the last one has
    a control byte other than 0: the position of its bit tells how many of its
    bytes are used.  Anything else - a different control byte, an announced
    length that is not the one that follows, a packet without an end - is not
    a sequence of packets. *)
Definition field16 (bs : list Z) (i : nat) : Z := un_be16 (take 2 (drop i bs)).
Fixpoint unframe (ws : list word) (cur : option (Z * Z * Z * Z * list Z)) : option (list (Z * Z * list Z)) :=
  match ws, cur with
  | [], None => Some []
  | [], Some _ => None
  | (c, bs) :: ws, None =>
    if c =? 0xff then unframe ws (Some (field16 bs 0, field16 bs 2, field16 bs 4, field16 bs 6, [])) else None
  | (c, bs) :: ws, Some (ports, words, src, len, got) =>
    if c =? 0 then unframe ws (Some (ports, words, src, len, got ++ bs))
    else
      let all := got ++ take (Z.to_nat (8 - Z.log2 c)) bs in
      if (zlen got `div` 8 + 1 =? words) && (zlen all =? len)
      then cons (ports, src, all) <$> unframe ws None else None
  end.

(** The words of a packet. *)
Fixpoint data_ws (n : nat) (i wl len : Z) (bs : list Z) : list word :=
  match n with
  | O => []
  | S n => (if i `div` 8 =? wl - 1 then last_ctrl len else 0, take 8 (drop (Z.to_nat i) bs))
           :: data_ws n (i + 8) wl len bs
  end.
Definition port_mask (port : Z) : Z := 256 * 2^port.
Definition frame_ws (port len : Z) (bs : list Z) : list word :=
  let wl := (len + 7) `div` 8 in
  (IO_QUEUE_STAGE_NUM, be32 (port_mask port * 65536 + wl) ++ be32 len) :: data_ws (Z.to_nat wl) 0 wl len bs.

Lemma last_ctrl_bytes len : 0 < len →
  is_byte (last_ctrl len) ∧ last_ctrl len ≠ 0
  ∧ 8 - Z.log2 (last_ctrl len) = if len `mod` 8 =? 0 then 8 else len `mod` 8.
Proof.
  intros Hl. unfold last_ctrl. pose proof (Z.mod_pos_bound len 8 ltac:(lia)) as Hm.
  assert (len `mod` 8 = 0 ∨ len `mod` 8 = 1 ∨ len `mod` 8 = 2 ∨ len `mod` 8 = 3 ∨ len `mod` 8 = 4
          ∨ len `mod` 8 = 5 ∨ len `mod` 8 = 6 ∨ len `mod` 8 = 7) as H by lia.
  unfold is_byte. destruct_or! H; rewrite H; split_and!; (reflexivity || closed).
Qed.

Lemma take_take_drop_le {A} (l : list A) i n m : (n ≤ m)%nat → take n (take m (drop i l)) = take n (drop i l).
Proof. intros. rewrite take_take. f_equal. lia. Qed.

Lemma unframe_data n i wl len bs rest ports src got :
  0 ≤ i → i `mod` 8 = 0 → 0 < len → wl = (len + 7) `div` 8 → Z.of_nat n = wl - i `div` 8 → i < len →
  zlen got = i → 8 * wl ≤ zlen bs →
  unframe (data_ws n i wl len bs ++ rest) (Some (ports, wl, src, len, got))
  = cons (ports, src, got ++ take (Z.to_nat (len - i)) (drop (Z.to_nat i) bs)) <$> unframe rest None.
Proof.
  revert i got. induction n as [|n IH]; intros i got Hi Hm Hl Hwl Hn Hlt Hg Hz.
  { exfalso. Z.to_euclidean_division_equations; lia. }
  destruct (last_ctrl_bytes len Hl) as (_ & Hc0 & Hcn).
  cbn [data_ws app unframe]. destruct (Z.eqb_spec (i `div` 8) (wl - 1)) as [He|He].
  - rewrite (proj2 (Z.eqb_neq _ _)) by done.
    assert (8 - Z.log2 (last_ctrl len) = len - i) as Hk.
    { rewrite Hcn. destruct (Z.eqb_spec (len `mod` 8) 0); Z.to_euclidean_division_equations; lia. }
    rewrite Hk, take_take_drop_le by (Z.to_euclidean_division_equations; lia).
    assert (zlen (got ++ take (Z.to_nat (len - i)) (drop (Z.to_nat i) bs)) = len) as Hlen.
    { rewrite zlen_app, Hg. unfold zlen in *. rewrite length_take, length_drop.
      Z.to_euclidean_division_equations; lia. }
    cbv zeta. rewrite Hlen, Hg, He. replace (wl - 1 + 1 =? wl) with true by lia. rewrite Z.eqb_refl. cbn [andb].
    destruct n as [|n]; [done|]. exfalso. lia.
  - change (0 =? 0) with true. cbv iota.
    assert (zlen (take 8 (drop (Z.to_nat i) bs)) = 8) as H8.
    { unfold zlen in *. rewrite length_take, length_drop. Z.to_euclidean_division_equations; lia. }
    rewrite IH; try done; try (Z.to_euclidean_division_equations; lia).
    2: { rewrite zlen_app, Hg, H8. done. }
    do 2 f_equal. rewrite <-app_assoc. f_equal.
    rewrite (Z2Nat.inj_add i 8), <-drop_drop by lia. change (Z.to_nat 8) with 8%nat.
    replace (Z.to_nat (len - i)) with (8 + Z.to_nat (len - (i + 8)))%nat
      by (Z.to_euclidean_division_equations; lia).
    by rewrite take_take_drop.
Qed.

(** The fields of a module header. *)
Lemma header_fields m wl len : 0 ≤ m < 2^16 → 0 ≤ wl < 2^16 → 0 ≤ len < 2^16 →
  let bs := be32 (m * 65536 + wl) ++ be32 len in
  field16 bs 0 = m ∧ field16 bs 2 = wl ∧ field16 bs 4 = 0 ∧ field16 bs 6 = len.
Proof.
  intros Hm Hw Hl bs. unfold bs, be32, field16.
  rewrite Z.div_add_l, (Z.div_small wl), Z.add_0_r, (Z.div_small len) by lia.
  change (take 2 (drop 0 ((be16 m ++ be16 (m * 65536 + wl)) ++ be16 0 ++ be16 len))) with (be16 m).
  change (take 2 (drop 2 ((be16 m ++ be16 (m * 65536 + wl)) ++ be16 0 ++ be16 len))) with (be16 (m * 65536 + wl)).
  change (take 2 (drop 4 ((be16 m ++ be16 (m * 65536 + wl)) ++ be16 0 ++ be16 len))) with (be16 0).
  change (take 2 (drop 6 ((be16 m ++ be16 (m * 65536 + wl)) ++ be16 0 ++ be16 len))) with (be16 len).
  assert (be16 (m * 65536 + wl) = be16 wl) as ->.
  { unfold be16, u8. f_equal; [|f_equal]; Z.to_euclidean_division_equations; lia. }
  rewrite !un_be16_be16 by lia. done.
Qed.

(** A packet decodes to its bytes. *)
Lemma unframe_packet port len bs rest : 0 ≤ port < 4 → 0 < len < 2^16 → 8 * ((len + 7) `div` 8) ≤ zlen bs →
  unframe (frame_ws port len bs ++ rest) None
  = cons (port_mask port, 0, take (Z.to_nat len) bs) <$> unframe rest None.
Proof.
  intros Hp Hl Hz. unfold frame_ws. cbn [app unframe]. change (IO_QUEUE_STAGE_NUM =? 0xff) with true. cbv iota.
  assert (port_mask port < 2^16 ∧ 0 ≤ port_mask port).
  { unfold port_mask. assert (port = 0 ∨ port = 1 ∨ port = 2 ∨ port = 3) as [->|[->|[->| ->]]] by lia; cbn; lia. }
  destruct (header_fields (port_mask port) ((len + 7) `div` 8) len) as (-> & -> & -> & ->);
    [lia|Z.to_euclidean_division_equations; lia|lia|].
  rewrite unframe_data; try done; try lia; try (Z.to_euclidean_division_equations; lia).
  by rewrite Z.sub_0_r.
Qed.

(** ** The words in the queue *)

Lemma enc_app ws ws' : enc (ws ++ ws') = enc ws ++ enc ws'.
Proof. unfold enc. by rewrite fmap_app, concat_app. Qed.

Lemma data_cells_enc n i wl len bs :
  0 ≤ i → 0 < len → 0 < wl < 2^32 → i + 8 * Z.of_nat n ≤ zlen bs →
  data_cells n i wl len (cells bs) = enc (data_ws n i wl len bs).
Proof.
  revert i. induction n as [|n IH]; intros i Hi Hl Hw Hb; [done|].
  cbn [data_cells data_ws]. unfold enc in *. cbn [fmap list_fmap concat]. rewrite IH by lia.
  rewrite u32_id by lia. unfold word_cells. cbn [fst snd]. f_equal.
  f_equal; [|unfold slice, cells; by rewrite fmap_take, fmap_drop].
  destruct (last_ctrl_bytes len Hl) as ([] & _ & _). f_equal. case_match; unfold u8; [|done]. apply Z.mod_small. lia.
Qed.

Lemma mask_shift port : 0 ≤ port < 4 → u32 (Z.shiftl (u32 (Z.shiftl 0x100 port)) 16) = port_mask port * 2^16.
Proof.
  intros. assert (port = 0 ∨ port = 1 ∨ port = 2 ∨ port = 3) as [->|[->|[->| ->]]] by lia; reflexivity.
Qed.

Lemma frame_cells_enc port len bs :
  0 ≤ port < 4 → 0 < len < 2^16 → 8 * ((len + 7) `div` 8) ≤ zlen bs →
  frame_cells 0 len port (cells bs) = enc (frame_ws port len bs).
Proof.
  intros Hp Hl Hb. unfold frame_cells, frame_ws, np_words, np_len, data_n, data_count, padded. cbn [Z.eqb negb andb app].
  assert (0 < (len + 7) `div` 8 < 2^14) as Hw by (Z.to_euclidean_division_equations; lia).
  rewrite data_cells_enc by lia. unfold enc. cbn [fmap list_fmap concat]. f_equal.
  unfold header_cells, word_cells. cbn [fst snd]. rewrite mask_shift by done.
  rewrite (Z.lor_comm ((len + 7) `div` 8)), lor_high_low by lia.
  change (u32 (Z.shiftl 0 16)) with 0. rewrite Z.lor_0_r. done.
Qed.

Lemma data_ws_ok n i wl len bs : 0 ≤ i → 0 < len → Forall is_byte bs → i + 8 * Z.of_nat n ≤ zlen bs →
  Forall word_ok (data_ws n i wl len bs).
Proof.
  intros Hi Hl Hb. revert i Hi. induction n as [|n IH]; intros i Hi Hz; [constructor|]. cbn [data_ws].
  constructor; [|apply IH; lia]. destruct (last_ctrl_bytes len Hl) as (Hc & _ & _). unfold word_ok. cbn [fst snd].
  split; [case_match; [done|unfold is_byte; lia]|]. split.
  - unfold zlen in Hz. rewrite length_take, length_drop. lia.
  - by apply Forall_take, Forall_drop.
Qed.

Lemma frame_ws_ok port len bs : 0 < len → Forall is_byte bs → 8 * ((len + 7) `div` 8) ≤ zlen bs →
  Forall word_ok (frame_ws port len bs).
Proof.
  intros Hl Hb Hz. constructor.
  - split; [unfold is_byte, IO_QUEUE_STAGE_NUM; cbn; lia|]. split; [done|]. cbn [snd].
    apply Forall_app; split; apply be32_bytes.
  - apply data_ws_ok; [lia|done|done|]. rewrite Z2Nat.id by (Z.to_euclidean_division_equations; lia). lia.
Qed.

(** A captured packet: its bytes, at least the length of the packet rounded up to
    whole words. *)
Definition captured : Type := pcap_pkthdr * list Z.
Definition captured_ok (p : captured) : Prop :=
  0 < pkt_len p.1 < 2^16 ∧ 8 * ((pkt_len p.1 + 7) `div` 8) ≤ zlen p.2 ∧ Forall is_byte p.2.
Definition file_of (ps : list captured) : list (pcap_pkthdr * mem) := (λ p : captured, (p.1, cells p.2)) <$> ps.
Definition frames (port : Z) (ps : list captured) : list word :=
  concat ((λ p : captured, frame_ws port (pkt_len p.1) p.2) <$> ps).
(** The words counted for the packets, one more for each when there is a delay. *)
Definition words_needed (delay : Z) (ps : list captured) : Z :=
  zsum ((λ p : captured, counted 0 (pkt_len p.1) delay) <$> ps).

Lemma words_needed_cons delay p ps :
  words_needed delay (p :: ps) = counted 0 (pkt_len p.1) delay + words_needed delay ps.
Proof. done. Qed.

Lemma words_needed_nonneg delay ps : Forall captured_ok ps → 0 ≤ words_needed delay ps.
Proof.
  induction 1 as [|p ps (Hl & _) Hall IH]; [done|]. rewrite words_needed_cons.
  pose proof (geometry 0 (pkt_len p.1) delay ltac:(lia)). lia.
Qed.

Lemma unframe_frames port ps : 0 ≤ port < 4 → Forall captured_ok ps →
  unframe (frames port ps) None = Some ((λ p : captured, (port_mask port, 0, take (Z.to_nat (pkt_len p.1)) p.2)) <$> ps).
Proof.
  intros Hp. induction 1 as [|[h bs] ps (Hl & Hz & _) Hall IH]; [done|]. unfold frames in *. cbn [fmap list_fmap concat fst snd].
  by rewrite unframe_packet, IH by done.
Qed.

Lemma frames_ok port ps : Forall captured_ok ps → Forall word_ok (frames port ps).
Proof.
  induction 1 as [|[h bs] ps (Hl & Hz & Hb) Hall IH]; [constructor|]. unfold frames in *.
  cbn [fmap list_fmap concat fst snd] in *. apply Forall_app. split; [|done]. apply frame_ws_ok; [lia|done..].
Qed.

Section send.
Context {card : Type} {drv : Driver card} (oor : spec_float → Z).
Implicit Types s : pktgen card.

Lemma load_packets_ok ps port delay q s :
  pg_inv s → pad s = 0 → 0 ≤ port < 4 → delay ≠ -1 → Forall captured_ok ps → has port q s →
  total_words s + words_needed delay ps ≤ MAX_TX_QUEUE_SIZE →
  ∃ s', load_packets oor (file_of ps) port delay s = Ok s' ∧ pg_inv s' ∧ same_card s s'
    ∧ has port (q ++ enc (frames port ps)) s'
    ∧ (∀ p, p ≠ port → zget (queue_data_len s') p = zget (queue_data_len s) p).
Proof.
  intros Hi Hpad Hp Hd Hall. revert q s Hi Hpad. induction Hall as [|[h bs] ps Hok Hall IH]; intros q s Hi Hpad Hq Hfit.
  { exists s. rewrite app_nil_r. done. }
  destruct Hok as (Hl & Hz & Hb). cbn [fst snd] in *.
  destruct (inv_port _ Hi port Hp) as (w & q' & k & Hw & Hq' & Hk & Hkw).
  assert (q' = q) as -> by (destruct Hq, Hq'; congruence).
  pose proof (words_needed_nonneg delay ps Hall) as Hpos. rewrite words_needed_cons in Hfit. cbn [fst] in Hfit.
  pose proof (load_packet_result oor h (cells bs) port delay delay w q k s Hi Hp ltac:(lia)) as Hres.
  rewrite Hpad in Hres. cbv zeta in Hres.
  assert (8 * Z.of_nat (data_n 0 (pkt_len h)) = 8 * ((pkt_len h + 7) `div` 8)) as Hn
    by (unfold data_n, data_count; cbn [Z.eqb]; rewrite Z2Nat.id; Z.to_euclidean_division_equations; lia).
  rewrite (proj2 (Z.ltb_ge _ _)), decide_True in Hres by (unfold in_bounds; rewrite ?zlen_cells; lia).
  destruct Hres as (s1 & H1 & Hs1 & Hc & E1 & E2 & E3 & E4); try done.
  { unfold packet_delay. by rewrite (proj2 (Z.eqb_neq _ _)). }
  rewrite frame_cells_enc in E1, E2 by done.
  destruct (load_packet_inv oor h (cells bs) port delay 0 s s1 Hi Hp ltac:(lia) H1) as (_ & Hi1 & _).
  destruct (elt_ok (num_pkts s1) port) as [c Hnum]; [unfold sized in Hs1; tauto|done|].
  set (s2 := s1 <| num_pkts := zset (num_pkts s1) port (u32 (c + 1)) |>).
  pose proof (inv_sized _ Hi) as Hs. unfold sized in Hs, Hs1.
  destruct (IH (q ++ enc (frame_ws port (pkt_len h) bs)) s2) as (s' & Hr & Hi' & Hc' & Hq2 & Ho).
  - apply inv_num_pkts; [rewrite zlen_zset; tauto|done].
  - unfold same_card in Hc. cbn. destruct Hc as (_ & _ & _ & Hc & _). by rewrite Hc.
  - unfold has, s2. cbn. rewrite E1, E2, !zget_zset_eq by lia. done.
  - unfold s2. cbn [total_words assign]. rewrite E4. lia.
  - exists s'. split; [|split; [done|split; [|split; [by rewrite <-app_assoc, <-enc_app in Hq2|]]]].
    + unfold file_of in *. cbn [fmap list_fmap load_packets fst snd].
      rewrite (bind_val _ _ _ H1). cbv beta iota. change (0 =? 0) with true. cbv iota.
      rewrite (bind_val _ _ _ Hnum). cbv beta. exact Hr.
    + unfold same_card in *. subst s2. cbn in Hc'. destruct Hc as (?&?&?&?&?), Hc' as (?&?&?&?&?). split_and!; congruence.
    + intros p Hne. rewrite Ho by done. subst s2. cbn. by rewrite E2, zget_zset_ne.
Qed.

(** ** Copying the words *)

Context (regs : card → gmap Z Z).
Hypothesis writes : stores_writes regs.

(** The words a transmit queue finds in the memory from [addr] on. *)
Fixpoint sram_read (m : gmap Z Z) (addr : Z) (n : nat) : list word :=
  match n with
  | O => []
  | S n => (default 0 (m !! (addr + 4)), be32 (default 0 (m !! (addr + 8))) ++ be32 (default 0 (m !! (addr + 12))))
           :: sram_read m (addr + 16) n
  end.

Lemma sram_read_ext m m' addr n : (∀ x, addr ≤ x → m !! x = m' !! x) → sram_read m addr n = sram_read m' addr n.
Proof.
  revert addr. induction n as [|n IH]; intros addr H; [done|]. cbn [sram_read].
  rewrite !H by lia. f_equal. apply IH. intros. apply H. lia.
Qed.

Lemma rd_word pre c bs post : length bs = 8%nat → is_byte c → Forall is_byte bs →
  let q := pre ++ (Some c :: cells bs) ++ post in
  ∃ a b, rd8 q (zlen pre) = Ok c ∧ rd32be q (zlen pre + 1) = Ok a ∧ rd32be q (zlen pre + 5) = Ok b
    ∧ bs = be32 a ++ be32 b ∧ 0 ≤ a < 2^32 ∧ 0 ≤ b < 2^32.
Proof.
  intros Hl Hc Hb q. do 8 (destruct bs as [|? bs]; [done|]). destruct bs; [|done].
  repeat match goal with H : Forall is_byte (_ :: _) |- _ => inversion_clear H end.
  eexists (un_be32 [z; z0; z1; z2]), (un_be32 [z3; z4; z5; z6]). unfold q, rd8, rd32be. split_and!.
  - pose proof (zlen_nonneg pre). rewrite zget_nonneg by done. unfold zlen.
    rewrite Nat2Z.id, lookup_app_r, Nat.sub_diag by lia. done.
  - erewrite (rd_bytes_shift _ _ _ 1); [|lia|]; [done|]. by rewrite (rd_bytes_app _ _ 1 4 [z; z0; z1; z2]).
  - erewrite (rd_bytes_shift _ _ _ 5); [|lia|]; [done|]. by rewrite (rd_bytes_app _ _ 5 4 [z3; z4; z5; z6]).
  - by rewrite !be32_un_be32 by done.
  - unfold is_byte, un_be32 in *. lia.
  - unfold is_byte, un_be32 in *. lia.
  - unfold is_byte, un_be32 in *. lia.
  - unfold is_byte, un_be32 in *. lia.
Qed.

Lemma load_words_ok ws fuel pre addr s :
  Forall word_ok ws → (length ws < fuel)%nat → 0 ≤ addr → addr + 16 * Z.of_nat (length ws) < 2^32 →
  ∃ s', load_words fuel (zlen pre) (zlen pre + zlen (enc ws)) addr (pre ++ enc ws) s = Ok s'
    ∧ (∀ x, x < addr → sregs regs s' !! x = sregs regs s !! x)
    ∧ sram_read (sregs regs s') addr (length ws) = ws.
Proof.
  intros Hall. revert fuel pre addr s. induction Hall as [|[c bs] ws (Hc & Hl & Hb) Hall IH]; intros fuel pre addr s Hf Ha Hm;
    (destruct fuel as [|fuel]; [lia|]); cbn [load_words].
  { change (zlen (enc [])) with 0. rewrite (proj2 (Z.ltb_ge _ _)) by lia. by eexists. }
  cbn [fst snd] in *. assert (enc (@cons word (c, bs) ws) = (Some c :: cells bs) ++ enc ws) as He by done.
  assert (zlen (Some c :: cells bs) = 9) as H9 by (unfold zlen, cells; cbn [length]; rewrite length_fmap, Hl; done).
  pose proof (zlen_nonneg (enc ws)). rewrite He, zlen_app, H9.
  rewrite (proj2 (Z.ltb_lt _ _)) by lia.
  destruct (rd_word pre c bs (enc ws) Hl Hc Hb) as (a & b & R1 & R2 & R3 & Hbs & Ra & Rb).
  rewrite (bind_val _ _ _ R1), (bind_val _ _ _ R2), (bind_val _ _ _ R3). cbv beta zeta.
  set (s3 := wreg (addr + 0xc) b _). rewrite u32_id by (cbn [length] in Hm; lia).
  destruct (IH fuel (pre ++ Some c :: cells bs) (addr + 16) s3) as (s' & Hr & Hlow & Hread);
    [cbn [length] in *; lia..|].
  rewrite zlen_app, H9, <-app_assoc in Hr. exists s'. split; [|split].
  - rewrite <-Hr. f_equal. lia.
  - intros x Hx. rewrite Hlow by lia. subst s3. rewrite !(wreg_regs regs writes).
    rewrite !lookup_insert_ne by (rewrite u32_id by (cbn [length] in Hm; lia); lia). done.
  - cbn [length sram_read]. rewrite Hread. f_equal. rewrite !Hlow by lia. subst s3. rewrite !(wreg_regs regs writes).
    cbn [length] in Hm. unfold is_byte in Hc. rewrite !u32_id by lia.
    rewrite (lookup_insert_ne _ (addr + 0xc) (addr + 4)), (lookup_insert_ne _ (addr + 8) (addr + 4)),
      (lookup_insert_ne _ (addr + 0xc) (addr + 8)), !lookup_insert_eq by lia.
    cbn [default]. by rewrite Hbs.
Qed.


Lemma zlen_enc ws : Forall word_ok ws → zlen (enc ws) = 9 * Z.of_nat (length ws).
Proof.
  induction 1 as [|[c bs] ws (_ & Hl & _) _ IH]; [done|]. cbn [fst snd] in Hl.
  assert (enc (@cons word (c, bs) ws) = (Some c :: cells bs) ++ enc ws) as -> by done.
  rewrite zlen_app, IH. unfold zlen, cells. cbn [length]. rewrite length_fmap, Hl. lia.
Qed.

Lemma load_queues_ok port base ws s :
  0 ≤ port < 4 → zget (queue_base_addr s) port = Some base → has port (enc ws) s → Forall word_ok ws →
  0 ≤ base → base + Z.of_nat (length ws) ≤ MEM_SIZE →
  ∃ s', load_queues port s = Ok (0, s')
    ∧ sram_read (sregs regs s') (SRAM_BASE_ADDR + base * 16) (length ws) = ws.
Proof.
  intros Hp Hbase [Hq Hn] Hws H0 Hm. unfold load_queues.
  rewrite (bind_val _ _ _ (elt_get _ _ _ Hbase)), (bind_val _ _ _ (elt_get _ _ _ Hn)), (bind_val _ _ _ (elt_get _ _ _ Hq)).
  cbv beta. pose proof (zlen_enc ws Hws) as Hz. unfold SRAM_BASE_ADDR, MEM_SIZE in *. rewrite u32_id by lia.
  destruct (load_words_ok ws (Z.to_nat (zlen (enc ws) `div` 9 + 2)) [] (16777216 + base * 16) s) as (s' & Hr & _ & Hrd).
  - done.
  - rewrite Hz. Z.to_euclidean_division_equations; lia.
  - lia.
  - lia.
  - rewrite Z.add_0_l in Hr. exists s'. rewrite (bind_val _ _ _ Hr). done.
Qed.
End send.

(** C26. Loading a pcap file into a queue that is still empty, dividing the memory
    and copying the queue to a card that stores what is written puts the packets
    on the card: reading the words of the queue's part of the memory back and
    decoding them gives the packets of the file, in order, each with its bytes,
    the bit of the output port and source port 0.  The decoder accepts a packet
    only with the control byte of a module header and with the number of words
    and of bytes announced in it.  The words stay inside the bounds
    written for the queue.  This without padding, for any delay but -1, which
    stands for the times of the file, for packets that fit in the memory of the
    queues and were captured up to the next multiple of eight bytes, which the
    code reads, and for any result of conversions that are out of range. *)
Theorem card_holds_packets {card} {drv : Driver card} oor (regs : card → gmap Z Z) c s ps port delay :
  stores_writes regs → loaded oor c s → pad s = 0 → 0 ≤ port < 4 → has port [] s → delay ≠ -1 →
  Forall captured_ok ps → total_words s + words_needed delay ps ≤ MAX_TX_QUEUE_SIZE →
  ∃ s1 s2 s3 base hi, load_pcap oor (Some (file_of ps)) port delay s = Ok s1
    ∧ queue_reorganize oor s1 = Ok (0, s2) ∧ load_queues port s2 = Ok (0, s3)
    ∧ bounds regs (8 + port) s2 = (Some base, Some hi)
    ∧ base + Z.of_nat (length (frames port ps)) ≤ hi + 1
    ∧ unframe (sram_read (sregs regs s3) (SRAM_BASE_ADDR + base * 16) (length (frames port ps))) None
      = Some ((λ p : captured, (port_mask port, 0, take (Z.to_nat (pkt_len p.1)) p.2)) <$> ps).
Proof.
  intros Hw Hi%loaded_inv Hpad Hp Hq Hd Hps Hfit.
  destruct (load_packets_ok oor ps port delay [] s Hi Hpad Hp Hd Hps Hq Hfit) as (s1 & H1 & Hi1 & _ & Hq1 & _).
  destruct (reorganize_windows oor regs Hw s1 Hi1) as (s2 & H2 & _ & E1 & E2 & Hwin).
  destruct (inv_port _ Hi1 port Hp) as (w & q & k & Hqw & [Hq2 _] & Hk & Hkw).
  destruct Hq1 as [Hq1 Hn1]. cbn [app] in *. rewrite Hq1 in Hq2. injection Hq2 as <-.
  pose proof (frames_ok port ps Hps) as Hws. rewrite zlen_enc in Hk by done.
  destruct (Hwin port w Hp Hqw) as (lo & hi & Hbnd & Hbase & H0 & Hsz & Hmem).
  destruct (load_queues_ok regs Hw port lo (frames port ps) s2) as (s3 & H3 & Hrd); [done|done| |done|lia|lia|].
  { unfold has. by rewrite E1, E2. }
  exists s1, s2, s3, lo, hi. split_and!; [done..|lia|]. rewrite Hrd. by apply unframe_frames.
Qed.

Definition demo_captured : list captured := [(demo_header 60, demo_bytes); (demo_header 17, demo_bytes)].

Lemma demo_captured_ok : Forall captured_ok demo_captured.
Proof. apply (bool_decide_unpack _). vm_compute. exact I. Qed.

Lemma card_holds_packets_witness : ∃ s1 s2 s3 base,
  load_pcap (λ _, 0) (Some (file_of demo_captured)) 2 0 demo_start = Ok s1
  ∧ queue_reorganize (drv := map_driver) (λ _, 0) s1 = Ok (0, s2)
  ∧ load_queues (drv := map_driver) 2 s2 = Ok (0, s3)
  ∧ unframe (sram_read (pg_card s3) (SRAM_BASE_ADDR + base * 16) 13) None
    = Some [(1024, 0, take 60 demo_bytes); (1024, 0, take 17 demo_bytes)].
Proof.
  destruct (card_holds_packets (drv := map_driver) (λ _, 0) id ∅ demo_start demo_captured 2 0)
    as (s1 & s2 & s3 & base & hi & H1 & H2 & H3 & _ & _ & H4).
  - exact map_driver_stores.
  - constructor.
  - reflexivity.
  - lia.
  - split; reflexivity.
  - lia.
  - exact demo_captured_ok.
  - vm_compute. discriminate.
  - exists s1, s2, s3, base. split_and!; [exact H1|exact H2|exact H3|exact H4].
Defined.

Section limiter.
Context {card : Type} {drv : Driver card} (oor : spec_float → Z).
Implicit Types s : pktgen card.

(** ** main *)

Lemma run_steps_app (l k : list (pktgen card → res (pktgen card))) s :
  run_steps (l ++ k) s = (s' ← run_steps l s; run_steps k s').
Proof. revert s. induction l as [|f l IH]; intros s; cbn; [done|]. destruct (f s) as [s'|]; cbn; [apply IH|done]. Qed.

(** 200000 kbit/s is a fifth of a token in a tick. *)
Lemma main_tokens : first_tokens oor (f32_of_Z 200000) = 0.
Proof. vm_compute. reflexivity. Qed.

Lemma main_limiter_hangs fuel queue s : rate_limiter_set oor fuel queue (f32_of_Z 200000) s = Fault FFuel.
Proof.
  unfold rate_limiter_set. change (SFltb (f32_of_Z 200000) (f32_of_Z 1)) with false. cbv iota.
  by rewrite main_tokens, token_loop_zero.
Qed.

(** Nothing but the registers of the card is different. *)
Definition only_card s s' : Prop := ∃ c, s' = s <| pg_card := c |>.

Lemma only_card_refl s : only_card s s.
Proof. exists (pg_card s). by destruct s. Qed.
Lemma only_card_wreg reg val s s' : only_card s s' → only_card s (wreg reg val s').
Proof. intros [c ->]. by eexists. Qed.
Hint Resolve only_card_refl only_card_wreg : core.

Lemma load_words_frame fuel i n addr q s0 s s' :
  only_card s0 s → load_words fuel i n addr q s = Ok s' → only_card s0 s'.
Proof.
  revert i addr s. induction fuel as [|fuel IH]; intros i addr s Hs H; [done|]. cbn [load_words] in H.
  destruct (i <? n); [|by injection H as <-].
  apply bind_Ok in H as (c & _ & H). apply bind_Ok in H as (a & _ & H). apply bind_Ok in H as (b & _ & H).
  eapply IH; [|exact H]. auto.
Qed.

Context (regs : card → gmap Z Z).
Hypothesis writes : stores_writes regs.

(** The register that enables the generator is left alone. *)
Definition idle_kept s s' : Prop :=
  sregs regs s' !! PKT_GEN_CTRL_ENABLE_REG = sregs regs s !! PKT_GEN_CTRL_ENABLE_REG
  ∧ queue_addr_offset s' = queue_addr_offset s.

#[local] Instance idle_kept_preorder : PreOrder idle_kept.
Proof. split; [done|]. intros a b c [H1 H2] [H3 H4]. split; congruence. Qed.

Lemma kept_wreg reg val s : 0 ≤ reg < PKT_GEN_CTRL_ENABLE_REG → idle_kept s (wreg reg val s).
Proof using writes.
  unfold PKT_GEN_CTRL_ENABLE_REG. intros Hr. split; [|done].
  rewrite (wreg_regs regs writes), lookup_insert_ne; [done|]. rewrite u32_id by lia. unfold PKT_GEN_CTRL_ENABLE_REG. lia.
Qed.

Ltac kept := apply kept_wreg; unfold oq_offset, rate_limit_offset, OQ_QUEUE_0_ADDR_LO_REG, OQ_QUEUE_0_ADDR_HI_REG,
  OQ_QUEUE_0_CTRL_REG, OQ_QUEUE_1_ADDR_LO_REG, OQ_QUEUE_0_MAX_ITER_REG, RATE_LIMIT_0_CTRL_REG, RATE_LIMIT_1_CTRL_REG,
  PKT_GEN_CTRL_ENABLE_REG, NUM_PORTS in *; lia.

Lemma kept_ctrl_all n i val s : 0 ≤ i → i + Z.of_nat n ≤ 12 → idle_kept s (ctrl_all n i val s).
Proof using writes.
  revert i s. induction n as [|n IH]; intros i s Hi Hn; cbn [ctrl_all]; [done|].
  etrans; [|apply IH; lia]. kept.
Qed.

Lemma kept_place_queue i lo size s : 0 ≤ i < 12 → idle_kept s (place_queue i lo size s).
Proof using writes. intros Hi. unfold place_queue. do 2 (etrans; [|kept]). kept. Qed.

Lemma kept_place_rx n i free curr s :
  0 ≤ i → i + Z.of_nat n ≤ 4 → idle_kept s (place_rx oor n i free curr s).2.
Proof using writes.
  revert i curr s. induction n as [|n IH]; intros i curr s Hi Hn; cbn [place_rx]; [done|].
  etrans; [|apply IH; lia]. etrans; apply kept_place_queue; lia.
Qed.

Lemma kept_place_tx n i curr s s' :
  0 ≤ i → i + Z.of_nat n ≤ 4 → place_tx n i curr s = Ok s' → idle_kept s s'.
Proof using writes.
  revert i curr s. induction n as [|n IH]; intros i curr s Hi Hn H; cbn [place_tx] in H; [by injection H as <-|].
  apply bind_Ok in H as (size & _ & H). etrans; [|eapply IH; [..|exact H]; lia].
  apply (kept_place_queue (i + 2 * NUM_PORTS)). unfold NUM_PORTS. lia.
Qed.

Lemma kept_reorganize s r s' : queue_reorganize oor s = Ok (r, s') → idle_kept s s'.
Proof using writes.
  unfold queue_reorganize. intros (free & _ & H)%bind_Ok.
  pose proof (kept_place_rx 4 0 free 0 (ctrl_all 12 0 0 s) ltac:(lia) ltac:(lia)) as H1.
  destruct (place_rx _ _ _ _ _ _) as [curr s1]. apply bind_Ok in H as (s2 & H2 & H). injection H as _ <-.
  etrans; [apply (kept_ctrl_all 12 0 0); lia|]. etrans; [exact H1|].
  etrans; [eapply kept_place_tx; [..|exact H2]; lia|].
  apply (kept_ctrl_all 8 0 1 s2); lia.
Qed.

Lemma kept_load_words fuel i n addr q s s' :
  0 ≤ addr → addr + 16 * Z.of_nat fuel < PKT_GEN_CTRL_ENABLE_REG →
  load_words fuel i n addr q s = Ok s' → idle_kept s s'.
Proof using writes.
  revert i addr s. induction fuel as [|fuel IH]; intros i addr s Ha Hb H; [done|]. cbn [load_words] in H.
  destruct (i <? n); [|by injection H as <-].
  apply bind_Ok in H as (c & _ & H). apply bind_Ok in H as (a & _ & H). apply bind_Ok in H as (b & _ & H).
  unfold PKT_GEN_CTRL_ENABLE_REG in *.
  etrans; [|eapply IH; [..|exact H]; unfold u32; rewrite Z.mod_small by lia; lia].
  do 2 (etrans; [|kept]). kept.
Qed.

Lemma setup_ports_ok n i s : sized s → 0 ≤ i → i + Z.of_nat n ≤ 4 → queue_addr_offset s = OQ_QUEUE_GROUP_INST_OFFSET →
  ∃ s', setup_ports n i s = Ok s' ∧ idle_kept s s'.
Proof using writes.
  revert i s. induction n as [|n IH]; intros i s Hs Hi Hn Ho; [by eexists|]. cbn [setup_ports].
  pose proof Hs as Hz. unfold sized in Hz.
  destruct (elt_ok (queue_data_len s) i) as [a Ha]; [tauto|lia|].
  destruct (elt_ok (iterations s) i) as [b Hb]; [tauto|lia|].
  destruct (elt_ok (rate s) i) as [r Hr]; [tauto|lia|].
  rewrite (bind_val _ _ _ Ha), (bind_val _ _ _ Hb), (bind_val _ _ _ Hr). cbv beta zeta.
  match goal with |- context [setup_ports n (i + 1) ?x] => set (s2 := x) end.
  assert (sized s2 ∧ idle_kept s s2) as [Hs2 Hk].
  { subst s2. split; [by destruct (a =? 0), (SFltb _ _)|].
    assert (∀ s', idle_kept s s' → idle_kept s (if SFltb (f32_of_Z 0) r then (rate_limiter_enable (i * 2) s').2
      else (rate_limiter_disable (i * 2) s').2)) as H1.
    { intros s' H1. etrans; [exact H1|]. destruct (SFltb _ _); cbn [rate_limiter_enable rate_limiter_disable snd]; kept. }
    apply H1. destruct (a =? 0); [done|]. unfold set_number_iterations. rewrite Ho. cbn [snd].
    unfold OQ_QUEUE_GROUP_INST_OFFSET. etrans; kept. }
  destruct (IH (i + 1) s2 Hs2) as (s' & Hr' & Hk'); [lia|lia|by rewrite (proj2 Hk)|].
  exists s'. split; [done|]. by etrans.
Qed.

(** Every queue holds words and lies in the memory. *)
Definition copyable s : Prop := ∀ p, 0 ≤ p < 4 → ∃ base ws, zget (queue_base_addr s) p = Some base
  ∧ has p (enc ws) s ∧ Forall word_ok ws ∧ 0 ≤ base ∧ base + Z.of_nat (length ws) ≤ MEM_SIZE.

Lemma load_all_ok n i s : sized s → copyable s → 0 ≤ i → i + Z.of_nat n ≤ 4 →
  ∃ s', load_all n i s = Ok s' ∧ sized s' ∧ idle_kept s s'.
Proof using writes.
  revert i s. induction n as [|n IH]; intros i s Hs Hc Hi Hn; [by eexists|]. cbn [load_all].
  destruct (Hc i) as (base & ws & Hb & Hq & Hws & H0 & Hm); [lia|].
  rewrite (bind_val _ _ _ (elt_get _ _ _ (proj2 Hq))). cbv beta.
  destruct (zlen (enc ws) =? 0); [apply IH; (done || lia)|].
  destruct (load_queues_ok regs writes i base ws s) as (s' & Hr & _); [lia|done..|].
  assert (only_card s s' ∧ idle_kept s s') as [[c ->] Hk].
  { pose proof (zlen_enc ws Hws) as Hz. unfold load_queues in Hr.
    rewrite (bind_val _ _ _ (elt_get _ _ _ Hb)), (bind_val _ _ _ (elt_get _ _ _ (proj2 Hq))) in Hr. cbv beta in Hr.
    rewrite (bind_val _ _ _ (elt_get _ _ _ (proj1 Hq))) in Hr. cbv beta in Hr.
    apply bind_Ok in Hr as (s1 & Hw & Hr). injection Hr as <-.
    split; [by eapply load_words_frame|]. eapply kept_load_words; [..|exact Hw].
    - apply u32_range.
    - unfold MEM_SIZE, SRAM_BASE_ADDR, PKT_GEN_CTRL_ENABLE_REG in *. rewrite u32_id by lia. rewrite Hz.
      Z.to_euclidean_division_equations; lia. }
  rewrite Hr. destruct (IH (i + 1) (s <| pg_card := c |>)) as (s2 & Hr2 & Hs2 & Hk2); [done|done|lia|lia|].
  exists s2. split; [exact Hr2|]. split; [done|]. by etrans.
Qed.

Lemma init_inv (c : card) nf2 (c' : card) :
  pg_inv (pktgen_init c <| pg_nf2 := nf2 |> <| pg_card := c' |> <| send_enable := 1 |> <| pad := 0 |>).
Proof.
  constructor; [done| |done|done]. intros p Hp. exists 0, [], 0.
  assert (p = 0 ∨ p = 1 ∨ p = 2 ∨ p = 3) as [->|[->|[->| ->]]] by lia; done.
Qed.

(** After loading packets into the third queue only. *)
Lemma reorganize_copyable s ps :
  pg_inv s → Forall captured_ok ps → has 2 (enc (frames 2 ps)) s →
  (∀ p, 0 ≤ p < 4 → p ≠ 2 → zget (queue_data_len s) p = Some 0) →
  ∃ s', queue_reorganize oor s = Ok (0, s') ∧ sized s' ∧ copyable s'.
Proof using writes.
  intros Hi Hps Hq Ho. destruct (reorganize_windows oor regs writes s Hi) as (s' & H1 & Hs' & E1 & E2 & Hwin).
  exists s'. split_and!; [done|done|].
  intros p Hp. destruct (inv_port _ Hi p Hp) as (w & q & k & Hw & [Hq1 Hq2] & Hk & Hkw).
  destruct (Hwin p w Hp Hw) as (lo & hi & _ & Hbase & H0 & Hsz & Hmem). destruct (decide (p = 2)) as [->|Hne].
  - exists lo, (frames 2 ps). destruct Hq as [Hq _]. rewrite Hq in Hq1. injection Hq1 as <-.
    pose proof (frames_ok 2 ps Hps) as Hws. rewrite zlen_enc in Hk by done.
    split_and!; [done| |done|done|lia]. unfold has. by rewrite E1, E2.
  - exists lo, []. rewrite (Ho p Hp Hne) in Hq2. injection Hq2 as Hz.
    assert (q = []) as -> by (destruct q; [done|]; unfold zlen in Hz; cbn in Hz; lia).
    split_and!; [done| |constructor|done|cbn; lia]. unfold has. rewrite E1, E2. by rewrite (Ho p Hp Hne).
Qed.

(** The statements before the rate limiter leave the generator disabled. *)
Lemma main_before_limiter o c ps s0 :
  init o (pktgen_init c) = Ok s0 → Forall captured_ok ps → words_needed 0 ps ≤ MAX_TX_QUEUE_SIZE →
  ∃ s', sregs regs s' !! PKT_GEN_CTRL_ENABLE_REG = Some 0 ∧ ∀ fuel start clock,
    run_steps (take 6 (main_steps oor fuel o (Some (file_of ps)) start clock)) (pktgen_init c) = Ok s'.
Proof using writes.
  intros Hinit Hps Hfit.
  assert (∃ d, s0 = pktgen_init c <| pg_nf2 := d |>) as [d ->].
  { unfold init in Hinit. res_inv. destruct x as [r x]. res_inv. destruct x0 as [r' x0]. res_inv. by eexists. }
  destruct (writeReg_regs regs writes d PKT_GEN_CTRL_ENABLE_REG 0 c) as (c1 & Hc1 & Hregs).
  set (sa := pktgen_init c <| pg_nf2 := d |> <| pg_card := c1 |> <| send_enable := 1 |> <| pad := 0 |>).
  pose proof (init_inv c d c1 : pg_inv sa) as Hia.
  destruct (load_packets_ok oor ps 2 0 [] sa Hia eq_refl ltac:(lia) ltac:(lia) Hps ltac:(done) Hfit)
    as (s1 & H1 & Hi1 & Hsame & Hq1 & Ho).
  destruct (reorganize_copyable s1 ps Hi1 Hps Hq1) as (s2 & H2 & Hs2 & Hc2).
  { intros p Hp Hne. rewrite Ho by done. assert (p = 0 ∨ p = 1 ∨ p = 3) as [->|[->| ->]] by lia; done. }
  destruct (load_all_ok 4 0 s2 Hs2 Hc2) as (s3 & H3 & Hs3 & K3); [lia..|].
  pose proof (kept_reorganize s1 0 s2 H2) as K2. destruct Hsame as (E1 & _ & _ & _ & E2).
  destruct (setup_ports_ok 4 0 s3 Hs3) as (s4 & H4 & K4); [lia..| |].
  { rewrite (proj2 K3), (proj2 K2), E2. done. }
  exists s4. split.
  - rewrite (proj1 K4), (proj1 K3), (proj1 K2). unfold sregs. rewrite E1. change (pg_card sa) with c1.
    rewrite Hregs. apply lookup_insert_eq.
  - intros. cbn [main_steps take run_steps]. rewrite (bind_val _ _ _ Hinit). cbv beta. unfold packet_generator_enable at 1.
    change (writeReg _ PKT_GEN_CTRL_ENABLE_REG 0 _) with (writeReg d PKT_GEN_CTRL_ENABLE_REG 0 c). rewrite Hc1.
    cbv iota beta. change (negb (0 =? 0)) with false. cbv iota. cbn [mbind res_bind mret res_ret]. fold sa.
    unfold load_pcap. rewrite H1. cbn [mbind res_bind]. rewrite H2. cbn [mbind res_bind mret res_ret].
    rewrite H3. cbn [mbind res_bind]. rewrite H4. done.
Qed.

(** C10. When the device is found and opened, the packets of the file fit and were
    captured up to the next multiple of eight bytes, main never gets past its
    call of rate_limiter_set.  The statements before it return, whatever the time
    is; in the state in which they leave the card the last value written to the register
    that enables the generator is 0; and the next statement, the call of
    rate_limiter_set for queue 4 with 200000, does not return from there for any number
    of iterations of its search.  So neither the generator is enabled nor a packet
    sent, and main does not return. *)
Theorem main_never_sends o c ps s0 :
  init o (pktgen_init c) = Ok s0 → Forall captured_ok ps → words_needed 0 ps ≤ MAX_TX_QUEUE_SIZE →
  ∃ k s', sregs regs s' !! PKT_GEN_CTRL_ENABLE_REG = Some 0 ∧
    (∀ fuel, rate_limiter_set oor fuel 4 (f32_of_Z 200000) s' = Fault FFuel) ∧
    ∀ fuel start clock, let steps := main_steps oor fuel o (Some (file_of ps)) start clock in
      run_steps (take k steps) (pktgen_init c) = Ok s' ∧
      (∃ step, steps !! k = Some step ∧ step s' = Fault FFuel) ∧
      main oor fuel o (Some (file_of ps)) start clock (pktgen_init c) = Fault FFuel.
Proof using writes.
  intros Hinit Hps Hfit. destruct (main_before_limiter o c ps s0 Hinit Hps Hfit) as (s4 & Hreg & Hrun).
  exists 6%nat, s4. split; [done|]. split; [intros fuel; apply main_limiter_hangs|].
  intros fuel start clock steps. split; [apply Hrun|]. split.
  - eexists. split; [done|]. cbv beta. by rewrite main_limiter_hangs.
  - unfold main. fold steps. specialize (Hrun fuel start clock). fold steps in Hrun.
    assert (run_steps steps (pktgen_init c) = Fault FFuel) as ->; [|done].
    rewrite <-(take_drop 6 steps), run_steps_app, Hrun. cbn [mbind res_bind].
    cbn [steps main_steps drop run_steps]. by rewrite main_limiter_hangs.
Qed.
End limiter.

Definition demo_sys : sys :=
  {| stat_ret := λ _, 0; socket_ret := 3; geteuid_ret := 0; setsockopt_ret := λ _ _, 0; fopen_fd := λ _, None |}.

Lemma main_never_sends_witness : ∃ k s',
  sregs id s' !! PKT_GEN_CTRL_ENABLE_REG = Some 0 ∧
  (∀ fuel, rate_limiter_set (drv := map_driver) (λ _, 0) fuel 4 (f32_of_Z 200000) s' = Fault FFuel) ∧
  ∀ fuel start clock,
    let steps := main_steps (drv := map_driver) (λ _, 0) fuel demo_sys (Some (file_of demo_captured)) start clock in
    run_steps (take k steps) (pktgen_init ∅) = Ok s' ∧
    (∃ step, steps !! k = Some step ∧ step s' = Fault FFuel) ∧
    main (drv := map_driver) (λ _, 0) fuel demo_sys (Some (file_of demo_captured)) start clock (pktgen_init ∅) = Fault FFuel.
Proof.
  apply (main_never_sends (drv := map_driver) (λ _, 0) id map_driver_stores demo_sys ∅ demo_captured
    (pktgen_init ∅ <| pg_nf2 := {| device_name := DEFAULT_IFACE; fd := 3; net_iface := 1 |} |>)).
  - vm_compute. reflexivity.
  - exact demo_captured_ok.
  - vm_compute. discriminate.
Defined.
