(* ===== verification/Control.v ===== *)
(** * The control connection: control.cpp

    A server of the libfluid library accepts the switch's connection; its thread
    calls the two callbacks and the main thread waits until a connection is
    ready.  The library is outside the repository: the connection it has at a
    moment and the order of its calls are what the environment answers. *)

From Stdlib Require Import String.
From S2P Require Import Prelude CBytes CStr OpenFlow PcapTrack Msg Context Harness.
Open Scope Z_scope.

(** ** Connections *)

(** OFConnection::Event and the states of a connection. *)
Inductive of_event :=
| EVENT_STARTED | EVENT_ESTABLISHED | EVENT_FAILED_NEGOTIATION | EVENT_CLOSED | EVENT_DEAD.
Inductive conn_state := STATE_HANDSHAKE | STATE_RUNNING | STATE_FAILED | STATE_DOWN.

#[export] Instance of_event_eq_dec : EqDecision of_event.
Proof. solve_decision. Defined.
#[export] Instance conn_state_eq_dec : EqDecision conn_state.
Proof. solve_decision. Defined.

(** A connection: its number, state and version. *)
Record of_connection := { conn_id : Z; conn_st : conn_state; conn_version : Z }.

(** [class BasicTestServer]; what was given to the library's server is kept. *)
Record test_server := {
  srv_address : cstring;
  srv_port : Z;
  srv_tls : bool;
  srv_versions : list Z;      (* options.supported_version *)
  srv_state : of_event;       (* state *)
}.
#[export] Instance test_server_rebuild : Rebuild test_server := λ s,
  {| srv_address := srv_address s; srv_port := srv_port s; srv_tls := srv_tls s;
     srv_versions := srv_versions s; srv_state := srv_state s |}.

(** ** Callbacks *)

(** A message goes to the module of the current test, if there is one.  The
    module's function is a parameter. *)
Definition message_callback {M} (of_message : Z → Z → mem → M → res M) (c : oflops_context)
    (conn : of_connection) (type : Z) (data : mem) (m : M) : res M :=
  match curr_test c with
  | None => mret m
  | Some _ => of_message (conn_version conn) type data m
  end.

Definition event_text (e : of_event) : cstring :=
  match e with
  | EVENT_STARTED => str " started"
  | EVENT_ESTABLISHED => str " established"
  | EVENT_FAILED_NEGOTIATION => str " failed version negotiation"
  | EVENT_CLOSED => str " closed by the user"
  | EVENT_DEAD => str " closed due to inactivity"
  end.

(** Returns the line that is printed; the waiting thread is woken up. *)
Definition connection_callback (conn : of_connection) (type : of_event) (srv : test_server) : cstring * test_server :=
  (str "Connection id=" ++ dec (conn_id conn) ++ event_text type, srv <| srv_state := type |>).

(** Without HAS_GET_FD there is never a backlog; with it, poll() decides. *)
Definition has_backlog (has_get_fd : bool) (conn : option of_connection) (pollout : bool) : res bool :=
  if has_get_fd then match conn with None => Fault FNull | Some _ => mret (negb pollout) end
  else mret false.

Definition has_control_backlog (has_get_fd : bool) (conn : option of_connection) (pollout : bool)
    (c : oflops_context) : res Z :=
  if fluid_control c =? 0 then Fault FNull
  else b ← has_backlog has_get_fd conn pollout; mret (if b : bool then 1 else 0).

(** ** Setting up *)

(** No list of versions allows all of them. *)
Definition check_of_version_allowed (c : oflops_context) (v : Z) : Z :=
  if zlen (of_versions c) =? 0 then 1 else if bool_decide (v ∈ of_versions c) then 1 else 0.

(** The versions of the module that are offered, up to the terminating zero. *)
Fixpoint offered_versions (c : oflops_context) (ofvs : list Z) : res (list Z) :=
  match ofvs with
  | [] => Fault FBounds
  | v :: ofvs =>
    if v =? 0 then mret []
    else r ← offered_versions c ofvs; mret (if check_of_version_allowed c v =? 0 then r else v :: r)
  end.

(** What the waiting thread sees when it evaluates the condition of its loop: the
    first connection and the last event. *)
Record seen := { s_conn : option of_connection; s_event : of_event }.

Definition keep_waiting (o : seen) : bool :=
  match s_conn o with None => true | Some x => bool_decide (conn_st x = STATE_HANDSHAKE) end
  && negb (bool_decide (s_event o = EVENT_FAILED_NEGOTIATION)).

(** The loop: each time it is woken up it looks again. *)
Fixpoint wait_connected (obs : list seen) : res seen :=
  match obs with
  | [] => Fault FFuel
  | o :: obs => if keep_waiting o then wait_connected obs else mret o
  end.

(** After the loop the connection is dereferenced, also when there is none. *)
Definition check_connected (o : seen) : res of_connection :=
  match s_conn o with
  | None => Fault FNull
  | Some x =>
    if bool_decide (conn_st x = STATE_FAILED) || bool_decide (s_event o = EVENT_FAILED_NEGOTIATION) then Fault FAbort
    else mret x
  end.

(** Answers of the kernel and of the module. *)
Record control_env := {
  if_address : cstring → option cstring;   (* SIOCGIFADDR and inet_ntoa *)
  module_versions : option (list Z);       (* get_openflow_versions() *)
  new_server : Z;                          (* the address of the new server *)
}.

Definition setup_control_channel (e : control_env) (obs : list seen) (c : oflops_context) :
    res (test_server * Z * oflops_context) :=
  x ← get_channel c OFLOPS_CONTROL;
  match dev x with
  | None => Fault FNull
  | Some d =>
    match if_address e (take 16 d) with
    | None => Fault (FExit 1)
    | Some address =>
      let use_tls := match tls_cert c, tls_privkey c, tls_trustedcert c with Some _, Some _, Some _ => true | _, _, _ => false end in
      versions ← match module_versions e with None => mret [] | Some l => offered_versions c l end;
      let srv := {| srv_address := address; srv_port := listen_port c; srv_tls := use_tls;
                    srv_versions := versions; srv_state := EVENT_DEAD |} in
      let c := c <| fluid_control := new_server e |> in
      o ← wait_connected obs;
      x ← check_connected o;
      mret (srv <| srv_state := s_event o |>, conn_version x, c)
    end
  end.

Definition teardown_control_channel (c : oflops_context) : res oflops_context :=
  if fluid_control c =? 0 then Fault FNull else mret (c <| fluid_control := 0 |>).

(** ** What setting up does *)

(** The module's versions that the configuration allows, in order. *)
Lemma offered_versions_filter c vs rest : Forall (λ v, v ≠ 0) vs →
  offered_versions c (vs ++ 0 :: rest) = Ok (filter (λ v, of_versions c = [] ∨ v ∈ of_versions c) vs).
Proof.
  induction 1 as [|v vs Hv Hall IH]; [done|]. cbn [app offered_versions]. rewrite (proj2 (Z.eqb_neq _ _)) by done.
  rewrite IH. cbn [mbind res_bind]. unfold check_of_version_allowed, mret, res_ret. f_equal.
  destruct (of_versions c) as [|w ws] eqn:Hw.
  - rewrite filter_cons_True by auto. done.
  - replace (zlen (w :: ws) =? 0) with false by (unfold zlen; cbn [length]; symmetry; apply Z.eqb_neq; lia).
    destruct (decide (v ∈ w :: ws)).
    + rewrite bool_decide_eq_true_2, filter_cons_True by auto. done.
    + rewrite bool_decide_eq_false_2, filter_cons_False by (done || naive_solver). done.
Qed.

(** The first observation that ends the waiting decides: a connection that is up
    gives its version, one that failed ends the program. *)
Lemma wait_connected_first ws o rest :
  Forall (λ o, keep_waiting o = true) ws → keep_waiting o = false → wait_connected (ws ++ o :: rest) = Ok o.
Proof. induction 1 as [|w ws Hw _ IH]; intros Ho; cbn; [by rewrite Ho|]. rewrite Hw. auto. Qed.

Lemma check_connected_result o : keep_waiting o = false →
  (∃ x, check_connected o = Ok x ∧ s_conn o = Some x ∧ conn_st x ≠ STATE_HANDSHAKE ∧ conn_st x ≠ STATE_FAILED
        ∧ s_event o ≠ EVENT_FAILED_NEGOTIATION)
  ∨ (check_connected o = Fault FAbort ∧ s_conn o ≠ None)
  ∨ (check_connected o = Fault FNull ∧ s_conn o = None ∧ s_event o = EVENT_FAILED_NEGOTIATION).
Proof.
  unfold keep_waiting, check_connected. destruct (s_conn o) as [x|].
  - intros H. apply andb_false_iff in H. rewrite negb_false_iff, bool_decide_eq_true in H.
    destruct (decide (conn_st x = STATE_FAILED)) as [Hf|Hf]; [rewrite (bool_decide_eq_true_2 _ Hf); naive_solver|].
    rewrite (bool_decide_eq_false_2 _ Hf). cbn [orb].
    destruct (decide (s_event o = EVENT_FAILED_NEGOTIATION)) as [He|He].
    + rewrite (bool_decide_eq_true_2 _ He). naive_solver.
    + rewrite (bool_decide_eq_false_2 _ He). left. exists x. destruct H as [H|H]; [|done].
      apply bool_decide_eq_false in H. naive_solver.
  - cbn [andb]. rewrite negb_false_iff, bool_decide_eq_true. naive_solver.
Qed.
