(* ===== verification/PktGenOne.v ===== *)
(** * The first packet generator: pkt_gen/pkt_gen.c

    One packet is built in memory, framed for the card and copied to its memory.
    The packet is as long as a whole number of words, and the control byte that
    follows the last whole word is written behind the block that was allocated. *)

From Stdlib Require Import SpecFloat String.
From S2P Require Import Prelude CTime CBytes CStr OpenFlow PcapTrack Msg Context Harness TrafficGen.
From S2P Require Import MsgSpec CFloat Nf2Util PktGen Nf2Spec PktGenSpec.
Open Scope Z_scope.

Definition iface_one : cstring := str "nf2c3".
Definition OQ_QUEUE_0_NUM_PKTS_REMOVED_REG : Z := 0x200001c.
Definition OQ_QUEUE_0_CURR_ITER_REG : Z := 0x2000044.

(** [struct traf_gen_det] of this program has no count and no flags. *)
Definition init_data : traf_gen_det :=
  {| src_ip := str "10.1.1.1"; dst_ip_min := str "10.1.1.2"; dst_ip_max := str "10.1.1.2";
     mac_src := str "00:1e:68:9a:c5:75"; mac_dst := str "00:15:17:7b:92:0a"; vlan := 0xffff; vlan_p := 0;
     vlan_cfi := 0; udp_src_port := 8080; udp_dst_port := 8080; pkt_size := 1400; gen_delay := 100 * 1000;
     pkt_count := 0; gen_flags := [] |}.

(** ** The packet *)

(** The array is of 16-bit numbers, so the loop combines the low bytes of two
    adjacent ones and covers twice the length. *)
Fixpoint sum_low_bytes (fuel : nat) (b : mem) (ip len i sum : Z) : res Z :=
  match fuel with
  | O => Fault FFuel
  | S fuel =>
    if i <? len then
      x ← rd8 b (ip + 2 * i);
      _ ← rd8 b (ip + 2 * i + 1);
      y ← rd8 b (ip + 2 * (i + 1));
      _ ← rd8 b (ip + 2 * (i + 1) + 1);
      sum_low_bytes fuel b ip len (u16 (i + 2)) (u32 (sum + (x * 256 + y)))
    else mret sum
  end.

Definition ip_sum_calc_one (len : Z) (b : mem) (ip : Z) : res Z :=
  sum ← sum_low_bytes (S (Z.to_nat len)) b ip len 0 0;
  sum ← fold_sum 4 sum;
  mret (u16 (Z.lnot sum)).

Section packet.
Context (inet_addr : cstring → Z).

Definition put_ip_one (b : mem) (o len : Z) (d : traf_gen_det) : res mem :=
  b ← wr16be b (o + 2) (u16 (len - o));
  b ← wr16be b (o + sizeof_iphdr + 4) (u16 (len - o - sizeof_iphdr));
  b ← wr8 b (o + 9) 1;
  b ← wr8 b o 0x05;
  b ← wr8 b o 0x45;
  b ← wr8 b (o + 8) 100;
  b ← wr8 b (o + 9) IPPROTO_UDP;
  b ← wr32le b (o + 12) (inet_addr (src_ip d));
  b ← wr32le b (o + 16) (inet_addr (dst_ip_min d));
  c ← ip_sum_calc_one 20 b o;
  wr16be b (o + 10) c.

(** None: the packet is too small.  The measurement header's magic number is
    stored in the order of the machine. *)
Definition innitialize_generator_packet_one (d : traf_gen_det) : res (option mem) :=
  let len := i32 (pkt_size d) in
  if len <? 0 then Fault FBounds
  else
    let b := mem_zero len in
    if len <? sizeof_ether_vlan_header + sizeof_iphdr + sizeof_tcphdr then mret None
    else
      '(b, _) ← read_mac_addr b 0 (mac_dst d);
      '(b, _) ← read_mac_addr b 6 (mac_src d);
      '(b, o) ← put_ether b d;
      b ← put_ip_one b o len d;
      let u := o + sizeof_iphdr in
      b ← wr16be b u (udp_src_port d);
      b ← wr16be b (u + 2) (udp_dst_port d);
      b ← wr32le b (u + sizeof_udphdr) 0xbe9be955;
      mret (Some b).
End packet.

(** ** The framed packet *)

Fixpoint frame_words_one (n : nat) (data : mem) (pointer : Z) (pkt : mem) (pkt_pointer : Z) : res (mem * Z * Z) :=
  match n with
  | O => mret (data, pointer, pkt_pointer)
  | S n =>
    data ← wr8 data pointer 0;
    w ← rd_cells pkt pkt_pointer 8;
    data ← wr_cells data (pointer + 1) w;
    frame_words_one n data (pointer + 9) pkt (pkt_pointer + 8)
  end.

(** The block has room for a header, the bytes and a control byte for each
    word begun. *)
Definition frame_one (oor : spec_float → Z) (pkt : mem) : res mem :=
  let len := zlen pkt in
  let q := f64_of (f32_div (f32_of_Z len) (f32_of_Z 8)) in
  let words := u32_of_float oor (sf_ceil q) in
  let data := mem_zero (u32_of_float oor (f64_add (f64_of_Z (len + 9)) (sf_ceil q))) in
  data ← wr8 data 0 IO_QUEUE_STAGE_NUM;
  data ← wr16le data 1 0;
  data ← wr16le data 3 (u16 words);
  data ← wr16le data 5 (u16 (Z.shiftl 0x100 3));
  data ← wr16le data 7 (u16 len);
  '(data, pointer, pkt_pointer) ← frame_words_one (Z.to_nat (u32_of_float oor (sf_floor q))) data 9 pkt 0;
  data ← wr8 data pointer (len - pkt_pointer);
  w ← rd_cells pkt pkt_pointer (len - pkt_pointer);
  wr_cells data (pointer + 1) w.

(** ** main *)

Section main.
Context {card : Type} {drv : Driver card} (oor : spec_float → Z).
Implicit Types c : card.

Definition wr (nf2 : nf2device) (reg val : Z) c : card := (writeReg nf2 reg val c).2.

(** Queues of a fixed size: the receive queues share half of what is left, one
    transmit queue holds the packet. *)
Definition rx_size_one : Z := (MEM_SIZE - 4 * XMIT_QUEUE_SIZE) `div` 8.
Definition tx_size_one (i pkt_size : Z) : Z := if i =? 3 then pkt_size + pkt_size `div` 8 + 1 else 1.

Definition place_one (nf2 : nf2device) (i lo hi : Z) c : card :=
  let c := wr nf2 (OQ_QUEUE_0_ADDR_LO_REG + i * oq_offset) lo c in
  let c := wr nf2 (OQ_QUEUE_0_ADDR_HI_REG + i * oq_offset) (u32 hi) c in
  wr nf2 (OQ_QUEUE_0_CTRL_REG + i * oq_offset) 0x02 c.

Fixpoint ctrl_one (n : nat) (nf2 : nf2device) (i val : Z) c : card :=
  match n with O => c | S n => ctrl_one n nf2 (i + 1) val (wr nf2 (OQ_QUEUE_0_CTRL_REG + i * oq_offset) val c) end.

Fixpoint rx_one (n : nat) (nf2 : nf2device) (i curr : Z) c : Z * card :=
  match n with
  | O => (curr, c)
  | S n =>
    let c := place_one nf2 (i * 2) curr (curr + XMIT_QUEUE_SIZE - 1) c in
    let curr := u32 (curr + XMIT_QUEUE_SIZE) in
    let c := place_one nf2 (i * 2 + 1) curr (curr + rx_size_one - 1) c in
    rx_one n nf2 (i + 1) (u32 (curr + rx_size_one)) c
  end.

(** Returns the base address of the last queue. *)
Fixpoint tx_one (n : nat) (nf2 : nf2device) (pkt_size i curr base : Z) c : Z * card :=
  match n with
  | O => (base, c)
  | S n =>
    let size := tx_size_one i pkt_size in
    let c := place_one nf2 (i + 2 * NUM_PORTS) curr (curr + size - 1) c in
    tx_one n nf2 pkt_size (i + 1) (u32 (curr + size)) curr c
  end.

(** The copy: the index counts bytes in the test and words in the access. *)
Fixpoint copy_one (fuel : nat) (nf2 : nf2device) (i : Z) (data : mem) (sram_addr : Z) c : res card :=
  match fuel with
  | O => Fault FFuel
  | S fuel =>
    if i <? zlen data then
      x ← rd32le data (4 * i);
      y ← rd32le data (4 * (i + 1));
      z ← rd32le data (4 * (i + 2));
      let c := wr nf2 (sram_addr + 0x8) z (wr nf2 (sram_addr + 0x4) y (wr nf2 sram_addr x c)) in
      copy_one fuel nf2 (i + 3) data (u32 (sram_addr + 12)) c
    else mret c
  end.

Fixpoint limits_one (n : nat) (nf2 : nf2device) (i : Z) c : card :=
  match n with
  | O => c
  | S n =>
    let c := wr nf2 (OQ_QUEUE_0_CTRL_REG + (i + 2 * NUM_PORTS) * OQ_QUEUE_GROUP_INST_OFFSET) 0x0 c in
    let c := wr nf2 (RATE_LIMIT_0_CTRL_REG + 2 * i * rate_limit_offset) 0x0 c in
    limits_one n nf2 (i + 1) (wr nf2 (RATE_LIMIT_0_CTRL_REG + (2 * i + 1) * rate_limit_offset) 0x0 c)
  end.

(** The statistics that are printed: values that could not be read are
    indeterminate. *)
Fixpoint stats_one (n : nat) (nf2 : nf2device) (i : Z) c : res (list (Z * Z) * card) :=
  match n with
  | O => mret ([], c)
  | S n =>
    let off := (i + 8) * OQ_QUEUE_GROUP_INST_OFFSET in
    let '(_, a, c) := readReg nf2 (OQ_QUEUE_0_NUM_PKTS_REMOVED_REG + off) None c in
    let '(_, b, c) := readReg nf2 (OQ_QUEUE_0_CURR_ITER_REG + off) None c in
    a ← used a;
    b ← used b;
    '(l, c) ← stats_one n nf2 (i + 1) c;
    mret ((a, b) :: l, c)
  end.

Definition main_one (inet_addr : cstring → Z) (o : sys) (close : Z → card → card) c :
    res (list (Z * Z) * card) :=
  '(r, nf2) ← check_iface o {| device_name := iface_one; fd := 0; net_iface := 0 |};
  if negb (r =? 0) then Fault (FExit 1)
  else
    '(r, nf2) ← openDescriptor o nf2;
    if negb (r =? 0) then Fault (FExit 1)
    else
      let c := wr nf2 PKT_GEN_CTRL_ENABLE_REG 0 c in
      let det := init_data in
      pkt ← innitialize_generator_packet_one inet_addr det;
      let pkt := default (mem_zero (pkt_size det)) pkt in
      let c := ctrl_one 12 nf2 0 0x00 c in
      let '(curr, c) := rx_one 4 nf2 0 0 c in
      let '(base, c) := tx_one 4 nf2 (pkt_size det) 0 curr 0 c in
      data ← frame_one oor pkt;
      c ← copy_one (S (Z.to_nat (zlen data))) nf2 0 data (u32 (SRAM_BASE_ADDR + base * 16)) c;
      let c := limits_one 4 nf2 0 c in
      let off := (3 + 2 * NUM_PORTS) * OQ_QUEUE_GROUP_INST_OFFSET in
      let c := wr nf2 (OQ_QUEUE_0_MAX_ITER_REG + off) 1 (wr nf2 (OQ_QUEUE_0_CTRL_REG + off) 0x1 c) in
      let c := wr nf2 PKT_GEN_CTRL_ENABLE_REG 0x0 (wr nf2 PKT_GEN_CTRL_ENABLE_REG 0xF c) in
      let c := Nat.iter 1024 (wr nf2 DELAY_RESET_REG 1) c in
      '(l, c) ← stats_one 4 nf2 0 c;
      mret (l, (closeDescriptor close nf2 c).2).
End main.

(** ** The overflow *)

Lemma wr_cells_zlen m off x m' : wr_cells m off x = Ok m' → zlen m' = zlen m.
Proof. unfold wr_cells. case_decide; [|done]. intros [= <-]. by apply zlen_splice. Qed.

(** A write of an object inside another keeps its size. *)
Lemma wr_step {A} m off x (k : mem → res A) (P : res A → Prop) :
  in_bounds m off (zlen x) → (∀ m', zlen m' = zlen m → P (k m')) → P (wr_cells m off x ≫= k).
Proof.
  intros Hb HP. rewrite (bind_val _ _ _ (wr_cells_ok _ _ _ Hb)). apply HP. by apply zlen_splice.
Qed.

Lemma frame_words_one_ok n data p pkt pp :
  0 ≤ p → 0 ≤ pp → p + 9 * Z.of_nat n ≤ zlen data → pp + 8 * Z.of_nat n ≤ zlen pkt →
  ∃ data', frame_words_one n data p pkt pp = Ok (data', p + 9 * Z.of_nat n, pp + 8 * Z.of_nat n)
    ∧ zlen data' = zlen data.
Proof.
  revert data p pp. induction n as [|n IH]; intros data p pp Hp Hpp Hd Hk.
  { exists data. split; [|done]. cbn [frame_words_one]. change (Z.of_nat 0) with 0.
    by rewrite !Z.mul_0_r, !Z.add_0_r. }
  cbn [frame_words_one]. unfold wr8, wr_bytes.
  assert (in_bounds data p (zlen (cells [u8 0]))) as B1 by (change (zlen (cells [u8 0])) with 1; unfold in_bounds; lia).
  apply (wr_step _ _ _ _ (λ r, ∃ data', r = Ok (data', _, _) ∧ _) B1). intros d1 H1.
  assert (in_bounds pkt pp 8) as B2 by (unfold in_bounds; lia).
  rewrite (bind_val _ _ _ (rd_cells_ok _ _ _ B2)). cbv beta.
  apply (wr_step _ _ _ _ (λ r, ∃ data', r = Ok (data', _, _) ∧ _)).
  { rewrite zlen_slice by done. unfold in_bounds. lia. }
  intros d2 H2. destruct (IH d2 (p + 9) (pp + 8)) as (d3 & Hr & H3); [lia..|]. exists d3.
  rewrite Hr. split; [|lia].
  replace (p + 9 + 9 * Z.of_nat n) with (p + 9 * Z.of_nat (S n)) by lia.
  by replace (pp + 8 + 8 * Z.of_nat n) with (pp + 8 * Z.of_nat (S n)) by lia.
Qed.

(** The control byte behind the last word of a packet of 1400 bytes. *)
Lemma frame_one_overflows oor pkt : zlen pkt = 1400 → frame_one oor pkt = Fault FBounds.
Proof.
  intros Hl. unfold frame_one. rewrite Hl.
  set (q := f64_of (f32_div (f32_of_Z 1400) (f32_of_Z 8))). vm_compute in q.
  assert (u32_of_float oor (f64_add (f64_of_Z (1400 + 9)) (sf_ceil q)) = 1584) as -> by (vm_compute; reflexivity).
  assert (Z.to_nat (u32_of_float oor (sf_floor q)) = 175%nat) as -> by (vm_compute; reflexivity).
  cbv zeta. unfold wr8, wr16le, wr_bytes.
  assert (zlen (mem_zero 1584) = 1584) as Hz by (apply zlen_mem_zero; lia).
  repeat match goal with |- wr_cells ?m ?o ?x ≫= _ = _ =>
    let b := fresh in assert (in_bounds m o (zlen x)) as b by (unfold in_bounds; vm_compute (zlen x); lia);
    apply (wr_step _ _ _ _ (λ r, r = Fault FBounds) b); clear b; let d := fresh "d" in intros d ? end.
  destruct (frame_words_one_ok 175 d3 9 pkt 0) as (d4 & Hr & H4); [lia..|]. rewrite (bind_val _ _ _ Hr).
  cbv beta iota. change (9 + 9 * Z.of_nat 175) with 1584.
  assert (∀ x, wr_cells d4 1584 (cells [x]) = Fault FBounds) as Hw; [|by rewrite Hw].
  intros x. unfold wr_cells. rewrite decide_False; [done|]. change (zlen (cells [x])) with 1. unfold in_bounds. lia.
Qed.

(** The steps that build the packet keep its size. *)
Lemma write_mac_zlen b off ps b' : write_mac b off ps = Ok b' → zlen b' = zlen b.
Proof.
  revert b off. induction ps as [|p ps IH]; intros b off H; cbn in H; [by injection H as <-|].
  apply bind_Ok in H as (b1 & H1 & H). apply IH in H. apply wr_cells_zlen in H1. congruence.
Qed.

Lemma read_mac_zlen b off t b' t' : read_mac_addr b off t = Ok (b', t') → zlen b' = zlen b.
Proof. intros (b1 & H1%write_mac_zlen & H)%bind_Ok. by injection H as <- _. Qed.

Lemma wr_vid_zlen b vid b' : wr_vid b vid = Ok b' → zlen b' = zlen b.
Proof.
  intros (u & _ & H)%bind_Ok. destruct u as [|? [|? [|]]]; try done. by apply wr_cells_zlen in H.
Qed.

Ltac sizes :=
  repeat match goal with
  | H : wr16be _ _ _ = Ok _ |- _ => apply wr_cells_zlen in H
  | H : wr32le _ _ _ = Ok _ |- _ => apply wr_cells_zlen in H
  | H : wr8 _ _ _ = Ok _ |- _ => apply wr_cells_zlen in H
  | H : wr_vid _ _ = Ok _ |- _ => apply wr_vid_zlen in H
  end.

Lemma packet_one_zlen inet_addr d b : 0 ≤ pkt_size d ≤ INT_MAX →
  innitialize_generator_packet_one inet_addr d = Ok (Some b) → zlen b = pkt_size d.
Proof.
  intros Hs. unfold innitialize_generator_packet_one. rewrite i32_id by (unfold is_int, INT_MIN; lia).
  rewrite (proj2 (Z.ltb_ge _ _)) by lia. case_match; [done|]. intros H0.
  apply bind_Ok in H0 as ([b1 t1] & H1%read_mac_zlen & H0). apply bind_Ok in H0 as ([b2 t2] & H2%read_mac_zlen & H0).
  apply bind_Ok in H0 as ([b3 o] & H3 & H0). apply bind_Ok in H0 as (b4 & H4 & H0).
  rewrite zlen_mem_zero in H1 by lia.
  assert (zlen b3 = zlen b2) as E3 by (clear -H3; unfold put_ether in H3; res_inv; simplify_eq; sizes; congruence).
  assert (zlen b4 = zlen b3) as E4 by (clear -H4; unfold put_ip_one in H4; res_inv; sizes; congruence).
  res_inv. sizes. simplify_eq. congruence.
Qed.

(** main never returns: it writes behind its block first. *)
Theorem main_one_overflows {card} {drv : Driver card} oor inet_addr o close (c : card) r :
  main_one oor inet_addr o close c ≠ Ok r.
Proof.
  unfold main_one. intros ([r1 d] & _ & H)%bind_Ok. destruct (negb (r1 =? 0)); [done|].
  apply bind_Ok in H as ([r2 d2] & _ & H). destruct (negb (r2 =? 0)); [done|]. cbv zeta in H.
  apply bind_Ok in H as (pkt & Hp & H).
  assert (zlen (default (mem_zero (pkt_size init_data)) pkt) = 1400) as Hl.
  { destruct pkt as [b|]; cbn [default]; [|by rewrite zlen_mem_zero by (cbn; lia)].
    by apply packet_one_zlen in Hp; [|unfold INT_MAX; cbn; lia]. }
  destruct (rx_one _ _ _ _ _) as [curr c1]. destruct (tx_one _ _ _ _ _ _ _) as [base c2].
  by rewrite (frame_one_overflows oor _ Hl) in H.
Qed.
