(* ===== verification/MeasureModule.v ===== *)
(** * Measurement probes (mod_flow.c, action_delay.c)

    Modules that measure packets keep one record per captured probe in a tail
    queue, count the records of every channel, and reduce them to a line of
    statistics per channel at the end.  [entry] is the record, [capture] the
    part of handle_pcap_event that appends one, [tally] the loop of destroy over
    the queue and [channel_lines] the lines it logs.  The statistics library,
    printf's %.4f and the allocator are parameters. *)

From S2P Require Import Prelude CTime CBytes CStr OpenFlow WcEvent PcapTrack TimerEvent Msg Context Harness.
From S2P Require Import TrafficGen TrafficKernel Cbench Utils TestModule.
Open Scope Z_scope.

Definition SND_ACT : Z := 5.
Definition OFLOPS_DATA3 : Z := 3.

(** ** Records *)

Record entry := { e_snd : timeval; e_rcv : timeval; e_ch : Z; e_id : Z; e_dst : Z }.

(** count[3] *)
Definition counts0 : list Z := [0; 0; 0].
Definition get3 (l : list Z) (i : Z) : res Z := match zget l i with Some x => mret x | None => Fault FBounds end.
Definition put3 (l : list Z) (i x : Z) : res (list Z) :=
  match zget l i with Some _ => mret (zset l i x) | None => Fault FBounds end.
Definition incr3 (l : list Z) (i : Z) : res (list Z) := c ← get3 l i; c ← chk_int (c + 1); put3 l i c.

(** The tail queue and the counters.  A queue is None until TAILQ_INIT. *)
Record probes := { pr_head : option (list entry); pr_count : list Z }.
#[export] Instance probes_rebuild : Rebuild probes := λ p, {| pr_head := pr_head p; pr_count := pr_count p |}.
Definition probes0 : probes := {| pr_head := None; pr_count := counts0 |}.

Definition entry_of (pkt : pktgen_hdr) (ts : timeval) (ch dst : Z) : entry :=
  {| e_snd := {| tv_sec := pg_tv_sec pkt; tv_usec := pg_tv_usec pkt |}; e_rcv := ts; e_ch := ch;
     e_id := i32 (pg_seq_num pkt); e_dst := dst |}.

(** TAILQ_INSERT_TAIL follows the pointer to the last link, which TAILQ_INIT sets. *)
Definition capture (e : entry) (p : probes) : res probes :=
  c ← incr3 (pr_count p) (e_ch e - 1);
  match pr_head p with
  | None => Fault FNull
  | Some es => mret {| pr_head := Some (es ++ [e]); pr_count := c |}
  end.

(** One of the three data channels. *)
Definition data_channel (ch : Z) : bool := (ch =? OFLOPS_DATA1) || (ch =? OFLOPS_DATA2) || (ch =? OFLOPS_DATA3).

(** ** Statistics *)

Section stats.
Context {F D : Type} {Fl : Floating F} {Db : Floating D}.
Context (gsl_sort : list D → list D) (gsl_mean gsl_variance gsl_median : list D → D).
Context (to_uint : D → Z) (fmt4 : F → cstring).

(** The local variables of destroy. *)
Record tally_st := {
  t_min : list Z;
  t_max : list Z;
  t_ix : list Z;
  t_data : list (list (option D));
}.

(** An array of doubles for every channel, as large as its counter. *)
Definition tally0 (count : list Z) : tally_st :=
  {| t_min := [INT_MAX; INT_MAX; INT_MAX]; t_max := [INT_MIN; INT_MIN; INT_MIN]; t_ix := counts0;
     t_data := arr_new <$> count |}.

Definition tally_one (e : entry) (t : tally_st) : res tally_st :=
  let ch := e_ch e - 1 in
  lo ← get3 (t_min t) ch;
  lows ← put3 (t_min t) ch (if e_id e <? lo then e_id e else lo);
  hi ← get3 (t_max t) ch;
  highs ← put3 (t_max t) ch (if e_id e >? hi then e_id e else hi);
  i ← get3 (t_ix t) ch;
  ix ← put3 (t_ix t) ch (i + 1);
  match zget (t_data t) ch with
  | None => Fault FBounds
  | Some d =>
    d ← arr_write d i (f_of_Z (time_diff (e_snd e) (e_rcv e)));
    mret {| t_min := lows; t_max := highs; t_ix := ix; t_data := zset (t_data t) ch d |}
  end.

(** A record is written to the file of the module when it was asked for.
    [out]: None when fopen failed, else whether writing succeeds. *)
Definition print_entry (line : entry → cstring) (print : Z) (out : option bool) (e : entry) (file : list cstring) :
    res (list cstring) :=
  if print =? 0 then mret file
  else match out with
       | None => Fault FNull
       | Some false => Fault (FExit 1)
       | Some true => mret (file ++ [line e])
       end.

(** The records are released one after the other, and the link to the next one
    is read after that; [kept]: whether the allocator leaves it readable. *)
Fixpoint tally (line : entry → cstring) (print : Z) (out : option bool) (kept : bool) (es : list entry) (t : tally_st)
    (file : list cstring) : res (tally_st * list cstring) :=
  match es with
  | [] => mret (t, file)
  | e :: es =>
    t ← tally_one e t;
    file ← print_entry line print out e file;
    if kept then tally line print out kept es t file else Fault FDangling
  end.

(** The first [n] elements of an array. *)
Fixpoint arr_prefix (n : nat) (l : list (option D)) : res (list D) :=
  match n, l with
  | O, _ => mret []
  | S _, [] => Fault FBounds
  | S _, None :: _ => Fault FUninit
  | S n, Some x :: l => r ← arr_prefix n l; mret (x :: r)
  end.

Definition port_line (port : Z) (data : list D) (loss : F) (total : Z) : cstring :=
  let data := gsl_sort data in
  snprintf 1024 (str "statistics:port:" ++ dec port ++ str ":" ++ dec (to_uint (gsl_mean data)) ++ str ":" ++
    dec (to_uint (gsl_median data)) ++ str ":" ++ dec (to_uint (f_sqrt (gsl_variance data))) ++ str ":" ++
    fmt4 loss ++ str ":" ++ dec total).

(** A channel without records is left out; the distance of the ids is an int. *)
Definition channel_line (now : timeval) (count : list Z) (t : tally_st) (ch : Z) (s : harness) : res harness :=
  n ← get3 (t_ix t) ch;
  if n =? 0 then mret s
  else
    match zget (t_data t) ch with
    | None => Fault FBounds
    | Some d =>
      data ← arr_prefix (Z.to_nat n) d;
      lo ← get3 (t_min t) ch;
      hi ← get3 (t_max t) ch;
      span ← chk_int (hi - lo);
      x ← get_channel (ctx s) (ch + 1);
      total ← get3 count ch;
      oflops_log now GENERIC_MSG (port_line (of_port x) data (f_div (f_of_Z n) (f_of_Z span)) total) s
    end.

Definition channel_lines (now : timeval) (count : list Z) (t : tally_st) (s : harness) : res harness :=
  s ← channel_line now count t 0 s;
  s ← channel_line now count t 1 s;
  channel_line now count t 2 s.

(** The whole report; also the lines of the file. *)
Definition report (line : entry → cstring) (print : Z) (out : option bool) (kept : bool) (now : timeval) (p : probes)
    (s : harness) : res (harness * list cstring) :=
  '(t, file) ← tally line print out kept (default [] (pr_head p)) (tally0 (pr_count p)) [];
  s ← channel_lines now (pr_count p) t s;
  mret (s, file).
End stats.
#[global] Arguments tally_st : clear implicits.
