(* ===== verification/ActionModule.v ===== *)
(** * A test module: the delay of actions (example_modules/openflow_action_delay)

    The module installs one flow, sends a packet stream through it, replaces
    the actions of the flow by the list given in its parameters and measures
    the packets before and after.  [amod] holds its variables; [command] is the
    buffer in which the parameters build the OpenFlow action list. *)

From S2P Require Import Prelude CTime CBytes CStr OpenFlow WcEvent PcapTrack TimerEvent Msg Context Harness.
From S2P Require Import TrafficGen TrafficKernel Cbench Utils TestModule MeasureModule.
Open Scope Z_scope.

(** ** State *)

Record amod := {
  am_pkt_size : Z;
  am_datarate : Z;
  am_interval : Z;  (* data_snd_interval *)
  am_table : Z;
  am_print : Z;
  am_command : mem;
  am_command_len : Z;
  am_cli_param : option cstring;
  am_mac : mem;  (* data_mac *)
  am_fl_probe : option flow;
  am_probes : probes;  (* head, count *)
}.
#[export] Instance amod_rebuild : Rebuild amod := λ m,
  {| am_pkt_size := am_pkt_size m; am_datarate := am_datarate m; am_interval := am_interval m; am_table := am_table m;
     am_print := am_print m; am_command := am_command m; am_command_len := am_command_len m;
     am_cli_param := am_cli_param m; am_mac := am_mac m; am_fl_probe := am_fl_probe m; am_probes := am_probes m |}.

Definition amod0 : amod :=
  {| am_pkt_size := 1500; am_datarate := 100; am_interval := 0; am_table := 0; am_print := 0; am_command := [];
     am_command_len := 0; am_cli_param := None; am_mac := mem_zero 6; am_fl_probe := None; am_probes := probes0 |}.

(** ** Hexadecimal digits *)

Definition hex_char (c : Z) : bool :=
  ((65 <=? c) && (c <=? 70)) || ((97 <=? c) && (c <=? 102)) || ((48 <=? c) && (c <=? 57)).

(** [len] characters of the text, its terminator included. *)
Fixpoint is_hex (data : cstring) (len : nat) : bool :=
  match len, data with
  | O, _ => true
  | S _, [] => false
  | S len, c :: data => hex_char c && is_hex data len
  end.

(** What a character adds; other characters add nothing. *)
Definition hex_value (c : Z) : Z :=
  if (65 <=? c) && (c <=? 70) then 10 + (c - 65)
  else if (97 <=? c) && (c <=? 102) then 10 + (c - 97)
  else if (48 <=? c) && (c <=? 57) then c - 48
  else 0.

(** Two characters, as a byte. *)
Definition read_hex (data : cstring) : res Z :=
  match data with
  | a :: b :: _ => mret (u8 (u8 (u8 (hex_value a) * 16) + hex_value b))
  | _ => Fault FBounds
  end.

(** ** The action list *)

(** realloc keeps what fits; the rest is not set. *)
Definition realloc (b : mem) (n : Z) : mem := take (Z.to_nat n) b ++ mem_new (n - zlen b).

Section actions.
Context {OF : OpenFlow}.

(** The buffer with [size] bytes more, and where they start. *)
Definition grow_command (size : Z) (m : amod) : mem * Z :=
  (realloc (am_command m) (am_command_len m + size), am_command_len m).

(** Type and length of an action. *)
Definition put_action_header (b : mem) (p type len : Z) : res mem :=
  b ← wr16be b (p + ofp_action_header_type) type;
  wr16be b (p + ofp_action_header_len) len.

Definition set_command (b : mem) (size : Z) (m : amod) : amod :=
  m <| am_command := b |> <| am_command_len := am_command_len m + size |>.

Definition append_output (action : Z) (t : cstring) (m : amod) : res amod :=
  let size := sizeof_ofp_action_output in
  let '(b, p) := grow_command size m in
  b ← wr_cells b p (mem_zero size);
  b ← put_action_header b p action 8;
  b ← wr16be b (p + ofp_action_output_max_len) 2000;
  b ← wr16be b (p + ofp_action_output_port) (u16 (strtol 10 t));
  mret (set_command b size m).

Definition append_vlan_vid (action : Z) (t : cstring) (m : amod) : res (Z * amod) :=
  if (strtol 10 t <? 0) || (strtol 10 t >=? 0xFFF) then mret (-1, m)
  else
    let size := sizeof_ofp_action_vlan_vid in
    let '(b, p) := grow_command size m in
    b ← wr_cells b p (mem_zero size);
    b ← put_action_header b p action 8;
    b ← wr16be b (p + ofp_action_vlan_vid_vlan_vid) (u16 (strtol 10 t));
    mret (0, set_command b size m).

Definition append_vlan_pcp (action : Z) (t : cstring) (m : amod) : res (Z * amod) :=
  if (strtol 16 t <? 0) || (strtol 16 t >? 7) then mret (-1, m)
  else
    let size := sizeof_ofp_action_vlan_pcp in
    let '(b, p) := grow_command size m in
    b ← wr_cells b p (mem_zero size);
    b ← put_action_header b p action 8;
    b ← wr8 b (p + ofp_action_vlan_pcp_vlan_pcp) (strtol 16 t);
    mret (0, set_command b size m).

Definition append_strip_vlan (action : Z) (m : amod) : res amod :=
  let size := sizeof_ofp_action_header in
  let '(b, p) := grow_command size m in
  b ← wr_cells b p (mem_zero size);
  b ← put_action_header b p action 8;
  mret (set_command b size m).

(** Six bytes, two characters each. *)
Fixpoint put_hex (n : nat) (b : mem) (p : Z) (t : cstring) : res mem :=
  match n with
  | O => mret b
  | S n => x ← read_hex t; b ← wr8 b p x; put_hex n b (p + 1) (drop 2 t)
  end.

(** Only the size of a header is cleared. *)
Definition append_dl_addr (action : Z) (t : cstring) (m : amod) : res (Z * amod) :=
  if negb (zlen t =? 12) || negb (is_hex t 12) then mret (-1, m)
  else
    let size := sizeof_ofp_action_dl_addr in
    let '(b, p) := grow_command size m in
    b ← wr_cells b p (mem_zero sizeof_ofp_action_header);
    b ← put_action_header b p action 16;
    b ← put_hex 6 b (p + ofp_action_dl_addr_dl_addr) t;
    mret (0, set_command b size m).

(** Nothing is cleared from here on. *)
Definition append_nw_addr (action : Z) (t : cstring) (m : amod) : res (Z * amod) :=
  if negb (zlen t =? 8) || negb (is_hex t 8) then mret (-1, m)
  else
    let size := sizeof_ofp_action_nw_addr in
    let '(b, p) := grow_command size m in
    b ← put_action_header b p action 8;
    b ← wr32be b (p + ofp_action_nw_addr_nw_addr) (u32 (strtol 16 t));
    mret (0, set_command b size m).

Definition append_nw_tos (action : Z) (t : cstring) (m : amod) : res amod :=
  let size := sizeof_ofp_action_nw_tos in
  let '(b, p) := grow_command size m in
  b ← put_action_header b p action 8;
  b ← wr8 b (p + ofp_action_nw_tos_nw_tos) (strtol 16 t);
  mret (set_command b size m).

Definition append_tp_port (action : Z) (t : cstring) (m : amod) : res amod :=
  let size := sizeof_ofp_action_tp_port in
  let '(b, p) := grow_command size m in
  b ← put_action_header b p action 8;
  b ← wr16be b (p + ofp_action_tp_port_tp_port) (u16 (strtol 16 t));
  mret (set_command b size m).

(** Without a value only the VLAN header can be stripped. *)
Definition append_action (action : Z) (action_param : option cstring) (m : amod) : res (Z * amod) :=
  let text := match action_param with Some t => mret t | None => Fault FNull end in
  let ok (r : res amod) := m ← r; mret (0, m) in
  if action =? OFPAT_OUTPUT then t ← text; ok (append_output action t m)
  else if action =? OFPAT_SET_VLAN_VID then t ← text; append_vlan_vid action t m
  else if action =? OFPAT_SET_VLAN_PCP then t ← text; append_vlan_pcp action t m
  else if action =? OFPAT_STRIP_VLAN then ok (append_strip_vlan action m)
  else if (action =? OFPAT_SET_DL_SRC) || (action =? OFPAT_SET_DL_DST) then t ← text; append_dl_addr action t m
  else if (action =? OFPAT_SET_NW_SRC) || (action =? OFPAT_SET_NW_DST) then t ← text; append_nw_addr action t m
  else if action =? OFPAT_SET_NW_TOS then t ← text; ok (append_nw_tos action t m)
  else if (action =? OFPAT_SET_TP_SRC) || (action =? OFPAT_SET_TP_DST) then t ← text; ok (append_tp_port action t m)
  else mret (0, m).

(** ** The configuration string *)

(** The action at [p] in the buffer: a digit, or a for ten, a slash and a value. *)
Definition read_action (b : mem) (p : Z) (m : amod) : res (mem * amod) :=
  slash ← index_at b 47 p;
  '(b, param) ← match slash with
                | Some q => b ← wr8 b q 0; t ← text_at b (q + 1); mret (b, Some t)
                | None => mret (b, None)
                end;
  c ← rd8 b p;
  '(_, m) ← (if (48 <=? c) && (c <=? 57) then append_action (c - 48) param m
             else if c =? 97 then append_action 10 param m
             else mret (0, m));
  mret (b, m).

(** The actions of the value at [p], separated by commas; [base] is the first
    parameter and [len] the length of the whole string. *)
Fixpoint action_list (fuel : nat) (base len : Z) (b : mem) (p : Z) (m : amod) : res (mem * amod) :=
  match fuel with
  | O => Fault FFuel
  | S fuel =>
    x ← rd8 b p;
    if (x =? 32) || (x =? 0) || negb (base + len >? p) then mret (b, m)
    else
      comma ← index_at b 44 p;
      let '(q, next) := match comma with Some c => (c, c + 1) | None => (base + len + 1, base + len + 1) end in
      b ← wr8 b q 0;
      '(b, m) ← read_action b p m;
      action_list fuel base len b next m
  end.

(** A parameter other than the list of actions.  Several tests cannot fail. *)
Definition action_set_param (name value : cstring) (m : amod) : res amod :=
  let v := strtol0 value in
  if bool_decide (name = str "pkt_size") then mret (m <| am_pkt_size := u32 v |>)
  else if bool_decide (name = str "data_rate") then
    if u64 v >? 1010 then Fault (FExit 1) else mret (m <| am_datarate := u64 v |>)
  else if bool_decide (name = str "table") then mret (m <| am_table := i32 v |>)
  else if bool_decide (name = str "print") then mret (m <| am_print := i32 v |>)
  else mret m.

Definition action_value (base len : Z) (b : mem) (name : cstring) (v : Z) (m : amod) : res (mem * amod) :=
  if bool_decide (name = str "action") then action_list (S (length b)) base len b v m
  else text_value action_set_param b name v m.

Definition action_init (b : mem) (m : amod) : res (mem * amod) :=
  t ← text_at b 0;
  base ← skip_blanks (S (length b)) b 0;
  '(b, m) ← param_loop (action_value base (zlen t)) (S (length b)) b base (m <| am_cli_param := Some t |>);
  i ← send_interval (am_pkt_size m) (am_datarate m);
  mret (b, m <| am_interval := i |>).
End actions.

Section module.
Context {OF : OpenFlow} (inet_addr : cstring → Z).

(** ** Starting *)

Definition action_mask (table : Z) : Z :=
  if table =? 0 then 0 else foldr Z.lor 0 [OFPFW_IN_PORT; OFPFW_DL_VLAN; OFPFW_DL_VLAN_PCP; OFPFW_TP_DST].

Definition action_flow (table : Z) (mac : list Z) (in_port : Z) : flow :=
  {| f_mask := action_mask table; f_in_port := bswap16 (u16 in_port); f_dl_src := mac; f_dl_dst := gateway_mac;
     f_dl_vlan := bswap16 1; f_dl_type := bswap16 0x0800; f_nw_src := inet_addr (str "10.1.1.1");
     f_nw_dst := inet_addr (str "10.1.1.2"); f_nw_proto := 17; f_tp_src := bswap16 8080; f_tp_dst := bswap16 8080 |}.

Definition action_start (socket_ret : Z) (hwaddr : cstring → option (list Z)) (clock : nat → timeval) (m : amod)
    (s : harness) : res (amod * harness) :=
  let m := m <| am_probes := am_probes m <| pr_head := Some [] |> |> in
  s ← oflops_log (clock 0%nat) GENERIC_MSG (str "Intializing module openflow_action_measurement") s;
  s ← log_text (clock 0%nat) (am_cli_param m) s;
  mac ← load_mac OFLOPS_DATA1 socket_ret hwaddr (am_mac m) s;
  '(b, _) ← make_ofp_hello;
  '(_, s) ← oflops_send_of_mesgs b sizeof_ofp_hello s;
  '(b, len) ← make_ofp_flow_del;
  '(_, s) ← oflops_send_of_mesgs b len s;
  x ← get_channel (ctx s) OFLOPS_DATA1;
  y ← get_channel (ctx s) OFLOPS_DATA2;
  bs ← rd_bytes mac 0 6;
  let fl := action_flow (am_table m) bs (of_port x) in
  '(b, len) ← make_ofp_flow_add fl (of_port y) 1 1200;
  '(_, s) ← oflops_send_of_mesgs b len s;
  s ← schedule_timer (add_time (clock 1%nat) 20 0) SND_ACT s;
  s ← schedule_timer (add_time (clock 2%nat) 1 0) SNMPGET s;
  s ← schedule_timer (add_time (clock 3%nat) 30 0) BYESTR s;
  mret (m <| am_mac := mac |> <| am_fl_probe := Some fl |>, s).

(** ** Timers *)

Section snmp.
Context (snmp_open : option snmp_session → bool) (snmp_pdu_create : list Z → Z) (snmp_send : bool).

(** The flow of the probe gets the actions of the command. *)
Definition send_action (m : amod) (s : harness) : res harness :=
  match am_fl_probe m with
  | None => Fault FNull
  | Some fl =>
    '(b, _) ← make_ofp_flow_modify fl (am_command m) (am_command_len m) 1 1200;
    '(_, s) ← oflops_send_of_mesg b s;
    mret s
  end.

Definition action_handle_timer_event (clock : timeval) (te : timer_event) (m : amod) (s : harness) : res harness :=
  if te_arg te =? BYESTR then mret (oflops_end_test 1 s).2
  else if te_arg te =? SND_ACT then send_action m s
  else if te_arg te =? SNMPGET then
    s ← snmp_requests snmp_open snmp_pdu_create snmp_send s;
    schedule_timer (add_time clock 5 0) SNMPGET s
  else mret s.
End snmp.

(** ** Captured packets *)

Definition action_get_pcap_filter (ofc : Z) (buflen : nat) : Z * cstring :=
  if ofc =? OFLOPS_DATA2 then (3, snprintf buflen (str "udp")) else (0, []).

Definition action_handle_pcap_event (nf_extract : Z → mem → Z → option pktgen_hdr) (hdr : pcap_pkthdr) (data : mem)
    (ch : Z) (m : amod) (s : harness) : res amod :=
  if data_channel ch then
    '(pkt, _) ← extract_pktgen_pkt nf_extract (ctx s) ch data (i32 (caplen hdr)) true;
    match pkt with
    | None => mret m
    | Some pkt => p ← capture (entry_of pkt (ts hdr) ch 0) (am_probes m); mret (m <| am_probes := p |>)
    end
  else mret m.

(** ** Messages of the switch *)

(** The header of the request with another type: its length is kept. *)
Definition action_of_event_echo_request (ofph : mem) (s : harness) : res harness :=
  b ← rd_cells ofph 0 sizeof_ofp_header;
  b ← wr8 b ofp_header_type OFPT_ECHO_REPLY;
  '(_, s) ← oflops_send_of_mesgs b sizeof_ofp_header s;
  mret s.

(** ** SNMP replies *)

Definition SNMP_MSG : Z := 10.

Fixpoint action_snmp_cpu (now : timeval) (v : snmp_var) (os : list (list (option Z) * Z)) (s : harness) : res harness :=
  match os with
  | [] => mret s
  | (o, len) :: os =>
    same ← same_oid v o len;
    s ← (if (same : bool) then oflops_log now SNMP_MSG (snprintf 1024 (str "cpu:" ++ var_text v)) s else mret s);
    action_snmp_cpu now v os s
  end.

Definition snmp_port_line (dir : cstring) (port : Z) (v : snmp_var) : cstring :=
  snprintf 1024 (str "port " ++ dec (i32 port) ++ str " : " ++ dir ++ str " " ++ var_text v ++ str " pkts").

Fixpoint action_snmp_ports (now : timeval) (v : snmp_var) (n : nat) (i : Z) (s : harness) : res harness :=
  match n with
  | O => mret s
  | S n =>
    x ← get_channel (ctx s) i;
    rx ← same_oid v (inOID x) (inOID_len x);
    if (rx : bool) then
      o ← arr_read (outOID x) (outOID_len x - 1); oflops_log now SNMP_MSG (snmp_port_line (str "rx") o v) s
    else
      tx ← same_oid v (outOID x) (outOID_len x);
      if (tx : bool) then
        o ← arr_read (outOID x) (outOID_len x - 1); oflops_log now SNMP_MSG (snmp_port_line (str "tx") o v) s
      else action_snmp_ports now v n (i + 1) s
  end.

Fixpoint action_handle_snmp_event (now : timeval) (vars : list snmp_var) (s : harness) : res harness :=
  match vars with
  | [] => mret s
  | v :: vars =>
    s ← action_snmp_cpu now v (cpuOID (ctx s)) s;
    s ← action_snmp_ports now v (Z.to_nat (n_channels (ctx s))) 0 s;
    action_handle_snmp_event now vars s
  end.

(** ** Traffic *)

Definition action_det (m : amod) (c : oflops_context) : res traf_gen_det :=
  text ← (if trafficGen c =? PKTGEN then mret (str "00:00:00:00:00:00") else mac_text (am_mac m));
  mret {| src_ip := str "10.1.1.1"; dst_ip_min := str "10.1.1.2"; dst_ip_max := str "10.1.1.2";
          mac_dst := str "00:15:17:7b:92:0a"; mac_src := text; udp_src_port := 8080; udp_dst_port := 8080;
          pkt_size := am_pkt_size m; vlan := 1; vlan_p := 0; vlan_cfi := 0; gen_delay := u32 (am_interval m * 1000);
          pkt_count := 0; gen_flags := [] |}.

Definition action_handle_traffic_generation setuid_ok modprobe_ok if_index bind_ok exists_ writable nows rands nf_rands
    rounds nf_rounds (m : amod) (s : harness) (k : commands) (t : list nf_call) :=
  generate setuid_ok modprobe_ok inet_addr if_index bind_ok exists_ writable nows rands nf_rands rounds nf_rounds
    (action_det m) s k t.
End module.

(** ** The report *)

(** %lu of an int: it is widened with its sign. *)
Definition action_entry_line (e : entry) : cstring :=
  dec (u64 (e_id e)) ++ str " " ++ time_text (e_snd e) ++ str " " ++ time_text (e_rcv e) ++ str " " ++ dec (e_ch e).

Section report.
Context {F D : Type} {Fl : Floating F} {Db : Floating D}.
Context (gsl_sort : list D → list D) (gsl_mean gsl_variance gsl_median : list D → D).
Context (to_uint : D → Z) (fmt4 : F → cstring).

Definition action_destroy (out : option bool) (kept : bool) (now : timeval) (m : amod) (s : harness) :
    res (harness * list cstring) :=
  report gsl_sort gsl_mean gsl_variance gsl_median to_uint fmt4 action_entry_line (am_print m) out kept now (am_probes m)
    s.
End report.
