(* ===== verification/ModFlowModule.v ===== *)
(** * A test module: modifying flows (example_modules/openflow_mod_flow)

    The module installs a range of flows and one for a constant probe, sends two
    packet streams, redirects all flows to another port with a run of flow
    modifications and measures how long the switch takes: the first packet that
    comes out of the new port, and the first one of every flow.  [fmod] holds its
    variables; those that are only written (finished, send_flow_mod,
    stored_flow_mod_time, trans_id) are left out. *)

From S2P Require Import Prelude CTime CBytes CStr OpenFlow WcEvent PcapTrack TimerEvent Msg Context Harness.
From S2P Require Import TrafficGen TrafficKernel Cbench Utils TestModule MeasureModule.
Open Scope Z_scope.

(** ** State *)

Record fmod := {
  fm_pkt_size : Z;
  fm_proberate : Z;
  fm_datarate : Z;
  fm_probe_interval : Z;
  fm_data_interval : Z;
  fm_table : Z;
  fm_print : Z;
  fm_flows : Z;
  fm_cli_param : option cstring;
  fm_fl_probe : option flow;
  fm_first_pkt : bool;
  fm_timestamp : timeval;  (* flow_mod_timestamp *)
  fm_local_mac : mem;
  fm_data_mac : mem;
  fm_probes : probes;  (* head, count *)
  fm_received : list Z;  (* ip_received *)
  fm_received_count : Z;
  fm_echo : list (timeval * timeval);  (* echo_data: times of sending and receiving *)
  fm_echo_count : Z;
}.
#[export] Instance fmod_rebuild : Rebuild fmod := λ m,
  {| fm_pkt_size := fm_pkt_size m; fm_proberate := fm_proberate m; fm_datarate := fm_datarate m;
     fm_probe_interval := fm_probe_interval m; fm_data_interval := fm_data_interval m; fm_table := fm_table m;
     fm_print := fm_print m; fm_flows := fm_flows m; fm_cli_param := fm_cli_param m; fm_fl_probe := fm_fl_probe m;
     fm_first_pkt := fm_first_pkt m; fm_timestamp := fm_timestamp m; fm_local_mac := fm_local_mac m;
     fm_data_mac := fm_data_mac m; fm_probes := fm_probes m; fm_received := fm_received m;
     fm_received_count := fm_received_count m; fm_echo := fm_echo m; fm_echo_count := fm_echo_count m |}.

Definition fmod0 : fmod :=
  {| fm_pkt_size := 1500; fm_proberate := 100; fm_datarate := 100; fm_probe_interval := 0; fm_data_interval := 0;
     fm_table := 0; fm_print := 0; fm_flows := 100; fm_cli_param := None; fm_fl_probe := None; fm_first_pkt := false;
     fm_timestamp := tv0; fm_local_mac := mem_zero 6; fm_data_mac := mem_zero 6; fm_probes := probes0;
     fm_received := []; fm_received_count := 0; fm_echo := replicate 100 (tv0, tv0); fm_echo_count := 0 |}.

Definition mod_name : cstring := str "openflow_add_flow".
Definition SEND_ECHO_REQ : Z := 6.

(** ** Initialisation *)

(** The tests of pkt_size and table ask for two things that exclude each other. *)
Definition mod_set_param (name value : cstring) (m : fmod) : res fmod :=
  let v := strtol0 value in
  if bool_decide (name = str "pkt_size") then mret (m <| fm_pkt_size := u32 v |>)
  else if bool_decide (name = str "probe_rate") then
    if (u64 v <=? 0) || (u64 v >=? 1010) then Fault (FExit 1) else mret (m <| fm_proberate := u64 v |>)
  else if bool_decide (name = str "data_rate") then
    if (u64 v <=? 0) || (u64 v >=? 1010) then Fault (FExit 1) else mret (m <| fm_datarate := u64 v |>)
  else if bool_decide (name = str "table") then mret (m <| fm_table := i32 v |>)
  else if bool_decide (name = str "flows") then
    if i32 v <=? 0 then Fault (FExit 1) else mret (m <| fm_flows := i32 v |>)
  else if bool_decide (name = str "print") then mret (m <| fm_print := i32 v |>)
  else mret m.

Definition mod_init (b : mem) (m : fmod) : res (mem * fmod) :=
  t ← text_at b 0;
  '(b, m) ← read_params mod_set_param b (m <| fm_cli_param := Some t |>);
  i ← send_interval (fm_pkt_size m) (fm_proberate m);
  j ← send_interval (fm_pkt_size m) (fm_datarate m);
  mret (b, m <| fm_probe_interval := i |> <| fm_data_interval := j |>).

Section module.
Context {OF : OpenFlow} (inet_addr : cstring → Z).

(** ** Starting *)

Definition mod_mask (table : Z) : Z :=
  if table =? 0 then 0 else foldr Z.lor 0 [OFPFW_IN_PORT; OFPFW_DL_VLAN; OFPFW_TP_DST].

(** The flow of a stream: where it enters, from whom and where to. *)
Definition mod_flow (table : Z) (mac : list Z) (in_port nw_dst : Z) : flow :=
  {| f_mask := mod_mask table; f_in_port := bswap16 (u16 in_port); f_dl_src := mac; f_dl_dst := gateway_mac;
     f_dl_vlan := 0xffff; f_dl_type := bswap16 0x0800; f_nw_src := inet_addr (str "10.1.1.1"); f_nw_dst := nw_dst;
     f_nw_proto := 17; f_tp_src := bswap16 8080; f_tp_dst := bswap16 8080 |}.

(** One flow per address of the range. *)
Fixpoint mod_install (n : nat) (i : Z) (table : Z) (mac : list Z) (in_port out_port : Z) (s : harness) : res harness :=
  match n with
  | O => mret s
  | S n =>
    '(b, len) ← make_ofp_flow_add (mod_flow table mac in_port (addr_plus (inet_addr network) i)) out_port 1 120;
    '(_, s) ← oflops_send_of_mesgs b len s;
    mod_install n (i + 1) table mac in_port out_port s
  end.

(** The counter of the flows that were seen starts at one. *)
Definition mod_start (socket_ret : Z) (hwaddr : cstring → option (list Z)) (clock : nat → timeval) (m : fmod)
    (s : harness) : res (fmod * harness) :=
  let m := m <| fm_probes := fm_probes m <| pr_head := Some [] |> |> in
  local ← load_mac OFLOPS_DATA1 socket_ret hwaddr (fm_local_mac m) s;
  data ← load_mac OFLOPS_DATA2 socket_ret hwaddr (fm_data_mac m) s;
  s ← oflops_log (clock 0%nat) GENERIC_MSG (snprintf 1024 (str "Intializing module " ++ mod_name)) s;
  s ← log_text (clock 0%nat) (fm_cli_param m) s;
  '(b, _) ← make_ofp_hello;
  '(_, s) ← oflops_send_of_mesgs b sizeof_ofp_hello s;
  '(b, _) ← make_ofp_flow_del;
  '(_, s) ← oflops_send_of_mesg b s;
  x1 ← get_channel (ctx s) OFLOPS_DATA1;
  lb ← rd_bytes local 0 6;
  x2 ← get_channel (ctx s) OFLOPS_DATA2;
  x3 ← get_channel (ctx s) OFLOPS_DATA3;
  s ← mod_install (Z.to_nat (fm_flows m)) 0 (fm_table m) lb (of_port x1) (of_port x3) s;
  db ← rd_bytes data 0 6;
  let fl := mod_flow (fm_table m) db (of_port x2) (inet_addr (str "10.1.1.2")) in
  '(b, _) ← make_ofp_flow_add fl (of_port x3) 1 120;
  '(_, s) ← oflops_send_of_mesg b s;
  c ← chk_int (fm_received_count m + 1);
  s ← schedule_timer (add_time (clock 1%nat) 20 0) SND_ACT s;
  s ← schedule_timer (add_time (clock 2%nat) 1 0) SNMPGET s;
  s ← schedule_timer (add_time (clock 3%nat) 180 0) BYESTR s;
  s ← schedule_timer (add_time (clock 4%nat) 1 0) SEND_ECHO_REQ s;
  mret (m <| fm_local_mac := local |> <| fm_data_mac := data |> <| fm_timestamp := tv0 |> <| fm_fl_probe := Some fl |>
          <| fm_received := replicate (Z.to_nat (fm_flows m)) 0 |> <| fm_received_count := c |>, s).

(** ** Timers *)

(** [addr] is the next address, in the order of the host. *)
Fixpoint mod_redirect (n : nat) (addr : Z) (fl : flow) (out_port : Z) (s : harness) : res harness :=
  match n with
  | O => mret s
  | S n =>
    let fl' := {| f_mask := f_mask fl; f_in_port := f_in_port fl; f_dl_src := f_dl_src fl; f_dl_dst := f_dl_dst fl;
                  f_dl_vlan := f_dl_vlan fl; f_dl_type := f_dl_type fl; f_nw_src := f_nw_src fl;
                  f_nw_dst := bswap32 addr; f_nw_proto := f_nw_proto fl; f_tp_src := f_tp_src fl;
                  f_tp_dst := f_tp_dst fl |} in
    '(b, len) ← make_ofp_flow_modify_output_port fl' out_port 1 1200;
    '(_, s) ← oflops_send_of_mesgs b len s;
    mod_redirect n (u32 (addr + 1)) fl out_port s
  end.

(** The fields of the probe's flow that are set again. *)
Definition mod_reflow (fl : flow) (mask : Z) (mac : list Z) (in_port nw_dst : Z) : flow :=
  {| f_mask := mask; f_in_port := bswap16 (u16 in_port); f_dl_src := mac; f_dl_dst := gateway_mac;
     f_dl_vlan := f_dl_vlan fl; f_dl_type := f_dl_type fl; f_nw_src := f_nw_src fl; f_nw_dst := nw_dst;
     f_nw_proto := f_nw_proto fl; f_tp_src := f_tp_src fl; f_tp_dst := f_tp_dst fl |}.

Definition barrier_request : res mem := '(b, _) ← make_ofp_hello; wr8 b ofp_header_type OFPT_BARRIER_REQUEST.

Definition mod_send (clock : nat → timeval) (m : fmod) (s : harness) : res (fmod * harness) :=
  match fm_fl_probe m with
  | None => Fault FNull
  | Some fl =>
    let mask := mod_mask (fm_table m) in
    s ← oflops_log (clock 0%nat) GENERIC_MSG (str "START_FLOW_MOD") s;
    lb ← rd_bytes (fm_local_mac m) 0 6;
    x1 ← get_channel (ctx s) OFLOPS_DATA1;
    x2 ← get_channel (ctx s) OFLOPS_DATA2;
    s ← mod_redirect (Z.to_nat (fm_flows m)) (bswap32 (inet_addr network))
          (mod_reflow fl mask lb (of_port x1) (f_nw_dst fl)) (of_port x2) s;
    db ← rd_bytes (fm_data_mac m) 0 6;
    let fl := mod_reflow fl mask db (of_port x2) (inet_addr (str "10.1.1.2")) in
    '(b, _) ← make_ofp_flow_modify_output_port fl (of_port x1) 1 1200;
    '(_, s) ← oflops_send_of_mesg b s;
    b ← barrier_request;
    '(_, s) ← oflops_send_of_mesg b s;
    s ← oflops_log (clock 1%nat) GENERIC_MSG (str "END_FLOW_MOD") s;
    mret (m <| fm_fl_probe := Some fl |> <| fm_timestamp := clock 1%nat |>, s)
  end.

Section snmp.
Context (snmp_open : option snmp_session → bool) (snmp_pdu_create : list Z → Z) (snmp_send : bool).

(** [clock] and [nf_clock]: the readings of the clock of the host and of the card. *)
Definition mod_handle_timer_event (clock nf_clock : nat → timeval) (te : timer_event) (m : fmod) (s : harness) :
    res (fmod * harness) :=
  if te_arg te =? BYESTR then mret (m, (oflops_end_test 1 s).2)
  else if te_arg te =? SND_ACT then mod_send (λ n, oflops_gettimeofday (ctx s) (nf_clock n) (clock n)) m s
  else if te_arg te =? SNMPGET then
    s ← snmp_requests snmp_open snmp_pdu_create snmp_send s;
    s ← schedule_timer (add_time (clock 0%nat) 120 0) SNMPGET s;
    mret (m, s)
  else mret (m, s).
End snmp.

(** ** Captured packets *)

Definition mod_get_pcap_filter (ofc : Z) (c : oflops_context) (buflen : nat) : Z * cstring :=
  if ofc =? OFLOPS_CONTROL then let t := str "port " ++ dec (listen_port c) in (zlen t, snprintf buflen t)
  else if data_channel ofc then (3, snprintf buflen (str "udp"))
  else (0, []).

(** The first packet that took the new way. *)
Definition mod_first (at_ : timeval) (m : fmod) (s : harness) : res (fmod * harness) :=
  let msg := snprintf 1024 (str "INSERT_DELAY:" ++ dec (i32 (time_diff (fm_timestamp m) at_))) in
  s ← oflops_log at_ GENERIC_MSG msg s;
  s ← oflops_log at_ GENERIC_MSG (str "FIRST_PKT_RCV") s;
  s ← oflops_log at_ GENERIC_MSG msg s;
  mret (m <| fm_first_pkt := true |>, s).

(** All flows were seen: the end of the test is scheduled. *)
Definition mod_complete (clock at_ : timeval) (m : fmod) (s : harness) : res harness :=
  s ← oflops_log at_ GENERIC_MSG
        (snprintf 1024 (str "COMPLETE_INSERT_DELAY:" ++ dec (time_diff (fm_timestamp m) at_))) s;
  s ← oflops_log at_ GENERIC_MSG (str "LAST_PKT_RCV") s;
  let now := add_time clock 0 10 in
  s ← schedule_timer now SNMPGET s;
  schedule_timer (add_time now 3 0) BYESTR s.

(** The first packet of a flow. *)
Definition mod_flow_seen (clock at_ : timeval) (id dst : Z) (m : fmod) (s : harness) : res (fmod * harness) :=
  c ← chk_int (fm_received_count m + 1);
  let m := m <| fm_received_count := c |> <| fm_received := zset (fm_received m) id 1 |> in
  s ← oflops_log at_ GENERIC_MSG (snprintf 1024 (str "FLOW_INSERTED:" ++ inet_ntoa dst)) s;
  s ← (if fm_received_count m >=? fm_flows m then mod_complete clock at_ m s else mret s);
  mret (m, s).

Definition mod_observe (clock at_ : timeval) (ch dst : Z) (m : fmod) (s : harness) : res (fmod * harness) :=
  if (tv_sec (fm_timestamp m) >? 0) && (ch =? OFLOPS_DATA1) && negb (fm_first_pkt m) then mod_first at_ m s
  else if (tv_sec (fm_timestamp m) >? 0) && (ch =? OFLOPS_DATA2) then
    let id := flow_id (inet_addr network) dst in
    if (id >=? 0) && (id <? fm_flows m) then
      match zget (fm_received m) id with
      | None => Fault FBounds
      | Some r => if r =? 0 then mod_flow_seen clock at_ id dst m s else mret (m, s)
      end
    else mret (m, s)
  else mret (m, s).

Definition mod_handle_pcap_event (nf_extract : Z → mem → Z → option pktgen_hdr) (clock : timeval) (hdr : pcap_pkthdr)
    (data : mem) (ch : Z) (m : fmod) (s : harness) : res (fmod * harness) :=
  if data_channel ch then
    '(pkt, fl) ← extract_pktgen_pkt nf_extract (ctx s) ch data (i32 (caplen hdr)) true;
    match pkt, fl with
    | None, _ => mret (m, s)
    | Some _, None => Fault FUninit
    | Some pkt, Some fl =>
      '(m, s) ← mod_observe clock (ts hdr) ch (f_nw_dst fl) m s;
      p ← capture (entry_of pkt (ts hdr) ch (f_nw_dst fl)) (fm_probes m);
      mret (m <| fm_probes := p |>, s)
    end
  else mret (m, s).

(** ** Messages of the switch *)

Definition mod_of_event_other (now : timeval) (ofph : mem) (m : fmod) (s : harness) : res harness :=
  type ← rd8 ofph ofp_header_type;
  if type =? OFPT_ERROR then
    t ← rd16be ofph ofp_error_msg_type;
    c ← rd16be ofph ofp_error_msg_code;
    oflops_log now OFPT_ERROR_MSG
      (snprintf 1024 (str "OFPT_ERROR(type: " ++ dec t ++ str ", code: " ++ dec c ++ str ")")) s
  else if type =? OFPT_BARRIER_REPLY then
    s ← oflops_log now GENERIC_MSG (str "BARRIRER_REPLY") s;
    oflops_log now GENERIC_MSG (snprintf 1024 (str "BARRIER_DELAY:" ++ dec (i32 (time_diff (fm_timestamp m) now)))) s
  else mret s.

(** Messages on the screen only. *)
Definition mod_of_event_packet_in (pkt_in : mem) (s : harness) : res harness :=
  reason ← rd8 pkt_in ofp_packet_in_reason;
  if reason =? OFPR_NO_MATCH then mret s else _ ← rd16be pkt_in ofp_packet_in_total_len; mret s.

Definition mod_of_event_echo_request (ofph : mem) (s : harness) : res harness := reply_echo ofph s.

Definition mod_handle_snmp_event (vars : list snmp_var) (s : harness) : res harness := log_snmp vars s.

(** ** Traffic *)

(** The stream over the range of flows. *)
Definition mod_det (m : fmod) (junk : traf_gen_det) (c : oflops_context) : res traf_gen_det :=
  probe_det inet_addr (fm_flows m) (fm_pkt_size m) (fm_data_interval m) 0xffff (fm_local_mac m) junk c.

(** The constant probe. *)
Definition mod_probe_det (m : fmod) (junk : traf_gen_det) (c : oflops_context) : res traf_gen_det :=
  text ← (if trafficGen c =? PKTGEN then mret (str "00:00:00:00:00:00") else mac_text (fm_data_mac m));
  mret {| src_ip := str "10.1.1.1"; dst_ip_min := str "10.1.1.2"; dst_ip_max := str "10.1.1.2";
          mac_dst := str "00:15:17:7b:92:0a"; mac_src := text; udp_src_port := 8080; udp_dst_port := 8080;
          pkt_size := fm_pkt_size m; vlan := 0xffff; vlan_p := 0; vlan_cfi := 0;
          gen_delay := u32 (fm_probe_interval m * 1000); pkt_count := pkt_count junk; gen_flags := [] |}.

Definition mod_handle_traffic_generation setuid_ok modprobe_ok if_index bind_ok exists_ writable nows rands nf_rands
    rounds nf_rounds (m : fmod) (junk : traf_gen_det) (s : harness) (k : commands) (t : list nf_call) :
    res (option Z * harness * commands * list nf_call) :=
  d ← mod_det m junk (ctx s);
  '(_, c) ← add_traffic_generator OFLOPS_DATA1 d (ctx s);
  _ ← init_traf_gen setuid_ok modprobe_ok c;
  d ← mod_probe_det m junk c;
  '(_, c) ← add_traffic_generator OFLOPS_DATA2 d c;
  '(r, s, k, t) ← start_traffic_generator inet_addr if_index bind_ok exists_ writable nows rands nf_rands rounds
                     nf_rounds (s <| ctx := c |>) k t;
  mret (match r with Some _ => Some 1 | None => None end, s, k, t).
End module.

(** ** The report *)

Definition mod_entry_line (e : entry) : cstring :=
  dec (u64 (e_id e)) ++ str " " ++ time_text (e_snd e) ++ str " " ++ time_text (e_rcv e) ++ str " " ++ dec (e_ch e) ++
  str " " ++ inet_ntoa (e_dst e).

Section report.
Context {F D : Type} {Fl : Floating F} {Db : Floating D}.
Context (gsl_sort : list D → list D) (gsl_mean gsl_variance gsl_median : list D → D).
Context (to_uint : D → Z) (fmt4 : F → cstring).

Definition mod_echo_line (i : Z) (e : timeval * timeval) : cstring :=
  snprintf 1024 (str "OFP_ECHO:" ++ dec i ++ str ":" ++ dec (tv_sec e.1) ++ str "." ++ dec_pad 6 (tv_usec e.1) ++
    str ":" ++ dec (tv_sec e.2) ++ str "." ++ dec_pad 6 (tv_usec e.2)).

(** The echo replies are numbered from one. *)
Fixpoint mod_echo_lines (n : nat) (i : Z) (now : timeval) (echo : list (timeval * timeval)) (data : list D) (s : harness) :
    res (list D * harness) :=
  match n with
  | O => mret (data, s)
  | S n =>
    match zget echo i with
    | None => Fault FBounds
    | Some e =>
      s ← oflops_log now GENERIC_MSG (mod_echo_line i e) s;
      mod_echo_lines n (i + 1) now echo (data ++ [f_of_Z (time_diff e.1 e.2)]) s
    end
  end.

Definition mod_echo_statistics (data : list D) (total : Z) : cstring :=
  let data := gsl_sort data in
  snprintf 1024 (str "statistics:echo:" ++ dec (to_uint (gsl_mean data)) ++ str ":" ++ dec (to_uint (gsl_median data)) ++
    str ":" ++ dec (to_uint (f_sqrt (gsl_variance data))) ++ str ":" ++ dec total).

(** The file is opened only when it is needed. *)
Definition mod_destroy (out : option bool) (kept : bool) (now : timeval) (m : fmod) (s : harness) :
    res (harness * list cstring) :=
  _ ← (if negb (fm_print m =? 0) && bool_decide (out = None) then Fault (FExit 1) else mret ());
  '(s, file) ← report gsl_sort gsl_mean gsl_variance gsl_median to_uint fmt4 mod_entry_line (fm_print m) out kept now
                 (fm_probes m) s;
  '(data, s) ← mod_echo_lines (Z.to_nat (fm_echo_count m)) 1 now (fm_echo m) [] s;
  s ← (if fm_echo_count m >? 0 then oflops_log now GENERIC_MSG (mod_echo_statistics data (fm_echo_count m)) s else mret s);
  mret (s, file).
End report.
