(* ===== verification/TimerModule.v ===== *)
(** * A test module: the timers of the switch (example_modules/openflow_timer)

    The module installs flows with a hard timeout of ten seconds, sends a packet
    stream through each of them and compares three measures of the life of a
    flow: the first and the last packet that came back, and the duration the
    switch announces when it removes the flow.  [tmod] holds the variables of
    the module; printf's %f is a parameter. *)

From Stdlib Require Import SpecFloat.
From S2P Require Import Prelude CTime CBytes CStr OpenFlow WcEvent PcapTrack TimerEvent Msg Context Harness.
From S2P Require Import TrafficGen TrafficKernel Utils TestModule CFloat.
Open Scope Z_scope.

(** ** State *)

(** An array is empty until start allocates it; [delay] is not cleared. *)
Record tmod := {
  tm_pkt_size : Z;
  tm_datarate : Z;
  tm_interval : Z;  (* data_snd_interval *)
  tm_table : Z;
  tm_print : Z;
  tm_flows : Z;
  tm_flow_gap : Z;
  tm_cli_param : option cstring;
  tm_mac : mem;  (* data_mac *)
  tm_first : list timeval;
  tm_last : list timeval;
  tm_delay : list (option spec_float);
  tm_count : Z;
}.
#[export] Instance tmod_rebuild : Rebuild tmod := λ m,
  {| tm_pkt_size := tm_pkt_size m; tm_datarate := tm_datarate m; tm_interval := tm_interval m;
     tm_table := tm_table m; tm_print := tm_print m; tm_flows := tm_flows m; tm_flow_gap := tm_flow_gap m;
     tm_cli_param := tm_cli_param m; tm_mac := tm_mac m; tm_first := tm_first m; tm_last := tm_last m;
     tm_delay := tm_delay m; tm_count := tm_count m |}.

Definition tmod0 : tmod :=
  {| tm_pkt_size := 1500; tm_datarate := 100; tm_interval := 0; tm_table := 0; tm_print := 0; tm_flows := 100;
     tm_flow_gap := 0; tm_cli_param := None; tm_mac := mem_zero 6; tm_first := []; tm_last := []; tm_delay := [];
     tm_count := 0 |}.

Definition timer_name : cstring := str "openflow_timer".

(** ** Initialisation *)

(** The tests of pkt_size and table ask for two things that exclude each other. *)
Definition timer_set_param (name value : cstring) (m : tmod) : res tmod :=
  let v := strtol0 value in
  if bool_decide (name = str "pkt_size") then mret (m <| tm_pkt_size := u32 v |>)
  else if bool_decide (name = str "data_rate") then
    if (u64 v <=? 0) || (u64 v >=? 1010) then Fault (FExit 1) else mret (m <| tm_datarate := u64 v |>)
  else if bool_decide (name = str "table") then mret (m <| tm_table := i32 v |>)
  else if bool_decide (name = str "flows") then
    if i32 v <=? 0 then Fault (FExit 1) else mret (m <| tm_flows := i32 v |>)
  else if bool_decide (name = str "print") then mret (m <| tm_print := i32 v |>)
  else if bool_decide (name = str "flow_gap") then
    if i32 v <? 0 then Fault (FExit 1) else mret (m <| tm_flow_gap := i32 v |>)
  else mret m.

Definition timer_init_module (b : mem) (m : tmod) : res (mem * tmod) :=
  t ← text_at b 0;
  '(b, m) ← read_params timer_set_param b (m <| tm_cli_param := Some t |>);
  i ← send_interval (tm_pkt_size m) (tm_datarate m);
  mret (b, m <| tm_interval := i |>).

Section module.
Context {OF : OpenFlow} (inet_addr : cstring → Z).

(** ** Starting *)

Definition zero_mac : list Z := [0; 0; 0; 0; 0; 0].
Definition any_flow : flow :=
  {| f_mask := OFPFW_ALL; f_in_port := 0; f_dl_src := zero_mac; f_dl_dst := zero_mac; f_dl_vlan := 0;
     f_dl_type := 0; f_nw_src := 0; f_nw_dst := 0; f_nw_proto := 0; f_tp_src := 0; f_tp_dst := 0 |}.

(** Every packet that matches nothing else goes to the second data channel. *)
Definition default_route (out_port : Z) : res mem :=
  '(b, _) ← make_ofp_flow_add any_flow out_port 1 120;
  b ← wr16be b ofp_flow_mod_priority 0;
  wr16le b ofp_flow_mod_flags 0.

Definition timer_start (socket_ret : Z) (hwaddr : cstring → option (list Z)) (clock : nat → timeval) (m : tmod)
    (s : harness) : res (tmod * harness) :=
  mac ← load_mac OFLOPS_DATA1 socket_ret hwaddr (tm_mac m) s;
  let m := m <| tm_mac := mac |> <| tm_first := times_new (tm_flows m) |> <| tm_last := times_new (tm_flows m) |>
             <| tm_delay := arr_new (tm_flows m) |> in
  s ← oflops_log (clock 0%nat) GENERIC_MSG (snprintf 1024 (str "Intializing module " ++ timer_name)) s;
  s ← log_text (clock 0%nat) (tm_cli_param m) s;
  '(b, _) ← make_ofp_hello;
  '(_, s) ← oflops_send_of_mesgs b sizeof_ofp_hello s;
  '(b, _) ← make_ofp_flow_del;
  '(_, s) ← oflops_send_of_mesg b s;
  x ← get_channel (ctx s) OFLOPS_DATA2;
  b ← default_route (of_port x);
  '(_, s) ← oflops_send_of_mesg b s;
  s ← schedule_timer (add_time (clock 1%nat) 1 0) SND_FLOW s;
  s ← schedule_timer (add_time (clock 2%nat) 1 0) SNMPGET s;
  s ← schedule_timer (add_time (clock 3%nat) 60 0) BYESTR s;
  mret (m, s).

(** ** Timers *)

(** An exact match, or all but the addresses. *)
Definition timer_mask (table : Z) : Z :=
  if table =? 0 then 0
  else foldr Z.lor 0 [OFPFW_IN_PORT; OFPFW_DL_DST; OFPFW_DL_SRC; OFPFW_DL_VLAN; OFPFW_TP_DST; OFPFW_NW_PROTO;
                      OFPFW_TP_SRC; OFPFW_DL_VLAN_PCP; OFPFW_NW_TOS].

Definition probe_flow (m : tmod) (mac : list Z) (in_port nw_dst : Z) : flow :=
  {| f_mask := timer_mask (tm_table m); f_in_port := bswap16 (u16 in_port); f_dl_src := mac; f_dl_dst := gateway_mac;
     f_dl_vlan := bswap16 0xffff; f_dl_type := bswap16 0x0800; f_nw_src := inet_addr (str "10.1.1.1");
     f_nw_dst := nw_dst; f_nw_proto := 17; f_tp_src := bswap16 8080; f_tp_dst := bswap16 8080 |}.

(** A flow that lives ten seconds; the idle timeout is stored as it is. *)
Definition timed_flow (fl : flow) : res (mem * Z) :=
  '(b, len) ← make_ofp_flow_add fl OFPP_IN_PORT 1 10;
  b ← wr16be b ofp_flow_mod_priority 10;
  b ← wr16be b ofp_flow_mod_flags OFPFF_SEND_FLOW_REM;
  b ← wr16le b ofp_flow_mod_idle_timeout OFP_FLOW_PERMANENT;
  b ← wr16be b ofp_flow_mod_hard_timeout 10;
  mret (b, len).

Fixpoint send_flows (n : nat) (m : tmod) (mac : list Z) (in_port nw_dst : Z) (s : harness) : res harness :=
  match n with
  | O => mret s
  | S n =>
    '(b, len) ← timed_flow (probe_flow m mac in_port nw_dst);
    '(_, s) ← oflops_send_of_mesgs b len s;
    send_flows n m mac in_port (addr_plus nw_dst 1) s
  end.

Section snmp.
Context (snmp_open : option snmp_session → bool) (snmp_pdu_create : list Z → Z) (snmp_send : bool).

Definition timer_handle_timer_event (clock : timeval) (te : timer_event) (m : tmod) (s : harness) : res harness :=
  if te_arg te =? BYESTR then mret (oflops_end_test 1 s).2
  else if te_arg te =? SND_FLOW then
    x ← get_channel (ctx s) OFLOPS_DATA1;
    mac ← rd_bytes (tm_mac m) 0 6;
    send_flows (Z.to_nat (tm_flows m)) m mac (of_port x) (inet_addr network) s
  else if te_arg te =? SNMPGET then
    s ← snmp_requests snmp_open snmp_pdu_create snmp_send s;
    schedule_timer (add_time clock 1 0) SNMPGET s
  else mret s.
End snmp.

(** ** Messages of the switch *)

Definition timer_of_event_echo_request (ofph : mem) (s : harness) : res harness := reply_echo ofph s.

(** The duration in microseconds: the seconds are multiplied in 32 bits, and the
    sum is a float. *)
Definition duration (sec nsec : Z) : spec_float :=
  f64_of (f32_add (f32_of_Z (u32 (sec * 1000000))) (f32_div (f32_of_Z nsec) (f32_of_Z 1000))).

Definition timer_of_event_flow_removed (now : timeval) (ofph : mem) (m : tmod) (s : harness) : res (tmod * harness) :=
  dst ← rd32le ofph (ofp_flow_removed_match + ofp_match_nw_dst);
  let id := flow_id (inet_addr network) dst in
  if (id <? 0) || (id >=? tm_flows m) then mret (m, s)
  else
    sec ← rd32be ofph ofp_flow_removed_duration_sec;
    nsec ← rd32be ofph ofp_flow_removed_duration_nsec;
    d ← arr_write (tm_delay m) id (duration sec nsec);
    c ← chk_int (tm_count m + 1);
    let m := m <| tm_delay := d |> <| tm_count := c |> in
    if tm_count m >=? tm_flows m then s ← schedule_timer (add_time now 5 0) BYESTR s; mret (m, s)
    else mret (m, s).

Definition timer_handle_snmp_event (vars : list snmp_var) (s : harness) : res harness := log_snmp vars s.

(** ** Traffic *)

Definition timer_get_pcap_filter (ofc : Z) (buflen : nat) : Z * cstring := udp_filter ofc buflen.

Definition timer_det (m : tmod) (junk : traf_gen_det) (c : oflops_context) : res traf_gen_det :=
  probe_det inet_addr (tm_flows m) (tm_pkt_size m) (tm_interval m) 100 (tm_mac m) junk c.

Definition timer_handle_traffic_generation setuid_ok modprobe_ok if_index bind_ok exists_ writable nows rands nf_rands
    rounds nf_rounds (m : tmod) (junk : traf_gen_det) (s : harness) (k : commands) (t : list nf_call) :=
  generate setuid_ok modprobe_ok inet_addr if_index bind_ok exists_ writable nows rands nf_rands rounds nf_rounds
    (timer_det m junk) s k t.

(** The number of the flow is not checked against the size of the arrays. *)
Definition timer_handle_pcap_event (nf_extract : Z → mem → Z → option pktgen_hdr) (hdr : pcap_pkthdr) (data : mem)
    (ch : Z) (m : tmod) (s : harness) : res tmod :=
  if ch =? OFLOPS_DATA1 then
    '(pkt, fl) ← extract_pktgen_pkt nf_extract (ctx s) ch data (i32 (caplen hdr)) true;
    match pkt, fl with
    | Some _, Some fl =>
      let id := flow_id (inet_addr network) (f_nw_dst fl) in
      first ← time_first (tm_first m) id (ts hdr);
      last ← time_put (tm_last m) id (ts hdr);
      mret (m <| tm_first := first |> <| tm_last := last |>)
    | Some _, None => Fault FUninit
    | None, _ => mret m
    end
  else mret m.

(** ** The report *)

Section report.
Context (fmt_f : spec_float → cstring).

Definition timer_line (i : Z) (first last : timeval) (delay : spec_float) : cstring :=
  snprintf 1024 (str "flow_timeout:" ++ inet_ntoa (addr_plus (inet_addr network) i) ++ str ":" ++
    time_text first ++ str ":" ++ time_text last ++ str ":" ++
    dec (time_diff first last) ++ str ":" ++ fmt_f delay).

(** A flow that was never seen is left out. *)
Fixpoint timer_lines (n : nat) (i : Z) (m : tmod) (s : harness) : res harness :=
  match n with
  | O => mret s
  | S n =>
    first ← time_at (tm_first m) i;
    s ← (if 0 <? tv_sec first then
           last ← time_at (tm_last m) i;
           d ← arr_read (tm_delay m) i;
           oflops_log last GENERIC_MSG (timer_line i first last d) s
         else mret s);
    timer_lines n (i + 1) m s
  end.

Definition timer_destroy (m : tmod) (s : harness) : res harness := timer_lines (Z.to_nat (tm_flows m)) 0 m s.
End report.
End module.
