(* ===== verification/ReactiveModule.v ===== *)
(** * A test module: reactive control (example_modules/openflow_reactive)

    The module is the controller of a switch without flows: it answers the first
    packet of every flow, which the switch hands up, with the installation of the
    flow, and measures when the packet was sent, when the controller saw it and
    when it came out of the switch.  [rmod] holds the variables of the module. *)

From S2P Require Import Prelude CTime CBytes CStr OpenFlow WcEvent PcapTrack TimerEvent Msg Context Harness.
From S2P Require Import TrafficGen TrafficKernel Utils TestModule.
Open Scope Z_scope.

(** ** State *)

Record rmod := {
  rm_pkt_size : Z;
  rm_proberate : Z;
  rm_interval : Z;  (* probe_snd_interval *)
  rm_print : Z;
  rm_flows : Z;
  rm_cli_param : option cstring;
  rm_mac : mem;  (* local_mac *)
  rm_received : list Z;  (* ip_received *)
  rm_received_count : Z;  (* ip_received_count *)
  rm_send : list timeval;  (* flow_send *)
  rm_controller : list timeval;  (* flow_controller *)
  rm_back : list timeval;  (* flow_received *)
}.
#[export] Instance rmod_rebuild : Rebuild rmod := λ m,
  {| rm_pkt_size := rm_pkt_size m; rm_proberate := rm_proberate m; rm_interval := rm_interval m;
     rm_print := rm_print m; rm_flows := rm_flows m; rm_cli_param := rm_cli_param m; rm_mac := rm_mac m;
     rm_received := rm_received m; rm_received_count := rm_received_count m; rm_send := rm_send m;
     rm_controller := rm_controller m; rm_back := rm_back m |}.

Definition rmod0 : rmod :=
  {| rm_pkt_size := 1500; rm_proberate := 100; rm_interval := 0; rm_print := 0; rm_flows := 100;
     rm_cli_param := None; rm_mac := mem_zero 6; rm_received := []; rm_received_count := 0; rm_send := [];
     rm_controller := []; rm_back := [] |}.

Definition reactive_name : cstring := str "openflow_reactive".

(** ** Initialisation *)

(** The test of pkt_size asks for two things that exclude each other. *)
Definition reactive_set_param (name value : cstring) (m : rmod) : res rmod :=
  let v := strtol0 value in
  if bool_decide (name = str "pkt_size") then mret (m <| rm_pkt_size := u32 v |>)
  else if bool_decide (name = str "probe_rate") then
    if (u64 v <=? 0) || (u64 v >=? 1010) then Fault (FExit 1) else mret (m <| rm_proberate := u64 v |>)
  else if bool_decide (name = str "flows") then
    if i32 v <=? 0 then Fault (FExit 1) else mret (m <| rm_flows := i32 v |>)
  else if bool_decide (name = str "print") then mret (m <| rm_print := i32 v |>)
  else mret m.

(** The arrays are allocated here, with one entry for every flow. *)
Definition reactive_arrays (m : rmod) : rmod :=
  m <| rm_send := times_new (rm_flows m) |> <| rm_controller := times_new (rm_flows m) |>
    <| rm_back := times_new (rm_flows m) |> <| rm_received := replicate (Z.to_nat (rm_flows m)) 0 |>.

Definition reactive_init (b : mem) (m : rmod) : res (mem * rmod) :=
  t ← text_at b 0;
  '(b, m) ← read_params reactive_set_param b (m <| rm_cli_param := Some t |>);
  i ← send_interval (rm_pkt_size m) (rm_proberate m);
  mret (b, reactive_arrays (m <| rm_interval := i |>)).

Section module.
Context {OF : OpenFlow} (inet_addr : cstring → Z).

(** ** Starting *)

Definition reactive_start (socket_ret : Z) (hwaddr : cstring → option (list Z)) (clock : nat → timeval) (m : rmod)
    (s : harness) : res (rmod * harness) :=
  mac ← load_mac OFLOPS_DATA1 socket_ret hwaddr (rm_mac m) s;
  let m := m <| rm_mac := mac |> in
  s ← oflops_log (clock 0%nat) GENERIC_MSG (snprintf 1024 (str "Intializing module " ++ reactive_name)) s;
  s ← log_text (clock 0%nat) (rm_cli_param m) s;
  '(b, _) ← make_ofp_flow_del;
  '(_, s) ← oflops_send_of_mesg b s;
  s ← schedule_timer (add_time (clock 1%nat) 1 0) SNMPGET s;
  s ← schedule_timer (add_time (clock 2%nat) 60 0) BYESTR s;
  mret (m, s).

(** ** Timers *)

Section snmp.
Context (snmp_open : option snmp_session → bool) (snmp_pdu_create : list Z → Z) (snmp_send : bool).

Definition reactive_handle_timer_event (clock : timeval) (te : timer_event) (s : harness) : res harness :=
  if te_arg te =? BYESTR then mret (oflops_end_test 1 s).2
  else if te_arg te =? SNMPGET then
    s ← snmp_requests snmp_open snmp_pdu_create snmp_send s;
    schedule_timer (add_time clock 1 0) SNMPGET s
  else mret s.
End snmp.

(** ** Captured packets *)

Definition reactive_get_pcap_filter (ofc : Z) (buflen : nat) : Z * cstring := udp_filter ofc buflen.

(** All flows came back: the test ends a second later.  The second line of the log
    is an array that was never written. *)
Definition all_received (clock : timeval) (at_ : timeval) (s : harness) : res harness :=
  s ← schedule_timer (add_time clock 1 0) BYESTR s;
  s ← oflops_log at_ GENERIC_MSG (str "LAST_PKT_RCV") s;
  log_unset s.

Definition receive (clock : timeval) (hdr : pcap_pkthdr) (id : Z) (m : rmod) (s : harness) : res (rmod * harness) :=
  c ← chk_int (rm_received_count m + 1);
  back ← time_put (rm_back m) id (ts hdr);
  let m := m <| rm_received_count := c |> <| rm_received := zset (rm_received m) id 1 |> <| rm_back := back |> in
  s ← (if rm_received_count m >=? rm_flows m then all_received clock (ts hdr) s else mret s);
  mret (m, s).

Definition reactive_handle_pcap_event (nf_extract : Z → mem → Z → option pktgen_hdr) (clock : timeval)
    (hdr : pcap_pkthdr) (data : mem) (ch : Z) (m : rmod) (s : harness) : res (rmod * harness) :=
  if ch =? OFLOPS_DATA1 then
    '(pkt, fl) ← extract_pktgen_pkt nf_extract (ctx s) ch data (i32 (caplen hdr)) true;
    match pkt, fl with
    | Some _, Some fl =>
      let id := flow_id (inet_addr network) (f_nw_dst fl) in
      if (id >=? 0) && (id <? rm_flows m) then
        match zget (rm_received m) id with
        | None => Fault FBounds
        | Some r => if r =? 0 then receive clock hdr id m s else mret (m, s)
        end
      else mret (m, s)
    | Some _, None => Fault FUninit
    | None, _ => mret (m, s)
    end
  else mret (m, s).

(** ** Messages of the switch *)

(** What is installed: the flow of the packet, its numbers in network order. *)
Definition install_flow (fl : flow) (in_port : Z) : flow :=
  {| f_mask := f_mask fl; f_in_port := in_port; f_dl_src := f_dl_src fl; f_dl_dst := f_dl_dst fl;
     f_dl_vlan := f_dl_vlan fl; f_dl_type := bswap16 (f_dl_type fl); f_nw_src := f_nw_src fl;
     f_nw_dst := f_nw_dst fl; f_nw_proto := f_nw_proto fl; f_tp_src := bswap16 (f_tp_src fl);
     f_tp_dst := bswap16 (f_tp_dst fl) |}.

(** A packet that matched no flow.  The port of the switch is taken for a channel
    of the program, and the number of the flow is not checked. *)
Definition reactive_no_match (nf_extract : Z → mem → Z → option pktgen_hdr) (now : timeval) (pkt_in : mem) (m : rmod)
    (s : harness) : res (rmod * harness) :=
  port ← rd16be pkt_in ofp_packet_in_in_port;
  len ← rd16be pkt_in ofp_packet_in_total_len;
  '(pkt, fl) ← extract_pktgen_pkt nf_extract (ctx s) port (drop (Z.to_nat ofp_packet_in_data) pkt_in) len true;
  match pkt, fl with
  | Some p, Some fl =>
    let id := flow_id (inet_addr network) (f_nw_dst fl) in
    send ← time_first (rm_send m) id {| tv_sec := pg_tv_sec p; tv_usec := pg_tv_usec p |};
    controller ← time_first (rm_controller m) id now;
    '(b, _) ← make_ofp_flow_add (install_flow fl (bswap16 port)) OFPP_IN_PORT 1 120;
    buffer ← rd_bytes pkt_in ofp_packet_in_buffer_id 4;
    b ← wr_bytes b ofp_flow_mod_buffer_id buffer;
    '(_, s) ← oflops_send_of_mesg b s;
    mret (m <| rm_send := send |> <| rm_controller := controller |>, s)
  | Some _, None => Fault FUninit
  | None, _ => mret (m, s)
  end.

Definition reactive_of_event_packet_in (nf_extract : Z → mem → Z → option pktgen_hdr) (clock nf_clock : timeval)
    (pkt_in : mem) (m : rmod) (s : harness) : res (rmod * harness) :=
  reason ← rd8 pkt_in ofp_packet_in_reason;
  if reason =? OFPR_NO_MATCH
  then reactive_no_match nf_extract (oflops_gettimeofday (ctx s) nf_clock clock) pkt_in m s
  else mret (m, s).

Definition reactive_of_event_echo_request (ofph : mem) (s : harness) : res harness := reply_echo ofph s.

Definition reactive_handle_snmp_event (vars : list snmp_var) (s : harness) : res harness := log_snmp vars s.

(** ** Traffic *)

Definition reactive_det (m : rmod) (junk : traf_gen_det) (c : oflops_context) : res traf_gen_det :=
  probe_det inet_addr (rm_flows m) (rm_pkt_size m) (rm_interval m) 0xffff (rm_mac m) junk c.

Definition reactive_handle_traffic_generation setuid_ok modprobe_ok if_index bind_ok exists_ writable nows rands nf_rands
    rounds nf_rounds (m : rmod) (junk : traf_gen_det) (s : harness) (k : commands) (t : list nf_call) :=
  generate setuid_ok modprobe_ok inet_addr if_index bind_ok exists_ writable nows rands nf_rands rounds nf_rounds
    (reactive_det m junk) s k t.
End module.

(** ** The report *)

Definition reactive_line (i : Z) (send controller back : timeval) : cstring :=
  snprintf 1024 (dec i ++ str ":" ++ time_text send ++ str ":" ++ time_text controller ++ str ":" ++ time_text back).

Fixpoint reactive_lines (n : nat) (i : Z) (now : timeval) (m : rmod) (s : harness) : res harness :=
  match n with
  | O => mret s
  | S n =>
    a ← time_at (rm_send m) i;
    b ← time_at (rm_controller m) i;
    c ← time_at (rm_back m) i;
    s ← oflops_log now GENERIC_MSG (reactive_line i a b c) s;
    reactive_lines n (i + 1) now m s
  end.

Definition reactive_destroy (now : timeval) (m : rmod) (s : harness) : res harness :=
  reactive_lines (Z.to_nat (rm_flows m)) 0 now m s.
