(* ===== verification/ProbeSpec.v ===== *)
(** * Probes and their flows

    What the modules that measure flows share: how the number of a flow is
    found again in a captured frame, and the arrays of times. *)

From S2P Require Import Prelude CTime CBytes CStr OpenFlow WcEvent WcHeap WcQueue PcapTrack Msg MsgSpec Context Harness.
From S2P Require Import WcRefine ModuleRunSpec TrafficGen TrafficKernel TrafficSpec TestModule.
Open Scope Z_scope.

(** ** Numbers of flows *)

Lemma bswap32_plus a i : bswap32 (addr_plus a i) = u32 (bswap32 a + i).
Proof. apply bswap32_invol, u32_range. Qed.

Lemma bswap16_range v : is_u16 (bswap16 v).
Proof. unfold is_u16, bswap16, le16, be16. cbn. unfold u8. Z.to_euclidean_division_equations. lia. Qed.

Lemma flow_id_plus a i : 0 ≤ i < 2^31 → flow_id a (addr_plus a i) = i.
Proof.
  intros Hi. unfold flow_id. rewrite bswap32_plus. unfold u32. rewrite Zminus_mod_idemp_l.
  replace (bswap32 a + i - bswap32 a) with i by lia. rewrite Z.mod_small by lia. apply i32_id. unfold is_int, INT_MIN, INT_MAX. lia.
Qed.

Lemma flow_id_dst a n i : bswap32 a + i = n → 0 ≤ n < 2^32 → 0 ≤ i < 2^31 → flow_id a (bswap32 n) = i.
Proof.
  intros <- Hn Hi. rewrite <-(flow_id_plus a i Hi) at 2. unfold addr_plus. by rewrite u32_id.
Qed.

(** ** Arrays of times *)

Lemma zlen_times_new n : 0 ≤ n → zlen (times_new n) = n.
Proof. intros Hn. unfold zlen, times_new. rewrite length_replicate. lia. Qed.

Lemma zget_times_new n i : 0 ≤ i < n → zget (times_new n) i = Some tv0.
Proof. intros Hi. unfold times_new. rewrite zget_nonneg by lia. apply lookup_replicate. split; [done|lia]. Qed.

Lemma time_put_ok l i t : 0 ≤ i < zlen l → time_put l i t = Ok (zset l i t).
Proof. intros [x Hx]%zget_in_bounds. unfold time_put. by rewrite Hx. Qed.

Lemma time_first_ok l i t o :
  zget l i = Some o → time_first l i t = Ok (if tv_sec o =? 0 then zset l i t else l).
Proof.
  intros Ho. unfold time_first, time_at. rewrite Ho. cbn. destruct (tv_sec o =? 0); [|done].
  apply time_put_ok. by apply zget_Some_bounds in Ho.
Qed.

(** ** What reaches a module *)

(** A capture of a frame that was built from the details [d]; the module's channel
    is captured with libpcap. *)
Definition probe_ok (inet_addr : cstring → Z) (d : traf_gen_det) (c : oflops_context) (port : Z) : Prop :=
  det_ok inet_addr d ∧ 0 ≤ vlan d < 2^16 ∧ 0 ≤ port ≤ n_channels c
  ∧ ∃ x, get_channel c port = Ok x ∧ cap_type x = PCAP.

Lemma extract_probe inet_addr nf_extract d c port f :
  probe_ok inet_addr d c port → fr_eth f = eth_of d →
  extract_pktgen_pkt nf_extract c port (cells (frame_bytes f)) (zlen (frame_bytes f)) true
  = Ok (Some (header_of f), Some (flow_of d f)).
Proof. intros (Hd & Hv & Hp & x & Hx & Hc) He. by apply (extract_frame inet_addr nf_extract d f c port x). Qed.

(** ** What is sent *)

Lemma send_of_bytes {OF : OpenFlow} bs s :
  fluid_control (ctx s) ≠ 0 → 0 < zlen bs →
  oflops_send_of_mesgs (cells bs) (zlen bs) s = Ok (zlen bs, s <| control_out := control_out s ++ [bs] |>).
Proof.
  intros Hc Hz. unfold oflops_send_of_mesgs, write_oflops_control.
  replace (fluid_control (ctx s) =? 0) with false by lia. replace (zlen bs =? 0) with false by lia.
  rewrite (bind_val (mret (zlen bs)) _ _ eq_refl). cbv beta. unfold rd_bytes.
  rewrite rd_cells_ok by (unfold in_bounds; rewrite zlen_cells; lia).
  rewrite (bind_val (Ok _) _ _ eq_refl). cbv beta. unfold slice. cbn [Z.to_nat drop].
  change (drop (Z.to_nat 0) (cells bs)) with (cells bs). rewrite take_ge by (pose proof (zlen_cells bs); unfold zlen in *; lia).
  by rewrite bytes_of_cells.
Qed.

(** A complete message: the length in its header is the one that is sent. *)
Lemma send_message {OF : OpenFlow} {L : OFLayout OF} bs s :
  fluid_control (ctx s) ≠ 0 → 0 < zlen bs → rd16be (cells bs) ofp_header_length = Ok (zlen bs) →
  oflops_send_of_mesg (cells bs) s = Ok (zlen bs, s <| control_out := control_out s ++ [bs] |>).
Proof. intros Hc Hz Hr. unfold oflops_send_of_mesg. rewrite (bind_val _ _ _ Hr). by apply send_of_bytes. Qed.

(** Nothing is sent of a message with bytes that were never set. *)
Lemma send_unset {OF : OpenFlow} b s :
  fluid_control (ctx s) ≠ 0 → 0 < zlen b → rd16be b ofp_header_length = Ok (zlen b) → bytes_of b = Fault FUninit →
  oflops_send_of_mesg b s = Fault FUninit.
Proof.
  intros Hc Hz Hr Hb. unfold oflops_send_of_mesg. rewrite (bind_val _ _ _ Hr). cbv beta.
  unfold oflops_send_of_mesgs, write_oflops_control. replace (fluid_control (ctx s) =? 0) with false by lia.
  replace (zlen b =? 0) with false by lia. rewrite (bind_val (mret (zlen b)) _ _ eq_refl). cbv beta. unfold rd_bytes.
  rewrite rd_cells_ok by (unfold in_bounds; lia). rewrite (bind_val (Ok _) _ _ eq_refl). cbv beta. unfold slice.
  change (drop (Z.to_nat 0) b) with b. rewrite take_ge by (unfold zlen; lia). by rewrite Hb.
Qed.

Lemma rd_bytes_len m off n bs : rd_bytes m off n = Ok bs → zlen bs = n.
Proof.
  unfold rd_bytes, rd_cells. intros (c & Hc & Hb%bytes_of_Ok)%bind_Ok. case_decide as Hin; [|done].
  injection Hc as <-. rewrite <-(zlen_cells bs), <-Hb. by apply zlen_slice.
Qed.

Lemma flow_mod_msg_80 {OF : OpenFlow} {L : OFLayout OF} fl idle prio flags port :
  flow_ok fl → let bs := flow_mod_msg 80 fl OFPFC_ADD idle prio 0 flags (output_action port) in
  zlen bs = 80 ∧ rd16be (cells bs) ofp_header_length = Ok (zlen bs).
Proof.
  intros Hok bs. destruct (flow_mod_msg_for 80 fl OFPFC_ADD idle prio 0 flags (output_action port) Hok
    eq_refl ltac:(lia)) as (Hz & _). fold bs in Hz. split; [done|]. rewrite Hz. unfold bs. clear Hz bs.
  pose proof (fo_src _ Hok) as Hs. pose proof (fo_dst _ Hok) as Hd.
  destruct fl as [mask p src dst vlan ty nsrc ndst pr ts td]. cbn in Hs, Hd. six src Hs. six dst Hd. of_layout. reflexivity.
Qed.

(** One message, sent with the length that is given or with the one in its header. *)
Lemma send_80 {OF : OpenFlow} {L : OFLayout OF} fl idle prio flags port s :
  flow_ok fl → fluid_control (ctx s) ≠ 0 →
  let bs := flow_mod_msg 80 fl OFPFC_ADD idle prio 0 flags (output_action port) in
  oflops_send_of_mesgs (cells bs) 80 s = Ok (80, s <| control_out := control_out s ++ [bs] |>) ∧
  oflops_send_of_mesg (cells bs) s = Ok (80, s <| control_out := control_out s ++ [bs] |>).
Proof.
  intros Hok Hc bs. destruct (flow_mod_msg_80 fl idle prio flags port Hok) as [Hz Hr]. fold bs in Hz, Hr.
  split; [rewrite <-Hz|rewrite <-Hz; apply send_message; try done; lia]. apply send_of_bytes; [done|lia].
Qed.

Lemma send_one {OF : OpenFlow} b len s r s' : oflops_send_of_mesgs b len s = Ok (r, s') →
  ctx s' = ctx s ∧ ∃ bs, control_out s' = control_out s ++ [bs].
Proof.
  unfold oflops_send_of_mesgs, write_oflops_control. intros (s1 & H & [= <- <-])%bind_Ok.
  destruct (_ =? 0); [done|]. apply bind_Ok in H as (? & _ & H). apply bind_Ok in H as (bs & _ & [= <-]). split; [done|].
  by exists bs.
Qed.

Lemma zget_seqZ {A} (f : Z → A) n i : 0 ≤ i < n → zget (f <$> seqZ 0 n) i = Some (f i).
Proof.
  intros Hi. rewrite zget_nonneg, list_lookup_fmap by lia. rewrite lookup_seqZ_lt by lia. cbn. do 2 f_equal. lia.
Qed.

Lemma bytes_of_app bs c : bytes_of (cells bs ++ c) = (r ← bytes_of c; mret (bs ++ r)).
Proof.
  induction bs as [|b bs IH]; cbn [cells fmap list_fmap app bytes_of]; [by destruct (bytes_of c)|].
  change (Some <$> bs) with (cells bs). change (list_fmap _ _ Some bs) with (cells bs). rewrite IH. by destruct (bytes_of c).
Qed.

(** ** The timers of the test *)

(** There is room for a few more timers. *)
Definition timers_ready (k : Z) (s : harness) : Prop :=
  ∃ q, timers s = Some q ∧ wf (wcg s) q ∧ 0 ≤ WC_EVENT_ID (wcg s) ≤ INT_MAX - k ∧ qlength q * 2^k ≤ 2^30.

Lemma ready_schedule k tv arg s : 1 ≤ k → timers_ready k s →
  ∃ s', schedule_timer tv arg s = Ok s' ∧ timers_ready (k - 1) s' ∧ ctx s' = ctx s ∧ logger s' = logger s.
Proof.
  intros Hk (q & Ht & Hw & Hid & Hl). unfold schedule_timer. rewrite Ht. pose proof (wf_cap _ (wf_arr _ _ Hw)).
  assert (2^k = 2 * 2^(k-1)) as E by (rewrite <-Z.pow_succ_r by lia; f_equal; lia).
  assert (1 ≤ 2^(k-1)) by (pose proof (Z.pow_pos_nonneg 2 (k-1)); lia).
  destruct (wc_event_add_spec (wcg s) q 0 arg tv Hw) as (g' & q' & He & Hw' & Hid' & _ & Hl' & _).
  { split; [lia|right]. nia. }
  rewrite (bind_val _ _ _ He). eexists. split; [reflexivity|]. split; [|done].
  exists q'. cbn. split_and!; try done; [lia..|]. rewrite Hl'. destruct (_ >=? _); nia.
Qed.

(** Logging and sending leave context and timers alone. *)
Definition same_run (s s' : harness) : Prop := ctx s' = ctx s ∧ timers s' = timers s ∧ wcg s' = wcg s.

Lemma same_run_trans s1 s2 s3 : same_run s1 s2 → same_run s2 s3 → same_run s1 s3.
Proof. unfold same_run. naive_solver congruence. Qed.

Lemma same_run_ready k s s' : same_run s s' → timers_ready k s → timers_ready k s'.
Proof. intros (_ & E1 & E2) (q & H). exists q. by rewrite E1, E2. Qed.

Lemma log_same_run t ty text s s' : oflops_log t ty text s = Ok s' → same_run s s'.
Proof. unfold oflops_log. destruct (logger s); [|by intros [= <-]]. destruct (zget msg_type ty); by intros [= <-]. Qed.

Lemma log_text_same_run t text s s' : log_text t text s = Ok s' → same_run s s'.
Proof. unfold log_text. destruct (logger s), text; by intros ?%log_same_run || done. Qed.

Lemma send_same_run {OF : OpenFlow} b len s r s' : oflops_send_of_mesgs b len s = Ok (r, s') → same_run s s'.
Proof.
  unfold oflops_send_of_mesgs, write_oflops_control. intros (s1 & H & [= <- <-])%bind_Ok.
  destruct (_ =? 0); [done|]. apply bind_Ok in H as (? & _ & H). apply bind_Ok in H as (? & _ & [= <-]). done.
Qed.

Lemma send_mesg_same_run {OF : OpenFlow} b s r s' : oflops_send_of_mesg b s = Ok (r, s') → same_run s s'.
Proof. unfold oflops_send_of_mesg. intros (len & _ & H)%bind_Ok. by eapply send_same_run. Qed.

(** Logging and scheduling send nothing. *)
Definition quiet (s s' : harness) : Prop := ctx s' = ctx s ∧ control_out s' = control_out s.

Lemma quiet_trans s1 s2 s3 : quiet s1 s2 → quiet s2 s3 → quiet s1 s3.
Proof. unfold quiet. naive_solver congruence. Qed.

Lemma log_quiet t ty text s s' : oflops_log t ty text s = Ok s' → quiet s s'.
Proof. unfold oflops_log. destruct (logger s); [|by intros [= <-]]. destruct (zget msg_type ty); by intros [= <-]. Qed.

Lemma log_text_quiet t text s s' : log_text t text s = Ok s' → quiet s s'.
Proof. unfold log_text. destruct (logger s), text; by intros ?%log_quiet || done. Qed.

Lemma schedule_quiet tv arg s s' : schedule_timer tv arg s = Ok s' → quiet s s'.
Proof. unfold schedule_timer. destruct (timers s); [|done]. intros ([[? ?] ?] & _ & [= <-])%bind_Ok. done. Qed.

(** ** A sender and a harness *)

Definition probe_inet (t : cstring) : Z :=
  if decide (t = network) then bswap32 0xc0a80200 else bswap32 0x0a010101.
Definition probe_demo : traf_gen_det := demo_det <| dst_ip_min := network |> <| vlan := 100 |>.
Definition probe_frame (i : Z) : frame := frame_of probe_inet probe_demo <| fr_dst := 0xc0a80200 + i |>.

Lemma probe_demo_ok : det_ok probe_inet probe_demo.
Proof.
  split; [reflexivity|reflexivity|vm_compute; split; congruence|].
  intros s. unfold probe_inet. case_decide; apply bswap32_range.
Qed.

Definition demo_queue : wc_queue := {| array := arr_new 10; qlength := 10; size := 0; timersEnabled := 0 |}.
Definition probe_harness : harness := demo_harness PCAP [] <| timers := Some demo_queue |> <| logger := Some [] |>.

Lemma probe_harness_ready : timers_ready 4 probe_harness.
Proof.
  exists demo_queue. destruct (wc_queue_init_spec 10 (wcg probe_harness)) as (pq & Hpq & Hwf & _); [lia|done|].
  injection Hpq as <-. split_and!; [done|exact Hwf|done..].
Qed.

Lemma probe_harness_ok : probe_ok probe_inet probe_demo (ctx probe_harness) OFLOPS_DATA1.
Proof. split_and!; [exact probe_demo_ok|done..|]. by eexists. Qed.
