(* ===== verification/TimerSpec.v ===== *)
(** * What the timer module measures

    The flows it installs, and the way from the packets and removal messages of
    the switch to the lines of the log. *)

From Stdlib Require Import SpecFloat.
From S2P Require Import Prelude CTime CBytes CStr OpenFlow WcEvent WcQueue PcapTrack TimerEvent Msg MsgSpec Context Harness.
From S2P Require Import OfFrame WcRefine ModuleRunSpec TrafficGen TrafficKernel TrafficSpec TestModule ProbeSpec CFloat TimerModule.
Open Scope Z_scope.

(** ** Events *)

(** A captured probe, or a removal message with the flow and the duration in it. *)
Inductive tm_event :=
| EvProbe (hdr : pcap_pkthdr) (f : frame)
| EvRemoved (at_ : timeval) (ofph : mem) (id sec nsec : Z).

Section spec.
Context {OF : OpenFlow} (inet_addr : cstring → Z) (nf_extract : Z → mem → Z → option pktgen_hdr).
Context (d : traf_gen_det) (n : Z).
Implicit Types (m : tmod) (s : harness) (e : tm_event) (es : list tm_event).

Definition net_base : Z := bswap32 (inet_addr network).
Arguments net_base : simpl never.

(** Probes go to one of the [n] addresses of the network, and were captured after the
    epoch; removal messages are about one of the flows. *)
Definition event_ok e : Prop :=
  match e with
  | EvProbe hdr f =>
    fr_eth f = eth_of d ∧ net_base ≤ fr_dst f < net_base + n ∧ caplen hdr = zlen (frame_bytes f) ∧
    caplen hdr < 2^31 ∧ 0 < tv_sec (ts hdr)
  | EvRemoved _ ofph id sec nsec =>
    0 ≤ id < n ∧ rd32le ofph (ofp_flow_removed_match + ofp_match_nw_dst) = Ok (bswap32 (net_base + id)) ∧
    rd32be ofph ofp_flow_removed_duration_sec = Ok sec ∧ rd32be ofph ofp_flow_removed_duration_nsec = Ok nsec
  end.

Definition handle e (ms : tmod * harness) : res (tmod * harness) :=
  let '(m, s) := ms in
  match e with
  | EvProbe hdr f =>
    m ← timer_handle_pcap_event inet_addr nf_extract hdr (cells (frame_bytes f)) OFLOPS_DATA1 m s; mret (m, s)
  | EvRemoved at_ ofph _ _ _ => timer_of_event_flow_removed inet_addr at_ ofph m s
  end.

Fixpoint handle_all es (ms : tmod * harness) : res (tmod * harness) :=
  match es with [] => mret ms | e :: es => ms ← handle e ms; handle_all es ms end.

Lemma handle_all_snoc es e ms : handle_all (es ++ [e]) ms = (handle_all es ms ≫= handle e).
Proof.
  revert ms. induction es as [|e' es IH]; intros ms; cbn [handle_all app].
  - change (mret ms ≫= handle e) with (handle e ms). by destruct (handle e ms).
  - destruct (handle e' ms); [apply IH|done].
Qed.

(** ** What was seen of a flow *)

Definition probe_of (i : Z) e : option timeval :=
  match e with EvProbe hdr f => if fr_dst f =? net_base + i then Some (ts hdr) else None | _ => None end.
Definition times (i : Z) es : list timeval := omap (probe_of i) es.
Definition first_of (i : Z) es : timeval := default tv0 (hd_error (times i es)).
Definition last_of (i : Z) es : timeval := default tv0 (last (times i es)).

Definition removal e : option Z := match e with EvRemoved _ _ id _ _ => Some id | _ => None end.
Definition removed es : list Z := omap removal es.
Definition life_of (i : Z) e : option spec_float :=
  match e with EvRemoved _ _ id sec nsec => if id =? i then Some (duration sec nsec) else None | _ => None end.
Definition life (i : Z) es : option spec_float := last (omap (life_of i) es).

Lemma omap_snoc {A B} (g : A → option B) l x : omap g (l ++ [x]) = omap g l ++ option_list (g x).
Proof. rewrite omap_app. cbn. by destruct (g x). Qed.

Lemma first_of_snoc i es e : first_of i (es ++ [e]) =
  match probe_of i e with
  | Some t => if bool_decide (times i es = []) then t else first_of i es
  | None => first_of i es
  end.
Proof.
  unfold first_of, times. rewrite omap_snoc. destruct (probe_of i e); cbn [option_list]; [|by rewrite app_nil_r].
  destruct (omap (probe_of i) es); [by rewrite bool_decide_true|by rewrite bool_decide_false].
Qed.

Lemma last_of_snoc i es e : last_of i (es ++ [e]) = default (last_of i es) (probe_of i e).
Proof.
  unfold last_of, times. rewrite omap_snoc. destruct (probe_of i e) as [t|]; cbn [default].
  - change (option_list (Some t)) with [t]. by rewrite last_snoc.
  - by rewrite app_nil_r.
Qed.

Lemma life_snoc i es e : life i (es ++ [e]) = match life_of i e with Some x => Some x | None => life i es end.
Proof.
  unfold life. rewrite omap_snoc. destruct (life_of i e); cbn [option_list]; [apply last_snoc|by rewrite app_nil_r].
Qed.

Lemma times_after_epoch i es : Forall event_ok es → Forall (λ t, 0 < tv_sec t) (times i es).
Proof.
  intros H. apply Forall_forall. intros t (e & He & Ht)%list_elem_of_omap.
  rewrite Forall_forall in H. specialize (H e He). destruct e as [hdr f|]; [|discriminate Ht]. cbn in Ht, H.
  destruct (fr_dst f =? net_base + i); [|done]. injection Ht as <-. by destruct_and!.
Qed.

Lemma first_of_sec i es : Forall event_ok es →
  (tv_sec (first_of i es) =? 0) = bool_decide (times i es = []) ∧ (0 <? tv_sec (first_of i es)) = bool_decide (times i es ≠ []).
Proof.
  intros H%(times_after_epoch i). unfold first_of. destruct (times i es) as [|t l]; [done|].
  apply Forall_cons in H as [H _].
  split; [rewrite bool_decide_false by done; apply Z.eqb_neq|rewrite bool_decide_true by done; apply Z.ltb_lt];
    cbn; lia.
Qed.

(** ** The state after some events *)

Record tm_state (s0 : harness) es m s : Prop := {
  ts_flows : tm_flows m = n;
  ts_lens : zlen (tm_first m) = n ∧ zlen (tm_last m) = n ∧ zlen (tm_delay m) = n;
  ts_first : ∀ i, 0 ≤ i < n → zget (tm_first m) i = Some (first_of i es);
  ts_last : ∀ i, 0 ≤ i < n → zget (tm_last m) i = Some (last_of i es);
  ts_delay : ∀ i, 0 ≤ i < n → zget (tm_delay m) i = Some (life i es);
  ts_count : tm_count m = zlen (removed es);
  ts_ctx : ctx s = ctx s0;
  ts_logger : logger s = logger s0;
  ts_timers : tm_count m < n → s = s0;
}.

(** The variables as start leaves them. *)
Definition tm_fresh m : Prop :=
  tm_flows m = n ∧ tm_first m = times_new n ∧ tm_last m = times_new n ∧ tm_delay m = arr_new n ∧ tm_count m = 0.

Lemma tm_state_start s m : 0 < n → tm_fresh m → tm_state s [] m s.
Proof.
  intros Hn (Hf & H1 & H2 & H3 & Hc). split; try done.
  - rewrite H1, H2, H3, zlen_arr_new, zlen_times_new by lia. done.
  - intros i Hi. rewrite H1. by apply zget_times_new.
  - intros i Hi. rewrite H2. by apply zget_times_new.
  - intros i Hi. rewrite H3. unfold arr_new. rewrite zget_nonneg by lia. apply lookup_replicate. split; [done|lia].
Qed.

(** ** Steps *)

Context (s0 : harness).
Hypothesis Hprobe : probe_ok inet_addr d (ctx s0) OFLOPS_DATA1.
Hypothesis Hn : 0 < n ≤ INT_MAX.
Hypothesis Hbase : net_base + n ≤ 2^32.
Hypothesis Hq : timers_ready 1 s0.

Lemma net_base_range : 0 ≤ net_base.
Proof. apply bswap32_range. Qed.

Lemma flow_id_of a i : a = net_base + i → 0 ≤ i < n → flow_id (inet_addr network) (bswap32 a) = i.
Proof.
  intros -> Hi. pose proof net_base_range. unfold INT_MAX in *. apply flow_id_dst; [done|lia..].
Qed.

(** What the handler does with a probe. *)
Lemma timer_pcap_ok m s hdr f i t :
  probe_ok inet_addr d (ctx s) OFLOPS_DATA1 → fr_eth f = eth_of d → caplen hdr = zlen (frame_bytes f) →
  caplen hdr < 2^31 → fr_dst f = net_base + i → 0 ≤ i < n → zget (tm_first m) i = Some t → i < zlen (tm_last m) →
  timer_handle_pcap_event inet_addr nf_extract hdr (cells (frame_bytes f)) OFLOPS_DATA1 m s
  = Ok (m <| tm_first := if tv_sec t =? 0 then zset (tm_first m) i (ts hdr) else tm_first m |>
          <| tm_last := zset (tm_last m) i (ts hdr) |>).
Proof.
  intros Hp He Hcap Hc31 Hdst Hi Ht Hlast. unfold timer_handle_pcap_event. rewrite Z.eqb_refl.
  assert (i32 (caplen hdr) = zlen (frame_bytes f)) as ->.
  { rewrite <-Hcap. pose proof (zlen_nonneg (frame_bytes f)). apply i32_id. unfold is_int, INT_MIN, INT_MAX. lia. }
  rewrite (bind_val _ _ _ (extract_probe inet_addr nf_extract d _ _ f Hp He)). cbv beta iota.
  assert (flow_id (inet_addr network) (f_nw_dst (flow_of d f)) = i) as -> by (apply flow_id_of; done).
  cbv zeta. rewrite (bind_val _ _ _ (time_first_ok _ _ _ _ Ht)). cbv beta.
  rewrite (bind_val _ _ _ (time_put_ok (tm_last m) i (ts hdr) ltac:(lia))). done.
Qed.

Lemma probe_step es m s hdr f :
  Forall event_ok es → event_ok (EvProbe hdr f) → tm_state s0 es m s →
  ∃ m', handle (EvProbe hdr f) (m, s) = Ok (m', s) ∧ tm_state s0 (es ++ [EvProbe hdr f]) m' s.
Proof.
  intros Hes (He & Hdst & Hcap & Hc31 & Hsec) [Hf (L1 & L2 & L3) H1 H2 H3 Hc Hx Hl Ht].
  set (i := fr_dst f - net_base). assert (0 ≤ i < n) as Hi by lia. rewrite <-Hx in Hprobe.
  destruct (first_of_sec i es Hes) as [E _].
  pose proof (timer_pcap_ok m s hdr f i (first_of i es) Hprobe He Hcap Hc31 ltac:(lia) Hi (H1 i Hi) ltac:(lia)) as Hrun.
  rewrite E in Hrun. eexists. split.
  { unfold handle. rewrite (bind_val _ _ _ Hrun). reflexivity. }
  clear Hrun.
  assert (∀ j, probe_of j (EvProbe hdr f) = if decide (j = i) then Some (ts hdr) else None) as Hpr.
  { intros j. cbn. case_decide; [subst; replace (_ =? _) with true by lia; done|].
    by replace (fr_dst f =? net_base + j) with false by lia. }
  split; cbn; try done.
  - rewrite zlen_zset. by case_bool_decide; rewrite ?zlen_zset.
  - intros j Hj. rewrite first_of_snoc, Hpr. case_decide as Hji; [subst j|].
    + case_bool_decide; [|by apply H1]. by rewrite zget_zset_eq by lia.
    + case_bool_decide; [rewrite zget_zset_ne by done|]; by apply H1.
  - intros j Hj. rewrite last_of_snoc, Hpr. case_decide as Hji; [subst j|].
    + by rewrite zget_zset_eq by lia.
    + rewrite zget_zset_ne by done. by apply H2.
  - intros j Hj. rewrite life_snoc. by apply H3.
  - unfold removed. rewrite omap_snoc. cbn. by rewrite app_nil_r.
Qed.

Lemma removed_bound es : Forall event_ok es → NoDup (removed es) → zlen (removed es) ≤ n.
Proof.
  intros Hes Hnd. enough (length (removed es) ≤ length (seqZ 0 n))%nat as H.
  { rewrite length_seqZ in H. unfold zlen. lia. }
  apply submseteq_length, NoDup_submseteq; [done|]. intros i (e & He & Hi)%list_elem_of_omap.
  rewrite Forall_forall in Hes. specialize (Hes e He). destruct e as [|? ? id ? ?]; [discriminate Hi|].
  injection Hi as <-. cbn in Hes. apply elem_of_seqZ. lia.
Qed.

(** What the handler does with a removal message. *)
Lemma timer_removed_ok m s at_ ofph id sec nsec :
  event_ok (EvRemoved at_ ofph id sec nsec) → tm_flows m = n → zlen (tm_delay m) = n → 0 ≤ tm_count m < INT_MAX →
  timer_of_event_flow_removed inet_addr at_ ofph m s =
  let m' := m <| tm_delay := zset (tm_delay m) id (Some (duration sec nsec)) |> <| tm_count := tm_count m + 1 |> in
  if tm_count m + 1 >=? tm_flows m then (s ← schedule_timer (add_time at_ 5 0) BYESTR s; mret (m', s))
  else Ok (m', s).
Proof.
  intros (Hid & R1 & R2 & R3) Hf Hl Hc. unfold timer_of_event_flow_removed. rewrite (bind_val _ _ _ R1). cbv beta zeta.
  rewrite (flow_id_of _ id) by (done || lia). replace ((id <? 0) || (id >=? tm_flows m)) with false by lia.
  rewrite (bind_val _ _ _ R2), (bind_val _ _ _ R3). cbv beta.
  rewrite (bind_val _ _ _ (arr_write_ok (tm_delay m) id (duration sec nsec) ltac:(lia))). cbv beta.
  rewrite (bind_val (chk_int _) _ (tm_count m + 1)); [done|].
  apply chk_int_ok. unfold is_int, INT_MIN, INT_MAX in *. lia.
Qed.

Lemma removed_step es m s at_ ofph id sec nsec :
  let e := EvRemoved at_ ofph id sec nsec in
  Forall event_ok (es ++ [e]) → NoDup (removed (es ++ [e])) → tm_state s0 es m s →
  ∃ m' s', handle e (m, s) = Ok (m', s') ∧ tm_state s0 (es ++ [e]) m' s'.
Proof.
  intros e Hes Hnd [Hf (L1 & L2 & L3) H1 H2 H3 Hc Hx Hl Ht].
  pose proof (removed_bound _ Hes Hnd) as Hb. unfold removed in Hb. rewrite omap_snoc in Hb. cbn in Hb.
  rewrite zlen_app in Hb. unfold zlen at 2 in Hb. cbn in Hb. fold (removed es) in Hb.
  apply Forall_app in Hes as [_ (Hid & R1 & R2 & R3)%Forall_singleton].
  pose proof (zlen_nonneg (removed es)).
  rewrite Ht by lia. clear s Hx Hl Ht. unfold handle, e.
  rewrite (timer_removed_ok m s0 at_ ofph id sec nsec) by (done || (unfold INT_MAX in *; lia)).
  assert (∀ s', ctx s' = ctx s0 → logger s' = logger s0 → (tm_count m + 1 < n → s' = s0) →
    tm_state s0 (es ++ [e]) (m <| tm_delay := zset (tm_delay m) id (Some (duration sec nsec)) |>
                              <| tm_count := tm_count m + 1 |>) s') as Hst.
  { intros s' E1 E2 E3. split; cbn; try done.
    - by rewrite zlen_zset.
    - intros j Hj. rewrite first_of_snoc. by apply H1.
    - intros j Hj. rewrite last_of_snoc. by apply H2.
    - intros j Hj. rewrite life_snoc. cbn. destruct (Z.eqb_spec id j) as [<-|Hne].
      + by rewrite zget_zset_eq by lia.
      + rewrite zget_zset_ne by done. by apply H3.
    - unfold removed. rewrite omap_snoc, zlen_app. cbn. fold (removed es). rewrite Hc. done. }
  destruct (Z.geb_spec (tm_count m + 1) (tm_flows m)).
  - destruct (ready_schedule 1 (add_time at_ 5 0) BYESTR s0) as (s' & Hs & _ & E1 & E2); [done..|]. rewrite (bind_val _ _ _ Hs).
    do 2 eexists. split; [reflexivity|]. apply Hst; [done..|]. lia.
  - do 2 eexists. split; [reflexivity|]. by apply Hst.
Qed.
Lemma handle_all_state es m :
  Forall event_ok es → NoDup (removed es) → tm_fresh m →
  ∃ m' s', handle_all es (m, s0) = Ok (m', s') ∧ tm_state s0 es m' s'.
Proof.
  intros Hes Hnd Hm. induction es as [|e es IH] using rev_ind.
  { do 2 eexists. split; [reflexivity|]. by apply tm_state_start; [lia|]. }
  destruct IH as (m1 & s1 & H1 & Hst).
  { by apply Forall_app in Hes as [? _]. }
  { unfold removed in Hnd. rewrite omap_snoc in Hnd. by apply NoDup_app in Hnd as [? _]. }
  rewrite handle_all_snoc, (bind_val _ _ _ H1). destruct e as [hdr f|at_ ofph id sec nsec].
  - apply Forall_app in Hes as [Hes [He _]%Forall_cons].
    destruct (probe_step es m1 s1 hdr f Hes He Hst) as (m' & ? & ?). by exists m', s1.
  - by apply removed_step.
Qed.

(** ** The report *)

Section report.
Context (fmt_f : spec_float → cstring).

(** The line about a flow: none if it was never seen. *)
Definition life_line es (i : Z) : list cstring :=
  match times i es, life i es with
  | _ :: _, Some x =>
    [generic_line (last_of i es) (timer_line inet_addr fmt_f i (first_of i es) (last_of i es) x)]
  | _, _ => []
  end.

(** A flow that was seen was removed in the end. *)
Definition all_removed es : Prop := ∀ i, 0 ≤ i < n → times i es ≠ [] → life i es ≠ None.

Lemma timer_lines_ok es m k i s s1 ls :
  Forall event_ok es → all_removed es → tm_state s0 es m s1 → 0 ≤ i → i + Z.of_nat k ≤ n → logger s = Some ls →
  timer_lines inet_addr fmt_f k i m s =
  Ok (s <| logger := Some (ls ++ mjoin (life_line es <$> seqZ i (Z.of_nat k))) |>).
Proof.
  intros Hes Hall Hst. revert i s ls. induction k as [|k IH]; intros i s ls Hi Hk Hl.
  - cbn. rewrite app_nil_r. destruct s; cbn in *. by subst.
  - rewrite seqZ_cons by lia. cbn [timer_lines fmap list_fmap mjoin list_join]. replace (Z.pred _) with (Z.of_nat k) by lia.
    unfold time_at. rewrite (ts_first _ _ _ _ Hst i), (ts_last _ _ _ _ Hst i) by lia.
    rewrite (bind_val (mret (first_of i es)) _ _ eq_refl). cbv beta.
    destruct (first_of_sec i es Hes) as [_ ->]. unfold life_line at 1. specialize (Hall i ltac:(lia)).
    destruct (times i es) as [|t l] eqn:Et; cbn [bool_decide].
    + rewrite bool_decide_false by auto. rewrite (bind_val (mret s) _ _ eq_refl). cbv beta. rewrite IH with (ls := ls) by (done || lia).
      by rewrite Z.add_1_r.
    + rewrite bool_decide_true by done. destruct (life i es) as [x|] eqn:Ex; [|by destruct Hall].
      rewrite (bind_val (mret (last_of i es)) _ _ eq_refl). cbv beta.
      rewrite (bind_val (arr_read _ _) _ x) by (apply arr_read_Ok; by rewrite (ts_delay _ _ _ _ Hst), Ex by lia).
      cbv beta. rewrite (bind_val _ _ _ (log_generic _ _ _ _ Hl)). cbv beta.
      rewrite (IH (i + 1) _ _) by (done || lia). by rewrite <-app_assoc, Z.add_1_r.
Qed.

Lemma events_reported m es ls :
  tm_fresh m → logger s0 = Some ls → Forall event_ok es → NoDup (removed es) → all_removed es →
  ∃ m' s1 s', handle_all es (m, s0) = Ok (m', s1) ∧ timer_destroy inet_addr fmt_f m' s1 = Ok s'
    ∧ logger s' = Some (ls ++ mjoin (life_line es <$> seqZ 0 n)).
Proof.
  intros Hm Hl Hes Hnd Hall. destruct (handle_all_state es m Hes Hnd Hm) as (m' & s1 & H1 & Hst).
  exists m', s1. unfold timer_destroy. rewrite (ts_flows _ _ _ _ Hst).
  rewrite (timer_lines_ok es m' _ 0 s1 s1 ls) by (done || lia || by rewrite (ts_logger _ _ _ _ Hst)).
  rewrite Z2Nat.id by lia. by eexists.
Qed.
End report.
End spec.

(** ** From start to the report *)

Lemma timer_start_result {OF : OpenFlow} sock hwaddr clock m0 sa m s0 :
  timer_start sock hwaddr clock m0 sa = Ok (m, s0) → tm_count m0 = 0 → timers_ready 4 sa →
  tm_fresh (tm_flows m0) m ∧ ctx s0 = ctx sa ∧ timers_ready 1 s0.
Proof.
  intros H Hc Hr. unfold timer_start in H. apply bind_Ok in H as (mac & _ & H). cbv zeta in H.
  apply bind_Ok in H as (s1 & H1%log_same_run & H). apply bind_Ok in H as (s2 & H2%log_text_same_run & H).
  apply bind_Ok in H as ([b1 ?] & _ & H). apply bind_Ok in H as ([? s3] & H3%send_same_run & H).
  apply bind_Ok in H as ([b2 ?] & _ & H). apply bind_Ok in H as ([? s4] & H4%send_mesg_same_run & H).
  apply bind_Ok in H as (x & _ & H). apply bind_Ok in H as (b3 & _ & H).
  apply bind_Ok in H as ([? s5] & H5%send_mesg_same_run & H).
  assert (same_run sa s5) as Hs by eauto using same_run_trans.
  pose proof (same_run_ready _ _ _ Hs Hr) as Hr5.
  destruct (ready_schedule 4 (add_time (clock 1%nat) 1 0) SND_FLOW s5) as (s6 & E6 & Hr6 & C6 & _); [lia|done|].
  rewrite (bind_val _ _ _ E6) in H.
  destruct (ready_schedule 3 (add_time (clock 2%nat) 1 0) SNMPGET s6) as (s7 & E7 & Hr7 & C7 & _); [lia|done|].
  rewrite (bind_val _ _ _ E7) in H.
  destruct (ready_schedule 2 (add_time (clock 3%nat) 60 0) BYESTR s7) as (s8 & E8 & Hr8 & C8 & _); [lia|done|].
  rewrite (bind_val _ _ _ E8) in H. injection H as <- <-.
  split; [by split_and!|]. split; [|done]. destruct Hs as [Hs _]. congruence.
Qed.

(** C9. The timer module from its start to the log.  Whatever probes come back and
    whatever flows the switch reports as removed after start, in any order, each
    flow removed at most once and every flow that was seen removed in the end,
    destroy logs one line for every flow that was seen, in the order of their
    addresses: the times of its first and its last packet, the time between them,
    and the life the switch announced for it. *)
Theorem timer_lives_reported {OF : OpenFlow} inet_addr nf_extract fmt_f d sock hwaddr clock m0 sa m s0 es ls :
  timer_start sock hwaddr clock m0 sa = Ok (m, s0) → tm_count m0 = 0 → timers_ready 4 sa → logger s0 = Some ls →
  0 < tm_flows m0 ≤ INT_MAX → net_base inet_addr + tm_flows m0 ≤ 2^32 → probe_ok inet_addr d (ctx sa) OFLOPS_DATA1 →
  Forall (event_ok inet_addr d (tm_flows m0)) es → NoDup (removed es) → all_removed inet_addr (tm_flows m0) es →
  ∃ m' s1 s', handle_all inet_addr nf_extract es (m, s0) = Ok (m', s1) ∧ timer_destroy inet_addr fmt_f m' s1 = Ok s'
    ∧ logger s' = Some (ls ++ mjoin (life_line inet_addr fmt_f es <$> seqZ 0 (tm_flows m0))).
Proof.
  intros Hstart Hc Hr Hl Hn Hb Hp Hes Hnd Hall.
  destruct (timer_start_result _ _ _ _ _ _ _ Hstart Hc Hr) as (Hm & Ec & Hr1). rewrite <-Ec in Hp.
  by apply (events_reported inet_addr nf_extract d).
Qed.

(** ** The flows that are installed *)

Section install.
Context {OF : OpenFlow} {L : OFLayout OF} (inet_addr : cstring → Z).

(** A flow modification with a hard timeout of ten seconds. *)
Definition timed_msg (fl : flow) : list Z :=
  [u8 OFP_VERSION; u8 OFPT_FLOW_MOD] ++ be16 80 ++ [0; 0; 0; 0] ++
  be32 (f_mask fl) ++ le16 (f_in_port fl) ++ f_dl_src fl ++ f_dl_dst fl ++
  le16 (f_dl_vlan fl) ++ [0; 0] ++ le16 (f_dl_type fl) ++ [0; u8 (f_nw_proto fl); 0; 0] ++
  le32 (f_nw_src fl) ++ le32 (f_nw_dst fl) ++ le16 (f_tp_src fl) ++ le16 (f_tp_dst fl) ++
  [0; 0; 0; 0; 0; 0; 0; 0] ++ be16 OFPFC_ADD ++ le16 OFP_FLOW_PERMANENT ++ be16 10 ++
  be16 10 ++ [255; 255; 255; 255] ++ be16 0 ++ be16 OFPFF_SEND_FLOW_REM ++ output_action OFPP_IN_PORT.

Lemma timed_flow_spec fl : flow_ok fl → timed_flow fl = Ok (cells (timed_msg fl), 80).
Proof. unfold timed_flow, make_ofp_flow_add, make_flow_mod, put_output. built fl. Qed.

Lemma timed_msg_for fl : flow_ok fl → flow_mod_for (timed_msg fl) 80 fl ∧ be16_at (timed_msg fl) 60 = 10.
Proof.
  intros Hok. pose proof (fo_src _ Hok) as Hs. pose proof (fo_dst _ Hok) as Hd.
  assert (read_flow (timed_msg fl) = fl) as Hr.
  { apply read_flow_eq; [done| |by destruct fl as [? ? [] []]].
    destruct fl as [mask port src dst vlan ty nsrc ndst pr ts td]. cbn in Hs, Hd. six src Hs. six dst Hd. done. }
  unfold flow_mod_for, of_message. rewrite Hr.
  destruct fl as [mask port src dst vlan ty nsrc ndst pr ts td]. cbn in Hs, Hd. six src Hs. six dst Hd.
  split_and!; done.
Qed.

Lemma addr_plus_plus a i j : addr_plus (addr_plus a i) j = addr_plus a (i + j).
Proof. unfold addr_plus at 1 3. rewrite bswap32_plus. unfold u32. rewrite Zplus_mod_idemp_l. do 2 f_equal. lia. Qed.

(** Every flow of the network is announced to the switch, once and in order: the
    message about flow [i] installs a match for the address whose packets and
    removal are filed under [i], with a hard timeout of ten seconds. *)
Theorem timer_installs_flows snmp_open snmp_pdu_create snmp_send clock te m mac x s :
  te_arg te = SND_FLOW → get_channel (ctx s) OFLOPS_DATA1 = Ok x → rd_bytes (tm_mac m) 0 6 = Ok mac →
  (∀ t, 0 ≤ inet_addr t < 2^32) → fluid_control (ctx s) ≠ 0 → 0 < tm_flows m ≤ INT_MAX →
  (∀ i, flow_ok (probe_flow inet_addr m mac (of_port x) (addr_plus (inet_addr network) i))) →
  ∃ s' msgs, timer_handle_timer_event inet_addr snmp_open snmp_pdu_create snmp_send clock te m s = Ok s'
    ∧ control_out s' = control_out s ++ msgs ∧ zlen msgs = tm_flows m
    ∧ ∀ i bs, zget msgs i = Some bs →
        let fl := probe_flow inet_addr m mac (of_port x) (addr_plus (inet_addr network) i) in
        flow_mod_for bs 80 fl ∧ be16_at bs 60 = 10 ∧ flow_id (inet_addr network) (f_nw_dst fl) = i.
Proof.
  intros Hte Hx Hmac Hin Hctl Hn Hok. unfold timer_handle_timer_event. rewrite Hte. cbn [Z.eqb Pos.eqb].
  rewrite (bind_val _ _ _ Hx), (bind_val _ _ _ Hmac). cbv beta.
  set (P := probe_flow inet_addr m mac (of_port x)) in *. set (a := inet_addr network) in *.
  assert (∀ k i s, fluid_control (ctx s) ≠ 0 → send_flows inet_addr k m mac (of_port x) (addr_plus a i) s =
    Ok (s <| control_out := control_out s ++ ((λ j, timed_msg (P (addr_plus a j))) <$> seqZ i (Z.of_nat k)) |>)) as Hrun.
  { clear s Hx Hctl. induction k as [|k IH]; intros i s Hctl.
    - cbn. rewrite app_nil_r. by destruct s.
    - rewrite seqZ_cons by lia. cbn [send_flows fmap list_fmap]. fold (P (addr_plus a i)).
      rewrite (bind_val _ _ _ (timed_flow_spec _ (Hok i))). cbv beta iota.
      destruct (timed_msg_for _ (Hok i)) as [(Hz & _) _].
      pose proof (send_of_bytes (timed_msg (P (addr_plus a i))) s Hctl) as Hsend. rewrite Hz in Hsend.
      rewrite (bind_val _ _ _ (Hsend eq_refl)). cbv beta iota. rewrite addr_plus_plus, IH by done.
      cbn. rewrite <-app_assoc. replace (Z.pred (Z.of_nat (S k))) with (Z.of_nat k) by lia. by rewrite Z.add_1_r. }
  assert (a = addr_plus a 0) as Ea.
  { unfold addr_plus. rewrite Z.add_0_r, u32_id by apply bswap32_range. by rewrite bswap32_invol by apply Hin. }
  rewrite Ea, Hrun by done. rewrite Z2Nat.id by lia. do 2 eexists. split; [reflexivity|]. split; [done|].
  split; [unfold zlen; rewrite length_fmap, length_seqZ; lia|].
  intros i bs Hi. pose proof (zget_Some_bounds _ _ _ Hi) as Hb. unfold zlen in Hb. rewrite length_fmap, length_seqZ in Hb.
  rewrite zget_nonneg in Hi by lia. apply list_lookup_fmap_Some in Hi as (j & -> & Hj).
  apply lookup_seqZ in Hj as [-> _]. rewrite Z.add_0_l, Z2Nat.id by lia. rewrite <-Ea.
  destruct (timed_msg_for _ (Hok i)) as [H1 H2]. split_and!; [done..|].
  apply flow_id_plus. unfold INT_MAX in *. lia.
Qed.
End install.

(** ** A run *)

Definition demo_mac (_ : cstring) : option (list Z) := Some [0; 4; 35; 180; 116; 149].
Definition demo_clock (k : nat) : timeval := {| tv_sec := 100; tv_usec := Z.of_nat k |}.
Definition demo_flows : tmod := tmod0 <| tm_flows := 3 |> <| tm_cli_param := Some (str "flows=3") |>.
Definition demo_started : tmod * harness :=
  Eval vm_compute in match timer_start (OF := of10) 3 demo_mac demo_clock demo_flows probe_harness with
                     | Ok r => r | Fault _ => (demo_flows, probe_harness) end.

Definition demo_removed (i sec nsec : Z) : tm_event :=
  EvRemoved {| tv_sec := 130; tv_usec := 0 |}
    (cells (replicate 40 0 ++ be32 (0xc0a80200 + i) ++ replicate 16 0 ++ be32 sec ++ be32 nsec ++ replicate 20 0))
    i sec nsec.
Definition demo_probe (i sec : Z) : tm_event :=
  EvProbe {| ts := {| tv_sec := sec; tv_usec := 7 |}; caplen := 100; pkt_len := 100 |} (probe_frame i).
Definition demo_events : list tm_event :=
  [demo_probe 2 101; demo_probe 0 102; demo_probe 2 103; demo_removed 2 10 4000; demo_probe 0 112; demo_removed 0 10 0].

Lemma timer_lives_reported_witness : ∃ m' s1 s',
  handle_all (OF := of10) probe_inet (λ _ _ _, None) demo_events demo_started = Ok (m', s1)
  ∧ timer_destroy probe_inet (λ _, str "10000000") m' s1 = Ok s'
  ∧ drop 2 (default [] (logger s')) =
    [str "112.000007:GENERIC_MSG:flow_timeout:192.168.2.0:102.000007:112.000007:10000000:10000000";
     str "103.000007:GENERIC_MSG:flow_timeout:192.168.2.2:101.000007:103.000007:2000000:10000000"].
Proof.
  destruct (timer_lives_reported (OF := of10) probe_inet (λ _ _ _, None) (λ _, str "10000000") probe_demo 3 demo_mac
    demo_clock demo_flows probe_harness demo_started.1 demo_started.2 demo_events
    (default [] (logger demo_started.2))) as (m' & s1 & s' & H1 & H2 & H3).
  - vm_compute. reflexivity.
  - reflexivity.
  - exact probe_harness_ready.
  - reflexivity.
  - vm_compute. split; congruence.
  - vm_compute. congruence.
  - exact probe_harness_ok.
  - repeat constructor; vm_compute; congruence.
  - apply (bool_decide_unpack _). vm_compute. exact I.
  - intros i Hi Hs. assert (i = 0 ∨ i = 1 ∨ i = 2) as [->|[->| ->]] by (cbn in Hi; lia); vm_compute in Hs |- *; congruence.
  - exists m', s1, s'. split; [exact H1|]. split; [exact H2|]. rewrite H3. vm_compute. reflexivity.
Defined.
