(* ===== verification/ReactiveSpec.v ===== *)
(** * What the reactive module installs and measures

    The flow a packet of the switch is answered with is the one the packet belongs
    to, and the times of its first packet are kept; the packets that come back
    are counted once per flow. *)

From S2P Require Import Prelude CTime CBytes CStr OpenFlow OfFrame WcEvent PcapTrack Msg MsgSpec Context Harness.
From S2P Require Import TrafficGen TrafficKernel TrafficSpec TestModule ProbeSpec ModuleRunSpec ReactiveModule.
Open Scope Z_scope.

(** ** Messages *)

Section messages.
Context {OF : OpenFlow} {L : OFLayout OF}.

(** A packet that the switch hands to the controller, complete. *)
Definition packet_in_head (xid buffer_id len in_port : Z) : list Z :=
  [u8 OFP_VERSION; u8 OFPT_PACKET_IN] ++ be16 (18 + len) ++ be32 xid ++ be32 buffer_id ++ be16 len ++ be16 in_port ++
  [OFPR_NO_MATCH; 0].
Definition packet_in_msg (xid buffer_id in_port : Z) (data : list Z) : list Z :=
  packet_in_head xid buffer_id (zlen data) in_port ++ data.

(** An exact match, as a switch computes it from the bytes of an untagged packet. *)
Definition match_of_packet (in_port : Z) (bs : list Z) : flow :=
  {| f_mask := 0; f_in_port := bswap16 in_port; f_dl_src := take 6 (drop 6 bs); f_dl_dst := take 6 bs;
     f_dl_vlan := 0xFFFF; f_dl_type := le16_at bs 12; f_nw_src := le32_at bs 26; f_nw_dst := le32_at bs 30;
     f_nw_proto := byte_at bs 23; f_tp_src := le16_at bs 34; f_tp_dst := le16_at bs 36 |}.

(** The answer: the flow is added, the buffered packet is released along it. *)
Definition answer_msg (fl : flow) (buffer : list Z) : list Z :=
  [u8 OFP_VERSION; u8 OFPT_FLOW_MOD] ++ be16 80 ++ [0; 0; 0; 0] ++
  be32 (f_mask fl) ++ le16 (f_in_port fl) ++ f_dl_src fl ++ f_dl_dst fl ++
  le16 (f_dl_vlan fl) ++ [0; 0] ++ le16 (f_dl_type fl) ++ [0; u8 (f_nw_proto fl); 0; 0] ++
  le32 (f_nw_src fl) ++ le32 (f_nw_dst fl) ++ le16 (f_tp_src fl) ++ le16 (f_tp_dst fl) ++
  [0; 0; 0; 0; 0; 0; 0; 0] ++ be16 OFPFC_ADD ++ be16 120 ++ be16 OFP_FLOW_PERMANENT ++
  be16 1000 ++ buffer ++ be16 0 ++ be16 OFPFF_SEND_FLOW_REM ++ output_action OFPP_IN_PORT.

Lemma answer_spec fl a b c e : flow_ok fl →
  ('(m, _) ← make_ofp_flow_add fl OFPP_IN_PORT 1 120; wr_bytes m ofp_flow_mod_buffer_id [a; b; c; e])
  = Ok (cells (answer_msg fl [a; b; c; e])).
Proof. unfold make_ofp_flow_add, make_flow_mod, put_output. built fl. Qed.

Lemma answer_for fl a b c e : flow_ok fl → is_u16 OFPP_IN_PORT →
  let bs := answer_msg fl [a; b; c; e] in
  flow_mod_for bs 80 fl ∧ take 4 (drop 64 bs) = [a; b; c; e] ∧ be16_at bs 76 = OFPP_IN_PORT.
Proof.
  intros Hok Hport bs. pose proof (fo_src _ Hok) as Hs. pose proof (fo_dst _ Hok) as Hd.
  assert (read_flow bs = fl) as Hr.
  { apply read_flow_eq; [done| |by destruct fl as [? ? [] []]].
    destruct fl as [mask port src dst vlan ty nsrc ndst pr ts td]. cbn in Hs, Hd. six src Hs. six dst Hd. done. }
  unfold flow_mod_for, of_message. rewrite Hr. subst bs.
  destruct fl as [mask port src dst vlan ty nsrc ndst pr ts td]. cbn in Hs, Hd. six src Hs. six dst Hd.
  split_and!; try done. unfold be16_at, byte_at. cbn. by apply be16_digits.
Qed.
End messages.

(** ** Packets and their match *)

(** The match computed from the frame is the flow that extract_pktgen_pkt finds,
    in network order. *)
Lemma match_of_frame inet_addr d f port :
  det_ok inet_addr d → tagged d = false → fr_eth f = eth_of d →
  match_of_packet port (frame_bytes f) = install_flow (flow_of d f) (bswap16 port).
Proof.
  intros Hd Ht He. pose proof (dok_dst _ _ Hd) as H1. pose proof (dok_src _ _ Hd) as H2.
  unfold match_of_packet, install_flow, flow_of, frame_bytes. rewrite He, Ht. unfold eth_of. rewrite Ht.
  generalize (mac_of (mac_dst d)), (mac_of (mac_src d)), H1, H2. clear. intros dst src H1 H2. six dst H1. six src H2.
  assert (∀ v, u8 (u16 v) = u8 v ∧ u8 (u16 v `div` 256) = u8 (v `div` 256)) as Hu.
  { intros v. unfold u8, u16. Z.to_euclidean_division_equations. lia. }
  assert (∀ v, bswap16 (u16 v) = u8 (v `div` 256) + 256 * u8 v) as Hb16.
  { intros v. unfold bswap16, le16, be16. cbn. destruct (Hu v) as [-> ->]. lia. }
  cbn [f_mask f_dl_src f_dl_dst f_dl_vlan f_dl_type f_nw_src f_nw_dst f_nw_proto f_tp_src f_tp_dst].
  rewrite !Hb16. unfold le32_at, le16_at, byte_at, bswap32, ip_header, transport, be32, be16, le32. cbn.
  f_equal; unfold le16_at, byte_at; cbn; first [done|lia].
Qed.

Lemma install_flow_ok inet_addr d f port :
  det_ok inet_addr d → flow_ok (install_flow (flow_of d f) (bswap16 port)).
Proof.
  intros Hd. pose proof (dok_dst _ _ Hd). pose proof (dok_src _ _ Hd). split; cbn; try done; try apply bswap16_range;
    try apply bswap32_range. unfold is_u16. destruct (tagged d); [|lia]. Z.to_euclidean_division_equations. lia.
Qed.

Section reads.
Context {OF : OpenFlow} {L : OFLayout OF}.

Lemma packet_in_reads xid buffer port data :
  0 ≤ port < 2^16 → zlen data < 2^16 →
  let p := cells (packet_in_msg xid buffer port data) in
  rd8 p ofp_packet_in_reason = Ok OFPR_NO_MATCH ∧ rd16be p ofp_packet_in_in_port = Ok port
  ∧ rd16be p ofp_packet_in_total_len = Ok (zlen data) ∧ rd_bytes p ofp_packet_in_buffer_id 4 = Ok (be32 buffer)
  ∧ drop (Z.to_nat ofp_packet_in_data) p = cells data.
Proof.
  intros Hp Hz p. unfold p, packet_in_msg, cells. rewrite fmap_app. fold (cells data).
  pose proof (zlen_nonneg data). set (h := Some <$> packet_in_head _ _ _ _). of_layout. split_and!.
  - done.
  - unfold rd16be. erewrite rd_bytes_app by reflexivity. rewrite (bind_val (Ok _) _ _ eq_refl). cbv beta.
    change (un_be16 _) with (un_be16 (be16 port)). by rewrite un_be16_be16.
  - unfold rd16be. erewrite rd_bytes_app by reflexivity. rewrite (bind_val (Ok _) _ _ eq_refl). cbv beta.
    change (un_be16 _) with (un_be16 (be16 (zlen data))). by rewrite un_be16_be16 by lia.
  - by apply rd_bytes_app.
  - done.
Qed.

Lemma send_answer fl buffer s : flow_ok fl → is_u16 OFPP_IN_PORT → fluid_control (ctx s) ≠ 0 →
  let bs := answer_msg fl (be32 buffer) in
  ('(b, _) ← make_ofp_flow_add fl OFPP_IN_PORT 1 120; b ← wr_bytes b ofp_flow_mod_buffer_id (be32 buffer); oflops_send_of_mesg b s)
  = Ok (80, s <| control_out := control_out s ++ [bs] |>).
Proof.
  intros Hok Hport Hc bs. pose proof (answer_spec fl (u8 (buffer `div` 65536 `div` 256)) (u8 (buffer `div` 65536))
    (u8 (buffer `div` 256)) (u8 buffer) Hok) as H.
  change [_; _; _; _] with (be32 buffer) in H. apply bind_Ok in H as ([b len] & H1 & H2).
  rewrite (bind_val _ _ _ H1). cbv beta iota. rewrite (bind_val _ _ _ H2). fold bs.
  destruct (answer_for fl (u8 (buffer `div` 65536 `div` 256)) (u8 (buffer `div` 65536))
    (u8 (buffer `div` 256)) (u8 buffer) Hok Hport) as [(Hz & _) _].
  change [_; _; _; _] with (be32 buffer) in Hz. fold bs in Hz.
  unfold oflops_send_of_mesg. rewrite (bind_val _ _ 80).
  - rewrite <-Hz. apply send_of_bytes; [done|lia].
  - subst bs. pose proof (fo_src _ Hok) as Hs. pose proof (fo_dst _ Hok) as Hd.
    destruct fl as [mask port src dst vlan ty nsrc ndst pr ts td]. cbn in Hs, Hd. six src Hs. six dst Hd. of_layout. reflexivity.
Qed.
End reads.

(** ** Packets handed to the controller *)

Section packet_in.
Context {OF : OpenFlow} {L : OFLayout OF} (inet_addr : cstring → Z) (nf_extract : Z → mem → Z → option pktgen_hdr).

(** The first time an entry gets. *)
Definition first_time (o t : timeval) : timeval := if tv_sec o =? 0 then t else o.

Lemma time_first_at l i t o : zget l i = Some o →
  ∃ l', time_first l i t = Ok l' ∧ zget l' i = Some (first_time o t) ∧ ∀ j, j ≠ i → zget l' j = zget l j.
Proof.
  intros Ho. pose proof (zget_Some_bounds _ _ _ Ho). rewrite (time_first_ok _ _ _ _ Ho). eexists. split; [done|].
  unfold first_time. destruct (tv_sec o =? 0); [|done]. split; [by apply zget_zset_eq|]. intros j Hj. by apply zget_zset_ne.
Qed.

(** C16. The reactive controller: an untagged packet of the generator that matched no
    flow of the switch, came from an OpenFlow port whose number is that of a pcap
    channel of the program, and belongs to one of the measured flows is answered
    with exactly one message, which installs the exact match of that packet - as computed from its
    bytes - on the port it came from, names the buffer of the packet and sends it
    back out; the time stamp in the packet and the time of its arrival are kept
    for the first packet of the flow, and the entries of other flows stay. *)
Theorem reactive_answers d f i port xid buffer clock nf_clock m s a b :
  probe_ok inet_addr d (ctx s) port → tagged d = false → fr_eth f = eth_of d → port < 2^16 →
  zlen (frame_bytes f) < 2^16 → fr_dst f = bswap32 (inet_addr network) + i → 0 ≤ fr_dst f < 2^32 → 0 ≤ i < 2^31 →
  zget (rm_send m) i = Some a → zget (rm_controller m) i = Some b → fluid_control (ctx s) ≠ 0 → is_u16 OFPP_IN_PORT →
  ∃ bs m' s', reactive_of_event_packet_in inet_addr nf_extract clock nf_clock
                (cells (packet_in_msg xid buffer port (frame_bytes f))) m s = Ok (m', s')
    ∧ control_out s' = control_out s ++ [bs] ∧ flow_mod_for bs 80 (match_of_packet port (frame_bytes f))
    ∧ take 4 (drop 64 bs) = be32 buffer ∧ be16_at bs 76 = OFPP_IN_PORT
    ∧ zget (rm_send m') i = Some (first_time a {| tv_sec := u32 (fr_sec f); tv_usec := u32 (fr_usec f) |})
    ∧ zget (rm_controller m') i = Some (first_time b (oflops_gettimeofday (ctx s) nf_clock clock))
    ∧ ∀ j, j ≠ i → zget (rm_send m') j = zget (rm_send m) j ∧ zget (rm_controller m') j = zget (rm_controller m) j.
Proof.
  intros Hp Ht He Hport Hz Hdst Hr Hi Ha Hb Hctl Hin. pose proof Hp as (Hd & _ & Hpn & _).
  destruct (packet_in_reads xid buffer port (frame_bytes f)) as (R1 & R2 & R3 & R4 & R5); [lia|done|].
  unfold reactive_of_event_packet_in. rewrite (bind_val _ _ _ R1). cbv beta. rewrite Z.eqb_refl.
  unfold reactive_no_match. rewrite (bind_val _ _ _ R2), (bind_val _ _ _ R3). cbv beta. rewrite R5.
  rewrite (bind_val _ _ _ (extract_probe inet_addr nf_extract d (ctx s) port f Hp He)).
  cbv beta iota zeta. change (f_nw_dst (flow_of d f)) with (bswap32 (fr_dst f)).
  rewrite (flow_id_dst _ _ i) by (done || lia).
  destruct (time_first_at _ _ {| tv_sec := u32 (fr_sec f); tv_usec := u32 (fr_usec f) |} _ Ha) as (l1 & E1 & G1 & F1).
  destruct (time_first_at _ _ (oflops_gettimeofday (ctx s) nf_clock clock) _ Hb) as (l2 & E2 & G2 & F2).
  cbn [pg_tv_sec pg_tv_usec header_of]. rewrite (bind_val _ _ _ E1), (bind_val _ _ _ E2). cbv beta.
  pose proof (install_flow_ok inet_addr d f port Hd) as Hok. set (fl := install_flow _ _) in *.
  pose proof (send_answer fl buffer s Hok Hin Hctl) as Hs. cbv zeta in Hs.
  apply bind_Ok in Hs as ([b1 len] & S1 & Hs). apply bind_Ok in Hs as (b2 & S2 & S3).
  rewrite (bind_val _ _ _ S1). cbv beta iota. rewrite (bind_val _ _ _ R4), (bind_val _ _ _ S2), (bind_val _ _ _ S3).
  destruct (answer_for fl (u8 (buffer `div` 65536 `div` 256)) (u8 (buffer `div` 65536))
    (u8 (buffer `div` 256)) (u8 buffer) Hok Hin) as (A1 & A2 & A3).
  change [_; _; _; _] with (be32 buffer) in A1, A2, A3.
  do 3 eexists. split; [reflexivity|]. rewrite (match_of_frame inet_addr d f port) by done.
  split_and!; [reflexivity|done..|]. intros j Hj. split; [by apply F1|by apply F2].
Qed.

(** The packet of the last flow that was still missing ends the test, and then logs
    an array that was never written. *)
Theorem reactive_last_flow_undefined d f i hdr clock m s ls :
  probe_ok inet_addr d (ctx s) OFLOPS_DATA1 → fr_eth f = eth_of d → caplen hdr = zlen (frame_bytes f) →
  caplen hdr < 2^31 → fr_dst f = bswap32 (inet_addr network) + i → 0 ≤ fr_dst f < 2^32 → 0 ≤ i < rm_flows m →
  rm_flows m ≤ INT_MAX → zget (rm_received m) i = Some 0 → i < zlen (rm_back m) →
  rm_received_count m + 1 = rm_flows m → timers_ready 1 s → logger s = Some ls →
  reactive_handle_pcap_event inet_addr nf_extract clock hdr (cells (frame_bytes f)) OFLOPS_DATA1 m s = Fault FUninit.
Proof.
  intros Hp He Hcap Hc Hdst Hr Hi Hn H0 Hb Hcount Ht Hl. unfold reactive_handle_pcap_event. rewrite Z.eqb_refl.
  assert (i32 (caplen hdr) = zlen (frame_bytes f)) as ->.
  { rewrite <-Hcap. pose proof (zlen_nonneg (frame_bytes f)). apply i32_id. unfold is_int, INT_MIN, INT_MAX. lia. }
  rewrite (bind_val _ _ _ (extract_probe inet_addr nf_extract d _ _ f Hp He)). cbv beta iota zeta.
  change (f_nw_dst (flow_of d f)) with (bswap32 (fr_dst f)).
  rewrite (flow_id_dst _ _ i) by (done || (unfold INT_MAX in *; lia)).
  replace ((i >=? 0) && (i <? rm_flows m)) with true by lia. rewrite H0. cbn [Z.eqb].
  unfold receive. rewrite (bind_val (chk_int _) _ (rm_flows m)).
  2: { rewrite Hcount. apply chk_int_ok. unfold is_int, INT_MIN, INT_MAX in *. lia. }
  rewrite (bind_val _ _ _ (time_put_ok (rm_back m) i (ts hdr) ltac:(lia))). cbv beta zeta.
  cbn [rm_received_count rm_flows]. rewrite Z.geb_leb, Z.leb_refl. unfold all_received.
  destruct (ready_schedule 1 (add_time clock 1 0) BYESTR s) as (s1 & Hs & _ & _ & Hl1); [lia|done|].
  rewrite (bind_val _ _ _ Hs). rewrite (bind_val _ _ _ (log_generic _ _ _ ls (eq_trans Hl1 Hl))). done.
Qed.
End packet_in.

(** ** A packet *)

Definition answered_det : traf_gen_det := probe_demo <| vlan := 0xffff |>.
Definition answered_frame : frame :=
  frame_of probe_inet answered_det <| fr_dst := 0xc0a80201 |> <| fr_sec := 1000 |> <| fr_usec := 17 |>.
Definition demo_reactive : rmod := reactive_arrays (rmod0 <| rm_flows := 2 |>).

Lemma reactive_answers_witness : ∃ bs m' s',
  reactive_of_event_packet_in (OF := of10) probe_inet (λ _ _ _, None) {| tv_sec := 1001; tv_usec := 3 |} tv0
    (cells (packet_in_msg (OF := of10) 5 77 1 (frame_bytes answered_frame))) demo_reactive probe_harness = Ok (m', s')
  ∧ control_out s' = [bs] ∧ read_flow bs = match_of_packet 1 (frame_bytes answered_frame)
  ∧ rm_send m' = [tv0; {| tv_sec := 1000; tv_usec := 17 |}].
Proof.
  destruct (reactive_answers (OF := of10) probe_inet (λ _ _ _, None) answered_det answered_frame 1 1 5 77
    {| tv_sec := 1001; tv_usec := 3 |} tv0 demo_reactive probe_harness tv0 tv0)
    as (bs & m' & s' & H1 & H2 & (_ & _ & _ & _ & H3) & _).
  - split_and!; [|done..|by eexists]. split; [reflexivity|reflexivity|vm_compute; split; congruence|apply probe_demo_ok].
  - reflexivity.
  - reflexivity.
  - lia.
  - vm_compute. reflexivity.
  - vm_compute. reflexivity.
  - vm_compute. split; congruence.
  - lia.
  - reflexivity.
  - reflexivity.
  - discriminate.
  - vm_compute. split; congruence.
  - exists bs, m', s'. split; [exact H1|]. split; [exact H2|]. split; [exact H3|].
    clear -H1. vm_compute in H1. injection H1 as <- _. reflexivity.
Defined.
