(* ===== verification/MeasureSpec.v ===== *)
(** * From captured probes to the line of statistics

    Every captured probe is counted for its channel, and the report of a module
    is made of the delays of exactly these probes. *)

From S2P Require Import Prelude CTime CBytes CStr OpenFlow WcEvent PcapTrack Msg Context Harness.
From S2P Require Import OfFrame TrafficGen TrafficKernel TrafficSpec Cbench TestModule MeasureModule ProbeSpec.
Open Scope Z_scope.

(** ** Arrays with an element for every data channel *)

Section per.
Context {A : Type}.
Implicit Types f : Z → A.

Definition per f : list A := [f 0; f 1; f 2].

Lemma per_ext f g : (∀ c, 0 ≤ c < 3 → f c = g c) → per f = per g.
Proof. intros E. unfold per. by rewrite !E by lia. Qed.

Lemma three (c : Z) : 0 ≤ c < 3 → c = 0 ∨ c = 1 ∨ c = 2.
Proof. lia. Qed.

Lemma zget_per f c : 0 ≤ c < 3 → zget (per f) c = Some (f c).
Proof. by intros [->|[->| ->]]%three. Qed.

Lemma zset_per f c x : 0 ≤ c < 3 → zset (per f) c x = per (λ i, if i =? c then x else f i).
Proof. by intros [->|[->| ->]]%three. Qed.
End per.

Lemma get3_per f c : 0 ≤ c < 3 → get3 (per f) c = Ok (f c).
Proof. intros Hc. unfold get3. by rewrite zget_per. Qed.

Lemma put3_per f c x : 0 ≤ c < 3 → put3 (per f) c x = Ok (per (λ i, if i =? c then x else f i)).
Proof. intros Hc. unfold put3. by rewrite zget_per, zset_per. Qed.

(** ** The probes of a channel *)

Definition of_channel (c : Z) (es : list entry) : list entry := filter (λ e, e_ch e - 1 = c) es.

Lemma of_channel_snoc c es e :
  of_channel c (es ++ [e]) = of_channel c es ++ (if c =? e_ch e - 1 then [e] else []).
Proof.
  unfold of_channel. rewrite filter_app. f_equal. rewrite filter_cons. destruct (Z.eqb_spec c (e_ch e - 1)) as [->|Hc].
  - by rewrite decide_True.
  - by rewrite decide_False by lia.
Qed.

Definition lowest (es : list entry) : Z := foldr Z.min INT_MAX (e_id <$> es).
Definition highest (es : list entry) : Z := foldr Z.max INT_MIN (e_id <$> es).

Lemma lowest_snoc es e : lowest (es ++ [e]) = if e_id e <? lowest es then e_id e else lowest es.
Proof.
  unfold lowest. rewrite fmap_app, foldr_app. cbn. set (x := e_id e). assert (∀ l y, foldr Z.min (Z.min x y) l = Z.min x (foldr Z.min y l)) as H.
  { intros l y. induction l as [|z l IH]; [done|]. cbn. rewrite IH. lia. }
  rewrite H. destruct (Z.ltb_spec x (foldr Z.min INT_MAX (e_id <$> es))); lia.
Qed.

Lemma highest_snoc es e : highest (es ++ [e]) = if e_id e >? highest es then e_id e else highest es.
Proof.
  unfold highest. rewrite fmap_app, foldr_app. cbn. set (x := e_id e). assert (∀ l y, foldr Z.max (Z.max x y) l = Z.max x (foldr Z.max y l)) as H.
  { intros l y. induction l as [|z l IH]; [done|]. cbn. rewrite IH. lia. }
  rewrite H, Z.gtb_ltb. destruct (Z.ltb_spec (foldr Z.max INT_MIN (e_id <$> es)) x); lia.
Qed.

(** ** Capturing *)

Definition on_data (e : entry) : Prop := 1 ≤ e_ch e ≤ 3.

(** The queue holds [es], and every channel is counted. *)
Definition counted (p : probes) (es : list entry) : Prop :=
  pr_head p = Some es ∧ pr_count p = per (λ c, zlen (of_channel c es)) ∧ Forall on_data es.

Lemma counted_init : counted (probes0 <| pr_head := Some [] |>) [].
Proof. by repeat split. Qed.

Lemma of_channel_le c es : zlen (of_channel c es) ≤ zlen es.
Proof. unfold zlen, of_channel. pose proof (length_filter (λ e, e_ch e - 1 = c) es). lia. Qed.

Lemma capture_counted e p es : counted p es → on_data e → zlen es < INT_MAX →
  ∃ p', capture e p = Ok p' ∧ counted p' (es ++ [e]).
Proof.
  intros (Hh & Hc & Hd) He Hn. unfold on_data in He. pose proof (of_channel_le (e_ch e - 1) es).
  pose proof (zlen_nonneg (of_channel (e_ch e - 1) es)).
  unfold capture, incr3. rewrite Hc, get3_per by lia. cbn [mbind res_bind].
  rewrite chk_int_ok by (unfold is_int, INT_MIN, INT_MAX in *; lia). cbn [mbind res_bind].
  rewrite put3_per by lia. cbn [mbind res_bind]. rewrite Hh. eexists. split; [reflexivity|]. split_and!; cbn.
  - done.
  - apply per_ext. intros c _. rewrite of_channel_snoc. destruct (Z.eqb_spec c (e_ch e - 1)) as [->|_]; rewrite zlen_app; unfold zlen; cbn; lia.
  - apply Forall_app_2; [done|]. constructor; [exact He|constructor].
Qed.

(** ** Reducing *)

Section stats.
Context {F D : Type} {Fl : Floating F} {Db : Floating D}.

Definition delays (es : list entry) : list D := (λ e, f_of_Z (time_diff (e_snd e) (e_rcv e))) <$> es.

(** The local variables after the probes [es] out of [all]. *)
Definition tally_of (all es : list entry) : tally_st D :=
  {| t_min := per (λ c, lowest (of_channel c es)); t_max := per (λ c, highest (of_channel c es));
     t_ix := per (λ c, zlen (of_channel c es));
     t_data := per (λ c, (Some <$> delays (of_channel c es)) ++
                         replicate (length (of_channel c all) - length (of_channel c es)) None) |}.

Lemma tally_of_nil all : tally0 (per (λ c, zlen (of_channel c all))) = tally_of all [].
Proof.
  unfold tally0, tally_of. f_equal. unfold per, arr_new. cbn. unfold zlen. rewrite !Nat2Z.id. by rewrite !Nat.sub_0_r.
Qed.

Lemma tally_one_of all es e r : all = es ++ e :: r → on_data e →
  tally_one e (tally_of all es) = Ok (tally_of all (es ++ [e])).
Proof.
  intros Hall He. unfold on_data in He. set (c0 := e_ch e - 1).
  assert (length (of_channel c0 es) < length (of_channel c0 all))%nat as Hlt.
  { rewrite Hall, cons_middle, app_assoc.
    unfold of_channel at 2. rewrite filter_app, length_app. fold (of_channel c0 (es ++ [e])). rewrite of_channel_snoc.
    fold c0. rewrite Z.eqb_refl, length_app. cbn. lia. }
  unfold tally_one. cbn [t_min t_max t_ix t_data tally_of]. fold c0.
  do 3 (rewrite get3_per by lia; cbn [mbind res_bind]; rewrite put3_per by lia; cbn [mbind res_bind]).
  rewrite zget_per by lia.
  rewrite arr_write_ok.
  2:{ unfold zlen. rewrite length_app, length_fmap, length_replicate. unfold delays. rewrite length_fmap. lia. }
  cbn [mbind res_bind]. rewrite zset_per by lia. unfold mret, res_ret, tally_of. f_equal. f_equal; apply per_ext; intros c _;
    rewrite of_channel_snoc; fold c0; destruct (Z.eqb_spec c c0) as [->|_]; rewrite ?app_nil_r; try done.
  - by rewrite lowest_snoc.
  - by rewrite highest_snoc.
  - rewrite zlen_app. done.
  - unfold delays. rewrite !fmap_app, length_app, zset_nonneg by (unfold zlen; lia). cbn [fmap list_fmap length].
    replace (length (of_channel c0 all) - length (of_channel c0 es))%nat
      with (S (length (of_channel c0 all) - (length (of_channel c0 es) + 1))) by lia. cbn [replicate].
    rewrite insert_app_r_alt by (unfold zlen; rewrite !length_fmap; lia). unfold zlen. rewrite Nat2Z.id, !length_fmap, Nat.sub_diag.
    cbn. by rewrite <-app_assoc.
Qed.

(** Whether records can be written, if they are asked for at all. *)
Definition printable (print : Z) (out : option bool) : Prop := print = 0 ∨ out = Some true.
Definition printed (line : entry → cstring) (print : Z) (es : list entry) : list cstring :=
  if print =? 0 then [] else line <$> es.

Lemma print_entry_ok line print out e es : printable print out →
  print_entry line print out e (printed line print es) = Ok (printed line print (es ++ [e])).
Proof.
  intros Hp. unfold print_entry, printed. destruct (Z.eqb_spec print 0); [done|].
  destruct Hp as [?| ->]; [done|]. by rewrite fmap_app.
Qed.

Lemma tally_run line print out all es r : all = es ++ r → Forall on_data r → printable print out →
  tally line print out true r (tally_of all es) (printed line print es)
  = Ok (tally_of all all, printed line print all).
Proof.
  intros Hall Hr Hp. revert es Hall. induction Hr as [|e r He _ IH]; intros es Hall.
  { rewrite app_nil_r in Hall. by subst. }
  cbn [tally]. rewrite (tally_one_of _ _ _ _ Hall He). cbn [mbind res_bind]. rewrite print_entry_ok by done.
  cbn [mbind res_bind]. apply IH. by rewrite <-app_assoc.
Qed.

Lemma arr_prefix_app (l : list D) r : arr_prefix (length l) ((Some <$> l) ++ r) = Ok l.
Proof. induction l as [|x l IH]; [done|]. cbn. by rewrite IH. Qed.

Section lines.
Context (gsl_sort : list D → list D) (gsl_mean gsl_variance gsl_median : list D → D).
Context (to_uint : D → Z) (fmt4 : F → cstring).
Local Notation port_line := (port_line gsl_sort gsl_mean gsl_variance gsl_median to_uint fmt4).
Local Notation report := (report gsl_sort gsl_mean gsl_variance gsl_median to_uint fmt4).

(** The line of a channel: its delays, and how many of the ids in its range came
    back. *)
Definition stats_line (port : Z) (es : list entry) : cstring :=
  port_line port (delays es) (f_div (f_of_Z (zlen es)) (f_of_Z (highest es - lowest es))) (zlen es).
Definition channel_stats (now : timeval) (chan : Z → channel_info) (es : list entry) (c : Z) : list cstring :=
  if bool_decide (of_channel c es = []) then []
  else [generic_line now (stats_line (of_port (chan c)) (of_channel c es))].
Definition stats_lines (now : timeval) (chan : Z → channel_info) (es : list entry) : list cstring :=
  [0; 1; 2] ≫= channel_stats now chan es.

(** A channel with probes exists, and the distance of their ids is an int. *)
Definition measurable (chan : Z → channel_info) (es : list entry) (s : harness) : Prop :=
  ∀ c, 0 ≤ c < 3 → of_channel c es ≠ [] →
    get_channel (ctx s) (c + 1) = Ok (chan c) ∧ is_int (highest (of_channel c es) - lowest (of_channel c es)).

Lemma channel_line_spec now chan es c s ls : 0 ≤ c < 3 → measurable chan es s → logger s = Some ls →
  channel_line gsl_sort gsl_mean gsl_variance gsl_median to_uint fmt4 now (per (λ c, zlen (of_channel c es)))
    (tally_of es es) c s
  = Ok (s <| logger := Some (ls ++ channel_stats now chan es c) |>).
Proof.
  intros Hc Hm Hl. unfold channel_line. cbn [t_ix t_data t_min t_max tally_of]. rewrite get3_per by done.
  cbn [mbind res_bind]. unfold channel_stats. case_bool_decide as Ee.
  { rewrite Ee, app_nil_r. destruct s; cbn in *. by subst. }
  destruct (Hm c Hc Ee) as [Hx Hi].
  replace (zlen (of_channel c es) =? 0) with false
    by (symmetry; apply Z.eqb_neq; unfold zlen; destruct (of_channel c es); [done|cbn; lia]).
  rewrite zget_per by done. replace (Z.to_nat (zlen (of_channel c es))) with (length (delays (of_channel c es)))
    by (unfold delays, zlen; rewrite length_fmap; lia).
  rewrite arr_prefix_app. cbn [mbind res_bind]. do 2 (rewrite get3_per by done; cbn [mbind res_bind]).
  rewrite chk_int_ok by done. cbn [mbind res_bind]. rewrite Hx. cbn [mbind res_bind]. by rewrite (log_generic _ _ _ ls).
Qed.

(** The report on the probes that were captured. *)
Lemma report_spec line print out kept now chan p es s ls :
  counted p es → printable print out → measurable chan es s → logger s = Some ls →
  report line print out kept now p s =
    if kept || bool_decide (es = [])
    then Ok (s <| logger := Some (ls ++ stats_lines now chan es) |>, printed line print es)
    else Fault FDangling.
Proof.
  intros (Hh & Hc & Hd) Hp Hm Hl. unfold report. rewrite Hh, Hc, tally_of_nil. cbn [default]. change (Datatypes.id es) with es.
  assert (∀ k, k || bool_decide (es = []) = true →
    tally line print out k es (tally_of es []) [] = Ok (tally_of es es, printed line print es)) as Hrun.
  { intros [] Hk; [|apply bool_decide_eq_true in Hk; subst; unfold printed; by destruct (print =? 0)].
    pose proof (tally_run line print out es [] es eq_refl Hd Hp) as H. unfold printed in H at 1. by destruct (print =? 0). }
  destruct (kept || bool_decide (es = [])) eqn:Hk.
  - rewrite Hrun by done. cbn [mbind res_bind]. unfold channel_lines.
    rewrite (channel_line_spec now chan es 0 s ls) by (done || lia). cbn [mbind res_bind].
    rewrite (channel_line_spec now chan es 1 _ (ls ++ channel_stats now chan es 0)) by (done || lia). cbn [mbind res_bind].
    rewrite (channel_line_spec now chan es 2 _ ((ls ++ channel_stats now chan es 0) ++ channel_stats now chan es 1))
      by (done || lia).
    cbn [mbind res_bind]. unfold mret, res_ret. do 2 f_equal. unfold stats_lines. cbn. by rewrite app_nil_r, <-!app_assoc.
  - apply orb_false_iff in Hk as [-> Hne%bool_decide_eq_false]. destruct es as [|e r]; [done|]. cbn [tally].
    apply Forall_cons in Hd as [He _]. 
    rewrite (tally_one_of (e :: r) [] e r eq_refl He). cbn [mbind res_bind app].
    pose proof (print_entry_ok line print out e [] Hp) as H. unfold printed in H at 1.
    assert ((if print =? 0 then [] else line <$> []) = []) as E by (by destruct (print =? 0)). rewrite E in H.
    by rewrite H.
Qed.
End lines.
End stats.

(** ** Frames that reach a module *)

(** A frame captured on a data channel, with the details it was generated from. *)
Record seen := { sn_hdr : pcap_pkthdr; sn_det : traf_gen_det; sn_frame : frame; sn_ch : Z }.

Definition seen_ok (inet_addr : cstring → Z) (c : oflops_context) (x : seen) : Prop :=
  1 ≤ sn_ch x ≤ 3 ∧ probe_ok inet_addr (sn_det x) c (sn_ch x) ∧ fr_eth (sn_frame x) = eth_of (sn_det x) ∧
  caplen (sn_hdr x) = zlen (frame_bytes (sn_frame x)) ∧ caplen (sn_hdr x) < 2^31.

Lemma seen_extract inet_addr nf_extract c x : seen_ok inet_addr c x →
  data_channel (sn_ch x) = true ∧
  extract_pktgen_pkt nf_extract c (sn_ch x) (cells (frame_bytes (sn_frame x))) (i32 (caplen (sn_hdr x))) true
  = Ok (Some (header_of (sn_frame x)), Some (flow_of (sn_det x) (sn_frame x))).
Proof.
  intros (Hc & Hp & He & Hl & Hlt). split.
  - unfold data_channel, OFLOPS_DATA1, OFLOPS_DATA2, OFLOPS_DATA3. rewrite !orb_true_iff, !Z.eqb_eq. lia.
  - pose proof (zlen_nonneg (frame_bytes (sn_frame x))). rewrite i32_id by (unfold is_int, INT_MIN, INT_MAX; lia).
    rewrite Hl. by apply (extract_probe inet_addr).
Qed.

(** The record kept of it; [dst]: what is kept of the destination. *)
Definition entry_seen (dst : frame → Z) (x : seen) : entry :=
  entry_of (header_of (sn_frame x)) (ts (sn_hdr x)) (sn_ch x) (dst (sn_frame x)).

Lemma entry_seen_on_data inet_addr c dst x : seen_ok inet_addr c x → on_data (entry_seen dst x).
Proof. by intros [H _]. Qed.

(** Integers in place of floating-point numbers, for the examples. *)
Definition integers : Floating Z := {|
  f_of_Z := λ z, z; f_add := Z.add; f_sub := Z.sub; f_mul := Z.mul; f_div := Z.div; f_lt := Z.ltb;
  f_pow2 := λ z, z * z; f_sqrt := Z.sqrt; f_max := 0 |}.
