(* ===== verification/ConfigSpec.v ===== *)
(** * The configuration string of a test module

    The modules parse their parameters in place: the string is cut at blanks and
    at the signs of equality.  On a text of parameters [name=value], each
    followed by a blank, this gives every name and value in order, and nothing
    behind the terminator is touched. *)

From S2P Require Import Prelude CBytes CStr WcEvent TestModule TimerModule.
Open Scope Z_scope.

(** ** Searching in a buffer *)

Lemma index_in_found s r c i : Forall (λ x, x ≠ c ∧ x ≠ 0) s → index_in (cells s ++ Some c :: r) c i = Ok (Some (i + zlen s)).
Proof.
  intros Hs. revert i. induction Hs as [|x s [Hc H0] _ IH]; intros i; cbn.
  - rewrite Z.eqb_refl. unfold zlen. cbn. by rewrite Z.add_0_r.
  - replace (x =? c) with false by lia. replace (x =? 0) with false by lia. etrans; [apply IH|].
    do 2 f_equal. unfold zlen. rewrite length_cons. lia.
Qed.

Lemma index_in_none s r c i : c ≠ 0 → Forall (λ x, x ≠ c ∧ x ≠ 0) s → index_in (cells s ++ Some 0 :: r) c i = Ok None.
Proof.
  intros Hc0 Hs. revert i. induction Hs as [|x s [Hc H0] _ IH]; intros i; cbn [cells fmap list_fmap app index_in].
  - by replace (0 =? c) with false by lia.
  - replace (x =? c) with false by lia. replace (x =? 0) with false by lia. apply IH.
Qed.

Lemma drop_pre (pre m : mem) : drop (Z.to_nat (zlen pre)) (pre ++ m) = m.
Proof. unfold zlen. by rewrite Nat2Z.id, drop_app_length. Qed.

Lemma index_at_found pre s r c :
  Forall (λ x, x ≠ c ∧ x ≠ 0) s → index_at (pre ++ cells s ++ Some c :: r) c (zlen pre) = Ok (Some (zlen pre + zlen s)).
Proof. intros Hs. unfold index_at. rewrite drop_pre. by apply index_in_found. Qed.

Lemma index_at_none pre s r c :
  c ≠ 0 → Forall (λ x, x ≠ c ∧ x ≠ 0) s → index_at (pre ++ cells s ++ Some 0 :: r) c (zlen pre) = Ok None.
Proof. intros H0 Hs. unfold index_at. rewrite drop_pre. by apply index_in_none. Qed.

Lemma text_at_pre pre s r : Forall (λ x, x ≠ 0) s → text_at (pre ++ cells s ++ Some 0 :: r) (zlen pre) = Ok s.
Proof. intros Hs. unfold text_at. rewrite drop_pre. by apply c_text_cells. Qed.

Lemma wr8_pre pre x r v i : i = zlen pre → wr8 (pre ++ x :: r) i v = Ok (pre ++ Some (u8 v) :: r).
Proof.
  intros ->. unfold wr8, wr_bytes. rewrite wr_cells_ok; [|unfold in_bounds, zlen; rewrite length_app; cbn; lia].
  f_equal. unfold splice, zlen. rewrite Nat2Z.id, take_app_length. cbn. f_equal. f_equal.
  rewrite drop_app_ge by lia. by replace (length pre + 1 - length pre)%nat with 1%nat by lia.
Qed.

Lemma rd8_pre pre x r i : i = zlen pre → rd8 (pre ++ Some x :: r) i = Ok x.
Proof.
  intros ->. unfold rd8, zget, zlen. rewrite decide_True by lia. by rewrite Nat2Z.id, lookup_app_r, Nat.sub_diag by lia.
Qed.

(** ** One parameter *)

Definition param := (cstring * cstring)%type.
Definition is_param (p : param) : Prop :=
  Forall (λ c, c ≠ 0 ∧ c ≠ 32 ∧ c ≠ 61) p.1 ∧ Forall (λ c, c ≠ 0 ∧ c ≠ 32) p.2.
Definition param_text (p : param) : cstring := p.1 ++ 61 :: p.2 ++ [32].
Definition config_text (ps : list param) : cstring := ps ≫= param_text.

(** The buffer of a text: its bytes and the terminator. *)
Definition buffer (t : cstring) : mem := cells t ++ [Some 0].

Lemma cells_app a b : cells (a ++ b) = cells a ++ cells b.
Proof. apply fmap_app. Qed.
Lemma cells_cons a b : cells (a :: b) = Some a :: cells b.
Proof. done. Qed.

(** What the loop over the parameters does with the one at the end of [pre]. *)
Record parsed (pre : mem) (name value : cstring) (rest : mem) (b1 : mem) : Prop := {
  pd_end : param_end (pre ++ cells (param_text (name, value)) ++ rest) (zlen pre)
           = Ok (Some (zlen pre + zlen name + 1 + zlen value));
  pd_cut : wr8 (pre ++ cells (param_text (name, value)) ++ rest) (zlen pre + zlen name + 1 + zlen value) 0 = Ok b1;
  pd_sign : index_at b1 61 (zlen pre) = Ok (Some (zlen pre + zlen name));
  pd_split : wr8 b1 (zlen pre + zlen name) 0
             = Ok (pre ++ cells name ++ Some 0 :: cells value ++ Some 0 :: rest);
  pd_name : text_at (pre ++ cells name ++ Some 0 :: cells value ++ Some 0 :: rest) (zlen pre) = Ok name;
}.

Lemma param_parsed pre name value rest : is_param (name, value) → ∃ b1, parsed pre name value rest b1.
Proof.
  intros [Hn Hv]. cbn in Hn, Hv. exists ((pre ++ cells (name ++ 61 :: value)) ++ Some 0 :: rest).
  assert (pre ++ cells (param_text (name, value)) ++ rest = pre ++ cells (name ++ 61 :: value) ++ Some 32 :: rest) as E.
  { unfold param_text. cbn. rewrite !cells_app, !cells_cons, cells_app. by rewrite <-!app_assoc; cbn; rewrite <-!app_assoc. }
  split; rewrite ?E.
  - unfold param_end. rewrite index_at_found; [|].
    + cbn. do 2 f_equal. rewrite zlen_app. unfold zlen. rewrite length_cons. lia.
    + apply Forall_app_2; [eapply Forall_impl; [exact Hn|]; naive_solver|]. constructor; [lia|].
      eapply Forall_impl; [exact Hv|]. naive_solver.
  - rewrite app_assoc. rewrite wr8_pre; [done|]. rewrite zlen_app, zlen_cells, zlen_app. unfold zlen. rewrite length_cons. lia.
  - rewrite cells_app, cells_cons, <-!app_assoc. cbn [app]. rewrite index_at_found; [done|].
    eapply Forall_impl; [exact Hn|]. naive_solver.
  - rewrite cells_app, cells_cons, <-!app_assoc. cbn [app]. rewrite app_assoc, wr8_pre; [by rewrite <-app_assoc|].
    by rewrite zlen_app, zlen_cells.
  - apply text_at_pre. eapply Forall_impl; [exact Hn|]. naive_solver.
Qed.

(** ** All parameters *)

Lemma skip_blanks_run k pre c r fuel : c ≠ 32 →
  skip_blanks (k + S fuel) (pre ++ replicate k (Some 32) ++ Some c :: r) (zlen pre) = Ok (zlen pre + Z.of_nat k).
Proof.
  intros Hc. revert pre. induction k as [|k IH]; intros pre; cbn [replicate app Nat.add skip_blanks].
  - rewrite (bind_val _ _ _ (rd8_pre pre c r _ eq_refl)). cbv beta. replace (c =? 32) with false by lia. f_equal. lia.
  - rewrite (bind_val _ _ _ (rd8_pre pre 32 _ _ eq_refl)). cbv beta iota.
    replace (zlen pre + 1) with (zlen (pre ++ [Some 32])) by (rewrite zlen_app; unfold zlen; cbn; lia).
    specialize (IH (pre ++ [Some 32])). rewrite <-app_assoc in IH. cbn [app] in IH. rewrite IH. f_equal.
    rewrite zlen_app. unfold zlen. cbn. lia.
Qed.

(** The parameters one after the other. *)
Fixpoint apply_params {M} (set_param : cstring → cstring → M → res M) (ps : list param) (m : M) : res M :=
  match ps with [] => mret m | p :: ps => m ← set_param p.1 p.2 m; apply_params set_param ps m end.

Section params.
Context {M : Type} (set_value : mem → cstring → Z → M → res (mem * M)) (set_param : cstring → cstring → M → res M).
Context (inv : M → Prop) (good : param → Prop) (limit : Z).

(** A parameter in the buffer does to the variables what [set_param] does, and
    leaves the rest of the buffer alone. *)
Hypothesis set_value_spec : ∀ pre name v rest m, inv m → is_param (name, v) → good (name, v) →
  zlen pre + zlen v ≤ limit →
  ∃ pre', zlen pre' = zlen pre + zlen v ∧
    set_value (pre ++ cells v ++ Some 0 :: rest) name (zlen pre) m
    = (m' ← set_param name v m; mret (pre' ++ Some 0 :: rest, m')).
Hypothesis set_param_inv : ∀ name v m m', inv m → set_param name v m = Ok m' → inv m'.

Definition is_good (p : param) : Prop := is_param p ∧ good p.

(** The loop over the parameters of a text, whatever follows it. *)
Lemma param_loop_run ps pre r k m : Forall is_good ps → inv m → zlen pre + zlen (config_text ps) ≤ limit →
  ∃ pre', zlen pre' = zlen pre + zlen (config_text ps) ∧
    param_loop set_value (length ps + k) (pre ++ cells (config_text ps) ++ r) (zlen pre) m
    = (m' ← apply_params set_param ps m; param_loop set_value k (pre' ++ r) (zlen pre') m').
Proof.
  intros Hps. revert pre m. induction Hps as [|[n v] ps [Hp Hg] _ IH]; intros pre m Hm Hlim.
  { exists pre. split; [unfold zlen; cbn; lia|done]. }
  assert (zlen (param_text (n, v) ++ config_text ps) = zlen n + 1 + zlen v + 1 + zlen (config_text ps)) as Hc.
  { unfold param_text. cbn [fst snd]. rewrite !zlen_app. unfold zlen. rewrite length_cons, length_app. cbn. lia. }
  change (config_text ((n, v) :: ps)) with (param_text (n, v) ++ config_text ps) in Hlim |- *. rewrite Hc in Hlim.
  pose proof (zlen_nonneg (config_text ps)).
  set (rest := cells (config_text ps) ++ r). destruct (param_parsed pre n v rest Hp) as [b1 Pd].
  destruct (set_value_spec (pre ++ cells n ++ [Some 0]) n v rest m Hm Hp Hg) as (pre1 & Hz1 & Hset).
  { rewrite zlen_app, zlen_app, zlen_cells. change (zlen [Some 0]) with 1. lia. }
  rewrite zlen_app, zlen_app, zlen_cells in Hz1, Hset. change (zlen [Some 0]) with 1 in Hz1, Hset.
  rewrite Z.add_assoc in Hz1, Hset. rewrite <-!app_assoc in Hset.
  assert (zlen (pre1 ++ [Some 0]) + zlen (config_text ps) ≤ limit) as Hlim'
    by (rewrite zlen_app; change (zlen [Some 0]) with 1; lia).
  destruct (IH (pre1 ++ [Some 0]) m Hm Hlim') as (pre0 & Hz0 & _). rewrite zlen_app in Hz0. change (zlen [Some 0]) with 1 in Hz0.
  rewrite cells_app, <-app_assoc. fold rest. cbn [length Nat.add param_loop].
  rewrite (bind_val _ _ _ (pd_end _ _ _ _ _ Pd)). cbv beta iota. rewrite (bind_val _ _ _ (pd_cut _ _ _ _ _ Pd)). cbv beta.
  rewrite (bind_val _ _ _ (pd_sign _ _ _ _ _ Pd)). cbv beta iota. rewrite (bind_val _ _ _ (pd_split _ _ _ _ _ Pd)). cbv beta.
  rewrite (bind_val _ _ _ (pd_name _ _ _ _ _ Pd)). cbv beta. cbn [app] in Hset. rewrite Hset.
  cbn [apply_params fst snd]. destruct (set_param n v m) as [m1|f] eqn:Hm1; cbn [mbind res_bind mret res_ret].
  - destruct (IH (pre1 ++ [Some 0]) m1 (set_param_inv _ _ _ _ Hm Hm1) Hlim') as (pre2 & Hz2 & Hrun). exists pre2.
    rewrite zlen_app in Hz2, Hrun. change (zlen [Some 0]) with 1 in Hz2, Hrun. split; [rewrite Hc; lia|].
    rewrite <-Hrun, <-app_assoc. f_equal. lia.
  - exists pre0. split; [rewrite Hc; lia|done].
Qed.

Lemma config_head ps c r : Forall is_param ps → c ≠ 32 →
  ∃ c' r', cells (config_text ps) ++ Some c :: r = Some c' :: r' ∧ c' ≠ 32.
Proof.
  intros Hps Hc. destruct Hps as [|[n v] ps [Hn _] _]; [by exists c, r|]. cbn in Hn.
  destruct Hn as [|x n Hx _]; [by eexists 61, _|]. eexists x, _. split; [done|]. naive_solver.
Qed.

(** The parameters stand behind [k] blanks. *)
Lemma params_run k ps c r m : Forall is_good ps → c ≠ 32 → inv m → Z.of_nat k + zlen (config_text ps) ≤ limit →
  let b := cells (replicate k 32 ++ config_text ps) ++ Some c :: r in
  ∃ pre' fuel, zlen pre' = Z.of_nat k + zlen (config_text ps) ∧ (0 < fuel)%nat ∧
    skip_blanks (S (length b)) b 0 = Ok (Z.of_nat k) ∧
    param_loop set_value (S (length b)) b (Z.of_nat k) m
    = (m' ← apply_params set_param ps m; param_loop set_value fuel (pre' ++ Some c :: r) (zlen pre') m').
Proof.
  intros Hps Hc Hm Hlim b. destruct (config_head ps c r) as (c' & r' & E & Hc').
  { eapply Forall_impl; [exact Hps|]. by intros ? []. } { done. }
  assert (cells (replicate k 32) = replicate k (Some 32)) as Er by (unfold cells; by rewrite fmap_replicate).
  assert (length b = k + length (config_text ps) + S (length r))%nat as Hb.
  { subst b. rewrite length_app. unfold cells. rewrite length_fmap, length_app, length_replicate. cbn. lia. }
  assert (length ps ≤ length (config_text ps))%nat as Hl.
  { clear. induction ps as [|[n v] ps IH]; [done|]. change (config_text ((n, v) :: ps)) with (param_text (n, v) ++ config_text ps).
    unfold param_text. rewrite !length_app. cbn. lia. }
  set (f' := (S (length b) - length ps)%nat).
  assert (zlen (replicate k (Some 32)) = Z.of_nat k) as Hk by (unfold zlen; by rewrite length_replicate).
  destruct (param_loop_run ps (replicate k (Some 32)) (Some c :: r) f' m Hps Hm) as (pre' & Hz & Hrun); [by rewrite Hk|].
  rewrite Hk in Hz, Hrun. exists pre', f'. split; [done|]. split; [lia|].
  assert (b = replicate k (Some 32) ++ Some c' :: r') as Eb by (by subst b; rewrite cells_app, Er, <-app_assoc, E).
  pose proof (skip_blanks_run k [] c' r' (length b - k) Hc') as Hs. cbn [app] in Hs. rewrite <-Eb in Hs.
  replace (k + S (length b - k))%nat with (S (length b)) in Hs by lia. split; [exact Hs|].
  rewrite <-Hrun. replace (length ps + f')%nat with (S (length b)) by lia. by rewrite Eb, <-E.
Qed.

(** At the terminator the loop ends. *)
Lemma param_loop_end pre fuel m : (0 < fuel)%nat →
  param_loop set_value fuel (pre ++ [Some 0]) (zlen pre) m = Ok (pre ++ [Some 0], m).
Proof.
  intros Hf. destruct fuel as [|fuel]; [lia|]. cbn [param_loop]. unfold param_end.
  pose proof (index_at_none pre [] [] 32 ltac:(done) ltac:(constructor)) as Hi. cbn [cells fmap list_fmap app] in Hi.
  rewrite (bind_val _ _ _ Hi). cbv beta iota. by rewrite (bind_val _ _ _ (rd8_pre pre 0 [] _ eq_refl)).
Qed.
End params.

Definition config_buffer (k : nat) (ps : list param) : mem := buffer (replicate k 32 ++ config_text ps).

(** The loop at its first parameter, whatever the module does with it. *)
Lemma param_first {M} (set_value : mem → cstring → Z → M → res (mem * M)) k name v m : is_param (name, v) →
  let b := config_buffer k [(name, v)] in
  skip_blanks (S (length b)) b 0 = Ok (Z.of_nat k) ∧
  param_loop set_value (S (length b)) b (Z.of_nat k) m =
    ('(b2, m2) ← set_value (replicate k (Some 32) ++ cells name ++ Some 0 :: cells v ++ [Some 0; Some 0]) name
                   (Z.of_nat k + zlen name + 1) m;
     param_loop set_value (length b) b2 (Z.of_nat k + zlen name + 1 + zlen v + 1) m2).
Proof.
  intros Hp b. set (pre := replicate k (Some 32)).
  assert (zlen pre = Z.of_nat k) as Hk by (unfold pre, zlen; by rewrite length_replicate).
  assert (b = pre ++ cells (param_text (name, v)) ++ [Some 0]) as Eb.
  { unfold b, config_buffer, buffer, config_text. cbn [mbind list_bind]. rewrite app_nil_r, cells_app, <-app_assoc.
    unfold pre, cells at 1. by rewrite fmap_replicate. }
  destruct (config_head [(name, v)] 0 []) as (c & r & Ec & Hc); [by constructor|done|].
  assert (b = pre ++ Some c :: r) as Ec'.
  { rewrite Eb, <-Ec. unfold config_text. cbn [mbind list_bind]. by rewrite app_nil_r. }
  split.
  - pose proof (skip_blanks_run k [] c r (length b - k) Hc) as Hs. cbn [app] in Hs. fold pre in Hs. rewrite <-Ec' in Hs.
    replace (k + S (length b - k))%nat with (S (length b)) in Hs; [exact Hs|].
    rewrite Ec', length_app. unfold pre. rewrite length_replicate. cbn. lia.
  - destruct (param_parsed pre name v [Some 0] Hp) as [b1 Pd]. rewrite <-Hk. cbn [param_loop]. generalize (length b) as n.
    intros n. rewrite Eb.
    rewrite (bind_val _ _ _ (pd_end _ _ _ _ _ Pd)). cbv beta iota. rewrite (bind_val _ _ _ (pd_cut _ _ _ _ _ Pd)). cbv beta.
    rewrite (bind_val _ _ _ (pd_sign _ _ _ _ _ Pd)). cbv beta iota. rewrite (bind_val _ _ _ (pd_split _ _ _ _ _ Pd)). cbv beta.
    by rewrite (bind_val _ _ _ (pd_name _ _ _ _ _ Pd)).
Qed.

(** What every parameter preserves, all of them do. *)
Lemma read_params_inv {M} (set_param : cstring → cstring → M → res M) (P : M → Prop) b m b' m' :
  (∀ n v m m', P m → set_param n v m = Ok m' → P m') → P m → read_params set_param b m = Ok (b', m') → P m'.
Proof.
  intros Hset Hm. unfold read_params. intros (i & _ & H)%bind_Ok. revert H. generalize (S (length b)) as fuel.
  intros fuel. revert b i m Hm.
  induction fuel as [|fuel IH]; intros b0 i m0 Hm; [done|]. cbn [param_loop].
  intros (pos & _ & H)%bind_Ok. destruct pos as [pos|]; [|by injection H as <- <-].
  apply bind_Ok in H as (b1 & _ & H). apply bind_Ok in H as (value & _ & H). destruct value as [v|]; [|done].
  apply bind_Ok in H as (b2 & _ & H). apply bind_Ok in H as (name & _ & H). apply bind_Ok in H as ([b3 m3] & H1 & H2).
  unfold text_value in H1. apply bind_Ok in H1 as (t & _ & H1). apply bind_Ok in H1 as (m4 & H1 & [= <- <-]).
  eapply IH; [|exact H2]. by eapply Hset.
Qed.

Section text.
Context {M : Type} (set_param : cstring → cstring → M → res M).

Lemma text_value_spec limit pre name v rest (m : M) : True → is_param (name, v) → True → zlen pre + zlen v ≤ limit →
  ∃ pre', zlen pre' = zlen pre + zlen v ∧
    text_value set_param (pre ++ cells v ++ Some 0 :: rest) name (zlen pre) m
    = (m' ← set_param name v m; mret (pre' ++ Some 0 :: rest, m')).
Proof.
  intros _ [_ Hv] _ _. cbn in Hv. exists (pre ++ cells v). rewrite zlen_app, zlen_cells. split; [done|].
  unfold text_value. rewrite (bind_val _ _ v); [by rewrite <-app_assoc|].
  apply text_at_pre. eapply Forall_impl; [exact Hv|]. naive_solver.
Qed.

Lemma read_params_run k ps c r m : Forall is_param ps → c ≠ 32 →
  ∃ pre' fuel, zlen pre' = Z.of_nat k + zlen (config_text ps) ∧ (0 < fuel)%nat ∧
    read_params set_param (cells (replicate k 32 ++ config_text ps) ++ Some c :: r) m
    = (m' ← apply_params set_param ps m;
       param_loop (text_value set_param) fuel (pre' ++ Some c :: r) (zlen pre') m').
Proof.
  intros Hps Hc. destruct (params_run (text_value set_param) set_param (λ _, True) (λ _, True)
    (Z.of_nat k + zlen (config_text ps)) (text_value_spec _) ltac:(done) k ps c r m) as (pre' & fuel & Hz & Hf & Hs & Hl); [|done..|].
  { eapply Forall_impl; [exact Hps|]. done. }
  exists pre', fuel. split; [done|]. split; [done|]. unfold read_params. rewrite (bind_val _ _ _ Hs). exact Hl.
Qed.

(** C39. The configuration string: a text of parameters [name=value], each
    followed by a blank, is parsed into exactly these parameters, in order -
    init does with the variables of the module what setting them one after the
    other does, an error of one of them included - and nothing behind its
    terminator is read or written.  When the blank behind the last parameter is
    missing, the byte behind the terminator is overwritten. *)
Theorem config_parsed k ps p m : Forall is_param ps → is_param p →
  (∃ b', read_params set_param (config_buffer k ps) m = (m' ← apply_params set_param ps m; mret (b', m'))) ∧
  read_params set_param (buffer (replicate k 32 ++ config_text ps ++ p.1 ++ 61 :: p.2)) m
  = (_ ← apply_params set_param ps m; Fault FBounds).
Proof.
  intros Hps Hp. split.
  - destruct (read_params_run k ps 0 [] m Hps) as (pre' & fuel & _ & Hf & Hrun); [done|].
    exists (pre' ++ [Some 0]). unfold config_buffer, buffer. rewrite Hrun.
    destruct (apply_params set_param ps m) as [m1|]; [|done]. by apply param_loop_end.
  - destruct p as [n v], Hp as [Hn Hv]. cbn [fst snd] in *. set (t := n ++ 61 :: v).
    assert (Forall (λ x, x ≠ 32 ∧ x ≠ 0) t) as Ht.
    { apply Forall_app_2; [eapply Forall_impl; [exact Hn|]; naive_solver|]. constructor; [lia|].
      eapply Forall_impl; [exact Hv|]. naive_solver. }
    assert (∃ c r, cells t ++ [Some 0] = Some c :: r ∧ c ≠ 32 ∧ c ≠ 0) as (c & r & E & Hc & Hc0).
    { destruct t as [|c t'] eqn:Et; [by destruct n|]. apply Forall_cons in Ht as [? _]. by exists c, (cells t' ++ [Some 0]). }
    destruct (read_params_run k ps c r m Hps Hc) as (pre' & fuel & _ & Hf & Hrun).
    unfold buffer. rewrite app_assoc, cells_app, <-app_assoc, E, Hrun.
    destruct (apply_params set_param ps m) as [m1|]; [|done]. destruct fuel as [|fuel]; [lia|].
    cbn [mbind res_bind param_loop]. unfold param_end. rewrite <-E.
    rewrite (bind_val _ _ _ (index_at_none pre' t [] 32 ltac:(done) Ht)). cbv beta iota.
    rewrite E, (bind_val _ _ _ (rd8_pre pre' c r _ eq_refl)), <-E. cbv beta. replace (c =? 0) with false by lia.
    rewrite (bind_val (text_at _ _) _ t); [|apply text_at_pre; eapply Forall_impl; [exact Ht|]; naive_solver].
    cbn [mbind res_bind mret res_ret]. unfold wr8, wr_bytes, wr_cells. rewrite decide_False; [done|].
    unfold in_bounds, zlen. rewrite !length_app. unfold cells. rewrite !length_fmap. cbn [length]. lia.
Qed.
End text.

(** ** An example: the parameters of the timer module *)

Definition demo_params : list param := [(str "flows", str "5"); (str "pkt_size", str "64")].

Lemma config_parsed_witness :
  (∃ b', read_params timer_set_param (config_buffer 1 demo_params) tmod0
         = Ok (b', tmod0 <| tm_flows := 5 |> <| tm_pkt_size := 64 |>)) ∧
  read_params timer_set_param (buffer ([32] ++ config_text demo_params ++ str "print" ++ 61 :: str "1")) tmod0
  = Fault FBounds.
Proof.
  assert (Forall is_param demo_params) as Hd by (repeat constructor; apply (bool_decide_unpack _); vm_compute; done).
  assert (is_param (str "print", str "1")) as Hp by (split; apply (bool_decide_unpack _); vm_compute; done).
  exact (config_parsed timer_set_param 1 demo_params (str "print", str "1") tmod0 Hd Hp).
Defined.
