(* ===== verification/ActionSpec.v ===== *)
(** * The list of actions (action_delay.c)

    [of_action] is an OpenFlow action as the parameters of the module mean it,
    [encode] the bytes of the protocol, [decode] what a switch reads out of
    them.  The buffer the module builds is the encoding of the actions asked
    for. *)

From S2P Require Import Prelude CTime CBytes CStr OpenFlow WcEvent PcapTrack TimerEvent Msg MsgSpec Context Harness.
From S2P Require Import TrafficGen TrafficKernel Cbench Utils TestModule MeasureModule ActionModule ProbeSpec ConfigSpec.
Open Scope Z_scope.

(** ** Actions *)

Inductive of_action :=
| ActOutput (port : Z)
| ActSetVlanVid (vid : Z)
| ActSetVlanPcp (pcp : Z)
| ActStripVlan
| ActSetDl (dst : bool) (addr : list Z)
| ActSetNw (dst : bool) (addr : Z)
| ActSetTos (tos : Z)
| ActSetTp (dst : bool) (port : Z).

#[export] Instance of_action_eq_dec : EqDecision of_action.
Proof. solve_decision. Defined.

(** The fields have the width of the protocol. *)
Definition action_ok (a : of_action) : Prop :=
  match a with
  | ActOutput p | ActSetVlanVid p | ActSetTp _ p => is_u16 p
  | ActSetVlanPcp v | ActSetTos v => is_byte v
  | ActStripVlan => True
  | ActSetDl _ l => length l = 6%nat ∧ Forall is_byte l
  | ActSetNw _ v => is_u32 v
  end.

(** Bytes the code does not set are None. *)
Definition encode (a : of_action) : mem :=
  match a with
  | ActOutput p => cells (be16 0 ++ be16 8 ++ be16 p ++ be16 2000)
  | ActSetVlanVid v => cells (be16 1 ++ be16 8 ++ be16 v ++ [0; 0])
  | ActSetVlanPcp v => cells (be16 2 ++ be16 8 ++ [v; 0; 0; 0])
  | ActStripVlan => cells (be16 3 ++ be16 8 ++ [0; 0; 0; 0])
  | ActSetDl d l => cells (be16 (if d then 5 else 4) ++ be16 16 ++ l) ++ mem_new 6
  | ActSetNw d v => cells (be16 (if d then 7 else 6) ++ be16 8 ++ be32 v)
  | ActSetTos v => cells (be16 8 ++ be16 8 ++ [v]) ++ mem_new 3
  | ActSetTp d p => cells (be16 (if d then 10 else 9) ++ be16 8 ++ be16 p) ++ mem_new 2
  end.
Definition encode_all (l : list of_action) : mem := l ≫= encode.

(** The byte two characters stand for. *)
Definition hex_byte (a b : Z) : Z := hex_value a * 16 + hex_value b.

(** What an action of the parameters stands for: None when its value is refused. *)
Definition meaning (action : Z) (t : cstring) : option of_action :=
  match action with
  | 0 => Some (ActOutput (u16 (strtol 10 t)))
  | 1 => if (strtol 10 t <? 0) || (strtol 10 t >=? 0xFFF) then None else Some (ActSetVlanVid (u16 (strtol 10 t)))
  | 2 => if (strtol 16 t <? 0) || (strtol 16 t >? 7) then None else Some (ActSetVlanPcp (u8 (strtol 16 t)))
  | 3 => Some ActStripVlan
  | 4 | 5 =>
    if negb (zlen t =? 12) || negb (is_hex t 12) then None
    else match t with
         | [a1; b1; a2; b2; a3; b3; a4; b4; a5; b5; a6; b6] =>
           Some (ActSetDl (action =? 5) [hex_byte a1 b1; hex_byte a2 b2; hex_byte a3 b3; hex_byte a4 b4;
                                           hex_byte a5 b5; hex_byte a6 b6])
         | _ => None
         end
  | 6 | 7 =>
    if negb (zlen t =? 8) || negb (is_hex t 8) then None else Some (ActSetNw (action =? 7) (u32 (strtol 16 t)))
  | 8 => Some (ActSetTos (u8 (strtol 16 t)))
  | 9 | 10 => Some (ActSetTp (action =? 10) (u16 (strtol 16 t)))
  | _ => None
  end.

(** ** What a switch reads *)

Definition decode_body (ty : Z) (b : mem) : res of_action :=
  match ty with
  | 0 => p ← rd16be b 4; mret (ActOutput p)
  | 1 => v ← rd16be b 4; mret (ActSetVlanVid v)
  | 2 => v ← rd8 b 4; mret (ActSetVlanPcp v)
  | 3 => mret ActStripVlan
  | 4 | 5 => l ← rd_bytes b 4 6; mret (ActSetDl (ty =? 5) l)
  | 6 | 7 => v ← rd32be b 4; mret (ActSetNw (ty =? 7) v)
  | 8 => v ← rd8 b 4; mret (ActSetTos v)
  | 9 | 10 => p ← rd16be b 4; mret (ActSetTp (ty =? 10) p)
  | _ => Fault FAssert
  end.

(** An action is as long as its length field says. *)
Fixpoint decode (fuel : nat) (b : mem) : res (list of_action) :=
  match fuel, b with
  | _, [] => mret []
  | O, _ => Fault FFuel
  | S fuel, _ =>
    ty ← rd16be b 0;
    len ← rd16be b 2;
    a ← decode_body ty b;
    r ← decode fuel (drop (Z.to_nat len) b);
    mret (a :: r)
  end.
Definition decode_all (b : mem) : res (list of_action) := decode (length b) b.

Definition type_of (a : of_action) : Z :=
  match a with
  | ActOutput _ => 0 | ActSetVlanVid _ => 1 | ActSetVlanPcp _ => 2 | ActStripVlan => 3
  | ActSetDl d _ => if d then 5 else 4 | ActSetNw d _ => if d then 7 else 6
  | ActSetTos _ => 8 | ActSetTp d _ => if d then 10 else 9
  end.

Lemma rd8_app m r off v : rd8 m off = Ok v → rd8 (m ++ r) off = Ok v.
Proof.
  unfold rd8. destruct (zget m off) as [x|] eqn:Hx; [|done]. unfold zget in *. destruct (decide _); [|done].
  by rewrite (lookup_app_l_Some _ _ _ _ Hx).
Qed.

Lemma rd16be_app m r off v : rd16be m off = Ok v → rd16be (m ++ r) off = Ok v.
Proof. unfold rd16be. intros (bs & H & E)%bind_Ok. by rewrite (bind_val _ _ _ (rd_bytes_app _ r _ _ _ H)). Qed.

Lemma rd32be_app m r off v : rd32be m off = Ok v → rd32be (m ++ r) off = Ok v.
Proof. unfold rd32be. intros (bs & H & E)%bind_Ok. by rewrite (bind_val _ _ _ (rd_bytes_app _ r _ _ _ H)). Qed.

Lemma decode_body_app ty b r a : decode_body ty b = Ok a → decode_body ty (b ++ r) = Ok a.
Proof.
  unfold decode_body. repeat case_match; try done; intros (x & Hx & E)%bind_Ok;
    first [rewrite (bind_val _ _ _ (rd16be_app _ r _ _ Hx)) | rewrite (bind_val _ _ _ (rd8_app _ r _ _ Hx))
          |rewrite (bind_val _ _ _ (rd32be_app _ r _ _ Hx)) | rewrite (bind_val _ _ _ (rd_bytes_app _ r _ _ _ Hx))]; done.
Qed.

Lemma encode_facts a : action_ok a →
  rd16be (encode a) 0 = Ok (type_of a) ∧ rd16be (encode a) 2 = Ok (zlen (encode a)) ∧
  decode_body (type_of a) (encode a) = Ok a ∧ encode a ≠ [].
Proof.
  destruct a as [p|v|v| |d l|d v|v|d p]; intros Ha; cbn in Ha; [..|destruct d|destruct d| |destruct d];
    try (destruct Ha as [Hl _]; six l Hl); (split_and!; [reflexivity..| |done]); try reflexivity;
    first [exact (f_equal (λ x, Ok (ActOutput x)) (un_be16_be16 _ Ha))
          |exact (f_equal (λ x, Ok (ActSetVlanVid x)) (un_be16_be16 _ Ha))
          |exact (f_equal (λ x, Ok (ActSetNw _ x)) (un_be32_be32 _ Ha))
          |exact (f_equal (λ x, Ok (ActSetTp _ x)) (un_be16_be16 _ Ha))].
Qed.

Lemma decode_encode a b fuel : action_ok a →
  decode (S fuel) (encode a ++ b) = (r ← decode fuel b; mret (a :: r)).
Proof.
  intros (H0 & H2 & Hb & Hn)%encode_facts. cbn [decode].
  destruct (encode a ++ b) as [|x l] eqn:E; [by destruct (encode a)|]. rewrite <-E. clear x l E.
  rewrite (bind_val _ _ _ (rd16be_app _ b _ _ H0)). cbv beta. rewrite (bind_val _ _ _ (rd16be_app _ b _ _ H2)). cbv beta.
  rewrite (bind_val _ _ _ (decode_body_app _ _ b _ Hb)). cbv beta. unfold zlen. by rewrite Nat2Z.id, drop_app_length.
Qed.

(** A switch reads from the bytes the actions they were built from. *)
Lemma decode_encode_all l : Forall action_ok l → decode_all (encode_all l) = Ok l.
Proof.
  intros Hl. unfold decode_all.
  assert (∀ fuel, (length l ≤ fuel)%nat → decode fuel (encode_all l) = Ok l) as H.
  { induction Hl as [|a l Ha _ IH]; intros fuel Hf; [by destruct fuel|]. destruct fuel as [|fuel]; [cbn in Hf; lia|].
    cbn in Hf. change (encode_all (a :: l)) with (encode a ++ encode_all l). rewrite decode_encode by done.
    rewrite IH by lia. done. }
  apply H. clear H. induction Hl as [|a l Ha _ IH]; [done|].
  change (encode_all (a :: l)) with (encode a ++ encode_all l). rewrite length_app, length_cons.
  destruct (encode_facts a Ha) as (_ & _ & _ & Hn). destruct (encode a); [done|]. rewrite length_cons. lia.
Qed.

(** ** Hexadecimal digits *)

Lemma hex_value_range c : 0 ≤ hex_value c < 16.
Proof. unfold hex_value. repeat case_match; lia. Qed.

Lemma hex_byte_range a b : is_byte (hex_byte a b).
Proof. unfold hex_byte, is_byte. pose proof (hex_value_range a). pose proof (hex_value_range b). lia. Qed.

Lemma u8_hex_byte a b : u8 (hex_byte a b) = hex_byte a b.
Proof. apply u8_id, hex_byte_range. Qed.

Lemma read_hex_pair a b t : read_hex (a :: b :: t) = Ok (hex_byte a b).
Proof.
  unfold read_hex. pose proof (hex_value_range a). pose proof (hex_value_range b). f_equal.
  rewrite (u8_id (hex_value a)), (u8_id (_ * 16)), u8_id by (unfold is_byte; lia). done.
Qed.

(** ** The buffer holds a list of actions *)

Definition sized (m : amod) : Prop := am_command_len m = zlen (am_command m).
Definition commands (m : amod) (l : list of_action) : Prop := am_command m = encode_all l ∧ sized m.

Lemma realloc_grow b n : 0 ≤ n → realloc b (zlen b + n) = b ++ mem_new n.
Proof.
  intros Hn. unfold realloc. replace (zlen b + n - zlen b) with n by lia. rewrite take_ge; [done|].
  unfold zlen. lia.
Qed.

Lemma encode_snoc l a : encode_all (l ++ [a]) = encode_all l ++ encode a.
Proof. unfold encode_all. rewrite bind_app. cbn. by rewrite app_nil_r. Qed.

Lemma meaning_ok action t a : meaning action t = Some a → action_ok a.
Proof.
  unfold meaning. intros Hm. repeat case_match; simplify_eq; cbn;
    try (apply is_byte_u8 || apply u32_range || (by apply Z.mod_pos_bound) || done).
  all: split; [done|]; repeat (constructor; [apply hex_byte_range|]); constructor.
Qed.

Lemma wr_behind p m k c m' : wr_cells m k c = Ok m' → wr_cells (p ++ m) (zlen p + k) c = Ok (p ++ m').
Proof. by apply wr_cells_shift. Qed.

Lemma wr_behind_0 p m c m' : wr_cells m 0 c = Ok m' → wr_cells (p ++ m) (zlen p) c = Ok (p ++ m').
Proof. apply wr_cells_shift. lia. Qed.

(** A run of writes into the part of the buffer that was added. *)
Ltac wr_new :=
  unfold wr8, wr16be, wr32be, wr_bytes;
  repeat first
    [ rewrite res_bind_assoc
    | rewrite (bind_val (Ok _) _ _ eq_refl); cbv beta
    | erewrite bind_val by (apply wr_behind_0; reflexivity); cbv beta
    | erewrite bind_val by (apply wr_behind; reflexivity); cbv beta ].

Section openflow.
Context {OF : OpenFlow} {L : OFLayout OF} {A : OFActions OF}.

(** Every function that appends leaves the encoding of one action more. *)
Ltac append_run Hl :=
  unfold put_action_header, grow_command; of_layout; rewrite Hl, realloc_grow by lia; rewrite <-?Z.add_assoc; cbv iota beta zeta;
  wr_new.
Ltac appended Hl := append_run Hl; reflexivity.

Section append.
Context (m : amod) (Hl : am_command_len m = zlen (am_command m)).
Let appended a := set_command (am_command m ++ encode a) (zlen (encode a)) m.

Lemma append_output_spec t : append_output 0 t m = Ok (appended (ActOutput (u16 (strtol 10 t)))).
Proof. unfold append_output. appended Hl. Qed.

Lemma append_vlan_vid_spec t :
  append_vlan_vid 1 t m = Ok (match meaning 1 t with Some a => (0, appended a) | None => (-1, m) end).
Proof. unfold append_vlan_vid, meaning. destruct (_ || _); [done|]. appended Hl. Qed.

Lemma append_vlan_pcp_spec t :
  append_vlan_pcp 2 t m = Ok (match meaning 2 t with Some a => (0, appended a) | None => (-1, m) end).
Proof. unfold append_vlan_pcp, meaning. destruct (_ || _); [done|]. appended Hl. Qed.

Lemma append_strip_vlan_spec : append_strip_vlan 3 m = Ok (appended ActStripVlan).
Proof. unfold append_strip_vlan. appended Hl. Qed.

Lemma append_nw_tos_spec t : append_nw_tos 8 t m = Ok (appended (ActSetTos (u8 (strtol 16 t)))).
Proof. unfold append_nw_tos. appended Hl. Qed.

Lemma append_tp_port_spec (d : bool) t :
  append_tp_port (if d then 10 else 9) t m = Ok (appended (ActSetTp d (u16 (strtol 16 t)))).
Proof. unfold append_tp_port. destruct d; appended Hl. Qed.

Lemma append_nw_addr_spec (d : bool) t : let action := if d then 7 else 6 in
  append_nw_addr action t m = Ok (match meaning action t with Some a => (0, appended a) | None => (-1, m) end).
Proof. unfold append_nw_addr, meaning. destruct d; (destruct (_ || _); [done|]); appended Hl. Qed.

Lemma append_dl_addr_spec (d : bool) t : let action := if d then 5 else 4 in
  append_dl_addr action t m = Ok (match meaning action t with Some a => (0, appended a) | None => (-1, m) end).
Proof.
  cbv zeta. unfold append_dl_addr, meaning. destruct (Z.eqb_spec (zlen t) 12) as [Ht|]; [|by destruct d].
  destruct (is_hex t 12); [|by destruct d]. apply (inj Z.of_nat _ 12%nat) in Ht.
  destruct t as [|a1 [|b1 [|a2 [|b2 [|a3 [|b3 [|a4 [|b4 [|a5 [|b5 [|a6 [|b6 [|]]]]]]]]]]]]]; try discriminate Ht.
  cbn [put_hex drop].
  rewrite !read_hex_pair. destruct d; append_run Hl; rewrite !u8_hex_byte; reflexivity.
Qed.
End append.

(** The buffer behind [append_action]. *)
Definition append_one (m : amod) (a : of_action) : amod :=
  set_command (am_command m ++ encode a) (zlen (encode a)) m.

Lemma append_one_commands m l a : commands m l → commands (append_one m a) (l ++ [a]).
Proof.
  intros [Hc Hl]. unfold sized in Hl. split; unfold sized; cbn; [by rewrite Hc, encode_snoc|]. by rewrite Hl, zlen_app.
Qed.

Lemma returns_0 (r : res amod) m : r = Ok m → (m ← r; mret (0, m)) = Ok (0, m).
Proof. by intros ->. Qed.

Lemma append_action_spec action t m :
  0 ≤ action ≤ 10 → sized m →
  append_action action (Some t) m =
    Ok (match meaning action t with Some a => (0, append_one m a) | None => (-1, m) end).
Proof.
  intros Ha Hl. unfold append_action. pose proof of_actions as E.
  injection E as E0 E1 E2 E3 E4 E5 E6 E7 E8 E9 E10. rewrite E0, E1, E2, E3, E4, E5, E6, E7, E8, E9, E10. clear E0 E1 E2 E3 E4 E5 E6 E7 E8 E9 E10.
  assert (action = 0 ∨ action = 1 ∨ action = 2 ∨ action = 3 ∨ action = 4 ∨ action = 5 ∨ action = 6 ∨ action = 7 ∨
    action = 8 ∨ action = 9 ∨ action = 10) as Hin by lia.
  destruct Hin as [->|[->|[->|[->|[->|[->|[->|[->|[->|[->| ->]]]]]]]]]].
  - exact (returns_0 _ _ (append_output_spec m Hl t)).
  - apply (append_vlan_vid_spec m Hl t).
  - apply (append_vlan_pcp_spec m Hl t).
  - exact (returns_0 _ _ (append_strip_vlan_spec m Hl)).
  - apply (append_dl_addr_spec m Hl false).
  - apply (append_dl_addr_spec m Hl true).
  - apply (append_nw_addr_spec m Hl false).
  - apply (append_nw_addr_spec m Hl true).
  - exact (returns_0 _ _ (append_nw_tos_spec m Hl t)).
  - exact (returns_0 _ _ (append_tp_port_spec m Hl false t)).
  - exact (returns_0 _ _ (append_tp_port_spec m Hl true t)).
Qed.

(** Without a value only the VLAN header is stripped. *)
Lemma append_action_none action m :
  0 ≤ action ≤ 10 → sized m →
  append_action action None m = if action =? 3 then Ok (0, append_one m ActStripVlan) else Fault FNull.
Proof.
  intros Ha Hl. unfold append_action. pose proof of_actions as E.
  injection E as E0 E1 E2 E3 E4 E5 E6 E7 E8 E9 E10. rewrite E0, E1, E2, E3, E4, E5, E6, E7, E8, E9, E10. clear E0 E1 E2 E3 E4 E5 E6 E7 E8 E9 E10.
  destruct (Z.eqb_spec action 3) as [->|]; [exact (returns_0 _ _ (append_strip_vlan_spec m Hl))|].
  repeat case_match; done || lia.
Qed.

(** ** Every configuration string leaves a list of actions *)

Definition built (m : amod) (l : list of_action) : Prop := commands m l ∧ Forall action_ok l.

Lemma append_action_built action param m l r m' :
  0 ≤ action ≤ 10 → built m l → append_action action param m = Ok (r, m') → ∃ l', built m' l'.
Proof.
  intros Ha [Hc Hl]. destruct param as [t|].
  - rewrite append_action_spec by (done || apply Hc). destruct (meaning action t) as [a|] eqn:Hm; intros [= <- <-].
    + exists (l ++ [a]). split; [by apply append_one_commands|]. apply Forall_app_2; [done|].
      repeat constructor. by eapply meaning_ok.
    + by exists l.
  - rewrite append_action_none by (done || apply Hc). destruct (action =? 3); [|done]. intros [= <- <-].
    exists (l ++ [ActStripVlan]). split; [by apply append_one_commands|]. apply Forall_app_2; [done|]. by repeat constructor.
Qed.

Lemma read_action_built b p m l b' m' :
  built m l → read_action b p m = Ok (b', m') → ∃ l', built m' l'.
Proof.
  intros Hm. unfold read_action. intros (sl & _ & H)%bind_Ok. apply bind_Ok in H as ([b1 param] & _ & H).
  apply bind_Ok in H as (c & _ & H). apply bind_Ok in H as ([r m1] & H & [= <- <-]).
  destruct ((48 <=? c) && (c <=? 57)) eqn:Hc.
  - eapply append_action_built; [|done..]. lia.
  - destruct (c =? 97); [by eapply (append_action_built 10)|]. injection H as <- <-. by exists l.
Qed.

Lemma action_list_built fuel base len b p m l b' m' :
  built m l → action_list fuel base len b p m = Ok (b', m') → ∃ l', built m' l'.
Proof.
  revert b p m l. induction fuel as [|fuel IH]; intros b p m l Hm; [done|]. cbn [action_list].
  intros (x & _ & H)%bind_Ok. destruct (_ || _); [injection H as <- <-; by exists l|].
  apply bind_Ok in H as (comma & _ & H). destruct (match comma with Some _ => _ | None => _ end) as [q next].
  apply bind_Ok in H as (b1 & _ & H). apply bind_Ok in H as ([b2 m2] & H1 & H2).
  destruct (read_action_built _ _ _ _ _ _ Hm H1) as [l2 Hl2]. by eapply IH.
Qed.

Lemma action_value_built base len b name v m l b' m' :
  built m l → action_value base len b name v m = Ok (b', m') → ∃ l', built m' l'.
Proof.
  intros Hm. unfold action_value. case_bool_decide; [by eapply action_list_built|].
  intros (value & _ & H1)%bind_Ok. apply bind_Ok in H1 as (m1 & H1 & [= <- <-]). exists l.
  unfold action_set_param in H1. repeat case_match; first [discriminate H1 | injection H1 as <-; exact Hm].
Qed.

Lemma action_params_built fuel base len b i m l b' m' :
  built m l → param_loop (action_value base len) fuel b i m = Ok (b', m') → ∃ l', built m' l'.
Proof.
  revert b i m l. induction fuel as [|fuel IH]; intros b i m l Hm; [done|]. cbn [param_loop].
  intros (pos & _ & H)%bind_Ok. destruct pos as [pos|]; [|injection H as <- <-; by exists l].
  apply bind_Ok in H as (b1 & _ & H). apply bind_Ok in H as (value & _ & H). destruct value as [v|]; [|done].
  apply bind_Ok in H as (b2 & _ & H). apply bind_Ok in H as (name & _ & H). apply bind_Ok in H as ([b3 m3] & H1 & H2).
  destruct (action_value_built _ _ _ _ _ _ _ _ _ Hm H1) as [l3 Hl3]. by eapply IH.
Qed.

Lemma built_amod0 : built amod0 [].
Proof. by repeat split. Qed.

(** C32. The command buffer is always a well-formed OpenFlow action list: whatever
    the configuration string, when init of the action module returns, the bytes
    of [command] are the encodings of actions whose fields have the width of
    the protocol, [command_len] is their number, and a switch that walks the
    buffer by the type and length of each action reads exactly those actions. *)
Theorem action_init_well_typed b m b' m' :
  built m [] → action_init b m = Ok (b', m') →
  ∃ l, decode_all (am_command m') = Ok l ∧ Forall action_ok l ∧ am_command m' = encode_all l
    ∧ am_command_len m' = zlen (encode_all l).
Proof.
  intros Hm. unfold action_init. intros (t & _ & H)%bind_Ok. apply bind_Ok in H as (base & _ & H).
  apply bind_Ok in H as ([b1 m1] & H & H1). apply bind_Ok in H1 as (i & _ & [= <- <-]).
  eapply action_params_built in H as (l & [Hc Hlen] & Hl); [|exact Hm]. exists l. rewrite <-(decode_encode_all l Hl), <-Hc.
  split_and!; [done..|exact Hlen].
Qed.

(** ** The actions of the configuration string *)

(** An action as it is written: a digit, or a, and a value behind a slash. *)
Definition item := (Z * option cstring)%type.
Definition item_text (i : item) : cstring := i.1 :: match i.2 with Some t => 47 :: t | None => [] end.
Definition items_text (l : list item) : cstring := l ≫= λ i, item_text i ++ [44].

Definition item_ok (i : item) : Prop :=
  (48 ≤ i.1 ≤ 57 ∨ i.1 = 97) ∧
  match i.2 with Some t => Forall (λ x, x ≠ 44 ∧ x ≠ 0) t | None => i.1 = 51 end.

Definition item_meaning (i : item) : option of_action :=
  match i.2 with
  | Some t => meaning (if i.1 =? 97 then 10 else i.1 - 48) t
  | None => Some ActStripVlan
  end.

Definition append_opt (m : amod) (a : option of_action) : amod := match a with Some a => append_one m a | None => m end.

Lemma append_opt_sized m a : sized m → sized (append_opt m a).
Proof. intros Hm. destruct a; [|done]. unfold sized. cbn. by rewrite Hm, zlen_app. Qed.

(** The first character chooses the action. *)
Lemma chosen_action c v m (b : mem) : 48 ≤ c ≤ 57 ∨ c = 97 → (v = None → c = 51) → sized m →
  ('(_, m) ← (if (48 <=? c) && (c <=? 57) then append_action (c - 48) v m
              else if c =? 97 then append_action 10 v m else mret (0, m)); mret (b, m))
  = Ok (b, append_opt m (item_meaning (c, v))).
Proof.
  intros Hc Hv Hm.
  assert ((if (48 <=? c) && (c <=? 57) then append_action (c - 48) v m
           else if c =? 97 then append_action 10 v m else mret (0, m))
          = append_action (if c =? 97 then 10 else c - 48) v m) as ->.
  { destruct (Z.eqb_spec c 97) as [->|]; [done|].
    replace ((48 <=? c) && (c <=? 57)) with true; [done|]. symmetry. apply andb_true_iff. rewrite !Z.leb_le. lia. }
  destruct v as [t|].
  - rewrite append_action_spec by (done || destruct (Z.eqb_spec c 97); lia). unfold item_meaning. cbn [fst snd].
    by destruct (meaning _ t).
  - rewrite (Hv eq_refl). by rewrite append_action_none.
Qed.

Lemma read_action_spec pre i rest m : item_ok i → sized m →
  ∃ pre', zlen pre' = zlen pre + zlen (item_text i) ∧
    read_action (pre ++ cells (item_text i) ++ Some 0 :: rest) (zlen pre) m
    = Ok (pre' ++ Some 0 :: rest, append_opt m (item_meaning i)).
Proof.
  destruct i as [c v]; intros [Hc Ht] Hm; cbn [fst snd] in *. unfold read_action.
  assert (v = None → c = 51) as Hv by (by intros ->).
  destruct v as [t|]; unfold item_text; cbn [fst snd].
  - rewrite (bind_val _ _ _ (index_at_found pre [c] (cells t ++ Some 0 :: rest) 47 ltac:(constructor; [lia|constructor]))).
    cbv beta iota. exists (pre ++ Some c :: Some 0 :: cells t). split.
    { rewrite !zlen_app. unfold zlen. cbn. unfold cells. rewrite length_fmap. lia. }
    change (pre ++ cells (c :: 47 :: t) ++ Some 0 :: rest) with (pre ++ [Some c] ++ Some 47 :: cells t ++ Some 0 :: rest).
    rewrite app_assoc, (bind_val (wr8 _ _ _) _ (((pre ++ [Some c]) ++ [Some 0]) ++ cells t ++ Some 0 :: rest))
      by (rewrite wr8_pre; [by rewrite <-!app_assoc|rewrite zlen_app; done]). cbv beta.
    rewrite (bind_val (text_at _ _) _ t). 2:{ replace (zlen pre + zlen [c] + 1) with (zlen ((pre ++ [Some c]) ++ [Some 0]))
        by (rewrite !zlen_app; unfold zlen; cbn; lia). apply text_at_pre. eapply Forall_impl; [exact Ht|]. naive_solver. }
    cbn [mret res_ret mbind res_bind]. rewrite <-!app_assoc. cbn [app]. rewrite (rd8_pre pre c _ _ eq_refl). by apply chosen_action.
  - rewrite (bind_val _ _ _ (index_at_none pre [c] rest 47 ltac:(done) ltac:(constructor; [lia|constructor]))).
    exists (pre ++ [Some c]). split; [rewrite zlen_app; done|]. cbn [mret res_ret mbind res_bind].
    change (cells [c] ++ Some 0 :: rest) with (Some c :: Some 0 :: rest). rewrite (rd8_pre pre c (Some 0 :: rest) _ eq_refl). rewrite <-app_assoc. by apply chosen_action.
Qed.

(** The actions of the list one after the other. *)
Definition append_items (m : amod) (l : list item) : amod := foldl (λ m i, append_opt m (item_meaning i)) m l.

Lemma item_chars i : item_ok i → Forall (λ x, x ≠ 44 ∧ x ≠ 0) (item_text i).
Proof. intros [Hc Ht]. unfold item_text. constructor; [lia|]. destruct (i.2); [|constructor]. by constructor; [lia|]. Qed.

Lemma items_text_cons i l r : items_text (i :: l) ++ r = item_text i ++ 44 :: items_text l ++ r.
Proof. change (items_text (i :: l)) with ((item_text i ++ [44]) ++ items_text l). by rewrite <-!app_assoc. Qed.

Lemma zlen_items_cons i l : zlen (items_text (i :: l)) = zlen (item_text i) + 1 + zlen (items_text l).
Proof. pose proof (items_text_cons i l []) as E. rewrite !app_nil_r in E. rewrite E, zlen_app. unfold zlen. cbn. lia. Qed.

(** The test of the loop, at the first character of an action. *)
Lemma action_list_enter fuel base len pre i r m : item_ok i → zlen pre < base + len →
  action_list (S fuel) base len (pre ++ cells (item_text i) ++ r) (zlen pre) m =
  (comma ← index_at (pre ++ cells (item_text i) ++ r) 44 (zlen pre);
   let '(q, next) := match comma with Some c => (c, c + 1) | None => (base + len + 1, base + len + 1) end in
   b ← wr8 (pre ++ cells (item_text i) ++ r) q 0;
   '(b, m) ← read_action b (zlen pre) m;
   action_list fuel base len b next m).
Proof.
  intros [Hc _] Hb. cbn [action_list].
  assert (rd8 (pre ++ cells (item_text i) ++ r) (zlen pre) = Ok i.1) as Hrd by (unfold item_text; by apply rd8_pre).
  rewrite (bind_val _ _ _ Hrd). cbv beta.
  by replace ((i.1 =? 32) || (i.1 =? 0) || negb (base + len >? zlen pre)) with false
    by (symmetry; rewrite !orb_false_iff, negb_false_iff, !Z.eqb_neq, Z.gtb_lt; lia).
Qed.

(** An action with its comma: it is appended, and the loop goes on behind. *)
Lemma action_list_step fuel base len pre i r m : item_ok i → sized m → zlen pre < base + len →
  ∃ pre', zlen pre' = zlen pre + zlen (item_text i) + 1 ∧
    action_list (S fuel) base len (pre ++ cells (item_text i) ++ Some 44 :: r) (zlen pre) m
    = action_list fuel base len (pre' ++ r) (zlen pre') (append_opt m (item_meaning i)).
Proof.
  intros Hi Hm Hb. destruct (read_action_spec pre i r m Hi Hm) as (pre1 & Hz1 & Hr).
  exists (pre1 ++ [Some 0]). rewrite zlen_app, Hz1. change (zlen [Some 0]) with 1. split; [done|].
  rewrite action_list_enter by done.
  rewrite (bind_val _ _ _ (index_at_found pre (item_text i) _ 44 (item_chars i Hi))). cbv beta iota.
  rewrite (bind_val _ _ (pre ++ cells (item_text i) ++ Some 0 :: r)).
  2:{ rewrite app_assoc, wr8_pre by (by rewrite zlen_app, zlen_cells). by rewrite <-app_assoc. }
  cbv beta. rewrite (bind_val _ _ _ Hr). cbv beta iota. by rewrite <-app_assoc.
Qed.

(** The actions in front of the rest of the text. *)
Lemma action_list_run l base len pre r fuel m : Forall item_ok l → sized m →
  zlen pre + zlen (items_text l) ≤ base + len →
  ∃ pre', zlen pre' = zlen pre + zlen (items_text l) ∧
    action_list (length l + fuel) base len (pre ++ cells (items_text l) ++ r) (zlen pre) m
    = action_list fuel base len (pre' ++ r) (zlen pre') (append_items m l).
Proof.
  intros Hl. revert pre m. induction Hl as [|i l Hi _ IH]; intros pre m Hm Hb.
  { exists pre. split; [unfold zlen; cbn; lia|done]. }
  rewrite zlen_items_cons in Hb |- *. pose proof (zlen_nonneg (items_text l)).
  assert (0 < zlen (item_text i)) by (unfold item_text, zlen; cbn; lia).
  destruct (action_list_step (length l + fuel) base len pre i (cells (items_text l) ++ r) m Hi Hm) as (pre1 & Hz1 & E1); [lia|].
  destruct (IH pre1 (append_opt m (item_meaning i))) as (pre2 & Hz2 & E2); [by apply append_opt_sized|lia|].
  exists pre2. split; [lia|]. cbn [length Nat.add].
  change (append_items m (i :: l)) with (append_items (append_opt m (item_meaning i)) l). rewrite <-E2, <-E1. do 2 f_equal.
  pose proof (items_text_cons i l []) as E. rewrite !app_nil_r in E. by rewrite E, cells_app, cells_cons, <-app_assoc.
Qed.

Lemma action_list_spec l base len pre rest fuel m : Forall item_ok l → sized m → (length l < fuel)%nat →
  zlen pre + zlen (items_text l) ≤ base + len →
  ∃ pre', zlen pre' = zlen pre + zlen (items_text l) ∧
    action_list fuel base len (pre ++ cells (items_text l) ++ Some 0 :: rest) (zlen pre) m
    = Ok (pre' ++ Some 0 :: rest, append_items m l).
Proof.
  intros Hl Hm Hf Hb. destruct (action_list_run l base len pre (Some 0 :: rest) (fuel - length l) m Hl Hm Hb) as (pre' & Hz & E).
  exists pre'. split; [done|]. replace (length l + (fuel - length l))%nat with fuel in E by lia. rewrite E.
  destruct (fuel - length l)%nat as [|n] eqn:En; [lia|]. cbn [action_list].
  by rewrite (bind_val _ _ _ (rd8_pre pre' 0 rest _ eq_refl)).
Qed.

(** Behind an action without a comma a zero is written at a fixed place. *)
Lemma action_list_unended l i base len pre rest fuel m : Forall item_ok l → item_ok i → sized m → (length l < fuel)%nat →
  zlen pre + zlen (items_text l) < base + len →
  zlen (pre ++ cells (items_text l ++ item_text i) ++ Some 0 :: rest) ≤ base + len + 1 →
  action_list fuel base len (pre ++ cells (items_text l ++ item_text i) ++ Some 0 :: rest) (zlen pre) m = Fault FBounds.
Proof.
  intros Hl Hi Hm Hf Hb Hend. rewrite cells_app, <-app_assoc in Hend |- *.
  destruct (action_list_run l base len pre (cells (item_text i) ++ Some 0 :: rest) (fuel - length l) m Hl Hm)
    as (pre' & Hz & E); [lia|]. replace (length l + (fuel - length l))%nat with fuel in E by lia. rewrite E.
  destruct (fuel - length l)%nat as [|n] eqn:En; [lia|]. rewrite action_list_enter by (done || lia).
  assert (Forall (λ x, x ≠ 44 ∧ x ≠ 0) (item_text i)) as Hc by (by apply item_chars).
  rewrite (bind_val _ _ _ (index_at_none pre' (item_text i) rest 44 ltac:(done) Hc)). cbv beta iota.
  unfold wr8, wr_bytes, wr_cells. rewrite decide_False; [done|].
  rewrite !zlen_app, !zlen_cells in Hend. unfold in_bounds. rewrite !zlen_app, !zlen_cells. unfold zlen in *. cbn [length] in *. lia.
Qed.

(** A text cut behind every comma, and an action read from a piece. *)
Fixpoint cut (cur s : cstring) : list cstring :=
  match s with
  | [] => []
  | c :: s => if c =? 44 then cur :: cut [] s else cut (cur ++ [c]) s
  end.
Definition item_of (t : cstring) : item :=
  match t with c :: x :: v => (c, Some v) | c :: [] => (c, None) | [] => (0, None) end.
Definition items_of (v : cstring) : list item := item_of <$> cut [] v.

Lemma cut_piece cur t r : Forall (λ x, x ≠ 44) t → cut cur (t ++ 44 :: r) = (cur ++ t) :: cut [] r.
Proof.
  intros Ht. revert cur. induction Ht as [|x t Hx _ IH]; intros cur; cbn [app cut].
  - by rewrite app_nil_r.
  - replace (x =? 44) with false by lia. by rewrite IH, <-app_assoc.
Qed.

Lemma items_of_text l : Forall item_ok l → items_of (items_text l) = l.
Proof.
  unfold items_of. induction 1 as [|i l Hi _ IH]; [done|].
  change (items_text (i :: l)) with ((item_text i ++ [44]) ++ items_text l). rewrite <-app_assoc. cbn [app].
  rewrite cut_piece by (eapply Forall_impl; [by apply item_chars|]; naive_solver). cbn [app fmap list_fmap].
  f_equal; [by destruct i as [c []]|exact IH].
Qed.

(** What a parameter does to the variables of the module. *)
Definition action_param (name v : cstring) (m : amod) : res amod :=
  if bool_decide (name = str "action") then mret (append_items m (items_of v)) else action_set_param name v m.
Definition action_good (p : param) : Prop :=
  p.1 = str "action" → ∃ l, p.2 = items_text l ∧ Forall item_ok l.

Lemma append_items_sized l m : sized m → sized (append_items m l).
Proof. revert m. induction l as [|i l IH]; intros m Hm; [done|]. cbn. by apply IH, append_opt_sized. Qed.

Lemma action_param_sized name v m m' : sized m → action_param name v m = Ok m' → sized m'.
Proof.
  intros Hm. unfold action_param. case_bool_decide; [intros [= <-]; by apply append_items_sized|].
  unfold action_set_param. repeat case_match; (done || by intros [= <-]).
Qed.

Lemma action_value_spec base len pre name v rest m : sized m → is_param (name, v) → action_good (name, v) →
  zlen pre + zlen v ≤ base + len →
  ∃ pre', zlen pre' = zlen pre + zlen v ∧
    action_value base len (pre ++ cells v ++ Some 0 :: rest) name (zlen pre) m
    = (m' ← action_param name v m; mret (pre' ++ Some 0 :: rest, m')).
Proof.
  intros Hm Hp Hg Hlen. unfold action_value, action_param. case_bool_decide as Hn.
  - destruct (Hg Hn) as (l & E & Hl). cbn in E. subst v. rewrite items_of_text by done.
    destruct (action_list_spec l base len pre rest (S (length (pre ++ cells (items_text l) ++ Some 0 :: rest))) m Hl Hm)
      as (pre' & Hz & ->); [|done|by exists pre'].
    assert (length l ≤ length (items_text l))%nat.
    { clear. induction l as [|i l IH]; [done|]. change (items_text (i :: l)) with ((item_text i ++ [44]) ++ items_text l).
      rewrite !length_app. cbn. lia. }
    rewrite !length_app. unfold cells. rewrite length_fmap. cbn. lia.
  - by apply (text_value_spec action_set_param (base + len)).
Qed.

(** init, as the parameters of its string read. *)
Lemma action_init_run k ps m : Forall (is_good action_good) ps → sized m →
  ∃ b', action_init (config_buffer k ps) m =
    (m' ← apply_params action_param ps (m <| am_cli_param := Some (replicate k 32 ++ config_text ps) |>);
     i ← send_interval (am_pkt_size m') (am_datarate m'); mret (b', m' <| am_interval := i |>)).
Proof.
  intros Hps Hm. unfold action_init, config_buffer, buffer. set (t := replicate k 32 ++ config_text ps).
  assert (Forall (λ x, x ≠ 0) t) as Ht.
  { apply Forall_app_2; [apply Forall_replicate; lia|]. unfold config_text. apply Forall_bind.
    eapply Forall_impl; [exact Hps|]. intros [n v] [[Hn Hv] _]. cbn in Hn, Hv. unfold param_text. cbn.
    apply Forall_app_2; [eapply Forall_impl; [exact Hn|]; naive_solver|]. constructor; [lia|].
    apply Forall_app_2; [eapply Forall_impl; [exact Hv|]; naive_solver|]. by repeat constructor. }
  rewrite (bind_val (text_at _ 0) _ t (text_at_pre [] t [] Ht)). cbv beta.
  assert (zlen t = Z.of_nat k + zlen (config_text ps)) as Hz
    by (unfold t, zlen; rewrite length_app, length_replicate; lia).
  destruct (params_run (action_value (Z.of_nat k) (zlen t)) action_param sized action_good (Z.of_nat k + zlen t)
    (action_value_spec _ _) action_param_sized k ps 0 [] (m <| am_cli_param := Some t |>) Hps ltac:(done) Hm)
    as (pre' & fuel & _ & Hf & Hs & Hl); [lia|]. fold t in Hs, Hl.
  exists (pre' ++ [Some 0]). rewrite (bind_val _ _ _ Hs). cbv beta. rewrite Hl.
  destruct (apply_params action_param ps _) as [m1|]; [|done]. cbn [mbind res_bind].
  rewrite param_loop_end by done. done.
Qed.

Lemma items_no_zero l : Forall item_ok l → Forall (λ c, c ≠ 0) (items_text l).
Proof.
  intros Hl. unfold items_text. apply Forall_bind. eapply Forall_impl; [exact Hl|]. intros j Hj.
  apply Forall_app_2; [|by repeat constructor]. eapply Forall_impl; [by apply item_chars|naive_solver].
Qed.

Lemma items_length l : (length l ≤ length (items_text l))%nat.
Proof.
  induction l as [|i l IH]; [done|]. change (items_text (i :: l)) with ((item_text i ++ [44]) ++ items_text l).
  rewrite !length_app. cbn. lia.
Qed.

(** A list of actions without its last comma. *)
Lemma action_init_unended k l i m : Forall item_ok l → item_ok i → Forall (λ c, c ≠ 32) (items_text l ++ item_text i) → sized m →
  action_init (config_buffer k [(str "action", items_text l ++ item_text i)]) m = Fault FBounds.
Proof.
  intros Hl Hi Hb Hm. set (v := items_text l ++ item_text i) in *.
  assert (Forall (λ c, c ≠ 0) v) as H0
    by (apply Forall_app_2; [by apply items_no_zero|eapply Forall_impl; [by apply item_chars|naive_solver]]).
  assert (Forall (λ c, c ≠ 0 ∧ c ≠ 32) (str "action")) as Ha by (apply (bool_decide_unpack _); vm_compute; done).
  assert (is_param (str "action", v)) as Hp.
  { split; [apply (bool_decide_unpack _); vm_compute; done|]. cbn [snd]. rewrite !Forall_forall in *. naive_solver. }
  set (t := replicate k 32 ++ config_text [(str "action", v)]).
  assert (t = replicate k 32 ++ str "action" ++ 61 :: v ++ [32]) as Et by (unfold t, config_text; cbn; by rewrite app_nil_r).
  assert (Forall (λ x, x ≠ 0) t) as Ht.
  { rewrite Et. apply Forall_app_2; [apply Forall_replicate; lia|]. apply Forall_app_2; [eapply Forall_impl; [exact Ha|]; naive_solver|].
    constructor; [lia|]. apply Forall_app_2; [exact H0|by repeat constructor]. }
  assert (zlen t = Z.of_nat k + 7 + zlen v + 1) as Hzt
    by (rewrite Et; unfold zlen; rewrite !length_app, length_replicate, length_cons, length_app; cbn; lia).
  unfold action_init. change (config_buffer k [(str "action", v)]) with (cells t ++ [Some 0]).
  rewrite (bind_val (text_at _ 0) _ t (text_at_pre [] t [] Ht)). cbv beta. change (cells t ++ [Some 0]) with (config_buffer k [(str "action", v)]).
  set (m1 := m <| am_cli_param := Some t |>). assert (sized m1) as Hm1 by exact Hm.
  destruct (param_first (action_value (Z.of_nat k) (zlen t)) k (str "action") v m1 Hp) as [Hs Hr].
  rewrite (bind_val _ _ _ Hs). etransitivity; [exact (f_equal (mbind _) Hr)|]. clear Hr.
  unfold action_value. rewrite bool_decide_eq_true_2 by done.
  set (pre := replicate k (Some 32) ++ cells (str "action") ++ [Some 0]).
  assert (zlen pre = Z.of_nat k + 7) as Hz by (unfold pre, zlen; rewrite !length_app, length_replicate; cbn; lia).
  change (replicate k (Some 32) ++ cells (str "action") ++ Some 0 :: cells v ++ [Some 0; Some 0])
    with (replicate k (Some 32) ++ cells (str "action") ++ [Some 0] ++ cells v ++ Some 0 :: [Some 0]).
  rewrite !(app_assoc (replicate _ _)), (app_assoc _ [Some 0]), <-(app_assoc (replicate _ _)). fold pre.
  replace (Z.of_nat k + zlen (str "action") + 1) with (zlen pre) by (rewrite Hz; change (zlen (str "action")) with 6; lia).
  unfold v. rewrite action_list_unended; try done; fold v.
  - pose proof (items_length l). rewrite !length_app. unfold cells. rewrite !length_fmap. unfold v. rewrite length_app. lia.
  - unfold v in Hzt. rewrite zlen_app in Hzt. pose proof (zlen_nonneg (item_text i)). lia.
  - rewrite !zlen_app, zlen_cells, Hz, Hzt. change (zlen (Some 0 :: [Some 0])) with 2. lia.
Qed.

(** ** What SND_ACT sends *)

(** The functions that clear the structure, or set all of it. *)
Definition complete (a : of_action) : bool :=
  match a with ActSetDl _ _ | ActSetTos _ | ActSetTp _ _ => false | _ => true end.

Lemma bytes_of_encode a :
  if complete a then ∃ bs, bytes_of (encode a) = Ok bs else bytes_of (encode a) = Fault FUninit.
Proof.
  destruct a; cbn [complete]; try (eexists; by apply bytes_of_cells); unfold encode; by rewrite bytes_of_app.
Qed.

Lemma bytes_of_encode_all l :
  if forallb complete l then ∃ bs, bytes_of (encode_all l) = Ok bs else bytes_of (encode_all l) = Fault FUninit.
Proof.
  induction l as [|a l IH]; [by eexists|]. change (encode_all (a :: l)) with (encode a ++ encode_all l). cbn [forallb].
  pose proof (bytes_of_encode a) as Ha. destruct (complete a); cbn [andb].
  - destruct Ha as [bs Hbs]. rewrite (bytes_of_Ok _ _ Hbs), bytes_of_app. destruct (forallb complete l).
    + destruct IH as [r ->]. by eexists.
    + by rewrite IH.
  - clear IH. revert Ha. generalize (encode a). intros c. induction c as [|[x|] c IH]; [done| |done].
    cbn. destruct (bytes_of c) as [|f] eqn:E; [done|]. intros [= ->]. by rewrite (IH eq_refl).
Qed.

Lemma flow_mod_msg_length len fl command idle prio op flags r : flow_ok fl → 0 ≤ len < 65536 →
  rd16be (cells (flow_mod_msg len fl command idle prio op flags []) ++ r) ofp_header_length = Ok len.
Proof.
  intros Hok Hl. apply rd16be_app. pose proof (fo_src _ Hok) as Hs. pose proof (fo_dst _ Hok) as Hd.
  destruct fl as [mask port src dst vlan ty nsrc ndst pr ts td]. cbn in Hs, Hd. six src Hs. six dst Hd. of_layout.
  exact (f_equal Ok (un_be16_be16 len Hl)).
Qed.

Lemma drop_flow_mod_msg len fl command idle prio op flags tail : flow_ok fl →
  drop 72 (flow_mod_msg len fl command idle prio op flags tail) = tail.
Proof.
  intros Hok. pose proof (fo_src _ Hok) as Hs. pose proof (fo_dst _ Hok) as Hd.
  destruct fl as [mask port src dst vlan ty nsrc ndst pr ts td]. cbn in Hs, Hd. six src Hs. six dst Hd. done.
Qed.

(** SND_ACT: one flow modification whose actions a switch reads as those of the
    buffer, or a message with bytes that were never set. *)
Lemma send_action_spec m s fl l :
  am_fl_probe m = Some fl → flow_ok fl → built m l → fluid_control (ctx s) ≠ 0 →
  72 + zlen (encode_all l) < 65536 → is_u16 OFPFC_ADD →
  if forallb complete l then
    ∃ bs, send_action m s = Ok (s <| control_out := control_out s ++ [bs] |>)
      ∧ flow_mod_for bs (zlen bs) fl ∧ be16_at bs 56 = OFPFC_ADD ∧ decode_all (cells (drop 72 bs)) = Ok l
  else send_action m s = Fault FUninit.
Proof.
  intros Hf Hok [[Hc Hl] Hall] Hctl Hlen Hadd. unfold send_action. rewrite Hf, Hl, Hc.
  rewrite (bind_val _ _ _ (make_ofp_flow_modify_cells fl (encode_all l) 1 1200 Hok)). cbv beta iota.
  pose proof (bytes_of_encode_all l) as Hb. pose proof (zlen_nonneg (encode_all l)).
  set (len := 72 + zlen (encode_all l)) in *. assert (is_u16 1200) as H1200 by (unfold is_u16; lia).
  pose proof (flow_mod_msg_length len fl OFPFC_ADD 1200 0 0 0 (encode_all l) Hok ltac:(lia)) as Hr.
  assert (zlen (cells (flow_mod_msg len fl OFPFC_ADD 1200 0 0 0 []) ++ encode_all l) = len) as Hz.
  { destruct (flow_mod_msg_for 72 fl OFPFC_ADD 1200 0 0 0 [] Hok eq_refl ltac:(lia)) as (Hz & _).
    rewrite zlen_app, zlen_cells. unfold zlen in *. unfold flow_mod_msg in *. rewrite !length_app in *. cbn in *. lia. }
  destruct (forallb complete l).
  - destruct Hb as [acts Hb]. apply bytes_of_Ok in Hb.
    assert (cells (flow_mod_msg len fl OFPFC_ADD 1200 0 0 0 []) ++ encode_all l =
            cells (flow_mod_msg len fl OFPFC_ADD 1200 0 0 0 acts)) as E.
    { rewrite (flow_mod_msg_tail _ _ _ _ _ _ _ acts), Hb. unfold cells. by rewrite fmap_app. }
    rewrite E in *. rewrite zlen_cells in Hz.
    rewrite (bind_val _ _ _ (send_message _ s Hctl ltac:(by rewrite Hz; lia) ltac:(by rewrite Hz))). eexists. split; [reflexivity|]. rewrite Hz.
    split; [apply flow_mod_msg_for; [done| |lia]; subst len; by rewrite Hb, zlen_cells|].
    split; [exact (proj1 (flow_mod_msg_command len fl OFPFC_ADD 1200 0 0 0 acts Hok Hadd H1200))|]. rewrite drop_flow_mod_msg by done. rewrite <-Hb. by apply decode_encode_all.
  - rewrite send_unset; [done|done|by rewrite Hz; lia|by rewrite Hz|by rewrite bytes_of_app, Hb].
Qed.

Lemma append_items_built l m l0 : built m l0 → built (append_items m l) (l0 ++ omap item_meaning l).
Proof.
  revert m l0. induction l as [|i l IH]; intros m l0 Hm; [by rewrite app_nil_r|]. cbn.
  destruct (item_meaning i) as [a|] eqn:Ha; [|by apply IH]. cbn.
  replace (l0 ++ a :: omap item_meaning l) with ((l0 ++ [a]) ++ omap item_meaning l) by (by rewrite <-app_assoc).
  apply IH. split; [by apply append_one_commands, Hm|]. apply Forall_app_2; [apply Hm|]. repeat constructor.
  unfold item_meaning in Ha. destruct i as [c [t|]]; cbn in Ha; [by eapply meaning_ok|]. by injection Ha as <-.
Qed.

Lemma append_items_other l m :
  am_pkt_size (append_items m l) = am_pkt_size m ∧ am_datarate (append_items m l) = am_datarate m.
Proof.
  revert m. induction l as [|i l IH]; intros m; [done|].
  change (append_items m (i :: l)) with (append_items (append_opt m (item_meaning i)) l).
  destruct (IH (append_opt m (item_meaning i))) as [-> ->].
  by destruct (item_meaning i).
Qed.

Lemma items_param l : Forall item_ok l → Forall (λ c, c ≠ 32) (items_text l) →
  is_good action_good (str "action", items_text l).
Proof.
  intros Hl Hb. split; [split; cbn|by exists l].
  - apply (bool_decide_unpack _). vm_compute. done.
  - rewrite !Forall_forall in *. intros x Hx. split; [|by apply Hb]. unfold items_text in Hx.
    apply list_elem_of_bind in Hx as (i & Hx & Hi). apply elem_of_app in Hx as [Hx|Hx].
    + pose proof (item_chars i (Hl i Hi)) as Hc. rewrite Forall_forall in Hc. by apply Hc.
    + apply list_elem_of_singleton in Hx. lia.
Qed.

End openflow.

(** ** Examples *)

(** action=0/2,1/5,3,1/4095, : output to port 2, VLAN 5, strip the tag; the last
    VLAN identifier is refused. *)
Definition demo_items : list item :=
  [(48, Some (str "2")); (49, Some (str "5")); (51, None); (49, Some (str "4095"))].

Lemma demo_items_ok : Forall item_ok demo_items.
Proof.
  repeat constructor; cbn; try lia; apply (bool_decide_unpack _); vm_compute; done.
Qed.

Definition demo_run : mem * amod :=
  match action_init (OF := of10) (config_buffer 1 [(str "action", items_text demo_items)]) amod0 with
  | Ok r => r
  | Fault _ => ([], amod0)
  end.

Lemma action_init_well_typed_witness :
  action_init (OF := of10) (config_buffer 1 [(str "action", items_text demo_items)]) amod0
  = Ok (demo_run.1, demo_run.2) ∧
  ∃ l, decode_all (am_command demo_run.2) = Ok l ∧ Forall action_ok l ∧ am_command demo_run.2 = encode_all l
    ∧ am_command_len demo_run.2 = zlen (encode_all l).
Proof.
  assert (action_init (OF := of10) (config_buffer 1 [(str "action", items_text demo_items)]) amod0
    = Ok (demo_run.1, demo_run.2)) as H by (vm_compute; reflexivity).
  split; [exact H|]. exact (action_init_well_typed (OF := of10) _ _ _ _ built_amod0 H).
Defined.

