(* ===== verification/ActionReport.v ===== *)
(** * What the action module reports

    From the frames captured on the data channels to the lines of the log. *)

From S2P Require Import Prelude CTime CBytes CStr OpenFlow WcEvent PcapTrack Msg MsgSpec Context Harness ModuleRunSpec.
From S2P Require Import OfFrame TrafficGen TrafficKernel TrafficSpec Cbench TestModule MeasureModule ProbeSpec MeasureSpec ActionModule.
Open Scope Z_scope.

Section report.
Context (inet_addr : cstring → Z) (nf_extract : Z → mem → Z → option pktgen_hdr).
Context {F D : Type} {Fl : Floating F} {Db : Floating D}.
Context (gsl_sort : list D → list D) (gsl_mean gsl_variance gsl_median : list D → D).
Context (to_uint : D → Z) (fmt4 : F → cstring).

(** The captures of a test, one after the other. *)
Fixpoint action_captures (xs : list seen) (m : amod) (s : harness) : res amod :=
  match xs with
  | [] => mret m
  | x :: xs =>
    m ← action_handle_pcap_event nf_extract (sn_hdr x) (cells (frame_bytes (sn_frame x))) (sn_ch x) m s;
    action_captures xs m s
  end.

Definition action_entries (xs : list seen) : list entry := entry_seen (λ _, 0) <$> xs.

Lemma action_captures_counted xs m s es :
  Forall (seen_ok inet_addr (ctx s)) xs → counted (am_probes m) es → zlen es + zlen xs ≤ INT_MAX →
  ∃ p, action_captures xs m s = Ok (m <| am_probes := p |>) ∧ counted p (es ++ action_entries xs).
Proof.
  intros Hxs. revert m es. induction Hxs as [|x xs Hx _ IH]; intros m es Hm Hn.
  { exists (am_probes m). split; [by destruct m|by rewrite app_nil_r]. }
  assert (zlen (x :: xs) = zlen xs + 1) as Hz by (unfold zlen; rewrite length_cons; lia).
  pose proof (zlen_nonneg xs).
  destruct (seen_extract inet_addr nf_extract _ _ Hx) as [Hch Hex].
  destruct (capture_counted (entry_seen (λ _, 0) x) (am_probes m) es Hm) as (p1 & Hp1 & Hc1);
    [by eapply entry_seen_on_data|lia|].
  destruct (IH (m <| am_probes := p1 |>) (es ++ [entry_seen (λ _, 0) x])) as (p & Hrun & Hp); [done| |].
  { rewrite zlen_app. change (zlen [_]) with 1. lia. }
  exists p. split; [|by rewrite <-app_assoc in Hp].
  cbn [action_captures]. unfold action_handle_pcap_event. rewrite Hch, Hex. cbn [mbind res_bind].
  unfold entry_seen in Hp1. rewrite Hp1. cbn [mbind res_bind mret res_ret]. rewrite Hrun. done.
Qed.

(** C33. The action module, from capture to log: whatever frames come back on
    the data channels, every one of them is kept and counted; at the end the log
    gets, for each channel that saw any, one line with the mean, median and
    deviation of the delays of exactly its frames, the ratio of their number to
    the range of their ids, and their number, and the file of the module gets
    one line per frame when it was asked for.  All this holds if the records can
    still be read after they were released; if not, the report of any captured
    frame uses a released record. *)
Theorem action_probes_reported xs m s ls chan out kept now :
  counted (am_probes m) [] → Forall (seen_ok inet_addr (ctx s)) xs → zlen xs ≤ INT_MAX →
  printable (am_print m) out → measurable chan (action_entries xs) s → logger s = Some ls →
  ∃ m', action_captures xs m s = Ok m' ∧
    action_destroy gsl_sort gsl_mean gsl_variance gsl_median to_uint fmt4 out kept now m' s =
      if kept || bool_decide (xs = [])
      then Ok (s <| logger := Some (ls ++ stats_lines gsl_sort gsl_mean gsl_variance gsl_median to_uint fmt4 now chan
                                            (action_entries xs)) |>,
               printed action_entry_line (am_print m) (action_entries xs))
      else Fault FDangling.
Proof.
  intros Hm Hxs Hn Hp Hmeas Hl. destruct (action_captures_counted xs m s [] Hxs Hm) as (p & Hrun & Hc).
  { unfold zlen in *. cbn. lia. }
  exists (m <| am_probes := p |>). split; [done|]. unfold action_destroy. cbn [app] in Hc.
  rewrite (report_spec _ _ _ _ _ _ _ _ _ _ _ chan p (action_entries xs) s ls) by done.
  replace (bool_decide (xs = [])) with (bool_decide (action_entries xs = [])); [done|].
  apply bool_decide_ext. unfold action_entries. by destruct xs.
Qed.
End report.

(** ** An example: two frames on the first data channel *)

#[local] Existing Instance integers.

Definition demo_seen (i : Z) : seen :=
  {| sn_hdr := {| ts := {| tv_sec := 100 + i; tv_usec := 7 |}; caplen := zlen (frame_bytes (probe_frame i)); pkt_len := 64 |};
     sn_det := probe_demo; sn_frame := probe_frame i; sn_ch := OFLOPS_DATA1 |}.
Definition demo_captured : list seen := [demo_seen 0; demo_seen 1].
Definition demo_amod : amod := amod0 <| am_probes := probes0 <| pr_head := Some [] |> |>.

Lemma demo_seen_ok i : i = 0 ∨ i = 1 → seen_ok probe_inet (ctx probe_harness) (demo_seen i).
Proof. intros [-> | ->]; split_and!; first [exact probe_harness_ok | done]. Qed.

Lemma action_probes_reported_witness :
  ∃ m', action_captures (λ _ _ _, None) demo_captured demo_amod probe_harness = Ok m' ∧
    action_destroy (F := Z) (D := Z) (λ l, l) (λ l, foldr Z.max 0 l) (λ _, 0) (λ l, foldr Z.min 0 l) (λ z, z) dec
      None true tv0 m' probe_harness =
      Ok (probe_harness <| logger := Some (stats_lines (λ l, l) (λ l, foldr Z.max 0 l) (λ _, 0) (λ l, foldr Z.min 0 l)
            (λ z, z) dec tv0 (λ _, demo_channel 6 0 PCAP) (action_entries demo_captured)) |>, []).
Proof.
  assert (measurable (λ _, demo_channel 6 0 PCAP) (action_entries demo_captured) probe_harness) as Hm.
  { intros c [-> |[-> | ->]]%three H; [|by destruct H..]. split; [done|]. vm_compute. split; congruence. }
  assert (Forall (seen_ok probe_inet (ctx probe_harness)) demo_captured) as Hs.
  { constructor; [apply demo_seen_ok; by left|]. constructor; [apply demo_seen_ok; by right|constructor]. }
  exact (action_probes_reported probe_inet (λ _ _ _, None) (F := Z) (D := Z) (λ l, l) (λ l, foldr Z.max 0 l) (λ _, 0)
    (λ l, foldr Z.min 0 l) (λ z, z) dec demo_captured demo_amod probe_harness [] (λ _, demo_channel 6 0 PCAP) None true tv0
    counted_init Hs ltac:(done) ltac:(by left) Hm eq_refl).
Defined.
