(* ===== verification/ModFlowSpec.v ===== *)
(** * What the flow modification module does

    The messages that install and redirect the flows, and the end of the test. *)

From S2P Require Import Prelude CTime CBytes CStr OpenFlow WcEvent WcQueue PcapTrack TimerEvent Msg MsgSpec Context Harness.
From S2P Require Import OfFrame WcRefine ModuleRunSpec TrafficGen TrafficKernel TrafficSpec Cbench TestModule MeasureModule ProbeSpec MeasureSpec ModFlowModule.
Open Scope Z_scope.

Section messages.
Context {OF : OpenFlow} {L : OFLayout OF} (inet_addr : cstring → Z).

(** ** Messages *)

Definition install_msg (fl : flow) (port : Z) : list Z :=
  flow_mod_msg 80 fl OFPFC_ADD 120 1000 0 OFPFF_SEND_FLOW_REM (output_action port).
Definition redirect_msg (fl : flow) (port : Z) : list Z :=
  flow_mod_msg 80 fl OFPFC_ADD 1200 0 0 OFPFF_SEND_FLOW_REM (output_action port).
Definition barrier_msg : list Z := [u8 OFP_VERSION; u8 OFPT_BARRIER_REQUEST] ++ be16 8 ++ [0; 0; 0; 0].

Lemma barrier_request_spec : barrier_request = Ok (cells barrier_msg).
Proof. unfold barrier_request, make_ofp_hello, ofp_init. of_layout. reflexivity. Qed.

Lemma send_barrier s : fluid_control (ctx s) ≠ 0 →
  oflops_send_of_mesg (cells barrier_msg) s = Ok (8, s <| control_out := control_out s ++ [barrier_msg] |>).
Proof. intros Hc. apply (send_message barrier_msg s Hc); [done|]. of_layout. reflexivity. Qed.

(** ** The range of flows *)

Section range.
Context (table : Z) (mac : list Z) (in_port : Z).
Hypotheses (Hmask : is_u32 (mod_mask table)) (Hmac : zlen mac = 6) (Hinet : ∀ t, is_u32 (inet_addr t)).

Lemma mod_flow_ok dst : is_u32 dst → flow_ok (mod_flow inet_addr table mac in_port dst).
Proof.
  intros Hd. split; cbn; try done; try apply bswap16_range; try apply Hinet.
  unfold zlen in Hmac. lia.
Qed.

Definition range_flow (i : Z) : flow := mod_flow inet_addr table mac in_port (addr_plus (inet_addr network) i).

Lemma range_flow_ok i : flow_ok (range_flow i).
Proof. apply mod_flow_ok. apply bswap32_range. Qed.

Lemma mod_install_run n i out_port s : fluid_control (ctx s) ≠ 0 →
  mod_install inet_addr n i table mac in_port out_port s
  = Ok (s <| control_out := control_out s ++ ((λ j, install_msg (range_flow j) out_port) <$> seqZ i (Z.of_nat n)) |>).
Proof.
  revert i s. induction n as [|n IH]; intros i s Hc.
  { cbn. rewrite app_nil_r. by destruct s. }
  rewrite seqZ_cons by lia. cbn [mod_install fmap list_fmap]. fold (range_flow i).
  rewrite (bind_val _ _ _ (make_ofp_flow_add_spec _ _ _ _ (range_flow_ok i))). cbv beta iota.
  destruct (send_80 (range_flow i) 120 1000 OFPFF_SEND_FLOW_REM out_port s (range_flow_ok i) Hc) as [Hs _].
  rewrite (bind_val _ _ _ Hs). cbv beta iota. rewrite IH by done. cbn. rewrite <-app_assoc.
  replace (Z.pred (Z.of_nat (S n))) with (Z.of_nat n) by lia. by rewrite Z.add_1_r.
Qed.

Lemma mod_redirect_run n i fl out_port s : fluid_control (ctx s) ≠ 0 → fl = mod_flow inet_addr table mac in_port (f_nw_dst fl) →
  mod_redirect n (u32 (bswap32 (inet_addr network) + i)) fl out_port s
  = Ok (s <| control_out := control_out s ++ ((λ j, redirect_msg (range_flow j) out_port) <$> seqZ i (Z.of_nat n)) |>).
Proof.
  intros Hc Hfl. revert i s Hc. induction n as [|n IH]; intros i s Hc.
  { cbn. rewrite app_nil_r. by destruct s. }
  rewrite seqZ_cons by lia. cbn [mod_redirect fmap list_fmap].
  replace {| f_mask := f_mask fl; f_in_port := _; f_dl_src := _; f_dl_dst := _; f_dl_vlan := _; f_dl_type := _;
    f_nw_src := _; f_nw_dst := _; f_nw_proto := _; f_tp_src := _; f_tp_dst := _ |} with (range_flow i)
    by (rewrite Hfl; done).
  rewrite (bind_val _ _ _ (make_ofp_flow_modify_output_port_spec _ _ _ _ (range_flow_ok i))). cbv beta iota.
  destruct (send_80 (range_flow i) 1200 0 OFPFF_SEND_FLOW_REM out_port s (range_flow_ok i) Hc) as [Hs _].
  rewrite (bind_val _ _ _ Hs). cbv beta iota.
  replace (u32 (u32 (bswap32 (inet_addr network) + i) + 1)) with (u32 (bswap32 (inet_addr network) + (i + 1))).
  2:{ unfold u32. rewrite Zplus_mod_idemp_l. f_equal. lia. }
  rewrite IH by done. cbn. rewrite <-app_assoc.
  replace (Z.pred (Z.of_nat (S n))) with (Z.of_nat n) by lia. by rewrite Z.add_1_r.
Qed.
End range.

(** ** Start *)

(** What start leaves behind. *)
Record started (m : fmod) (s : harness) (m1 : fmod) (s1 : harness) (x1 x2 x3 : channel_info) (lb db : list Z) : Prop := {
  st_x1 : get_channel (ctx s) OFLOPS_DATA1 = Ok x1;
  st_x2 : get_channel (ctx s) OFLOPS_DATA2 = Ok x2;
  st_x3 : get_channel (ctx s) OFLOPS_DATA3 = Ok x3;
  st_lb : rd_bytes (fm_local_mac m1) 0 6 = Ok lb;
  st_db : rd_bytes (fm_data_mac m1) 0 6 = Ok db;
  st_ctx : ctx s1 = ctx s;
  st_flows : fm_flows m1 = fm_flows m;
  st_table : fm_table m1 = fm_table m;
  st_probe : fm_fl_probe m1 = Some (mod_flow inet_addr (fm_table m) db (of_port x2) (inet_addr (str "10.1.1.2")));
  st_received : fm_received m1 = replicate (Z.to_nat (fm_flows m)) 0;
  st_count : fm_received_count m1 = fm_received_count m + 1;
  st_first : fm_first_pkt m1 = fm_first_pkt m;
  st_out : ∃ hello del, control_out s1 = control_out s ++ [hello; del] ++
    ((λ j, install_msg (range_flow (fm_table m) lb (of_port x1) j) (of_port x3)) <$> seqZ 0 (fm_flows m)) ++
    [install_msg (mod_flow inet_addr (fm_table m) db (of_port x2) (inet_addr (str "10.1.1.2"))) (of_port x3)];
}.

Lemma mod_start_result sock hwaddr clock m s m1 s1 :
  mod_start inet_addr sock hwaddr clock m s = Ok (m1, s1) → 0 ≤ fm_flows m → fluid_control (ctx s) ≠ 0 →
  is_u32 (mod_mask (fm_table m)) → (∀ t, is_u32 (inet_addr t)) →
  ∃ x1 x2 x3 lb db, started m s m1 s1 x1 x2 x3 lb db.
Proof.
  intros H Hn Hf Hmask Hin. unfold mod_start in H. cbv zeta in H. cbn [fm_local_mac fm_data_mac fm_flows fm_table fm_cli_param] in H.
  apply bind_Ok in H as (local & _ & H). apply bind_Ok in H as (data & _ & H).
  apply bind_Ok in H as (s2 & [C2 O2]%log_quiet & H). apply bind_Ok in H as (s3 & [C3 O3]%log_text_quiet & H).
  apply bind_Ok in H as ([b1 ?] & _ & H). apply bind_Ok in H as ([? s4] & (C4 & hello & O4)%send_one & H).
  apply bind_Ok in H as ([b2 ?] & _ & H). apply bind_Ok in H as ([? s5] & H5 & H).
  unfold oflops_send_of_mesg in H5. apply bind_Ok in H5 as (? & _ & (C5 & del & O5)%send_one).
  apply bind_Ok in H as (x1 & Hx1 & H). apply bind_Ok in H as (lb & Hlb & H).
  apply bind_Ok in H as (x2 & Hx2 & H). apply bind_Ok in H as (x3 & Hx3 & H).
  assert (ctx s5 = ctx s) as C by congruence. rewrite C in Hx1, Hx2, Hx3.
  rewrite (bind_val _ _ _ (mod_install_run (fm_table m) lb (of_port x1) Hmask (rd_bytes_len _ _ _ _ Hlb) Hin
    (Z.to_nat (fm_flows m)) 0 (of_port x3) s5 ltac:(by rewrite C))) in H. cbv beta in H. rewrite Z2Nat.id in H by done.
  set (s6 := s5 <| control_out := _ |>) in H. apply bind_Ok in H as (db & Hdb & H).
  pose proof (mod_flow_ok (fm_table m) db (of_port x2) Hmask (rd_bytes_len _ _ _ _ Hdb) Hin _ (Hin (str "10.1.1.2"))) as Hok.
  set (fl := mod_flow inet_addr (fm_table m) db (of_port x2) (inet_addr (str "10.1.1.2"))) in *.
  rewrite (bind_val _ _ _ (make_ofp_flow_add_spec fl (of_port x3) 1 120 Hok)) in H. cbv beta iota in H.
  destruct (send_80 fl 120 1000 OFPFF_SEND_FLOW_REM (of_port x3) s6 Hok ltac:(by change (ctx s6) with (ctx s5); rewrite C)) as [_ Hs].
  rewrite (bind_val _ _ _ Hs) in H. cbv beta iota in H. apply bind_Ok in H as (c & Hc & H).
  apply bind_Ok in H as (s7 & [C7 O7]%schedule_quiet & H). apply bind_Ok in H as (s8 & [C8 O8]%schedule_quiet & H).
  apply bind_Ok in H as (s9 & [C9 O9]%schedule_quiet & H). apply bind_Ok in H as (s10 & [C10 O10]%schedule_quiet & H).
  injection H as <- <-. unfold chk_int in Hc. case_decide; [|done]. injection Hc as <-.
  exists x1, x2, x3, lb, db. split; try done.
  - rewrite C10, C9, C8, C7. exact C.
  - exists hello, del. rewrite O10, O9, O8, O7. cbn [control_out]. subst s6. cbn. rewrite O5, O4, O3, O2.
    by rewrite <-!app_assoc.
Qed.

(** ** Redirecting *)

Lemma mod_send_run clock m s x1 x2 lb db dst ls :
  fm_fl_probe m = Some (mod_flow inet_addr (fm_table m) db (of_port x2) dst) →
  get_channel (ctx s) OFLOPS_DATA1 = Ok x1 → get_channel (ctx s) OFLOPS_DATA2 = Ok x2 →
  rd_bytes (fm_local_mac m) 0 6 = Ok lb → rd_bytes (fm_data_mac m) 0 6 = Ok db →
  fluid_control (ctx s) ≠ 0 → is_u32 (mod_mask (fm_table m)) → (∀ t, is_u32 (inet_addr t)) →
  0 ≤ fm_flows m → logger s = Some ls →
  let probe := mod_flow inet_addr (fm_table m) db (of_port x2) (inet_addr (str "10.1.1.2")) in
  mod_send inet_addr clock m s = Ok (m <| fm_fl_probe := Some probe |> <| fm_timestamp := clock 1%nat |>,
    s <| control_out := control_out s ++
           ((λ j, redirect_msg (range_flow (fm_table m) lb (of_port x1) j) (of_port x2)) <$> seqZ 0 (fm_flows m)) ++
           [redirect_msg probe (of_port x1); barrier_msg] |>
      <| logger := Some (ls ++ [generic_line (clock 0%nat) (str "START_FLOW_MOD");
                                generic_line (clock 1%nat) (str "END_FLOW_MOD")]) |>).
Proof.
  intros Hp Hx1 Hx2 Hlb Hdb Hf Hmask Hin Hn Hl probe. unfold mod_send. rewrite Hp. cbv zeta.
  rewrite (bind_val _ _ _ (log_generic _ _ _ ls Hl)). cbv beta. set (s1 := s <| logger := _ |>).
  rewrite (bind_val _ _ _ Hlb), (bind_val _ _ _ (Hx1 : get_channel (ctx s1) _ = _)),
    (bind_val _ _ _ (Hx2 : get_channel (ctx s1) _ = _)). cbv beta.
  pose proof (mod_redirect_run (fm_table m) lb (of_port x1) Hmask (rd_bytes_len _ _ _ _ Hlb) Hin (Z.to_nat (fm_flows m)) 0
    (mod_reflow (mod_flow inet_addr (fm_table m) db (of_port x2) dst) (mod_mask (fm_table m)) lb (of_port x1) dst)
    (of_port x2) s1 Hf eq_refl) as Hr.
  rewrite Z.add_0_r, u32_id, Z2Nat.id in Hr by (done || apply bswap32_range).
  rewrite (bind_val _ _ _ Hr), (bind_val _ _ _ Hdb). cbv beta. clear Hr. set (s2 := s1 <| control_out := _ |>).
  change (mod_reflow _ _ db (of_port x2) (inet_addr (str "10.1.1.2"))) with probe.
  pose proof (mod_flow_ok (fm_table m) db (of_port x2) Hmask (rd_bytes_len _ _ _ _ Hdb) Hin _ (Hin (str "10.1.1.2")) : flow_ok probe) as Hok.
  rewrite (bind_val _ _ _ (make_ofp_flow_modify_output_port_spec probe (of_port x1) 1 1200 Hok)). cbv beta iota.
  rewrite (bind_val _ _ _ (proj2 (send_80 probe 1200 0 OFPFF_SEND_FLOW_REM (of_port x1) s2 Hok Hf))). cbv beta iota.
  rewrite (bind_val _ _ _ barrier_request_spec). cbv beta. set (s3 := s2 <| control_out := _ |>).
  rewrite (bind_val _ _ _ (send_barrier s3 Hf)). cbv beta iota.
  set (s4 := s3 <| control_out := _ |>).
  rewrite (bind_val _ _ _ (log_generic _ _ s4 (ls ++ [generic_line (clock 0%nat) (str "START_FLOW_MOD")]) eq_refl)).
  unfold mret, res_ret. do 2 f_equal. subst s4 s3 s2 s1. destruct s. cbn in *. f_equal; by rewrite <-!app_assoc.
Qed.

(** ** Installed and redirected flows *)

Lemma be16_digits_mod z : 256 * u8 (z `div` 256) + u8 z = u16 z.
Proof. rewrite <-un_be16_mod. unfold un_be16, be16. lia. Qed.

Lemma msg_fields fl idle prio port :
  flow_ok fl → let bs := flow_mod_msg 80 fl OFPFC_ADD idle prio 0 OFPFF_SEND_FLOW_REM (output_action port) in
  flow_mod_for bs 80 fl ∧ be16_at bs 62 = u16 prio ∧ be16_at bs 76 = u16 port.
Proof.
  intros Hok bs. split; [by apply flow_mod_msg_for|]. subst bs.
  pose proof (fo_src _ Hok) as Hs. pose proof (fo_dst _ Hok) as Hd.
  destruct fl as [mask p src dst vlan ty nsrc ndst pr ts td]. cbn in Hs, Hd. six src Hs. six dst Hd.
  unfold be16_at, byte_at. cbn. by rewrite !be16_digits_mod.
Qed.

(** The message that installs [fl] and the one that redirects it: the same match, another
    port, and another priority. *)
Definition redirected (fl : flow) (bi br : list Z) (from to : Z) : Prop :=
  flow_mod_for bi 80 fl ∧ be16_at bi 62 = 1000 ∧ be16_at bi 76 = u16 from ∧
  flow_mod_for br 80 fl ∧ be16_at br 62 = 0 ∧ be16_at br 76 = u16 to.

Lemma redirected_pair fl from to : flow_ok fl → redirected fl (install_msg fl from) (redirect_msg fl to) from to.
Proof.
  intros Hok. destruct (msg_fields fl 120 1000 from Hok) as (H1 & H2 & H3).
  destruct (msg_fields fl 1200 0 to Hok) as (H4 & H5 & H6). by split_and!.
Qed.

(** C36. Redirecting what was installed.  After start of the flow modification
    module, the event SND_ACT sends one message for every flow that start
    installed, in the same order, then one for the flow of the constant probe and
    a barrier request, between the two lines of the log that mark the run.  Flow
    [i] is named by the same match in both phases, the one whose packets are filed
    under [i]; it is moved from the port of the third data channel to the port of
    the second, the probe to the port of the first.  All the messages that
    redirect have priority 0, those that install have 1000. *)
Theorem mod_redirects_installed sock hwaddr clock m s m1 s1 snmp_open snmp_pdu_create snmp_send clk nf_clk te s2 ls :
  mod_start inet_addr sock hwaddr clock m s = Ok (m1, s1) → 0 < fm_flows m ≤ INT_MAX → fluid_control (ctx s) ≠ 0 →
  is_u32 (mod_mask (fm_table m)) → (∀ t, is_u32 (inet_addr t)) →
  te_arg te = SND_ACT → ctx s2 = ctx s → logger s2 = Some ls →
  ∃ x1 x2 x3 greeting installs p_install redirects p_redirect m2 s3,
    get_channel (ctx s) OFLOPS_DATA1 = Ok x1 ∧ get_channel (ctx s) OFLOPS_DATA2 = Ok x2 ∧
    get_channel (ctx s) OFLOPS_DATA3 = Ok x3 ∧
    control_out s1 = control_out s ++ greeting ++ installs ++ [p_install] ∧
    mod_handle_timer_event inet_addr snmp_open snmp_pdu_create snmp_send clk nf_clk te m1 s2 = Ok (m2, s3) ∧
    control_out s3 = control_out s2 ++ redirects ++ [p_redirect; barrier_msg] ∧
    zlen installs = fm_flows m ∧ zlen redirects = fm_flows m ∧
    (∀ i, 0 ≤ i < fm_flows m → ∃ fl bi br, zget installs i = Some bi ∧ zget redirects i = Some br ∧
       flow_id (inet_addr network) (f_nw_dst fl) = i ∧ redirected fl bi br (of_port x3) (of_port x2)) ∧
    (∃ fl, fm_fl_probe m1 = Some fl ∧ fm_fl_probe m2 = Some fl ∧
       redirected fl p_install p_redirect (of_port x3) (of_port x1)) ∧
    (∃ t0, logger s3 = Some (ls ++ [generic_line t0 (str "START_FLOW_MOD");
                                    generic_line (fm_timestamp m2) (str "END_FLOW_MOD")])).
Proof.
  intros Hstart Hn Hf Hmask Hin Hte Hc2 Hl.
  destruct (mod_start_result _ _ _ _ _ _ _ Hstart ltac:(lia) Hf Hmask Hin) as (x1 & x2 & x3 & lb & db & St).
  destruct (st_out _ _ _ _ _ _ _ _ _ St) as (hello & del & Hout).
  pose proof (st_flows _ _ _ _ _ _ _ _ _ St) as Ef. pose proof (st_table _ _ _ _ _ _ _ _ _ St) as Et.
  pose proof (st_probe _ _ _ _ _ _ _ _ _ St) as Ep. rewrite <-Et in Ep.
  pose proof (mod_send_run (λ n, oflops_gettimeofday (ctx s2) (nf_clk n) (clk n)) m1 s2 x1 x2 lb db _ ls Ep) as Hsend.
  rewrite Hc2 in Hsend. specialize (Hsend (st_x1 _ _ _ _ _ _ _ _ _ St) (st_x2 _ _ _ _ _ _ _ _ _ St)
    (st_lb _ _ _ _ _ _ _ _ _ St) (st_db _ _ _ _ _ _ _ _ _ St) Hf). rewrite Et, Ef in Hsend.
  specialize (Hsend Hmask Hin ltac:(lia) Hl). cbv zeta in Hsend.
  pose proof (rd_bytes_len _ _ _ _ (st_lb _ _ _ _ _ _ _ _ _ St)) as Hlb.
  pose proof (rd_bytes_len _ _ _ _ (st_db _ _ _ _ _ _ _ _ _ St)) as Hdb.
  assert (mod_handle_timer_event inet_addr snmp_open snmp_pdu_create snmp_send clk nf_clk te m1 s2
    = mod_send inet_addr (λ n, oflops_gettimeofday (ctx s) (nf_clk n) (clk n)) m1 s2) as Eh
    by (unfold mod_handle_timer_event; by rewrite Hte, Hc2).
  rewrite Eh, Hsend. exists x1, x2, x3, [hello; del]. do 6 eexists.
  split; [apply St|]. split; [apply St|]. split; [apply St|]. split; [exact Hout|]. split; [reflexivity|].
  split; [reflexivity|]. split_and!.
  - unfold zlen. rewrite length_fmap, length_seqZ. lia.
  - unfold zlen. rewrite length_fmap, length_seqZ. lia.
  - intros i Hi. exists (range_flow (fm_table m) lb (of_port x1) i). do 2 eexists. rewrite !zget_seqZ by done.
    split_and!; [done..| |by apply redirected_pair, range_flow_ok]. apply flow_id_plus. unfold INT_MAX in *. lia.
  - eexists. rewrite Ep, Et. split_and!; [done..|]. apply redirected_pair. by apply mod_flow_ok.
  - by eexists.
Qed.
End messages.

(** ** The end of the test *)

Section finish.
Context (inet_addr : cstring → Z) (nf_extract : Z → mem → Z → option pktgen_hdr) (clock : timeval).
Context {OF : OpenFlow}.
Implicit Types (m : fmod) (s : harness) (x : seen).

(** The captures, one after the other; [clock] is what gettimeofday answers. *)
Fixpoint mod_captures (xs : list seen) m s : res (fmod * harness) :=
  match xs with
  | [] => mret (m, s)
  | x :: xs =>
    '(m, s) ← mod_handle_pcap_event inet_addr nf_extract clock (sn_hdr x) (cells (frame_bytes (sn_frame x))) (sn_ch x) m s;
    mod_captures xs m s
  end.

Lemma mod_captures_snoc xs x m s :
  mod_captures (xs ++ [x]) m s = ('(m, s) ← mod_captures xs m s; mod_captures [x] m s).
Proof.
  revert m s. induction xs as [|y xs IH]; intros m s; [done|]. cbn [mod_captures app].
  destruct (mod_handle_pcap_event _ _ _ _ _ _ m s) as [[m1 s1]|]; [apply IH|done].
Qed.

(** Waiting for [n] flows after the redirection, of which [ids] were seen. *)
Record waiting (n : Z) (ids : list Z) (es : list entry) m : Prop := {
  wt_flows : fm_flows m = n;
  wt_seen : ∀ j, 0 ≤ j < n → zget (fm_received m) j = Some (if bool_decide (j ∈ ids) then 1 else 0);
  wt_count : fm_received_count m = 1 + zlen ids;
  wt_time : 0 < tv_sec (fm_timestamp m);
  wt_probes : counted (fm_probes m) es;
}.

(** A packet of flow [id] that came out of the second data channel. *)
Definition packet_of (c : oflops_context) (n : Z) (x : seen) (id : Z) : Prop :=
  seen_ok inet_addr c x ∧ sn_ch x = OFLOPS_DATA2 ∧ 0 ≤ id < n ∧ fr_dst (sn_frame x) = bswap32 (inet_addr network) + id ∧
  0 ≤ fr_dst (sn_frame x) < 2^32.

Definition mod_entry (x : seen) : entry := entry_seen (λ f, bswap32 (fr_dst f)) x.
Definition inserted_line (x : seen) : cstring :=
  generic_line (ts (sn_hdr x)) (snprintf 1024 (str "FLOW_INSERTED:" ++ inet_ntoa (bswap32 (fr_dst (sn_frame x))))).
Definition last_lines (m : fmod) (x : seen) : list cstring :=
  [generic_line (ts (sn_hdr x))
     (snprintf 1024 (str "COMPLETE_INSERT_DELAY:" ++ dec (time_diff (fm_timestamp m) (ts (sn_hdr x)))));
   generic_line (ts (sn_hdr x)) (str "LAST_PKT_RCV")].

(** The first packet of a flow. *)
Lemma first_packet n ids es m s ls x id :
  waiting n ids es m → packet_of (ctx s) n x id → id ∉ ids → n < INT_MAX → zlen ids < n → zlen es < INT_MAX →
  logger s = Some ls → (n ≤ 2 + zlen ids → timers_ready 2 s) →
  ∃ m' s', mod_captures [x] m s = Ok (m', s') ∧ waiting n (ids ++ [id]) (es ++ [mod_entry x]) m' ∧
    fm_timestamp m' = fm_timestamp m ∧ ctx s' = ctx s ∧
    if 2 + zlen ids >=? n
    then logger s' = Some (ls ++ [inserted_line x] ++ last_lines m x) ∧
         ∃ s2 t, schedule_timer t BYESTR s2 = Ok s'
    else s' = s <| logger := Some (ls ++ [inserted_line x]) |>.
Proof.
  intros W (Hx & Hch & Hid & Hdst & Hr) Hnew Hn Hlen Hes Hl Ht.
  destruct (seen_extract inet_addr nf_extract _ _ Hx) as [Hd Hex].
  destruct (capture_counted (mod_entry x) (fm_probes m) es (wt_probes _ _ _ _ W)) as (p & Hp & Hpc);
    [by eapply entry_seen_on_data|done|].
  pose proof (wt_seen _ _ _ _ W id Hid) as H0. rewrite bool_decide_eq_false_2 in H0 by done.
  pose proof (zlen_nonneg ids). pose proof (wt_time _ _ _ _ W).
  cbn [mod_captures]. unfold mod_handle_pcap_event. rewrite Hd, (bind_val _ _ _ Hex). cbv beta iota.
  change (f_nw_dst (flow_of (sn_det x) (sn_frame x))) with (bswap32 (fr_dst (sn_frame x))). unfold mod_observe. rewrite Hch.
  replace ((tv_sec (fm_timestamp m) >? 0) && (OFLOPS_DATA2 =? OFLOPS_DATA1) && negb (fm_first_pkt m)) with false
    by (by rewrite andb_false_r).
  replace ((tv_sec (fm_timestamp m) >? 0) && (OFLOPS_DATA2 =? OFLOPS_DATA2)) with true
    by (symmetry; apply andb_true_iff; rewrite Z.gtb_lt; split; [lia|done]).
  cbv zeta. rewrite (flow_id_dst _ _ id) by (done || (unfold INT_MAX in *; lia)).
  replace ((id >=? 0) && (id <? fm_flows m)) with true by (rewrite (wt_flows _ _ _ _ W); lia).
  rewrite H0. cbn [Z.eqb]. unfold mod_flow_seen.
  rewrite (bind_val (chk_int _) _ (2 + zlen ids)).
  2:{ rewrite (wt_count _ _ _ _ W). replace (1 + zlen ids + 1) with (2 + zlen ids) by lia.
      apply chk_int_ok. unfold is_int, INT_MIN, INT_MAX in *. lia. }
  cbv beta zeta. set (m1 := m <| fm_received_count := _ |> <| fm_received := _ |>).
  rewrite (bind_val _ _ _ (log_generic _ _ _ ls Hl)). cbv beta. set (s1 := s <| logger := _ |>).
  change (fm_received_count m1) with (2 + zlen ids). change (fm_flows m1) with (fm_flows m). rewrite (wt_flows _ _ _ _ W).
  assert (waiting n (ids ++ [id]) (es ++ [mod_entry x]) (m1 <| fm_probes := p |>)) as Hw.
  { split; cbn; [apply W| | |apply W|done].
    - intros j Hj. destruct (decide (j = id)) as [->|Hne].
      + rewrite zget_zset_eq by (by apply zget_Some_bounds in H0). rewrite bool_decide_eq_true_2; [done|]. set_solver.
      + rewrite zget_zset_ne by done. rewrite (wt_seen _ _ _ _ W) by done.
        by rewrite (bool_decide_ext (j ∈ ids) (j ∈ ids ++ [id])) by set_solver.
    - rewrite zlen_app. change (zlen [id]) with 1. lia. }
  destruct (2 + zlen ids >=? n) eqn:Hge.
  - destruct (ready_schedule 2 (add_time clock 0 10) SNMPGET (s1 <| logger := Some ((ls ++ [inserted_line x]) ++ last_lines m x) |>))
      as (s3 & E3 & R3 & C3 & L3); [lia|apply (same_run_ready 2 s); [done|apply Ht; lia]|].
    destruct (ready_schedule 1 (add_time (add_time clock 0 10) 3 0) BYESTR s3) as (s4 & E4 & _ & C4 & L4); [lia|done|].
    exists (m1 <| fm_probes := p |>), s4. split; [|split; [exact Hw|]].
    + unfold mod_complete.
      rewrite (bind_val (oflops_log _ _ _ s1) _ _ (log_generic _ _ s1 (ls ++ [inserted_line x]) eq_refl)). cbv beta.
      set (s2 := s1 <| logger := _ |>).
      rewrite (bind_val (oflops_log _ _ _ s2) _ (s1 <| logger := Some ((ls ++ [inserted_line x]) ++ last_lines m x) |>)).
      2:{ erewrite log_generic by reflexivity. subst s2 s1. destruct s. cbn. unfold last_lines. by rewrite <-!app_assoc. }
      cbv beta zeta. rewrite (bind_val _ _ _ E3). cbv beta. rewrite E4. cbn [mbind res_bind mret res_ret].
      change (fm_probes m1) with (fm_probes m). unfold mod_entry, entry_seen in Hp. rewrite Hch in Hp. rewrite Hp. done.
    + split; [done|]. split; [by rewrite C4, C3|]. split; [by rewrite L4, L3, <-app_assoc|]. by exists s3, (add_time (add_time clock 0 10) 3 0).
  - exists (m1 <| fm_probes := p |>), s1. split; [|by split; [exact Hw|]].
    cbn [mbind res_bind mret res_ret]. change (fm_probes m1) with (fm_probes m). unfold mod_entry, entry_seen in Hp.
    rewrite Hch in Hp. rewrite Hp. done.
Qed.

(** The first packets of some flows, fewer than end the test. *)
Lemma first_packets n xs ids' ids es m s ls :
  waiting n ids es m → Forall2 (packet_of (ctx s) n) xs ids' → NoDup (ids ++ ids') → n < INT_MAX →
  zlen (ids ++ ids') + 2 ≤ n → zlen es + zlen xs ≤ INT_MAX → logger s = Some ls →
  ∃ m' es', mod_captures xs m s = Ok (m', s <| logger := Some (ls ++ (inserted_line <$> xs)) |>) ∧
    waiting n (ids ++ ids') es' m' ∧ fm_timestamp m' = fm_timestamp m ∧ zlen es' = zlen es + zlen xs.
Proof.
  intros W Hxs. revert ids es m s ls W Hxs. revert ids'. induction xs as [|x xs IH]; intros ids' ids es m s ls W Hxs Hnd Hn Hlen Hes Hl.
  { apply Forall2_nil_inv_l in Hxs as ->. exists m, es. rewrite !app_nil_r. split_and!; [by destruct s; cbn in *; subst|done..|].
    unfold zlen. cbn. lia. }
  apply Forall2_cons_inv_l in Hxs as (id & ids2 & Hx & Hxs & ->).
  assert (zlen (x :: xs) = zlen xs + 1) as Hz by (unfold zlen; rewrite length_cons; lia). pose proof (zlen_nonneg xs).
  assert (zlen (ids ++ id :: ids2) = zlen ids + 1 + zlen ids2) as Hz2
    by (rewrite zlen_app; unfold zlen; rewrite length_cons; lia). pose proof (zlen_nonneg ids2).
  destruct (first_packet n ids es m s ls x id W Hx) as (m1 & s1 & Hrun & W1 & Et & Hc1 & Hs1); [|lia..|done|lia|].
  { rewrite NoDup_app in Hnd. destruct Hnd as (_ & Hd & _). intros Hin. apply (Hd id Hin). by left. }
  replace (2 + zlen ids >=? n) with false in Hs1 by (symmetry; rewrite Z.geb_leb; apply Z.leb_gt; lia). subst s1.
  destruct (IH ids2 (ids ++ [id]) (es ++ [mod_entry x]) m1 (s <| logger := Some (ls ++ [inserted_line x]) |>)
    (ls ++ [inserted_line x]) W1) as (m' & es' & Hrun' & W' & Et' & Hzes).
  { exact Hxs. } { by rewrite <-app_assoc. } { done. } { rewrite <-app_assoc. cbn [app]. lia. }
  { rewrite zlen_app. change (zlen [_]) with 1. lia. } { done. }
  exists m', es'. rewrite <-app_assoc in W'. split; [|split; [exact W'|split; [by rewrite Et', Et|]]].
  - cbn [mod_captures] in Hrun |- *. apply bind_Ok in Hrun as ([m2 s2] & E & [= -> ->]). rewrite (bind_val _ _ _ E). cbv beta iota.
    etrans; [exact Hrun'|]. destruct s. cbn. by rewrite <-app_assoc.
  - rewrite Hzes, zlen_app, Hz. change (zlen [_]) with 1. lia.
Qed.

(** Some flow is missing from fewer than [n] of them. *)
Lemma missing n ids : Forall (λ i, 0 ≤ i < n) ids → NoDup ids → zlen ids < n → ∃ j, 0 ≤ j < n ∧ j ∉ ids.
Proof.
  intros Hr Hnd Hl. destruct (decide (Forall (λ j, j ∈ ids) (seqZ 0 n))) as [Ha|Hna].
  - exfalso. assert (length (seqZ 0 n) ≤ length ids)%nat as Hle.
    { apply submseteq_length, NoDup_submseteq; [apply NoDup_seqZ|]. intros j Hj. rewrite Forall_forall in Ha. by apply Ha. }
    rewrite length_seqZ in Hle. unfold zlen in Hl. lia.
  - apply not_Forall_Exists in Hna; [|apply _]. apply Exists_exists in Hna as (j & Hj & Hn). apply elem_of_seqZ in Hj.
    exists j. split; [lia|done].
Qed.

End finish.

(** ** Examples *)

Definition mod_mac (_ : cstring) : option (list Z) := Some [0; 4; 35; 180; 116; 149].
Definition mod_clock (k : nat) : timeval := {| tv_sec := 100; tv_usec := Z.of_nat k |}.

(** Three data channels. *)
Definition mod_harness : harness :=
  probe_harness <| ctx := ctx probe_harness <| channels := [demo_channel 5 1 PCAP; demo_channel 6 0 PCAP <| of_port := 1 |>;
    demo_channel 7 1 PCAP <| of_port := 2 |>; demo_channel 8 1 PCAP <| of_port := 3 |>] |> <| n_channels := 4 |> <| max_channels := 4 |> |>.
Definition demo_fmod : fmod := fmod0 <| fm_flows := 3 |> <| fm_cli_param := Some (str "flows=3 ") |>.
Definition mod_started : fmod * harness :=
  Eval vm_compute in match mod_start (OF := of10) probe_inet 3 mod_mac mod_clock demo_fmod mod_harness with
                     | Ok r => r | Fault _ => (demo_fmod, mod_harness) end.
Definition mod_act : timer_event := {| sched_time := mod_clock 0; te_arg := SND_ACT; timer_id := 1 |}.

Lemma probe_inet_range t : is_u32 (probe_inet t).
Proof. apply probe_demo_ok. Qed.

Lemma mod_redirects_installed_witness : ∃ redirects p m2 s3,
  mod_handle_timer_event (OF := of10) probe_inet (λ _, false) (λ _, 0) false mod_clock mod_clock mod_act mod_started.1
    mod_started.2 = Ok (m2, s3) ∧
  control_out s3 = control_out mod_started.2 ++ redirects ++ [p; barrier_msg (OF := of10)] ∧ zlen redirects = 3.
Proof.
  destruct (mod_redirects_installed (OF := of10) probe_inet 3 mod_mac mod_clock demo_fmod mod_harness mod_started.1
    mod_started.2 (λ _, false) (λ _, 0) false mod_clock mod_clock mod_act mod_started.2 (default [] (logger mod_started.2)))
    as (x1 & x2 & x3 & g & inst & p1 & redirects & p & m2 & s3 & _ & _ & _ & _ & H1 & H2 & _ & H3 & _).
  - vm_compute. reflexivity.
  - vm_compute. split; congruence.
  - discriminate.
  - vm_compute. split; congruence.
  - exact probe_inet_range.
  - reflexivity.
  - reflexivity.
  - reflexivity.
  - exists redirects, p, m2, s3. split; [exact H1|]. split; [exact H2|exact H3].
Defined.

(** Two flows after the redirection; the packet of the second comes back. *)
Definition demo_waiting : fmod :=
  fmod0 <| fm_flows := 2 |> <| fm_received := [0; 0] |> <| fm_received_count := 1 |> <| fm_timestamp := mod_clock 0 |>
        <| fm_probes := probes0 <| pr_head := Some [] |> |>.
Definition demo_returned : seen :=
  {| sn_hdr := {| ts := {| tv_sec := 101; tv_usec := 7 |}; caplen := zlen (frame_bytes (probe_frame 1)); pkt_len := 64 |};
     sn_det := probe_demo; sn_frame := probe_frame 1; sn_ch := OFLOPS_DATA2 |}.

Lemma demo_waiting_ok : waiting 2 [] [] demo_waiting.
Proof.
  split; [done| |done|done|exact counted_init].
  intros j Hj. assert (j = 0 ∨ j = 1) as [-> | ->] by lia; done.
Qed.

Lemma demo_returned_ok : packet_of probe_inet (ctx mod_harness) 2 demo_returned 1.
Proof.
  split_and!; try done. split_and!; try done. split_and!; [exact probe_demo_ok|done..|]. by eexists.
Qed.

Lemma mod_harness_ready : timers_ready 2 mod_harness.
Proof.
  exists demo_queue. destruct (wc_queue_init_spec 10 (wcg mod_harness)) as (pq & Hpq & Hwf & _); [lia|done|].
  injection Hpq as <-. split_and!; [done|exact Hwf|done..].
Qed.

