(* ===== verification/StatsModule.v ===== *)
(** * Test modules: statistics of flows (openflow_flow_stats, openflow_aggr_flow_stats)

    Both modules install a range of flows, send two packet streams and ask the
    switch for the statistics of one block of the range after the other; they
    record how long it takes to answer.  flow_stats.c asks for the statistics of
    every flow, aggr_flow_stats.c for their sum.  The two files have the same
    text but for the places where [variant] is inspected here.  [smod] holds
    their variables; those that are only written (finished, stats_start) are left
    out.  What a local array held before it was used is a parameter. *)

From stdpp Require Import gmap.
From S2P Require Import Prelude CTime CBytes CStr OpenFlow WcEvent PcapTrack TimerEvent Msg Context Harness.
From S2P Require Import TrafficGen TrafficKernel Cbench Utils TestModule MeasureModule.
Open Scope Z_scope.

Inductive variant := FlowStats | AggrStats.

Definition GETSTAT : Z := 7.
Definition TEST_DURATION (v : variant) : Z := match v with FlowStats => 30 | AggrStats => 60 end.
Definition MIN_QUERY_DELAY : Z := 1000.
Definition SEC_TO_USEC : Z := 1000000.
Definition OFPT_STATS_REPLY_FLOW : Z := 2.

(** ** State *)

(** struct stats_entry; the number of packets exists in flow_stats.c only. *)
Record stats_entry := { se_snd : timeval; se_rcv : timeval; se_pkts : Z }.
Definition stats_entry0 : stats_entry := {| se_snd := tv0; se_rcv := tv0; se_pkts := 0 |}.

(** The array stats_counter: a static array, all zero at first. *)
Definition counter_size (v : variant) : Z := (TEST_DURATION v * SEC_TO_USEC) `div` MIN_QUERY_DELAY.
Definition counter_get (size : Z) (c : gmap Z stats_entry) (i : Z) : res stats_entry :=
  if (0 <=? i) && (i <? size) then mret (default stats_entry0 (c !! i)) else Fault FBounds.
Definition counter_put (size : Z) (c : gmap Z stats_entry) (i : Z) (e : stats_entry) : res (gmap Z stats_entry) :=
  _ ← counter_get size c i; mret (<[i := e]> c).

Record smod := {
  sm_flows : Z;
  sm_flows_exponent : Z;
  sm_query : Z;
  sm_query_exponent : Z;
  sm_query_delay : Z;
  sm_network : cstring;
  sm_datarate : Z;
  sm_proberate : Z;
  sm_pkt_size : Z;
  sm_poll_started : bool;
  sm_data_interval : Z;
  sm_probe_interval : Z;
  sm_trans_id : Z;
  sm_counter : gmap Z stats_entry;  (* stats_counter *)
  sm_stats_count : Z;
  sm_print : Z;
  sm_table : Z;
  sm_probes : probes;  (* head, count *)
  sm_probe_mac : mem;
  sm_data_mac : mem;
}.
#[export] Instance smod_rebuild : Rebuild smod := λ m,
  {| sm_flows := sm_flows m; sm_flows_exponent := sm_flows_exponent m; sm_query := sm_query m;
     sm_query_exponent := sm_query_exponent m; sm_query_delay := sm_query_delay m; sm_network := sm_network m;
     sm_datarate := sm_datarate m; sm_proberate := sm_proberate m; sm_pkt_size := sm_pkt_size m;
     sm_poll_started := sm_poll_started m; sm_data_interval := sm_data_interval m;
     sm_probe_interval := sm_probe_interval m; sm_trans_id := sm_trans_id m; sm_counter := sm_counter m;
     sm_stats_count := sm_stats_count m; sm_print := sm_print m; sm_table := sm_table m; sm_probes := sm_probes m;
     sm_probe_mac := sm_probe_mac m; sm_data_mac := sm_data_mac m |}.

Definition smod0 : smod :=
  {| sm_flows := 128; sm_flows_exponent := 0; sm_query := 64; sm_query_exponent := 0; sm_query_delay := 1000000;
     sm_network := network; sm_datarate := 100; sm_proberate := 100; sm_pkt_size := 1500; sm_poll_started := false;
     sm_data_interval := 0; sm_probe_interval := 0; sm_trans_id := 0; sm_counter := ∅; sm_stats_count := 0;
     sm_print := 0; sm_table := 0; sm_probes := probes0; sm_probe_mac := mem_zero 6; sm_data_mac := mem_zero 6 |}.

Definition stats_name (v : variant) : cstring :=
  match v with FlowStats => str "openflow_flow_dump_test" | AggrStats => str "openflow_aggr_flow_stats" end.

(** ** Initialisation *)

(** The number of flows of a query is made a power of two; log2 and pow are exact
    enough on numbers below 2^31, the conversion of 2^31 to int is undefined. *)
Definition query_size (q : Z) : res Z :=
  if Z.log2 q =? Z.log2_up q then mret q else chk_int (2 ^ Z.log2_up q).

(** The test of pkt_size asks for two things that exclude each other. *)
Definition stats_set_param (name value : cstring) (m : smod) : res smod :=
  let v := strtol0 value in
  if bool_decide (name = str "flows") then
    let n := i32 (strtol 10 value) in
    if n <=? 0 then Fault (FExit 1) else mret (m <| sm_flows := n |>)
  else if bool_decide (name = str "query") then
    let n := i32 (strtol 10 value) in
    if n <=? 0 then Fault (FExit 1) else q ← query_size n; mret (m <| sm_query := q |>)
  else if bool_decide (name = str "network") then mret (m <| sm_network := value |>)
  else if bool_decide (name = str "pkt_size") then mret (m <| sm_pkt_size := u64 v |>)
  else if bool_decide (name = str "data_rate") then
    if (u64 v <=? 0) || (u64 v >? 1010) then Fault (FExit 1) else mret (m <| sm_datarate := u64 v |>)
  else if bool_decide (name = str "probe_rate") then
    if (u64 v <=? 0) || (u64 v >=? 1010) then Fault (FExit 1) else mret (m <| sm_proberate := u64 v |>)
  else if bool_decide (name = str "query_delay") then
    if i32 v <=? MIN_QUERY_DELAY then Fault (FExit 1) else mret (m <| sm_query_delay := i32 v |>)
  else if bool_decide (name = str "print") then mret (m <| sm_print := i32 v |>)
  else if bool_decide (name = str "table") then mret (m <| sm_table := i32 v |>)
  else mret m.

Definition stats_init (b : mem) (m : smod) : res (mem * smod) :=
  let m := m <| sm_probes := sm_probes m <| pr_head := Some [] |> |> in
  '(b, m) ← read_params stats_set_param b m;
  i ← send_interval (sm_pkt_size m) (sm_datarate m);
  j ← send_interval (sm_pkt_size m) (sm_proberate m);
  mret (b, m <| sm_data_interval := i |> <| sm_probe_interval := j |>).

Section module.
Context {OF : OpenFlow} (inet_addr : cstring → Z) (which : variant).

(** ** Starting *)

Definition stats_mask (table : Z) : Z :=
  if table =? 0 then 0
  else foldr Z.lor 0 [OFPFW_IN_PORT; OFPFW_DL_DST; OFPFW_DL_SRC; Z.shiftl 0 OFPFW_NW_SRC_SHIFT;
                      Z.shiftl 0 OFPFW_NW_DST_SHIFT; OFPFW_DL_VLAN; OFPFW_TP_DST; OFPFW_NW_PROTO; OFPFW_TP_SRC;
                      OFPFW_DL_VLAN_PCP; OFPFW_NW_TOS].

(** The destination of the stream over the range. *)
Definition range_mac : list Z := [0x00; 0x1e; 0x68; 0x9a; 0xc5; 0x75].

Definition stats_flow (mask : Z) (src dst : list Z) (in_port nw_dst : Z) : flow :=
  {| f_mask := mask; f_in_port := bswap16 (u16 in_port); f_dl_src := src; f_dl_dst := dst; f_dl_vlan := 0xffff;
     f_dl_type := bswap16 0x0800; f_nw_src := inet_addr (str "10.1.1.1"); f_nw_dst := nw_dst; f_nw_proto := 17;
     f_tp_src := bswap16 8080; f_tp_dst := bswap16 8080 |}.

(** flow_stats.c sends a message with the length in its header, aggr_flow_stats.c
    with the one the message was built with. *)
Definition send_sized (b : mem) (len : Z) (s : harness) : res (Z * harness) :=
  match which with FlowStats => oflops_send_of_mesg b s | AggrStats => oflops_send_of_mesgs b len s end.

(** aggr_flow_stats.c advances the address before the message, flow_stats.c after
    it.  [addr] is in the order of the host. *)
Fixpoint stats_install (n : nat) (addr : Z) (src : list Z) (in_port out_port : Z) (s : harness) : res harness :=
  match n with
  | O => mret s
  | S n =>
    let addr := match which with FlowStats => addr | AggrStats => u32 (addr + 1) end in
    '(b, _) ← make_ofp_flow_add (stats_flow 0 src range_mac in_port (bswap32 addr)) out_port 1 1200;
    '(_, s) ← oflops_send_of_mesg b s;
    stats_install n (match which with FlowStats => u32 (addr + 1) | AggrStats => addr end) src in_port out_port s
  end.

(** aggr_flow_stats.c prints the name of the interface. *)
Definition show_dev (ch : Z) (s : harness) : res unit :=
  match which with
  | FlowStats => mret ()
  | AggrStats => x ← get_channel (ctx s) ch; match dev x with None => Fault FNull | Some _ => mret () end
  end.

(** The greeting: flow_stats.c also asks for the features of the switch. *)
Definition stats_greet (s : harness) : res harness :=
  '(b, _) ← make_ofp_hello;
  '(_, s) ← send_sized b sizeof_ofp_hello s;
  s ← match which with
      | FlowStats => '(b, _) ← make_ofp_feat_req; '(_, s) ← oflops_send_of_mesg b s; mret s
      | AggrStats => mret s
      end;
  '(b, len) ← make_ofp_flow_del;
  '(_, s) ← send_sized b len s;
  mret s.

(** [clock n]: the reading number [n] of the clock. *)
Definition stats_start (socket_ret : Z) (hwaddr : cstring → option (list Z)) (clock : nat → timeval) (m : smod)
    (s : harness) : res (smod * harness) :=
  data ← load_mac OFLOPS_DATA1 socket_ret hwaddr (sm_data_mac m) s;
  _ ← show_dev OFLOPS_DATA1 s;
  probe ← load_mac OFLOPS_DATA2 socket_ret hwaddr (sm_probe_mac m) s;
  _ ← show_dev OFLOPS_DATA2 s;
  s ← oflops_log (clock 0%nat) GENERIC_MSG (str "Intializing module openflow_flow_dump_test") s;
  s ← stats_greet s;
  x2 ← get_channel (ctx s) OFLOPS_DATA2;
  pb ← rd_bytes probe 0 6;
  x3 ← get_channel (ctx s) OFLOPS_DATA3;
  '(b, len) ← make_ofp_flow_add (stats_flow (stats_mask (sm_table m)) pb gateway_mac (of_port x2)
                                    (inet_addr (str "10.1.1.2"))) (of_port x3) 1 1200;
  '(_, s) ← send_sized b len s;
  x1 ← get_channel (ctx s) OFLOPS_DATA1;
  db ← rd_bytes data 0 6;
  s ← stats_install (Z.to_nat (sm_flows m)) (bswap32 (inet_addr (sm_network m))) db (of_port x1) (of_port x2) s;
  s ← schedule_timer (add_time (clock 1%nat) (TEST_DURATION which) 0) BYESTR s;
  s ← schedule_timer (add_time (clock 2%nat) 1 0) GETSTAT s;
  s ← schedule_timer (add_time (clock 3%nat) 1 0) SNMPGET s;
  mret (m <| sm_data_mac := data |> <| sm_probe_mac := probe |> <| sm_flows_exponent := Z.log2 (sm_flows m) |>
          <| sm_query_exponent := Z.log2 (sm_query m) |>, s).

(** ** Queries *)

Definition query_wildcards (qe : Z) : Z :=
  foldr Z.lor 0 [OFPFW_IN_PORT; OFPFW_DL_VLAN; OFPFW_DL_SRC; OFPFW_DL_DST; OFPFW_DL_TYPE; OFPFW_NW_PROTO;
                 OFPFW_TP_SRC; OFPFW_DL_VLAN_PCP; OFPFW_NW_TOS; OFPFW_TP_DST; Z.shiftl 32 OFPFW_NW_SRC_SHIFT;
                 Z.shiftl qe OFPFW_NW_DST_SHIFT].

(** The address of the block to ask for, in the order of the host: the number of
    answers so far selects it. *)
Definition query_address (m : smod) : Z :=
  let fe := sm_flows_exponent m in
  let qe := sm_query_exponent m in
  let base := Z.land (bswap32 (inet_addr (sm_network m))) (u32 (Z.shiftl 0xFFFFFFFF fe)) in
  if qe <? fe then u32 (base + Z.shiftl (Z.rem (sm_stats_count m) (Z.shiftl 1 (fe - qe))) qe) else base.

(** The request, and the offset of its match. *)
Definition query_request (xid : Z) : res (mem * Z) :=
  match which with
  | FlowStats =>
    '(b, _) ← make_ofp_flow_get_stat xid; mret (b, sizeof_ofp_stats_request + ofp_flow_stats_request_match)
  | AggrStats =>
    '(b, _) ← make_ofp_aggr_flow_stats xid; mret (b, sizeof_ofp_stats_request + ofp_aggregate_stats_request_match)
  end.

(** [junk]: what the array msg held; flow_stats.c prints it before the first
    query. *)
Definition first_query (junk : mem) (m : smod) : res smod :=
  if sm_trans_id m =? 0 then
    _ ← match which with FlowStats => _ ← c_text junk; mret () | AggrStats => mret () end;
    mret (m <| sm_poll_started := true |>)
  else mret m.

(** [snd]: the time of the timer, or the reading of the clock. *)
Definition stats_query (junk : mem) (snd clock : timeval) (m : smod) (s : harness) : res (smod * harness) :=
  m ← first_query junk m;
  let xid := sm_trans_id m in
  e ← counter_get (counter_size which) (sm_counter m) xid;
  c ← counter_put (counter_size which) (sm_counter m) xid {| se_snd := snd; se_rcv := tv0; se_pkts := se_pkts e |};
  let m := m <| sm_counter := c |> <| sm_trans_id := xid + 1 |> in
  '(b, o) ← query_request xid;
  b ← wr32be b (o + ofp_match_wildcards) (query_wildcards (sm_query_exponent m));
  b ← wr32be b (o + ofp_match_nw_dst) (query_address m);
  '(_, s) ← oflops_send_of_mesg b s;
  s ← schedule_timer (add_time clock (sm_query_delay m `quot` SEC_TO_USEC) (Z.rem (sm_query_delay m) SEC_TO_USEC))
        GETSTAT s;
  mret (m, s).

Section snmp.
Context (snmp_open : option snmp_session → bool) (snmp_pdu_create : list Z → Z) (snmp_send : bool).

(** [clock] and [nf_clock]: the readings of the clock of the host and of the card. *)
Definition stats_handle_timer_event (junk : mem) (clock nf_clock : nat → timeval) (te : timer_event) (m : smod)
    (s : harness) : res (smod * harness) :=
  if te_arg te =? GETSTAT then
    stats_query junk
      match which with
      | FlowStats => sched_time te
      | AggrStats => oflops_gettimeofday (ctx s) (nf_clock 0%nat) (clock 0%nat)
      end (clock 1%nat) m s
  else if te_arg te =? BYESTR then mret (m, (oflops_end_test 1 s).2)
  else if te_arg te =? SNMPGET then
    s ← snmp_requests snmp_open snmp_pdu_create snmp_send s;
    s ← schedule_timer (add_time (clock 0%nat) 10 0) SNMPGET s;
    mret (m, s)
  else mret (m, s).
End snmp.

(** ** Answers *)

(** A part of an answer; the last part does not announce more. *)
Definition stats_answer (clock nf_clock : timeval) (xid flags : Z) (m : smod) (s : harness) : res smod :=
  if Z.land flags OFPSF_REPLY_MORE =? 0 then
    e ← counter_get (counter_size which) (sm_counter m) xid;
    let now := match which with FlowStats => clock | AggrStats => oflops_gettimeofday (ctx s) nf_clock clock end in
    c ← counter_put (counter_size which) (sm_counter m) xid {| se_snd := se_snd e; se_rcv := now; se_pkts := se_pkts e |};
    n ← chk_int (sm_stats_count m + 1);
    mret (m <| sm_counter := c |> <| sm_stats_count := n |>)
  else mret m.

(** flow_stats.c counts the messages of every answer, whatever they hold. *)
Definition stats_part (xid : Z) (m : smod) : res smod :=
  match which with
  | FlowStats =>
    e ← counter_get (counter_size which) (sm_counter m) xid;
    n ← chk_int (se_pkts e + 1);
    c ← counter_put (counter_size which) (sm_counter m) xid {| se_snd := se_snd e; se_rcv := se_rcv e; se_pkts := n |};
    mret (m <| sm_counter := c |>)
  | AggrStats => mret m
  end.

(** The log line of aggr_flow_stats.c. *)
Definition stats_logged (clock : timeval) (xid : Z) (s : harness) : res harness :=
  match which with
  | FlowStats => mret s
  | AggrStats => oflops_log clock OFPT_STATS_REPLY_FLOW (dec (i32 xid)) s
  end.

Definition stats_type : Z := match which with FlowStats => OFPST_FLOW | AggrStats => OFPST_AGGREGATE end.

Definition stats_of_event_other (clock : nat → timeval) (nf_clock : timeval) (ofph : mem) (m : smod) (s : harness) :
    res (smod * harness) :=
  type ← rd8 ofph ofp_header_type;
  if type =? OFPT_STATS_REPLY then
    xid ← rd32be ofph ofp_header_xid;
    m ← stats_part xid m;
    t ← rd16be ofph ofp_stats_reply_type;
    if t =? stats_type then
      s ← stats_logged (clock 0%nat) xid s;
      flags ← rd16be ofph ofp_stats_reply_flags;
      m ← stats_answer (clock 1%nat) nf_clock xid flags m s;
      mret (m, s)
    else mret (m, s)
  else if type =? OFPT_ERROR then
    _ ← rd16be ofph ofp_error_msg_type;
    _ ← rd16be ofph ofp_error_msg_code;
    Fault (FExit 1)
  else mret (m, s).

Definition stats_handle_snmp_event (vars : list snmp_var) (s : harness) : res harness := log_snmp vars s.

(** ** Captured packets *)

Definition stats_channel (ch : Z) : bool := (ch =? OFLOPS_DATA3) || (ch =? OFLOPS_DATA2).

Definition stats_get_pcap_filter (ofc : Z) (buflen : nat) : Z * cstring :=
  if ofc =? OFLOPS_CONTROL then (0, [])
  else if stats_channel ofc then (3, snprintf buflen (str "udp"))
  else (0, []).

(** aggr_flow_stats.c exchanges the bytes of the number once more. *)
Definition stats_id (pkt : pktgen_hdr) : Z :=
  match which with FlowStats => i32 (pg_seq_num pkt) | AggrStats => i32 (bswap32 (pg_seq_num pkt)) end.

Definition stats_handle_pcap_event (nf_extract : Z → mem → Z → option pktgen_hdr) (hdr : pcap_pkthdr) (data : mem)
    (ch : Z) (m : smod) (s : harness) : res smod :=
  if stats_channel ch then
    if sm_poll_started m then
      '(pkt, fl) ← extract_pktgen_pkt nf_extract (ctx s) ch data (i32 (caplen hdr)) true;
      match pkt, fl with
      | None, _ => mret m
      | Some _, None => Fault FUninit
      | Some pkt, Some fl =>
        let e := entry_of pkt (ts hdr) ch (f_nw_dst fl) in
        p ← capture {| e_snd := e_snd e; e_rcv := e_rcv e; e_ch := e_ch e; e_id := stats_id pkt; e_dst := e_dst e |}
              (sm_probes m);
        mret (m <| sm_probes := p |>)
      end
    else mret m
  else mret m.

(** ** Traffic *)

(** The first address of the stream over the range. *)
Definition stats_range : cstring := match which with FlowStats => network | AggrStats => str "192.168.2.1" end.

(** [junk] is what the structure held before: the number of packets is not set. *)
Definition stats_det (m : smod) (junk : traf_gen_det) (c : oflops_context) : res traf_gen_det :=
  text ← (if trafficGen c =? PKTGEN then mret (str "00:00:00:00:00:00") else mac_text (sm_data_mac m));
  mret {| src_ip := str "10.1.1.1"; dst_ip_min := stats_range;
          dst_ip_max := inet_ntoa (addr_plus (inet_addr stats_range) (sm_flows m - 1));
          mac_dst := str "00:1e:68:9a:c5:75"; mac_src := text; udp_src_port := 8080; udp_dst_port := 8080;
          pkt_size := u32 (sm_pkt_size m); vlan := 0xffff; vlan_p := 1; vlan_cfi := 0;
          gen_delay := u32 (sm_data_interval m * 1000); pkt_count := pkt_count junk; gen_flags := str "IPDST_RND" |}.

(** The probe: the other fields are those of the first generator, [d]. *)
Definition stats_probe_det (m : smod) (d : traf_gen_det) (c : oflops_context) : res traf_gen_det :=
  text ← (if trafficGen c =? PKTGEN then mret (str "00:00:00:00:00:00") else mac_text (sm_probe_mac m));
  mret {| src_ip := src_ip d; dst_ip_min := str "10.1.1.2"; dst_ip_max := str "10.1.1.2";
          mac_dst := str "00:15:17:7b:92:0a"; mac_src := text; udp_src_port := udp_src_port d;
          udp_dst_port := udp_dst_port d; pkt_size := pkt_size d; vlan := 0xffff; vlan_p := vlan_p d;
          vlan_cfi := vlan_cfi d; gen_delay := u32 (sm_probe_interval m * 1000); pkt_count := pkt_count d;
          gen_flags := [] |}.

Definition stats_handle_traffic_generation setuid_ok modprobe_ok if_index bind_ok exists_ writable nows rands nf_rands
    rounds nf_rounds (m : smod) (junk : traf_gen_det) (s : harness) (k : commands) (t : list nf_call) :
    res (option Z * harness * commands * list nf_call) :=
  _ ← init_traf_gen setuid_ok modprobe_ok (ctx s);
  d ← stats_det m junk (ctx s);
  '(_, c) ← add_traffic_generator OFLOPS_DATA1 d (ctx s);
  d ← stats_probe_det m d c;
  '(_, c) ← add_traffic_generator OFLOPS_DATA2 d c;
  '(r, s, k, t) ← start_traffic_generator inet_addr if_index bind_ok exists_ writable nows rands nf_rands rounds
                     nf_rounds (s <| ctx := c |>) k t;
  mret (match r with Some _ => Some 1 | None => None end, s, k, t).
End module.

(** ** The report *)

Definition stats_entry_line (e : entry) : cstring :=
  dec (u64 (e_id e)) ++ str " " ++ time_text (e_snd e) ++ str " " ++ time_text (e_rcv e) ++ str " " ++ dec (e_ch e) ++
  str " " ++ inet_ntoa (e_dst e).

(** %u.%06u of a time, whose parts are wider. *)
Definition time_text32 (t : timeval) : cstring := dec (u32 (tv_sec t)) ++ str "." ++ dec_pad 6 (u32 (tv_usec t)).

Definition stats_line (which : variant) (i : Z) (e : stats_entry) : cstring :=
  snprintf 1024 (str "stats:" ++ dec i ++ str ":" ++
    match which with FlowStats => dec (se_pkts e) ++ str ":" | AggrStats => [] end ++
    time_text32 (se_snd e) ++ str ":" ++ time_text32 (se_rcv e) ++ str ":" ++ dec (time_diff (se_snd e) (se_rcv e))).

Section report.
Context {F D : Type} {Fl : Floating F} {Db : Floating D}.
Context (gsl_sort : list D → list D) (gsl_mean gsl_variance gsl_median : list D → D).
Context (to_uint : D → Z) (fmt4 : F → cstring) (which : variant).
Local Notation port_line := (port_line gsl_sort gsl_mean gsl_variance gsl_median to_uint fmt4).

(** Only a packet that arrived after it was sent is counted; the index is
    advanced before the delay is stored. *)
Definition stats_tally_one (e : entry) (t : tally_st D) : res (tally_st D) :=
  let ch := e_ch e - 1 in
  if time_cmp (e_snd e) (e_rcv e) >? 0 then
    i ← get3 (t_ix t) ch;
    ix ← put3 (t_ix t) ch (i + 1);
    lo ← get3 (t_min t) ch;
    lows ← put3 (t_min t) ch (if e_id e <? lo then e_id e else lo);
    hi ← get3 (t_max t) ch;
    highs ← put3 (t_max t) ch (if e_id e >? hi then e_id e else hi);
    match zget (t_data t) ch with
    | None => Fault FBounds
    | Some d =>
      d ← arr_write d (i + 1) (f_of_Z (time_diff (e_snd e) (e_rcv e)));
      mret {| t_min := lows; t_max := highs; t_ix := ix; t_data := zset (t_data t) ch d |}
    end
  else mret t.

(** A record of another channel is skipped, and not released.  [kept]: whether a
    released record can still be read. *)
Fixpoint stats_tally (print : Z) (out : option bool) (kept : bool) (es : list entry) (t : tally_st D)
    (file : list cstring) : res (tally_st D * list cstring) :=
  match es with
  | [] => mret (t, file)
  | e :: es =>
    if (e_ch e >? OFLOPS_DATA3) || (e_ch e <? OFLOPS_DATA1) then stats_tally print out kept es t file
    else
      file ← print_entry stats_entry_line print out e file;
      t ← stats_tally_one e t;
      if kept then stats_tally print out kept es t file else Fault FDangling
  end.

(** The line has the number of the array, not the port, and the number of counted
    packets. *)
Definition stats_channel_line (now : timeval) (t : tally_st D) (ch : Z) (s : harness) : res harness :=
  n ← get3 (t_ix t) ch;
  if n =? 0 then mret s
  else
    match zget (t_data t) ch with
    | None => Fault FBounds
    | Some d =>
      data ← arr_prefix (Z.to_nat n) d;
      lo ← get3 (t_min t) ch;
      hi ← get3 (t_max t) ch;
      span ← chk_int (hi - lo);
      oflops_log now GENERIC_MSG (port_line ch data (f_div (f_of_Z n) (f_of_Z span)) n) s
    end.

Definition stats_channel_lines (now : timeval) (t : tally_st D) (s : harness) : res harness :=
  s ← stats_channel_line now t 0 s;
  s ← stats_channel_line now t 1 s;
  stats_channel_line now t 2 s.

(** The answers to the queries [i], [i + 1] ... of the [count] that are complete;
    [ix] is the index of the next delay, one more than where it is stored. *)
Fixpoint answer_lines (line : Z → stats_entry → cstring) (size : Z) (c : gmap Z stats_entry) (count : Z) (n : nat) (i : Z)
    (now : timeval) (data : list (option D)) (ix : Z) (s : harness) : res (list (option D) * Z * harness) :=
  match n with
  | O => mret (data, ix, s)
  | S n =>
    e ← counter_get size c i;
    if ((tv_sec (se_rcv e) =? 0) && (tv_usec (se_rcv e) =? 0)) || (ix >=? count)
    then answer_lines line size c count n (i + 1) now data ix s
    else
      data ← arr_write data (ix - 1) (f_of_Z (time_diff (se_snd e) (se_rcv e)));
      s ← oflops_log now GENERIC_MSG (line i e) s;
      answer_lines line size c count n (i + 1) now data (ix + 1) s
  end.

Definition stats_summary (data : list D) (loss : F) (n : Z) : cstring :=
  let data := gsl_sort data in
  snprintf 1024 (str "statistics:stats:" ++ dec (to_uint (gsl_mean data)) ++ str ":" ++
    dec (to_uint (gsl_median data)) ++ str ":" ++ dec (to_uint (f_sqrt (gsl_variance data))) ++ str ":" ++
    fmt4 loss ++ str ":" ++ dec n).

(** aggr_flow_stats.c resets the bounds of the first channel, and takes one off the
    number of delays at the end. *)
Definition stats_destroy (out : option bool) (kept : bool) (now : timeval) (m : smod) (s : harness) :
    res (harness * list cstring) :=
  '(t, file) ← stats_tally (sm_print m) out kept (default [] (pr_head (sm_probes m)))
                 (tally0 (pr_count (sm_probes m))) [];
  s ← stats_channel_lines now t s;
  '(lo, hi) ← match which with
              | FlowStats => lo ← get3 (t_min t) 0; hi ← get3 (t_max t) 0; mret (lo, hi)
              | AggrStats => mret (INT_MAX, INT_MIN)
              end;
  '(data, ix, s) ← answer_lines (stats_line which) (counter_size which) (sm_counter m) (sm_stats_count m)
                       (Z.to_nat (sm_trans_id m)) 0 now (arr_new (sm_stats_count m)) 0 s;
  let ix := match which with FlowStats => ix | AggrStats => ix - 1 end in
  s ← (if ix >? 0 then
         data ← arr_prefix (Z.to_nat ix) data;
         span ← chk_int (hi - lo);
         oflops_log now GENERIC_MSG (stats_summary data (f_div (f_of_Z ix) (f_of_Z span)) ix) s
       else oflops_log now GENERIC_MSG (str "stats_stats:fail") s);
  mret (s, file).
End report.
