(* ===== verification/StatsSpec.v ===== *)
(** * What the statistics modules do

    The flows that are installed and the queries for them, from the
    configuration to the messages, and the report at the end. *)

From stdpp Require Import gmap.
From S2P Require Import Prelude CTime CBytes CStr OpenFlow WcEvent WcQueue PcapTrack TimerEvent Msg MsgSpec Context Harness.
From S2P Require Import OfFrame WcRefine ModuleRunSpec TrafficGen TrafficKernel TrafficSpec Cbench TestModule ConfigSpec.
From S2P Require Import MeasureModule ProbeSpec MeasureSpec ModFlowSpec StatsModule.
Open Scope Z_scope.

(** ** Blocks of addresses *)

(** The addresses [net + i] whose upper bits are those of [a]. *)
Lemma same_block net fe qe i c :
  0 ≤ qe ≤ fe → net mod 2^fe = 0 → 0 ≤ i → 0 ≤ c →
  Z.shiftr (net + i) qe = Z.shiftr (net + (c mod 2^(fe - qe)) * 2^qe) qe ↔ i `div` 2^qe = c mod 2^(fe - qe).
Proof.
  intros Hqe Hnet Hi Hc. rewrite !Z.shiftr_div_pow2 by lia.
  assert (0 < 2^qe) by lia. assert (0 < 2^(fe - qe)) by lia.
  assert (net = (net `div` 2^fe * 2^(fe - qe)) * 2^qe) as E.
  { rewrite <-Z.mul_assoc, <-Z.pow_add_r by lia. replace (fe - qe + qe) with fe by lia.
    pose proof (Z.div_mod net (2^fe)). lia. }
  rewrite E, <-Z.mul_add_distr_r, Z.div_mul, Z.div_add_l by lia. lia.
Qed.

(** The address of the range, rounded down to a multiple of its size. *)
Definition query_base (fe net : Z) : Z := net `div` 2^fe * 2^fe.

Lemma land_network net fe : is_u32 net → 0 ≤ fe ≤ 32 →
  Z.land net (u32 (Z.shiftl 0xFFFFFFFF fe)) = query_base fe net.
Proof.
  intros Hn Hf. unfold query_base. rewrite <-Z.shiftl_mul_pow2, <-Z.shiftr_div_pow2 by lia.
  apply Z.bits_inj'. intros k Hk. rewrite Z.land_spec, Z.shiftl_spec by done. unfold u32. change 4294967296 with (2^32).
  destruct (decide (k < fe)) as [Hlt|Hge].
  { rewrite (Z.testbit_neg_r (Z.shiftr net fe)) by lia. rewrite Z.mod_pow2_bits_low, Z.shiftl_spec by lia.
    rewrite (Z.testbit_neg_r 0xFFFFFFFF) by lia. apply andb_false_r. }
  rewrite Z.shiftr_spec by lia. replace (k - fe + fe) with k by lia. destruct (decide (k < 32)).
  - rewrite Z.mod_pow2_bits_low, Z.shiftl_spec by lia.
    change 0xFFFFFFFF with (Z.ones 32). rewrite Z.ones_spec_low by lia. apply andb_true_r.
  - rewrite Z.mod_pow2_bits_high by lia. rewrite andb_false_r. symmetry.
    destruct (decide (net = 0)) as [->|]; [apply Z.bits_0|]. apply Z.bits_above_log2; [unfold is_u32 in Hn; lia|].
    unfold is_u32 in Hn. apply Z.log2_lt_pow2; [lia|]. pose proof (Z.pow_le_mono_r 2 32 k). lia.
Qed.

(** ** The configuration *)

(** What init leaves in the variables of the module. *)
Record configured (m : smod) : Prop := {
  cf_flows : 0 < sm_flows m ≤ INT_MAX;
  cf_query : ∃ qe, 0 ≤ qe ≤ 30 ∧ sm_query m = 2^qe;
  cf_delay : MIN_QUERY_DELAY < sm_query_delay m ≤ INT_MAX;
  cf_fresh : sm_trans_id m = 0 ∧ sm_stats_count m = 0 ∧ sm_counter m = ∅;
}.

Lemma query_size_pow q n : 0 < q ≤ INT_MAX → query_size q = Ok n → ∃ qe, 0 ≤ qe ≤ 30 ∧ n = 2^qe ∧ q ≤ n < 2 * q.
Proof.
  intros Hq. unfold query_size, INT_MAX in *. pose proof (Z.log2_spec q ltac:(lia)) as Hs. pose proof (Z.log2_nonneg q).
  destruct (_ =? _) eqn:E; [intros [= <-]|].
  - exists (Z.log2 q). assert (q ≤ 2^Z.log2 q).
    { destruct (decide (q = 1)) as [->|]; [done|]. pose proof (Z.log2_up_spec q ltac:(lia)).
      replace (Z.log2 q) with (Z.log2_up q) by lia. lia. }
    split_and!; try lia. apply Z.lt_succ_r, Z.log2_lt_pow2; lia.
  - unfold chk_int. case_decide as Hi; [|done]. intros [= <-]. exists (Z.log2_up q).
    destruct (decide (q = 1)) as [->|]; [done|]. pose proof (Z.log2_up_spec q ltac:(lia)) as [H1 H2].
    pose proof (Z.log2_up_pos q ltac:(lia)). assert (2^Z.log2_up q = 2 * 2^Z.pred (Z.log2_up q)).
    { rewrite <-Z.pow_succ_r by lia. f_equal. lia. }
    split_and!; try lia. apply Z.nlt_ge. intros ?. pose proof (Z.pow_le_mono_r 2 31 (Z.log2_up q)).
    unfold is_int, INT_MAX in Hi. lia.
Qed.

Lemma stats_set_param_configured name value m m' :
  configured m → stats_set_param name value m = Ok m' → configured m'.
Proof.
  intros [Hf Hq Hd Hr]. unfold stats_set_param, MIN_QUERY_DELAY.
  pose proof (i32_range (strtol 10 value)) as [_ H1]. pose proof (i32_range (strtol0 value)) as [_ H2].
  repeat case_bool_decide; intros Heq; try (by injection Heq as <-);
    repeat match type of Heq with context [if ?b then _ else _] => destruct b eqn:?; [done|] end;
    try (injection Heq as <-; split; cbn; try done; unfold MIN_QUERY_DELAY; lia).
  apply bind_Ok in Heq as (q & Hs & [= <-]). apply query_size_pow in Hs as (qe & ? & ? & _); [|lia].
  split; cbn; try done. by exists qe.
Qed.

Lemma stats_init_configured b b' m : stats_init b smod0 = Ok (b', m) → configured m.
Proof.
  unfold stats_init. intros ([b1 m1] & H & H1)%bind_Ok. apply bind_Ok in H1 as (i & _ & H1).
  apply bind_Ok in H1 as (j & _ & [= <- <-]). assert (configured m1) as [? ? ? ?]; [|by split].
  eapply (read_params_inv stats_set_param configured); [apply stats_set_param_configured| |exact H].
  split; cbn; try done; by exists 6.
Qed.

(** ** The array of answers *)

Lemma counter_get_ok size c i : 0 ≤ i < size → counter_get size c i = Ok (default stats_entry0 (c !! i)).
Proof. intros Hi. unfold counter_get. by replace ((0 <=? i) && (i <? size)) with true by lia. Qed.

Lemma counter_put_ok size c i e : 0 ≤ i < size → counter_put size c i e = Ok (<[i := e]> c).
Proof. intros Hi. unfold counter_put. by rewrite counter_get_ok. Qed.

Section module.
Context {OF : OpenFlow} {L : OFLayout OF} {W : OFWildcards OF} (inet_addr : cstring → Z).

(** ** Wildcards *)

(** The bits of the netmask of the destination. *)
Definition dst_bits (wc : Z) : Z := Z.land (Z.shiftr wc OFPFW_NW_DST_SHIFT) 63.

(** Every other field of the match is a wildcard. *)
Definition only_dst (wc : Z) : Prop :=
  Forall (λ f, Z.land wc f = f)
    [OFPFW_IN_PORT; OFPFW_DL_VLAN; OFPFW_DL_SRC; OFPFW_DL_DST; OFPFW_DL_TYPE; OFPFW_NW_PROTO; OFPFW_TP_SRC; OFPFW_TP_DST;
     OFPFW_DL_VLAN_PCP; OFPFW_NW_TOS; Z.shiftl 32 OFPFW_NW_SRC_SHIFT].

#[local] Instance only_dst_dec wc : Decision (only_dst wc).
Proof. unfold only_dst. apply _. Defined.

Ltac wildcards :=
  let H := fresh in pose proof (@of_wildcards OF W) as H; injection H as ? ? ? ? ? ? ? ? ? ? ? ?;
  repeat match goal with E : _ = _ :> Z |- _ => rewrite ?E; clear E end.

Lemma query_wildcards_spec qe :
  0 ≤ qe ≤ 31 → is_u32 (query_wildcards qe) ∧ only_dst (query_wildcards qe) ∧ dst_bits (query_wildcards qe) = qe.
Proof.
  intros Hq. assert (Forall (λ q, is_u32 (query_wildcards q) ∧ only_dst (query_wildcards q) ∧ dst_bits (query_wildcards q) = q)
    (seqZ 0 32)) as H.
  { unfold is_u32, only_dst, dst_bits, query_wildcards. wildcards. apply (bool_decide_unpack _). vm_compute. done. }
  rewrite Forall_forall in H. apply H. apply elem_of_seqZ. lia.
Qed.

Lemma stats_mask_u32 table : is_u32 (stats_mask table).
Proof. unfold stats_mask. destruct (table =? 0); [done|]. wildcards. apply (bool_decide_unpack _). vm_compute. done. Qed.

(** ** The request *)

(** A request for the flows that go to one block of addresses. *)
Definition query_msg (which : variant) (xid wc dst : Z) : list Z :=
  [u8 OFP_VERSION; u8 OFPT_STATS_REQUEST; 0; 56] ++ be32 xid ++ be16 (stats_type which) ++ [0; 0] ++
  be32 wc ++ replicate 28 0 ++ be32 dst ++ replicate 4 0 ++ [255; 0] ++ le16 OFPP_NONE.

(** What a switch reads in it: a complete request with this identifier that
    leaves out of account everything but the upper bits of the destination. *)
Definition selects (bs : list Z) (dst : Z) : Prop :=
  only_dst (be32_at bs 12) ∧ Z.shiftr dst (dst_bits (be32_at bs 12)) = Z.shiftr (be32_at bs 44) (dst_bits (be32_at bs 12)).

Lemma query_msg_spec which xid wc dst : is_u32 xid → is_u32 wc → is_u32 dst →
  let bs := query_msg which xid wc dst in
  zlen bs = 56 ∧ of_message bs ∧ be32_at bs 4 = xid ∧ be32_at bs 12 = wc ∧ be32_at bs 44 = dst.
Proof.
  intros Hx Hw Hd bs. subst bs. unfold be32_at, be16_at, byte_at, of_message. cbn.
  split_and!; try done; by apply be32_digits'.
Qed.

Lemma query_request_run which xid wc dst :
  is_u32 xid →
  ('(b, o) ← query_request which xid; b ← wr32be b (o + ofp_match_wildcards) wc; wr32be b (o + ofp_match_nw_dst) dst)
  = Ok (cells (query_msg which xid wc dst)).
Proof.
  intros Hx. destruct which; unfold query_request, make_ofp_flow_get_stat, make_ofp_aggr_flow_stats, query_msg, stats_type;
    rewrite (u32_id _ Hx); of_layout; reflexivity.
Qed.

Lemma send_query which xid wc dst s : fluid_control (ctx s) ≠ 0 → is_u32 xid → is_u32 wc → is_u32 dst →
  let bs := query_msg which xid wc dst in
  oflops_send_of_mesg (cells bs) s = Ok (56, s <| control_out := control_out s ++ [bs] |>).
Proof.
  intros Hc Hx Hw Hd bs. destruct (query_msg_spec which xid wc dst Hx Hw Hd) as (Hz & _). fold bs in Hz. rewrite <-Hz.
  apply send_message; [done|lia|]. rewrite Hz. unfold bs, query_msg. of_layout. reflexivity.
Qed.

(** ** Starting *)

(** aggr_flow_stats.c begins one address later. *)
Definition first_flow (which : variant) : Z := match which with FlowStats => 0 | AggrStats => 1 end.

Definition stats_msg (fl : flow) (port : Z) : list Z :=
  flow_mod_msg 80 fl OFPFC_ADD 1200 1000 0 OFPFF_SEND_FLOW_REM (output_action port).

Section range.
Context (which : variant) (src : list Z) (in_port out_port : Z).
Hypotheses (Hsrc : zlen src = 6) (Hinet : ∀ t, is_u32 (inet_addr t)).

Lemma stats_flow_ok mask mac dst :
  is_u32 mask → zlen mac = 6 → is_u32 dst → flow_ok (stats_flow inet_addr mask src mac in_port dst).
Proof.
  intros Hm Hmac Hd. split; cbn; try done; try apply bswap16_range; try apply Hinet; unfold zlen in *; lia.
Qed.

Definition stats_range_flow (addr : Z) : flow := stats_flow inet_addr 0 src range_mac in_port (bswap32 (u32 addr)).

Lemma stats_range_flow_ok addr : flow_ok (stats_range_flow addr).
Proof. apply stats_flow_ok; [done|done|apply bswap32_range]. Qed.

Lemma stats_install_run n addr i s : fluid_control (ctx s) ≠ 0 →
  stats_install inet_addr which n (u32 (addr + i)) src in_port out_port s
  = Ok (s <| control_out := control_out s ++
           ((λ j, stats_msg (stats_range_flow (addr + first_flow which + j)) out_port) <$> seqZ i (Z.of_nat n)) |>).
Proof.
  revert i s. induction n as [|n IH]; intros i s Hc.
  { cbn. rewrite app_nil_r. by destruct s. }
  rewrite seqZ_cons by lia. cbn [stats_install fmap list_fmap].
  assert (∀ a k, u32 (u32 a + k) = u32 (a + k)) as Hk by (intros a k; unfold u32; by rewrite Zplus_mod_idemp_l).
  set (a := match which with FlowStats => _ | AggrStats => u32 _ end).
  assert (a = u32 (addr + first_flow which + i)) as ->.
  { subst a. destruct which; cbn [first_flow]; rewrite ?Hk; f_equal; lia. }
  fold (stats_range_flow (addr + first_flow which + i)).
  pose proof (stats_range_flow_ok (addr + first_flow which + i)) as Hok.
  rewrite (bind_val _ _ _ (make_ofp_flow_add_spec _ out_port 1 1200 Hok)). cbv beta iota.
  rewrite (bind_val _ _ _ (proj2 (send_80 _ 1200 1000 OFPFF_SEND_FLOW_REM out_port s Hok Hc))). cbv beta iota.
  set (a := match which with FlowStats => u32 _ | AggrStats => u32 _ end).
  assert (a = u32 (addr + (i + 1))) as ->.
  { subst a. destruct which; cbn [first_flow]; rewrite ?Hk; f_equal; lia. }
  rewrite IH by done. cbn [assign control_out]. rewrite <-app_assoc.
  replace (Z.pred (Z.of_nat (S n))) with (Z.of_nat n) by lia. by rewrite Z.add_1_r.
Qed.
End range.

(** What start leaves behind. *)
Record stats_started (which : variant) (m : smod) (s : harness) (m1 : smod) (s1 : harness) : Prop := {
  ss_ctx : ctx s1 = ctx s;
  ss_module : ∃ data probe, m1 = m <| sm_data_mac := data |> <| sm_probe_mac := probe |>
    <| sm_flows_exponent := Z.log2 (sm_flows m) |> <| sm_query_exponent := Z.log2 (sm_query m) |>;
  ss_out : ∃ greeting src x1 x2, zlen src = 6 ∧ get_channel (ctx s) OFLOPS_DATA1 = Ok x1 ∧
    get_channel (ctx s) OFLOPS_DATA2 = Ok x2 ∧ control_out s1 = control_out s ++ greeting ++
    ((λ j, stats_msg (stats_range_flow src (of_port x1) (bswap32 (inet_addr (sm_network m)) + first_flow which + j))
             (of_port x2)) <$> seqZ 0 (sm_flows m));
}.

(** Messages are only added. *)
Definition adds (s s' : harness) : Prop := ctx s' = ctx s ∧ ∃ ms, control_out s' = control_out s ++ ms.

Lemma adds_trans s1 s2 s3 : adds s1 s2 → adds s2 s3 → adds s1 s3.
Proof. intros [E1 [a Ha]] [E2 [b Hb]]. split; [congruence|]. exists (a ++ b). by rewrite Hb, Ha, app_assoc. Qed.

Lemma quiet_adds s s' : quiet s s' → adds s s'.
Proof. intros [E1 E2]. split; [done|]. exists []. by rewrite app_nil_r. Qed.

Lemma send_adds b len s r s' : oflops_send_of_mesgs b len s = Ok (r, s') → adds s s'.
Proof. intros (E & bs & H)%send_one. split; [done|by exists [bs]]. Qed.

Lemma send_mesg_adds b s r s' : oflops_send_of_mesg b s = Ok (r, s') → adds s s'.
Proof. unfold oflops_send_of_mesg. intros (? & _ & H)%bind_Ok. by eapply send_adds. Qed.

Lemma send_sized_adds which b len s r s' : send_sized which b len s = Ok (r, s') → adds s s'.
Proof. destruct which; [apply send_mesg_adds|apply send_adds]. Qed.

Lemma stats_greet_adds which s s' : stats_greet which s = Ok s' → adds s s'.
Proof.
  unfold stats_greet. intros ([b ?] & _ & H)%bind_Ok. apply bind_Ok in H as ([? s1] & H1%send_sized_adds & H).
  apply bind_Ok in H as (s2 & H2 & H). apply bind_Ok in H as ([b2 len] & _ & H).
  apply bind_Ok in H as ([? s3] & H3%send_sized_adds & [= <-]).
  eapply adds_trans; [exact H1|]. eapply adds_trans; [|exact H3]. destruct which.
  - apply bind_Ok in H2 as ([b3 ?] & _ & H2). by apply bind_Ok in H2 as ([? s4] & ?%send_mesg_adds & [= <-]).
  - injection H2 as <-. by apply quiet_adds.
Qed.

Lemma stats_start_result which sock hwaddr clock m s m1 s1 :
  stats_start inet_addr which sock hwaddr clock m s = Ok (m1, s1) → 0 ≤ sm_flows m → fluid_control (ctx s) ≠ 0 →
  (∀ t, is_u32 (inet_addr t)) → stats_started which m s m1 s1.
Proof.
  intros H Hn Hf Hin. unfold stats_start in H. apply bind_Ok in H as (data & _ & H). apply bind_Ok in H as (? & _ & H).
  apply bind_Ok in H as (probe & _ & H). apply bind_Ok in H as (? & _ & H).
  apply bind_Ok in H as (s2 & A2%log_quiet%quiet_adds & H). apply bind_Ok in H as (s3 & A3%stats_greet_adds & H).
  apply bind_Ok in H as (x2 & Hx2 & H). apply bind_Ok in H as (pb & _ & H). apply bind_Ok in H as (x3 & _ & H).
  apply bind_Ok in H as ([b len] & _ & H). apply bind_Ok in H as ([? s4] & A4%send_sized_adds & H).
  apply bind_Ok in H as (x1 & Hx1 & H). apply bind_Ok in H as (db & Hdb & H).
  assert (adds s s4) as [C (ms & O)] by (eapply adds_trans; [exact A2|]; by eapply adds_trans).
  assert (ctx s3 = ctx s) as C3 by (destruct A2, A3; congruence). rewrite C in Hx1. rewrite C3 in Hx2.
  pose proof (rd_bytes_len _ _ _ _ Hdb) as Hdb6. pose proof (bswap32_range (inet_addr (sm_network m))) as Hu.
  pose proof (stats_install_run which db (of_port x1) (of_port x2) Hdb6 Hin (Z.to_nat (sm_flows m))
    (bswap32 (inet_addr (sm_network m))) 0 s4 ltac:(by rewrite C)) as Hi.
  rewrite Z.add_0_r, (u32_id _ Hu), Z2Nat.id in Hi by done. rewrite (bind_val _ _ _ Hi) in H. cbv beta in H. clear Hi.
  apply bind_Ok in H as (s5 & [C5 O5]%schedule_quiet & H). apply bind_Ok in H as (s6 & [C6 O6]%schedule_quiet & H).
  apply bind_Ok in H as (s7 & [C7 O7]%schedule_quiet & H). injection H as <- <-. split.
  - by rewrite C7, C6, C5.
  - by exists data, probe.
  - exists ms, db, x1, x2. split_and!; try done. rewrite O7, O6, O5. cbn [assign control_out]. by rewrite O, <-app_assoc.
Qed.

(** ** Queries and answers *)

(** What the module knows after [x] queries and [k] answers. *)
Record session (m : smod) (fe qe net x k : Z) : Prop := {
  qd_fe : sm_flows_exponent m = fe;
  qd_qe : sm_query_exponent m = qe;
  qd_net : bswap32 (inet_addr (sm_network m)) = net;
  qd_xid : sm_trans_id m = x;
  qd_count : sm_stats_count m = k;
  qd_pkts : ∀ i, k ≤ i → se_pkts (default stats_entry0 (sm_counter m !! i)) = 0;
}.

Definition block_of (fe qe k : Z) : Z := if qe <? fe then k mod 2^(fe - qe) else 0.

(** Blocks are counted modulo their number, at least one. *)
Lemma block_of_mod fe qe k : 0 ≤ qe → 0 ≤ fe → block_of fe qe k = k mod (Z.max 1 (2^fe `div` 2^qe)).
Proof.
  intros Hq Hf. unfold block_of. destruct (qe <? fe) eqn:Hlt.
  - rewrite <-Z.pow_sub_r by lia. rewrite Z.max_r; [done|]. assert (0 < 2^(fe - qe)) by lia. lia.
  - assert (2^fe `div` 2^qe ≤ 1); [|by rewrite Z.max_l, Z.mod_1_r by done].
    assert (2^fe ≤ 2^qe) by (apply Z.pow_le_mono_r; lia). assert (0 < 2^qe) by lia.
    apply Z.div_le_upper_bound; lia.
Qed.

(** The parts of the address range. *)
Record range_ok (fe qe net : Z) : Prop := {
  rg_qe : 0 ≤ qe ≤ 31; rg_fe : 0 ≤ fe ≤ 30; rg_u32 : is_u32 net;
}.

Lemma block_range fe qe net k : range_ok fe qe net → 0 ≤ k → is_u32 (query_base fe net + block_of fe qe k * 2^qe).
Proof.
  intros [Hqe Hfe Hu] Hk. unfold block_of, query_base, is_u32 in *. assert (0 < 2^fe) by lia. assert (0 < 2^qe) by lia.
  pose proof (Z.div_mod net (2^fe) ltac:(lia)). pose proof (Z.mod_pos_bound net (2^fe) ltac:(lia)).
  assert (0 ≤ net `div` 2^fe < 2^(32 - fe)) as Hd.
  { split; [apply Z.div_pos; lia|]. apply Z.div_lt_upper_bound; [lia|]. rewrite <-Z.pow_add_r by lia.
    replace (fe + (32 - fe)) with 32 by lia. lia. }
  assert (2^(32 - fe) * 2^fe = 2^32) as E32 by (rewrite <-Z.pow_add_r by lia; f_equal; lia).
  destruct (qe <? fe) eqn:Hlt; [|nia].
  assert (0 < 2^(fe - qe)) by lia. pose proof (Z.mod_pos_bound k (2^(fe - qe))).
  assert (2^fe = 2^(fe - qe) * 2^qe) as E by (rewrite <-Z.pow_add_r by lia; f_equal; lia). nia.
Qed.

Lemma query_address_spec m fe qe net x k : session m fe qe net x k → range_ok fe qe net → 0 ≤ k →
  query_address inet_addr m = query_base fe net + block_of fe qe k * 2^qe.
Proof.
  intros Q R Hk. pose proof (block_range _ _ _ k R Hk) as Hr. destruct R as [Hqe Hfe Hu].
  unfold query_address, block_of in *. destruct Q as [-> -> -> _ -> _]. rewrite land_network by (done || lia).
  destruct (qe <? fe) eqn:Hlt; [|lia].
  rewrite !Z.shiftl_mul_pow2, Z.mul_1_l, Z.rem_mod_nonneg by lia. by apply u32_id.
Qed.

Lemma counter_size_bound which : 0 < counter_size which ≤ 60000.
Proof. destruct which; vm_compute; split; congruence. Qed.

(** The text flow_stats.c prints before its first query. *)
Definition printable_junk (which : variant) (k : Z) (junk : mem) : Prop :=
  k = 0 → match which with FlowStats => ∃ t, c_text junk = Ok t | AggrStats => True end.

Definition query_bytes (which : variant) (fe qe net k : Z) : list Z :=
  query_msg which k (query_wildcards qe) (query_base fe net + block_of fe qe k * 2^qe).

Lemma stats_query_run which junk snd clock m s fe qe net k :
  range_ok fe qe net → session m fe qe net k k → 0 ≤ k < counter_size which → printable_junk which k junk →
  fluid_control (ctx s) ≠ 0 → timers_ready 1 s →
  ∃ m' s', stats_query inet_addr which junk snd clock m s = Ok (m', s') ∧
    control_out s' = control_out s ++ [query_bytes which fe qe net k] ∧
    m' = m <| sm_poll_started := (k =? 0) || sm_poll_started m |> <| sm_trans_id := k + 1 |>
           <| sm_counter := <[k := {| se_snd := snd; se_rcv := tv0; se_pkts := 0 |}]> (sm_counter m) |>.
Proof.
  intros R Q Hk Hj Hf Ht. unfold stats_query. pose proof (block_range _ _ _ k R ltac:(lia)) as Ha.
  assert (first_query which junk m = Ok (m <| sm_poll_started := (k =? 0) || sm_poll_started m |>)) as E1.
  { unfold first_query. rewrite (qd_xid _ _ _ _ _ _ Q). destruct (k =? 0) eqn:Hk0; [|by destruct m].
    specialize (Hj ltac:(lia)). destruct which; [|done]. destruct Hj as [t Hj]. by rewrite Hj. }
  rewrite (bind_val _ _ _ E1). cbv beta zeta. set (m1 := m <| sm_poll_started := _ |>).
  change (sm_trans_id m1) with (sm_trans_id m). change (sm_counter m1) with (sm_counter m). rewrite (qd_xid _ _ _ _ _ _ Q).
  rewrite (bind_val _ _ _ (counter_get_ok _ _ _ Hk)). cbv beta. rewrite (qd_pkts _ _ _ _ _ _ Q) by lia.
  rewrite (bind_val _ _ _ (counter_put_ok _ _ _ _ Hk)). cbv beta.
  set (m2 := m1 <| sm_counter := _ |> <| sm_trans_id := _ |>).
  change (sm_query_exponent m2) with (sm_query_exponent m). change (query_address inet_addr m2) with (query_address inet_addr m).
  rewrite (query_address_spec m fe qe net k k Q R) by lia. rewrite (qd_qe _ _ _ _ _ _ Q).
  pose proof (counter_size_bound which). assert (is_u32 k) as Hx by (unfold is_u32; lia).
  destruct (query_wildcards_spec qe) as (Hw & _ & _); [destruct R; lia|].
  pose proof (query_request_run which k (query_wildcards qe) (query_base fe net + block_of fe qe k * 2^qe) Hx) as Hr.
  fold (query_bytes which fe qe net k) in Hr. pose proof (send_query which _ _ _ s Hf Hx Hw Ha) as Hs. cbv zeta in Hs.
  fold (query_bytes which fe qe net k) in Hs.
  destruct (query_request which k) as [[b o]|]; [|done]. cbn [mbind res_bind] in Hr |- *.
  destruct (wr32be b _ _) as [b1|]; [|done]. cbn [mbind res_bind] in Hr |- *. rewrite Hr. cbn [mbind res_bind].
  rewrite (bind_val _ _ _ Hs). cbv beta iota. set (s1 := s <| control_out := _ |>).
  destruct (ready_schedule 1 (add_time clock (sm_query_delay m2 `quot` SEC_TO_USEC) (Z.rem (sm_query_delay m2) SEC_TO_USEC))
    GETSTAT s1) as (s2 & Hs2 & _ & _ & _); [lia| |].
  { by eapply same_run_ready; [|exact Ht]. }
  rewrite (bind_val _ _ _ Hs2). exists m2, s2. split; [done|]. split; [|by destruct m].
  apply schedule_quiet in Hs2 as [_ ->]. done.
Qed.

(** A complete answer to the query [k]. *)
Record final_answer (which : variant) (k : Z) (msg : mem) : Prop := {
  fa_type : rd8 msg ofp_header_type = Ok OFPT_STATS_REPLY;
  fa_xid : rd32be msg ofp_header_xid = Ok k;
  fa_kind : rd16be msg ofp_stats_reply_type = Ok (stats_type which);
  fa_flags : rd16be msg ofp_stats_reply_flags = Ok 0;
}.

Lemma stats_answer_run which clock nf msg m s fe qe net k :
  session m fe qe net (k + 1) k → 0 ≤ k < counter_size which → final_answer which k msg →
  ∃ m' s', stats_of_event_other which clock nf msg m s = Ok (m', s') ∧ session m' fe qe net (k + 1) (k + 1).
Proof.
  intros [Hfe Hqe Hnet Hx Hc Hp] Hk [Ht Hi Hy Hl]. pose proof (counter_size_bound which). unfold stats_of_event_other.
  rewrite (bind_val _ _ _ Ht). cbv beta. rewrite Z.eqb_refl, (bind_val _ _ _ Hi). cbv beta.
  assert (∃ c, stats_part which k m = Ok (m <| sm_counter := c |>) ∧
    ∀ i, k + 1 ≤ i → se_pkts (default stats_entry0 (c !! i)) = 0) as (c & Hpart & Hp').
  { unfold stats_part. destruct which.
    - rewrite (bind_val _ _ _ (counter_get_ok (counter_size FlowStats) _ _ Hk)). cbv beta. rewrite Hp by lia.
      rewrite (bind_val _ _ _ (chk_int_ok (0 + 1) ltac:(done))). cbv beta.
      rewrite (bind_val _ _ _ (counter_put_ok (counter_size FlowStats) _ _ _ Hk)). eexists. split; [reflexivity|].
      intros i Hik. rewrite lookup_insert_ne by lia. apply Hp. lia.
    - exists (sm_counter m). split; [by destruct m|]. intros i Hik. apply Hp. lia. }
  rewrite (bind_val _ _ _ Hpart). cbv beta. rewrite (bind_val _ _ _ Hy). cbv beta. rewrite Z.eqb_refl.
  assert (∃ s1, stats_logged which (clock 0%nat) k s = Ok s1) as [s1 Hlog].
  { destruct which; [by eexists|]. cbn. unfold oflops_log. destruct (logger s); by eexists. }
  rewrite (bind_val _ _ _ Hlog). cbv beta. rewrite (bind_val _ _ _ Hl). cbv beta. unfold stats_answer.
  rewrite Z.land_0_l. cbn [Z.eqb]. rewrite (bind_val _ _ _ (counter_get_ok (counter_size which) _ _ Hk)). cbv beta zeta.
  rewrite (bind_val _ _ _ (counter_put_ok (counter_size which) _ _ _ Hk)). cbv beta.
  change (sm_stats_count (m <| sm_counter := c |>)) with (sm_stats_count m). rewrite Hc.
  rewrite (bind_val _ _ _ (chk_int_ok (k + 1) ltac:(unfold is_int, INT_MIN, INT_MAX; lia))).
  do 2 eexists. split; [reflexivity|]. split; try done. intros i Hik. cbn [assign sm_counter].
  rewrite lookup_insert_ne by lia. by apply Hp'.
Qed.

(** ** Rounds *)

Section rounds.
Context (snmp_open : option snmp_session → bool) (snmp_pdu_create : list Z → Z) (snmp_send : bool).

(** A query and its answer, in whatever state the harness is then. *)
Record round := {
  rd_timer : timer_event; rd_junk : mem; rd_clock : nat → timeval; rd_nf : nat → timeval; rd_harness : harness;
  rd_answer : mem; rd_clock' : nat → timeval; rd_nf' : timeval; rd_harness' : harness;
}.

(** Also the messages that were sent. *)
Fixpoint stats_rounds (which : variant) (rs : list round) (m : smod) : res (list (list Z) * smod) :=
  match rs with
  | [] => mret ([], m)
  | r :: rs =>
    '(m, s) ← stats_handle_timer_event inet_addr which snmp_open snmp_pdu_create snmp_send (rd_junk r) (rd_clock r) (rd_nf r)
                (rd_timer r) m (rd_harness r);
    '(m, _) ← stats_of_event_other which (rd_clock' r) (rd_nf' r) (rd_answer r) m (rd_harness' r);
    '(qs, m) ← stats_rounds which rs m;
    mret (drop (length (control_out (rd_harness r))) (control_out s) ++ qs, m)
  end.

(** The round number [k]. *)
Record round_ok (which : variant) (k : Z) (r : round) : Prop := {
  ro_timer : te_arg (rd_timer r) = GETSTAT;
  ro_junk : printable_junk which k (rd_junk r);
  ro_control : fluid_control (ctx (rd_harness r)) ≠ 0;
  ro_timers : timers_ready 1 (rd_harness r);
  ro_answer : final_answer which k (rd_answer r);
}.

Lemma stats_rounds_run which rs m fe qe net k :
  range_ok fe qe net → session m fe qe net k k → 0 ≤ k → k + zlen rs ≤ counter_size which →
  (∀ j r, zget rs j = Some r → round_ok which (k + j) r) →
  ∃ m', stats_rounds which rs m = Ok ((λ j, query_bytes which fe qe net j) <$> seqZ k (zlen rs), m') ∧
    session m' fe qe net (k + zlen rs) (k + zlen rs).
Proof.
  intros R. revert m k. induction rs as [|r rs IH]; intros m k Q Hk Hz Hr.
  { exists m. by rewrite Z.add_0_r. }
  rewrite zlen_cons in *. pose proof (zlen_nonneg rs). cbn [stats_rounds].
  destruct (Hr 0 r eq_refl) as [Ht Hj Hf Hq Ha]. rewrite Z.add_0_r in *.
  unfold stats_handle_timer_event. rewrite Ht, Z.eqb_refl.
  set (snd := match which with FlowStats => _ | AggrStats => _ end).
  destruct (stats_query_run which (rd_junk r) snd (rd_clock r 1%nat) m (rd_harness r) fe qe net k) as (m1 & s1 & Hrun & Hout & ->);
    [done|done|lia|done..|].
  rewrite (bind_val _ _ _ Hrun). cbv beta iota. clear Hrun.
  set (m1 := m <| sm_poll_started := _ |> <| sm_trans_id := _ |> <| sm_counter := _ |>).
  assert (session m1 fe qe net (k + 1) k) as Q1.
  { destruct Q. split; try done. intros i Hi. subst m1. cbn [assign sm_counter].
    destruct (decide (i = k)) as [->|]; [by rewrite lookup_insert_eq|]. rewrite lookup_insert_ne by done. auto. }
  destruct (stats_answer_run which (rd_clock' r) (rd_nf' r) (rd_answer r) m1 (rd_harness' r) fe qe net k Q1) as (m2 & s2 & Hans & Q2);
    [lia|done|].
  rewrite (bind_val _ _ _ Hans). cbv beta iota.
  destruct (IH m2 (k + 1)) as (m3 & Hrec & Q3); [done|lia|lia| |].
  { intros j r' Hj'. replace (k + 1 + j) with (k + (1 + j)) by lia. apply Hr. pose proof (zget_Some_bounds _ _ _ Hj').
    rewrite zget_nonneg in Hj' |- * by lia. by replace (Z.to_nat (1 + j)) with (S (Z.to_nat j)) by lia. }
  rewrite (bind_val _ _ _ Hrec). exists m3. split; [|by replace (k + (1 + zlen rs)) with (k + 1 + zlen rs) by lia].
  rewrite (seqZ_cons k) by lia. cbn [fmap list_fmap]. rewrite Hout, drop_app_length.
  replace (Z.pred (1 + zlen rs)) with (zlen rs) by lia. by rewrite Z.add_1_r.
Qed.

End rounds.

End module.

(** ** The report *)

Lemma get3_Ok l i x : get3 l i = Ok x → zget l i = Some x.
Proof. unfold get3. destruct (zget l i); [|done]. by intros [= <-]. Qed.

Lemma put3_Ok l i x l' : put3 l i x = Ok l' → 0 ≤ i < zlen l ∧ l' = zset l i x.
Proof. unfold put3. destruct (zget l i) eqn:E; [|done]. intros [= <-]. split; [by eapply zget_Some_bounds|done]. Qed.

Lemma zget_zset_cases {A} (l : list A) i j x : 0 ≤ i < zlen l →
  zget (zset l i x) j = if decide (i = j) then Some x else zget l j.
Proof. intros Hi. case_decide as E; [subst; by apply zget_zset_eq|]. by apply zget_zset_ne. Qed.

Section report.
Context {F D : Type} {Fl : Floating F} {Db : Floating D}.
Context (gsl_sort : list D → list D) (gsl_mean gsl_variance gsl_median : list D → D).
Context (to_uint : D → Z) (fmt4 : F → cstring) (which : variant).
Local Notation destroy := (stats_destroy gsl_sort gsl_mean gsl_variance gsl_median to_uint fmt4 which).

(** A packet of a data channel that arrived after it was sent. *)
Definition late (e : entry) : Prop := data_channel (e_ch e) = true ∧ timercmp_lt (e_snd e) (e_rcv e) = true.

(** The first place of an array is never written. *)
Record unset0 (t : tally_st D) : Prop := {
  un_len : zlen (t_ix t) = 3;
  un_ix : ∀ ch n, zget (t_ix t) ch = Some n → 0 ≤ n;
  un_data : ∀ ch d x, zget (t_data t) ch = Some d → zget d 0 ≠ Some (Some x);
}.

(** Some channel has delays. *)
Definition some_delay (t : tally_st D) : Prop := ∃ ch n, zget (t_ix t) ch = Some n ∧ 0 < n.

Lemma stats_tally_one_ok e t t' : stats_tally_one e t = Ok t' → unset0 t →
  unset0 t' ∧ (some_delay t ∨ late e → some_delay t').
Proof.
  intros H [Hlen Hix Hd]. unfold stats_tally_one in H. destruct (_ >? 0) eqn:Hcmp.
  - apply bind_Ok in H as (i & Hi%get3_Ok & H). apply bind_Ok in H as (ix & [Hb ->]%put3_Ok & H).
    apply bind_Ok in H as (lo & _ & H). apply bind_Ok in H as (lows & _ & H). apply bind_Ok in H as (hi & _ & H).
    apply bind_Ok in H as (highs & _ & H). destruct (zget (t_data t) (e_ch e - 1)) as [d|] eqn:Ed; [|done].
    apply bind_Ok in H as (d' & Hw & [= <-]). unfold arr_write in Hw. destruct (zget d (i + 1)) eqn:Ei; [|done].
    injection Hw as <-. pose proof (Hix _ _ Hi). apply zget_Some_bounds in Ed as Hbd. apply zget_Some_bounds in Ei as Hbi.
    split; [split; cbn|].
    + by rewrite zlen_zset.
    + intros ch n. rewrite zget_zset_cases by done. case_decide; [by intros [= <-]; lia|]. apply Hix.
    + intros ch d0 x. rewrite zget_zset_cases by done. case_decide; [|apply Hd]. intros [= <-].
      rewrite zget_zset_cases by done. rewrite decide_False by lia. by eapply Hd.
    + intros _. exists (e_ch e - 1), (i + 1). cbn. rewrite zget_zset_eq by done. split; [done|lia].
  - injection H as <-. split; [done|]. intros [Hs|[_ Hl]]; [done|]. exfalso.
    apply (proj2 (proj1 (proj2 (time_cmp_spec (e_snd e) (e_rcv e))))) in Hl. lia.
Qed.

Lemma stats_tally_ok print out kept es t file t' file' : stats_tally print out kept es t file = Ok (t', file') → unset0 t →
  unset0 t' ∧ (some_delay t ∨ Exists late es → some_delay t').
Proof.
  revert t file. induction es as [|e es IH]; intros t file H Hu; cbn [stats_tally] in H.
  { injection H as <- <-. split; [done|]. intros [?|?%Exists_nil]; done. }
  assert (late e → ((e_ch e >? OFLOPS_DATA3) || (e_ch e <? OFLOPS_DATA1)) = false) as Hlate.
  { intros [Hch _]. unfold data_channel, OFLOPS_DATA1, OFLOPS_DATA2, OFLOPS_DATA3 in *. lia. }
  destruct (_ || _).
  - destruct (IH _ _ H Hu) as [Hu' Hs]. split; [done|]. rewrite Exists_cons. intros [?|[?%Hlate|?]]; auto; done.
  - apply bind_Ok in H as (f1 & _ & H). apply bind_Ok in H as (t1 & H1 & H). destruct kept; [|done].
    destruct (stats_tally_one_ok _ _ _ H1 Hu) as [Hu1 Hs1]. destruct (IH _ _ H Hu1) as [Hu' Hs]. split; [done|].
    rewrite Exists_cons. intros [?|[?|?]]; auto.
Qed.

Lemma stats_channel_line_ok now t ch s s' :
  stats_channel_line gsl_sort gsl_mean gsl_variance gsl_median to_uint fmt4 now t ch s = Ok s' → unset0 t → zget (t_ix t) ch = Some 0.
Proof.
  intros H [_ Hix Hd]. unfold stats_channel_line in H. apply bind_Ok in H as (n & Hn%get3_Ok & H).
  pose proof (Hix _ _ Hn). destruct (n =? 0) eqn:E; [by replace n with 0 in Hn by lia|]. exfalso.
  destruct (zget (t_data t) ch) as [d|] eqn:Ed; [|done]. apply bind_Ok in H as (data & Hp & _).
  destruct (Z.to_nat n) as [|k] eqn:Ek; [lia|]. destruct d as [|[x|] d]; [done| |done]. by apply (Hd ch _ x Ed).
Qed.

Lemma stats_channel_lines_ok now t s s' :
  stats_channel_lines gsl_sort gsl_mean gsl_variance gsl_median to_uint fmt4 now t s = Ok s' → unset0 t → ¬ some_delay t.
Proof.
  intros H Hu. unfold stats_channel_lines in H. apply bind_Ok in H as (s1 & H0 & H). apply bind_Ok in H as (s2 & H1 & H2).
  apply stats_channel_line_ok in H0, H1, H2; [|done..]. intros (ch & n & Hc & Hn).
  pose proof (zget_Some_bounds _ _ _ Hc) as Hb. rewrite (un_len _ Hu) in Hb.
  assert (ch = 0 ∨ ch = 1 ∨ ch = 2) as [->|[->| ->]] by lia; simplify_eq; lia.
Qed.

Lemma answer_lines_ok line size c count n i now data s r :
  answer_lines (D := D) line size c count n i now data 0 s = Ok r → 0 < count →
  ∀ j, i ≤ j < i + Z.of_nat n → se_rcv (default stats_entry0 (c !! j)) = tv0.
Proof.
  intros H Hc. revert i H. induction n as [|n IH]; intros i H j Hj; [lia|]. cbn [answer_lines] in H.
  apply bind_Ok in H as (e & He & H). unfold counter_get in He. destruct (_ && _); [|done]. injection He as <-.
  set (e := default _ _) in *. replace (0 >=? count) with false in H by lia. rewrite orb_false_r in H.
  destruct (_ && _) eqn:E.
  - destruct (decide (j = i)) as [->|]; [|apply (IH (i + 1)); [done|lia]]. fold e. destruct (se_rcv e) as [a b]. cbn in E.
    unfold tv0. f_equal; lia.
  - apply bind_Ok in H as (d & Hw & _). unfold arr_write in Hw. destruct data; done.
Qed.

Lemma unset0_tally0 count : unset0 (tally0 count).
Proof.
  split; [done| |].
  - intros ch n Hc. pose proof (zget_Some_bounds _ _ _ Hc) as Hb. change (zlen (t_ix (tally0 count))) with 3 in Hb.
    assert (ch = 0 ∨ ch = 1 ∨ ch = 2) as [->|[->| ->]] by lia; by injection Hc as <-.
  - intros ch d x Hc. pose proof (zget_Some_bounds _ _ _ Hc). rewrite zget_nonneg in Hc by lia. cbn in Hc.
    rewrite list_lookup_fmap in Hc. destruct (count !! Z.to_nat ch) as [n|]; [|done]. injection Hc as <-.
    unfold arr_new. by destruct (Z.to_nat n).
Qed.

(** A query was answered completely. *)
Definition answered (m : smod) : Prop :=
  0 < sm_stats_count m ∧ ∃ i, 0 ≤ i < sm_trans_id m ∧ se_rcv (default stats_entry0 (sm_counter m !! i)) ≠ tv0.

Lemma answer_lines_fault line size c count n i now s : 0 < count → 0 ≤ i → i + Z.of_nat n ≤ size →
  (∃ j, i ≤ j < i + Z.of_nat n ∧ se_rcv (default stats_entry0 (c !! j)) ≠ tv0) →
  answer_lines line size c count n i now (arr_new (A := D) count) 0 s = Fault FBounds.
Proof.
  intros Hc. revert i. induction n as [|n IH]; intros i Hi Hb (j & Hj & Hrcv); [lia|]. cbn [answer_lines].
  rewrite (bind_val _ _ _ (counter_get_ok size c i ltac:(lia))). cbv beta. set (e := default _ _).
  replace (0 >=? count) with false by lia. rewrite orb_false_r. destruct (_ && _) eqn:E.
  - apply IH; [lia..|]. exists j. split; [|done]. destruct (decide (j = i)) as [->|]; [|lia]. exfalso. apply Hrcv. fold e.
    destruct (se_rcv e) as [a b]. cbn in E. unfold tv0. f_equal; lia.
  - unfold arr_write. by destruct (arr_new _).
Qed.

(** C8. Nothing that was measured is ever reported.  destroy stores the delays
    of the packets one place behind where they belong, and those of the answers one
    place before: as soon as one packet arrived after it was sent, or one query was
    answered, it writes outside an array or sorts a delay that was never set, and does
    not return; with answers alone, the first of them is written before the array. *)
Theorem stats_report_fails out kept now m s :
  Exists late (default [] (pr_head (sm_probes m))) ∨ answered m →
  (∀ r, destroy out kept now m s ≠ Ok r) ∧
  (default [] (pr_head (sm_probes m)) = [] → sm_trans_id m ≤ counter_size which → destroy out kept now m s = Fault FBounds).
Proof.
  intros Hm. split.
  - intros r H. unfold stats_destroy in H. apply bind_Ok in H as ([t file] & Ht & H). apply bind_Ok in H as (s1 & Hl & H).
    apply bind_Ok in H as ([lo hi] & _ & H). apply bind_Ok in H as ([[data ix] s2] & Hs & _).
    destruct (stats_tally_ok _ _ _ _ _ _ _ _ Ht (unset0_tally0 _)) as [Hu Hd].
    destruct Hm as [Hm|[Hc (i & Hi & Hrcv)]]; [by apply (stats_channel_lines_ok _ _ _ _ Hl Hu), Hd; right|].
    apply Hrcv. eapply answer_lines_ok; [exact Hs|done|lia].
  - intros He Hx. rewrite He in Hm. destruct Hm as [Hm%Exists_nil|[Hc (i & Hi & Hrcv)]]; [done|].
    unfold stats_destroy. rewrite He. cbn [stats_tally]. rewrite (bind_val _ _ _ eq_refl). cbv beta iota.
    rewrite (bind_val _ _ s eq_refl). cbv beta.
    rewrite answer_lines_fault by (lia || (exists i; split; [lia|done])).
    by destruct which.
Qed.
End report.

(** ** Examples: two blocks of two flows, asked for three times *)

Definition stats_demo_config : mem := config_buffer 0 [(str "flows", str "4"); (str "query", str "2")].
Definition stats_demo : smod :=
  Eval vm_compute in match stats_init stats_demo_config smod0 with Ok (_, m) => m | Fault _ => smod0 end.
Definition stats_demo_rest : mem :=
  Eval vm_compute in match stats_init stats_demo_config smod0 with Ok (b, _) => b | Fault _ => [] end.
Definition stats_demo_started : smod * harness :=
  Eval vm_compute in match stats_start (OF := of10) probe_inet FlowStats 3 mod_mac mod_clock stats_demo mod_harness with
                     | Ok r => r | Fault _ => (smod0, mod_harness) end.
Definition demo_round (k : Z) : round :=
  {| rd_timer := {| sched_time := mod_clock 0; te_arg := GETSTAT; timer_id := 1 |}; rd_junk := cells [0];
     rd_clock := mod_clock; rd_nf := mod_clock; rd_harness := mod_harness;
     rd_answer := cells ([1; 17; 0; 12] ++ be32 k ++ be16 1 ++ [0; 0]);
     rd_clock' := mod_clock; rd_nf' := tv0; rd_harness' := mod_harness |}.

Lemma demo_round_ok k : 0 ≤ k < 3 → round_ok (OF := of10) FlowStats k (demo_round k).
Proof.
  intros Hk. assert (k = 0 ∨ k = 1 ∨ k = 2) as Hk3 by lia. split; [done| |done| |].
  - intros _. by eexists.
  - destruct mod_harness_ready as (q & ? & ? & ? & ?). exists q. split_and!; try done; lia.
  - destruct Hk3 as [->|[-> | ->]]; by split.
Qed.


(** The module after a query that was answered. *)
Definition stats_demo_answered : smod :=
  stats_demo <| sm_trans_id := 1 |> <| sm_stats_count := 1 |>
    <| sm_counter := {[ 0 := {| se_snd := tv0; se_rcv := mod_clock 0; se_pkts := 1 |} ]} |>.

Lemma stats_report_fails_witness :
  answered stats_demo_answered ∧
  stats_destroy (Fl := integers) (Db := integers) (λ l, l) (λ l, foldr Z.max 0 l) (λ _, 0) (λ l, foldr Z.min 0 l) (λ z, z) dec
    FlowStats None true tv0 stats_demo_answered mod_harness = Fault FBounds.
Proof.
  assert (answered stats_demo_answered) as Ha by (split; [done|]; exists 0; split; [done|vm_compute; congruence]).
  split; [exact Ha|].
  exact (proj2 (stats_report_fails (Fl := integers) (Db := integers) (λ l, l) (λ l, foldr Z.max 0 l) (λ _, 0)
    (λ l, foldr Z.min 0 l) (λ z, z) dec FlowStats None true tv0 stats_demo_answered mod_harness (or_intror Ha)) eq_refl
    ltac:(vm_compute; congruence)).
Defined.
