(* ===== verification/InteractModule.v ===== *)
(** * A test module: statistics while flows are modified (example_modules/openflow_interaction_test)

    The module fills the flow table, sends two packet streams, asks for aggregate
    statistics at a fixed rate and meanwhile redirects a range of flows, to
    measure how the two tasks of the switch disturb each other.  [imod] holds its
    variables; those that are only written (finished, poll_started, send_flow_mod,
    stored_flow_mod_time, stats_start, and the exponents) are left out. *)

From stdpp Require Import gmap.
From S2P Require Import Prelude CTime CBytes CStr OpenFlow WcEvent PcapTrack TimerEvent Msg Context Harness.
From S2P Require Import TrafficGen TrafficKernel Cbench Utils TestModule MeasureModule ModFlowModule StatsModule.
Open Scope Z_scope.

Definition total_flows : Z := 1024.

(** TEST_DURATION is 120 seconds here. *)
Definition interact_size : Z := (120 * SEC_TO_USEC) `div` MIN_QUERY_DELAY.

Record imod := {
  im_flows : Z;
  im_query_delay : Z;
  im_network : cstring;
  im_datarate : Z;
  im_proberate : Z;
  im_pkt_size : Z;
  im_first_pkt : bool;
  im_data_interval : Z;
  im_probe_interval : Z;
  im_timestamp : timeval;  (* flow_mod_timestamp *)
  im_trans_id : Z;
  im_counter : gmap Z stats_entry;  (* stats_counter *)
  im_stats_count : Z;
  im_print : Z;
  im_table : Z;
  im_data_mac : mem;
  im_received : list Z;  (* ip_received *)
  im_received_count : Z;
}.
#[export] Instance imod_rebuild : Rebuild imod := λ m,
  {| im_flows := im_flows m; im_query_delay := im_query_delay m; im_network := im_network m;
     im_datarate := im_datarate m; im_proberate := im_proberate m; im_pkt_size := im_pkt_size m;
     im_first_pkt := im_first_pkt m; im_data_interval := im_data_interval m;
     im_probe_interval := im_probe_interval m; im_timestamp := im_timestamp m; im_trans_id := im_trans_id m;
     im_counter := im_counter m; im_stats_count := im_stats_count m; im_print := im_print m; im_table := im_table m;
     im_data_mac := im_data_mac m; im_received := im_received m; im_received_count := im_received_count m |}.

Definition imod0 : imod :=
  {| im_flows := 128; im_query_delay := 1000000; im_network := network; im_datarate := 100; im_proberate := 100;
     im_pkt_size := 1500; im_first_pkt := false; im_data_interval := 0; im_probe_interval := 0; im_timestamp := tv0;
     im_trans_id := 0; im_counter := ∅; im_stats_count := 0; im_print := 0; im_table := 0; im_data_mac := mem_zero 6;
     im_received := []; im_received_count := 0 |}.

(** ** Initialisation *)

(** The test of pkt_size asks for two things that exclude each other. *)
Definition interact_set_param (name value : cstring) (m : imod) : res imod :=
  let v := strtol0 value in
  if bool_decide (name = str "network") then mret (m <| im_network := value |>)
  else if bool_decide (name = str "pkt_size") then mret (m <| im_pkt_size := u64 v |>)
  else if bool_decide (name = str "data_rate") then
    if (u64 v <=? 0) || (u64 v >? 1010) then Fault (FExit 1) else mret (m <| im_datarate := u64 v |>)
  else if bool_decide (name = str "probe_rate") then
    if (u64 v <=? 0) || (u64 v >=? 1010) then Fault (FExit 1) else mret (m <| im_proberate := u64 v |>)
  else if bool_decide (name = str "query_delay") then
    if i32 v <=? MIN_QUERY_DELAY then Fault (FExit 1) else mret (m <| im_query_delay := i32 v |>)
  else if bool_decide (name = str "print") then mret (m <| im_print := i32 v |>)
  else if bool_decide (name = str "flows") then
    if i32 v <=? 0 then Fault (FExit 1) else mret (m <| im_flows := i32 v |>)
  else if bool_decide (name = str "table") then mret (m <| im_table := i32 v |>)
  else mret m.

Definition interact_init (b : mem) (m : imod) : res (mem * imod) :=
  '(b, m) ← read_params interact_set_param b m;
  i ← send_interval (im_pkt_size m) (im_datarate m);
  j ← send_interval (im_pkt_size m) (im_proberate m);
  mret (b, m <| im_data_interval := i |> <| im_probe_interval := j |>).

Section module.
Context {OF : OpenFlow} (inet_addr : cstring → Z).

(** ** Starting *)

Definition interact_mask (table : Z) : Z :=
  if table =? 0 then 0
  else foldr Z.lor 0 [OFPFW_DL_DST; OFPFW_DL_SRC; Z.shiftl 32 OFPFW_NW_SRC_SHIFT; Z.shiftl 0 OFPFW_NW_DST_SHIFT;
                      OFPFW_DL_VLAN; OFPFW_TP_DST; OFPFW_NW_PROTO; OFPFW_TP_SRC; OFPFW_DL_VLAN_PCP; OFPFW_NW_TOS].

Definition interact_flow (table : Z) (mac : list Z) (in_port nw_dst : Z) : flow :=
  {| f_mask := interact_mask table; f_in_port := bswap16 (u16 in_port); f_dl_src := mac; f_dl_dst := gateway_mac;
     f_dl_vlan := 0xffff; f_dl_type := bswap16 0x0800; f_nw_src := inet_addr (str "10.1.1.1"); f_nw_dst := nw_dst;
     f_nw_proto := 17; f_tp_src := bswap16 8080; f_tp_dst := bswap16 8080 |}.

(** The address that was reached is handed on: the flows of the second port follow
    those of the first.  The message is sent without its flags. *)
Fixpoint interact_install (n : nat) (addr : Z) (table : Z) (mac : list Z) (in_port out_port : Z) (s : harness) :
    res (Z * harness) :=
  match n with
  | O => mret (addr, s)
  | S n =>
    '(b, len) ← make_ofp_flow_add (interact_flow table mac in_port addr) out_port 1 1200;
    b ← wr16be b ofp_flow_mod_flags 0;
    '(_, s) ← oflops_send_of_mesgs b len s;
    interact_install n (addr_plus addr 1) table mac in_port out_port s
  end.

(** The greeting is built and never sent. *)
Definition interact_start (socket_ret : Z) (hwaddr : cstring → option (list Z)) (clock : nat → timeval) (m : imod)
    (s : harness) : res (imod * harness) :=
  data ← load_mac OFLOPS_DATA1 socket_ret hwaddr (im_data_mac m) s;
  _ ← show_dev AggrStats OFLOPS_DATA1 s;
  s ← oflops_log (clock 0%nat) GENERIC_MSG (str "Intializing module openflow_flow_dump_test") s;
  '(b, len) ← make_ofp_flow_del;
  '(_, s) ← oflops_send_of_mesgs b len s;
  db ← rd_bytes data 0 6;
  x1 ← get_channel (ctx s) OFLOPS_DATA1;
  x3 ← get_channel (ctx s) OFLOPS_DATA3;
  '(addr, s) ← interact_install (Z.to_nat (im_flows m)) (inet_addr (im_network m)) (im_table m) db (of_port x1)
                 (of_port x3) s;
  x2 ← get_channel (ctx s) OFLOPS_DATA2;
  '(_, s) ← interact_install (Z.to_nat (total_flows - im_flows m)) addr (im_table m) db (of_port x2) (of_port x3) s;
  s ← schedule_timer (add_time (clock 1%nat) 120 0) BYESTR s;
  s ← schedule_timer (add_time (clock 2%nat) (im_query_delay m `quot` SEC_TO_USEC) (Z.rem (im_query_delay m) SEC_TO_USEC))
        GETSTAT s;
  s ← schedule_timer (add_time (clock 3%nat) 20 0) SND_ACT s;
  s ← schedule_timer (add_time (clock 4%nat) 1 0) SNMPGET s;
  mret (m <| im_data_mac := data |> <| im_timestamp := tv0 |>
          <| im_received := replicate (Z.to_nat (im_flows m)) 0 |>, s).

(** ** Timers *)

(** [junk]: what the array msg held; it is printed before the first query. *)
Definition interact_query (junk : mem) (snd clock : timeval) (m : imod) (s : harness) : res (imod * harness) :=
  let xid := im_trans_id m in
  _ ← (if xid =? 0 then _ ← c_text junk; mret () else mret ());
  e ← counter_get interact_size (im_counter m) xid;
  c ← counter_put interact_size (im_counter m) xid {| se_snd := snd; se_rcv := tv0; se_pkts := se_pkts e |};
  '(b, len) ← make_ofp_aggr_flow_stats xid;
  '(_, s) ← oflops_send_of_mesgs b len s;
  s ← schedule_timer (add_time clock (im_query_delay m `quot` SEC_TO_USEC) (Z.rem (im_query_delay m) SEC_TO_USEC))
        GETSTAT s;
  mret (m <| im_counter := c |> <| im_trans_id := xid + 1 |>, s).

(** One message per flow. *)
Fixpoint interact_redirect (n : nat) (i : Z) (m : imod) (mac : list Z) (in_port out_port : Z) (s : harness) : res harness :=
  match n with
  | O => mret s
  | S n =>
    let fl := interact_flow (im_table m) mac in_port (addr_plus (inet_addr (im_network m)) i) in
    '(b, len) ← make_ofp_flow_modify_output_port fl out_port 1 120;
    b ← wr16be b ofp_flow_mod_flags 0;
    '(_, s) ← oflops_send_of_mesgs b len s;
    interact_redirect n (i + 1) m mac in_port out_port s
  end.

Definition interact_send (now : timeval) (m : imod) (s : harness) : res (imod * harness) :=
  x1 ← get_channel (ctx s) OFLOPS_DATA1;
  db ← rd_bytes (im_data_mac m) 0 6;
  x2 ← get_channel (ctx s) OFLOPS_DATA2;
  s ← interact_redirect (Z.to_nat (im_flows m)) 0 m db (of_port x1) (of_port x2) s;
  b ← barrier_request;
  '(_, s) ← oflops_send_of_mesgs b sizeof_ofp_header s;
  mret (m <| im_timestamp := now |>, s).

(** The code behind SNMPGET is not reached. *)
Definition interact_handle_timer_event (junk : mem) (clock nf_clock : timeval) (te : timer_event) (m : imod) (s : harness) :
    res (imod * harness) :=
  if te_arg te =? GETSTAT then interact_query junk (sched_time te) clock m s
  else if te_arg te =? BYESTR then mret (m, (oflops_end_test 1 s).2)
  else if te_arg te =? SND_ACT then interact_send (oflops_gettimeofday (ctx s) nf_clock clock) m s
  else mret (m, s).

Definition interact_handle_snmp_event (vars : list snmp_var) (s : harness) : res harness := log_snmp vars s.

(** ** Captured packets *)

Definition interact_get_pcap_filter (ofc : Z) (buflen : nat) : Z * cstring :=
  if ofc =? OFLOPS_DATA2 then (3, snprintf buflen (str "udp")) else (0, []).

(** The first packet that took the new way. *)
Definition interact_first (at_ : timeval) (dst : Z) (m : imod) (s : harness) : res (imod * harness) :=
  if im_first_pkt m then mret (m, s)
  else
    s ← oflops_log at_ GENERIC_MSG
          (snprintf 1024 (str "INSERT_DELAY:" ++ dec (i32 (time_diff (im_timestamp m) at_)) ++ str ":" ++ inet_ntoa dst)) s;
    mret (m <| im_first_pkt := true |>, s).

(** The first packet of a flow; the last flow ends the test. *)
Definition interact_seen (clock at_ : timeval) (id : Z) (m : imod) (s : harness) : res (imod * harness) :=
  c ← chk_int (im_received_count m + 1);
  let m := m <| im_received_count := c |> <| im_received := zset (im_received m) id 1 |> in
  if c >=? im_flows m then
    s ← schedule_timer (add_time clock 1 0) BYESTR s;
    s ← oflops_log at_ GENERIC_MSG
          (snprintf 1024 (str "COMPLETE_INSERT_DELAY:" ++ dec (time_diff (im_timestamp m) at_))) s;
    mret (m, s)
  else mret (m, s).

Definition interact_handle_pcap_event (nf_extract : Z → mem → Z → option pktgen_hdr) (clock : timeval) (hdr : pcap_pkthdr)
    (data : mem) (ch : Z) (m : imod) (s : harness) : res (imod * harness) :=
  '(pkt, fl) ← extract_pktgen_pkt nf_extract (ctx s) ch data (i32 (caplen hdr)) true;
  match pkt with
  | None => mret (m, s)
  | Some _ =>
    if ch =? OFLOPS_DATA2 then
      match fl with
      | None => Fault FUninit
      | Some fl =>
        '(m, s) ← interact_first (ts hdr) (f_nw_dst fl) m s;
        let id := flow_id (inet_addr (im_network m)) (f_nw_dst fl) in
        if (id >=? 0) && (id <? im_flows m) then
          match zget (im_received m) id with
          | None => Fault FBounds
          | Some r => if r =? 0 then interact_seen clock (ts hdr) id m s else mret (m, s)
          end
        else mret (m, s)
      end
    else mret (m, s)
  end.

(** ** Messages of the switch *)

(** An answer: only those of the type OFPST_FLOW are counted as complete. *)
Definition interact_answer (now : timeval) (ofph : mem) (m : imod) : res imod :=
  xid ← rd32be ofph ofp_header_xid;
  e ← counter_get interact_size (im_counter m) xid;
  n ← chk_int (se_pkts e + 1);
  c ← counter_put interact_size (im_counter m) xid {| se_snd := se_snd e; se_rcv := se_rcv e; se_pkts := n |};
  let m := m <| im_counter := c |> in
  t ← rd16be ofph ofp_stats_reply_type;
  if t =? OFPST_FLOW then
    flags ← rd16be ofph ofp_stats_reply_flags;
    if Z.land flags OFPSF_REPLY_MORE =? 0 then
      c ← counter_put interact_size c xid {| se_snd := se_snd e; se_rcv := now; se_pkts := n |};
      k ← chk_int (im_stats_count m + 1);
      mret (m <| im_counter := c |> <| im_stats_count := k |>)
    else mret m
  else mret m.

Definition interact_of_event_other (now : timeval) (ofph : mem) (m : imod) (s : harness) : res (imod * harness) :=
  type ← rd8 ofph ofp_header_type;
  if type =? OFPT_STATS_REPLY then m ← interact_answer now ofph m; mret (m, s)
  else if type =? OFPT_ERROR then
    t ← rd16be ofph ofp_error_msg_type;
    c ← rd16be ofph ofp_error_msg_code;
    s ← oflops_log now OFPT_ERROR_MSG (str "OFPT_ERROR(type: " ++ dec t ++ str ", code: " ++ dec c ++ str ")") s;
    mret (m, s)
  else if type =? OFPT_BARRIER_REPLY then
    s ← oflops_log now GENERIC_MSG (snprintf 100 (str "BARRIER_DELAY:" ++ dec (i32 (time_diff (im_timestamp m) now)))) s;
    mret (m, s)
  else mret (m, s).

(** ** Traffic *)

(** The probe, set up first: the fields it does not set are what the structure
    held before.  Its first address is printed in the order of the host. *)
Definition interact_probe_det (m : imod) (junk : traf_gen_det) (c : oflops_context) : res traf_gen_det :=
  text ← (if trafficGen c =? PKTGEN then mret (str "00:00:00:00:00:00") else mac_text (im_data_mac m));
  mret {| src_ip := src_ip junk; dst_ip_min := inet_ntoa (u32 (bswap32 (inet_addr network) + im_flows m));
          dst_ip_max := inet_ntoa (addr_plus (inet_addr network) (total_flows - 1));
          mac_dst := str "00:15:17:7b:92:0a"; mac_src := text; udp_src_port := udp_src_port junk;
          udp_dst_port := udp_dst_port junk; pkt_size := pkt_size junk; vlan := 0xffff; vlan_p := vlan_p junk;
          vlan_cfi := vlan_cfi junk; gen_delay := u32 (im_probe_interval m * 1000); pkt_count := pkt_count junk;
          gen_flags := str "IPDST_RND" |}.

(** The stream over the range of flows. *)
Definition interact_det (m : imod) (junk : traf_gen_det) (c : oflops_context) : res traf_gen_det :=
  text ← (if trafficGen c =? PKTGEN then mret (str "00:00:00:00:00:00") else mac_text (im_data_mac m));
  mret {| src_ip := str "10.1.1.1"; dst_ip_min := network;
          dst_ip_max := inet_ntoa (addr_plus (inet_addr network) (im_flows m - 1));
          mac_dst := str "00:15:17:7b:92:0a"; mac_src := text; udp_src_port := 8080; udp_dst_port := 8080;
          pkt_size := u32 (im_pkt_size m); vlan := 0xffff; vlan_p := 1; vlan_cfi := 0;
          gen_delay := u32 (im_data_interval m * 1000); pkt_count := pkt_count junk; gen_flags := [] |}.

Definition interact_handle_traffic_generation setuid_ok modprobe_ok if_index bind_ok exists_ writable nows rands nf_rands
    rounds nf_rounds (m : imod) (junk : traf_gen_det) (s : harness) (k : commands) (t : list nf_call) :
    res (option Z * harness * commands * list nf_call) :=
  _ ← init_traf_gen setuid_ok modprobe_ok (ctx s);
  d ← interact_probe_det m junk (ctx s);
  '(_, c) ← add_traffic_generator OFLOPS_DATA2 d (ctx s);
  d ← interact_det m junk c;
  '(_, c) ← add_traffic_generator OFLOPS_DATA1 d c;
  '(r, s, k, t) ← start_traffic_generator inet_addr if_index bind_ok exists_ writable nows rands nf_rands rounds
                     nf_rounds (s <| ctx := c |>) k t;
  mret (match r with Some _ => Some 1 | None => None end, s, k, t).
End module.

(** ** The report *)

Section report.
Context {F D : Type} {Fl : Floating F} {Db : Floating D}.
Context (gsl_sort : list D → list D) (gsl_mean gsl_variance gsl_median : list D → D).
Context (to_uint : D → Z) (fmt4 : F → cstring).

(** The loss is computed from the initial values of the smallest and largest
    number of a packet. *)
Definition interact_destroy (now : timeval) (m : imod) (s : harness) : res harness :=
  '(data, ix, s) ← answer_lines (stats_line FlowStats) interact_size (im_counter m) (im_stats_count m)
                     (Z.to_nat (im_trans_id m)) 0 now (arr_new (A := D) (im_stats_count m)) 0 s;
  if ix >? 0 then
    data ← arr_prefix (Z.to_nat ix) data;
    span ← chk_int (INT_MIN - INT_MAX);
    oflops_log now GENERIC_MSG
      (stats_summary gsl_sort gsl_mean gsl_variance gsl_median to_uint fmt4 data (f_div (f_of_Z ix) (f_of_Z span)) ix) s
  else oflops_log now GENERIC_MSG (str "stats_stats:fail") s.
End report.
