(* ===== verification/InteractSpec.v ===== *)
(** * What the interaction test does

    Its queries are answered, and none of the answers is counted. *)

From stdpp Require Import gmap.
From S2P Require Import Prelude CTime CBytes CStr OpenFlow WcEvent WcQueue PcapTrack TimerEvent Msg MsgSpec Context Harness.
From S2P Require Import OfFrame WcRefine ModuleRunSpec TrafficGen TrafficKernel TrafficSpec Cbench TestModule ConfigSpec MeasureModule.
From S2P Require Import ProbeSpec MeasureSpec ModFlowSpec StatsModule StatsSpec InteractModule.
Open Scope Z_scope.

(** No answer was counted; [k] queries were sent. *)
Record uncounted (m : imod) (k : Z) : Prop := {
  un_xid : im_trans_id m = k;
  un_count : im_stats_count m = 0;
  un_rcv : ∀ i, se_rcv (default stats_entry0 (im_counter m !! i)) = tv0;
  un_pkts : ∀ i, k ≤ i → se_pkts (default stats_entry0 (im_counter m !! i)) = 0;
}.

Lemma uncounted_eq m m' k : im_trans_id m' = im_trans_id m → im_stats_count m' = im_stats_count m →
  im_counter m' = im_counter m → uncounted m k → uncounted m' k.
Proof. intros E1 E2 E3 [H1 H2 H3 H4]. split; rewrite ?E1, ?E2, ?E3; done. Qed.

Lemma interact_init_uncounted b b' m : interact_init b imod0 = Ok (b', m) → uncounted m 0.
Proof.
  unfold interact_init. intros ([b1 m1] & H & H1)%bind_Ok. apply bind_Ok in H1 as (i & _ & H1).
  apply bind_Ok in H1 as (j & _ & [= <- <-]). apply (uncounted_eq m1); try done.
  eapply (read_params_inv interact_set_param (λ m, uncounted m 0)); [| |exact H]; [|by split].
  intros n v m0 m' Hm Hs. unfold interact_set_param in Hs.
  repeat case_match; first [discriminate Hs | injection Hs as <-; exact Hm | injection Hs as <-; by apply (uncounted_eq m0)].
Qed.

Section module.
Context {OF : OpenFlow} {L : OFLayout OF} {St : OFStats OF} (inet_addr : cstring → Z).

Lemma interact_start_uncounted sock hwaddr clock m s m1 s1 :
  interact_start inet_addr sock hwaddr clock m s = Ok (m1, s1) → uncounted m 0 → uncounted m1 0.
Proof.
  unfold interact_start. intros H Hm.
  repeat match type of H with
  | (match ?p with (_, _) => _ end) = _ => destruct p
  | (_ ≫= _) = Ok _ => apply bind_Ok in H as (? & _ & H)
  end.
  injection H as <- _. by apply (uncounted_eq m).
Qed.

(** The flows are installed whatever the number. *)
Lemma clear_flags fl idle prio flags port : flow_ok fl →
  wr16be (cells (flow_mod_msg 80 fl OFPFC_ADD idle prio 0 flags (output_action port))) ofp_flow_mod_flags 0
  = Ok (cells (flow_mod_msg 80 fl OFPFC_ADD idle prio 0 0 (output_action port))).
Proof.
  intros Hok. pose proof (fo_src _ Hok) as Hs. pose proof (fo_dst _ Hok) as Hd.
  destruct fl as [mask p src dst vlan ty nsrc ndst pr ts td]. cbn in Hs, Hd. six src Hs. six dst Hd. of_layout. reflexivity.
Qed.

Lemma interact_install_ok n addr table mac in_port out_port s :
  zlen mac = 6 → is_u32 (interact_mask table) → (∀ t, is_u32 (inet_addr t)) → is_u32 addr → fluid_control (ctx s) ≠ 0 →
  ∃ addr' s', interact_install inet_addr n addr table mac in_port out_port s = Ok (addr', s') ∧ is_u32 addr' ∧ same_run s s'.
Proof.
  intros Hmac Hmask Hin. revert addr s. induction n as [|n IH]; intros addr s Ha Hc; [by exists addr, s|].
  cbn [interact_install]. set (fl := interact_flow inet_addr table mac in_port addr).
  assert (flow_ok fl) as Hok.
  { split; cbn; try done; try apply bswap16_range; try apply Hin. unfold zlen in Hmac. lia. }
  rewrite (bind_val _ _ _ (make_ofp_flow_add_spec fl out_port 1 1200 Hok)). cbv beta iota.
  rewrite (bind_val _ _ _ (clear_flags fl _ _ _ _ Hok)). cbv beta.
  pose proof (proj1 (send_80 fl 1200 1000 0 out_port s Hok Hc)) as Hs. rewrite (bind_val _ _ _ Hs). cbv beta iota.
  set (s1 := s <| control_out := _ |>) in *.
  destruct (IH (addr_plus addr 1) s1 (bswap32_range _) Hc) as (a' & s' & Hrun & Ha' & Hsame).
  exists a', s'. split; [exact Hrun|]. split; [done|]. by eapply same_run_trans; [eapply send_same_run|].
Qed.

Lemma log_runs t text s : ∃ s', oflops_log t GENERIC_MSG text s = Ok s' ∧ same_run s s'.
Proof. unfold oflops_log. destruct (logger s); by eexists. Qed.

(** start returns. *)
Lemma interact_start_runs sock hwaddr clock m s data x1 x2 x3 db :
  load_mac OFLOPS_DATA1 sock hwaddr (im_data_mac m) s = Ok data → rd_bytes data 0 6 = Ok db →
  get_channel (ctx s) OFLOPS_DATA1 = Ok x1 → get_channel (ctx s) OFLOPS_DATA2 = Ok x2 →
  get_channel (ctx s) OFLOPS_DATA3 = Ok x3 → dev x1 ≠ None → fluid_control (ctx s) ≠ 0 → timers_ready 4 s →
  (∀ t, is_u32 (inet_addr t)) → is_u32 (interact_mask (im_table m)) →
  ∃ r, interact_start inet_addr sock hwaddr clock m s = Ok r.
Proof.
  intros Hd Hb H1 H2 H3 Hdev Hc Ht Hin Hmask. unfold interact_start. rewrite (bind_val _ _ _ Hd).
  assert (show_dev AggrStats OFLOPS_DATA1 s = Ok ()) as E.
  { unfold show_dev. rewrite (bind_val _ _ _ H1). destruct (dev x1); [done|by destruct Hdev]. }
  rewrite (bind_val _ _ _ E). destruct (log_runs (clock 0%nat) (str "Intializing module openflow_flow_dump_test") s) as (s2 & E2 & R2).
  rewrite (bind_val _ _ _ E2). destruct (requests_complete 0) as ((del & Hdel & Hz & _) & _); [done|].
  rewrite (bind_val _ _ _ Hdel), <-Hz. pose proof (send_of_bytes del s2 ltac:(by rewrite (proj1 R2)) ltac:(lia)) as E3.
  rewrite (bind_val _ _ _ E3). cbv beta iota. set (s3 := s2 <| control_out := _ |>) in *.
  assert (same_run s s3) as R3 by (eapply same_run_trans; [exact R2|done]). rewrite (bind_val _ _ _ Hb). cbv beta.
  rewrite !(proj1 R3), (bind_val _ _ _ H1), (bind_val _ _ _ H3). cbv beta.
  pose proof (rd_bytes_len _ _ _ _ Hb) as Hdb.
  destruct (interact_install_ok (Z.to_nat (im_flows m)) (inet_addr (im_network m)) (im_table m) db (of_port x1) (of_port x3) s3)
    as (a & s4 & E4 & Ha & R4); [done..|by rewrite (proj1 R3)|].
  rewrite (bind_val _ _ _ E4). cbv beta iota. assert (same_run s s4) as R by (by eapply same_run_trans).
  rewrite (proj1 R), (bind_val _ _ _ H2). cbv beta.
  destruct (interact_install_ok (Z.to_nat (total_flows - im_flows m)) a (im_table m) db (of_port x2) (of_port x3) s4)
    as (a' & s5 & E5 & _ & R5); [done..|by rewrite (proj1 R)|].
  rewrite (bind_val _ _ _ E5). cbv beta iota.
  assert (timers_ready 4 s5) as T by exact (same_run_ready 4 s s5 (same_run_trans _ _ _ R R5) Ht).
  set (qd := add_time (clock 2%nat) _ _).
  destruct (ready_schedule 4 (add_time (clock 1%nat) 120 0) BYESTR s5 ltac:(lia) T) as (s6 & E6 & T6 & _).
  rewrite (bind_val _ _ _ E6). destruct (ready_schedule 3 qd GETSTAT s6 ltac:(lia) T6) as (s7 & E7 & T7 & _).
  rewrite (bind_val _ _ _ E7). destruct (ready_schedule 2 (add_time (clock 3%nat) 20 0) SND_ACT s7 ltac:(lia) T7) as (s8 & E8 & T8 & _).
  rewrite (bind_val _ _ _ E8). destruct (ready_schedule 1 (add_time (clock 4%nat) 1 0) SNMPGET s8 ltac:(lia) T8) as (s9 & E9 & _).
  rewrite (bind_val _ _ _ E9). by eexists.
Qed.

(** A query and its answer, whatever the harness holds. *)
Fixpoint interact_rounds (rs : list round) (m : imod) : res (list (list Z) * imod) :=
  match rs with
  | [] => mret ([], m)
  | r :: rs =>
    '(m, s) ← interact_handle_timer_event inet_addr (rd_junk r) (rd_clock r 0%nat) (rd_nf r 0%nat) (rd_timer r) m
                (rd_harness r);
    '(m, _) ← interact_of_event_other (rd_clock' r 0%nat) (rd_answer r) m (rd_harness' r);
    '(qs, m) ← interact_rounds rs m;
    mret (drop (length (control_out (rd_harness r))) (control_out s) ++ qs, m)
  end.

(** The round number [k]: the switch answers with the statistics it was asked for. *)
Record interact_round_ok (k : Z) (r : round) : Prop := {
  io_timer : te_arg (rd_timer r) = GETSTAT;
  io_junk : k = 0 → ∃ t, c_text (rd_junk r) = Ok t;
  io_control : fluid_control (ctx (rd_harness r)) ≠ 0;
  io_timers : timers_ready 1 (rd_harness r);
  io_answer : final_answer AggrStats k (rd_answer r);
}.

(** A complete request with this identifier. *)
Definition request (k : Z) (q : list Z) : Prop := zlen q = 56 ∧ of_message q ∧ be32_at q 4 = k.

Lemma interact_query_run junk snd clock m s k :
  uncounted m k → 0 ≤ k < interact_size → (k = 0 → ∃ t, c_text junk = Ok t) → fluid_control (ctx s) ≠ 0 → timers_ready 1 s →
  ∃ m' s' q, interact_query junk snd clock m s = Ok (m', s') ∧ control_out s' = control_out s ++ [q] ∧ request k q ∧
    im_trans_id m' = k + 1 ∧ im_stats_count m' = 0 ∧ im_counter m' = <[k := {| se_snd := snd; se_rcv := tv0; se_pkts := 0 |}]> (im_counter m).
Proof.
  intros [Hx Hc Hr Hp] Hk Hj Hf Ht. unfold interact_query. rewrite Hx.
  assert (∃ u, (if k =? 0 then _ ← c_text junk; mret () else mret ()) = Ok u) as [u Eu].
  { destruct (k =? 0) eqn:E; [|by eexists]. destruct (Hj ltac:(lia)) as [t ->]. by eexists. }
  rewrite (bind_val _ _ _ Eu), (bind_val _ _ _ (counter_get_ok _ _ _ Hk)), (bind_val _ _ _ (counter_put_ok _ _ _ _ Hk)).
  cbv beta. rewrite Hp by lia. assert (interact_size = 120000) as Es by reflexivity.
  destruct (requests_complete k) as (_ & _ & q & Hq & Hz & Hof & Hid); [unfold is_u32; lia|].
  rewrite (bind_val _ _ _ Hq). cbv beta iota. rewrite <-Hz.
  rewrite (bind_val _ _ _ (send_of_bytes q s Hf ltac:(lia))). cbv beta iota. set (s1 := s <| control_out := _ |>).
  destruct (ready_schedule 1 (add_time clock (im_query_delay m `quot` SEC_TO_USEC) (Z.rem (im_query_delay m) SEC_TO_USEC))
    GETSTAT s1) as (s2 & Hs2 & _); [lia|by eapply same_run_ready; [|exact Ht]|].
  rewrite (bind_val _ _ _ Hs2). exists (m <| im_counter := <[k := {| se_snd := snd; se_rcv := tv0; se_pkts := 0 |}]> (im_counter m) |>
    <| im_trans_id := k + 1 |>), s2, q.
  split; [done|]. apply schedule_quiet in Hs2 as [_ ->]. by split_and!.
Qed.

(** An aggregate is counted as a message and nothing else. *)
Lemma interact_answer_run now msg m s k :
  im_trans_id m = k + 1 → im_stats_count m = 0 → (∀ i, se_rcv (default stats_entry0 (im_counter m !! i)) = tv0) →
  (∀ i, k ≤ i → se_pkts (default stats_entry0 (im_counter m !! i)) = 0) →
  0 ≤ k < interact_size → final_answer AggrStats k msg →
  ∃ m', interact_of_event_other now msg m s = Ok (m', s) ∧ uncounted m' (k + 1).
Proof.
  intros Hx Hc Hr Hp Hk [Ht Hi Hy _]. unfold interact_of_event_other. rewrite (bind_val _ _ _ Ht). cbv beta.
  rewrite Z.eqb_refl. unfold interact_answer. rewrite (bind_val _ _ _ Hi). cbv beta.
  rewrite (bind_val _ _ _ (counter_get_ok _ _ _ Hk)). cbv beta. rewrite Hp by lia.
  rewrite (bind_val _ _ _ (chk_int_ok (0 + 1) ltac:(done))), (bind_val _ _ _ (counter_put_ok _ _ _ _ Hk)). cbv beta zeta.
  rewrite (bind_val _ _ _ Hy). cbv beta. assert (stats_type AggrStats =? OFPST_FLOW = false) as ->.
  { cbn. apply Z.eqb_neq. pose proof of_stats_distinct as Hd. apply NoDup_cons in Hd as [Hd _]. intros E. apply Hd. rewrite E. by left. }
  eexists. split; [reflexivity|]. split; try done; cbn [assign im_counter]; intros i.
  - destruct (decide (i = k)) as [->|]; [rewrite lookup_insert_eq; apply Hr|rewrite lookup_insert_ne by done; apply Hr].
  - intros Hik. rewrite lookup_insert_ne by lia. apply Hp. lia.
Qed.

Lemma interact_rounds_run rs m k :
  uncounted m k → 0 ≤ k → k + zlen rs ≤ interact_size → (∀ j r, zget rs j = Some r → interact_round_ok (k + j) r) →
  ∃ qs m', interact_rounds rs m = Ok (qs, m') ∧ zlen qs = zlen rs ∧ (∀ j q, zget qs j = Some q → request (k + j) q) ∧
    uncounted m' (k + zlen rs).
Proof.
  revert m k. induction rs as [|r rs IH]; intros m k Hm Hk Hz Hr.
  { exists [], m. rewrite Z.add_0_r. split_and!; [done..| |done]. by intros []. }
  rewrite zlen_cons in *. pose proof (zlen_nonneg rs). cbn [interact_rounds].
  destruct (Hr 0 r eq_refl) as [Ht Hj Hf Hq Ha]. rewrite Z.add_0_r in *. unfold interact_handle_timer_event. rewrite Ht, Z.eqb_refl.
  destruct (interact_query_run (rd_junk r) (sched_time (rd_timer r)) (rd_clock r 0%nat) m (rd_harness r) k Hm)
    as (m1 & s1 & q & Hrun & Hout & Hreq & E1 & E2 & E3); [lia|done..|].
  rewrite (bind_val _ _ _ Hrun). cbv beta iota. destruct Hm as [_ _ Hrcv Hp].
  destruct (interact_answer_run (rd_clock' r 0%nat) (rd_answer r) m1 (rd_harness' r) k E1 E2) as (m2 & Hans & Hm2); [| |lia|done|].
  { intros i. rewrite E3. destruct (decide (i = k)) as [->|]; [by rewrite lookup_insert_eq|]. by rewrite lookup_insert_ne. }
  { intros i Hi. rewrite E3. destruct (decide (i = k)) as [->|]; [by rewrite lookup_insert_eq|]. rewrite lookup_insert_ne by done. auto. }
  rewrite (bind_val _ _ _ Hans). cbv beta iota.
  destruct (IH m2 (k + 1)) as (qs & m3 & Hrec & Hz3 & Hq3 & Hm3); [done|lia|lia| |].
  { intros j r' Hj'. replace (k + 1 + j) with (k + (1 + j)) by lia. apply Hr. pose proof (zget_Some_bounds _ _ _ Hj').
    rewrite zget_nonneg in Hj' |- * by lia. by replace (Z.to_nat (1 + j)) with (S (Z.to_nat j)) by lia. }
  rewrite (bind_val _ _ _ Hrec). rewrite Hout, drop_app_length. exists ([q] ++ qs), m3. split; [done|]. cbn [app].
  split; [rewrite zlen_cons; lia|]. split; [|by replace (k + (1 + zlen rs)) with (k + 1 + zlen rs) by lia].
  intros j q' Hq'. pose proof (zget_Some_bounds _ _ _ Hq') as Hb. destruct (decide (j = 0)) as [->|].
  - injection Hq' as <-. by rewrite Z.add_0_r.
  - replace (k + j) with (k + 1 + (j - 1)) by lia. apply Hq3. rewrite zget_nonneg in Hq' |- * by lia.
    replace (Z.to_nat j) with (S (Z.to_nat (j - 1))) in Hq' by lia. done.
Qed.
End module.

Section report.
Context {F D : Type} {Fl : Floating F} {Db : Floating D}.
Context (gsl_sort : list D → list D) (gsl_mean gsl_variance gsl_median : list D → D).
Context (to_uint : D → Z) (fmt4 : F → cstring).

Lemma answer_lines_none line size c count n i now data s : 0 ≤ i → i + Z.of_nat n ≤ size →
  (∀ j, se_rcv (default stats_entry0 (c !! j)) = tv0) →
  answer_lines (D := D) line size c count n i now data 0 s = Ok (data, 0, s).
Proof.
  intros Hi Hb Hr. revert i Hi Hb. induction n as [|n IH]; intros i Hi Hb; [done|]. cbn [answer_lines].
  rewrite (bind_val _ _ _ (counter_get_ok size c i ltac:(lia))). cbv beta. rewrite Hr. cbn. apply IH; lia.
Qed.

Lemma interact_destroy_uncounted now m s k ls : uncounted m k → 0 ≤ k ≤ interact_size → logger s = Some ls →
  interact_destroy gsl_sort gsl_mean gsl_variance gsl_median to_uint fmt4 now m s
  = Ok (s <| logger := Some (ls ++ [generic_line now (str "stats_stats:fail")]) |>).
Proof.
  intros [Hx Hc Hr _] Hk Hl. unfold interact_destroy.
  rewrite (bind_val _ _ _ (answer_lines_none _ interact_size (im_counter m) _ (Z.to_nat (im_trans_id m)) 0 now _ s
    ltac:(lia) ltac:(lia) Hr)). cbv beta iota. cbn [Z.gtb Z.compare]. by apply log_generic.
Qed.

Section theorem.
Context {OF : OpenFlow} {L : OFLayout OF} {St : OFStats OF} (inet_addr : cstring → Z).

(** C13. The queries of the interaction test measure nothing.  The module asks
    for aggregate statistics and waits for statistics of single flows: from the
    configuration string over start and any number of queries, each of them a
    complete request with the next identifier that the switch answers with the
    aggregate it was asked for, no answer is counted, and the log gets the line that
    the statistics failed. *)
Theorem interact_answers_ignored b b' m sock hwaddr clock s m1 s1 rs :
  interact_init b imod0 = Ok (b', m) → interact_start inet_addr sock hwaddr clock m s = Ok (m1, s1) →
  zlen rs ≤ interact_size → (∀ k r, zget rs k = Some r → interact_round_ok k r) →
  ∃ qs m2, interact_rounds inet_addr rs m1 = Ok (qs, m2) ∧ zlen qs = zlen rs ∧
    (∀ k q, zget qs k = Some q → request k q) ∧ im_stats_count m2 = 0 ∧
    ∀ now s2 ls, logger s2 = Some ls →
      interact_destroy gsl_sort gsl_mean gsl_variance gsl_median to_uint fmt4 now m2 s2
      = Ok (s2 <| logger := Some (ls ++ [generic_line now (str "stats_stats:fail")]) |>).
Proof.
  intros Hinit Hstart Hz Hr. pose proof (interact_start_uncounted _ _ _ _ _ _ _ _ Hstart (interact_init_uncounted _ _ _ Hinit)) as Hm.
  destruct (interact_rounds_run inet_addr rs m1 0 Hm) as (qs & m2 & Hrun & Hq & Hk & Hm2); [lia|lia|done|].
  exists qs, m2. split_and!; [done..|by apply Hm2|]. intros now s2 ls Hl. pose proof (zlen_nonneg rs).
  eapply interact_destroy_uncounted; [exact Hm2|lia|done].
Qed.
End theorem.
End report.

(** ** An example: two queries *)

Definition interact_demo_config : mem := config_buffer 0 [(str "flows", str "1")].
Definition interact_demo : mem * imod :=
  Eval vm_compute in match interact_init interact_demo_config imod0 with Ok r => r | Fault _ => ([], imod0) end.

(** The table of 1024 flows is installed. *)
Lemma interact_demo_starts :
  ∃ r, interact_start (OF := of10) probe_inet 3 mod_mac mod_clock interact_demo.2 mod_harness = Ok r.
Proof.
  eapply interact_start_runs; try reflexivity; [done|done| |exact probe_inet_range|vm_compute; split; congruence].
  exists demo_queue. destruct (wc_queue_init_spec 10 (wcg mod_harness)) as (pq & Hpq & Hwf & _); [lia|done|].
  injection Hpq as <-. split_and!; [done|exact Hwf|done..].
Qed.

Definition interact_demo_round (k : Z) : round :=
  {| rd_timer := {| sched_time := mod_clock 0; te_arg := GETSTAT; timer_id := 1 |}; rd_junk := cells [0];
     rd_clock := mod_clock; rd_nf := mod_clock; rd_harness := mod_harness;
     rd_answer := cells ([1; 17; 0; 12] ++ be32 k ++ be16 2 ++ [0; 0]);
     rd_clock' := mod_clock; rd_nf' := tv0; rd_harness' := mod_harness |}.

Lemma interact_demo_round_ok k : 0 ≤ k < 2 → interact_round_ok (OF := of10) k (interact_demo_round k).
Proof.
  intros Hk. assert (k = 0 ∨ k = 1) as Hk2 by lia. split; [done| |done| |].
  - intros _. by eexists.
  - destruct mod_harness_ready as (q & ? & ? & ? & ?). exists q. split_and!; try done; lia.
  - destruct Hk2 as [-> | ->]; by split.
Qed.

Lemma interact_answers_ignored_witness : ∃ m1 s1 qs m2,
  interact_start (OF := of10) probe_inet 3 mod_mac mod_clock interact_demo.2 mod_harness = Ok (m1, s1) ∧
  interact_rounds (OF := of10) probe_inet [interact_demo_round 0; interact_demo_round 1] m1 = Ok (qs, m2) ∧ zlen qs = 2 ∧
  interact_destroy (Fl := integers) (Db := integers) (λ l, l) (λ l, foldr Z.max 0 l) (λ _, 0) (λ l, foldr Z.min 0 l) (λ z, z)
    dec tv0 m2 mod_harness
    = Ok (mod_harness <| logger := Some [generic_line tv0 (str "stats_stats:fail")] |>).
Proof.
  destruct interact_demo_starts as [[m1 s1] Hstart].
  destruct (interact_answers_ignored (Fl := integers) (Db := integers) (λ l, l) (λ l, foldr Z.max 0 l) (λ _, 0)
    (λ l, foldr Z.min 0 l) (λ z, z) dec (OF := of10) probe_inet interact_demo_config interact_demo.1 interact_demo.2 3 mod_mac
    mod_clock mod_harness m1 s1
    [interact_demo_round 0; interact_demo_round 1]) as (qs & m2 & Hrun & Hz & _ & _ & Hd).
  - vm_compute. reflexivity.
  - exact Hstart.
  - vm_compute. congruence.
  - intros k r Hk. apply zget_Some_bounds in Hk as Hb. change (zlen _) with 2 in Hb. assert (k = 0 ∨ k = 1) as Hk2 by lia.
    destruct Hk2 as [-> | ->]; injection Hk as <-; apply interact_demo_round_ok; lia.
  - exists m1, s1, qs, m2. split; [exact Hstart|]. split; [exact Hrun|]. split; [exact Hz|]. exact (Hd tv0 mod_harness [] eq_refl).
Defined.
